(* ===== verification/_CoqProject ===== *)
-Q . S2P
Prelude.v
PyFloat.v
PyStr.v
HeapQ.v
Events.v
Config.v
Analyzer.v
Arrival.v
Request.v
Memory.v
Trace.v
Engine.v
EngineFacts.v
Scheduler.v
ClusterManager.v
ClusterFacts.v
Placement.v
Auth.v
AuthCli.v
PyVal.v
FleetConfig.v
FleetConnection.v
Fleet.v
FleetFacts.v
Allocation.v
Convergence.v
ConvergenceFacts.v
OtelaCli.v
