(* ===== verification/Prelude.v ===== *)
(** * OpenTela: a verification library for its Python programs

    OpenTela runs language models on volunteered GPUs.  The repository holds a
    peer-to-peer node in Go and, around it, Python programs: a simulator of a
    serving cluster, the service that issues API keys, the manager of a fleet of
    Slurm jobs, benchmarks, and a command line.  This library models the core of
    those programs and proves what makes each of them correct.

    Paths below are relative to src/contrib/.

    ** How the parts interact

    The simulator (serving-simulator/simulator/core).  The cluster manager owns an
    event loop, one serving engine per node and a placement algorithm.  Arrivals
    are events; the handler of an arrival registers the request and schedules a
    placement decision, whose handler asks the placement algorithm for an engine
    and hands the request to it.  An engine admits a request if its memory planner
    has room, prefills requests one at a time, batches the ready ones for decode,
    takes the time of each step from the roofline analysis of the model, and
    returns completion events, which the manager schedules.  The request objects
    are shared between the manager and the engines.  The static planner divides
    machines among models before a simulation; two calculators search for the best
    division of two fixed clusters.

    The key service keeps two tables in a database that its four endpoints reach
    through sessions; its command line signs challenges and sends them.  The fleet
    manager keeps one relay per cluster and one Slurm job per replica, over
    connections that go through ssh or Paramiko.  The convergence benchmark runs a
    coordinator and observers that poll their nodes and report over a framed channel.
    The command line otela keeps a configuration file and shows the network and the
    wallet.

    ** Files

    Shared:
    - [Prelude]: exceptions ([exn]) and fallible values ([res]), the state and
      exception monad [M], dictionaries as association lists in insertion order
      ([dict]), slices, sets and stable sorting, invariants of computations
      ([keeps]) with their hint database, and lemmas on all of these.
    - [PyFloat]: Python numbers.  A [float] is a binary64 value ([FFin m e] is
      m * 2^e, with infinities and NaN) rounded to nearest even; [num] is an [int] or
      a [float] with Python's mixed arithmetic and comparisons.  Signed zeros are
      identified: no modelled code tells them apart.
    - [PyStr], [PyVal]: methods of ASCII strings, and operations on values of any type.
    - [HeapQ]: the module heapq, sift by sift, generic in the order.

    The simulator:
    - [Events]: core/events.py.  Record [EventLoop], operations [schedule_event], [step],
      [run].  The class [LoopClient] states what handlers must promise.
    - [Request], [Config], [Analyzer], [Memory], [Trace], [Arrival], [Placement]: the
      files of the same name in core (and configs/, roofline.py, model_analyzer.py).
    - [Scheduler]: core/scheduler.py, one definition per class for its place_request,
      and the dispatch of the method call.
    - [Engine]: core/engine.py, methods on the store of request objects, the engine and
      the state behind its callback; [EngineFacts]: the invariant of its queues.
    - [ClusterManager]: core/cluster_manager.py; [ClusterFacts]: the manager's handlers are
      a [LoopClient], and the theorems on whole simulations.
    - [Allocation]: tools/bench_placement/calculator.py and memory_calculator.py.

    Services, the benchmark and the command line:
    - [Auth]: auth/models.py and auth/server.py.  The tables are the record [db].  A
      session ([Session]) has the committed tables, what its transaction sees and what
      it has yet to write; add, delete, query, commit, rollback and close are its
      operations, and an endpoint leaves what its session committed.
    - [AuthCli]: auth/cli.py, against the class [KeyServer] that the service is an
      instance of.
    - [FleetConfig], [FleetConnection], [Fleet], [FleetFacts]: fleet_manager/.  The class
      [Connection] is the interface between the manager and its transports.
    - [Convergence], [ConvergenceFacts]: benchmark_convergence/, the handlers, and a cell
      of the benchmark as a transition system.
    - [OtelaCli]: cli/src/otela_cli, the settings, network and wallet commands.

    ** What the theorems show

    Simulator.  [step] pops an event that none of the pending ones precedes and acts
    as its handler does; the events that [run] pops and handles are in order of time,
    and [run] ends.  An engine's step neither loses nor duplicates a request,
    generates one token for each request of its batch and none for others, and its
    clock never runs backwards.  [add_request] takes the blocks and queues the
    request, or leaves everything but a freshly loaded model as it was.  Block
    accounting is exact.  The placement algorithms choose an engine that none beats,
    and each counts the decisions it makes.  In a whole simulation every generated
    request is completed, rejected, active or still to arrive.  The analysis never
    credits a layer with more than the peak of the hardware, and its operation counts
    are the closed form of a Llama forward pass.  Greedy placements give each machine
    to one model at most.  The allocation search is optimal.

    Services.  A key needs a wallet's signature, a token verifies until revoked and
    never after, a used challenge is not accepted again, and a failing call changes
    nothing; what the command line creates, it verifies and revokes.  Applying a fleet
    file brings Slurm's queues to what an abstract reconciliation prescribes; reading
    squeue back recovers the jobs; a connection leaves no temporary file behind.  The
    messages of the convergence benchmark survive framing, and every result it can
    write aggregates, under every interleaving.  The command line's settings behave as
    a map, and a transfer sends at most the transaction asked for.

    Some theorems record where the code departs from what it says it does: a cluster
    with a node cannot be constructed, so the theorems on simulations take a manager
    whose engines are given ([new_manager]); a challenge can be replayed within a
    window of a minute; decode growth of the KV cache ignores the prompt; the
    risk-aware algorithm never places a request; the reason the roofline algorithm
    gives is that of the engine it looked at last; clearing future events loses the
    order of the queue.

    ** Parameters

    What is not in the repository is an argument of the definitions that use it:
    AutoConfig.from_pretrained, hashes, signatures and base58, random draws, JSON, YAML
    and Jinja, the operations of ssh, scp, Paramiko, Slurm, HTTP and Solana, the file
    system and the clock, x ** 1.5, the rounding of sum and of NumPy's mean over
    floats, the text of a float, and the order in which a Python set is iterated (any
    order satisfying [IterOrder]).  What a theorem relies on of them is a class
    ([Slurm], [ConnectionLaws], ...) or a hypothesis, with a witness that satisfies it.
    Concurrency is a sequence of steps: the theorems quantify over all of them.  Where
    the outside answers, the answer may depend on everything done before.

    ** Fuel

    [EventLoop.run] loops until its queue is empty; [run] takes a number of iterations,
    and [run_terminates] shows that [max_events + 1] suffice.  The arrival processes
    that draw until a time is reached take fuel as well, and what is proved of them
    holds of a result.  The loop of [run_simulation] that schedules load balancing
    takes fuel of its own.  The sifts of heapq and [chunks] get the length of their input.
    Everything else is structural.

    ** Not modelled

    The network profiler, the overhead benchmark, the scripts and the proxy that run
    real clusters, the measurement of real servers, the submission and the report of
    the convergence benchmark, the provisioning of clusters by the command line, and
    the experiment scripts with their reports: they drive live machines or summarise
    files of finished runs.  Drawing (plots and notebooks), printed layout and log
    lines, argument parsing, the GPU query and the local demo are output or I/O with
    no state to reason about.  The node in Go, the reward program in Rust and the
    tools in TypeScript are in other languages. *)

From stdpp Require Export base list strings gmap pretty.
From Stdlib Require Export ZArith Lia.
From Stdlib Require Import Sorted.


(** ** Python exceptions and fallible code *)

(** The exceptions the modelled code raises, with the argument the code gives
    them (a message, or the missing key or attribute). *)
Inductive exn :=
  | ValueError (msg : string)
  | KeyError (key : string)
  | AttributeError (attr : string)
  | TypeError (msg : string)
  | IndexError
  | ZeroDivisionError
  | OverflowError
  | AssertionError (msg : string)
  | RuntimeError (msg : string)
  | FileNotFoundError (msg : string)
  | TimeoutError
  | HTTPException (status : Z) (detail : string)
  | IntegrityError (msg : string)
  | OtherException (msg : string).

#[export] Instance exn_eq_dec : EqDecision exn.
Proof. solve_decision. Defined.

(** The outcome of a pure Python expression: a value or an exception. *)
Inductive res (A : Type) :=
  | Ok (a : A)
  | Raise (e : exn).
Arguments Ok {A} a.
Arguments Raise {A} e.

#[export] Instance res_ret : MRet res := fun A a => Ok a.
#[export] Instance res_bind : MBind res := fun A B f m =>
  match m with Ok a => f a | Raise e => Raise e end.
#[export] Instance res_fmap : FMap res := fun A B f m =>
  match m with Ok a => Ok (f a) | Raise e => Raise e end.

Definition of_option {A} (e : exn) (o : option A) : res A :=
  match o with Some a => Ok a | None => Raise e end.

Definition res_ok {A} (r : res A) : bool :=
  match r with Ok _ => true | Raise _ => false end.

(** Code that mutates an object: the object as it is when the code returns or
    raises, and the outcome.  A raise keeps the mutations made before it. *)
Definition M (S A : Type) : Type := S → S * res A.

#[export] Instance M_ret {S} : MRet (M S) := fun A a s => (s, Ok a).
#[export] Instance M_bind {S} : MBind (M S) := fun A B f m s =>
  match m s with
  | (s', Ok a) => f a s'
  | (s', Raise e) => (s', Raise e)
  end.

Definition raise {S A} (e : exn) : M S A := fun s => (s, Raise e).
Definition get {S} : M S S := fun s => (s, Ok s).
Definition put {S} (s : S) : M S unit := fun _ => (s, Ok tt).
Definition modify {S} (f : S → S) : M S unit := fun s => (f s, Ok tt).
Definition gets {S A} (f : S → A) : M S A := fun s => (s, Ok (f s)).
Definition lift {S A} (r : res A) : M S A := fun s => (s, r).
(** [assert cond, msg] *)
Definition py_assert {S} (b : bool) (msg : string) : M S unit := fun s =>
  if b then (s, Ok tt) else (s, Raise (AssertionError msg)).
(** [try: m except Exception: h] *)
Definition try_except {S A} (m : M S A) (h : exn → M S A) : M S A := fun s =>
  match m s with
  | (s', Ok a) => (s', Ok a)
  | (s', Raise e) => h e s'
  end.
(** [try: m finally: f] *)
Definition try_finally {S A} (m : M S A) (f : M S unit) : M S A := fun s =>
  match m s with
  | (s', r) => match f s' with (s'', Ok _) => (s'', r) | (s'', Raise e) => (s'', Raise e) end
  end.
(** [for x in l: f(x)] *)
Fixpoint for_each {S A} (f : A → M S unit) (l : list A) : M S unit :=
  match l with
  | [] => mret tt
  | x :: l' => f x ;; for_each f l'
  end.

(** A loop that threads a value. *)
Fixpoint foldM {S A B} (f : B → A → M S B) (b : B) (l : list A) : M S B :=
  match l with
  | [] => mret b
  | x :: l' => b' ← f b x; foldM f b' l'
  end.

(** The pure counterpart, for list comprehensions whose body may raise. *)
Fixpoint mapR {A B} (f : A → res B) (l : list A) : res (list B) :=
  match l with
  | [] => Ok []
  | x :: l' => y ← f x; ys ← mapR f l'; Ok (y :: ys)
  end.
Fixpoint foldR {A B} (f : B → A → res B) (b : B) (l : list A) : res B :=
  match l with
  | [] => Ok b
  | x :: l' => b' ← f b x; foldR f b' l'
  end.

(** [not l] for a list *)
Definition is_nil {A} (l : list A) : bool := match l with [] => true | _ => false end.

(** [l[:n]]; a negative [n] cuts from the end. *)
Definition slice_to {A} (n : Z) (l : list A) : list A :=
  if (0 <=? n)%Z then take (Z.to_nat n) l else take (length l - Z.to_nat (- n)) l.

(** A Python set of hashable objects is a list without duplicates; [iter]
    parameters of the components give the order in which Python walks one. *)
Definition set_add {A} `{EqDecision A} (x : A) (l : list A) : list A :=
  if bool_decide (x ∈ l) then l else l ++ [x].
Definition set_remove {A} `{EqDecision A} (x : A) (l : list A) : list A := filter (fun y => y ≠ x) l.

Class IterOrder {A} (iter : list A → list A) : Prop := iter_perm : ∀ l, iter l ≡ₚ l.
#[export] Instance iter_id A : IterOrder (fun l : list A => l).
Proof. by intros l. Qed.

(** ** Python dicts: association lists in insertion order *)

Abbreviation dict V := (list (string * V)).

Section Dict.
Context {V : Type}.
Implicit Types (d : dict V) (k : string) (v : V).

(** [d.get(k)] *)
Fixpoint dict_get d k : option V :=
  match d with
  | [] => None
  | (k', v) :: d' => if bool_decide (k = k') then Some v else dict_get d' k
  end.
(** [d[k] = v]: an existing key keeps its position. *)
Fixpoint dict_set d k v : dict V :=
  match d with
  | [] => [(k, v)]
  | (k', v') :: d' =>
      if bool_decide (k = k') then (k', v) :: d' else (k', v') :: dict_set d' k v
  end.
(** [del d[k]] (of a key that is there) and [d.pop(k, _)] *)
Fixpoint dict_del d k : dict V :=
  match d with
  | [] => []
  | (k', v') :: d' => if bool_decide (k = k') then d' else (k', v') :: dict_del d' k
  end.
Definition dict_keys d : list string := map fst d.
Definition dict_values d : list V := map snd d.
Definition dict_has d k : bool := bool_decide (is_Some (dict_get d k)).
Definition dict_get_default d k v : V := default v (dict_get d k).
(** [d[k]] *)
Definition dict_index d k : res V := of_option (KeyError k) (dict_get d k).
End Dict.

(** A counter update: [d[k] = d.get(k, 0) + n]. *)
Definition dict_incr (d : dict Z) (k : string) (n : Z) : dict Z :=
  dict_set d k (dict_get_default d k 0%Z + n)%Z.

(** The sum of a dict of integers. *)
Definition dict_sum (d : dict Z) : Z := foldr Z.add 0%Z (dict_values d).

(** ** Tactics and hints of the library *)

Create HintDb tela.

(** Split the boolean tests and the matches of a hypothesis or the goal. *)
Ltac case_ifs :=
  repeat match goal with
  | |- context [if ?b then _ else _] => let E := fresh "E" in destruct b eqn:E
  | H : context [if ?b then _ else _] |- _ => let E := fresh "E" in destruct b eqn:E
  end.

(** Invert a hypothesis that a monadic computation returned. *)
Ltac inv_res :=
  repeat match goal with
  | H : context [@mbind res _ _ _ _ _] |- _ => unfold mbind, res_bind in H
  | H : match ?m with Ok _ => _ | Raise _ => _ end = Ok _ |- _ =>
      let E := fresh "E" in destruct m eqn:E; [|discriminate H]
  | H : Ok _ = Ok _ |- _ => injection H as H
  | H : Raise _ = Ok _ |- _ => discriminate H
  | H : Ok _ = Raise _ |- _ => discriminate H
  end; subst.

Ltac bool_decide_cases :=
  repeat match goal with
  | |- context [bool_decide ?P] => destruct (bool_decide_reflect P)
  | H : context [bool_decide ?P] |- _ => destruct (bool_decide_reflect P)
  end.

(** ** Lemmas on dicts *)

Section DictLemmas.
Context {V : Type}.
Implicit Types (d : dict V) (k : string) (v : V).

Lemma dict_get_set_eq d k v : dict_get (dict_set d k v) k = Some v.
Proof.
  induction d as [|[k' v'] d IH]; simpl; [by rewrite bool_decide_eq_true_2|].
  destruct (bool_decide_reflect (k = k')); simpl.
  - by rewrite bool_decide_eq_true_2.
  - by rewrite bool_decide_eq_false_2.
Qed.

Lemma dict_get_set_ne d k k' v : k ≠ k' → dict_get (dict_set d k v) k' = dict_get d k'.
Proof.
  intros Hne. induction d as [|[k1 v1] d IH]; simpl.
  { by rewrite bool_decide_eq_false_2. }
  destruct (bool_decide_reflect (k = k1)) as [->|]; simpl.
  - by rewrite bool_decide_eq_false_2.
  - by rewrite IH.
Qed.

Lemma dict_get_None d k : dict_get d k = None ↔ k ∉ dict_keys d.
Proof.
  induction d as [|[k1 v1] d IH]; simpl; [set_solver|].
  destruct (bool_decide_reflect (k = k1)); set_solver.
Qed.

Lemma dict_get_Some_in d k v : dict_get d k = Some v → (k, v) ∈ d.
Proof.
  induction d as [|[k1 v1] d IH]; simpl; [done|].
  destruct (bool_decide_reflect (k = k1)); intros; simplify_eq; set_solver.
Qed.

Lemma dict_set_keys d k v :
  dict_keys (dict_set d k v) = if bool_decide (k ∈ dict_keys d) then dict_keys d else dict_keys d ++ [k].
Proof.
  induction d as [|[k1 v1] d IH].
  { rewrite bool_decide_eq_false_2; [done|]. apply not_elem_of_nil. }
  cbn [dict_set dict_keys map fst] in *.
  destruct (bool_decide_reflect (k = k1)) as [->|Hne]; cbn [map fst].
  { rewrite bool_decide_eq_true_2; [done|left]. }
  unfold dict_keys in IH. rewrite IH. bool_decide_cases; set_solver.
Qed.

Lemma dict_set_NoDup d k v : NoDup (dict_keys d) → NoDup (dict_keys (dict_set d k v)).
Proof.
  intros Hd. rewrite dict_set_keys. case_bool_decide; [done|].
  apply NoDup_app. split_and!; [done|set_solver|apply NoDup_singleton].
Qed.

Lemma dict_set_length_new d k v :
  k ∉ dict_keys d → length (dict_set d k v) = S (length d).
Proof.
  induction d as [|[k1 v1] d IH]; simpl; [done|]. intros Hn.
  rewrite bool_decide_eq_false_2 by set_solver. simpl. rewrite IH; set_solver.
Qed.

Lemma dict_del_keys_subset d k : sublist (dict_keys (dict_del d k)) (dict_keys d).
Proof.
  induction d as [|[k1 v1] d IH]; simpl; [done|].
  destruct (bool_decide_reflect (k = k1)); simpl.
  - by apply sublist_cons.
  - by apply sublist_skip.
Qed.

Lemma dict_del_NoDup d k : NoDup (dict_keys d) → NoDup (dict_keys (dict_del d k)).
Proof. intros Hd. eapply sublist_NoDup; [done|apply dict_del_keys_subset]. Qed.

Lemma dict_del_length d k : k ∈ dict_keys d → length d = S (length (dict_del d k)).
Proof.
  induction d as [|[k1 v1] d IH]; simpl; [set_solver|]. intros Hk.
  destruct (bool_decide_reflect (k = k1)); simpl; [done|]. f_equal. apply IH. set_solver.
Qed.

Lemma dict_get_del_eq d k : NoDup (dict_keys d) → dict_get (dict_del d k) k = None.
Proof.
  induction d as [|[k1 v1] d IH]; simpl; [done|]. rewrite NoDup_cons. intros [Hn Hd].
  destruct (bool_decide_reflect (k = k1)) as [->|]; simpl.
  - by apply dict_get_None.
  - rewrite bool_decide_eq_false_2 by done. auto.
Qed.

Lemma dict_del_fresh d k : dict_get d k = None → dict_del d k = d.
Proof. induction d as [|[k1 v1] d IH]; simpl; [done|]. case_bool_decide; [done|]. intros. by rewrite IH. Qed.

Lemma dict_del_set_fresh d k v : dict_get d k = None → dict_del (dict_set d k v) k = d.
Proof.
  induction d as [|[k1 v1] d IH]; simpl; [by rewrite bool_decide_eq_true_2|].
  case_bool_decide; [done|]. intros. simpl. rewrite bool_decide_eq_false_2 by done. by rewrite IH.
Qed.

Lemma dict_del_not_in d k : NoDup (dict_keys d) → k ∉ dict_keys (dict_del d k).
Proof. intros. by apply dict_get_None, dict_get_del_eq. Qed.

End DictLemmas.

#[export] Hint Resolve dict_set_NoDup dict_del_NoDup dict_del_not_in : tela.

Lemma dict_sum_set_new (d : dict Z) k v :
  dict_get d k = None → dict_sum (dict_set d k v) = (dict_sum d + v)%Z.
Proof.
  unfold dict_sum, dict_values.
  induction d as [|[k1 v1] d IH]; simpl; [lia|].
  case_bool_decide; [done|]. intros H1. simpl. rewrite (IH H1). lia.
Qed.

Lemma dict_sum_set_old (d : dict Z) k v v0 :
  dict_get d k = Some v0 → dict_sum (dict_set d k v) = (dict_sum d - v0 + v)%Z.
Proof.
  unfold dict_sum, dict_values.
  induction d as [|[k1 v1] d IH]; simpl; [done|].
  case_bool_decide; intros H1; simpl; simplify_eq; [lia|]. rewrite (IH H1). lia.
Qed.

Lemma dict_sum_del (d : dict Z) k :
  dict_sum (dict_del d k) = (dict_sum d - dict_get_default d k 0)%Z.
Proof.
  unfold dict_sum, dict_values, dict_get_default.
  induction d as [|[k1 v1] d IH]; simpl; [done|].
  case_bool_decide; simpl; [lia|]. rewrite IH. lia.
Qed.

Lemma dict_sum_incr (d : dict Z) k n : dict_sum (dict_incr d k n) = (dict_sum d + n)%Z.
Proof.
  unfold dict_incr, dict_get_default. destruct (dict_get d k) eqn:E; simpl.
  - rewrite (dict_sum_set_old _ _ _ z); [lia|done].
  - by rewrite dict_sum_set_new.
Qed.

Definition zsum (l : list Z) : Z := foldr Z.add 0%Z l.

Lemma zsum_app l l' : zsum (l ++ l') = (zsum l + zsum l')%Z.
Proof. unfold zsum. induction l; simpl; lia. Qed.

Lemma dict_set_same {V} (d : dict V) k v : dict_get d k = Some v → dict_set d k v = d.
Proof. induction d as [|[k' v'] d IH]; simpl; [done|]. case_bool_decide as E; [by intros [= ->]; subst|]. intros H. by rewrite IH. Qed.

Lemma dict_set_fresh {V} (d : dict V) k v : k ∉ dict_keys d → dict_set d k v = d ++ [(k, v)].
Proof.
  induction d as [|[k' v'] r IH]; intros Hk; [done|]. simpl in *. apply not_elem_of_cons in Hk as [Hne Hk].
  rewrite bool_decide_eq_false_2 by congruence. by rewrite IH.
Qed.

Lemma fold_dict_set {A V} (key : A → string) (val : A → V) (l : list A) (d : dict V) :
  NoDup (map key l) → (∀ x, x ∈ l → key x ∉ dict_keys d) →
  fold_left (fun d x => dict_set d (key x) (val x)) l d = d ++ map (fun x => (key x, val x)) l.
Proof.
  revert d. induction l as [|x l IH]; intros d Hn Hd; simpl; [by rewrite app_nil_r|].
  apply NoDup_cons in Hn as [Hx Hn]. rewrite dict_set_fresh by (apply Hd; left). rewrite IH, <- app_assoc; [done|done|].
  intros y Hy. unfold dict_keys. rewrite map_app. simpl. intros [H|H%list_elem_of_singleton]%elem_of_app.
  - by apply (Hd y); [right|].
  - apply Hx. rewrite <- H. apply list_elem_of_fmap. by exists y.
Qed.

(** ** Lemmas on lists and the error monad *)

(** [a.update(b)] *)
Definition dict_update {V} (a b : dict V) : dict V := fold_left (fun d '(k, v) => dict_set d k v) b a.

Lemma dict_update_get {V} (a b : dict V) k : NoDup (dict_keys b) →
  dict_get (dict_update a b) k = match dict_get b k with Some v => Some v | None => dict_get a k end.
Proof.
  unfold dict_update. revert a. induction b as [|[k' v] b IH]; intros a Hnd; simpl in *; [done|].
  apply NoDup_cons in Hnd as [Hout Hnd]. rewrite IH by done. destruct (bool_decide_reflect (k = k')) as [->|Hne].
  - apply dict_get_None in Hout. by rewrite Hout, dict_get_set_eq.
  - by rewrite dict_get_set_ne.
Qed.

Lemma mapR_length {A B} (f : A → res B) l ys : mapR f l = Ok ys → length ys = length l.
Proof.
  revert ys. induction l as [|x l IH]; simpl; intros ys H; [by inv_res|].
  inv_res. simpl. f_equal. by apply IH.
Qed.

Lemma mapR_ok {A B} (f : A → res B) (g : A → B) l :
  (∀ x, x ∈ l → f x = Ok (g x)) → mapR f l = Ok (map g l).
Proof.
  induction l as [|x l IH]; intros Hf; simpl; [done|].
  rewrite Hf by set_solver. cbn. rewrite IH by set_solver. done.
Qed.

Lemma mapR_map {A B C} (g : A → B) (f : B → res C) l : mapR f (map g l) = mapR (fun x => f (g x)) l.
Proof. induction l as [|x l IH]; [done|]. simpl. by rewrite IH. Qed.

Lemma mapR_ext {A B} (f g : A → res B) l : (∀ x, f x = g x) → mapR f l = mapR g l.
Proof. intros Hf. induction l as [|x l IH]; [done|]. simpl. by rewrite Hf, IH. Qed.

Lemma filter_all {A} (P : A → Prop) `{∀ x, Decision (P x)} l : Forall P l → filter P l = l.
Proof. induction 1; [done|]. rewrite filter_cons_True by done. by f_equal. Qed.

Lemma filter_ext_in {A} (P Q : A → Prop) `{∀ x, Decision (P x), ∀ x, Decision (Q x)} (l : list A) :
  (∀ x, x ∈ l → P x ↔ Q x) → filter P l = filter Q l.
Proof.
  induction l as [|x l IH]; intros Hl; [done|]. rewrite !filter_cons, IH by set_solver.
  pose proof (Hl x ltac:(left)). do 2 case_decide; tauto || done.
Qed.

Lemma filter_none {A} (P : A → Prop) `{∀ x, Decision (P x)} l : Forall (fun x => ¬ P x) l → filter P l = [].
Proof. induction 1; [done|]. by rewrite filter_cons_False. Qed.

Lemma set_remove_all {A} `{EqDecision A} (l sel : list A) : foldr set_remove l sel = filter (fun r => r ∉ sel) l.
Proof.
  induction sel as [|x sel IH]; simpl.
  - symmetry. apply filter_all, Forall_forall. intros. apply not_elem_of_nil.
  - rewrite IH. unfold set_remove. rewrite list_filter_filter. apply list_filter_iff.
    intros y. rewrite not_elem_of_cons. tauto.
Qed.

(** Taking some elements out of a list of distinct elements. *)
Lemma filter_out_app {A} `{EqDecision A} (l sel rest : list A) :
  NoDup l → l ≡ₚ sel ++ rest → filter (fun r => r ∉ sel) l ≡ₚ rest.
Proof.
  intros Hl Hr. rewrite Hr in Hl. apply NoDup_app in Hl as (Hs & Hd & Hrest).
  rewrite Hr, filter_app, (filter_none _ sel), (filter_all _ rest); [done|..]; apply Forall_forall; set_solver.
Qed.

Lemma split_selected {A} `{EqDecision A} (l sel rest : list A) :
  NoDup l → l ≡ₚ sel ++ rest → foldr set_remove l sel ++ sel ≡ₚ l.
Proof. intros Hl Hr. rewrite set_remove_all, (filter_out_app l sel rest) by done. by rewrite Hr, Permutation_app_comm. Qed.

Lemma slice_to_prefix {A} n (l : list A) : ∃ rest, l = slice_to n l ++ rest.
Proof. unfold slice_to. case_match; eexists; symmetry; apply take_drop. Qed.

Lemma slice_to_size {A} n (l : list A) :
  (0 ≤ n)%Z → Z.of_nat (length (slice_to n l)) = Z.min n (Z.of_nat (length l)).
Proof. intros Hn. unfold slice_to. rewrite (proj2 (Z.leb_le 0 n)) by done. rewrite length_take. lia. Qed.

Lemma slice_to_nonempty {A} n (l : list A) : (1 ≤ n)%Z → l ≠ [] → slice_to n l ≠ [].
Proof.
  intros Hn Hl. unfold slice_to. rewrite (proj2 (Z.leb_le 0 n)) by lia.
  destruct l; [done|]. destruct (Z.to_nat n) eqn:E; [lia|done].
Qed.

Lemma filter_partition {A} (P : A → Prop) `{∀ x, Decision (P x)} l :
  l ≡ₚ filter P l ++ filter (fun x => ¬ P x) l.
Proof.
  induction l as [|x l IH]; [done|]. rewrite !filter_cons. destruct (decide (P x)) as [Hx|Hx].
  - rewrite decide_False by tauto. simpl. by constructor.
  - rewrite decide_True by done. rewrite <- Permutation_middle. by constructor.
Qed.

(** [range(from, from + n)] *)
Definition zrange (from n : Z) : list Z := map (fun i => (from + Z.of_nat i)%Z) (seq 0 (Z.to_nat n)).

Lemma elem_of_zrange x from n : x ∈ zrange from n ↔ (from ≤ x < from + n)%Z.
Proof.
  unfold zrange. rewrite list_elem_of_fmap. split.
  - intros (i & -> & Hi%elem_of_seq). lia.
  - intros H. exists (Z.to_nat (x - from)%Z). split; [lia|]. apply elem_of_seq. lia.
Qed.

Lemma zrange_app from n m : (0 ≤ n)%Z → (0 ≤ m)%Z → zrange from (n + m) = zrange from n ++ zrange (from + n) m.
Proof.
  intros Hn Hm. unfold zrange. rewrite Z2Nat.inj_add, seq_app, map_app by done. f_equal.
  pose proof (fmap_add_seq (Z.to_nat n) 0 (Z.to_nat m)) as E. rewrite Nat.add_0_r in E. simpl. rewrite <- E.
  etrans; [apply map_map|]. apply map_ext. intros i. lia.
Qed.

Lemma NoDup_zrange from n : NoDup (zrange from n).
Proof. unfold zrange. apply NoDup_fmap_2; [intros i j; lia|apply NoDup_seq]. Qed.

(** ** [sorted] *)

Fixpoint insert_by {A} (lt : A → A → bool) (x : A) (l : list A) : list A :=
  match l with
  | [] => [x]
  | y :: l' => if lt x y then x :: l else y :: insert_by lt x l'
  end.
Definition sort_by {A} (lt : A → A → bool) (l : list A) : list A := fold_left (fun acc x => insert_by lt x acc) l [].

(** [sorted(l, key=key)] with the order [lt] of keys; [reverse=True] is the
    converse order, since the sort is stable either way. *)
Definition py_sorted {A K} (key : A → res K) (lt : K → K → bool) (l : list A) : res (list A) :=
  ks ← mapR (fun x => k ← key x; Ok (k, x)) l;
  Ok (map snd (sort_by (fun a b => lt (fst a) (fst b)) ks)).

Lemma insert_by_perm {A} (lt : A → A → bool) x l : insert_by lt x l ≡ₚ x :: l.
Proof.
  induction l as [|y l IH]; simpl; [done|]. destruct (lt x y); [done|]. rewrite IH. apply Permutation_swap.
Qed.

Lemma sort_by_perm {A} (lt : A → A → bool) l : sort_by lt l ≡ₚ l.
Proof.
  unfold sort_by. assert (H : ∀ acc, fold_left (fun acc x => insert_by lt x acc) l acc ≡ₚ acc ++ l).
  { induction l as [|x l IH]; intros acc; simpl; [by rewrite app_nil_r|]. rewrite IH, insert_by_perm. simpl.
    apply Permutation_middle. }
  apply H.
Qed.

Lemma py_sorted_perm {A K} (key : A → res K) lt l l' : py_sorted key lt l = Ok l' → l' ≡ₚ l.
Proof.
  unfold py_sorted. destruct (mapR _ l) as [ks|] eqn:E; [|done]. intros [= <-]. rewrite sort_by_perm.
  enough (map snd ks = l) as -> by done. revert ks E. induction l as [|x l IH]; intros ks E; simpl in E; [by injection E as <-|].
  destruct (key x) as [k|]; [|done]. destruct (mapR _ l) as [ks'|]; [|done]. injection E as <-. simpl. f_equal. by apply IH.
Qed.

(** Sorting sorts, when the order is a strict weak one on the elements. *)
Section Sorted.
Context {A : Type} (lt : A → A → bool) (P : A → Prop).
Hypothesis lt_asym : ∀ x y, P x → P y → lt x y = true → lt y x = false.
Hypothesis lt_neg_trans : ∀ x y z, P x → P y → P z → lt y x = false → lt z y = false → lt z x = false.

Lemma insert_by_sorted_on x l : P x → Forall P l →
  StronglySorted (fun a b => lt b a = false) l → StronglySorted (fun a b => lt b a = false) (insert_by lt x l).
Proof.
  intros Hx Hl. induction 1 as [|y l Hs IH Hy]; simpl; [by repeat constructor|]. inversion_clear Hl as [|? ? Hpy Hpl]. destruct (lt x y) eqn:E.
  - constructor; [by constructor|]. constructor; [by apply lt_asym|].
    apply Forall_forall. intros z Hz. rewrite Forall_forall in Hy, Hpl. apply (lt_neg_trans x y z); auto.
  - constructor; [by apply IH|]. rewrite insert_by_perm. by constructor.
Qed.

Lemma sort_by_sorted_on l : Forall P l → StronglySorted (fun a b => lt b a = false) (sort_by lt l).
Proof.
  unfold sort_by. assert (H : ∀ acc, Forall P l → Forall P acc → StronglySorted (fun a b => lt b a = false) acc →
    StronglySorted (fun a b => lt b a = false) (fold_left (fun acc x => insert_by lt x acc) l acc)).
  { induction l as [|x l IH]; intros acc Hl Ha Hacc; simpl; [done|]. inversion_clear Hl as [|? ? Hx Hl']. apply IH; [done| |by apply insert_by_sorted_on].
    rewrite insert_by_perm. by constructor. }
  intros Hl. apply H; [done|constructor|constructor].
Qed.
End Sorted.

Lemma sort_by_sorted {A} (lt : A → A → bool) l : (∀ x y, lt x y = true → lt y x = false) →
  (∀ x y z, lt y x = false → lt z y = false → lt z x = false) → StronglySorted (fun a b => lt b a = false) (sort_by lt l).
Proof.
  intros Ha Hn. apply (sort_by_sorted_on lt (fun _ => True)); [by intros x y _ _; apply Ha|by intros x y z _ _ _; apply Hn|by apply Forall_true].
Qed.

(** The keys of a sorted list are in order. *)
Lemma py_sorted_sorted {A K} (key : A → res K) (lt : K → K → bool) l l' :
  (∀ x y, lt x y = true → lt y x = false) → (∀ x y z, lt y x = false → lt z y = false → lt z x = false) →
  py_sorted key lt l = Ok l' →
  StronglySorted (fun x y => ∀ kx ky, key x = Ok kx → key y = Ok ky → lt ky kx = false) l'.
Proof.
  intros Ha Hn. unfold py_sorted. destruct (mapR _ l) as [ks|] eqn:E; [|done]. intros [= <-].
  assert (Hk : Forall (fun p => key (snd p) = Ok (fst p)) ks).
  { revert ks E. induction l as [|x l IH]; intros ks E; simpl in E; [by injection E as <-|].
    destruct (key x) as [k|] eqn:Ex; [|done]. destruct (mapR _ l) as [ks'|]; [|done]. injection E as <-. constructor; auto. }
  assert (Hs := sort_by_sorted (fun a b : K * A => lt (fst a) (fst b)) ks ltac:(intros ? ?; apply Ha) ltac:(intros ? ? ?; apply Hn)).
  rewrite <- (sort_by_perm (fun a b => lt (fst a) (fst b)) ks) in Hk. induction Hs as [|p ps Hps IH Hp]; simpl; [constructor|].
  inversion_clear Hk as [|? ? Hkp Hkps]. constructor; [by apply IH|]. apply Forall_map.
  rewrite Forall_forall in Hkps, Hp |- *. intros q Hq kx ky Hx Hy. rewrite Hkp in Hx. rewrite (Hkps q Hq) in Hy.
  injection Hx as <-. injection Hy as <-. by apply Hp.
Qed.

(** ** What a computation leaves alone

    [keeps obs m]: whether it returns or raises, [m] does not change what [obs]
    sees of the state. *)

Definition keeps {S O A} (obs : S → O) (m : M S A) : Prop := ∀ s, obs (fst (m s)) = obs s.

Section Keeps.
Context {S O : Type} (obs : S → O).

Lemma keeps_ret {A} (a : A) : keeps obs (mret a).
Proof. by intros s. Qed.

Lemma keeps_raise {A} (e : exn) : keeps obs (raise (A:=A) e).
Proof. by intros s. Qed.

Lemma keeps_lift {A} (r : res A) : keeps obs (lift r).
Proof. by intros s. Qed.

Lemma keeps_gets {A} (f : S → A) : keeps obs (gets f).
Proof. by intros s. Qed.

Lemma keeps_bind {A B} (m : M S A) (f : A → M S B) : keeps obs m → (∀ a, keeps obs (f a)) → keeps obs (m ≫= f).
Proof.
  intros Hm Hf s. unfold mbind, M_bind. pose proof (Hm s) as H1.
  destruct (m s) as [s' [a|e]]; simpl in *; [|done]. by rewrite (Hf a s').
Qed.

Lemma keeps_try {A} (m : M S A) h : keeps obs m → (∀ e, keeps obs (h e)) → keeps obs (try_except m h).
Proof.
  intros Hm Hh s. unfold try_except. pose proof (Hm s) as H1.
  destruct (m s) as [s' [a|e]]; simpl in *; [done|]. by rewrite (Hh e s').
Qed.

Lemma keeps_for_each {A} (f : A → M S unit) l : (∀ x, keeps obs (f x)) → keeps obs (for_each f l).
Proof. intros Hf. induction l as [|x l IH]; simpl; [apply keeps_ret|]. by apply keeps_bind. Qed.

Lemma keeps_foldM {A B} (f : B → A → M S B) b l : (∀ b x, keeps obs (f b x)) → keeps obs (foldM f b l).
Proof. intros Hf. revert b. induction l as [|x l IH]; intros b; simpl; [apply keeps_ret|]. by apply keeps_bind. Qed.
End Keeps.

Create HintDb keeps.
#[export] Hint Resolve keeps_ret keeps_raise keeps_lift keeps_gets keeps_bind keeps_try keeps_for_each keeps_foldM : keeps.

(** The state after a computation that returned. *)
Lemma keeps_ok {S O A} (obs : S → O) (m : M S A) s s' r : keeps obs m → m s = (s', r) → obs s' = obs s.
Proof. intros Hk H. specialize (Hk s). by rewrite H in Hk. Qed.

(** A sequence whose first part returns. *)
Lemma bind_eq {S A B} (m : M S A) (f : A → M S B) s s1 a : m s = (s1, Ok a) → (m ≫= f) s = f a s1.
Proof. unfold mbind, M_bind. by intros ->. Qed.

(** Inversion of a sequence that returned. *)
Lemma bind_ok {S A B} (m : M S A) (f : A → M S B) s s' b :
  (m ≫= f) s = (s', Ok b) → ∃ s1 a, m s = (s1, Ok a) ∧ f a s1 = (s', Ok b).
Proof. unfold mbind, M_bind. destruct (m s) as [s1 [a|e]]; [eauto|done]. Qed.
