(* ===== verification/PyFloat.v ===== *)
(** * Python numbers: binary64 floats and unbounded integers

    A Python float is an IEEE 754 binary64 number.  [FFin m e] is the number
    [m * 2^e]; every arithmetic operation computes the exact rational result
    and rounds it once, to nearest with ties to even ([rnd]), which is the
    definition of the IEEE operations.  The sign of a zero is not kept: no
    modelled operation observes it (Python raises on division by zero).
    Comparisons are exact, also between an [int] and a [float].

    The results other components rely on: rounding is monotone ([rnd_mono]),
    leaves representable numbers alone ([rnd_id]), the order is total on
    numbers that are not NaN, and a sum with a non-negative number does not
    decrease ([fadd_ge]). *)

From S2P Require Import Prelude.
From Stdlib Require Import QArith Qround Qpower Lqa SpecFloat.

#[local] Open Scope Z_scope.

Inductive pyfloat :=
  | FFin (m e : Z)
  | FInf (neg : bool)
  | FNan.

#[export] Instance pyfloat_eq_dec : EqDecision pyfloat.
Proof. solve_decision. Defined.

(** ** Rounding *)

Definition pow2 (e : Z) : Q := Qpower 2 e.

(** [floor (log2 x)] for a positive rational. *)
Definition ilog2 (x : Q) : Z :=
  let k := Z.log2 (Qnum x) - Z.log2 (Zpos (Qden x)) in
  if Qle_bool (pow2 k) x then k else k - 1.

(** The nearest integer, ties to even. *)
Definition rne (y : Q) : Z :=
  let f := Qfloor y in
  match Qcompare (y - inject_Z f) (1 # 2) with
  | Lt => f
  | Gt => f + 1
  | Eq => if Z.even f then f else f + 1
  end.

(** The canonical float of [q * 2^e] for [0 <= q <= 2^53]. *)
Definition fpack (q e : Z) : pyfloat :=
  if q =? 0 then FFin 0 0
  else if q =? 2 ^ 53 then
    (if 971 <? e + 1 then FInf false else FFin (2 ^ 52) (e + 1))
  else if 971 <? e then FInf false else FFin q e.

(** The exponent of the last place of a positive rational. *)
Definition fexp (x : Q) : Z := Z.max (ilog2 x - 52) (-1074).

Definition rnd_pos (x : Q) : pyfloat :=
  fpack (rne (x * pow2 (- fexp x))) (fexp x).

Definition fneg (x : pyfloat) : pyfloat :=
  match x with
  | FFin m e => FFin (- m) e
  | FInf s => FInf (negb s)
  | FNan => FNan
  end.

Definition rnd (x : Q) : pyfloat :=
  match Qcompare x 0 with
  | Eq => FFin 0 0
  | Gt => rnd_pos x
  | Lt => fneg (rnd_pos (- x))
  end.

(** The exact value of a finite float. *)
Definition fval (m e : Z) : Q := inject_Z m * pow2 e.

(** The floats that exist: canonical mantissa and exponent. *)
Definition fwf (x : pyfloat) : Prop :=
  match x with
  | FFin m e => (m = 0 ∧ e = 0) ∨
      (m ≠ 0 ∧ Z.abs m < 2 ^ 53 ∧ -1074 ≤ e ≤ 971 ∧ (2 ^ 52 ≤ Z.abs m ∨ e = -1074))
  | _ => True
  end.

(** ** Comparison *)

Definition fcmp (x y : pyfloat) : option comparison :=
  match x, y with
  | FNan, _ | _, FNan => None
  | FInf s, FInf t => Some (if Bool.eqb s t then Eq else if s then Lt else Gt)
  | FInf s, FFin _ _ => Some (if s then Lt else Gt)
  | FFin _ _, FInf t => Some (if t then Gt else Lt)
  | FFin m e, FFin m' e' => Some (Qcompare (fval m e) (fval m' e'))
  end.
Definition fltb (x y : pyfloat) : bool := bool_decide (fcmp x y = Some Lt).
Definition fleb (x y : pyfloat) : bool := bool_decide (fcmp x y = Some Lt ∨ fcmp x y = Some Eq).
Definition feqb (x y : pyfloat) : bool := bool_decide (fcmp x y = Some Eq).
Definition is_nan (x : pyfloat) : bool := match x with FNan => true | _ => false end.

(** ** Arithmetic *)

Definition fadd (x y : pyfloat) : pyfloat :=
  match x, y with
  | FNan, _ | _, FNan => FNan
  | FInf s, FInf t => if Bool.eqb s t then FInf s else FNan
  | FInf s, _ => FInf s
  | _, FInf t => FInf t
  | FFin m e, FFin m' e' => rnd (fval m e + fval m' e')
  end.
Definition fsub (x y : pyfloat) : pyfloat := fadd x (fneg y).

Definition fmul (x y : pyfloat) : pyfloat :=
  match x, y with
  | FNan, _ | _, FNan => FNan
  | FInf s, FInf t => FInf (xorb s t)
  | FInf s, FFin m _ | FFin m _, FInf s =>
      if m =? 0 then FNan else FInf (xorb s (m <? 0))
  | FFin m e, FFin m' e' => rnd (fval m e * fval m' e')
  end.

(** [x / y]: a zero divisor raises. *)
Definition fdiv (x y : pyfloat) : res pyfloat :=
  match x, y with
  | _, FFin 0 _ => Raise ZeroDivisionError
  | FNan, _ | _, FNan => Ok FNan
  | FInf _, FInf _ => Ok FNan
  | FInf s, FFin m _ => Ok (FInf (xorb s (m <? 0)))
  | FFin _ _, FInf _ => Ok (FFin 0 0)
  | FFin m e, FFin m' e' => Ok (rnd (fval m e / fval m' e'))
  end.

(** [float(z)] for an [int]: the nearest float, or [OverflowError]. *)
Definition float_of_int (z : Z) : res pyfloat :=
  match rnd (inject_Z z) with
  | FInf _ => Raise OverflowError
  | f => Ok f
  end.

(** [a / b] on two [int]s: the exact quotient, rounded once. *)
Definition int_truediv (a b : Z) : res pyfloat :=
  if b =? 0 then Raise ZeroDivisionError else
  match rnd (inject_Z a / inject_Z b) with
  | FInf _ => Raise OverflowError
  | f => Ok f
  end.

(** A decimal literal [n / d], for instance [0.95] as [flit 95 100]. *)
Definition flit (n : Z) (d : positive) : pyfloat := rnd (n # d).

(** [math.floor], [math.ceil] and [int] of a float. *)
Definition py_floor (x : pyfloat) : res Z :=
  match x with
  | FFin m e => Ok (Qfloor (fval m e))
  | FInf _ => Raise OverflowError
  | FNan => Raise (ValueError "cannot convert float NaN to integer")
  end.
Definition py_ceil (x : pyfloat) : res Z :=
  match x with
  | FFin m e => Ok (Qceiling (fval m e))
  | FInf _ => Raise OverflowError
  | FNan => Raise (ValueError "cannot convert float NaN to integer")
  end.
Definition py_int (x : pyfloat) : res Z :=
  match x with
  | FFin m e => Ok (if 0 <=? m then Qfloor (fval m e) else Qceiling (fval m e))
  | FInf _ => Raise OverflowError
  | FNan => Raise (ValueError "cannot convert float NaN to integer")
  end.

(** [math.sqrt]: the square root of the mantissa, scaled to more than sixty bits,
    with a half for what lies below its last bit, rounded once. *)
Definition fsqrt (x : pyfloat) : res pyfloat :=
  match x with
  | FFin m e =>
      if m <? 0 then Raise (ValueError "math domain error")
      else if m =? 0 then Ok (FFin 0 0)
      else
        let k := if Z.even e then 120 else 121 in
        let n := m * 2 ^ k in
        let s := Z.sqrt n in
        Ok (rnd (((2 * s + (if s * s =? n then 0 else 1)) # 2) * pow2 ((e - k) / 2)))
  | FInf true => Raise (ValueError "math domain error")
  | FInf false => Ok (FInf false)
  | FNan => Ok FNan
  end.

(** [max(x, y)] and [min(x, y)]: the first argument unless the second is
    strictly better, as Python compares them. *)
Definition fmax (x y : pyfloat) : pyfloat := if fltb x y then y else x.
Definition fmin (x y : pyfloat) : pyfloat := if fltb y x then y else x.

Definition fzero : pyfloat := FFin 0 0.
Definition fone : pyfloat := FFin (2 ^ 52) (-52).
Definition fpinf : pyfloat := FInf false.

(** ** Powers of two, logarithm and rounding to an integer *)

#[local] Open Scope Q_scope.

Lemma pow2_pos e : 0 < pow2 e.
Proof. apply Qpower_0_lt. reflexivity. Qed.

Lemma pow2_add a b : pow2 (a + b) == pow2 a * pow2 b.
Proof. apply Qpower_plus. discriminate. Qed.

Lemma pow2_le a b : (a <= b)%Z -> pow2 a <= pow2 b.
Proof. intros. apply Qpower_le_compat_l; [done|discriminate]. Qed.

Lemma pow2_le_inv a b : pow2 a <= pow2 b -> (a <= b)%Z.
Proof. intros. by eapply Qpower_le_compat_l_inv. Qed.

Lemma pow2_inject e : (0 <= e)%Z -> pow2 e == inject_Z (2 ^ e).
Proof. intros. unfold pow2. by rewrite Zpower_Qpower. Qed.

Lemma pow2_opp e : pow2 e * pow2 (- e) == 1.
Proof. rewrite <- pow2_add. by rewrite Z.add_opp_diag_r. Qed.

Lemma pow2_succ e : pow2 (e + 1) == 2 * pow2 e.
Proof. rewrite pow2_add. unfold pow2 at 2. simpl. ring. Qed.

(** Multiply an inequality by a power of two and back. *)
Lemma scale_le x y e : x <= y <-> x * pow2 e <= y * pow2 e.
Proof. symmetry. apply Qmult_le_r, pow2_pos. Qed.

Lemma scale_lt x y e : x < y <-> x * pow2 e < y * pow2 e.
Proof. symmetry. apply Qmult_lt_r, pow2_pos. Qed.

Lemma inject_lt_pow2_log n : (0 < n)%Z ->
  pow2 (Z.log2 n) <= inject_Z n /\ inject_Z n < pow2 (Z.log2 n + 1).
Proof.
  intros Hn. pose proof (Z.log2_spec n Hn) as [H1 H2].
  pose proof (Z.log2_nonneg n).
  rewrite !pow2_inject by lia. rewrite <- Zle_Qle, <- Zlt_Qlt.
  by rewrite Z.add_1_r.
Qed.

Lemma ilog2_spec x : 0 < x -> pow2 (ilog2 x) <= x /\ x < pow2 (ilog2 x + 1).
Proof.
  intros Hx. destruct x as [n d]. unfold ilog2. cbn [Qnum Qden].
  assert (Hn : (0 < n)%Z) by (unfold Qlt in Hx; simpl in Hx; lia).
  destruct (inject_lt_pow2_log n Hn) as [Hn1 Hn2].
  destruct (inject_lt_pow2_log (Zpos d) ltac:(lia)) as [Hd1 Hd2].
  set (a := Z.log2 n) in *. set (b := Z.log2 (Zpos d)) in *.
  assert (Hq : (n # d) * inject_Z (Zpos d) == inject_Z n).
  { rewrite Qmake_Qdiv. field. discriminate. }
  assert (Hab : pow2 a == pow2 (a - b) * pow2 b).
  { rewrite <- pow2_add. by rewrite Z.sub_add. }
  assert (Hab' : pow2 (a - b) == 2 * pow2 (a - b - 1)).
  { rewrite <- pow2_succ. by rewrite Z.sub_add. }
  pose proof (pow2_pos (a - b)). pose proof (pow2_pos (a - b - 1)). pose proof (pow2_pos b).
  rewrite pow2_succ in Hn2. rewrite pow2_succ in Hd2.
  destruct (Qle_bool (pow2 (a - b)) (n # d)) eqn:E.
  - apply Qle_bool_iff in E. split; [done|]. rewrite pow2_succ. nra.
  - assert (n # d < pow2 (a - b)).
    { apply Qnot_le_lt. intros Hle. apply Qle_bool_iff in Hle. congruence. }
    rewrite Z.sub_add. split; [|done]. apply Qlt_le_weak. nra.
Qed.

Lemma ilog2_mono x y : 0 < x -> x <= y -> (ilog2 x <= ilog2 y)%Z.
Proof.
  intros Hx Hxy.
  destruct (ilog2_spec x Hx) as [H1 _]. destruct (ilog2_spec y ltac:(lra)) as [_ H2].
  apply Z.lt_succ_r. apply Znot_ge_lt. intros Hge.
  assert (pow2 (ilog2 y + 1) <= pow2 (ilog2 x)) by (apply pow2_le; lia). lra.
Qed.

Lemma fexp_mono x y : 0 < x -> x <= y -> (fexp x <= fexp y)%Z.
Proof. intros Hx Hxy. unfold fexp. pose proof (ilog2_mono x y Hx Hxy). lia. Qed.

Lemma rne_bounds y : (Qfloor y <= rne y <= Qfloor y + 1)%Z.
Proof. unfold rne. destruct (_ ?= _); [destruct (Z.even _)|..]; lia. Qed.

Lemma rne_mono y z : y <= z -> (rne y <= rne z)%Z.
Proof.
  intros Hyz. pose proof (Qfloor_resp_le _ _ Hyz) as Hf.
  pose proof (rne_bounds y). pose proof (rne_bounds z).
  destruct (Z.eq_dec (Qfloor y) (Qfloor z)) as [He|]; [|lia].
  unfold rne. rewrite <- He.
  destruct (Qcompare_spec (y - inject_Z (Qfloor y)) (1 # 2));
  destruct (Qcompare_spec (z - inject_Z (Qfloor y)) (1 # 2));
  try destruct (Z.even _); try lia; lra.
Qed.

Lemma rne_inject c : rne (inject_Z c) = c.
Proof.
  unfold rne. rewrite Qfloor_Z.
  by assert (inject_Z c - inject_Z c < 1 # 2) as ->%Qlt_alt by lra.
Qed.

#[export] Instance rne_Proper : Proper (Qeq ==> eq) rne.
Proof. intros x y Hxy. apply Z.le_antisymm; apply rne_mono; rewrite Hxy; apply Qle_refl. Qed.

Lemma rne_le_int y c : y <= inject_Z c -> (rne y <= c)%Z.
Proof. intros H. rewrite <- (rne_inject c). by apply rne_mono. Qed.

Lemma rne_ge_int y c : inject_Z c <= y -> (c <= rne y)%Z.
Proof. intros H. rewrite <- (rne_inject c). by apply rne_mono. Qed.

(** ** Rounding of positive rationals *)

Lemma fexp_lower x : (-1074 <= fexp x)%Z.
Proof. unfold fexp. lia. Qed.

(** The scaled significand of a positive number is an integer up to [2^53],
    and at least [2^52] above the subnormal range. *)
Lemma rne_scaled_bounds x : 0 < x ->
  (0 <= rne (x * pow2 (- fexp x)) <= 2 ^ 53)%Z /\
  ((-1074 < fexp x)%Z -> (2 ^ 52 <= rne (x * pow2 (- fexp x)))%Z).
Proof.
  intros Hx. destruct (ilog2_spec x Hx) as [Hl Hu].
  assert (Hup : x * pow2 (- fexp x) <= inject_Z (2 ^ 53)).
  { rewrite <- pow2_inject by lia.
    apply (scale_le _ _ (fexp x)). rewrite <- Qmult_assoc, (Qmult_comm (pow2 (- _))), pow2_opp.
    rewrite <- pow2_add, Qmult_1_r. apply Qlt_le_weak. eapply Qlt_le_trans; [exact Hu|].
    apply pow2_le. unfold fexp. lia. }
  split.
  - split; [|by apply rne_le_int]. apply rne_ge_int.
    apply Qlt_le_weak. pose proof (pow2_pos (- fexp x)). unfold inject_Z. nra.
  - intros He. apply rne_ge_int. rewrite <- pow2_inject by lia.
    apply (scale_le _ _ (fexp x)). rewrite <- Qmult_assoc, (Qmult_comm (pow2 (- _))), pow2_opp.
    rewrite <- pow2_add, Qmult_1_r.
    replace (52 + fexp x)%Z with (ilog2 x) by (unfold fexp in *; lia). done.
Qed.

Lemma fpack_wf q e :
  (0 <= q <= 2 ^ 53)%Z -> (-1074 <= e)%Z -> ((-1074 < e)%Z -> (2 ^ 52 <= q)%Z) -> fwf (fpack q e).
Proof.
  intros Hq He Hn. unfold fpack.
  destruct (Z.eqb_spec q 0); [by left|].
  destruct (Z.eqb_spec q (2 ^ 53)).
  - destruct (Z.ltb_spec 971 (e + 1)); simpl; [done|]. right. lia.
  - destruct (Z.ltb_spec 971 e); simpl; [done|]. right. lia.
Qed.

Lemma rnd_pos_wf x : 0 < x -> fwf (rnd_pos x).
Proof.
  intros Hx. destruct (rne_scaled_bounds x Hx) as [H1 H2].
  apply fpack_wf; [done|apply fexp_lower|done].
Qed.

Lemma fneg_wf x : fwf x -> fwf (fneg x).
Proof. destruct x as [m e|s|]; simpl; [|done..]. intros [[-> ->]|?]; [by left|right]. lia. Qed.

Lemma rnd_wf x : fwf (rnd x).
Proof.
  unfold rnd. destruct (Qcompare_spec x 0); [by left|..].
  - apply fneg_wf, rnd_pos_wf. lra.
  - by apply rnd_pos_wf.
Qed.

(** *** Order *)

Lemma rnd_not_nan x : is_nan (rnd x) = false.
Proof. unfold rnd, rnd_pos, fpack, fneg. repeat case_match; done. Qed.

Definition fle (x y : pyfloat) : Prop := fleb x y = true.
Definition flt (x y : pyfloat) : Prop := fltb x y = true.

Lemma fleb_fin m e m' e' : fleb (FFin m e) (FFin m' e') = true <-> fval m e <= fval m' e'.
Proof.
  unfold fleb. rewrite bool_decide_eq_true. simpl. split.
  - intros [H|H]; injection H as H; [apply Qlt_le_weak, Qlt_alt|rewrite (proj2 (Qeq_alt _ _) H)]; auto using Qle_refl.
  - intros H%Qle_lteq. destruct H as [->%Qlt_alt| ->%Qeq_alt]; auto.
Qed.

Lemma fltb_fin m e m' e' : fltb (FFin m e) (FFin m' e') = true <-> fval m e < fval m' e'.
Proof. unfold fltb. rewrite bool_decide_eq_true. simpl. rewrite Qlt_alt. split; congruence. Qed.

Lemma feqb_fin m e m' e' : feqb (FFin m e) (FFin m' e') = true <-> fval m e == fval m' e'.
Proof. unfold feqb. rewrite bool_decide_eq_true. simpl. rewrite Qeq_alt. split; congruence. Qed.

Lemma fltb_not_fleb x y : is_nan x = false -> is_nan y = false -> fltb x y = negb (fleb y x).
Proof.
  intros Hx Hy. destruct x as [m e|s|], y as [m' e'|t|]; try discriminate.
  - destruct (fleb (FFin m' e') (FFin m e)) eqn:E.
    + apply fleb_fin in E. apply not_true_is_false. intros H%fltb_fin. lra.
    + apply fltb_fin. apply Qnot_le_lt. intros H%fleb_fin. congruence.
  - by destruct t.
  - by destruct s.
  - by destruct s, t.
Qed.

Lemma fle_refl x : is_nan x = false -> fle x x.
Proof.
  destruct x as [m e|s|]; intros H; try discriminate.
  - apply fleb_fin, Qle_refl.
  - by destruct s.
Qed.

Lemma fle_trans x y z : fle x y -> fle y z -> fle x z.
Proof.
  unfold fle.
  destruct x as [m e|s|], y as [m' e'|t|], z as [m'' e''|u|]; try discriminate;
    try (destruct s; discriminate); try (destruct t; discriminate); try (by destruct s);
    try (by destruct t); try (by destruct u); try (by destruct s, t); try (by destruct s, u);
    try (by destruct t, u); try (by destruct s, t, u).
  rewrite !fleb_fin. apply Qle_trans.
Qed.

Lemma fle_total x y : is_nan x = false -> is_nan y = false -> fle x y \/ fle y x.
Proof.
  intros Hx Hy. destruct (fleb x y) eqn:E; [by left|right]. unfold fle.
  destruct x as [m e|s|], y as [m' e'|t|]; try discriminate; try (by destruct s);
    try (by destruct t); try (by destruct s, t).
  apply fleb_fin. apply Qlt_le_weak, Qnot_le_lt. intros H%fleb_fin. congruence.
Qed.

Lemma flt_le x y : flt x y -> fle x y.
Proof. unfold flt, fle, fltb, fleb. rewrite !bool_decide_eq_true. auto. Qed.

Lemma fle_not_nan x y : fle x y -> is_nan x = false /\ is_nan y = false.
Proof. by destruct x, y. Qed.

(** *** Rounding is monotone and exact on representable numbers *)

Definition canon (q e : Z) : Prop :=
  (0 <= q <= 2 ^ 53)%Z /\ (-1074 <= e)%Z /\ ((-1074 < e)%Z -> (2 ^ 52 <= q)%Z).

Lemma fval_le_scale q q' e : fval q e <= fval q' e <-> (q <= q')%Z.
Proof. unfold fval. by rewrite <- scale_le, <- Zle_Qle. Qed.

Lemma fval_pow2 k e : (0 <= k)%Z -> fval (2 ^ k) e == pow2 (k + e).
Proof. intros. unfold fval. by rewrite pow2_add, (pow2_inject k). Qed.

Lemma fpack_inf q e : canon q e -> fpack q e = FInf false <-> pow2 1024 <= fval q e.
Proof.
  intros ([Hq0 Hq] & He & Hn). unfold fpack.
  pose proof (pow2_pos 1024) as Hp.
  destruct (Z.eqb_spec q 0) as [->|Hnz].
  { split; [done|]. intros Hle. exfalso. unfold fval, inject_Z in Hle. lra. }
  destruct (Z.eqb_spec q (2 ^ 53)) as [->|Hne].
  - rewrite fval_pow2 by lia. destruct (Z.ltb_spec 971 (e + 1)); split; try done.
    + intros _. apply pow2_le. lia.
    + intros Hle%pow2_le_inv. lia.
  - destruct (Z.ltb_spec 971 e); split; try done.
    + intros _. apply Qle_trans with (fval (2 ^ 52) e).
      * rewrite fval_pow2 by lia. apply pow2_le. lia.
      * apply fval_le_scale. apply Hn. lia.
    + intros Hle. exfalso.
      assert (fval (2 ^ 53 - 1) e < pow2 1024); [|
        assert (fval q e <= fval (2 ^ 53 - 1) e) by (apply fval_le_scale; lia); lra].
      apply Qlt_le_trans with (fval (2 ^ 53) e).
      * unfold fval. rewrite <- scale_lt. rewrite <- Zlt_Qlt. lia.
      * rewrite fval_pow2 by lia. apply pow2_le. lia.
Qed.

Lemma fpack_fin q e m e' : fpack q e = FFin m e' -> fval m e' == fval q e.
Proof.
  unfold fpack. destruct (Z.eqb_spec q 0) as [->|]; [intros; simplify_eq; reflexivity|].
  destruct (Z.eqb_spec q (2 ^ 53)) as [->|]; destruct (_ <? _)%Z; intros; simplify_eq; try reflexivity.
  rewrite !fval_pow2 by lia. by replace (52 + (e + 1))%Z with (53 + e)%Z by lia.
Qed.

Lemma fpack_cases q e : (∃ m e', fpack q e = FFin m e') \/ fpack q e = FInf false.
Proof. unfold fpack. case_ifs; eauto. Qed.

Lemma fpack_le q1 e1 q2 e2 :
  canon q1 e1 -> canon q2 e2 -> fval q1 e1 <= fval q2 e2 -> fle (fpack q1 e1) (fpack q2 e2).
Proof.
  intros H1 H2 Hle.
  destruct (fpack_cases q2 e2) as [(m2 & e2' & E2)|E2].
  - destruct (fpack_cases q1 e1) as [(m1 & e1' & E1)|E1].
    + rewrite E1, E2. apply fleb_fin. by rewrite (fpack_fin _ _ _ _ E1), (fpack_fin _ _ _ _ E2).
    + apply (fpack_inf _ _ H1) in E1. enough (fpack q2 e2 = FInf false) by congruence.
      apply fpack_inf; [done|]. by eapply Qle_trans.
  - rewrite E2. destruct (fpack_cases q1 e1) as [(m1 & e1' & E1)|E1]; by rewrite E1.
Qed.

Lemma rnd_pos_canon x : 0 < x -> canon (rne (x * pow2 (- fexp x))) (fexp x).
Proof. intros Hx. destruct (rne_scaled_bounds x Hx). split; [done|split; [apply fexp_lower|done]]. Qed.

Lemma rnd_pos_mono x y : 0 < x -> x <= y -> fle (rnd_pos x) (rnd_pos y).
Proof.
  intros Hx Hxy. assert (Hy : 0 < y) by lra.
  apply fpack_le; [by apply rnd_pos_canon..|].
  pose proof (fexp_mono x y Hx Hxy) as He.
  destruct (rne_scaled_bounds x Hx) as [Hx1 _].
  destruct (rne_scaled_bounds y Hy) as [_ Hy2].
  destruct (Z.eq_dec (fexp x) (fexp y)) as [Heq|Hne].
  - rewrite <- Heq. apply fval_le_scale, rne_mono. by apply scale_le.
  - apply Qle_trans with (fval (2 ^ 53) (fexp x)); [apply fval_le_scale; lia|].
    apply Qle_trans with (fval (2 ^ 52) (fexp y)).
    + rewrite !fval_pow2 by lia. apply pow2_le. lia.
    + apply fval_le_scale, Hy2. pose proof (fexp_lower x). lia.
Qed.

Lemma fle_fneg x y : fle x y -> fle (fneg y) (fneg x).
Proof.
  unfold fle. destruct x as [m e|s|], y as [m' e'|t|]; try discriminate; try (by destruct s);
    try (by destruct t); try (by destruct s, t).
  simpl. rewrite !fleb_fin. unfold fval. rewrite !inject_Z_opp. lra.
Qed.

Lemma rnd_pos_nonneg x : 0 < x -> fle fzero (rnd_pos x).
Proof.
  intros Hx. destruct (rne_scaled_bounds x Hx) as [[Hq _] _].
  unfold rnd_pos. destruct (fpack_cases (rne (x * pow2 (- fexp x))) (fexp x)) as [(m & e & E)|E];
    rewrite E; [|done].
  apply fleb_fin. rewrite (fpack_fin _ _ _ _ E). unfold fval.
  pose proof (pow2_pos (fexp x)). rewrite Zle_Qle in Hq. unfold inject_Z in *. nra.
Qed.

Lemma rnd_mono x y : x <= y -> fle (rnd x) (rnd y).
Proof.
  intros Hxy. unfold rnd.
  destruct (Qcompare_spec x 0) as [Hx|Hx|Hx], (Qcompare_spec y 0) as [Hy|Hy|Hy]; try lra.
  - by apply fle_refl.
  - by apply rnd_pos_nonneg.
  - apply (fle_fneg fzero). apply rnd_pos_nonneg. lra.
  - apply fle_fneg, rnd_pos_mono; lra.
  - eapply fle_trans; [|by apply rnd_pos_nonneg]. apply (fle_fneg fzero), rnd_pos_nonneg. lra.
  - by apply rnd_pos_mono.
Qed.

Lemma ilog2_unique x k : pow2 k <= x -> x < pow2 (k + 1) -> ilog2 x = k.
Proof.
  intros H1 H2. pose proof (pow2_pos k). destruct (ilog2_spec x ltac:(lra)) as [H3 H4].
  apply Z.le_antisymm; apply Z.lt_succ_r, Znot_ge_lt; intros Hge.
  - assert (pow2 (k + 1) <= pow2 (ilog2 x)) by (apply pow2_le; lia). lra.
  - assert (pow2 (ilog2 x + 1) <= pow2 k) by (apply pow2_le; lia). lra.
Qed.

Lemma rnd_pos_id m e : (0 < m)%Z -> fwf (FFin m e) -> rnd_pos (fval m e) = FFin m e.
Proof.
  intros Hm [[-> _]|(_ & Hub & He & Hlb)]; [lia|]. rewrite Z.abs_eq in * by lia.
  destruct (inject_lt_pow2_log m Hm) as [Hl1 Hl2].
  assert (Hlog : ilog2 (fval m e) = (Z.log2 m + e)%Z).
  { apply ilog2_unique; unfold fval.
    - rewrite pow2_add. by apply scale_le.
    - rewrite <- Z.add_assoc, (Z.add_comm e 1), Z.add_assoc, pow2_add. by apply scale_lt. }
  assert (Hexp : fexp (fval m e) = e).
  { unfold fexp. rewrite Hlog.
    assert (Z.log2 m < 53)%Z by (apply Z.log2_lt_pow2; lia).
    destruct Hlb; [|lia]. assert (52 <= Z.log2 m)%Z by (apply Z.log2_le_pow2; lia). lia. }
  unfold rnd_pos. rewrite Hexp.
  assert (Hq : fval m e * pow2 (- e) == inject_Z m).
  { unfold fval. rewrite <- Qmult_assoc, pow2_opp. ring. }
  rewrite Hq, rne_inject. unfold fpack.
  destruct (Z.eqb_spec m 0); [lia|]. destruct (Z.eqb_spec m (2 ^ 53)); [lia|].
  destruct (Z.ltb_spec 971 e); [lia|]. done.
Qed.

Lemma rnd_id m e : fwf (FFin m e) -> rnd (fval m e) = FFin m e.
Proof.
  intros Hwf. unfold rnd. pose proof (pow2_pos e) as Hp.
  destruct (Z.lt_total m 0) as [Hm|[Hm|Hm]].
  - assert (Hv : fval m e == - fval (- m) e) by (unfold fval; rewrite inject_Z_opp; ring).
    assert (Hneg : fval m e < 0).
    { unfold fval. rewrite Zlt_Qlt in Hm. unfold inject_Z in *. nra. }
    rewrite (proj1 (Qlt_alt _ _) Hneg).
    assert (- fval m e = fval (- m) e) as ->.
    { unfold fval, Qopp, Qmult. simpl. f_equal. lia. }
    rewrite rnd_pos_id; [simpl; f_equal; lia|lia|by apply (fneg_wf (FFin m e))].
  - subst. destruct Hwf as [[_ ->]|]; [done|lia].
  - assert (Hpos : 0 < fval m e).
    { unfold fval. rewrite Zlt_Qlt in Hm. unfold inject_Z in *. nra. }
    rewrite (proj1 (Qgt_alt _ _) Hpos). by apply rnd_pos_id.
Qed.

Lemma rnd_pos_eq x y : 0 < x -> x == y -> rnd_pos x = rnd_pos y.
Proof.
  intros Hx Hxy. unfold rnd_pos.
  assert (fexp x = fexp y) as ->.
  { apply Z.le_antisymm; apply fexp_mono; lra. }
  by rewrite Hxy.
Qed.

#[export] Instance rnd_Proper : Proper (Qeq ==> eq) rnd.
Proof.
  intros x y Hxy. unfold rnd. rewrite <- Hxy. destruct (Qcompare_spec x 0); [done|..].
  - f_equal. apply rnd_pos_eq; lra.
  - by apply rnd_pos_eq.
Qed.

Lemma fle_antisym x y : fwf x -> fwf y -> fle x y -> fle y x -> x = y.
Proof.
  intros Hx Hy H1 H2. unfold fle in *.
  destruct x as [m e|s|], y as [m' e'|t|]; try discriminate;
    try (destruct s; discriminate); try (destruct t; discriminate); try (by destruct s, t).
  apply fleb_fin in H1, H2. rewrite <- (rnd_id m e), <- (rnd_id m' e') by done.
  apply rnd_Proper. by apply Qle_antisym.
Qed.

(** ** Arithmetic *)

Lemma fadd_wf x y : fwf x -> fwf y -> fwf (fadd x y).
Proof. intros Hx Hy. destruct x as [m e|[]|], y as [m' e'|[]|]; simpl; try done. apply rnd_wf. Qed.

Lemma fmul_wf x y : fwf x -> fwf y -> fwf (fmul x y).
Proof.
  intros Hx Hy. destruct x as [m e|s|], y as [m' e'|t|]; simpl; try done; try (by case_ifs).
  apply rnd_wf.
Qed.

Lemma fdiv_wf x y z : fdiv x y = Ok z -> fwf z.
Proof.
  destruct x as [m e|s|], y as [[|p|p] e'|t|]; simpl; intros; inv_res;
    first [done | by left | apply rnd_wf].
Qed.

Lemma flit_wf n d : fwf (flit n d).
Proof. apply rnd_wf. Qed.

Lemma fzero_wf : fwf fzero.
Proof. by left. Qed.

#[export] Hint Resolve fadd_wf fmul_wf fdiv_wf flit_wf fzero_wf rnd_wf fneg_wf : tela.

(** Adding a non-negative number does not decrease a number above minus
    infinity. *)
Lemma fadd_ge x y : fwf x -> flt (FInf true) x -> fle fzero y -> fle x (fadd x y).
Proof.
  intros Hx Hinf Hy.
  destruct x as [m e|s|]; [|by destruct s, y as [? ?|[]|]|done].
  destruct y as [m' e'|t|]; [|by destruct t|done].
  simpl. rewrite <- (rnd_id m e) by done. apply rnd_mono.
  apply fleb_fin in Hy. unfold fval at 1 in Hy. unfold inject_Z in Hy. rewrite Qmult_0_l in Hy. lra.
Qed.

Lemma fadd_above x y : fwf x -> flt (FInf true) x -> fle fzero y -> flt (FInf true) (fadd x y).
Proof.
  intros Hx Hinf Hy. pose proof (fadd_ge x y Hx Hinf Hy) as H.
  destruct x as [m e|[]|]; try done; destruct (fadd _ _) as [?? |[]|]; done.
Qed.

(** Multiplying a non-negative number by a factor between 0 and 1 does not
    increase it. *)
Lemma fmul_shrink m e c e' :
  fwf (FFin m e) -> (0 <= m)%Z -> 0 <= fval c e' -> fval c e' <= 1 ->
  fle (fmul (FFin m e) (FFin c e')) (FFin m e).
Proof.
  intros Hwf Hm Hc1 Hc2. simpl. rewrite <- (rnd_id m e) by done. apply rnd_mono.
  assert (0 <= fval m e).
  { unfold fval. pose proof (pow2_pos e). rewrite Zle_Qle in Hm. unfold inject_Z in *. nra. }
  nra.
Qed.

Lemma fmax_ge_l x y : is_nan x = false -> is_nan y = false -> fle x (fmax x y).
Proof. intros. unfold fmax. destruct (fltb x y) eqn:E; [by apply flt_le|by apply fle_refl]. Qed.

Lemma fmax_ge_r x y : is_nan x = false -> is_nan y = false -> fle y (fmax x y).
Proof.
  intros Hx Hy. unfold fmax. destruct (fltb x y) eqn:E; [by apply fle_refl|].
  rewrite fltb_not_fleb in E by done. by apply negb_false_iff in E.
Qed.

Lemma fmax_cases x y : fmax x y = x \/ fmax x y = y.
Proof. unfold fmax. case_ifs; auto. Qed.

Lemma flt_le_trans x y z : flt x y -> fle y z -> flt x z.
Proof.
  intros H1 H2. destruct (fle_not_nan _ _ (flt_le _ _ H1)) as [Hx Hy].
  destruct (fle_not_nan _ _ H2) as [_ Hz]. unfold flt in *.
  rewrite fltb_not_fleb in * by done. apply negb_true_iff. apply negb_true_iff in H1.
  apply not_true_is_false. intros H3. enough (fleb y x = true) by congruence.
  by apply fle_trans with z.
Qed.

Lemma fle_lt_trans x y z : fle x y -> flt y z -> flt x z.
Proof.
  intros H1 H2. destruct (fle_not_nan _ _ (flt_le _ _ H2)) as [Hy Hz].
  destruct (fle_not_nan _ _ H1) as [Hx _]. unfold flt in *.
  rewrite fltb_not_fleb in * by done. apply negb_true_iff. apply negb_true_iff in H2.
  apply not_true_is_false. intros H3. enough (fleb z y = true) by congruence.
  by apply fle_trans with x.
Qed.

Lemma flt_irrefl x : fltb x x = false.
Proof.
  destruct x as [m e|[]|]; try done. apply not_true_is_false. intros H%fltb_fin. lra.
Qed.

Lemma fltb_false_fle x y : is_nan x = false -> is_nan y = false -> fltb x y = false -> fle y x.
Proof. intros Hx Hy E. rewrite fltb_not_fleb in E by done. by apply negb_false_iff in E. Qed.

Lemma feqb_fle x y : feqb x y = true -> fle x y /\ fle y x.
Proof.
  destruct x as [m e|s|], y as [m' e'|t|]; try discriminate; try (by destruct s);
    try (by destruct t); try (by destruct s, t).
  intros H%feqb_fin. unfold fle. rewrite !fleb_fin, H. split; apply Qle_refl.
Qed.

Lemma fle_feqb x y : fle x y -> fle y x -> feqb x y = true.
Proof.
  unfold fle. destruct x as [m e|s|], y as [m' e'|t|]; try discriminate; try (by destruct s);
    try (by destruct t); try (by destruct s, t).
  rewrite !fleb_fin. intros. apply feqb_fin. by apply Qle_antisym.
Qed.

(** *** Integers as floats *)

Lemma rnd_int_pos z : (0 < z <= 2 ^ 53)%Z ->
  ∃ m e, rnd (inject_Z z) = FFin m e /\ fval m e == inject_Z z.
Proof.
  intros [Hz Hub]. assert (Hp : 0 < inject_Z z) by (rewrite Zlt_Qlt in Hz; exact Hz).
  unfold rnd. rewrite (proj1 (Qgt_alt _ _) Hp). unfold rnd_pos.
  destruct (inject_lt_pow2_log z Hz) as [H1 H2].
  pose proof (ilog2_unique _ _ H1 H2) as Hlog.
  assert (Hl : (0 <= Z.log2 z <= 53)%Z).
  { split; [apply Z.log2_nonneg|]. rewrite <- (Z.log2_pow2 53) by lia. by apply Z.log2_le_mono. }
  assert (Hint : ∃ q, inject_Z z * pow2 (- fexp (inject_Z z)) == inject_Z q).
  { destruct (Z.le_gt_cases (fexp (inject_Z z)) 0) as [He|He].
    - eexists. rewrite pow2_inject by lia. by rewrite <- inject_Z_mult.
    - assert (z = (2 ^ 53)%Z) as ->.
      { apply Z.le_antisymm; [done|]. apply Z.log2_le_pow2; [done|].
        unfold fexp in He. rewrite Hlog in He. lia. }
      exists (2 ^ 52)%Z. unfold fexp. rewrite Hlog. vm_compute. reflexivity. }
  destruct Hint as [q Hq].
  destruct (fpack_cases (rne (inject_Z z * pow2 (- fexp (inject_Z z)))) (fexp (inject_Z z)))
    as [(m & e & E)|E].
  - exists m, e. split; [done|]. rewrite (fpack_fin _ _ _ _ E), Hq, rne_inject.
    unfold fval. rewrite <- Hq, <- Qmult_assoc, (Qmult_comm (pow2 _)), pow2_opp. ring.
  - exfalso. apply fpack_inf in E; [|by apply rnd_pos_canon].
    rewrite Hq, rne_inject in E. unfold fval in E.
    rewrite <- Hq, <- Qmult_assoc, (Qmult_comm (pow2 (- _))), pow2_opp, Qmult_1_r in E.
    rewrite pow2_inject, <- Zle_Qle in E by lia.
    pose proof (Z.pow_le_mono_r 2 54 1024). lia.
Qed.

Lemma fval_0 e : fval 0 e == 0.
Proof. unfold fval. apply Qmult_0_l. Qed.

Lemma fval_nonneg m e : (0 <= m)%Z <-> 0 <= fval m e.
Proof.
  rewrite <- (fval_0 e). rewrite fval_le_scale. done.
Qed.

(** Rounding stays between two integers that floats hold exactly. *)
Lemma rnd_int_range a b x : (0 <= a)%Z -> (b <= 2 ^ 53)%Z -> inject_Z a <= x -> x <= inject_Z b ->
  ∃ m e, rnd x = FFin m e /\ inject_Z a <= fval m e /\ fval m e <= inject_Z b.
Proof.
  assert (Hex : ∀ z, (0 <= z <= 2 ^ 53)%Z -> ∃ m e, rnd (inject_Z z) = FFin m e /\ fval m e == inject_Z z).
  { intros z Hz. destruct (Z.eq_dec z 0) as [->|]; [by exists 0%Z, 0%Z|apply rnd_int_pos; lia]. }
  intros Ha Hb Hax Hxb. assert (Hab : (a <= b)%Z) by (rewrite Zle_Qle; lra).
  destruct (Hex a) as (ma & ea & Ea & Va); [lia|]. destruct (Hex b) as (mb & eb & Eb & Vb); [lia|].
  pose proof (rnd_mono _ _ Hax) as H1. pose proof (rnd_mono _ _ Hxb) as H2. rewrite Ea in H1. rewrite Eb in H2.
  destruct (rnd x) as [m e|[]|]; try done. apply fleb_fin in H1, H2. exists m, e. split; [done|]. lra.
Qed.

(** *** Instants

    The times an event can have: neither NaN nor minus infinity. *)

Definition clock_ok (t : pyfloat) : Prop := fwf t /\ flt (FInf true) t.

Lemma clock_not_nan t : clock_ok t -> is_nan t = false.
Proof. intros [_ H]. by destruct (fle_not_nan _ _ (flt_le _ _ H)). Qed.

Lemma clock_fmax a b : clock_ok a -> clock_ok b -> clock_ok (fmax a b).
Proof. intros. destruct (fmax_cases a b) as [->| ->]; done. Qed.

Lemma clock_above x y : clock_ok x -> fwf y -> fle x y -> clock_ok y.
Proof. intros [_ H] Hy Hle. split; [done|]. by eapply flt_le_trans. Qed.

Lemma clock_fadd t d : clock_ok t -> fwf d -> fle fzero d -> clock_ok (fadd t d).
Proof. intros [H1 H2] Hd Hp. split; [by apply fadd_wf|by apply fadd_above]. Qed.

Lemma clock_scale x m e : fwf x -> fle fzero x -> fwf (FFin (Zpos m) e) -> clock_ok (fmul x (FFin (Zpos m) e)).
Proof.
  intros Hx Hp Hy. split; [by apply fmul_wf|]. destruct x as [m' e'|[]|]; try done. simpl.
  apply (flt_le_trans _ fzero); [done|]. apply (rnd_mono 0). apply fleb_fin in Hp.
  pose proof (fval_0 0) as H0. rewrite H0 in Hp.
  apply Qmult_le_0_compat; [done|]. apply fval_nonneg. lia.
Qed.

Lemma float_of_int_wf z x : float_of_int z = Ok x -> fwf x.
Proof.
  unfold float_of_int. intros H. pose proof (rnd_wf (inject_Z z)) as Hw.
  destruct (rnd (inject_Z z)); by inv_res.
Qed.

(** Adding is monotone, on the right of an instant. *)
Lemma fadd_mono x y z : clock_ok x -> fle fzero y -> fle y z -> fle (fadd x y) (fadd x z).
Proof.
  intros [Hx Hinf] Hy Hyz. assert (Hz : fle fzero z) by (by eapply fle_trans).
  destruct x as [m e|[]|]; try done; destruct z as [m2 e2|[]|]; try done;
    destruct y as [m1 e1|[]|]; try done; simpl.
  - apply rnd_mono. apply fleb_fin in Hyz. lra.
  - pose proof (rnd_mono (fval m e + fval m1 e1) (fval m e + fval m1 e1) (Qle_refl _)) as H.
    by destruct (rnd _) as [??|[]|].
Qed.

(** Multiplying by a positive number is monotone on integers. *)
Lemma fmul_int_mono i j x y m e :
  (0 <= i <= j)%Z -> float_of_int i = Ok x -> float_of_int j = Ok y -> fwf (FFin (Zpos m) e) ->
  fle fzero (fmul x (FFin (Zpos m) e)) /\ fle (fmul x (FFin (Zpos m) e)) (fmul y (FFin (Zpos m) e)).
Proof.
  intros Hij Hx Hy Hw. unfold float_of_int in *.
  assert (Hi : fle fzero (rnd (inject_Z i))) by (apply (rnd_mono 0); change 0 with (inject_Z 0); rewrite <- Zle_Qle; lia).
  assert (Hj : fle (rnd (inject_Z i)) (rnd (inject_Z j))) by (apply rnd_mono; rewrite <- Zle_Qle; lia).
  destruct (rnd (inject_Z i)) as [m1 e1|[]|]; try done. destruct (rnd (inject_Z j)) as [m2 e2|[]|]; try done.
  inv_res. apply fleb_fin in Hi, Hj. rewrite fval_0 in Hi.
  assert (Hp : 0 <= fval (Zpos m) e) by (apply fval_nonneg; lia). simpl. split.
  - apply (rnd_mono 0). by apply Qmult_le_0_compat.
  - apply rnd_mono. by apply Qmult_le_compat_r.
Qed.

Lemma rnd_between_infs x : fle (FInf true) (rnd x) /\ fle (rnd x) (FInf false).
Proof. pose proof (rnd_mono x x (Qle_refl _)) as H. by destruct (rnd x) as [??|[]|]. Qed.

(** Dividing by a positive number is monotone, dividing a positive number is
    antitone. *)
Lemma fdiv_pos_mono m e x y : fle x y -> ∃ u v, fdiv x (FFin (Zpos m) e) = Ok u /\ fdiv y (FFin (Zpos m) e) = Ok v /\ fle u v.
Proof.
  destruct x as [m1 e1|[]|], y as [m2 e2|[]|]; intros H; try done; simpl; eexists _, _; (split; [done|]); (split; [done|]);
    try done; try apply rnd_between_infs.
  apply rnd_mono. apply fleb_fin in H. unfold Qdiv. apply Qmult_le_compat_r; [done|].
  apply Qinv_le_0_compat, fval_nonneg. lia.
Qed.

Lemma fval_positive m e : (0 < m)%Z <-> 0 < fval m e.
Proof.
  unfold fval. pose proof (pow2_pos e) as Hp. split; intros H.
  - apply Qmult_lt_0_compat; [|done]. change 0 with (inject_Z 0). by rewrite <- Zlt_Qlt.
  - destruct (Z_lt_le_dec 0 m) as [|Hm]; [done|]. exfalso. apply (Qlt_not_le _ _ H).
    assert (Hq : inject_Z m <= inject_Z 0) by (by rewrite <- Zle_Qle). change (inject_Z 0) with 0 in Hq. nra.
Qed.

Lemma fdiv_anti x y : flt fzero x -> fle x y -> ∃ u v, fdiv fone x = Ok u /\ fdiv fone y = Ok v /\ fle v u.
Proof.
  intros Hx H. destruct x as [m1 e1|[]|]; try done.
  - apply fltb_fin in Hx. rewrite fval_0 in Hx. pose proof Hx as Hm. apply fval_positive in Hm. destruct m1 as [|m1|m1]; [lia| |lia].
    destruct y as [m2 e2|[]|]; try done.
    + apply fleb_fin in H. assert (Hy : 0 < fval m2 e2) by lra. pose proof Hy as Hm2. apply fval_positive in Hm2.
      destruct m2 as [|m2|m2]; [lia| |lia]. simpl. eexists _, _. split; [done|]. split; [done|]. apply rnd_mono.
      set (f1 := fval (2 ^ 52) (-52)). assert (Hf : 0 <= f1) by (apply fval_nonneg; lia). unfold Qdiv.
      rewrite (Qmult_comm f1), (Qmult_comm f1). apply Qmult_le_compat_r; [|done].
      apply Qle_shift_inv_l; [done|]. rewrite Qmult_comm. apply (Qle_shift_div_r (fval (Zpos m1) e1)); [done|lra].
    + simpl. eexists _, _. split; [done|]. split; [done|]. apply (rnd_mono 0). apply Qle_shift_div_l; [done|]. rewrite Qmult_0_l.
      apply fval_nonneg. lia.
  - destruct y as [m2 e2|[]|]; try done. simpl. by eexists _, _.
Qed.

Lemma fmin_cases x y : fmin x y = x \/ fmin x y = y.
Proof. unfold fmin. case_ifs; auto. Qed.
Lemma fmin_le_l x y : is_nan x = false -> is_nan y = false -> fle (fmin x y) x.
Proof. intros Hx Hy. unfold fmin. destruct (fltb y x) eqn:E; [by apply flt_le|by apply fle_refl]. Qed.
Lemma fmin_le_r x y : is_nan x = false -> is_nan y = false -> fle (fmin x y) y.
Proof. intros Hx Hy. unfold fmin. destruct (fltb y x) eqn:E; [by apply fle_refl|by apply fltb_false_fle]. Qed.
Lemma fmin_glb x y z : fle z x -> fle z y -> fle z (fmin x y).
Proof. intros Hx Hy. by destruct (fmin_cases x y) as [-> | ->]. Qed.

(** ** Numbers that are an [int] or a [float] *)

#[local] Open Scope Z_scope.

Inductive num := NI (z : Z) | NF (f : pyfloat).

(** An [int] as an exact number for comparisons. *)
Definition nflt (a : num) : pyfloat := match a with NI z => FFin z 0 | NF f => f end.
(** An [int] converted for float arithmetic. *)
Definition nconv (a : num) : res pyfloat :=
  match a with NI z => float_of_int z | NF f => Ok f end.

Definition narith (fi : Z → Z → Z) (ff : pyfloat → pyfloat → pyfloat) (a b : num) : res num :=
  match a, b with
  | NI x, NI y => Ok (NI (fi x y))
  | _, _ => x ← nconv a; y ← nconv b; Ok (NF (ff x y))
  end.
Definition nadd : num → num → res num := narith Z.add fadd.
Definition nsub : num → num → res num := narith Z.sub fsub.
Definition nmul : num → num → res num := narith Z.mul fmul.
Definition ndiv (a b : num) : res num :=
  match a, b with
  | NI x, NI y => f ← int_truediv x y; Ok (NF f)
  | _, _ => x ← nconv a; y ← nconv b; f ← fdiv x y; Ok (NF f)
  end.
Definition nltb (a b : num) : bool := fltb (nflt a) (nflt b).
Definition nleb (a b : num) : bool := fleb (nflt a) (nflt b).
Definition neqb (a b : num) : bool := feqb (nflt a) (nflt b).
(** The truth value of a number. *)
Definition ntruth (a : num) : bool := negb (neqb a (NI 0)).
Definition nfloor (a : num) : res Z := match a with NI z => Ok z | NF f => py_floor f end.
Definition nceil (a : num) : res Z := match a with NI z => Ok z | NF f => py_ceil f end.

Lemma nltb_int a b : nltb (NI a) (NI b) = (a <? b).
Proof.
  unfold nltb. apply eq_true_iff_eq. cbn [nflt]. rewrite fltb_fin, Z.ltb_lt. unfold fval, pow2. simpl. rewrite !Qmult_1_r. unfold Qlt. simpl. lia.
Qed.

(** [round(x, n)] of a float: round half to even at the [n]-th decimal. *)
Definition fround (n : Z) (x : pyfloat) : pyfloat :=
  match x with
  | FFin m e => rnd (inject_Z (rne (fval m e * inject_Z (10 ^ n))) / inject_Z (10 ^ n))
  | _ => x
  end.
Definition fround6 : pyfloat → pyfloat := fround 6.

(** [max(a, b)], [int(a)] and [round(a, 6)] on numbers. *)
Definition nmax (a b : num) : num := if nltb a b then b else a.
Definition nint (a : num) : res Z := match a with NI z => Ok z | NF f => py_int f end.

Definition nround6 (a : num) : num := match a with NI z => NI z | NF f => NF (fround6 f) end.

(** Expressions over numbers, with the exceptions of their parts. *)
Definition lift2 (f : num → num → res num) (x y : res num) : res num :=
  a ← x; b ← y; f a b.
Definition int (z : Z) : res num := Ok (NI z).
Definition flo (f : pyfloat) : res num := Ok (NF f).

Declare Scope pynum_scope.
Delimit Scope pynum_scope with num.
Infix "+ₙ" := (lift2 nadd) (at level 50, left associativity) : pynum_scope.
Infix "-ₙ" := (lift2 nsub) (at level 50, left associativity) : pynum_scope.
Infix "*ₙ" := (lift2 nmul) (at level 40, left associativity) : pynum_scope.
Infix "/ₙ" := (lift2 ndiv) (at level 40, left associativity) : pynum_scope.

(** ** Python values of configuration files, events and JSON documents *)

Inductive pyval :=
  | VNone
  | VBool (b : bool)
  | VNum (n : num)
  | VStr (s : string)
  | VList (l : list pyval)
  | VDict (d : list (string * pyval)).

Definition VInt (z : Z) : pyval := VNum (NI z).
Definition VFloat (f : pyfloat) : pyval := VNum (NF f).

(** The truth value of a Python object. *)
Definition truthy (v : pyval) : bool :=
  match v with
  | VNone => false
  | VBool b => b
  | VNum n => ntruth n
  | VStr s => negb (bool_decide (s = ""%string))
  | VList l => negb (bool_decide (length l = 0%nat))
  | VDict d => negb (bool_decide (length d = 0%nat))
  end.

(** ** Agreement with the Standard Library's executable IEEE 754 operations *)


Definition to_spec (x : pyfloat) : spec_float :=
  match x with
  | FFin Z0 _ => S754_zero false
  | FFin (Zpos m) e => S754_finite false m e
  | FFin (Zneg m) e => S754_finite true m e
  | FInf s => S754_infinity s
  | FNan => S754_nan
  end.
(** Zeros without their sign. *)
Definition abs_zero (x : spec_float) : spec_float :=
  match x with S754_zero _ => S754_zero false | _ => x end.

Definition sample : list pyfloat :=
  [fzero; fone; flit 1 10; flit 2 10; flit (-3) 10; flit 95 100; flit 1 3; flit (-7) 5;
   FFin (2 ^ 53 - 1) 971; FFin (2 ^ 53 - 1) 0; FFin 1 (-1074); FFin (2 ^ 52) (-1074);
   FFin (2 ^ 52 + 1) (-30); FFin (- (2 ^ 53 - 1)) (-80); flit (10 ^ 22) 1; flit 1979000000000000 2;
   FInf true; FInf false; FNan].
#[local] Instance spec_float_eq_dec : EqDecision spec_float.
Proof. solve_decision. Defined.
Definition pairs_agree : bool :=
  forallb (fun x => forallb (fun y =>
    bool_decide (abs_zero (SFadd 53 1024 (to_spec x) (to_spec y)) = to_spec (fadd x y)) &&
    bool_decide (abs_zero (SFmul 53 1024 (to_spec x) (to_spec y)) = to_spec (fmul x y)) &&
    match fdiv x y with
    | Ok z => bool_decide (abs_zero (SFdiv 53 1024 (to_spec x) (to_spec y)) = to_spec z)
    | Raise e => feqb y fzero
    end &&
    bool_decide (SFcompare (to_spec x) (to_spec y) = fcmp x y)) sample) sample.
Example operations_agree_with_SpecFloat : pairs_agree = true.
Proof. vm_compute. reflexivity. Qed.

Definition roots_agree : bool :=
  forallb (fun x =>
    match fsqrt x with
    | Ok y => bool_decide (abs_zero (SFsqrt 53 1024 (to_spec x)) = to_spec y)
    | Raise _ => fltb x fzero
    end) sample.
Example roots_agree_with_SpecFloat : roots_agree = true.
Proof. vm_compute. reflexivity. Qed.
