(* ===== verification/PyStr.v ===== *)
(** * Python strings

    The string operations the modelled code uses, on strings of ASCII
    characters: [split] with a one-character separator and without one,
    [join], [strip], [lower], [startswith], [in], [isdigit], and the
    conversions [int(s)] and [str(n)]. *)

From Stdlib Require Import QArith Ascii.
From S2P Require Import Prelude PyFloat.

#[local] Open Scope Z_scope.

(** [s.split(sep)] for a one-character separator. *)
Fixpoint split_on (sep : ascii) (s : string) : list string :=
  match s with
  | EmptyString => [EmptyString]
  | String c s' =>
      if bool_decide (c = sep) then EmptyString :: split_on sep s'
      else match split_on sep s' with
           | w :: ws => String c w :: ws
           | [] => [String c EmptyString]
           end
  end.

(** [sep.join(ws)] *)
Fixpoint join (sep : string) (ws : list string) : string :=
  match ws with
  | [] => EmptyString
  | [w] => w
  | w :: ws' => (w +:+ sep +:+ join sep ws')%string
  end.

(** The ASCII characters [str.strip] takes for white space. *)
Definition is_space (c : ascii) : bool :=
  let n := Z.of_N (N_of_ascii c) in ((9 <=? n) && (n <=? 13)) || ((28 <=? n) && (n <=? 32)).
Definition digit_of (c : ascii) : option Z :=
  let n := Z.of_N (N_of_ascii c) in
  if (48 <=? n) && (n <=? 57) then Some (n - 48) else None.
Definition is_digit (c : ascii) : bool := match digit_of c with Some _ => true | None => false end.

Fixpoint lstrip (s : string) : string :=
  match s with
  | String c s' => if is_space c then lstrip s' else s
  | EmptyString => EmptyString
  end.
Fixpoint rstrip (s : string) : string :=
  match s with
  | EmptyString => EmptyString
  | String c s' =>
      match rstrip s' with
      | EmptyString => if is_space c then EmptyString else String c EmptyString
      | r => String c r
      end
  end.
Definition strip (s : string) : string := rstrip (lstrip s).

(** [b.strip()] of bytes: other characters count as white space than in a text.
    They are also those [int] and [float] skip around an ASCII text. *)
Definition is_bspace (c : ascii) : bool :=
  let n := Z.of_N (N_of_ascii c) in ((9 <=? n) && (n <=? 13)) || (n =? 32).
Fixpoint blstrip (s : string) : string :=
  match s with String c s' => if is_bspace c then blstrip s' else s | EmptyString => EmptyString end.
Fixpoint brstrip (s : string) : string :=
  match s with
  | EmptyString => EmptyString
  | String c s' =>
      match brstrip s' with
      | EmptyString => if is_bspace c then EmptyString else String c EmptyString
      | r => String c r
      end
  end.
Definition bstrip (s : string) : string := brstrip (blstrip s).

(** [s.split()]: the words between runs of white space. *)
Fixpoint split_words_from (cur : string) (s : string) : list string :=
  match s with
  | EmptyString => if bool_decide (cur = EmptyString) then [] else [cur]
  | String c s' =>
      if is_space c then
        (if bool_decide (cur = EmptyString) then [] else [cur]) ++ split_words_from EmptyString s'
      else split_words_from (cur +:+ String c EmptyString) s'
  end.
Definition split_words (s : string) : list string := split_words_from EmptyString s.

Definition lower_ascii (c : ascii) : ascii :=
  let n := N_of_ascii c in
  if ((65 <=? Z.of_N n) && (Z.of_N n <=? 90)) then ascii_of_N (n + 32) else c.
Fixpoint lower (s : string) : string :=
  match s with EmptyString => EmptyString | String c s' => String (lower_ascii c) (lower s') end.
Definition upper_ascii (c : ascii) : ascii :=
  let n := N_of_ascii c in
  if ((97 <=? Z.of_N n) && (Z.of_N n <=? 122)) then ascii_of_N (n - 32) else c.
Fixpoint upper (s : string) : string :=
  match s with EmptyString => EmptyString | String c s' => String (upper_ascii c) (upper s') end.

(** [s.startswith(p)] and [p in s] *)
Definition startswith (p s : string) : bool := String.prefix p s.
Fixpoint contains (p s : string) : bool :=
  String.prefix p s || match s with EmptyString => false | String _ s' => contains p s' end.

(** [s.isdigit()] on ASCII strings. *)
Fixpoint all_digits (s : string) : bool :=
  match s with EmptyString => true | String c s' => is_digit c && all_digits s' end.
Definition isdigit (s : string) : bool := negb (bool_decide (s = EmptyString)) && all_digits s.

(** ** [int(s)]

    White space around, one sign, then digits with single underscores between
    them, at most 4300 digits. *)
Fixpoint parse_digits (s : string) (acc n : Z) (after_digit : bool) : option (Z * Z) :=
  match s with
  | EmptyString => if after_digit then Some (acc, n) else None
  | String c s' =>
      match digit_of c with
      | Some d => parse_digits s' (acc * 10 + d) (n + 1) true
      | None => if bool_decide (c = "_"%char) && after_digit then parse_digits s' acc n false else None
      end
  end.
Definition parse_nat (s : string) : option Z :=
  match parse_digits s 0 0 false with
  | Some (v, n) => if n <=? 4300 then Some v else None
  | None => None
  end.
Definition int_of_str (s : string) : res Z :=
  let r := match bstrip s with
           | String c s' =>
               if bool_decide (c = "-"%char) then Z.opp <$> parse_nat s'
               else if bool_decide (c = "+"%char) then parse_nat s'
               else parse_nat (String c s')
           | EmptyString => None
           end in
  of_option (ValueError "invalid literal for int() with base 10") r.

(** ** [float(s)]

    White space around, a sign, then "inf", "infinity", "nan" in any case, or
    decimal digits with a point and an exponent. *)

(** Digits, with single underscores between them, and how many. *)
Definition parse_some_digits (s : string) : option (Z * Z) :=
  if bool_decide (s = EmptyString) then Some (0, 0) else parse_digits s 0 0 false.

Definition parse_mantissa (s : string) : option (Z * Z) :=
  match split_on "."%char s with
  | [a] => '(n, k) ← parse_digits a 0 0 false; Some (n, 0)
  | [a; b] =>
      if bool_decide (a = EmptyString ∧ b = EmptyString) then None
      else '(n, _) ← parse_some_digits a; '(m, k) ← parse_some_digits b; Some (n * 10 ^ k + m, k)
  | _ => None
  end.

(** The integer after the exponent sign. *)
Definition parse_exponent (s : string) : option Z :=
  match s with
  | String c s' =>
      if bool_decide (c = "-"%char) then '(n, _) ← parse_digits s' 0 0 false; Some (- n)
      else if bool_decide (c = "+"%char) then '(n, _) ← parse_digits s' 0 0 false; Some n
      else '(n, _) ← parse_digits s 0 0 false; Some n
  | EmptyString => None
  end.

Definition decimal (n e : Z) : pyfloat :=
  if 0 <=? e then rnd (inject_Z (n * 10 ^ e)) else rnd (inject_Z n / inject_Z (10 ^ (- e))).

Definition parse_ufloat (s : string) : option pyfloat :=
  let s := lower s in
  if bool_decide (s = "inf"%string ∨ s = "infinity"%string) then Some (FInf false)
  else if bool_decide (s = "nan"%string) then Some FNan
  else
    match split_on "e"%char s with
    | [a] => '(n, k) ← parse_mantissa a; Some (decimal n (- k))
    | [a; b] => '(n, k) ← parse_mantissa a; x ← parse_exponent b; Some (decimal n (x - k))
    | _ => None
    end.

Definition float_of_str (s : string) : res pyfloat :=
  let r := match bstrip s with
           | String c s' =>
               if bool_decide (c = "-"%char) then fneg <$> parse_ufloat s'
               else if bool_decide (c = "+"%char) then parse_ufloat s'
               else parse_ufloat (String c s')
           | EmptyString => None
           end in
  of_option (ValueError "could not convert string to float") r.

(** [s.splitlines()] on ASCII strings. *)
Definition is_line_end (c : ascii) : bool :=
  let n := Z.of_N (N_of_ascii c) in ((10 <=? n) && (n <=? 13)) || ((28 <=? n) && (n <=? 30)).
Fixpoint splitlines_from (cur : string) (s : string) : list string :=
  match s with
  | EmptyString => if bool_decide (cur = EmptyString) then [] else [cur]
  | String c s' =>
      if is_line_end c then
        cur :: match s' with
               | String c' s'' =>
                   if bool_decide (c = ascii_of_nat 13 ∧ c' = ascii_of_nat 10) then splitlines_from EmptyString s''
                   else splitlines_from EmptyString s'
               | EmptyString => []
               end
      else splitlines_from (cur +:+ String c EmptyString) s'
  end.
Definition splitlines (s : string) : list string := splitlines_from EmptyString s.

(** [s[:n]] for a natural [n] *)
Definition str_take (n : nat) (s : string) : string := String.substring 0 n s.

(** [int(v)] of a value. *)
Definition int_of_val (v : pyval) : res Z :=
  match v with
  | VNum (NI z) => Ok z
  | VNum (NF f) => py_int f
  | VBool b => Ok (if b then 1 else 0)
  | VStr s => int_of_str s
  | _ => Raise (TypeError "int() argument must be a string or a real number")
  end.

(** [str(n)] *)
Definition str_of_int (n : Z) : string := pretty n.

Example float_of_str_cases :
  (float_of_str " 12.5"%string, float_of_str "-1e3"%string, float_of_str "."%string, float_of_str "1_0.2_5"%string) =
  (Ok (flit 25 2), Ok (flit (-1000) 1), Raise (ValueError "could not convert string to float"), Ok (flit 1025 100)).
Proof. vm_compute. reflexivity. Qed.

(** ** Lemmas *)

Lemma split_on_nonempty sep s : split_on sep s ≠ [].
Proof. destruct s as [|c s]; simpl; [done|]. case_bool_decide; [done|]. by destruct (split_on sep s). Qed.

Fixpoint no_char (c : ascii) (s : string) : bool :=
  match s with EmptyString => true | String c' s' => negb (bool_decide (c' = c)) && no_char c s' end.

Lemma split_no_char sep s : no_char sep s = true → split_on sep s = [s].
Proof.
  induction s as [|c s IH]; simpl; [done|]. intros [H1 H2]%andb_prop.
  apply negb_true_iff in H1. rewrite H1. by rewrite IH.
Qed.

Lemma split_app sep s t :
  no_char sep s = true → split_on sep (s +:+ String sep t) = s :: split_on sep t.
Proof.
  induction s as [|c s IH]; simpl.
  - intros _. by rewrite bool_decide_eq_true_2.
  - intros [H1 H2]%andb_prop. apply negb_true_iff in H1. rewrite H1. change (String.app s) with (String.append s).
    by rewrite IH.
Qed.

Lemma split_join sep ws :
  ws ≠ [] → Forall (fun w => no_char sep w = true) ws → split_on sep (join (String sep EmptyString) ws) = ws.
Proof.
  induction ws as [|w ws IH]; [done|]. intros _ H. inversion_clear H as [|? ? Hw Hws].
  destruct ws as [|w' ws]; [by apply split_no_char|].
  change (join _ _) with ((w +:+ String sep EmptyString +:+ join (String sep EmptyString) (w' :: ws))%string).
  change (String sep EmptyString +:+ ?t)%string with (String sep t). rewrite split_app by done. f_equal. by apply IH.
Qed.

Lemma no_char_app c s t : no_char c (s +:+ t)%string = no_char c s && no_char c t.
Proof. induction s as [|x s IH]; [done|]. change (String x s +:+ t)%string with (String x (s +:+ t)). cbn [no_char]. by rewrite IH, andb_assoc. Qed.

Lemma str_app_assoc (s t u : string) : ((s +:+ t) +:+ u = s +:+ (t +:+ u))%string.
Proof.
  induction s as [|x s IH]; [done|].
  change (String x ((s +:+ t) +:+ u) = String x (s +:+ (t +:+ u)))%string. by rewrite IH.
Qed.

Lemma str_app_nil (s : string) : (s +:+ EmptyString = s)%string.
Proof. induction s as [|x s IH]; [done|]. change (String x (s +:+ EmptyString) = String x s)%string. by rewrite IH. Qed.

(** [rstrip] looks at the end only. *)
Lemma rstrip_app s t : rstrip t ≠ EmptyString → rstrip (s +:+ t) = (s +:+ rstrip t)%string.
Proof.
  intros Ht. induction s as [|x s IH]; [done|]. change (String x s +:+ t)%string with (String x (s +:+ t)).
  change (String x s +:+ rstrip t)%string with (String x (s +:+ rstrip t)). cbn [rstrip]. rewrite IH.
  destruct (s +:+ rstrip t)%string eqn:E; [|done]. destruct s; [done|discriminate E].
Qed.

Lemma rstrip_app_space s t : rstrip t = EmptyString → rstrip (s +:+ t) = rstrip s.
Proof.
  intros Ht. induction s as [|x s IH]; [done|]. change (String x s +:+ t)%string with (String x (s +:+ t)).
  cbn [rstrip]. by rewrite IH.
Qed.

Lemma rstrip_idem s : rstrip (rstrip s) = rstrip s.
Proof.
  induction s as [|x s IH]; simpl; [done|]. destruct (rstrip s) as [|y r] eqn:E.
  - destruct (is_space x) eqn:Ex; simpl; [done|]. by rewrite Ex.
  - change (rstrip (String x (String y r))) with (match rstrip (String y r) with
      | EmptyString => if is_space x then EmptyString else String x EmptyString | z => String x z end). by rewrite IH.
Qed.

Example int_of_str_cases :
  (int_of_str " 42
"%string, int_of_str "-1_000"%string, int_of_str "1__0"%string, int_of_str ""%string, int_of_str "+7"%string) =
  (Ok 42, Ok (-1000), Raise (ValueError "invalid literal for int() with base 10"),
   Raise (ValueError "invalid literal for int() with base 10"), Ok 7).
Proof. reflexivity. Qed.

#[local] Open Scope string_scope.
#[local] Open Scope Z_scope.

(** *** [int(str(n))] is [n] *)

Fixpoint str_all (p : ascii → bool) (s : string) : bool :=
  match s with EmptyString => true | String c s' => p c && str_all p s' end.

Lemma bstrip_no_space s : str_all (fun c => negb (is_space c)) s = true → bstrip s = s.
Proof.
  assert (Hb : ∀ c, negb (is_space c) = true → is_bspace c = false).
  { intros c. unfold is_space, is_bspace. lia. }
  assert (Hr : ∀ t, str_all (fun c => negb (is_space c)) t = true → brstrip t = t).
  { induction t as [|c t IH]; [done|]. simpl. intros [Hc Ht]%andb_true_iff. rewrite (IH Ht).
    destruct t; [|done]. by rewrite (Hb c Hc). }
  intros H. unfold bstrip. rewrite <- (Hr s H) at 2. f_equal. destruct s as [|c s]; [done|].
  apply andb_true_iff in H as [Hc _]. simpl. by rewrite (Hb c Hc).
Qed.

Lemma digit_char x : (x < 10)%N → digit_of (pretty_N_char x) = Some (Z.of_N x) ∧ is_space (pretty_N_char x) = false ∧
  pretty_N_char x ≠ "-"%char ∧ pretty_N_char x ≠ "+"%char.
Proof.
  intros Hx. assert (x = 0 ∨ x = 1 ∨ x = 2 ∨ x = 3 ∨ x = 4 ∨ x = 5 ∨ x = 6 ∨ x = 7 ∨ x = 8 ∨ x = 9)%N as H by lia.
  repeat (destruct H as [->|H]; [done|]). by subst.
Qed.

Lemma parse_pretty_go x : (0 < x)%N → ∃ k, 1 ≤ k ∧ 10 ^ (k - 1) ≤ Z.of_N x ∧
  ∀ s acc n b, parse_digits (pretty_N_go x s) acc n b = parse_digits s (acc * 10 ^ k + Z.of_N x) (n + k) true.
Proof.
  induction (N.lt_wf_0 x) as [x _ IH]. intros Hx. 
  destruct (digit_char (x `mod` 10)%N) as (Hd & _ & _ & _); [by apply N.mod_lt|].
  assert (Hz : Z.of_N x = 10 * Z.of_N (x `div` 10)%N + Z.of_N (x `mod` 10)%N).
  { rewrite (N.div_mod x 10) at 1 by done. generalize (x `div` 10)%N (x `mod` 10)%N. lia. }
  destruct (N.eq_dec (x `div` 10)%N 0%N) as [E|E].
  - exists 1. split; [done|]. split; [change (10 ^ (1 - 1)) with 1; lia|]. intros s acc n b. rewrite pretty_N_go_step by done. rewrite E, pretty_N_go_0.
    cbn [parse_digits]. rewrite Hd. apply N.div_small_iff in E; [|done]. rewrite N.mod_small by done. f_equal; lia.
  - destruct (IH (x `div` 10)%N) as (k & Hk & Hlow & Hpar); [apply N.div_lt; lia|by apply N.neq_0_lt_0|].
    exists (k + 1). split; [lia|]. split.
    + replace (k + 1 - 1) with (k - 1 + 1) by lia. rewrite Z.pow_add_r by lia. revert Hlow Hz. generalize (x `div` 10)%N (x `mod` 10)%N. lia.
    + intros s acc n b. rewrite pretty_N_go_step by done. rewrite Hpar. cbn [parse_digits]. rewrite Hd.
      f_equal; [|lia]. rewrite Z.pow_add_r by lia. rewrite Hz. ring.
Qed.

Lemma pretty_go_chars (p : ascii → bool) x s : (∀ y, (y < 10)%N → p (pretty_N_char y) = true) → str_all p s = true →
  str_all p (pretty_N_go x s) = true.
Proof.
  intros Hp. revert s. induction (N.lt_wf_0 x) as [x _ IH]; intros s Hs.
  destruct (N.eq_dec x 0%N) as [->|Hx]; [by rewrite pretty_N_go_0|]. rewrite pretty_N_go_step by lia.
  apply IH; [apply N.div_lt; lia|]. simpl. rewrite Hs, Hp; [done|]. by apply N.mod_lt.
Qed.

Lemma str_of_int_chars (p : ascii → bool) z : (∀ y, (y < 10)%N → p (pretty_N_char y) = true) → p "-"%char = true → p "0"%char = true → str_all p (str_of_int z) = true.
Proof.
  intros Hp Hm H0. unfold str_of_int. destruct z as [|q|q]; [by simpl; rewrite H0| |].
  - change (pretty (Zpos q)) with (pretty_N_go (Npos q) ""). by apply pretty_go_chars.
  - change (pretty (Zneg q)) with (String "-" (pretty_N_go (Npos q) "")). simpl. rewrite Hm. by apply pretty_go_chars.
Qed.

(** The numbers that [int] reads: up to 4300 digits. *)
Definition int_limit : Z := 10 ^ 4300.

Lemma int_limit_large : 10 ^ 18 ≤ int_limit.
Proof. apply Z.pow_le_mono_r; [done|]. by apply Z.leb_le. Qed.
#[global] Opaque int_limit.

(** How many digits a number below a power of ten has. *)
Lemma digits_below k N x : 0 ≤ N → 10 ^ (k - 1) ≤ x → x < 10 ^ N → k ≤ N.
Proof. intros HN Hlow Hx. assert (k - 1 < N); [|lia]. apply (Z.pow_lt_mono_r_iff 10); lia. Qed.

Lemma int_of_str_of_int z : Z.abs z < int_limit → int_of_str (str_of_int z) = Ok z.
Proof.
  intros Hz. unfold int_of_str, str_of_int.
  assert (Hpos : ∀ x, (0 < x)%N → Z.of_N x < int_limit → parse_nat (pretty_N_go x "") = Some (Z.of_N x) ∧
     str_all (fun c => negb (is_space c)) (pretty_N_go x "") = true ∧
     ∃ c s, pretty_N_go x "" = String c s ∧ c ≠ "-"%char ∧ c ≠ "+"%char).
  { intros x Hx Hb. destruct (parse_pretty_go x Hx) as (k & Hk & Hlow & Hpar). split_and!.
    - unfold parse_nat. rewrite Hpar. cbn [parse_digits]. rewrite (proj2 (Z.leb_le _ _)); [done|].
      by apply (digits_below k 4300 (Z.of_N x)).
    - apply pretty_go_chars; [|done]. intros y Hy. by destruct (digit_char y Hy) as (_ & -> & _).
    - pose proof (pretty_go_chars (fun c => negb (bool_decide (c = "-"%char)) && negb (bool_decide (c = "+"%char))) x "") as Hc.
      specialize (Hpar "" 0 0 false). destruct (pretty_N_go x "") as [|c s]; [done|]. exists c, s. split; [done|].
      assert (Hall : str_all (fun c => negb (bool_decide (c = "-"%char)) && negb (bool_decide (c = "+"%char))) (String c s) = true).
      { apply Hc; [|done]. intros y Hy. destruct (digit_char y Hy) as (_ & _ & H1 & H2). by rewrite !bool_decide_eq_false_2. }
      simpl in Hall. apply andb_true_iff in Hall as [Hc' _]. apply andb_true_iff in Hc' as [H1 H2].
      apply negb_true_iff, bool_decide_eq_false in H1, H2. done. }
  unfold pretty, pretty_Z. destruct z as [|p|p].
  - done.
  - change (pretty p) with (pretty_N_go (Npos p) "").
    destruct (Hpos (Npos p)) as (H1 & H2 & c & s & Hs & Hm & Hp); [done|exact Hz|].
    rewrite bstrip_no_space by done. rewrite Hs in *. cbv beta iota zeta. rewrite !bool_decide_eq_false_2 by done. by rewrite H1.
  - destruct (Hpos (Npos p)) as (H1 & H2 & c & s & Hs & Hm & Hp); [done|exact Hz|].
    change (pretty p) with (pretty_N_go (Npos p) ""). rewrite bstrip_no_space by exact H2.
    change (of_option (ValueError "invalid literal for int() with base 10") (Z.opp <$> parse_nat (pretty_N_go (Npos p) "")) = Ok (Zneg p)).
    by rewrite H1.
Qed.

Lemma substring_longer s n : (String.length s ≤ n)%nat → String.substring 0 n s = s.
Proof. revert n. induction s as [|c s IH]; intros [|n] Hn; simpl in *; try done; [lia|]. rewrite IH; [done|lia]. Qed.

Lemma str_all_no_char c s : str_all (fun d => negb (bool_decide (d = c))) s = no_char c s.
Proof. induction s as [|d s IH]; [done|]. simpl. by rewrite IH. Qed.

Lemma prefix_app p s : String.prefix p (p +:+ s) = true.
Proof. induction p as [|c p IH]; [by destruct s|]. change (String c p +:+ s) with (String c (p +:+ s)). simpl. destruct (ascii_dec c c); [done|congruence]. Qed.

(** ** Lines of output *)

Lemma plain_rstrip s : strip s = s → rstrip s = s.
Proof. unfold strip. intros H. rewrite <- H at 1. rewrite rstrip_idem. exact H. Qed.

Lemma join_cons sep w ws : ws ≠ [] → join sep (w :: ws) = (w +:+ sep +:+ join sep ws)%string.
Proof. by destruct ws. Qed.

Lemma rstrip_cons_nonempty c s : rstrip s = s → (s = EmptyString → is_space c = false) → rstrip (String c s) = String c s.
Proof. intros H Hs. simpl. rewrite H. destruct s; [by rewrite Hs|done]. Qed.

(** The last character of a string is visible. *)
Definition ends_visible (s : string) : Prop := rstrip s = s ∧ s ≠ EmptyString.

Lemma ends_visible_app s t : ends_visible t → ends_visible (s +:+ t)%string.
Proof.
  intros [H Hn]. split; [rewrite rstrip_app; by rewrite H|]. intros E. destruct s; [done|discriminate E].
Qed.

Lemma lstrip_visible s c s' : s = String c s' → is_space c = false → lstrip s = s.
Proof. intros -> H. simpl. by rewrite H. Qed.
