(* ===== verification/HeapQ.v ===== *)
(** * Python's [heapq]

    The binary-heap routines of the Python standard library the event loop
    uses, on a list updated in place: [heappush], [heappop] and the loops
    [_siftdown] and [_siftup] they share, with the newly placed item kept in a
    variable while the items it passes move.  Only [<] is called on items.

    Shown for any [<] that is a strict weak order on the items that occur:
    both operations keep the heap order and the multiset of items, and
    [heappop] returns a least item. *)

From S2P Require Import Prelude.

Section HeapQ.
Context {A : Type} (lt : A → A → bool).
Implicit Types (heap : list A) (x item : A) (pos : nat).

Definition parent pos : nat := (pos - 1) / 2.

(** The loop of [_siftdown(heap, 0, pos)]; the position decreases. *)
Fixpoint siftdown_loop (fuel : nat) heap pos (newitem : A) : list A * nat :=
  match fuel with
  | O => (heap, pos)
  | S fuel =>
      if decide (0 < pos) then
        match heap !! parent pos with
        | Some p => if lt newitem p then siftdown_loop fuel (<[pos:=p]> heap) (parent pos) newitem
                    else (heap, pos)
        | None => (heap, pos)
        end
      else (heap, pos)
  end.
Definition siftdown heap pos : list A :=
  match heap !! pos with
  | Some newitem => let '(h, p) := siftdown_loop (S pos) heap pos newitem in <[p:=newitem]> h
  | None => heap
  end.

(** The loop of [_siftup(heap, pos)]: move the smaller child up until a leaf. *)
Fixpoint siftup_loop (fuel : nat) heap pos : list A * nat :=
  match fuel with
  | O => (heap, pos)
  | S fuel =>
      let childpos := 2 * pos + 1 in
      match heap !! childpos with
      | Some c =>
          let childpos' :=
            match heap !! (childpos + 1) with
            | Some r => if lt c r then childpos else childpos + 1
            | None => childpos
            end in
          match heap !! childpos' with
          | Some c' => siftup_loop fuel (<[pos:=c']> heap) childpos'
          | None => (heap, pos)
          end
      | None => (heap, pos)
      end
  end.
Definition siftup heap pos : list A :=
  match heap !! pos with
  | Some newitem =>
      let '(h, p) := siftup_loop (length heap) heap pos in siftdown (<[p:=newitem]> h) p
  | None => heap
  end.

Definition heappush heap item : list A := siftdown (heap ++ [item]) (length heap).

(** [heappop] of a list; [None] stands for the [IndexError] of an empty one. *)
Definition heappop heap : option (A * list A) :=
  match last heap with
  | None => None
  | Some lastelt =>
      let heap' := take (length heap - 1) heap in
      match heap' with
      | [] => Some (lastelt, [])
      | returnitem :: _ => Some (returnitem, siftup (<[0:=lastelt]> heap') 0)
      end
  end.

(** ** Heap order *)

Definition le x y : Prop := lt y x = false.

(** The strict weak order laws, on the items satisfying [P]. *)
Class HeapOrder (P : A → Prop) : Prop := {
  ho_irrefl : ∀ x, P x → lt x x = false;
  ho_trans : ∀ x y z, P x → P y → P z → le x y → le y z → le x z;
  ho_total : ∀ x y, P x → P y → lt x y = true → le x y;
}.

Definition heap_ordered (h : list A) : Prop :=
  ∀ i x y, 0 < i → h !! i = Some x → h !! parent i = Some y → le y x.

(** Heap order everywhere but at the edge above [pos]; the item above [pos]
    is not above the items below it. *)
Definition weak_heap (h : list A) pos : Prop :=
  (∀ i x y, 0 < i → i ≠ pos → h !! i = Some x → h !! parent i = Some y → le y x) ∧
  (∀ c x y, 0 < c → 0 < pos → parent c = pos →
     h !! c = Some x → h !! parent pos = Some y → le y x).

(** Heap order except at the edges around a hole at [pos]. *)
Definition hole_heap (h : list A) pos : Prop :=
  (∀ i x y, 0 < i → i ≠ pos → parent i ≠ pos → h !! i = Some x → h !! parent i = Some y → le y x) ∧
  (∀ c x y, 0 < c → 0 < pos → parent c = pos →
     h !! c = Some x → h !! parent pos = Some y → le y x).

Lemma parent_lt i : 0 < i → parent i < i.
Proof. intros. unfold parent. apply Nat.Div0.div_lt_upper_bound. lia. Qed.

Lemma parent_child c pos : 0 < c → parent c = pos → c = 2 * pos + 1 ∨ c = 2 * pos + 2.
Proof.
  unfold parent. intros Hc Hp. pose proof (Nat.div_mod_eq (c - 1) 2) as H.
  pose proof (Nat.mod_upper_bound (c - 1) 2). lia.
Qed.

Lemma parent_left pos : parent (2 * pos + 1) = pos.
Proof. unfold parent. replace (2 * pos + 1 - 1) with (pos * 2) by lia. by apply Nat.div_mul. Qed.

Lemma parent_right pos : parent (2 * pos + 1 + 1) = pos.
Proof.
  unfold parent. replace (2 * pos + 1 + 1 - 1) with (1 + pos * 2) by lia.
  by rewrite Nat.div_add.
Qed.

Section Laws.
Context (P : A → Prop) `{!HeapOrder P}.

(** *** Swapping an item with its parent *)

Lemma lookup_swap (h : list A) i j a b k :
  i ≠ j → i < length h → j < length h →
  <[j:=b]> (<[i:=a]> h) !! k = (if decide (k = j) then Some b else if decide (k = i) then Some a else h !! k).
Proof.
  intros Hij Hi Hj. destruct (decide (k = j)) as [->|].
  { rewrite list_lookup_insert_eq; [done|]. by rewrite length_insert. }
  rewrite list_lookup_insert_ne by done. destruct (decide (k = i)) as [->|].
  { by rewrite list_lookup_insert_eq. }
  by rewrite list_lookup_insert_ne.
Qed.

Lemma weak_heap_swap h pos x p :
  Forall P h → 0 < pos → h !! pos = Some x → h !! parent pos = Some p → lt x p = true →
  weak_heap h pos → weak_heap (<[parent pos:=x]> (<[pos:=p]> h)) (parent pos).
Proof.
  intros HP Hpos Hx Hp Hlt [H1 H2].
  pose proof (parent_lt pos Hpos) as Hpp.
  pose proof (lookup_lt_Some _ _ _ Hx). pose proof (lookup_lt_Some _ _ _ Hp).
  assert (HPx : ∀ i y, h !! i = Some y → P y) by (intros; by eapply Forall_lookup_1).
  assert (HPp := HPx _ _ Hp). assert (HPx' := HPx _ _ Hx).
  assert (Hxp : le x p) by (by apply ho_total).
  assert (Hsib : ∀ c z, 0 < c → c ≠ pos → parent c = parent pos → h !! c = Some z → le p z).
  { intros c z Hc Hne Hpc Hz. apply (H1 c); [done..|]. by rewrite Hpc. }
  split.
  - intros i y z Hi Hne. rewrite !lookup_swap by (auto; lia).
    rewrite decide_False by done.
    destruct (decide (i = pos)) as [->|Hip].
    { rewrite decide_True by done. by intros ??; simplify_eq. }
    destruct (decide (parent i = parent pos)) as [Heq|Hneq].
    { intros Hy ?; simplify_eq. apply (ho_trans (P := P)) with p; eauto. }
    destruct (decide (parent i = pos)) as [Heq|Hneq']; intros Hy Hz; simplify_eq.
    + by apply (H2 i).
    + by apply (H1 i).
  - intros c y z Hc Hpos' Hpc. rewrite !lookup_swap by (auto; lia).
    pose proof (parent_lt (parent pos) Hpos').
    pose proof (parent_lt c Hc).
    rewrite (decide_False (P := c = parent pos)) by lia.
    rewrite (decide_False (P := parent (parent pos) = parent pos)) by lia.
    rewrite (decide_False (P := parent (parent pos) = pos)) by lia.
    intros Hy Hz. assert (le z p) by (apply (H1 (parent pos)); auto; lia).
    destruct (decide (c = pos)); simplify_eq; [done|].
    apply (ho_trans (P := P)) with p; eauto.
Qed.

Lemma weak_heap_done h pos x p :
  0 < pos → h !! pos = Some x → h !! parent pos = Some p → le p x → weak_heap h pos → heap_ordered h.
Proof.
  intros Hpos Hx Hp Hle [H1 _] i y z Hi Hy Hz.
  destruct (decide (i = pos)); simplify_eq; [done|by apply (H1 i)].
Qed.

Lemma weak_heap_root h : weak_heap h 0 → heap_ordered h.
Proof. intros [H1 _] i y z Hi. apply (H1 i); [done|lia]. Qed.

(** *** The loops *)

Lemma siftdown_loop_spec fuel h pos x h' p :
  pos < fuel → pos < length h → Forall P (<[pos:=x]> h) → weak_heap (<[pos:=x]> h) pos →
  siftdown_loop fuel h pos x = (h', p) →
  heap_ordered (<[p:=x]> h') ∧ <[p:=x]> h' ≡ₚ <[pos:=x]> h.
Proof.
  revert h pos. induction fuel as [|fuel IH]; intros h pos Hf Hl HP Hw; [lia|]. simpl.
  assert (Hx : <[pos:=x]> h !! pos = Some x) by (by apply list_lookup_insert_eq).
  destruct (decide (0 < pos)) as [Hpos|Hpos].
  2:{ intros [= <- <-]. assert (pos = 0) as -> by lia. by split; [apply weak_heap_root|]. }
  pose proof (parent_lt pos Hpos) as Hpp.
  destruct (h !! parent pos) as [pa|] eqn:Hpa; [|apply lookup_ge_None in Hpa; lia].
  assert (Hpa' : <[pos:=x]> h !! parent pos = Some pa)
    by (rewrite list_lookup_insert_ne by lia; done).
  destruct (lt x pa) eqn:Hlt.
  - assert (HV : <[parent pos:=x]> (<[pos:=pa]> h) = <[parent pos:=x]> (<[pos:=pa]> (<[pos:=x]> h)))
      by (by rewrite list_insert_insert_eq).
    assert (Hperm : <[parent pos:=x]> (<[pos:=pa]> h) ≡ₚ <[pos:=x]> h)
      by (rewrite HV; by apply Permutation_insert_swap).
    intros Hloop. rewrite <- Hperm. apply IH in Hloop; [done|lia|..].
    + rewrite length_insert. lia.
    + by rewrite Hperm.
    + rewrite HV. by apply weak_heap_swap.
  - intros [= <- <-]. split; [|done]. by eapply weak_heap_done.
Qed.

Lemma siftdown_spec h pos x :
  h !! pos = Some x → Forall P h → weak_heap h pos →
  heap_ordered (siftdown h pos) ∧ siftdown h pos ≡ₚ h.
Proof.
  intros Hx HP Hw. unfold siftdown. rewrite Hx.
  destruct (siftdown_loop (S pos) h pos x) as [h' p] eqn:E.
  assert (Hid : <[pos:=x]> h = h) by (by apply list_insert_id).
  apply siftdown_loop_spec in E; rewrite ?Hid in *; auto; by eapply lookup_lt_Some.
Qed.

(** Moving the smaller child of the hole up. *)
Lemma hole_heap_swap h pos cp x c :
  Forall P h → h !! pos = Some x → 0 < cp → parent cp = pos → h !! cp = Some c →
  (∀ k z, 0 < k → parent k = pos → k ≠ cp → h !! k = Some z → le c z) →
  hole_heap h pos → hole_heap (<[cp:=x]> (<[pos:=c]> h)) cp.
Proof.
  intros HP Hx Hcp Hpc Hc Hmin [H1 H2].
  pose proof (parent_lt cp Hcp).
  pose proof (lookup_lt_Some _ _ _ Hx). pose proof (lookup_lt_Some _ _ _ Hc).
  split.
  - intros i y z Hi Hne Hpne. rewrite !lookup_swap by lia.
    rewrite (decide_False (P := i = cp)), (decide_False (P := parent i = cp)) by done.
    destruct (decide (i = pos)) as [->|Hip].
    { pose proof (parent_lt pos Hi). rewrite decide_False by lia.
      intros ? Hz; simplify_eq. by apply (H2 cp). }
    destruct (decide (parent i = pos)); intros Hy Hz; simplify_eq; [by apply (Hmin i)|by apply (H1 i)].
  - intros k y z Hk _ Hpk. rewrite !lookup_swap by lia.
    pose proof (parent_lt k Hk).
    rewrite (decide_False (P := k = cp)), (decide_False (P := k = pos)) by lia.
    rewrite (decide_False (P := parent cp = cp)), (decide_True (P := parent cp = pos)) by lia.
    intros Hy Hz; simplify_eq. apply (H1 k); auto; lia.
Qed.

Lemma hole_heap_leaf h pos :
  h !! (2 * pos + 1) = None → hole_heap h pos → weak_heap h pos.
Proof.
  intros Hleaf [H1 H2]. split; [|done].
  intros i y z Hi Hne Hy Hz. apply (H1 i); auto. intros Hp.
  apply lookup_ge_None in Hleaf. apply lookup_lt_Some in Hy.
  destruct (parent_child i pos Hi Hp); lia.
Qed.

Lemma siftup_loop_spec fuel h pos x h' p :
  length h ≤ fuel + pos → pos < length h →
  Forall P (<[pos:=x]> h) → hole_heap (<[pos:=x]> h) pos →
  siftup_loop fuel h pos = (h', p) →
  p < length h' ∧ weak_heap (<[p:=x]> h') p ∧ <[p:=x]> h' ≡ₚ <[pos:=x]> h.
Proof.
  revert h pos. induction fuel as [|fuel IH]; intros h pos Hf Hl HP Hw; [lia|].
  cbn [siftup_loop]. set (cp := 2 * pos + 1).
  assert (Hx : <[pos:=x]> h !! pos = Some x) by (by apply list_lookup_insert_eq).
  assert (Hoff : ∀ k, k ≠ pos → <[pos:=x]> h !! k = h !! k) by (intros; by apply list_lookup_insert_ne).
  destruct (h !! cp) as [c|] eqn:Hc.
  2:{ intros [= <- <-]. split_and!; [done| |done]. apply hole_heap_leaf; [|done].
      by rewrite Hoff by lia. }
  set (cp' := match h !! (cp + 1) with Some r => if lt c r then cp else cp + 1 | None => cp end).
  assert (Hcp' : ∃ c', h !! cp' = Some c' ∧ 0 < cp' ∧ parent cp' = pos ∧ pos < cp' ∧
    (∀ k z, 0 < k → parent k = pos → k ≠ cp' → h !! k = Some z → le c' z)).
  { assert (HPall : ∀ k z, k ≠ pos → h !! k = Some z → P z).
    { intros k z Hk Hz. eapply Forall_lookup_1; [exact HP|]. by rewrite Hoff. }
    subst cp'. destruct (h !! (cp + 1)) as [r|] eqn:Hr.
    - assert (P c ∧ P r) as [Pc Pr] by (split; eapply HPall; [|done| |done]; lia).
      destruct (lt c r) eqn:Hlt.
      + exists c. split_and!; [done|lia|apply parent_left|lia|].
        intros k z Hk Hpk Hne Hz. destruct (parent_child k pos Hk Hpk); [done|].
        replace k with (cp + 1) in Hz by lia. simplify_eq. by apply ho_total.
      + exists r. split_and!; [done|lia|apply parent_right|lia|].
        intros k z Hk Hpk Hne Hz. destruct (parent_child k pos Hk Hpk); [|lia].
        replace k with cp in Hz by lia. by simplify_eq.
    - exists c. split_and!; [done|lia|apply parent_left|lia|].
      intros k z Hk Hpk Hne Hz. destruct (parent_child k pos Hk Hpk); [done|].
      replace k with (cp + 1) in Hz by lia. congruence. }
  destruct Hcp' as (c' & Hc' & Hpos' & Hpar & Hgt & Hmin). rewrite Hc'.
  assert (HV : <[cp':=x]> (<[pos:=c']> h) = <[cp':=x]> (<[pos:=c']> (<[pos:=x]> h)))
    by (by rewrite list_insert_insert_eq).
  assert (Hperm : <[cp':=x]> (<[pos:=c']> h) ≡ₚ <[pos:=x]> h).
  { rewrite HV. apply Permutation_insert_swap; [done|]. by rewrite Hoff by lia. }
  intros Hloop. rewrite <- Hperm. apply (IH (<[pos:=c']> h) cp') in Hloop; [done|..].
  - rewrite length_insert. lia.
  - rewrite length_insert. by eapply lookup_lt_Some.
  - by rewrite Hperm.
  - rewrite HV. apply hole_heap_swap; try done.
    + by rewrite Hoff by lia.
    + intros k z Hk Hpk Hne. pose proof (parent_lt k Hk). rewrite Hoff by lia. eauto.
Qed.

Lemma siftup_root_spec h x :
  h !! 0 = Some x → Forall P h → hole_heap h 0 →
  heap_ordered (siftup h 0) ∧ siftup h 0 ≡ₚ h.
Proof.
  intros Hx HP Hh. unfold siftup. rewrite Hx.
  destruct (siftup_loop (length h) h 0) as [h' p] eqn:E.
  assert (Hl := lookup_lt_Some _ _ _ Hx).
  assert (Hid : <[0:=x]> h = h) by (by apply list_insert_id).
  apply (siftup_loop_spec _ _ _ x) in E; rewrite ?Hid in *; auto with lia.
  destruct E as (Hp & Hw & Hperm).
  destruct (siftdown_spec (<[p:=x]> h') p x) as [Ho Hp'];
    [by apply list_lookup_insert_eq|by rewrite Hperm|done|].
  split; [done|]. by rewrite Hp'.
Qed.

(** ** [heappush] and [heappop] *)

Lemma heap_ordered_snoc h x : heap_ordered h → weak_heap (h ++ [x]) (length h).
Proof.
  intros Ho. split.
  - intros i y z Hi Hne Hy Hz. pose proof (parent_lt i Hi).
    assert (i < length h).
    { apply lookup_lt_Some in Hy. rewrite length_app in Hy. simpl in Hy. lia. }
    rewrite lookup_app_l in Hy, Hz by lia. by apply (Ho i).
  - intros c y z Hc _ Hpc Hy _. pose proof (parent_lt c Hc).
    apply lookup_lt_Some in Hy. rewrite length_app in Hy. simpl in Hy. lia.
Qed.

Lemma heappush_spec h x :
  Forall P h → P x → heap_ordered h →
  heap_ordered (heappush h x) ∧ heappush h x ≡ₚ x :: h.
Proof.
  intros HP Hx Ho.
  destruct (siftdown_spec (h ++ [x]) (length h) x) as [H1 H2].
  - by rewrite list_lookup_middle.
  - apply Forall_app_2; auto.
  - by apply heap_ordered_snoc.
  - split; [done|]. unfold heappush. rewrite H2. symmetry. apply Permutation_cons_append.
Qed.

Lemma heap_root_least h x y : Forall P h → heap_ordered h → h !! 0 = Some x → y ∈ h → le x y.
Proof.
  intros HP Ho Hx Hy. apply list_elem_of_lookup in Hy as [i Hi]. revert y Hi.
  induction (lt_wf i) as [i _ IH]. intros y Hy.
  assert (HPl : ∀ k z, h !! k = Some z → P z) by (intros; by eapply Forall_lookup_1).
  destruct (decide (0 < i)) as [Hpos|].
  2:{ assert (i = 0) as -> by lia. simplify_eq. apply ho_irrefl. eauto. }
  pose proof (parent_lt i Hpos) as Hpp. apply lookup_lt_Some in Hy as Hl.
  destruct (lookup_lt_is_Some_2 h (parent i) ltac:(lia)) as [z Hz].
  apply (ho_trans (P := P)) with z; eauto.
Qed.

Lemma heap_ordered_take h n : heap_ordered h → heap_ordered (take n h).
Proof.
  intros Ho i y z Hi Hy Hz.
  apply lookup_take_Some in Hy as [Hy _]. apply lookup_take_Some in Hz as [Hz _]. by apply (Ho i).
Qed.

Lemma heap_ordered_hole_root h x : heap_ordered h → hole_heap (<[0:=x]> h) 0.
Proof.
  intros Ho. split; [|lia]. intros i y z Hi Hne Hpne Hy Hz.
  rewrite list_lookup_insert_ne in Hy, Hz by lia. by apply (Ho i).
Qed.

Lemma heappop_None h : heappop h = None ↔ h = [].
Proof.
  unfold heappop. destruct h as [|y h]; [done|]. destruct (last (y :: h)) eqn:E.
  - destruct (take _ _); done.
  - by apply last_None in E.
Qed.

Lemma heappop_spec h x h' :
  Forall P h → heap_ordered h → heappop h = Some (x, h') →
  h !! 0 = Some x ∧ h ≡ₚ x :: h' ∧ heap_ordered h' ∧ (∀ y, y ∈ h' → le x y).
Proof.
  intros HP Ho. unfold heappop.
  destruct (last h) as [l|] eqn:El; [|done].
  apply last_Some in El as [g ->].
  replace (length (g ++ [l]) - 1) with (length g) by (rewrite length_app; simpl; lia).
  rewrite take_app_length.
  destruct g as [|r g]; intros [= <- <-].
  { split_and!; try done. set_solver. }
  apply Forall_app in HP as [HPg HPl].
  assert (Hog : heap_ordered (r :: g)).
  { rewrite <- (take_app_length (r :: g) [l]). by apply heap_ordered_take. }
  destruct (siftup_root_spec (l :: g) l) as [H1 H2]; [done| |by apply (heap_ordered_hole_root (r :: g))|].
  { inversion_clear HPg. inversion_clear HPl. by constructor. }
  assert (Hperm : (r :: g) ++ [l] ≡ₚ r :: siftup (l :: g) 0).
  { rewrite H2. rewrite <- Permutation_cons_append. apply Permutation_swap. }
  split_and!; [done|done|done|].
  intros y Hy. eapply (heap_root_least ((r :: g) ++ [l])); [|done|done|].
  - apply Forall_app_2; auto.
  - rewrite Hperm. by right.
Qed.
End Laws.
End HeapQ.

Arguments HeapOrder {A} lt P.
