(* ===== verification/Events.v ===== *)
(** * The discrete-event loop of the serving simulator

    Models [simulator/core/events.py]: events and their order, the queue (a
    Python list kept by [heapq]), the clock, the statistics, and [run].  The
    handlers an application registers are functions on the loop together with
    the application's own state [S]; the table of handlers is an argument, as
    [event_handlers] is only read by [step]. *)

From S2P Require Import Prelude PyFloat HeapQ.
From Stdlib Require Import Sorted.

#[local] Open Scope string_scope.
#[local] Open Scope list_scope.
#[local] Open Scope Z_scope.

(** ** Events *)

Inductive EventType :=
  | REQUEST_ARRIVAL | NODE_ONLINE | NODE_OFFLINE | PLACEMENT_DECISION | LOAD_BALANCE
  | PREFILL_START | PREFILL_COMPLETE | DECODE_STEP | BATCH_FORM | MEMORY_CHECK
  | MODEL_LOAD | MODEL_UNLOAD | REQUEST_COMPLETE.

#[export] Instance EventType_eq_dec : EqDecision EventType.
Proof. solve_decision. Defined.

Definition EventType_value (t : EventType) : string :=
  match t with
  | REQUEST_ARRIVAL => "request_arrival"
  | NODE_ONLINE => "node_online"
  | NODE_OFFLINE => "node_offline"
  | PLACEMENT_DECISION => "placement_decision"
  | LOAD_BALANCE => "load_balance"
  | PREFILL_START => "prefill_start"
  | PREFILL_COMPLETE => "prefill_complete"
  | DECODE_STEP => "decode_step"
  | BATCH_FORM => "batch_form"
  | MEMORY_CHECK => "memory_check"
  | MODEL_LOAD => "model_load"
  | MODEL_UNLOAD => "model_unload"
  | REQUEST_COMPLETE => "request_complete"
  end.

Inductive EventPriority := HIGHEST | HIGH | MEDIUM | LOW.

Definition EventPriority_value (p : EventPriority) : Z :=
  match p with HIGHEST => 1 | HIGH => 2 | MEDIUM => 3 | LOW => 4 end.

(** The [event_id] of the source is a random identifier nothing reads. *)
Record Event := mkEvent {
  timestamp : pyfloat;
  event_type : EventType;
  target : string;
  data : dict pyval;
  priority : EventPriority;
}.

(** [Event.__lt__] *)
Definition Event_lt (self other : Event) : bool :=
  if negb (feqb (timestamp self) (timestamp other))
  then fltb (timestamp self) (timestamp other)
  else EventPriority_value (priority self) <? EventPriority_value (priority other).

(** ** The loop *)

Record EventLoop := mkLoop {
  event_queue : list Event;
  current_time : pyfloat;
  running : bool;
  events_processed : Z;
  total_simulation_time : pyfloat;
  events_by_type : dict Z;
}.

Definition EventLoop_init : EventLoop :=
  mkLoop [] fzero false 0 fzero [].

Definition set_queue (q : list Event) (l : EventLoop) : EventLoop :=
  mkLoop q (current_time l) (running l) (events_processed l) (total_simulation_time l) (events_by_type l).
Definition set_running (b : bool) (l : EventLoop) : EventLoop :=
  mkLoop (event_queue l) (current_time l) b (events_processed l) (total_simulation_time l) (events_by_type l).

Definition schedule_event (event : Event) : M EventLoop unit := fun l =>
  if fltb (timestamp event) (current_time l)
  then (l, Raise (ValueError "Cannot schedule event in the past"))
  else (set_queue (heappush Event_lt (event_queue l) event) l, Ok tt).

Definition stop : M EventLoop unit := modify (set_running false).

Definition get_next_event_time (l : EventLoop) : option pyfloat :=
  match event_queue l with
  | [] => None
  | e :: _ => Some (timestamp e)
  end.

(** [self.event_queue[:count]] *)
Definition peek_next_events (l : EventLoop) (count : Z) : list Event :=
  slice_to count (event_queue l).

(** [clear_future_events(target)], returning how many events it removed. *)
Definition clear_future_events (tgt : option string) : M EventLoop Z := fun l =>
  match tgt with
  | None => (set_queue [] l, Ok (Z.of_nat (length (event_queue l))))
  | Some t =>
      let q := filter (fun e => target e ≠ t) (event_queue l) in
      (set_queue q l, Ok (Z.of_nat (length (event_queue l)) - Z.of_nat (length q)))
  end.

Definition get_statistics (l : EventLoop) : dict pyval :=
  [("events_processed", VInt (events_processed l));
   ("total_simulation_time", VFloat (total_simulation_time l));
   ("events_by_type", VDict (map (fun '(k, n) => (k, VInt n)) (events_by_type l)));
   ("current_time", VFloat (current_time l));
   ("pending_events", VInt (Z.of_nat (length (event_queue l))));
   ("running", VBool (running l))].

Definition reset : M EventLoop unit := fun _ => (mkLoop [] fzero false 0 fzero [], Ok tt).

(** The part of [step] before the handler is called: the queue without the
    event, the clock at the event, the counters updated. *)
Definition begin_event (e : Event) (q : list Event) (l : EventLoop) : EventLoop :=
  mkLoop q (timestamp e) (running l) (events_processed l + 1) (total_simulation_time l)
    (dict_incr (events_by_type l) (EventType_value (event_type e)) 1).

Definition end_run (l : EventLoop) : EventLoop :=
  mkLoop (event_queue l) (current_time l) false (events_processed l) (current_time l) (events_by_type l).

Section Run.
Context {S : Type}.

Definition handler : Type := Event → M (EventLoop * S) unit.
Definition handlers : Type := EventType → option handler.

Definition no_handlers : handlers := fun _ => None.
Definition register_handler (hs : handlers) (t : EventType) (h : handler) : handlers :=
  fun t' => if decide (t' = t) then Some h else hs t'.

Context (hs : handlers).

(** [step]: an event type without a handler only prints a warning. *)
Definition step : M (EventLoop * S) bool := fun '(l, s) =>
  match heappop Event_lt (event_queue l) with
  | None => ((l, s), Ok false)
  | Some (event, q) =>
      let l1 := begin_event event q l in
      match hs (event_type event) with
      | Some h =>
          match h event (l1, s) with
          | (st', Ok _) => (st', Ok true)
          | (st', Raise e) => (st', Raise e)
          end
      | None => ((l1, s), Ok true)
      end
  end.

(** The [while] loop of [run].  [max_events] is tested for truth, so [None]
    and [0] both mean no limit.  [None] is returned when the fuel is spent. *)
Fixpoint run_loop (fuel : nat) (max_time : pyfloat) (max_events : option Z)
    (processed : Z) (st : EventLoop * S) : option ((EventLoop * S) * res unit) :=
  match fuel with
  | O => None
  | Datatypes.S fuel =>
      let l := fst st in
      if negb (running l) || is_nil (event_queue l) then Some (st, Ok tt)
      else if fltb max_time (current_time l) then Some (st, Ok tt)
      else if match max_events with Some n => negb (n =? 0) && (n <=? processed) | None => false end
      then Some (st, Ok tt)
      else match step st with
           | (st', Raise e) => Some (st', Raise e)
           | (st', Ok false) => Some (st', Ok tt)
           | (st', Ok true) => run_loop fuel max_time max_events (processed + 1) st'
           end
  end.

(** An exception of a handler leaves [run] before its last two lines. *)
Definition run (fuel : nat) (max_time : pyfloat) (max_events : option Z)
    (st : EventLoop * S) : option ((EventLoop * S) * res unit) :=
  match run_loop fuel max_time max_events 0 (set_running true (fst st), snd st) with
  | Some ((l, s), Ok _) => Some ((end_run l, s), Ok tt)
  | r => r
  end.

(** What [run] leaves when its loop has ended in [st] with [r]: the last two
    lines are reached only when no handler has raised. *)
Definition after_run (st : EventLoop * S) (r : res unit) : EventLoop * S :=
  match r with Ok _ => (end_run (fst st), snd st) | Raise _ => st end.
End Run.
Arguments handler : clear implicits.
Arguments handlers : clear implicits.

(** ** The order of events *)

(** The timestamps the order is meant for. *)
Definition timed (e : Event) : Prop := is_nan (timestamp e) = false.

(** [a] comes before or together with [b]. *)
Definition no_later (a b : Event) : Prop :=
  flt (timestamp a) (timestamp b) ∨
  (feqb (timestamp a) (timestamp b) = true ∧
   EventPriority_value (priority a) ≤ EventPriority_value (priority b)).

Lemma le_no_later a b : timed a → timed b → le Event_lt a b ↔ no_later a b.
Proof.
  unfold le, Event_lt, no_later, timed, flt. intros Ha Hb.
  destruct (feqb (timestamp b) (timestamp a)) eqn:E; simpl.
  - destruct (feqb_fle _ _ E) as [H1 H2]. rewrite (fle_feqb _ _ H2 H1).
    assert (fltb (timestamp a) (timestamp b) = false) as ->.
    { rewrite fltb_not_fleb by done. by rewrite H1. }
    rewrite Z.ltb_ge. naive_solver.
  - assert (feqb (timestamp a) (timestamp b) = false) as ->.
    { apply not_true_is_false. intros [H1 H2]%feqb_fle. by rewrite (fle_feqb _ _ H2 H1) in E. }
    rewrite (fltb_not_fleb (timestamp b)), (fltb_not_fleb (timestamp a)) by done.
    rewrite negb_false_iff, negb_true_iff. split; intros H.
    + left. apply not_true_is_false. intros H'. by rewrite (fle_feqb _ _ H' H) in E.
    + destruct H as [H|[? _]]; [|done]. destruct (fle_total _ _ Ha Hb) as [?|H']; [done|].
      unfold fle in H'. congruence.
Qed.

Lemma no_later_time a b : no_later a b → fle (timestamp a) (timestamp b).
Proof. intros [H|[H _]]; [by apply flt_le|apply (feqb_fle _ _ H)]. Qed.

Lemma no_later_trans a b c : no_later a b → no_later b c → no_later a c.
Proof.
  intros [H1|[H1 H1']] [H2|[H2 H2']].
  - left. eapply flt_le_trans; [done|by apply flt_le].
  - left. eapply flt_le_trans; [done|]. apply (feqb_fle _ _ H2).
  - left. eapply fle_lt_trans; [|done]. apply (feqb_fle _ _ H1).
  - right. destruct (feqb_fle _ _ H1), (feqb_fle _ _ H2).
    split; [apply fle_feqb; by eapply fle_trans|lia].
Qed.

#[export] Instance Event_heap_order : HeapOrder Event_lt timed.
Proof.
  split.
  - intros x Hx. apply (le_no_later x x Hx Hx). right. split; [|lia].
    apply fle_feqb; by apply fle_refl.
  - intros x y z Hx Hy Hz. rewrite !le_no_later by done. apply no_later_trans.
  - intros x y Hx Hy Hlt. apply le_no_later; [done..|]. unfold Event_lt in Hlt.
    destruct (feqb _ _) eqn:E; simpl in Hlt; [right|by left].
    apply Z.ltb_lt in Hlt. split; [done|lia].
Qed.

(** ** The loop invariant *)

(** The queue is a heap of timed events none of which is in the past. *)
Record loop_inv (l : EventLoop) : Prop := {
  inv_heap : heap_ordered Event_lt (event_queue l);
  inv_timed : Forall timed (event_queue l);
  inv_future : Forall (fun e => fle (current_time l) (timestamp e)) (event_queue l);
  inv_clock : is_nan (current_time l) = false;
}.

(** The counters agree: the events processed are those counted by type. *)
Definition stats_inv (l : EventLoop) : Prop := dict_sum (events_by_type l) = events_processed l.

Lemma Forall_perm_iff {A} (P : A → Prop) l k : l ≡ₚ k → Forall P k → Forall P l.
Proof. intros H. by rewrite H. Qed.

Lemma schedule_event_spec e l l' r :
  loop_inv l → timed e → schedule_event e l = (l', r) →
  loop_inv l' ∧ current_time l' = current_time l ∧
  (r = Ok tt ∧ fle (current_time l) (timestamp e) ∧ event_queue l' ≡ₚ e :: event_queue l
   ∨ (∃ ex, r = Raise ex) ∧ flt (timestamp e) (current_time l) ∧ l' = l).
Proof.
  intros [Hh Ht Hf Hc] He. unfold schedule_event.
  destruct (fltb (timestamp e) (current_time l)) eqn:E; intros [= <- <-].
  - split_and!; [by split|done|]. right. eauto.
  - apply fltb_false_fle in E; [|done..].
    destruct (heappush_spec Event_lt timed (event_queue l) e Ht He Hh) as [Ho Hp].
    split_and!; [split; simpl|done|left; done]; try done;
      (eapply Forall_perm_iff; [done|by constructor]).
Qed.

Lemma loop_inv_init : loop_inv EventLoop_init.
Proof. split; simpl; done. Qed.

(** Removing the least event and moving the clock to it. *)
Lemma begin_event_inv l e q :
  loop_inv l → heappop Event_lt (event_queue l) = Some (e, q) →
  loop_inv (begin_event e q l) ∧ event_queue l ≡ₚ e :: q ∧
  fle (current_time l) (timestamp e) ∧ (∀ e', e' ∈ q → no_later e e').
Proof.
  intros [Hh Ht Hf Hc] Hpop.
  destruct (heappop_spec Event_lt timed _ _ _ Ht Hh Hpop) as (_ & Hp & Ho & Hmin).
  rewrite Hp in Ht, Hf. inversion_clear Ht. inversion_clear Hf.
  assert (Hmin' : ∀ e', e' ∈ q → no_later e e').
  { intros e' He'. apply le_no_later; [done| |by apply Hmin].
    by eapply Forall_forall in He'. }
  split_and!; try done. split; simpl; try done.
  apply Forall_forall. intros e' He'. by apply no_later_time, Hmin'.
Qed.

Lemma begin_event_stats l e q : stats_inv l → stats_inv (begin_event e q l).
Proof. unfold stats_inv. simpl. rewrite dict_sum_incr. lia. Qed.

(** ** What the loop needs from the handlers

    A handler may schedule events and change the application's state, but it
    keeps the loop invariant and leaves the clock and the counters alone,
    whether it returns or raises; the application's own invariant [I] holds
    again when it returns. *)
Class LoopClient {S} (hs : handlers S) (I : EventLoop → S → Prop) : Prop := {
  client_handler : ∀ h e q l s l' s' r,
    loop_inv l → I l s → heappop Event_lt (event_queue l) = Some (e, q) → loop_inv (begin_event e q l) →
    hs (event_type e) = Some h → h e (begin_event e q l, s) = ((l', s'), r) →
    loop_inv l' ∧ current_time l' = timestamp e ∧
    events_processed l' = events_processed l + 1 ∧
    events_by_type l' = events_by_type (begin_event e q l) ∧ (r = Ok tt → I l' s');
  (** Taking an event that has no handler off the queue keeps the invariant. *)
  client_begin : ∀ l s e q,
    loop_inv l → I l s → heappop Event_lt (event_queue l) = Some (e, q) → hs (event_type e) = None →
    I (begin_event e q l) s;
  client_running : ∀ l s b, I l s → I (set_running b l) s;
}.

Section Steps.
Context {S : Type} (hs : handlers S) (I : EventLoop → S → Prop) `{!LoopClient hs I}.
Implicit Types (st : EventLoop * S).

Definition queue_inv st : Prop := loop_inv (fst st) ∧ stats_inv (fst st).
Definition state_inv st : Prop := loop_inv (fst st) ∧ stats_inv (fst st) ∧ I (fst st) (snd st).

Lemma state_queue_inv st : state_inv st → queue_inv st.
Proof. by intros (? & ? & _). Qed.

(** One call of [step] that processes [e]. *)
Lemma step_ok st st' r :
  state_inv st → step hs st = (st', r) →
  (event_queue (fst st) = [] ∧ st' = st ∧ r = Ok false) ∨
  (∃ e q, heappop Event_lt (event_queue (fst st)) = Some (e, q) ∧
     event_queue (fst st) ≡ₚ e :: q ∧ (∀ e', e' ∈ event_queue (fst st) → no_later e e') ∧
     fle (current_time (fst st)) (timestamp e) ∧ current_time (fst st') = timestamp e ∧
     events_processed (fst st') = events_processed (fst st) + 1 ∧
     queue_inv st' ∧ (r = Ok true ∧ state_inv st' ∨ ∃ ex, r = Raise ex)).
Proof.
  intros (Hl & Hs & HI). destruct st as [l s]. unfold step; simpl in *.
  destruct (heappop Event_lt (event_queue l)) as [[e q]|] eqn:Hpop.
  2:{ apply heappop_None in Hpop. intros [= <- <-]. by left. }
  destruct (begin_event_inv _ _ _ Hl Hpop) as (Hb & Hp & Hle & Hmin).
  assert (Htimed : timed e).
  { pose proof (inv_timed _ Hl) as HF. rewrite Hp in HF. by inversion_clear HF. }
  assert (Hmin' : ∀ e', e' ∈ event_queue l → no_later e e').
  { intros e'. rewrite Hp. rewrite elem_of_cons. intros [->|?]; [|by apply Hmin].
    apply le_no_later; [done..|]. by apply (ho_irrefl _ (P := timed)). }
  intros Hst. right. exists e, q. repeat (split; [done|]).
  destruct (hs (event_type e)) as [h|] eqn:Hh.
  - destruct (h e (begin_event e q l, s)) as [[l2 s2] r2] eqn:Eh.
    destruct (client_handler h e q l s l2 s2 r2 Hl HI Hpop Hb Hh Eh) as (Hl2 & Ht2 & Hn2 & Hb2 & HI2).
    assert (stats_inv l2).
    { unfold stats_inv. rewrite Hb2, Hn2. exact (begin_event_stats l e q Hs). }
    destruct r2 as [[]|ex]; injection Hst as <- <-; simpl; split_and!; try done; try (by split); [left|right; by eexists].
    split; [done|]. split_and!; auto.
  - injection Hst as <- <-. simpl. split_and!; try done; [split; [done|by apply begin_event_stats]|].
    left. split; [done|]. split_and!; [done|by apply begin_event_stats|]. simpl. by apply client_begin.
Qed.

(** The successive states and processed events of a run. *)
Inductive steps : EventLoop * S → list Event → EventLoop * S → res unit → Prop :=
  | steps_nil st : steps st [] st (Ok tt)
  | steps_raise st e q st' ex :
      heappop Event_lt (event_queue (fst st)) = Some (e, q) → step hs st = (st', Raise ex) →
      steps st [e] st' (Raise ex)
  | steps_cons st e q st' tr st'' r :
      heappop Event_lt (event_queue (fst st)) = Some (e, q) → step hs st = (st', Ok true) →
      steps st' tr st'' r → steps st (e :: tr) st'' r.

Lemma steps_inv st tr st' r :
  steps st tr st' r → state_inv st →
  queue_inv st' ∧ (r = Ok tt → state_inv st') ∧
  Forall (fun e => fle (current_time (fst st)) (timestamp e)) tr ∧
  StronglySorted (fun a b => fle (timestamp a) (timestamp b)) tr ∧
  events_processed (fst st') = events_processed (fst st) + Z.of_nat (length tr).
Proof.
  induction 1 as [st|st e q st' ex Hpop Hst|st e q st' tr st'' r Hpop Hst Hsteps IH]; intros Hi.
  - split_and!; [by apply state_queue_inv|done|constructor|constructor|simpl; lia].
  - destruct (step_ok _ _ _ Hi Hst) as [(?&?&?)|(e' & q' & Hpop' & _ & _ & Hle & _ & Hn & Hi' & _)];
      simplify_eq.
    split_and!; [done..|by constructor|constructor; constructor|simpl; lia].
  - destruct (step_ok _ _ _ Hi Hst) as [(?&?&?)|(e' & q' & Hpop' & _ & _ & Hle & Ht & Hn & _ & [[_ Hi']|[ex ?]])];
      simplify_eq.
    destruct (IH Hi') as (Hq'' & Hi'' & Hf & Hs & Hn').
    rewrite Ht in Hf. split_and!; [done|done| | |simpl; lia].
    + constructor; [done|]. eapply Forall_impl; [done|]. intros x Hx. by eapply fle_trans.
    + constructor; [done|]. done.
Qed.

Lemma run_loop_steps fuel mt me n st st' r :
  run_loop hs fuel mt me n st = Some (st', r) → ∃ tr, steps st tr st' r.
Proof.
  revert n st. induction fuel as [|fuel IH]; intros n st; [done|]. simpl.
  destruct (_ || _); [intros [= <- <-]; eexists; constructor|].
  destruct (fltb _ _); [intros [= <- <-]; eexists; constructor|].
  destruct (match me with Some _ => _ | None => _ end); [intros [= <- <-]; eexists; constructor|].
  destruct (heappop Event_lt (event_queue (fst st))) as [[e q]|] eqn:Hpop.
  - destruct (step hs st) as [st1 [[]|ex]] eqn:Hst.
    + intros [tr Htr]%IH. exists (e :: tr). by eapply steps_cons.
    + exfalso. destruct st as [l s]. simpl in *. unfold step in Hst. rewrite Hpop in Hst.
      destruct (hs (event_type e)) as [h|]; [destruct (h _ _) as [? []]|]; simplify_eq.
    + intros [= <- <-]. exists [e]. by eapply steps_raise.
  - destruct st as [l s]. simpl in *. unfold step. rewrite Hpop. intros [= <- <-].
    eexists; constructor.
Qed.
End Steps.

(** ** Properties of the loop *)

Section Properties.
Context {S : Type} (hs : handlers S).

(** With a positive event limit [n], [n - p + 1] iterations are enough. *)
Lemma run_loop_total fuel mt n p (st : EventLoop * S) :
  0 < n → p ≤ n → n - p < Z.of_nat fuel →
  ∃ st' r tr, run_loop hs fuel mt (Some n) p st = Some (st', r) ∧
    steps hs st tr st' r ∧ Z.of_nat (length tr) ≤ n - p.
Proof.
  intros Hn. revert p st. induction fuel as [|fuel IH]; intros p st Hp Hf; [lia|]. simpl.
  assert (Hnil : ∃ st' r tr, Some (st, Ok ()) = Some (st', r) ∧ steps hs st tr st' r ∧
    Z.of_nat (length tr) ≤ n - p).
  { eexists _, _, []. split_and!; [done|constructor|simpl; lia]. }
  destruct (_ || _); [done|]. destruct (fltb _ _); [done|].
  destruct (negb (n =? 0) && (n <=? p)) eqn:E; [done|].
  assert (p < n) by (destruct (Z.eqb_spec n 0), (Z.leb_spec n p); simpl in *; lia).
  destruct (heappop Event_lt (event_queue (fst st))) as [[e q]|] eqn:Hpop.
  - destruct (step hs st) as [st1 [[]|ex]] eqn:Hst.
    + destruct (IH (p + 1) st1) as (st' & r & tr & H1 & H2 & H3); [lia..|].
      exists st', r, (e :: tr). split_and!; [done|by eapply steps_cons|simpl; lia].
    + eexists _, _, []. split_and!; [done| |simpl; lia].
      exfalso. destruct st as [l s]. simpl in *. unfold step in Hst. rewrite Hpop in Hst.
      destruct (hs (event_type e)) as [h|]; [destruct (h _ _) as [? []]|]; simplify_eq.
    + eexists _, _, [e]. split_and!; [done|by eapply steps_raise|simpl; lia].
  - destruct st as [l s]. simpl in *. unfold step. rewrite Hpop. done.
Qed.
End Properties.

(** The application's invariant survives a run that returns. *)
Lemma run_client_inv {S} (hs : handlers S) I `{!LoopClient hs I} fuel mt me l s st' :
  state_inv I (l, s) → run hs fuel mt me (l, s) = Some (st', Ok tt) →
  ∃ l1, I l1 (snd st') ∧ event_queue l1 = event_queue (fst st').
Proof.
  intros (Hl & Hs & HI). unfold run. simpl.
  destruct (run_loop _ _ _ _ _ _) as [[[l1 s1] [[]|ex]]|] eqn:E; intros [= <-].
  destruct (run_loop_steps hs _ _ _ _ _ _ _ E) as [tr Htr].
  destruct (steps_inv hs I _ _ _ _ Htr) as (_ & Hi & _).
  { split_and!; [by destruct Hl|done|by apply client_running]. }
  destruct (Hi eq_refl) as (_ & _ & HI1). by exists l1.
Qed.

(** C3.  [run] processes events in order of time.  The events [step] takes off
    the queue during one [run], in the order it takes them ([tr], the trace of
    the steps that lead from the state at the start to the state at the end), have
    non-decreasing timestamps, none before the clock at the start; the queue
    invariant and the agreement of the counters hold again at the end, and
    [events_processed] grows by exactly the number of processed events.
    Handlers are any that meet [LoopClient]. *)
Theorem run_in_time_order {S} (hs : handlers S) I `{!LoopClient hs I} fuel mt me l s st' r :
  state_inv I (l, s) → run hs fuel mt me (l, s) = Some (st', r) →
  ∃ tr st1, steps hs (set_running true l, s) tr st1 r ∧ st' = after_run st1 r ∧
    StronglySorted (fun a b => fle (timestamp a) (timestamp b)) tr ∧
    Forall (fun e => fle (current_time l) (timestamp e)) tr ∧
    events_processed (fst st') = events_processed l + Z.of_nat (length tr) ∧
    loop_inv (fst st') ∧ stats_inv (fst st').
Proof.
  intros (Hl & Hs & HI). unfold run. simpl.
  destruct (run_loop _ _ _ _ _ _) as [[[l1 s1] r1]|] eqn:E; [|by destruct r].
  destruct (run_loop_steps hs _ _ _ _ _ _ _ E) as [tr Htr].
  destruct (steps_inv hs I _ _ _ _ Htr) as (([Hh Ht Hf Hc] & Hs1) & _ & Hfut & Hsort & Hn).
  { split_and!; [by destruct Hl|done|by apply client_running]. }
  intros Hret. exists tr, (l1, s1).
  destruct r1 as [[]|ex]; injection Hret as <- <-; split_and!; try done; by split.
Qed.

(** C4.  [step] on a queue in heap order takes off the queue an event that no
    pending event precedes (an earlier timestamp, or the same one and a smaller
    priority value), sets the clock to its timestamp, never back, and calls the
    handler of that event on the loop without it, whose outcome is the outcome
    of the step; it reports [False] exactly on an empty queue, changing nothing. *)
Theorem step_takes_least {S} (hs : handlers S) I `{!LoopClient hs I} l s st' r :
  state_inv I (l, s) → step hs (l, s) = (st', r) →
  (event_queue l = [] ∧ st' = (l, s) ∧ r = Ok false) ∨
  (∃ e q, event_queue l ≡ₚ e :: q ∧ (∀ e', e' ∈ event_queue l → no_later e e') ∧
     fle (current_time l) (timestamp e) ∧ current_time (fst st') = timestamp e ∧
     match hs (event_type e) with
     | Some h => ∃ r', h e (begin_event e q l, s) = (st', r') ∧
         r = match r' with Ok _ => Ok true | Raise ex => Raise ex end
     | None => st' = (begin_event e q l, s) ∧ r = Ok true
     end).
Proof.
  intros Hi Hst. destruct (step_ok hs I _ _ _ Hi Hst) as [H|H]; [by left|right].
  destruct H as (e & q & Hpop & Hp & Hmin & Hle & Ht & _). simpl in *.
  exists e, q. split_and!; try done. unfold step in Hst. rewrite Hpop in Hst.
  destruct (hs (event_type e)) as [h|]; [|by simplify_eq].
  destruct (h e _) as [st2 r2]. exists r2. destruct r2; by simplify_eq.
Qed.

(** C23.  With a positive [max_events], [run] always returns (or passes on a
    handler's exception) after processing at most that many events, whatever
    the handlers schedule: [max_events + 1] loop iterations are enough. *)
Theorem run_terminates {S} (hs : handlers S) mt n l s :
  0 < n →
  ∃ st' r tr, run hs (Z.to_nat n + 1) mt (Some n) (l, s) = Some (st', r) ∧
    (∃ st1, steps hs (set_running true l, s) tr st1 r ∧ st' = after_run st1 r) ∧ Z.of_nat (length tr) ≤ n.
Proof.
  intros Hn. destruct (run_loop_total hs (Z.to_nat n + 1) mt n 0 (set_running true l, s))
    as ([l1 s1] & r & tr & H1 & H2 & H3); [lia..|].
  unfold run. simpl fst. simpl snd. rewrite H1.
  destruct r as [[]|ex]; eexists _, _, tr; (split; [reflexivity|]); split; eauto; lia.
Qed.

(** C24.  [schedule_event] refuses exactly the events before the clock, leaving
    the loop as it was; any other event joins the pending events, and the
    queue stays a heap with nothing in the past. *)
Theorem schedule_event_correct e l :
  loop_inv l → timed e →
  (fltb (timestamp e) (current_time l) = true ∧
     schedule_event e l = (l, Raise (ValueError "Cannot schedule event in the past"))) ∨
  (fltb (timestamp e) (current_time l) = false ∧
     ∃ l', schedule_event e l = (l', Ok tt) ∧ loop_inv l' ∧
       event_queue l' ≡ₚ e :: event_queue l ∧ current_time l' = current_time l).
Proof.
  intros Hl He. destruct (schedule_event e l) as [l' r] eqn:E.
  destruct (schedule_event_spec e l l' r Hl He E) as (Hl' & Ht & H).
  unfold schedule_event in *. destruct (fltb (timestamp e) (current_time l)) eqn:Hlt; [left|right].
  - split; [done|]. by simplify_eq.
  - split; [done|]. destruct H as [(-> & _ & Hp)|([ex ->] & Hlt' & _)]; [eauto|].
    unfold flt in Hlt'. congruence.
Qed.

(** C32.  [get_next_event_time] is the clock value after the next [step]: the
    timestamp of an event no pending event precedes, and nothing exactly when
    the queue is empty. *)
Theorem get_next_event_time_least l t :
  loop_inv l → get_next_event_time l = Some t →
  ∃ e q, heappop Event_lt (event_queue l) = Some (e, q) ∧ timestamp e = t ∧
    (∀ e', e' ∈ event_queue l → fle t (timestamp e')).
Proof.
  intros Hl. unfold get_next_event_time. destruct (event_queue l) as [|e0 q0] eqn:Eq; [done|].
  intros [= <-].
  destruct (heappop Event_lt (e0 :: q0)) as [[e q]|] eqn:Hpop; [|by apply heappop_None in Hpop].
  destruct Hl as [Hh Ht Hf Hc]. rewrite Eq in *.
  destruct (heappop_spec Event_lt timed _ _ _ Ht Hh Hpop) as (H0 & _). simpl in H0. simplify_eq.
  exists e, q. split_and!; try done. intros e' He'. apply no_later_time, le_no_later.
  - by inversion_clear Ht.
  - by eapply Forall_forall in He'.
  - by eapply (heap_root_least Event_lt timed).
Qed.

(** ** [clear_future_events] *)

(** Scheduling a list of events, as the simulator does before a run. *)
Definition schedule_all (es : list Event) : M EventLoop unit := for_each schedule_event es.

Lemma schedule_all_inv es l :
  loop_inv l → Forall timed es → loop_inv (fst (schedule_all es l)).
Proof.
  unfold schedule_all. revert l. induction es as [|e es IH]; intros l Hl Hes; [done|].
  inversion_clear Hes. simpl. unfold mbind, M_bind.
  destruct (schedule_event e l) as [l' r] eqn:E.
  destruct (schedule_event_spec e l l' r Hl ltac:(done) E) as (Hl' & _ & _).
  destruct r; [by apply IH|done].
Qed.

Definition ev (t : Z) (tgt : string) : Event := mkEvent (flit t 1) BATCH_FORM tgt [] HIGH.

(** C39.  Removing the events of one target does not restore the heap order:
    from a queue built by [schedule_event], the steps after
    [clear_future_events("gone")] move the clock to 10 and then back to 2. *)
Theorem clear_future_events_loses_order :
  let es := [ev 0 "a"; ev 10 "a"; ev 1 "gone"; ev 11 "a"; ev 12 "a"; ev 2 "a"; ev 3 "a"] in
  let l := fst (schedule_all es EventLoop_init) in
  let l' := fst (clear_future_events (Some "gone") l) in
  let next st := fst (step (S := unit) no_handlers st) in
  loop_inv l ∧ ¬ heap_ordered Event_lt (event_queue l') ∧
  current_time (fst (next (next (l', tt)))) = flit 10 1 ∧
  current_time (fst (next (next (next (l', tt))))) = flit 2 1.
Proof.
  intros es l l' next. split_and!; [|intros H|vm_compute; reflexivity..].
  - apply schedule_all_inv; [apply loop_inv_init|]. repeat constructor.
  - specialize (H 4%nat (ev 2 "a") (ev 10 "a")). unfold le in H.
    assert (Event_lt (ev 2 "a") (ev 10 "a") = true) by (vm_compute; reflexivity).
    rewrite H in *; [done|lia|vm_compute; reflexivity..].
Qed.

(** [peek_next_events] returns the front of the heap array, which need
    not be the next events to be processed: with events at 0, 10 and 1 pending
    it answers 0 and 10. *)
Theorem peek_next_events_not_next :
  let l := fst (schedule_all [ev 0 "a"; ev 10 "a"; ev 1 "a"] EventLoop_init) in
  let next st := fst (step (S := unit) no_handlers st) in
  loop_inv l ∧ map timestamp (peek_next_events l 2) = [flit 0 1; flit 10 1] ∧
  current_time (fst (next (next (l, tt)))) = flit 1 1.
Proof.
  intros l next. split_and!; [|vm_compute; reflexivity..].
  apply schedule_all_inv; [apply loop_inv_init|]. repeat constructor.
Qed.

(** ** A small application, used to exercise the properties

    An arrival is answered by a placement decision at the same time, and the
    application counts the decisions. *)
Definition demo_handlers : handlers Z :=
  register_handler
    (register_handler no_handlers REQUEST_ARRIVAL (fun e st =>
      match schedule_event (mkEvent (timestamp e) PLACEMENT_DECISION "cluster_manager" [] MEDIUM) (fst st) with
      | (l', r) => ((l', snd st), r)
      end))
    PLACEMENT_DECISION (fun e '(l, n) => ((l, n + 1), Ok tt)).

#[export] Instance demo_client : LoopClient demo_handlers (fun _ _ => True).
Proof.
  split; [|done..]. intros h e q l s l' s' r Hl _ Hpop Hb Hh. revert Hh.
  assert (Ht : timed e) by (destruct Hb as [_ _ _ Hc]; exact Hc).
  unfold demo_handlers, register_handler, no_handlers. case_decide; intros Hh; simplify_eq.
  - by intros [= <- <- <-].
  - case_decide; simplify_eq. simpl.
    destruct (schedule_event _ _) as [l1 r1] eqn:E. intros [= <- <- <-].
    destruct (schedule_event_spec _ _ _ _ Hb (Ht : timed (mkEvent _ _ _ _ _)) E) as (H1 & H2 & _).
    unfold schedule_event in E. simpl in E. destruct (fltb _ _) in E; simplify_eq; done.
Qed.

Definition demo_loop : EventLoop :=
  fst (schedule_all
    [mkEvent (flit 3 2) REQUEST_ARRIVAL "cluster_manager" [] MEDIUM;
     mkEvent (flit 1 2) REQUEST_ARRIVAL "cluster_manager" [] MEDIUM;
     mkEvent (flit 1 2) NODE_OFFLINE "cluster_manager" [] HIGHEST] EventLoop_init).

Lemma demo_state_inv : state_inv (fun _ _ => True) (demo_loop, 0).
Proof.
  split_and!; [|vm_compute; reflexivity|done].
  apply schedule_all_inv; [apply loop_inv_init|]. repeat constructor.
Qed.

Lemma run_in_time_order_witness :
  ∃ st', run demo_handlers 10 (flit 100 1) (Some 10) (demo_loop, 0) = Some (st', Ok tt) ∧
    snd st' = 2 ∧ events_processed (fst st') = 5 ∧
    ∃ tr st1, steps demo_handlers (set_running true demo_loop, 0) tr st1 (Ok tt) ∧
      st' = after_run st1 (Ok tt) ∧
      StronglySorted (fun a b => fle (timestamp a) (timestamp b)) tr ∧
      Forall (fun e => fle (current_time demo_loop) (timestamp e)) tr ∧
      events_processed (fst st') = events_processed demo_loop + Z.of_nat (length tr) ∧
      loop_inv (fst st') ∧ stats_inv (fst st').
Proof.
  eexists. split; [vm_compute; reflexivity|]. split; [reflexivity|]. split; [reflexivity|].
  eapply (run_in_time_order demo_handlers (fun _ _ => True) 10 (flit 100 1) (Some 10) demo_loop 0 _ (Ok tt)).
  - exact demo_state_inv.
  - vm_compute. reflexivity.
Defined.

Lemma step_takes_least_witness :
  ∃ st', step demo_handlers (demo_loop, 0) = (st', Ok true) ∧
    ((event_queue demo_loop = [] ∧ st' = (demo_loop, 0) ∧ Ok true = Ok false) ∨
     (∃ e q, event_queue demo_loop ≡ₚ e :: q ∧ (∀ e', e' ∈ event_queue demo_loop → no_later e e') ∧
        fle (current_time demo_loop) (timestamp e) ∧ current_time (fst st') = timestamp e ∧
        match demo_handlers (event_type e) with
        | Some h => ∃ r', h e (begin_event e q demo_loop, 0) = (st', r') ∧
            Ok true = match r' with Ok _ => Ok true | Raise ex => Raise ex end
        | None => st' = (begin_event e q demo_loop, 0) ∧ Ok true = Ok true
        end)).
Proof.
  eexists. split; [vm_compute; reflexivity|].
  eapply (step_takes_least demo_handlers (fun _ _ => True) demo_loop 0 _ (Ok true)).
  - exact demo_state_inv.
  - vm_compute. reflexivity.
Defined.

Lemma run_terminates_witness :
  ∃ st' r tr, run demo_handlers (Z.to_nat 2 + 1) (flit 100 1) (Some 2) (demo_loop, 0) = Some (st', r) ∧
    (∃ st1, steps demo_handlers (set_running true demo_loop, 0) tr st1 r ∧ st' = after_run st1 r) ∧ Z.of_nat (length tr) ≤ 2.
Proof. apply (run_terminates demo_handlers (flit 100 1) 2 demo_loop 0). lia. Defined.

Lemma schedule_event_correct_witness :
  let e := ev 1 "a" in
  (fltb (timestamp e) (current_time demo_loop) = true ∧
     schedule_event e demo_loop = (demo_loop, Raise (ValueError "Cannot schedule event in the past"))) ∨
  (fltb (timestamp e) (current_time demo_loop) = false ∧
     ∃ l', schedule_event e demo_loop = (l', Ok tt) ∧ loop_inv l' ∧
       event_queue l' ≡ₚ e :: event_queue demo_loop ∧ current_time l' = current_time demo_loop).
Proof.
  intros e. apply (schedule_event_correct e demo_loop); [apply demo_state_inv|vm_compute; reflexivity].
Defined.

Lemma get_next_event_time_least_witness :
  ∃ e q, heappop Event_lt (event_queue demo_loop) = Some (e, q) ∧ timestamp e = flit 1 2 ∧
    (∀ e', e' ∈ event_queue demo_loop → fle (flit 1 2) (timestamp e')).
Proof.
  apply (get_next_event_time_least demo_loop (flit 1 2)); [apply demo_state_inv|vm_compute; reflexivity].
Defined.
