(* ===== verification/Config.v ===== *)
(** * Configuration of engines, hardware and models

    Models [simulator/core/config.py] (parallelism settings and their
    normalisation), the table of [simulator/configs/hardware.py] and the Llama
    model description of [simulator/configs/models/llama.py].  A Hugging Face
    configuration object is a dict of its integer attributes. *)

From S2P Require Import Prelude PyFloat PyStr.

#[local] Open Scope string_scope.
#[local] Open Scope list_scope.
#[local] Open Scope Z_scope.

(** ** Parallelism *)

Record ParallelConfig := mkParallel { tensor_parallel_size : Z; pipeline_parallel_size : Z }.

Definition ParallelConfig_default : ParallelConfig := mkParallel 1 1.

Definition with_defaults (c : ParallelConfig) : ParallelConfig :=
  mkParallel (Z.max 1 (tensor_parallel_size c)) (Z.max 1 (pipeline_parallel_size c)).

(** What a caller may pass as a parallel configuration. *)
Inductive parallel_arg :=
  | PNone
  | PConfig (c : ParallelConfig)
  | PInt (n : Z)
  | PDict (d : dict pyval)
  | POther.

Definition _normalize_parallel_config (config : parallel_arg) : res ParallelConfig :=
  match config with
  | PNone => Ok ParallelConfig_default
  | PConfig c => Ok (with_defaults c)
  | PInt n => Ok (mkParallel (Z.max 1 n) 1)
  | PDict d =>
      tp ← int_of_val (dict_get_default d "tensor_parallel_size" (VInt 1));
      pp ← int_of_val (dict_get_default d "pipeline_parallel_size" (VInt 1));
      Ok (mkParallel (Z.max 1 tp) (Z.max 1 pp))
  | POther => Raise (TypeError "Unsupported parallel_config type")
  end.

(** ** Hardware *)

Record HardwareSpec := mkHw {
  bandwidth : pyfloat;
  FP16 : pyfloat;
  INT8 : pyfloat;
  onchip_buffer : pyfloat;
  vmemory : pyfloat;
  price_per_hour : pyfloat;
}.

(** [x / 2] of a literal. *)
Definition fhalf (x : pyfloat) : pyfloat :=
  match fdiv x (flit 2 1) with Ok y => y | Raise _ => FNan end.

Definition tera : Z := 10 ^ 12.
Definition giga : Z := 10 ^ 9.

Definition hardware_params : dict HardwareSpec :=
  [("NVDA:RTX3090", mkHw (flit (936 * giga) 1) (flit (71 * tera) 1) (flit (71 * tera) 1)
      (flit 18432000 1) (flit (24 * giga) 1) (flit 13 100));
   ("NVDA:A6000", mkHw (flit (1041 * giga) 1) (fhalf (flit (419892 * giga) 1)) (flit (419892 * giga) 1)
      (flit 21504000 1) (flit (48 * giga) 1) (flit 39 100));
   ("NVDA:A100", mkHw (flit (1555 * giga) 1) (flit (312 * tera) 1) (flit (624 * tera) 1)
      (flit 27648000 1) (flit (40 * giga) 1) (flit 65 100));
   ("NVDA:A100_40G:SXM", mkHw (flit (2039 * giga) 1) (flit (312 * tera) 1) (flit (624 * tera) 1)
      (flit 27648000 1) (flit (40 * giga) 1) (flit 68 100));
   ("NVDA:A100_80G:SXM", mkHw (flit (2039 * giga) 1) (flit (312 * tera) 1) (flit (624 * tera) 1)
      (flit 27648000 1) (flit (80 * giga) 1) (flit 68 100));
   ("NVDA:A800_80G:SXM", mkHw (flit (2039 * giga) 1) (flit (312 * tera) 1) (flit (624 * tera) 1)
      (flit 27648000 1) (flit (80 * giga) 1) (flit 68 100));
   ("NVDA:A40S", mkHw (flit (696 * giga) 1) (flit (149700 * giga) 1) (flit (299300 * giga) 1)
      (flit 21504000 1) (flit (48 * giga) 1) (flit 30 100));
   ("NVDA:H100:SXM", mkHw (flit (3072 * giga) 1) (fhalf (flit (1979 * tera) 1)) (fhalf (flit (3958 * tera) 1))
      (flit 33792000 1) (flit (80 * giga) 1) (flit 156 100));
   ("NVDA:H100:PCIe", mkHw (flit (2048 * giga) 1) (fhalf (flit (1513 * tera) 1)) (fhalf (flit (3026 * tera) 1))
      (flit 29184000 1) (flit (80 * giga) 1) (flit 120 100));
   ("NVDA:L40S", mkHw (flit (864 * giga) 1) (flit (181 * tera) 1) (flit (362 * tera) 1)
      (flit 36352000 1) (flit (48 * giga) 1) (flit 44 100));
   ("NVDA:GH200", mkHw (flit (3072 * giga) 1) (fhalf (flit (1979 * tera) 1)) (fhalf (flit (3958 * tera) 1))
      (flit 33792000 1) (flit (80 * giga) 1) (flit 156 100))].

(** ** Model descriptions *)

Abbreviation attrs := (dict Z).

(** [getattr(obj, name)] *)
Definition getattr (a : attrs) (name : string) : res Z :=
  of_option (AttributeError name) (dict_get a name).
(** [getattr(obj, name, default)] *)
Definition getattr_default (a : attrs) (name : string) (v : Z) : Z := dict_get_default a name v.
(** [a // b] *)
Definition floordiv (a b : Z) : res Z := if b =? 0 then Raise ZeroDivisionError else Ok (a / b).

(** One entry of [post_process]: the layer that follows the transformer
    blocks in a stage. *)
Record LayerInfo := mkLayer {
  li_name : string; li_stage : string; li_OPs : num; li_load_weight : num; li_load_act : num;
  li_store_act : num }.

(** A model description package; a function the package does not define is
    absent. *)
Record ModelConfig := mkConfig {
  cfg_num_attention_heads : option (attrs → res Z);
  cfg_head_dim : option (attrs → res Z);
  cfg_hidden_size : option (attrs → res Z);
  cfg_num_key_value_heads : option (attrs → res Z);
  cfg_norm_layers : attrs → list string;
  cfg_num_hidden_layers : option (attrs → res Z);
  cfg_intermediate_size : option (attrs → res Z);
  cfg_vocab_size : option (attrs → res Z);
  cfg_post_process : attrs → Z → pyfloat → pyfloat → res (list LayerInfo);
  cfg_linear_layers : attrs → Z → res (list (string * (Z * Z)));
}.

Module Llama.
Definition get_num_attention_heads (p : attrs) : res Z := getattr p "num_attention_heads".
Definition get_hidden_size (p : attrs) : res Z := getattr p "hidden_size".
Definition get_head_dim (p : attrs) : res Z :=
  h ← get_hidden_size p; n ← get_num_attention_heads p; floordiv h n.
Definition get_num_key_value_heads (p : attrs) : res Z := getattr p "num_key_value_heads".
Definition get_norm_layers (p : attrs) : list string := ["attn_norm"; "mlp_norm"].
Definition get_num_hidden_layers (p : attrs) : res Z := getattr p "num_hidden_layers".
Definition get_intermediate_size (p : attrs) : res Z := getattr p "intermediate_size".
Definition get_vocab_size (p : attrs) : res Z := getattr p "vocab_size".

Definition post_process (p : attrs) (batchsize : Z) (a_byte w_byte : pyfloat) : res (list LayerInfo) :=
  hiddensize ← get_hidden_size p;
  vocab_size ← get_vocab_size p;
  mapR (fun stage =>
    load_weight ← nmul (NI (hiddensize * vocab_size)) (NF w_byte);
    load_act ← nmul (NI hiddensize) (NF a_byte);
    store_act ← nmul (NI vocab_size) (NF a_byte);
    Ok (mkLayer "lm_head" stage (NI (batchsize * hiddensize * vocab_size * 1)) load_weight load_act store_act))
  ["prefill"; "decode"].

(** The [assert]s on the tensor-parallel size. *)
Definition check_tp (hidden_size intermediate_size key_value_heads tp_size : Z) : res unit :=
  if negb (1 <? tp_size) then Ok tt
  else if negb (hidden_size mod tp_size =? 0) then Raise (AssertionError "")
  else if negb (intermediate_size mod tp_size =? 0) then Raise (AssertionError "")
  else if negb (key_value_heads mod tp_size =? 0) then Raise (AssertionError "")
  else Ok tt.

Definition get_linear_layers (p : attrs) (tp_size : Z) : res (list (string * (Z * Z))) :=
  hidden_size ← get_hidden_size p;
  intermediate_size ← get_intermediate_size p;
  key_value_heads ← get_num_key_value_heads p;
  attention_heads ← get_num_attention_heads p;
  _ ← check_tp hidden_size intermediate_size key_value_heads tp_size;
  h_tp ← floordiv hidden_size tp_size;
  kv0 ← floordiv (hidden_size * key_value_heads) attention_heads;
  kv_tp ← floordiv kv0 tp_size;
  i_tp ← floordiv intermediate_size tp_size;
  Ok [("q_proj", (hidden_size, h_tp));
      ("k_proj", (hidden_size, kv_tp));
      ("v_proj", (hidden_size, kv_tp));
      ("out_proj", (h_tp, hidden_size));
      ("gate_proj", (hidden_size, i_tp));
      ("up_proj", (hidden_size, i_tp));
      ("down_proj", (i_tp, hidden_size))].
End Llama.

Definition llama : ModelConfig :=
  mkConfig (Some Llama.get_num_attention_heads) (Some Llama.get_head_dim) (Some Llama.get_hidden_size)
    (Some Llama.get_num_key_value_heads) Llama.get_norm_layers (Some Llama.get_num_hidden_layers)
    (Some Llama.get_intermediate_size) (Some Llama.get_vocab_size)
    Llama.post_process Llama.get_linear_layers.

(** ** Properties *)

(** C29.  Whatever the caller passes, a parallel configuration that is
    accepted has both sizes at least 1, and normalising it again changes
    nothing; a type the function does not know is refused. *)
Theorem normalize_parallel_config_correct a c :
  _normalize_parallel_config a = Ok c →
  1 ≤ tensor_parallel_size c ∧ 1 ≤ pipeline_parallel_size c ∧
  _normalize_parallel_config (PConfig c) = Ok c.
Proof.
  assert (Hw : ∀ tp pp, 1 ≤ tp → 1 ≤ pp → with_defaults (mkParallel tp pp) = mkParallel tp pp).
  { intros. unfold with_defaults. simpl. f_equal; lia. }
  intros H. destruct c as [tp pp]. simpl.
  assert (Hb : 1 ≤ tp ∧ 1 ≤ pp).
  { destruct a as [|[tp' pp']|n|d|]; simpl in H; inv_res; simplify_eq; lia. }
  rewrite Hw; tauto.
Qed.

Lemma normalize_parallel_config_witness :
  1 ≤ 4 ∧ 1 ≤ 1 ∧ _normalize_parallel_config (PConfig (mkParallel 4 1)) = Ok (mkParallel 4 1).
Proof.
  apply (normalize_parallel_config_correct
    (PDict [("tensor_parallel_size", VStr "4"); ("pipeline_parallel_size", VInt (-2))]) (mkParallel 4 1)).
  reflexivity.
Defined.

(** The weights of a list of linear layers. *)
Definition linear_weights (ls : list (string * (Z * Z))) : Z :=
  foldr (fun '(_, (ic, oc)) acc => ic * oc + acc) 0 ls.

Lemma div_split a b : b ≠ 0 → a mod b = 0 → b * (a / b) = a.
Proof. intros Hb Hm. pose proof (Z.div_mod a b Hb). lia. Qed.

(** C28.  Tensor parallelism shards the weights of a Llama block evenly: when
    [get_linear_layers] accepts a tensor-parallel size and the head count
    divides the hidden size, the [tp] shards together hold exactly the weights
    of the unsharded block. *)
Theorem linear_layers_shard p tp ls ls1 h n :
  0 < tp → Llama.get_linear_layers p tp = Ok ls → Llama.get_linear_layers p 1 = Ok ls1 →
  getattr p "hidden_size" = Ok h → getattr p "num_attention_heads" = Ok n → h mod n = 0 →
  tp * linear_weights ls = linear_weights ls1.
Proof.
  intros Htp H H1 Hh Hn Hdiv. unfold Llama.get_linear_layers, Llama.get_hidden_size,
    Llama.get_num_attention_heads, Llama.get_intermediate_size, Llama.get_num_key_value_heads in *.
  rewrite Hh, Hn in H, H1. inv_res.
  unfold floordiv in *. destruct (Z.eqb_spec tp 0); [lia|]. destruct (Z.eqb_spec n 0); [done|].
  simpl in *. inv_res. rewrite !Z.div_1_r.
  match goal with H : getattr p "num_key_value_heads" = Ok ?k |- _ => set (kv := k) in * end.
  match goal with H : getattr p "intermediate_size" = Ok ?k |- _ => set (i := k) in * end.
  assert (Hc : h mod tp = 0 ∧ i mod tp = 0 ∧ kv mod tp = 0).
  { destruct (Z.ltb_spec 1 tp); [|assert (tp = 1) as -> by lia; rewrite !Z.mod_1_r; done].
    match goal with H : Llama.check_tp _ _ _ tp = Ok _ |- _ => unfold Llama.check_tp in H; rename H into Hk end.
    destruct (Z.ltb_spec 1 tp); [|lia]. simpl in Hk.
    destruct (Z.eqb_spec (h mod tp) 0), (Z.eqb_spec (i mod tp) 0), (Z.eqb_spec (kv mod tp) 0); done. }
  destruct Hc as (Hh' & Hi' & Hkv').
  assert (Hk : h * kv / n = (h / n) * kv).
  { rewrite <- (div_split h n) at 1 by done. rewrite <- Z.mul_assoc, Z.mul_comm. by apply Z.div_mul. }
  rewrite Hk. assert (Hkt : tp * (h / n * kv / tp) = h / n * kv).
  { apply div_split; [lia|]. rewrite Z.mul_mod, Hkv', Z.mul_0_r by lia. by apply Z.mod_0_l. }
  pose proof (div_split h tp ltac:(lia) Hh') as Eh. pose proof (div_split i tp ltac:(lia) Hi') as Ei.
  assert (Hs : ∀ x y, tp * x = y → tp * (h * x) = h * y ∧ tp * (x * h) = y * h) by (intros; subst; lia).
  destruct (Hs _ _ Eh), (Hs _ _ Ei), (Hs _ _ Hkt).
  unfold linear_weights. simpl. lia.
Qed.

Definition llama2_7b : attrs :=
  [("hidden_size", 4096); ("intermediate_size", 11008); ("num_key_value_heads", 32);
   ("num_attention_heads", 32); ("num_hidden_layers", 32); ("vocab_size", 32000)].

Lemma linear_layers_shard_witness :
  ∃ ls ls1, Llama.get_linear_layers llama2_7b 4 = Ok ls ∧ Llama.get_linear_layers llama2_7b 1 = Ok ls1 ∧
    4 * linear_weights ls = linear_weights ls1.
Proof.
  eexists _, _. split; [reflexivity|]. split; [reflexivity|].
  apply (linear_layers_shard llama2_7b 4 _ _ 4096 32); try reflexivity. 
Defined.
