(* ===== verification/Analyzer.v ===== *)
(** * The analytical performance model

    Models [simulator/core/roofline.py] and [simulator/core/model_analyzer.py]:
    the roofline bound of one operation, the per-layer results of a forward
    pass in the two stages (prefill and decode), their totals and memory
    footprints, and the time of a whole generation task.

    Python mixes [int] and [float] here; every expression is evaluated with
    the numeric tower of [PyFloat], exceptions included. *)

From Stdlib Require Import QArith Qround Lqa.
From S2P Require Import Prelude PyFloat PyStr Config.

#[local] Open Scope string_scope.
#[local] Open Scope list_scope.
#[local] Open Scope Z_scope.

(** ** Roofline *)

Inductive bound_type := MemoryBound | ComputeBound.

(** [roofline_analyze]: arithmetic intensity, achieved performance, bound. *)
Definition roofline_analyze (bandwidth max_OPS OPs memory_access : num) : res (num * num * bound_type) :=
  turning_point ← ndiv max_OPS bandwidth;
  arithmetic_intensity ← ndiv OPs memory_access;
  if nltb arithmetic_intensity turning_point
  then performance ← nmul arithmetic_intensity bandwidth;
       Ok (arithmetic_intensity, performance, MemoryBound)
  else Ok (arithmetic_intensity, max_OPS, ComputeBound).

(** ** Per-layer results *)

Record LayerResult := mkResult {
  r_OPs : num;
  r_memory_access : num;
  r_arithmetic_intensity : num;
  r_performance : num;
  r_bound : bound_type;
  r_load_weight : num;
  r_load_act : num;
  r_store_act : num;
  r_load_kv_cache : num;
  r_store_kv_cache : num;
  r_inference_time : num;
}.

(** The eight columns of [ALL_DATA_NAMES], which the totals add up. *)
Definition ALL_DATA_NAMES : list (string * (LayerResult → num)) :=
  [("OPs", r_OPs); ("memory_access", r_memory_access); ("load_weight", r_load_weight);
   ("load_act", r_load_act); ("store_act", r_store_act); ("load_kv_cache", r_load_kv_cache);
   ("store_kv_cache", r_store_kv_cache); ("inference_time", r_inference_time)].

Record ModelAnalyzer := mkAnalyzer {
  ma_hardware : string;
  ma_model_params : attrs;
  ma_config : option ModelConfig;
}.

(** [get_hardware_info] for the precisions of the current call. *)
Definition get_hardware_info (a : ModelAnalyzer) (w_bit a_bit kv_bit : Z) : res (pyfloat * pyfloat * pyfloat) :=
  hw ← dict_index hardware_params (ma_hardware a);
  let max_OPS := if (w_bit <=? 8) && (a_bit <=? 8) && (kv_bit <=? 8) then INT8 hw else FP16 hw in
  Ok (bandwidth hw, max_OPS, onchip_buffer hw).

#[local] Open Scope pynum_scope.

(** The quantities [_analyze_to_results] receives for one layer. *)
Record LayerArgs := mkArgs {
  a_OPs : res num; a_load_weight : res num; a_load_act : res num; a_store_act : res num;
  a_load_kv_cache : res num; a_store_kv_cache : res num }.

Definition _analyze_to_results (hw : pyfloat * pyfloat * pyfloat) (x : LayerArgs) : res LayerResult :=
  let '(bandwidth, max_OPS, _) := hw in
  OPs ← a_OPs x;
  load_weight ← a_load_weight x;
  load_act ← a_load_act x;
  store_act ← a_store_act x;
  load_kv_cache ← a_load_kv_cache x;
  store_kv_cache ← a_store_kv_cache x;
  memory_access ← Ok load_weight +ₙ Ok load_act +ₙ Ok store_act +ₙ Ok load_kv_cache +ₙ Ok store_kv_cache;
  '(arithmetic_intensity, performance, bound) ←
    roofline_analyze (NF bandwidth) (NF max_OPS) OPs memory_access;
  inference_time ← ndiv OPs performance;
  Ok (mkResult OPs memory_access arithmetic_intensity performance bound load_weight load_act store_act
        load_kv_cache store_kv_cache inference_time).

Inductive stage := Prefill | Decode.
Definition stage_name (s : stage) : string :=
  match s with Prefill => "prefill" | Decode => "decode" end.

(** The arguments of a call of [analyze] and the values it derives from them. *)
Record Shape := mkShape {
  sh_batchsize : Z; sh_seqlen : Z; sh_w_byte : pyfloat; sh_a_byte : pyfloat; sh_kv_byte : pyfloat;
  sh_heads : Z; sh_hidden : Z; sh_kv_heads : Z; sh_layers : Z; sh_head_size : Z }.

(** Tokens processed per sequence in a stage: one in decode, all in prefill. *)
Definition stage_tokens (s : stage) (sh : Shape) : Z :=
  match s with Prefill => sh_seqlen sh | Decode => 1 end.

Definition linear_args (s : stage) (sh : Shape) (name : string) (ic oc : Z) : LayerArgs :=
  let is_kv_proj := bool_decide (name ∈ ["k_proj"; "v_proj"]) in
  let tokens := match s with Prefill => sh_batchsize sh * sh_seqlen sh | Decode => sh_batchsize sh end in
  mkArgs (int (ic * oc * tokens * 2))
    (int (ic * oc) *ₙ flo (sh_w_byte sh))
    (int (ic * tokens) *ₙ flo (sh_a_byte sh))
    (if is_kv_proj then int 0 else int (oc * tokens) *ₙ flo (sh_a_byte sh))
    (int 0)
    (if is_kv_proj then int (oc * tokens) *ₙ flo (sh_kv_byte sh) else int 0).

(** [fused_attention] of a stage. *)
Definition attention_args (s : stage) (sh : Shape) (onchip : pyfloat) : res LayerArgs :=
  let q := stage_tokens s sh in
  let qk_matmul_OPs := q * sh_seqlen sh * sh_head_size sh * sh_heads sh * sh_batchsize sh * 2 in
  let sv_matmul_OPs := q * sh_head_size sh * sh_seqlen sh * sh_heads sh * sh_batchsize sh * 2 in
  let softmax_OPs := sh_batchsize sh * sh_heads sh * sh_seqlen sh * q * 5 in
  ratio ← flo onchip /ₙ (flo (sh_kv_byte sh) *ₙ int (sh_head_size sh));
  rows ← nceil ratio;
  let block_size_r := Z.min rows (sh_head_size sh) in
  blocks ← int q /ₙ int block_size_r;
  n_blocks_r ← nceil blocks;
  let q_numel := int (q * sh_head_size sh * sh_batchsize sh * sh_heads sh) *ₙ flo (sh_a_byte sh) in
  let o_numel := int (q * sh_seqlen sh * sh_batchsize sh * sh_heads sh) *ₙ flo (sh_a_byte sh) in
  Ok (mkArgs (int (qk_matmul_OPs + sv_matmul_OPs + softmax_OPs)) (int 0) q_numel (o_numel *ₙ int 2)
        (int (n_blocks_r * sh_seqlen sh * sh_head_size sh * sh_batchsize sh * sh_kv_heads sh)
           *ₙ flo (sh_kv_byte sh) *ₙ int 2)
        (int 0)).

(** A layer without weights: [factor] operations per element, and the inputs
    read once or, for [mlp_act], twice. *)
Definition elementwise_args (s : stage) (sh : Shape) (factor : Z) (twice : bool) : LayerArgs :=
  let numel := sh_batchsize sh * sh_hidden sh * stage_tokens s sh in
  let act := int numel *ₙ flo (sh_a_byte sh) in
  mkArgs (int (numel * factor)) (int 0) (if twice then act *ₙ int 2 else act) act (int 0) (int 0).

Abbreviation results := (dict LayerResult).

(** [self.results[stage][name] = ...] for a list of layers in order. *)
Definition analyze_layers (hw : pyfloat * pyfloat * pyfloat) (ls : list (string * res LayerArgs))
    (r : results) : res results :=
  foldR (fun r '(name, x) => args ← x; lr ← _analyze_to_results hw args; Ok (dict_set r name lr)) r ls.

Definition block_layers (s : stage) (sh : Shape) (onchip : pyfloat) (norms : list string)
    : list (string * res LayerArgs) :=
  [("fused_attention", attention_args s sh onchip)] ++
  map (fun n => (n, Ok (elementwise_args s sh 7 false))) norms ++
  map (fun n => (n, Ok (elementwise_args s sh 1 false))) ["attn_add"; "mlp_add"] ++
  [("mlp_act", Ok (elementwise_args s sh 2 true))].

(** ** Totals *)

(** [total += value * num_hidden_layers] over the layers of a stage. *)
Definition total_of (proj : LayerResult → num) (layers : Z) (r : results) : res num :=
  foldR (fun acc lr => v ← nmul (proj lr) (NI layers); nadd acc v) (NI 0) (dict_values r).

Definition sum_of (proj : LayerResult → num) (r : results) : res num :=
  foldR (fun acc lr => nadd acc (proj lr)) (NI 0) (dict_values r).

Definition totals (layers : Z) (r : results) : res (dict num) :=
  mapR (fun '(name, proj) => v ← total_of proj layers r; Ok (name, v)) ALL_DATA_NAMES.

(** The memory columns added to the totals of a stage. *)
Definition memory_columns (tmp_act load_weight store_kv : num) (tot : dict num) : res (dict num) :=
  weight_kv ← nadd load_weight store_kv;
  mc ← nadd tmp_act weight_kv;
  Ok (dict_set (dict_set (dict_set (dict_set tot "memory_consumption" mc)
        "memory_consumption_tmp_act" tmp_act) "memory_consumption_weight" load_weight)
        "memory_consumption_kv_cache" store_kv).

(** [total += result of the layer], for the layers of [post_process]. *)
Definition add_post (tot : dict num) (lr : LayerResult) : res (dict num) :=
  foldR (fun tot '(name, proj) =>
    old ← dict_index tot name; new ← nadd old (proj lr); Ok (dict_set tot name new))
  tot ALL_DATA_NAMES.

Record Analysis := mkAnalysis {
  an_decode : results;
  an_prefill : results;
  an_total_decode : dict num;
  an_total_prefill : dict num;
}.

Definition need (o : option (attrs → res Z)) (name : string) (p : attrs) : res Z :=
  match o with Some f => f p | None => Raise (AttributeError name) end.

(** The layers [post_process] adds, each to its stage. *)
Definition apply_post (hw : pyfloat * pyfloat * pyfloat) (an : Analysis) (li : LayerInfo) : res Analysis :=
  lr ← _analyze_to_results hw
         (mkArgs (Ok (li_OPs li)) (Ok (li_load_weight li)) (Ok (li_load_act li)) (Ok (li_store_act li))
            (int 0) (int 0));
  if bool_decide (li_stage li = "decode") then
    tot ← add_post (an_total_decode an) lr;
    Ok (mkAnalysis (dict_set (an_decode an) (li_name li) lr) (an_prefill an) tot (an_total_prefill an))
  else if bool_decide (li_stage li = "prefill") then
    tot ← add_post (an_total_prefill an) lr;
    Ok (mkAnalysis (an_decode an) (dict_set (an_prefill an) (li_name li) lr) (an_total_decode an) tot)
  else Raise (KeyError (li_stage li)).

Definition analyze (a : ModelAnalyzer) (seqlen batchsize w_bit a_bit : Z) (kv_bit : option Z)
    (tp_size : Z) : res Analysis :=
  if negb (0 <? seqlen) then Raise (AssertionError "") else
  if negb (0 <? batchsize) then Raise (AssertionError "") else
  let kv_bit := default a_bit kv_bit in
  w_byte ← int_truediv w_bit 8;
  a_byte ← int_truediv a_bit 8;
  kv_byte ← int_truediv kv_bit 8;
  let p := ma_model_params a in
  c ← of_option (AttributeError "get_num_attention_heads") (ma_config a);
  heads ← need (cfg_num_attention_heads c) "get_num_attention_heads" p;
  hidden ← need (cfg_hidden_size c) "get_hidden_size" p;
  kv_heads ← need (cfg_num_key_value_heads c) "get_num_key_value_heads" p;
  layers ← need (cfg_num_hidden_layers c) "get_num_hidden_layers" p;
  linear ← cfg_linear_layers c p tp_size;
  hw ← get_hardware_info a w_bit a_bit kv_bit;
  let sh0 := mkShape batchsize seqlen w_byte a_byte kv_byte heads hidden kv_heads layers 0 in
  (* linear layers, decode and prefill in turn *)
  '(dec1, pre1) ← foldR (fun '(d, r) '(name, (ic, oc)) =>
      d' ← analyze_layers hw [(name, Ok (linear_args Decode sh0 name ic oc))] d;
      r' ← analyze_layers hw [(name, Ok (linear_args Prefill sh0 name ic oc))] r;
      Ok (d', r')) ([], []) linear;
  head_size ← floordiv hidden heads;
  let sh := mkShape batchsize seqlen w_byte a_byte kv_byte heads hidden kv_heads layers head_size in
  let norms := cfg_norm_layers c p in
  dec ← analyze_layers hw (block_layers Decode sh (snd hw) norms) dec1;
  pre ← analyze_layers hw (block_layers Prefill sh (snd hw) norms) pre1;
  tot_dec ← totals layers dec;
  tot_pre ← totals layers pre;
  load_weight ← dict_index tot_pre "load_weight";
  store_kv ← dict_index tot_pre "store_kv_cache";
  dec_act ← sum_of r_store_act dec;
  tot_dec ← memory_columns dec_act load_weight store_kv tot_dec;
  pre_act ← sum_of r_store_act pre;
  tot_pre ← memory_columns pre_act load_weight store_kv tot_pre;
  post ← cfg_post_process c p batchsize a_byte w_byte;
  foldR (apply_post hw) (mkAnalysis dec pre tot_dec tot_pre) post.

(** ** Whole generation tasks *)

Record TaskTime := mkTask { tk_inference_time : num; tk_prefill_time : num; tk_tpot : num }.

Definition analyze_generate_task (a : ModelAnalyzer) (prompt_len gen_len batchsize w_bit a_bit : Z)
    (kv_bit : option Z) (tp_size : Z) : res TaskTime :=
  pre ← analyze a prompt_len batchsize w_bit a_bit kv_bit tp_size;
  prefill_time ← dict_index (an_total_prefill pre) "inference_time";
  inference_time ← foldR (fun acc i =>
      r ← analyze a i batchsize w_bit a_bit kv_bit tp_size;
      t ← dict_index (an_total_decode r) "inference_time";
      nadd acc t) prefill_time (zrange prompt_len gen_len);
  tpot ← ndiv inference_time (NI gen_len);
  Ok (mkTask inference_time prefill_time tpot).

Definition get_model_info (a : ModelAnalyzer) : res bool :=
  c ← of_option (AttributeError "get_num_attention_heads") (ma_config a);
  h ← need (cfg_num_attention_heads c) "get_num_attention_heads" (ma_model_params a);
  k ← need (cfg_num_key_value_heads c) "get_num_key_value_heads" (ma_model_params a);
  Ok (negb (h =? k)).

(** ** The roofline bound *)

#[local] Close Scope pynum_scope.

(** A finite float that exists and is positive. *)
Definition pos_float (f : pyfloat) : Prop :=
  match f with FFin m e => fwf (FFin m e) ∧ 0 < m | _ => False end.

Lemma fval_pos m e : (0 < m)%Z → (0 < fval m e)%Q.
Proof.
  intros Hm. unfold fval. pose proof (pow2_pos e). rewrite Zlt_Qlt in Hm. unfold inject_Z in *. nra.
Qed.

(** The two divisions of the model return a float that exists. *)
Lemma ndiv_float a b c : ndiv a b = Ok c → ∃ f, c = NF f ∧ fwf f.
Proof.
  unfold ndiv. destruct a as [x|x], b as [y|y]; intros; inv_res; eexists; split; try reflexivity;
    try (by eapply fdiv_wf).
  unfold int_truediv in *. case_match; [done|].
  match goal with H : context [rnd ?q] |- _ => pose proof (rnd_wf q); destruct (rnd q) end; inv_res; done.
Qed.

(** A float below a rounded quotient is below the exact quotient: rounding is
    monotone and leaves floats alone. *)
Lemma below_rounded m e x : fwf (FFin m e) → flt (FFin m e) (rnd x) → (fval m e < x)%Q.
Proof.
  intros Hwf Hlt. apply Qnot_le_lt. intros Hle. apply rnd_mono in Hle.
  rewrite rnd_id in Hle by done. unfold flt in Hlt.
  destruct (fle_not_nan _ _ Hle) as [H1 H2]. rewrite fltb_not_fleb in Hlt by done.
  unfold fle in Hle. by rewrite Hle in Hlt.
Qed.

Lemma roofline_cases bw mx OPs mem ai perf b :
  pos_float bw → pos_float mx → roofline_analyze (NF bw) (NF mx) OPs mem = Ok (ai, perf, b) →
  nleb perf (NF mx) = true ∧ (b = ComputeBound → perf = NF mx).
Proof.
  destruct bw as [mb eb| |], mx as [mm em| |]; try done.
  intros [Hb1 Hb2] [Hm1 Hm2] H. unfold roofline_analyze in H. inv_res.
  match goal with H : ndiv OPs mem = Ok ?x |- _ => destruct (ndiv_float _ _ _ H) as (f & -> & Hf) end.
  assert (Hrefl : nleb (NF (FFin mm em)) (NF (FFin mm em)) = true) by (by apply fle_refl).
  match goal with H : context [nltb ?x ?y] |- _ => destruct (nltb x y) eqn:Hlt end; simplify_eq; [|done].
  inv_res. simplify_eq. split; [|done]. unfold nltb, nleb in *. simpl in *.
  destruct mb as [|mb|]; try lia. simpl in *. inv_res. simpl in *.
  destruct f as [mf ef|[]|]; simpl in *; try done.
  - apply below_rounded in Hlt; [|done]. change (fle (rnd (fval mf ef * fval (Zpos mb) eb)) (FFin mm em)).
    rewrite <- (rnd_id mm em) by done. apply rnd_mono. apply Qlt_le_weak.
    pose proof (fval_pos (Zpos mb) eb ltac:(lia)) as Hp.
    apply (Qmult_lt_r _ _ _ Hp) in Hlt.
    eapply Qlt_le_trans; [exact Hlt|]. unfold Qdiv. rewrite <- Qmult_assoc.
    rewrite (Qmult_comm (/ _)), Qmult_inv_r by lra. lra.
  - exfalso. by destruct (rnd _) as [| [] |].
Qed.

(** Every entry of the hardware table has positive bandwidth and peaks. *)
Definition pos_floatb (f : pyfloat) : bool :=
  match f with
  | FFin m e => (2 ^ 52 <=? m) && (m <? 2 ^ 53) && (-1074 <=? e) && (e <=? 971)
  | _ => false
  end.

Lemma pos_floatb_spec f : pos_floatb f = true → pos_float f.
Proof. destruct f; simpl; [|done..]. intros. split; lia. Qed.

Lemma hardware_positive name hw :
  dict_get hardware_params name = Some hw →
  pos_float (bandwidth hw) ∧ pos_float (FP16 hw) ∧ pos_float (INT8 hw).
Proof.
  intros H%dict_get_Some_in.
  assert (forallb (fun kv => pos_floatb (bandwidth kv.2) && pos_floatb (FP16 kv.2) && pos_floatb (INT8 kv.2))
    hardware_params = true) as HF by (by vm_compute).
  rewrite forallb_forall in HF. rewrite list_elem_of_In in H. apply HF in H. simpl in H.
  apply andb_true_iff in H as [[H1 H2]%andb_true_iff H3]. by split_and!; apply pos_floatb_spec.
Qed.

Lemma get_hardware_info_positive a w_bit a_bit kv_bit bw mx buf :
  get_hardware_info a w_bit a_bit kv_bit = Ok (bw, mx, buf) → pos_float bw ∧ pos_float mx.
Proof.
  unfold get_hardware_info, dict_index, of_option. intros H. inv_res. simplify_eq.
  destruct (dict_get hardware_params (ma_hardware a)) eqn:Ed; inv_res.
  destruct (hardware_positive _ _ Ed) as (H1 & H2 & H3). split; [done|]. by case_ifs.
Qed.

Lemma int_as_float o f : 0 ≤ o → float_of_int o = Ok f → ∃ m e, f = FFin m e ∧ 0 ≤ m ∧ fwf f.
Proof.
  intros Ho. unfold float_of_int. pose proof (rnd_wf (inject_Z o)) as Hwf.
  assert (Hle : fle fzero (rnd (inject_Z o))).
  { change fzero with (rnd 0). apply rnd_mono. rewrite Zle_Qle in Ho. exact Ho. }
  destruct (rnd (inject_Z o)) as [m e| |]; intros; inv_res; [|done].
  exists m, e. split_and!; try done. apply fleb_fin in Hle. rewrite fval_0 in Hle. by apply (fval_nonneg m e).
Qed.

Lemma ndiv_int_antimono o p q t t' :
  0 ≤ o → pos_float p → pos_float q → fle p q →
  ndiv (NI o) (NF q) = Ok t → ndiv (NI o) (NF p) = Ok t' → nleb t t' = true.
Proof.
  intros Ho Hp Hq Hle H H'. unfold ndiv in *. simpl in *. inv_res.
  match goal with H : float_of_int o = Ok _ |- _ => destruct (int_as_float _ _ Ho H) as (m & e & -> & Hm & _) end.
  destruct p as [mp ep| |], q as [mq eq| |]; try done. destruct Hp as [_ Hp], Hq as [_ Hq].
  destruct mp as [|mp|]; try lia. destruct mq as [|mq|]; try lia. simpl in *. inv_res.
  unfold nleb. simpl. apply rnd_mono. apply fleb_fin in Hle.
  pose proof (fval_pos (Zpos mp) ep ltac:(lia)). pose proof (fval_pos (Zpos mq) eq ltac:(lia)).
  pose proof (proj1 (fval_nonneg m e) Hm). unfold Qdiv. rewrite !(Qmult_comm (fval m e)).
  apply Qmult_le_compat_r; [|done].
  apply Qle_shift_inv_r; [done|]. rewrite Qmult_comm. apply Qle_shift_div_l; [done|]. by rewrite Qmult_1_l.
Qed.

(** C25.  The roofline model never credits a layer with more than the peak of
    its hardware: on every entry of the hardware table, the performance
    computed for a layer is at most the peak of the precision in use, rounding
    included, it is the peak itself in the compute-bound case, and the layer's
    time is at least its operations divided by that peak. *)
Theorem layer_within_roofline a w_bit a_bit kv_bit bw mx buf x lr o t :
  get_hardware_info a w_bit a_bit kv_bit = Ok (bw, mx, buf) →
  _analyze_to_results (bw, mx, buf) x = Ok lr → a_OPs x = Ok (NI o) →
  nleb (r_performance lr) (NF mx) = true ∧
  (r_bound lr = ComputeBound → r_performance lr = NF mx) ∧
  (0 ≤ o → nltb (NI 0) (r_performance lr) = true → ndiv (NI o) (NF mx) = Ok t →
   nleb t (r_inference_time lr) = true).
Proof.
  intros Hhw H Ho. destruct (get_hardware_info_positive _ _ _ _ _ _ _ Hhw) as [Hbw Hmx].
  unfold _analyze_to_results in H. rewrite Ho in H. inv_res.
  match goal with p : num * num * bound_type |- _ => destruct p as [[ai perf] b] end. inv_res. simpl.
  match goal with H : roofline_analyze _ _ _ _ = _ |- _ => rename H into Hr end.
  destruct (roofline_cases _ _ _ _ _ _ _ Hbw Hmx Hr) as [H1 H2].
  split_and!; [done|done|]. intros Ho' Hpos Ht.
  assert (Hp : ∃ p, perf = NF p ∧ pos_float p).
  { unfold roofline_analyze in Hr. inv_res.
    match goal with H : ndiv (NI o) _ = Ok ?x, _ : nltb ?x _ = _ |- _ => idtac | _ => idtac end.
    match goal with H : context [if ?c then _ else _] |- _ => destruct c end; inv_res; simplify_eq; eauto.
    match goal with H : nmul ?ai _ = Ok perf |- _ => rename H into Hmul end.
    match type of Hmul with nmul ?z _ = _ =>
      match goal with H : ndiv _ _ = Ok z |- _ => destruct (ndiv_float _ _ _ H) as (f & -> & Hf) end end.
    unfold nmul, narith in Hmul. simpl in Hmul. inv_res. eexists; split; [done|].
    destruct bw as [mb eb| |]; try done. destruct Hbw as [Hb _].
    pose proof (fmul_wf _ _ Hf Hb) as Hw. unfold nltb, nleb in *. simpl in *.
    destruct (fmul f (FFin mb eb)) as [m e|[]|]; try done.
    - split; [done|]. apply fltb_fin in Hpos. rewrite fval_0 in Hpos.
      destruct (Z.lt_trichotomy m 0) as [Hm|[->|Hm]]; [|rewrite fval_0 in Hpos; lra|done].
      exfalso. assert (¬ (0 ≤ m)) by lia. apply H. apply (fval_nonneg m e). lra.
    - by destruct mx. }
  destruct Hp as (p & -> & Hp). by eapply (ndiv_int_antimono o p mx).
Qed.

(** [q_proj] of Llama-2-7B on an A100, a prompt of 64 tokens. *)
Definition demo_args : LayerArgs :=
  linear_args Prefill (mkShape 1 64 (flit 2 1) (flit 2 1) (flit 2 1) 32 4096 32 32 0) "q_proj" 4096 4096.

Lemma layer_within_roofline_witness :
  ∃ lr, _analyze_to_results (flit (1555 * giga) 1, flit (312 * tera) 1, flit 27648000 1) demo_args = Ok lr ∧
    nleb (r_performance lr) (NF (flit (312 * tera) 1)) = true.
Proof.
  destruct (_analyze_to_results (flit (1555 * giga) 1, flit (312 * tera) 1, flit 27648000 1) demo_args)
    as [lr|e] eqn:H; [|vm_compute in H; discriminate H].
  exists lr. split; [reflexivity|].
  refine (proj1 (layer_within_roofline (mkAnalyzer "NVDA:A100" llama2_7b (Some llama)) 16 16 16
    (flit (1555 * giga) 1) (flit (312 * tera) 1) (flit 27648000 1) demo_args lr (4096 * 4096 * 64 * 2) (NI 0)
    _ H eq_refl)).
  vm_compute. reflexivity.
Defined.

(** ** The operation counts of a forward pass *)

(** The [OPs] column of a stage, by layer name. *)
Definition ops_of (r : results) : dict num := map (fun '(k, lr) => (k, r_OPs lr)) r.

Lemma ops_of_set r k lr : ops_of (dict_set r k lr) = dict_set (ops_of r) k (r_OPs lr).
Proof.
  induction r as [|[k' lr'] r IH]; simpl; [done|]. case_bool_decide; simpl; [done|]. by rewrite IH.
Qed.

Lemma results_ops hw x lr : _analyze_to_results hw x = Ok lr → a_OPs x = Ok (r_OPs lr).
Proof.
  destruct hw as [[bw mx] buf]. unfold _analyze_to_results. intros H. inv_res.
  match goal with p : num * num * bound_type |- _ => destruct p as [[ai perf] b] end. by inv_res.
Qed.

(** Adding layers whose operation counts are the integers [os]. *)
Lemma analyze_layers_ops hw ls r r' os :
  analyze_layers hw ls r = Ok r' →
  map fst ls = map fst os →
  (∀ i name x args o, ls !! i = Some (name, x) → os !! i = Some (name, o) → x = Ok args → a_OPs args = Ok o) →
  ops_of r' = fold_left (fun d '(k, o) => dict_set d k o) os (ops_of r).
Proof.
  unfold analyze_layers. revert r os.
  induction ls as [|[name x] ls IH]; intros r [|[name' o] os] H Hn Ho; try done.
  { simpl in H. by inv_res. }
  simpl in H. simplify_eq/=. inv_res.
  erewrite IH; [|done|done|intros i; exact (Ho (S i))].
  rewrite ops_of_set. do 2 f_equal.
  match goal with H : _analyze_to_results _ ?a = Ok _ |- _ =>
    apply results_ops in H; rewrite (Ho O name' _ a o eq_refl eq_refl eq_refl) in H end.
  by simplify_eq.
Qed.

Definition Zsum (l : list Z) : Z := foldr Z.add 0 l.

Lemma total_ops layers r os :
  map snd (ops_of r) = map NI os → total_of r_OPs layers r = Ok (NI (layers * Zsum os)).
Proof.
  intros H. unfold total_of, dict_values.
  enough (HH : ∀ acc, foldR (fun acc lr => v ← nmul (r_OPs lr) (NI layers); nadd acc v) (NI acc) (map snd r)
    = Ok (NI (acc + layers * Zsum os))) by exact (HH 0).
  revert os H. induction r as [|[k lr] r IH]; intros [|o os] H acc; try done; simpl.
  { do 2 f_equal. lia. }
  simpl in H. injection H as H1 H. rewrite H1. simpl. rewrite (IH _ H). do 2 f_equal. lia.
Qed.

Lemma totals_ops layers r tot os :
  totals layers r = Ok tot → map snd (ops_of r) = map NI os →
  dict_get tot "OPs" = Some (NI (layers * Zsum os)).
Proof.
  unfold totals, ALL_DATA_NAMES. intros H Ho. cbn [mapR] in H. rewrite (total_ops _ _ _ Ho) in H.
  unfold mbind, res_bind in H. inv_res. reflexivity.
Qed.

Lemma memory_columns_ops x y z tot tot' :
  memory_columns x y z tot = Ok tot' → dict_get tot' "OPs" = dict_get tot "OPs".
Proof. unfold memory_columns. intros H. inv_res. by rewrite !dict_get_set_ne by done. Qed.

Lemma add_post_ops tot lr tot' x y :
  add_post tot lr = Ok tot' → dict_get tot "OPs" = Some (NI x) → r_OPs lr = NI y →
  dict_get tot' "OPs" = Some (NI (x + y)).
Proof.
  unfold add_post, ALL_DATA_NAMES. cbn [foldR]. intros H Hx Hy.
  assert (Hi : dict_index tot "OPs" = Ok (NI x)) by (unfold dict_index; by rewrite Hx).
  rewrite Hi, Hy in H. inv_res. match goal with H : nadd (NI x) (NI y) = Ok _ |- _ => simpl in H; inv_res end. rewrite !dict_get_set_ne by done. by rewrite dict_get_set_eq.
Qed.

(** The operation counts of one block: the linear layers of weights [w], the
    attention over [q] query and [s] key positions, the norms and the
    element-wise layers. *)
Definition block_ops (w q s head_size heads hidden batch : Z) : Z :=
  2 * batch * q * w
  + batch * heads * q * s * (4 * head_size + 5)
  + 18 * batch * hidden * q.

(** The operation counts of the layers of a stage, in the order [analyze]
    records them. *)
Definition linear_ops (s : stage) (sh : Shape) (ls : list (string * (Z * Z))) : dict num :=
  map (fun '(n, (ic, oc)) => (n, NI (ic * oc * (sh_batchsize sh * stage_tokens s sh) * 2))) ls.

Definition rest_ops (s : stage) (sh : Shape) : dict num :=
  let q := stage_tokens s sh in
  let numel := sh_batchsize sh * sh_hidden sh * q in
  [("fused_attention", NI (q * sh_seqlen sh * sh_head_size sh * sh_heads sh * sh_batchsize sh * 2
      + q * sh_head_size sh * sh_seqlen sh * sh_heads sh * sh_batchsize sh * 2
      + sh_batchsize sh * sh_heads sh * sh_seqlen sh * q * 5));
   ("attn_norm", NI (numel * 7)); ("mlp_norm", NI (numel * 7));
   ("attn_add", NI (numel * 1)); ("mlp_add", NI (numel * 1)); ("mlp_act", NI (numel * 2))].

Abbreviation add_all := (fold_left (fun (d : dict num) '(k, o) => dict_set d k o)).

Lemma linear_args_ops s sh name ic oc :
  a_OPs (linear_args s sh name ic oc) = Ok (NI (ic * oc * (sh_batchsize sh * stage_tokens s sh) * 2)).
Proof. destruct s; simpl; unfold int; do 2 f_equal; lia. Qed.

Lemma analyze_linear_ops hw sh ls d r d' r' :
  foldR (fun '(d, r) '(name, (ic, oc)) =>
      d' ← analyze_layers hw [(name, Ok (linear_args Decode sh name ic oc))] d;
      r' ← analyze_layers hw [(name, Ok (linear_args Prefill sh name ic oc))] r;
      Ok (d', r')) (d, r) ls = Ok (d', r') →
  ops_of d' = add_all (linear_ops Decode sh ls) (ops_of d) ∧
  ops_of r' = add_all (linear_ops Prefill sh ls) (ops_of r).
Proof.
  revert d r. induction ls as [|[n [ic oc]] ls IH]; intros d r H; cbn [foldR] in H; inv_res; [done|].
  destruct (IH _ _ H) as [-> ->]. cbn [linear_ops map fold_left].
  assert (Hone : ∀ s r r', analyze_layers hw [(n, Ok (linear_args s sh n ic oc))] r = Ok r' →
    ops_of r' = dict_set (ops_of r) n (NI (ic * oc * (sh_batchsize sh * stage_tokens s sh) * 2))).
  { intros s r0 r1 Hr. rewrite (analyze_layers_ops _ _ _ _
      [(n, NI (ic * oc * (sh_batchsize sh * stage_tokens s sh) * 2))] Hr eq_refl); [done|].
    intros [|i] name x args o Hx Ho Ha; [|done]. cbn in Ho. injection Hx as <- <-.
    injection Ho as <-. injection Ha as <-. apply linear_args_ops. }
  split; f_equal; eapply Hone; eassumption.
Qed.

Lemma analyze_rest_ops hw s sh p r r' :
  analyze_layers hw (block_layers s sh (snd hw) (Llama.get_norm_layers p)) r = Ok r' →
  ops_of r' = add_all (rest_ops s sh) (ops_of r).
Proof.
  intros H. apply (analyze_layers_ops _ _ _ _ _ H); [done|].
  intros i name x args o Hx Ho ->.
  destruct i as [|i].
  { cbn in Ho. injection Hx as <- Hx. injection Ho as <-. unfold attention_args in Hx. inv_res. reflexivity. }
  do 5 (destruct i as [|i]; [simpl in Hx, Ho; simplify_eq; reflexivity|]). by destruct i.
Qed.

Lemma linear_layers_names p tp ls :
  Llama.get_linear_layers p tp = Ok ls → 
  map fst ls = ["q_proj"; "k_proj"; "v_proj"; "out_proj"; "gate_proj"; "up_proj"; "down_proj"].
Proof. unfold Llama.get_linear_layers. intros H. inv_res. reflexivity. Qed.

(** All the layers of a stage together. *)
Lemma stage_total_ops s p tp ls sh0 sh r :
  Llama.get_linear_layers p tp = Ok ls →
  ops_of r = add_all (rest_ops s sh) (add_all (linear_ops s sh0 ls) []) →
  sh_batchsize sh0 = sh_batchsize sh → sh_seqlen sh0 = sh_seqlen sh →
  ∃ os, map snd (ops_of r) = map NI os ∧
    Zsum os = block_ops (linear_weights ls) (stage_tokens s sh) (sh_seqlen sh) (sh_head_size sh)
                (sh_heads sh) (sh_hidden sh) (sh_batchsize sh).
Proof.
  intros Hls -> Hb Hs. pose proof (linear_layers_names _ _ _ Hls) as Hn.
  assert (Ht : stage_tokens s sh0 = stage_tokens s sh) by (destruct s; done).
  unfold linear_ops, rest_ops. rewrite Ht, Hb.
  do 7 (destruct ls as [|[? [? ?]] ls]; [done|]). destruct ls; [|done].
  simpl in Hn. simplify_eq. simpl. eexists (_ :: _ :: _ :: _ :: _ :: _ :: _ :: _ :: _ :: _ :: _ :: _ :: [_]).
  split; [reflexivity|]. unfold Zsum, block_ops. simpl. lia.
Qed.

Lemma post_ops hw p batch ab wb post an an' x y hidden vocab :
  Llama.post_process p batch ab wb = Ok post →
  getattr p "hidden_size" = Ok hidden → getattr p "vocab_size" = Ok vocab →
  foldR (apply_post hw) an post = Ok an' →
  dict_get (an_total_decode an) "OPs" = Some (NI x) → dict_get (an_total_prefill an) "OPs" = Some (NI y) →
  dict_get (an_total_decode an') "OPs" = Some (NI (x + batch * hidden * vocab)) ∧
  dict_get (an_total_prefill an') "OPs" = Some (NI (y + batch * hidden * vocab)).
Proof.
  unfold Llama.post_process, Llama.get_hidden_size, Llama.get_vocab_size. intros Hp Hh Hv H Hx Hy.
  rewrite Hh, Hv in Hp. cbn [mapR] in Hp. inv_res. cbn [foldR] in H. inv_res.
  unfold apply_post in *. cbn [li_stage] in *.
  repeat match goal with H : context [bool_decide (?a = ?b)] |- _ =>
    first [rewrite (bool_decide_eq_true_2 (a = b)) in H by done | rewrite (bool_decide_eq_false_2 (a = b)) in H by done] end.
  inv_res. cbn [an_total_decode an_total_prefill] in *.
  repeat match goal with H : _analyze_to_results _ _ = Ok _ |- _ => apply results_ops in H; simpl in H; injection H as H end.
  rewrite !Z.mul_1_r in *.
  split; (eapply add_post_ops; [eassumption|done|by symmetry]).
Qed.

(** C26.  The operation counts of a forward pass of a Llama model: whenever
    [analyze] returns, the total of each stage is [num_hidden_layers] times the
    operations of one block plus the output layer, where decode processes one
    token against [seqlen] cached ones and prefill all [seqlen] tokens. *)
Theorem analyze_total_ops a seqlen batch w_bit a_bit kv_bit tp an heads hidden layers vocab ls :
  analyze a seqlen batch w_bit a_bit kv_bit tp = Ok an → ma_config a = Some llama →
  getattr (ma_model_params a) "num_attention_heads" = Ok heads →
  getattr (ma_model_params a) "hidden_size" = Ok hidden →
  getattr (ma_model_params a) "num_hidden_layers" = Ok layers →
  getattr (ma_model_params a) "vocab_size" = Ok vocab →
  Llama.get_linear_layers (ma_model_params a) tp = Ok ls →
  let ops q := layers * block_ops (linear_weights ls) q seqlen (hidden / heads) heads hidden batch
               + batch * hidden * vocab in
  dict_get (an_total_decode an) "OPs" = Some (NI (ops 1)) ∧
  dict_get (an_total_prefill an) "OPs" = Some (NI (ops seqlen)).
Proof.
  intros H Hcfg Hheads Hhidden Hlayers Hvocab Hls. unfold analyze in H.
  rewrite Hcfg in H. simpl in H.
  destruct (negb (0 <? seqlen)); [done|]. destruct (negb (0 <? batch)); [done|].
  unfold Llama.get_num_attention_heads, Llama.get_hidden_size, Llama.get_num_hidden_layers in H.
  rewrite Hheads, Hhidden, Hlayers, Hls in H. inv_res.
  match goal with H : (let '(_, _) := ?p in _) = Ok _ |- _ => destruct p as [dec1 pre1] end. inv_res.
  repeat match goal with H : floordiv _ _ = Ok _ |- _ => unfold floordiv in H; destruct (heads =? 0); inv_res end.
  match goal with H : foldR _ ([], []) ls = _ |- _ => destruct (analyze_linear_ops _ _ _ _ _ _ _ H) as [Hd Hr] end.
  repeat match goal with H : analyze_layers _ _ _ = Ok _ |- _ => apply analyze_rest_ops in H end.
  rewrite Hd in *. rewrite Hr in *.
  repeat match goal with H : ops_of _ = add_all (rest_ops _ _) _ |- _ =>
    destruct (stage_total_ops _ _ _ _ _ _ _ Hls H eq_refl eq_refl) as (? & ? & ?); clear H end.
  repeat match goal with H : memory_columns _ _ _ _ = Ok _ |- _ => apply memory_columns_ops in H end.
  repeat match goal with H : totals _ _ = Ok _ |- _ => eapply totals_ops in H; [|eassumption] end.
  cbv zeta.
  eapply (post_ops _ _ _ _ _ _ _ _ _ _ _ _ ltac:(eassumption) Hhidden Hvocab H); simpl in *; congruence.
Qed.

Definition demo_analyzer : ModelAnalyzer := mkAnalyzer "NVDA:A100" llama2_7b (Some llama).

Lemma analyze_total_ops_witness :
  ∃ an, analyze demo_analyzer 128 1 16 16 None 1 = Ok an ∧
    dict_get (an_total_decode an) "OPs" =
      Some (NI (32 * block_ops 202375168 1 128 128 32 4096 1 + 1 * 4096 * 32000)).
Proof.
  destruct (analyze demo_analyzer 128 1 16 16 None 1) as [an|e] eqn:H; [|vm_compute in H; discriminate H].
  exists an. split; [reflexivity|].
  destruct (Llama.get_linear_layers llama2_7b 1) as [ls|] eqn:Hl; [|discriminate Hl].
  pose proof (proj1 (analyze_total_ops demo_analyzer 128 1 16 16 None 1 an 32 4096 32 32000 ls
    H eq_refl eq_refl eq_refl eq_refl eq_refl Hl)) as Ho.
  vm_compute in Hl. injection Hl as <-. exact Ho.
Defined.
