(* ===== verification/Arrival.v ===== *)
(** * Arrival processes

    Models [simulator/core/arrival.py]: the deterministic, gamma and Poisson
    arrival processes.  NumPy's generator is a parameter: the intervals its
    [k]-th call returns. *)

From Stdlib Require Import QArith Sorted.
From S2P Require Import Prelude PyFloat.

#[local] Open Scope string_scope.
#[local] Open Scope list_scope.
#[local] Open Scope Z_scope.

(** ** The interface

    What the cluster manager expects of [generate_arrivals(start, duration)]:
    instants in order, none before the start. *)

Definition in_order (start : pyfloat) (ticks : list pyfloat) : Prop :=
  StronglySorted fle ticks ∧ Forall (fun t => clock_ok t ∧ fle start t) ticks.

Class ArrivalSource (generate : pyfloat → pyfloat → res (list pyfloat)) : Prop :=
  arrivals_in_order : ∀ start duration ticks,
    clock_ok start → generate start duration = Ok ticks → in_order start ticks.

(** ** Deterministic arrivals *)

Record DeterministicProcess := mkDeterministic { det_rate : pyfloat }.

(** [start + i * interval] *)
Definition tick (start interval : pyfloat) (i : Z) : res pyfloat :=
  k ← float_of_int i; Ok (fadd start (fmul k interval)).

Definition deterministic_arrivals (p : DeterministicProcess) (start duration : pyfloat) : res (list pyfloat) :=
  n_requests ← py_int (fmul duration (det_rate p));
  interval ← fdiv fone (det_rate p);
  mapR (tick start interval) (zrange 0 n_requests).

(** [DeterministicProcess.generate_workload], which does not seed NumPy. *)
Definition deterministic_workload (p : DeterministicProcess) (start duration : pyfloat) : res (list pyfloat) :=
  n_requests ← py_int (fmul duration (det_rate p));
  interval ← fdiv fone (det_rate p);
  mapR (tick start interval) (zrange 0 n_requests).

(** ** Gamma and Poisson arrivals *)

Record GammaProcess := mkGamma { g_rate : pyfloat; g_cv : num; g_shape : num; g_scale : num }.

Definition GammaProcess_init (arrival_rate : pyfloat) (cv : num) : res GammaProcess :=
  cv2 ← nmul cv cv;
  shape ← ndiv (NI 1) cv2;
  scale ← ndiv cv2 (NF arrival_rate);
  Ok (mkGamma arrival_rate cv shape scale).

Definition PoissonProcess_init (arrival_rate : pyfloat) : res GammaProcess := GammaProcess_init arrival_rate (NI 1).

Section Gamma.
(** [np.random.gamma(shape, scale, size)], the [k]-th call. *)
Context (gamma : num → num → Z → nat → res (list pyfloat)).

Definition batch_size (p : GammaProcess) (duration : pyfloat) : res Z :=
  n ← py_int (fmul (fmul (g_rate p) duration) (flit 12 10));
  Ok (Z.max n 1).

(** The loop, after [k] calls of the generator; [None] when the fuel is spent. *)
Fixpoint gamma_loop (fuel : nat) (p : GammaProcess) (size : Z) (k : nat) (intervals : list pyfloat) (pt : Z)
    (cur end_ : pyfloat) : option (res (list pyfloat)) :=
  if fltb cur end_ then
    match fuel with
    | O => None
    | S fuel =>
        let refill := size <=? pt + 1 in
        match (if refill then gamma (g_shape p) (g_scale p) size k else Ok intervals) with
        | Raise ex => Some (Raise ex)
        | Ok intervals =>
            let pt := if refill then 0 else pt + 1 in
            match intervals !! Z.to_nat pt with
            | None => Some (Raise IndexError)
            | Some gap =>
                rest ← gamma_loop fuel p size (if refill then S k else k) intervals pt (fadd cur gap) end_;
                Some (ticks ← rest; Ok (cur :: ticks))
            end
        end
    end
  else Some (Ok []).

Definition gamma_arrivals (fuel : nat) (p : GammaProcess) (start duration : pyfloat) : option (res (list pyfloat)) :=
  match size ← batch_size p duration; intervals ← gamma (g_shape p) (g_scale p) size 0; Ok (size, intervals) with
  | Raise ex => Some (Raise ex)
  | Ok (size, intervals) =>
      match intervals with
      | [] => Some (Raise IndexError)
      | first :: _ => gamma_loop fuel p size 1 intervals 0 (fadd start first) (fadd start duration)
      end
  end.

(** [GammaProcess.generate_workload] *)
Definition gamma_workload (fuel : nat) (p : GammaProcess) (start duration : pyfloat) : option (res (list pyfloat)) :=
  gamma_arrivals fuel p start duration.

(** What the generator documents: samples are non-negative numbers. *)
Definition gamma_samples : Prop := ∀ shape scale size k intervals,
  gamma shape scale size k = Ok intervals → Forall (fun g => fwf g ∧ fle fzero g) intervals.
End Gamma.

(** ** Ticks in order *)

Lemma in_order_cons start t ticks :
  clock_ok start → fwf t → fle start t → in_order t ticks → in_order start (t :: ticks).
Proof.
  intros Hs Ht Hle [H1 H2]. assert (Hc : clock_ok t) by (by eapply clock_above). split.
  - constructor; [done|]. eapply Forall_impl; [exact H2|]. by intros ? [_ ?].
  - constructor; [done|]. eapply Forall_impl; [exact H2|]. intros t' [? ?]. split; [done|]. by eapply fle_trans.
Qed.

Lemma tick_mono start m e i j t t' :
  clock_ok start → fwf (FFin (Zpos m) e) → 0 ≤ i ≤ j →
  tick start (FFin (Zpos m) e) i = Ok t → tick start (FFin (Zpos m) e) j = Ok t' → fle start t ∧ fle t t' ∧ fwf t.
Proof.
  intros Hs Hw Hij Hi Hj. unfold tick in *.
  destruct (float_of_int i) as [x|] eqn:E1; [|done]. destruct (float_of_int j) as [y|] eqn:E2; [|done].
  injection Hi as <-. injection Hj as <-. destruct (fmul_int_mono i j x y m e Hij E1 E2 Hw) as [Ha Hb].
  split_and!; [apply fadd_ge; [apply Hs|apply Hs|done]|by apply fadd_mono|].
  apply fadd_wf; [apply Hs|]. apply fmul_wf; [by eapply float_of_int_wf|done].
Qed.

Lemma ticks_in_order start m e is_ ticks i :
  clock_ok start → fwf (FFin (Zpos m) e) → 0 ≤ i → mapR (tick start (FFin (Zpos m) e)) is_ = Ok ticks →
  StronglySorted Z.le is_ → Forall (Z.le i) is_ →
  StronglySorted fle ticks ∧ Forall (fun t => clock_ok t ∧ fle start t) ticks ∧
  ∀ t, tick start (FFin (Zpos m) e) i = Ok t → Forall (fle t) ticks.
Proof.
  intros Hs Hw. revert i ticks. induction is_ as [|j is_ IH]; intros i ticks Hi H Hsort Hle; simpl in H.
  { injection H as <-. split_and!; constructor. }
  apply StronglySorted_inv in Hsort as [Hsort Hj]. inversion_clear Hle as [|? ? Hij _].
  destruct (tick start (FFin (Zpos m) e) j) as [t|] eqn:Et; [|done].
  destruct (mapR _ is_) as [ts|] eqn:Em; [|done]. injection H as <-.
  destruct (IH j ts) as (H1 & H2 & H3); [lia|done|done|done|].
  destruct (tick_mono start m e j j t t Hs Hw ltac:(lia) Et Et) as (Ha & Hb & Hc).
  split_and!; [by constructor; [|apply H3]|constructor; [|done]; split; [by eapply clock_above|done]|].
  intros t' Ht'. destruct (tick_mono start m e i j t' t Hs Hw ltac:(lia) Ht' Et) as (_ & Hd & _).
  constructor; [done|]. eapply Forall_impl; [by apply H3|]. intros. by eapply fle_trans.
Qed.

Lemma zrange_sorted from n : StronglySorted Z.le (zrange from n) ∧ Forall (Z.le from) (zrange from n).
Proof.
  unfold zrange. generalize (Z.to_nat n). intros k. split.
  - generalize 0%nat. induction k as [|k IH]; intros a; simpl; constructor; [done|].
    apply Forall_map, Forall_forall. intros x Hx%elem_of_seq. lia.
  - apply Forall_map, Forall_forall. intros x Hx%elem_of_seq. lia.
Qed.

(** A rate with a finite, positive interval. *)
Definition rate_ok (rate : pyfloat) : Prop := ∃ m e, fdiv fone rate = Ok (FFin (Zpos m) e).

(** Deterministic arrivals: for a positive rate, the process yields
    [int(duration * rate)] instants (none when that is negative), in order and
    none before the start. *)
Theorem deterministic_arrivals_correct p start duration ticks :
  rate_ok (det_rate p) → clock_ok start → deterministic_arrivals p start duration = Ok ticks →
  in_order start ticks ∧
  ∃ n, py_int (fmul duration (det_rate p)) = Ok n ∧ Z.of_nat (length ticks) = Z.max 0 n.
Proof.
  intros (m & e & Hr) Hs H. unfold deterministic_arrivals in H.
  destruct (py_int _) as [n|] eqn:En; [|done]. unfold mbind, res_bind in H. rewrite Hr in H.
  destruct (zrange_sorted 0 n) as [Z1 Z2]. pose proof (fdiv_wf _ _ _ Hr) as Hw. split.
  - destruct (ticks_in_order start m e _ ticks 0 Hs Hw ltac:(lia) H Z1 Z2) as (? & ? & _). by split.
  - exists n. split; [done|]. rewrite (mapR_length _ _ _ H). unfold zrange. rewrite length_map, length_seq. lia.
Qed.

Lemma deterministic_source p : rate_ok (det_rate p) → ArrivalSource (deterministic_arrivals p).
Proof.
  intros (m & e & Hr) start duration ticks Hs H. unfold deterministic_arrivals in H.
  destruct (py_int _) as [n|] eqn:En; [|done]. unfold mbind, res_bind in H. rewrite Hr in H.
  destruct (zrange_sorted 0 n) as [Z1 Z2].
  destruct (ticks_in_order start m e _ ticks 0 Hs (fdiv_wf _ _ _ Hr) ltac:(lia) H Z1 Z2) as (? & ? & _). by split.
Qed.

Section GammaOrder.
Context (gamma : num → num → Z → nat → res (list pyfloat)) (Hgamma : gamma_samples gamma).

Lemma gamma_loop_in_order fuel p size k intervals pt cur end_ ticks :
  Forall (fun g => fwf g ∧ fle fzero g) intervals → clock_ok cur →
  gamma_loop gamma fuel p size k intervals pt cur end_ = Some (Ok ticks) →
  in_order cur ticks ∧ Forall (fun t => flt t end_) ticks.
Proof.
  revert k intervals pt cur ticks. induction fuel as [|fuel IH]; intros k ivs pt cur ticks Hiv Hc H; simpl in H;
    (destruct (fltb cur end_) eqn:Hlt; [|injection H as <-; split; [split; constructor|constructor]]); [done|].
  destruct (if size <=? pt + 1 then _ else _) as [ivs'|] eqn:Ei; [|done].
  assert (Hiv' : Forall (fun g => fwf g ∧ fle fzero g) ivs')
    by (destruct (size <=? pt + 1); [by eapply Hgamma|by injection Ei as <-]).
  destruct (ivs' !! _) as [gap|] eqn:Eg; [|done].
  destruct (Forall_lookup_1 _ _ _ _ Hiv' Eg) as [Hgw Hgp].
  assert (Hn : clock_ok (fadd cur gap)) by (by apply clock_fadd).
  destruct (gamma_loop _ _ _ _ _ _ _ _ _) as [[rest|ex]|] eqn:Er; [|done..]. injection H as <-.
  apply IH in Er as [H1 H2]; [|done|done].
  assert (fle cur cur) by (by apply fle_refl, clock_not_nan).
  assert (fle cur (fadd cur gap)) by (apply fadd_ge; [apply Hc|apply Hc|done]).
  split; [|by constructor]. apply in_order_cons; [done|apply Hc|done|].
  destruct H1 as [S1 S2]. split; [done|]. eapply Forall_impl; [exact S2|]. intros t [? ?].
  split; [done|]. by eapply fle_trans.
Qed.

(** Gamma and Poisson arrivals: when the loop ends, the instants are in
    order, none is before the start and all are before [start + duration]. *)
Theorem gamma_arrivals_correct fuel p start duration ticks :
  clock_ok start → gamma_arrivals gamma fuel p start duration = Some (Ok ticks) →
  in_order start ticks ∧ Forall (fun t => flt t (fadd start duration)) ticks.
Proof.
  intros Hs H. unfold gamma_arrivals, mbind, res_bind in H. destruct (batch_size p duration) as [size|]; [|done].
  destruct (gamma _ _ size 0) as [[|first ivs]|] eqn:Eg; [done| |done].
  pose proof (Hgamma _ _ _ _ _ Eg) as Hiv. pose proof Hiv as Hiv'. inversion_clear Hiv' as [|? ? [Hf Hp] _].
  assert (Hc : clock_ok (fadd start first)) by (by apply clock_fadd).
  apply gamma_loop_in_order in H as [[H1 H2] H3]; [|done|done]. split; [|done]. split; [done|].
  eapply Forall_impl; [exact H2|]. intros t [? ?]. split; [done|]. eapply fle_trans; [|done].
  apply fadd_ge; [apply Hs|apply Hs|done].
Qed.
End GammaOrder.

(** ** Examples *)

Lemma deterministic_arrivals_correct_witness :
  ∃ ticks, deterministic_arrivals (mkDeterministic (flit 2 1)) fzero (flit 3 1) = Ok ticks ∧
    ticks = [fzero; flit 1 2; flit 1 1; flit 3 2; flit 2 1; flit 5 2] ∧ in_order fzero ticks.
Proof.
  eexists. split; [vm_compute; reflexivity|]. split; [vm_compute; reflexivity|].
  eapply (deterministic_arrivals_correct (mkDeterministic (flit 2 1)) fzero (flit 3 1)).
  - eexists _, _. vm_compute. reflexivity.
  - split; [apply fzero_wf|vm_compute; reflexivity].
  - vm_compute. reflexivity.
Defined.

(** A generator that returns one, a quarter, one, a quarter, ... *)
Definition demo_gamma (shape scale : num) (size : Z) (k : nat) : res (list pyfloat) :=
  Ok (map (fun i => if Z.even i then fone else flit 1 4) (zrange 0 size)).

Lemma demo_gamma_samples : gamma_samples demo_gamma.
Proof.
  intros shape scale size k ivs [= <-]. apply Forall_map, Forall_forall. intros i _.
  replace fone with (flit 1 1) by (vm_compute; reflexivity).
  destruct (Z.even i); (split; [apply flit_wf|by vm_compute]).
Qed.

Definition demo_poisson : GammaProcess := mkGamma (flit 1 1) (NI 1) (NF fone) (NF fone).

Lemma gamma_arrivals_correct_witness :
  PoissonProcess_init (flit 1 1) = Ok demo_poisson ∧
  ∃ ticks, gamma_arrivals demo_gamma 10 demo_poisson fzero (flit 3 1) = Some (Ok ticks) ∧ length ticks = 3%nat ∧
    in_order fzero ticks.
Proof.
  split; [vm_compute; reflexivity|]. eexists. split; [vm_compute; reflexivity|]. split; [reflexivity|].
  eapply (gamma_arrivals_correct demo_gamma demo_gamma_samples 10 demo_poisson fzero (flit 3 1)).
  - split; [apply fzero_wf|vm_compute; reflexivity].
  - vm_compute. reflexivity.
Defined.
