(* ===== verification/Request.v ===== *)
(** * Generation requests

    Models [simulator/core/request.py]: the request object, its life cycle
    and its serialisation. *)

From S2P Require Import Prelude PyFloat.

#[local] Open Scope string_scope.
#[local] Open Scope list_scope.
#[local] Open Scope Z_scope.

Inductive REQ_STATUS := PENDING | SCHEDULED | PREFILL | GENERATE | EXIT.

#[export] Instance REQ_STATUS_eq_dec : EqDecision REQ_STATUS.
Proof. solve_decision. Defined.

Record GenerationRequest := mkRequest {
  req_id : string;
  model : string;
  input_length : Z;
  output_length : Z;
  arrive_at : pyfloat;
  status : REQ_STATUS;
  prefill_time : option pyfloat;
  generated_tokens : Z;
  prefill_finished_at : option pyfloat;
  generation_finished_at : option pyfloat;
}.

Definition GenerationRequest_init (req_id model : string) (input_length output_length : Z)
    (arrive_at : pyfloat) : GenerationRequest :=
  mkRequest req_id model input_length output_length arrive_at PENDING None 0 None None.

Definition set_status (s : REQ_STATUS) (r : GenerationRequest) : GenerationRequest :=
  mkRequest (req_id r) (model r) (input_length r) (output_length r) (arrive_at r) s
    (prefill_time r) (generated_tokens r) (prefill_finished_at r) (generation_finished_at r).

Definition set_generation_finished_at (finished_at : pyfloat) (r : GenerationRequest) : GenerationRequest :=
  mkRequest (req_id r) (model r) (input_length r) (output_length r) (arrive_at r) (status r)
    (prefill_time r) (generated_tokens r) (prefill_finished_at r) (Some finished_at).

Definition set_prefill_finished_at (finished_at : pyfloat) (r : GenerationRequest) : GenerationRequest :=
  mkRequest (req_id r) (model r) (input_length r) (output_length r) (arrive_at r) GENERATE
    (prefill_time r) (generated_tokens r) (Some finished_at) (generation_finished_at r).

Definition _prefill (r : GenerationRequest) : GenerationRequest := set_status PREFILL r.

Definition _stop (r : GenerationRequest) : GenerationRequest := set_status EXIT r.

(** [_decode]: the request after one more token, and whether it is complete. *)
Definition _decode (r : GenerationRequest) : GenerationRequest * bool :=
  let r1 := mkRequest (req_id r) (model r) (input_length r) (output_length r) (arrive_at r) (status r)
              (prefill_time r) (generated_tokens r + 1) (prefill_finished_at r) (generation_finished_at r) in
  if generated_tokens r1 =? output_length r1 then (_stop r1, true) else (r1, false).

Definition opt_float (o : option pyfloat) : pyval :=
  match o with Some f => VFloat f | None => VNone end.

Definition to_dict (r : GenerationRequest) : dict pyval :=
  [("req_id", VStr (req_id r)); ("model", VStr (model r));
   ("input_length", VInt (input_length r)); ("output_length", VInt (output_length r));
   ("arrive_at", VFloat (arrive_at r)); ("prefill_time", opt_float (prefill_time r));
   ("generated_tokens", VInt (generated_tokens r));
   ("prefill_finished_at", opt_float (prefill_finished_at r));
   ("generation_finished_at", opt_float (generation_finished_at r))].

(** ** Decoding to the end *)

(** The outcomes of [n] decode steps in a row. *)
Fixpoint decode_n (n : nat) (r : GenerationRequest) : GenerationRequest * list bool :=
  match n with
  | O => (r, [])
  | S n => let '(r1, b) := _decode r in let '(r2, bs) := decode_n n r1 in (r2, b :: bs)
  end.

Lemma decode_tokens r : generated_tokens (fst (_decode r)) = generated_tokens r + 1.
Proof. unfold _decode. by case_match. Qed.

Lemma decode_lengths r :
  req_id (fst (_decode r)) = req_id r ∧ input_length (fst (_decode r)) = input_length r ∧
  output_length (fst (_decode r)) = output_length r.
Proof. unfold _decode. by case_match. Qed.

Lemma decode_n_spec n r :
  generated_tokens (fst (decode_n n r)) = generated_tokens r + Z.of_nat n ∧
  output_length (fst (decode_n n r)) = output_length r ∧ length (snd (decode_n n r)) = n ∧
  (∀ i b, snd (decode_n n r) !! i = Some b →
     b = true ↔ generated_tokens r + Z.of_nat i + 1 = output_length r).
Proof.
  revert r. induction n as [|n IH]; intros r; simpl.
  { split_and!; [lia|done|done|]. intros i b H. by rewrite lookup_nil in H. }
  pose proof (decode_tokens r) as Ht. pose proof (decode_lengths r) as (_ & _ & Ho).
  destruct (_decode r) as [r1 b1] eqn:E. simpl in *.
  destruct (IH r1) as (H1 & H2 & H3 & H4). destruct (decode_n n r1) as [r2 bs]. simpl in *.
  split_and!; [lia|congruence|lia|]. intros [|i] b; simpl.
  - intros [= <-]. unfold _decode in E. simpl in E.
    destruct (Z.eqb_spec (generated_tokens r + 1) (output_length r)); simplify_eq; split; intros; try done; lia.
  - intros Hb. rewrite (H4 i b Hb), Ht, Ho. lia.
Qed.

(** C27.  A fresh request with a positive output length completes at exactly
    its [output_length]-th decode step: no earlier step reports completion,
    that one does, and the request is then in status [EXIT] with
    [output_length] tokens generated. *)
Theorem decode_completes rid mdl inp out t :
  0 < out →
  let '(r, bs) := decode_n (Z.to_nat out) (GenerationRequest_init rid mdl inp out t) in
  bs = replicate (Z.to_nat (out - 1)) false ++ [true] ∧ status r = EXIT ∧ generated_tokens r = out.
Proof.
  intros Hout. set (r0 := GenerationRequest_init _ _ _ _ _).
  replace (Z.to_nat out) with (S (Z.to_nat (out - 1))) by lia.
  assert (Hsplit : ∀ n r, decode_n (S n) r =
    let '(r1, bs) := decode_n n r in let '(r2, b) := _decode r1 in (r2, bs ++ [b])).
  { induction n as [|n IH]; intros r; simpl; [by destruct (_decode r)|].
    destruct (_decode r) as [r1 b1]. specialize (IH r1). simpl in IH. rewrite IH.
    destruct (decode_n n r1) as [r2 bs]. by destruct (_decode r2). }
  rewrite Hsplit. pose proof (decode_n_spec (Z.to_nat (out - 1)) r0) as (H1 & H2 & H3 & H4).
  destruct (decode_n _ r0) as [r1 bs]. simpl in *. unfold _decode. simpl.
  rewrite H1, H2. destruct (Z.eqb_spec (0 + Z.of_nat (Z.to_nat (out - 1)) + 1) out); [|lia].
  split_and!; [|done|simpl; lia]. f_equal.
  apply list_eq_same_length with (Z.to_nat (out - 1)); [by rewrite length_replicate|done|].
  intros i x y Hi Hx Hy. apply lookup_replicate in Hy as [-> _].
  destruct x; [|done]. pose proof (proj1 (H4 i true Hx) eq_refl). lia.
Qed.

Lemma decode_completes_witness :
  let '(r, bs) := decode_n (Z.to_nat 3) (GenerationRequest_init "req_1" "m" 7 3 fzero) in
  bs = replicate (Z.to_nat (3 - 1)) false ++ [true] ∧ status r = EXIT ∧ generated_tokens r = 3.
Proof. apply (decode_completes "req_1" "m" 7 3 fzero). lia. Defined.

(** C38.  A request whose output length is not positive never completes: no
    number of decode steps reports completion or reaches [EXIT]. *)
Theorem decode_never_completes rid mdl inp out t n :
  out ≤ 0 →
  let '(r, bs) := decode_n n (GenerationRequest_init rid mdl inp out t) in
  Forall (eq false) bs ∧ status r = PENDING.
Proof.
  intros Hout. set (r0 := GenerationRequest_init _ _ _ _ _).
  enough (H : ∀ n r, output_length r ≤ 0 → 0 ≤ generated_tokens r →
    Forall (eq false) (snd (decode_n n r)) ∧ status (fst (decode_n n r)) = status r).
  { specialize (H n r0 Hout). destruct (decode_n n r0). apply H. simpl. lia. }
  clear. induction n as [|n IH]; intros r Ho Hg; simpl; [by split; [constructor|]|].
  unfold _decode. simpl. destruct (Z.eqb_spec (generated_tokens r + 1) (output_length r)); [lia|].
  set (r1 := mkRequest _ _ _ _ _ _ _ _ _ _). destruct (IH r1) as [H1 H2]; [simpl; lia..|].
  destruct (decode_n n r1). simpl in *. split; [by constructor|done].
Qed.

Lemma decode_never_completes_witness :
  let '(r, bs) := decode_n 5 (GenerationRequest_init "req_1" "m" 7 0 fzero) in
  Forall (eq false) bs ∧ status r = PENDING.
Proof. apply (decode_never_completes "req_1" "m" 7 0 fzero 5). lia. Defined.
