(* ===== verification/Memory.v ===== *)
(** * The KV-cache planner

    Models [simulator/core/memory.py]: the size of the model weights, the
    number of KV-cache blocks that fit beside them, and the allocation of
    blocks to requests.

    The class reads two attributes no code assigns, [_tp_size] and
    [_block_memory_size_per_shard]; they are optional fields here, absent
    ([None]) in the object the constructor builds, and a read of an absent
    one raises [AttributeError]. *)

From Stdlib Require Import QArith Qround Lqa.
From S2P Require Import Prelude PyFloat PyStr Request Config.

#[local] Open Scope string_scope.
#[local] Open Scope list_scope.
#[local] Open Scope Z_scope.

Record MemoryPlanner := mkPlanner {
  mp_model_params : attrs;
  mp_config : option ModelConfig;
  mp_parallel_config : ParallelConfig;
  mp_hardware : HardwareSpec;
  mp_gpu_utilization : pyfloat;
  mp_w_bit : Z;
  mp_a_bit : Z;
  mp_kv_bit : Z;
  mp_block_size : Z;
  mp_tp_size : option Z;
  mp_block_memory_size_per_shard : option num;
  _allocated_blocks : Z;
  _allocation_map : dict Z;
  _max_num_blocks : Z;
}.

Definition set_allocation (allocated : Z) (map : dict Z) (p : MemoryPlanner) : MemoryPlanner :=
  mkPlanner (mp_model_params p) (mp_config p) (mp_parallel_config p) (mp_hardware p) (mp_gpu_utilization p)
    (mp_w_bit p) (mp_a_bit p) (mp_kv_bit p) (mp_block_size p) (mp_tp_size p)
    (mp_block_memory_size_per_shard p) allocated map (_max_num_blocks p).

Definition set_max_num_blocks (n : Z) (p : MemoryPlanner) : MemoryPlanner :=
  mkPlanner (mp_model_params p) (mp_config p) (mp_parallel_config p) (mp_hardware p) (mp_gpu_utilization p)
    (mp_w_bit p) (mp_a_bit p) (mp_kv_bit p) (mp_block_size p) (mp_tp_size p)
    (mp_block_memory_size_per_shard p) (_allocated_blocks p) (_allocation_map p) n.

(** [self._tp_size] *)
Definition tp_size_attr (p : MemoryPlanner) : res Z := of_option (AttributeError "_tp_size") (mp_tp_size p).
Definition block_memory_attr (p : MemoryPlanner) : res num :=
  of_option (AttributeError "_block_memory_size_per_shard") (mp_block_memory_size_per_shard p).

(** ** Model dimensions *)

(** [self._config.get_x(self.model_params)] when the description package has
    it, otherwise the fallback. *)
Definition config_or (p : MemoryPlanner) (get : ModelConfig → option (attrs → res Z)) (fallback : res Z) : res Z :=
  match mp_config p ≫= get with
  | Some f => f (mp_model_params p)
  | None => fallback
  end.

Definition _get_hidden_size (p : MemoryPlanner) : res Z :=
  config_or p cfg_hidden_size (Ok (getattr_default (mp_model_params p) "hidden_size" 0)).
Definition _get_num_attention_heads (p : MemoryPlanner) : res Z :=
  config_or p cfg_num_attention_heads (Ok (getattr_default (mp_model_params p) "num_attention_heads" 1)).
Definition _get_num_key_value_heads (p : MemoryPlanner) : res Z :=
  config_or p cfg_num_key_value_heads
    (d ← _get_num_attention_heads p; Ok (getattr_default (mp_model_params p) "num_key_value_heads" d)).
Definition _get_head_dim (p : MemoryPlanner) : res Z :=
  config_or p cfg_head_dim
    (n ← _get_num_attention_heads p; h ← _get_hidden_size p; floordiv h (Z.max 1 n)).
Definition _get_num_hidden_layers (p : MemoryPlanner) : res Z :=
  config_or p cfg_num_hidden_layers (Ok (getattr_default (mp_model_params p) "num_hidden_layers" 1)).
Definition _get_intermediate_size (p : MemoryPlanner) : res Z :=
  config_or p cfg_intermediate_size
    (h ← _get_hidden_size p; Ok (getattr_default (mp_model_params p) "intermediate_size" (h * 4))).
Definition _get_vocab_size (p : MemoryPlanner) : res Z :=
  config_or p cfg_vocab_size (Ok (getattr_default (mp_model_params p) "vocab_size" 0)).

(** ** Sizes *)

#[local] Open Scope pynum_scope.

Definition get_weights_memory (p : MemoryPlanner) : res num :=
  hidden ← _get_hidden_size p;
  intermediate ← _get_intermediate_size p;
  mlp_weights ← int (3 * hidden * intermediate * mp_w_bit p) /ₙ int 8;
  heads ← _get_num_attention_heads p;
  head_dim ← _get_head_dim p;
  let q_weights := hidden * heads * head_dim in
  kv_heads ← _get_num_key_value_heads p;
  let kv_weights := 2 * hidden * head_dim * kv_heads in
  let o_weights := hidden * heads * head_dim in
  self_attn_weights ← int ((q_weights + kv_weights + o_weights) * mp_w_bit p) /ₙ int 8;
  vocab ← _get_vocab_size p;
  lm_head_weights ← int (hidden * vocab * mp_w_bit p) /ₙ int 8;
  embedding_weights ← int (hidden * vocab * mp_w_bit p) /ₙ int 8;
  layers ← _get_num_hidden_layers p;
  (Ok mlp_weights +ₙ Ok self_attn_weights) *ₙ int layers +ₙ Ok lm_head_weights +ₙ Ok embedding_weights.

Definition calculate_model_memory (p : MemoryPlanner) : res num := get_weights_memory p.

Definition get_weights_memory_per_shard (p : MemoryPlanner) : res num :=
  tp ← tp_size_attr p;
  if tp =? 0 then get_weights_memory p
  else w ← get_weights_memory p; ndiv w (NI tp).

Definition get_max_num_blocks (p : MemoryPlanner) : res Z :=
  let per_shard_memory := NF (vmemory (mp_hardware p)) in
  w_memory_total ← get_weights_memory p;
  tp ← tp_size_attr p;
  w_memory_per_shard ← (if tp =? 0 then Ok w_memory_total else ndiv w_memory_total (NI tp));
  if nleb per_shard_memory w_memory_per_shard then Ok 0
  else
    total_block_memory_size_per_shard ← block_memory_attr p;
    if nleb total_block_memory_size_per_shard (NI 0) then Ok 0
    else
      available_memory_per_shard ← nsub per_shard_memory w_memory_per_shard;
      if nleb available_memory_per_shard (NI 0) then Ok 0
      else
        ratio ← ndiv available_memory_per_shard total_block_memory_size_per_shard;
        max_blocks_per_shard ← nfloor ratio;
        Ok (Z.max 0 max_blocks_per_shard).

Definition _calculate_block_memory_size_per_shard (p : MemoryPlanner) : res num :=
  kv_heads ← _get_num_key_value_heads p;
  tp ← tp_size_attr p;
  r ← int kv_heads /ₙ int tp;
  c ← nceil r;
  let heads_per_shard := Z.max 1 c in
  bytes_per_element ← int (mp_kv_bit p) /ₙ int 8;
  head_dim ← _get_head_dim p;
  let per_layer := int (2 * mp_block_size p * heads_per_shard * head_dim) *ₙ Ok bytes_per_element in
  pl ← per_layer;
  layers ← _get_num_hidden_layers p;
  nmul pl (NI layers).

(** The constructor. *)
Definition MemoryPlanner_init (model_params : attrs) (model_config : option ModelConfig)
    (hardware : HardwareSpec) (w_bit a_bit kv_bit : Z) (gpu_utilization : pyfloat)
    (parallel_config : parallel_arg) (block_size : Z) : res MemoryPlanner :=
  parallel ← _normalize_parallel_config parallel_config;
  let self := mkPlanner model_params model_config parallel hardware gpu_utilization w_bit a_bit kv_bit
                block_size None None 0 [] 0 in
  match model_config with
  | Some _ => n ← get_max_num_blocks self; Ok (set_max_num_blocks n self)
  | None => Raise (ValueError "Model config is required for memory planning")
  end.

(** ** Allocation *)

Definition _estimate_required_blocks (p : MemoryPlanner) (request : GenerationRequest) : res Z :=
  match dict_get (_allocation_map p) (req_id request) with
  | None => r ← int (input_length request) /ₙ int (mp_block_size p); nceil r
  | Some blocks =>
      let num_tokens_reserved := blocks * mp_block_size p in
      let num_tokens_required := Z.max 0 (generated_tokens request - num_tokens_reserved) in
      if num_tokens_required =? 0 then Ok 0 else Ok 1
  end.

Definition can_allocate_request (p : MemoryPlanner) (request : GenerationRequest) : res bool :=
  if _max_num_blocks p =? 0 then Ok false
  else
    additional_blocks ← _estimate_required_blocks p request;
    if additional_blocks =? 0 then Ok true
    else
      limit ← int (_max_num_blocks p) *ₙ flo (flit 95 100);
      alloc_limit ← nfloor limit;
      if alloc_limit <=? 0 then Ok false
      else Ok (_allocated_blocks p + additional_blocks <=? alloc_limit).

#[local] Close Scope pynum_scope.

(** [allocate] updates the counters before it checks the limit. *)
Definition allocate (request : GenerationRequest) : M MemoryPlanner unit := fun p =>
  match _estimate_required_blocks p request with
  | Raise e => (p, Raise e)
  | Ok additional_blocks =>
      if additional_blocks =? 0 then (p, Ok tt)
      else
        let id := req_id request in
        let allocated := _allocated_blocks p + additional_blocks in
        let map := match dict_get (_allocation_map p) id with
                   | None => dict_set (_allocation_map p) id additional_blocks
                   | Some n => dict_set (_allocation_map p) id (n + additional_blocks)
                   end in
        let p' := set_allocation allocated map p in
        py_assert (allocated <=? _max_num_blocks p) "Exceeding memory limit" p'
  end.

Definition free_one (p : MemoryPlanner) (req_id : string) : MemoryPlanner :=
  let num_blocks := dict_get_default (_allocation_map p) req_id 0 in
  set_allocation (_allocated_blocks p - num_blocks) (dict_del (_allocation_map p) req_id) p.

Definition free (request_ids : list string) : M MemoryPlanner unit := fun p =>
  let p' := fold_left free_one request_ids p in
  py_assert (0 <=? _allocated_blocks p') "Negative allocated blocks" p'.

(** ** Queries *)

Definition usage (p : MemoryPlanner) : Z * Z := (_allocated_blocks p, _max_num_blocks p).
Definition has_allocation (p : MemoryPlanner) (request_id : string) : bool :=
  dict_has (_allocation_map p) request_id.
Definition get_allocated_block_count (p : MemoryPlanner) : Z := _allocated_blocks p.
Definition get_max_block_count (p : MemoryPlanner) : Z := _max_num_blocks p.
Definition get_allocated_kv_memory_per_shard (p : MemoryPlanner) : res num :=
  b ← block_memory_attr p; nmul (NI (_allocated_blocks p)) b.
Definition get_total_kv_memory_capacity_per_shard (p : MemoryPlanner) : res num :=
  b ← block_memory_attr p; nmul (NI (_max_num_blocks p)) b.
Definition estimate_additional_kv_memory_per_shard (p : MemoryPlanner) (request : GenerationRequest) : res num :=
  additional_blocks ← _estimate_required_blocks p request;
  b ← block_memory_attr p;
  nmul (NI additional_blocks) b.

(** ** Accounting *)

Lemma rnd_nonneg (x : Q) : (0 <= x)%Q → fle fzero (rnd x).
Proof. intros H. change fzero with (rnd 0). by apply rnd_mono. Qed.

(** The blocks asked for are never negative. *)
Lemma required_nonneg p r n :
  0 < mp_block_size p → 0 ≤ input_length r → _estimate_required_blocks p r = Ok n → 0 ≤ n.
Proof.
  intros Hb Hi. unfold _estimate_required_blocks. destruct (dict_get _ _).
  { case_ifs; intros; inv_res; lia. }
  unfold lift2, ndiv, int. simpl. intros H. inv_res. unfold int_truediv in *.
  destruct (Z.eqb_spec (mp_block_size p) 0); [lia|].
  assert (Hx : (0 <= inject_Z (input_length r) / inject_Z (mp_block_size p))%Q).
  { apply Qle_shift_div_l; [rewrite Zlt_Qlt in Hb; exact Hb|]. rewrite Qmult_0_l.
    rewrite Zle_Qle in Hi. exact Hi. }
  apply rnd_nonneg in Hx. destruct (rnd _) as [m e| |]; inv_res; [|done].
  simpl in H. inv_res. apply fleb_fin in Hx. rewrite fval_0 in Hx. exact (Qceiling_resp_le _ _ Hx).
Qed.

(** The counter is the sum of the map, which has one positive entry per
    request. *)
Record planner_inv (p : MemoryPlanner) : Prop := {
  pi_block : 0 < mp_block_size p;
  pi_sum : _allocated_blocks p = dict_sum (_allocation_map p);
  pi_nodup : NoDup (dict_keys (_allocation_map p));
  pi_pos : Forall (fun n => 0 < n) (dict_values (_allocation_map p));
}.

Lemma dict_set_values_pos (d : dict Z) k v :
  Forall (fun n => 0 < n) (dict_values d) → 0 < v → Forall (fun n => 0 < n) (dict_values (dict_set d k v)).
Proof.
  unfold dict_values. induction d as [|[k' v'] d IH]; simpl; intros Hd Hv; [by constructor|].
  inversion_clear Hd. case_bool_decide; simpl; constructor; auto.
Qed.

Lemma dict_del_values_pos (d : dict Z) k :
  Forall (fun n => 0 < n) (dict_values d) → Forall (fun n => 0 < n) (dict_values (dict_del d k)).
Proof.
  unfold dict_values. induction d as [|[k' v'] d IH]; simpl; intros Hd; [done|].
  inversion_clear Hd. case_bool_decide; simpl; [done|constructor; auto].
Qed.

Lemma dict_get_values_pos (d : dict Z) k :
  Forall (fun n => 0 < n) (dict_values d) → 0 ≤ dict_get_default d k 0.
Proof.
  unfold dict_get_default. intros Hd. destruct (dict_get d k) as [v|] eqn:E; simpl; [|lia].
  apply dict_get_Some_in in E. assert (v ∈ dict_values d) by (apply list_elem_of_fmap; by exists (k, v)).
  rewrite Forall_forall in Hd. specialize (Hd v ltac:(done)). lia.
Qed.

Lemma dict_sum_nonneg (d : dict Z) : Forall (fun n => 0 < n) (dict_values d) → 0 ≤ dict_sum d.
Proof. unfold dict_sum. induction 1; simpl; lia. Qed.

#[local] Hint Resolve dict_set_values_pos dict_del_values_pos dict_get_values_pos dict_sum_nonneg : tela.

Lemma allocate_cases r p p' o :
  allocate r p = (p', o) →
  (p' = p) ∨
  ∃ n, n ≠ 0 ∧ _estimate_required_blocks p r = Ok n ∧
    p' = set_allocation (_allocated_blocks p + n) (dict_incr (_allocation_map p) (req_id r) n) p ∧
    (o = Ok tt ↔ _allocated_blocks p + n ≤ _max_num_blocks p).
Proof.
  unfold allocate, py_assert. destruct (_estimate_required_blocks p r) as [n|e] eqn:E.
  2:{ intros [= <- <-]. by left. }
  destruct (Z.eqb_spec n 0); [intros [= <- <-]; by left|]. intros H. right. exists n.
  unfold dict_incr, dict_get_default.
  destruct (Z.leb_spec (_allocated_blocks p + n) (_max_num_blocks p));
    destruct (dict_get (_allocation_map p) (req_id r)); simplify_eq; split_and!; try done;
    split; intros; try done; lia.
Qed.

Lemma allocate_inv r p : 0 ≤ input_length r → planner_inv p → planner_inv (fst (allocate r p)).
Proof.
  intros Hr [Hb Hs Hn Hp]. destruct (allocate r p) as [p' o] eqn:E.
  destruct (allocate_cases _ _ _ _ E) as [->|(n & Hn0 & He & -> & _)]; simpl; [by split|].
  pose proof (required_nonneg p r n Hb Hr He). split; simpl; [done|rewrite dict_sum_incr; lia|..];
    unfold dict_incr; auto with tela.
  apply dict_set_values_pos; [done|]. pose proof (dict_get_values_pos _ (req_id r) Hp). lia.
Qed.

Lemma free_one_inv p id : planner_inv p → planner_inv (free_one p id).
Proof.
  intros [Hb Hs Hn Hp]. split; simpl; [done|rewrite dict_sum_del; lia|auto with tela..].
Qed.

Lemma free_all_inv ids p : planner_inv p → planner_inv (fold_left free_one ids p).
Proof. revert p. induction ids; simpl; auto using free_one_inv. Qed.

(** [free] never trips its assertion. *)
Lemma free_ok ids p : planner_inv p → free ids p = (fold_left free_one ids p, Ok tt).
Proof.
  intros H. unfold free, py_assert. pose proof (free_all_inv ids p H) as [_ Hs _ Hp].
  pose proof (dict_sum_nonneg _ Hp). by rewrite (proj2 (Z.leb_le _ _)) by lia.
Qed.

Lemma free_all_below ids p : planner_inv p → _allocated_blocks (fold_left free_one ids p) ≤ _allocated_blocks p.
Proof.
  revert p. induction ids as [|id ids IH]; intros p H; simpl; [lia|].
  specialize (IH _ (free_one_inv p id H)). pose proof (dict_get_values_pos _ id (pi_pos _ H)). simpl in *. lia.
Qed.

Lemma free_all_max ids p : _max_num_blocks (fold_left free_one ids p) = _max_num_blocks p.
Proof. revert p. induction ids as [|id ids IH]; intros p; simpl; [done|]. by rewrite IH. Qed.

(** Any use of the planner: its two mutating operations in any order. *)
Inductive planner_op := OpAllocate (r : GenerationRequest) | OpFree (ids : list string).

Definition run_op (op : planner_op) : M MemoryPlanner unit :=
  match op with OpAllocate r => allocate r | OpFree ids => free ids end.

Fixpoint run_ops (ops : list planner_op) (p : MemoryPlanner) : MemoryPlanner * list (res unit) :=
  match ops with
  | [] => (p, [])
  | op :: ops => let '(p1, o) := run_op op p in let '(p2, os) := run_ops ops p1 in (p2, o :: os)
  end.

Definition sane_op (op : planner_op) : Prop :=
  match op with OpAllocate r => 0 ≤ input_length r | OpFree _ => True end.

Lemma run_op_inv op p : sane_op op → planner_inv p → planner_inv (fst (run_op op p)).
Proof.
  destruct op as [r|ids]; simpl; intros Hs H; [by apply allocate_inv|].
  rewrite (free_ok _ _ H). by apply free_all_inv.
Qed.

Lemma run_op_limit op p p' :
  sane_op op → planner_inv p → _allocated_blocks p ≤ _max_num_blocks p → run_op op p = (p', Ok tt) →
  _allocated_blocks p' ≤ _max_num_blocks p'.
Proof.
  destruct op as [r|ids]; simpl; intros Hs H Hm Ho.
  - destruct (allocate_cases _ _ _ _ Ho) as [->|(n & _ & _ & -> & Hok)]; [done|]. simpl. by apply Hok.
  - rewrite (free_ok _ _ H) in Ho. injection Ho as <-.
    pose proof (free_all_below ids p H). rewrite free_all_max. lia.
Qed.

(** C7.  Block accounting: whatever sequence of [allocate] and [free] calls is
    made, calls that raise included, the number of allocated blocks is the sum
    of the blocks of the requests in the map, every request in the map has at
    least one block, and [free] never raises; and as long as every call
    returned, the allocated blocks are within the planner's capacity. *)
Theorem memory_accounting ops p p' os :
  planner_inv p → Forall sane_op ops → run_ops ops p = (p', os) →
  planner_inv p' ∧ 0 ≤ _allocated_blocks p' ∧
  (∀ i ids o, ops !! i = Some (OpFree ids) → os !! i = Some o → o = Ok tt) ∧
  (_allocated_blocks p ≤ _max_num_blocks p → Forall (eq (Ok tt)) os → _allocated_blocks p' ≤ _max_num_blocks p').
Proof.
  revert p p' os. induction ops as [|op ops IH]; intros p p' os Hp Hs; simpl.
  { intros [= <- <-]. split_and!; try done. destruct Hp as [_ -> _ Hpos]. by apply dict_sum_nonneg. }
  inversion_clear Hs as [|? ? Hop Hops]. destruct (run_op op p) as [p1 o] eqn:E.
  destruct (run_ops ops p1) as [p2 os'] eqn:E2. intros [= <- <-].
  pose proof (run_op_inv op p Hop Hp) as H1. rewrite E in H1. simpl in H1.
  destruct (IH _ _ _ H1 Hops E2) as (H2 & H3 & H4 & H5). split_and!; try done.
  - intros [|i] ids o0 Hi Ho; simpl in *; simplify_eq; [|by eapply H4].
    simpl in E. rewrite (free_ok _ _ Hp) in E. by injection E as _ <-.
  - intros Hm Hok. inversion_clear Hok; subst o. apply H5; [|done].
    by apply (run_op_limit op p p1).
Qed.

Definition a100 : HardwareSpec := mkHw (flit (1555 * giga) 1) (flit (312 * tera) 1) (flit (624 * tera) 1)
  (flit 27648000 1) (flit (40 * giga) 1) (flit 65 100).

(** A planner with 100 blocks of 16 tokens and nothing allocated. *)
Definition demo_planner : MemoryPlanner :=
  mkPlanner llama2_7b (Some llama) ParallelConfig_default a100 (flit 9 10) 16 16 16 16
    (Some 1) (Some (NF (flit 8388608 1))) 0 [] 100.

Definition demo_request (id : string) (inp : Z) : GenerationRequest :=
  GenerationRequest_init id "llama" inp 8 fzero.

Lemma demo_planner_inv : planner_inv demo_planner.
Proof. split; simpl; [lia|done|constructor|constructor]. Qed.

Definition demo_ops : list planner_op :=
  [OpAllocate (demo_request "a" 100); OpAllocate (demo_request "b" 33); OpFree ["a"]].

Lemma memory_accounting_witness :
  ∃ p' os, run_ops demo_ops demo_planner = (p', os) ∧ _allocation_map p' = [("b", 3)] ∧
    planner_inv p' ∧ 0 ≤ _allocated_blocks p'.
Proof.
  assert (Forall sane_op demo_ops) as Hs.
  { constructor; [simpl; lia|]. constructor; [simpl; lia|]. constructor; [exact I|]. constructor. }
  destruct (memory_accounting demo_ops demo_planner _ _ demo_planner_inv Hs (surjective_pairing _)) as (H1 & H2 & _).
  exists (fst (run_ops demo_ops demo_planner)), (snd (run_ops demo_ops demo_planner)).
  split; [apply surjective_pairing|]. split; [vm_compute; reflexivity|exact (conj H1 H2)].
Defined.

Lemma rnd_int_exact z : 0 ≤ z ≤ 2 ^ 53 →
  ∃ m e, rnd (inject_Z z) = FFin m e ∧ (fval m e == inject_Z z)%Q ∧ fwf (FFin m e).
Proof.
  intros Hz. destruct (Z.eq_dec z 0) as [->|]; [by exists 0, 0; split_and!; [..|left]|].
  destruct (rnd_int_pos z) as (m & e & Hr & Hv); [lia|]. exists m, e. split_and!; [done..|].
  rewrite <- Hr. apply rnd_wf.
Qed.

Lemma factor_bounds : ∃ c e, flit 95 100 = FFin c e ∧ (0 <= fval c e)%Q ∧ (fval c e <= 1)%Q.
Proof. eexists _, _. split; [vm_compute; reflexivity|]. split; vm_compute; discriminate. Qed.

Lemma limit_product n g h :
  float_of_int n = Ok g → lift2 nmul (int n) (flo h) = Ok (NF (fmul g h)).
Proof. intros H. unfold lift2, int, flo, nmul, narith, nconv, mbind, res_bind. by rewrite H. Qed.

(** The allocation limit, [floor(max * 0.95)], is within the capacity. *)
Lemma alloc_limit_le n l f :
  0 ≤ n ≤ 2 ^ 53 → lift2 nmul (int n) (flo (flit 95 100)) = Ok f → nfloor f = Ok l → l ≤ n.
Proof.
  intros Hn. destruct factor_bounds as (c & e' & -> & Hc1 & Hc2).
  destruct (rnd_int_exact n Hn) as (m & e & Hr & Hv & Hwf).
  rewrite (limit_product _ (FFin m e)) by (unfold float_of_int; by rewrite Hr). intros H Hl.
  assert (f = NF (fmul (FFin m e) (FFin c e'))) as -> by congruence. clear H.
  assert (Hm : 0 ≤ m).
  { apply (fval_nonneg m e). rewrite Hv. destruct Hn as [H0 _]. rewrite Zle_Qle in H0. exact H0. }
  pose proof (fmul_shrink m e c e' Hwf Hm Hc1 Hc2) as Hle.
  destruct (fmul (FFin m e) (FFin c e')) as [m' e2|[]|]; try done.
  cbn [nfloor py_floor] in Hl. inv_res. apply fleb_fin in Hle. rewrite Hv in Hle.
  pose proof (Qfloor_resp_le _ _ Hle) as Hq. rewrite Qfloor_Z in Hq. exact Hq.
Qed.

(** C8.  Admission is safe: when [can_allocate_request] answers true, the
    [allocate] call for the same request returns, and it leaves at most 95% of
    the capacity (rounded down) allocated, unless it allocates nothing. *)
Theorem can_allocate_sound p r :
  0 ≤ _max_num_blocks p ≤ 2 ^ 53 → can_allocate_request p r = Ok true →
  ∃ p', allocate r p = (p', Ok tt) ∧
    (p' = p ∨ ∃ limit, nfloor (NF (fmul (rnd (inject_Z (_max_num_blocks p))) (flit 95 100))) = Ok limit ∧
                _allocated_blocks p' ≤ limit ∧ limit ≤ _max_num_blocks p').
Proof.
  intros Hm. unfold can_allocate_request, allocate.
  destruct (_ =? 0); [done|]. destruct (_estimate_required_blocks p r) as [n|]; [|done].
  unfold mbind, res_bind. destruct (n =? 0); [intros _; eexists; split; [done|by left]|].
  destruct (lift2 _ _ _) as [f|] eqn:Ef; [|done]. destruct (nfloor f) as [l|] eqn:El; [|done].
  pose proof (alloc_limit_le _ _ _ Hm Ef El) as Hl.
  destruct (_ <=? 0); [done|]. destruct (Z.leb_spec (_allocated_blocks p + n) l) as [Hle|]; [|done]. intros _.
  unfold py_assert. rewrite (proj2 (Z.leb_le _ (_max_num_blocks p))) by lia.
  eexists. split; [done|]. right. exists l.
  split; [|by split].
  destruct (rnd_int_exact _ Hm) as (m & e & Hr & _ & _).
  rewrite (limit_product _ (FFin m e)) in Ef by (unfold float_of_int; by rewrite Hr).
  rewrite Hr. assert (NF (fmul (FFin m e) (flit 95 100)) = f) as -> by congruence. exact El.
Qed.

Lemma can_allocate_sound_witness :
  ∃ p', allocate (demo_request "a" 1500) demo_planner = (p', Ok tt) ∧
    (p' = demo_planner ∨
     ∃ limit, nfloor (NF (fmul (rnd (inject_Z 100)) (flit 95 100))) = Ok limit ∧
       _allocated_blocks p' ≤ limit ∧ limit ≤ _max_num_blocks p').
Proof.
  apply (can_allocate_sound demo_planner (demo_request "a" 1500)); [simpl; lia|vm_compute; reflexivity].
Defined.

(** C30.  Allocating for a new request and freeing it again restores the
    planner exactly: nothing leaks and no other request's blocks change. *)
Theorem allocate_free_restores p r p' :
  planner_inv p → dict_get (_allocation_map p) (req_id r) = None →
  allocate r p = (p', Ok tt) → free [req_id r] p' = (p, Ok tt).
Proof.
  intros Hi Hnew Ha. assert (Hp' : fold_left free_one [req_id r] p' = p).
  { destruct (allocate_cases _ _ _ _ Ha) as [->|(n & _ & _ & -> & _)]; destruct p;
      unfold free_one, set_allocation, dict_incr, dict_get_default; simpl in *;
      rewrite ?Hnew, ?dict_get_set_eq; simpl; f_equal; try lia.
    - by apply dict_del_fresh.
    - by apply dict_del_set_fresh. }
  unfold free, py_assert. rewrite Hp'.
  destruct Hi as [_ Hs _ Hpos]. pose proof (dict_sum_nonneg _ Hpos).
  by rewrite (proj2 (Z.leb_le _ _)) by lia.
Qed.

(** An [M] computation that returned. *)
Lemma returned {S A} (m : S * res A) a : snd m = Ok a → m = (fst m, Ok a).
Proof. destruct m; simpl. by intros ->. Qed.

Lemma allocate_free_restores_witness :
  ∃ p', allocate (demo_request "a" 40) demo_planner = (p', Ok tt) ∧ free ["a"] p' = (demo_planner, Ok tt).
Proof.
  assert (H : allocate (demo_request "a" 40) demo_planner
              = (fst (allocate (demo_request "a" 40) demo_planner), Ok tt))
    by (apply returned; vm_compute; reflexivity).
  exists (fst (allocate (demo_request "a" 40) demo_planner)). split; [exact H|].
  apply (allocate_free_restores demo_planner (demo_request "a" 40) _ demo_planner_inv eq_refl H).
Defined.

(** ** How many blocks a request gets *)

(** Dividing a positive integer below [2^53] by 16 is exact. *)
Lemma div16_exact z : 0 < z ≤ 2 ^ 53 →
  ∃ m e, int_truediv z 16 = Ok (FFin m e) ∧ (fval m e == inject_Z z / 16)%Q.
Proof.
  intros Hz. destruct (rnd_int_pos z) as (m & e & Hr & Hv); [lia|].
  pose proof (rnd_wf (inject_Z z)) as Hwf. rewrite Hr in Hwf.
  assert (H1 : (1 <= fval m e)%Q).
  { rewrite Hv. assert (1 ≤ z) as H by lia. rewrite Zle_Qle in H. exact H. }
  destruct Hwf as [[-> ->]|(Hm0 & Hm & He & Hn)].
  { rewrite fval_0 in H1. by exfalso. }
  assert (He' : -53 < e).
  { apply Z.nle_gt. intros Hle. apply pow2_le in Hle. apply (Qle_not_lt _ _ H1).
    unfold fval. assert (Hmz : m < 2 ^ 53) by lia. rewrite Zlt_Qlt in Hmz.
    pose proof (pow2_pos e). apply Qlt_le_trans with (inject_Z (2 ^ 53) * pow2 e)%Q.
    - apply Qmult_lt_compat_r; done.
    - apply Qle_trans with (inject_Z (2 ^ 53) * pow2 (-53))%Q; [|vm_compute; discriminate].
      apply Qmult_le_l; done. }
  assert (Hf : fwf (FFin m (e - 4))) by (right; lia).
  assert (Hq : (fval m (e - 4) == inject_Z z / 16)%Q).
  { rewrite <- Hv. replace (e - 4) with (e + -4) by lia. unfold fval. rewrite pow2_add. change (pow2 (-4)) with (1 # 16)%Q.
    unfold Qdiv. change (/ 16)%Q with (1 # 16)%Q. ring. }
  exists m, (e - 4). split; [|done]. unfold int_truediv. simpl (16 =? 0).
  cbv iota. change (inject_Z 16) with (16 # 1)%Q. change (16 # 1)%Q with 16%Q. rewrite <- Hq, rnd_id by done. done.
Qed.

(** C31.  A request that enters the planner gets the blocks of 16 tokens its
    prompt needs and no more: [n] blocks with [16 (n - 1) < input_length <= 16 n]. *)
Theorem prompt_blocks_exact p r :
  mp_block_size p = 16 → 0 < input_length r ≤ 2 ^ 53 →
  dict_get (_allocation_map p) (req_id r) = None →
  ∃ n, _estimate_required_blocks p r = Ok n ∧ 16 * (n - 1) < input_length r ≤ 16 * n.
Proof.
  intros Hb Hi Hn. unfold _estimate_required_blocks. rewrite Hn, Hb.
  destruct (div16_exact _ Hi) as (m & e & Hd & Hv).
  unfold lift2, int, ndiv, mbind, res_bind. simpl. rewrite Hd. eexists. split; [reflexivity|].
  pose proof (Qle_ceiling (fval m e)) as H1. pose proof (Qceiling_lt (fval m e)) as H2.
  set (c := Qceiling (fval m e)) in *.
  assert (H3 : (inject_Z (input_length r) <= inject_Z (16 * c))%Q).
  { rewrite inject_Z_mult. apply Qle_trans with (16 * fval m e)%Q; [rewrite Hv; unfold Qdiv; field_simplify; lra|].
    change (inject_Z 16) with 16%Q. lra. }
  assert (H4 : (inject_Z (16 * (c - 1)) < inject_Z (input_length r))%Q).
  { rewrite inject_Z_mult. apply Qlt_le_trans with (16 * fval m e)%Q; [|rewrite Hv; unfold Qdiv; field_simplify; lra].
    change (inject_Z 16) with 16%Q. lra. }
  rewrite <- Zle_Qle in H3. rewrite <- Zlt_Qlt in H4. lia.
Qed.

Lemma prompt_blocks_exact_witness :
  ∃ n, _estimate_required_blocks demo_planner (demo_request "a" 33) = Ok n ∧ 16 * (n - 1) < 33 ≤ 16 * n.
Proof. apply (prompt_blocks_exact demo_planner (demo_request "a" 33)); [reflexivity|simpl; lia|reflexivity]. Defined.

(** C35.  Growth during decode ignores the prompt: once a request holds blocks
    for its prompt, generating as many tokens again asks for no further block,
    so the planner counts [n] blocks while the cache holds up to twice their
    tokens. *)
Theorem decode_under_reserves p r n k :
  mp_block_size p = 16 → dict_get (_allocation_map p) (req_id r) = Some n →
  input_length r = 16 * n → 0 < n → 0 < k ≤ 16 * n → generated_tokens r = k →
  allocate r p = (p, Ok tt) ∧ 16 * n < input_length r + generated_tokens r.
Proof.
  intros Hb Hn Hi Hpos Hk Hg. unfold allocate, _estimate_required_blocks. rewrite Hn, Hb, Hg.
  rewrite Z.max_l by lia. simpl. split; [done|lia].
Qed.

(** A request with a prompt of 1600 tokens that has generated 1600 tokens. *)
Definition long_request : GenerationRequest :=
  mkRequest "a" "llama" 1600 2000 fzero GENERATE None 1600 (Some fzero) None.

Lemma decode_under_reserves_witness :
  let p := set_allocation 100 [("a", 100)] demo_planner in
  allocate long_request p = (p, Ok tt) ∧ 16 * 100 < input_length long_request + generated_tokens long_request.
Proof.
  apply (decode_under_reserves (set_allocation 100 [("a", 100)] demo_planner) long_request 100 1600);
    first [reflexivity | lia].
Defined.

(** No planner can be built: with a model description the constructor
    reads [_tp_size], which nothing has assigned, and without one it refuses. *)
Lemma planner_never_constructed model_params model_config hw w a kv util pc bs :
  ∃ e, MemoryPlanner_init model_params model_config hw w a kv util pc bs = Raise e.
Proof.
  unfold MemoryPlanner_init. destruct (_normalize_parallel_config pc) as [par|e]; [|by exists e].
  unfold mbind, res_bind. destruct model_config as [c|]; [|by eexists].
  unfold get_max_num_blocks, mbind, res_bind. destruct (get_weights_memory _) as [w0|e]; by eexists.
Qed.
