(* ===== verification/Trace.v ===== *)
(** * Trace events

    Models [simulator/core/trace.py]: the Chrome trace event, its colour and
    the document [export_chrome_trace] writes.  MD5 is a parameter (the digest
    as an integer), and so is the order in which Python walks a set. *)

From Stdlib Require Import QArith Ascii.
From S2P Require Import Prelude PyFloat PyStr.

#[local] Open Scope string_scope.
#[local] Open Scope list_scope.
#[local] Open Scope Z_scope.

Inductive pid := PidInt (z : Z) | PidStr (s : string).

#[export] Instance pid_eq_dec : EqDecision pid.
Proof. solve_decision. Defined.

Definition pid_val (p : pid) : pyval := match p with PidInt z => VInt z | PidStr s => VStr s end.

Record TraceEvent := mkTrace {
  te_name : string;
  te_cat : string;
  te_ph : string;
  te_pid : pid;
  te_tid : pid;
  te_ts : Z;
  te_args : option (dict pyval);
  te_dur : option Z;
  te_cname : option string;
}.

Definition opt_entry {A} (k : string) (f : A → pyval) (o : option A) : dict pyval :=
  match o with Some a => [(k, f a)] | None => [] end.

(** [TraceEvent.to_dict] *)
Definition TraceEvent_to_dict (e : TraceEvent) : dict pyval :=
  [("name", VStr (te_name e)); ("cat", VStr (te_cat e)); ("ph", VStr (te_ph e));
   ("pid", pid_val (te_pid e)); ("tid", pid_val (te_tid e)); ("ts", VInt (te_ts e))]
  ++ opt_entry "args" VDict (te_args e) ++ opt_entry "dur" VInt (te_dur e)
  ++ opt_entry "cname" VStr (te_cname e).

(** [int(t * 1e6)] *)
Definition microseconds (t : pyfloat) : res Z := py_int (fmul t (flit 1000000 1)).

Definition colors : list string :=
  ["generic_work"; "good"; "rail_response"; "rail_animation"; "rail_load"; "startup";
   "cq_build_running"; "cq_build_passed"; "thread_state_running"; "thread_state_iowait"].

Section Trace.
(** [int(hashlib.md5(s.encode()).hexdigest(), 16)] and the iteration order of a set of process ids. *)
Context (md5 : string → Z) (iter : list pid → list pid).

Definition get_request_color (request_id : string) : string :=
  nth (Z.to_nat (md5 request_id mod Z.of_nat (length colors))) colors "".

(** The name and sort index shown for a process. *)
Definition process_metadata (p : pid) : res (string * Z) :=
  if bool_decide (p = PidStr "request_tracker") then Ok ("Request Lifecycle Tracker", -1)
  else if bool_decide (p = PidStr "cluster") then Ok ("Cluster Manager", 0)
  else match p with
       | PidStr s =>
           if startswith "node_" s then
             field ← of_option IndexError (split_on "_"%char s !! 1%nat);
             n ← int_of_str field;
             Ok ("Engine: " +:+ s, n)
           else Ok ("Process: " +:+ s, 2)
       | PidInt z => Ok ("Process: " +:+ str_of_int z, 2)
       end.

Definition process_events (p : pid) (name : string) (index : Z) : list pyval :=
  [VDict [("name", VStr "process_name"); ("ph", VStr "M"); ("pid", pid_val p);
          ("args", VDict [("name", VStr name)])];
   VDict [("name", VStr "process_sort_index"); ("ph", VStr "M"); ("pid", pid_val p);
          ("args", VDict [("sort_index", VInt index)])]].

(** The document written by [export_chrome_trace]. *)
Definition export_chrome_trace (events : list TraceEvent) : res (dict pyval) :=
  let process_ids := iter (remove_dups (map te_pid events)) in
  metadata ← mapR (fun p => '(name, index) ← process_metadata p; Ok (process_events p name index)) process_ids;
  Ok [("traceEvents", VList (concat metadata ++ map (fun e => VDict (TraceEvent_to_dict e)) events));
      ("displayTimeUnit", VStr "ms")].
End Trace.
