(* ===== verification/Engine.v ===== *)
(** * The serving engine

    Models [simulator/core/engine.py]: one node's request queues, prefill and
    continuous decode batching, KV-cache admission, clock and trace.

    Request objects are shared between the cluster manager and the engine, and
    the engine mutates them; they live in a store indexed by object reference.
    The callback the cluster manager installs acts on an outer state [L] (the
    event loop), which the engine threads through its methods.  The order in
    which Python walks a set of request objects is the parameter [iter]. *)

From Stdlib Require Import QArith.
From S2P Require Import Prelude PyFloat PyStr Events Request Config Analyzer Memory Trace.

#[local] Open Scope string_scope.
#[local] Open Scope list_scope.
#[local] Open Scope Z_scope.

(** ** Request objects *)

Definition ref := nat.
Definition store := ref → GenerationRequest.
Definition update (st : store) (r : ref) (f : GenerationRequest → GenerationRequest) : store :=
  fun r' => if decide (r' = r) then f (st r) else st r'.

(** ** Batches *)

Record Batch := mkBatch {
  batch_id : string;
  b_requests : list ref;
  b_created_at : pyfloat;
  b_status : string;
  b_memory_usage : pyfloat;
}.

Definition Batch_init (batch_id : string) (requests : list ref) : Batch :=
  mkBatch batch_id requests fzero "forming" fzero.
Definition Batch_set_status (s : string) (b : Batch) : Batch :=
  mkBatch (batch_id b) (b_requests b) (b_created_at b) s (b_memory_usage b).
Definition Batch_set_requests (rs : list ref) (b : Batch) : Batch :=
  mkBatch (batch_id b) rs (b_created_at b) (b_status b) (b_memory_usage b).

Definition Batch_add_request (r : ref) (b : Batch) : Batch :=
  if bool_decide (r ∈ b_requests b) then b else Batch_set_requests (b_requests b ++ [r]) b.

(** [list.remove]: the first occurrence. *)
Fixpoint list_remove (r : ref) (l : list ref) : list ref :=
  match l with
  | [] => []
  | x :: l' => if decide (x = r) then l' else x :: list_remove r l'
  end.

Definition Batch_remove_request (r : ref) (b : Batch) : Batch :=
  let b1 := if bool_decide (r ∈ b_requests b) then Batch_set_requests (list_remove r (b_requests b)) b else b in
  if is_nil (b_requests b1) then Batch_set_status "completed" b1 else b1.

Definition Batch_is_empty (b : Batch) : bool := is_nil (b_requests b).
Definition get_batch_size (b : Batch) : Z := Z.of_nat (length (b_requests b)).

(** ** The engine object *)

(** The attributes set once by the constructor. *)
Record EngineConfig := mkEngineConfig {
  engine_id : string;
  model_id : string;
  model_params : attrs;
  model_instance : option ModelConfig;
  hardware : string;
  hardware_spec : HardwareSpec;
  parallel_config : parallel_arg;
  max_batch_size : Z;
  model_analyzer : ModelAnalyzer;
}.
Definition gpu_memory_capacity (c : EngineConfig) : pyfloat := vmemory (hardware_spec c).
Definition memory_bandwidth (c : EngineConfig) : pyfloat := bandwidth (hardware_spec c).
Definition compute_throughput (c : EngineConfig) : pyfloat := FP16 (hardware_spec c).

(** Request management. *)
Record Queues := mkQueues {
  request_queue : list ref;
  active_requests : list ref;
  completed_requests : list ref;
  prefill_queue : list ref;
  decode_ready_requests : list ref;
  current_decode_batch : option Batch;
  batch_counter : Z;
  current_prefill_request : option ref;
}.

(** Memory and model loading. *)
Record EngineMemory := mkEngineMemory {
  memory_planner : MemoryPlanner;
  model_loaded : bool;
  model_memory_usage : num;
  kv_cache_memory : num;
  kv_cache_capacity : num;
}.

Record EngineStats := mkEngineStats {
  requests_processed : Z;
  total_tokens_generated : Z;
  total_prefill_time : num;
  total_decode_time : num;
  memory_peak : num;
  batch_sizes : list Z;
}.

Record ServingEngine := mkEngine {
  e_cfg : EngineConfig;
  e_q : Queues;
  e_mem : EngineMemory;
  e_stats : EngineStats;
  e_time : pyfloat;
  e_cursor : pyfloat;
  e_trace : list TraceEvent;
}.

Definition set_q (q : Queues) (e : ServingEngine) : ServingEngine :=
  mkEngine (e_cfg e) q (e_mem e) (e_stats e) (e_time e) (e_cursor e) (e_trace e).
Definition set_mem (m : EngineMemory) (e : ServingEngine) : ServingEngine :=
  mkEngine (e_cfg e) (e_q e) m (e_stats e) (e_time e) (e_cursor e) (e_trace e).
Definition set_stats (s : EngineStats) (e : ServingEngine) : ServingEngine :=
  mkEngine (e_cfg e) (e_q e) (e_mem e) s (e_time e) (e_cursor e) (e_trace e).
Definition set_times (t c : pyfloat) (e : ServingEngine) : ServingEngine :=
  mkEngine (e_cfg e) (e_q e) (e_mem e) (e_stats e) t c (e_trace e).
Definition add_trace (ts : list TraceEvent) (e : ServingEngine) : ServingEngine :=
  mkEngine (e_cfg e) (e_q e) (e_mem e) (e_stats e) (e_time e) (e_cursor e) (e_trace e ++ ts).

Definition set_planner (p : MemoryPlanner) (m : EngineMemory) : EngineMemory :=
  mkEngineMemory p (model_loaded m) (model_memory_usage m) (kv_cache_memory m) (kv_cache_capacity m).

Definition with_active (a : list ref) (q : Queues) : Queues :=
  mkQueues (request_queue q) a (completed_requests q) (prefill_queue q) (decode_ready_requests q)
    (current_decode_batch q) (batch_counter q) (current_prefill_request q).
Definition with_prefill_queue (p : list ref) (q : Queues) : Queues :=
  mkQueues (request_queue q) (active_requests q) (completed_requests q) p (decode_ready_requests q)
    (current_decode_batch q) (batch_counter q) (current_prefill_request q).
Definition with_ready (d : list ref) (q : Queues) : Queues :=
  mkQueues (request_queue q) (active_requests q) (completed_requests q) (prefill_queue q) d
    (current_decode_batch q) (batch_counter q) (current_prefill_request q).
Definition with_batch (b : option Batch) (q : Queues) : Queues :=
  mkQueues (request_queue q) (active_requests q) (completed_requests q) (prefill_queue q)
    (decode_ready_requests q) b (batch_counter q) (current_prefill_request q).
Definition with_prefill (p : option ref) (q : Queues) : Queues :=
  mkQueues (request_queue q) (active_requests q) (completed_requests q) (prefill_queue q)
    (decode_ready_requests q) (current_decode_batch q) (batch_counter q) p.
Definition with_completed (c : list ref) (q : Queues) : Queues :=
  mkQueues (request_queue q) (active_requests q) c (prefill_queue q)
    (decode_ready_requests q) (current_decode_batch q) (batch_counter q) (current_prefill_request q).
Definition with_counter (n : Z) (q : Queues) : Queues :=
  mkQueues (request_queue q) (active_requests q) (completed_requests q) (prefill_queue q)
    (decode_ready_requests q) (current_decode_batch q) n (current_prefill_request q).

Definition empty_queues : Queues := mkQueues [] [] [] [] [] None 0 None.
Definition empty_stats : EngineStats := mkEngineStats 0 0 (NF fzero) (NF fzero) (NF fzero) [].

(** The analyzer's model description: the instance, or the Llama description
    when the model's name says so. *)
Definition analyzer_config (model_id : string) (inst : option ModelConfig) : option ModelConfig :=
  match inst with
  | Some c => Some c
  | None => if contains "llama" (lower model_id) || contains "Llama-2" model_id then Some llama else None
  end.

(** The constructor; [AutoConfig.from_pretrained] is the argument [pretrained]. *)
Definition ServingEngine_init (pretrained : string → res attrs) (engine_id model_id : string)
    (model_instance : option ModelConfig) (hardware : string) (parallel_config : parallel_arg)
    (max_batch_size : Z) : res ServingEngine :=
  params ← pretrained model_id;
  spec ← dict_index hardware_params hardware;
  planner ← MemoryPlanner_init params model_instance spec 16 16 16 (flit 9 10) parallel_config 16;
  params' ← pretrained model_id;
  let analyzer := mkAnalyzer hardware params' (analyzer_config model_id model_instance) in
  Ok (mkEngine
        (mkEngineConfig engine_id model_id params model_instance hardware spec parallel_config
           max_batch_size analyzer)
        empty_queues (mkEngineMemory planner false (NF fzero) (NF fzero) (NF fzero)) empty_stats
        fzero fzero []).

(** ** Methods *)

(** What a method acts on: the request objects, the engine and the outer
    state behind the callback. *)
Record ES (L : Type) := mkES { es_req : store; es_eng : ServingEngine; es_out : L }.
Arguments mkES {L}.
Arguments es_req {L}.
Arguments es_eng {L}.
Arguments es_out {L}.

Record MemInfo := mkMemInfo {
  mi_total : num;
  mi_model_weights : num;
  mi_kv_cache : num;
  mi_kv_cache_capacity : num;
  mi_kv_blocks_used : Z;
  mi_kv_blocks_capacity : Z;
  mi_available : num;
  mi_used : num;
  mi_utilization : num;
}.

Definition phase_letter (s : stage) : string := match s with Prefill => "P" | Decode => "D" end.

(** [get_current_load] *)
Definition get_current_load (e : ServingEngine) : Z :=
  Z.of_nat (length (active_requests (e_q e))) + Z.of_nat (length (decode_ready_requests (e_q e))) +
  (match current_prefill_request (e_q e) with Some _ => 1 | None => 0 end).

Definition has_model_loaded (e : ServingEngine) (m : string) : bool :=
  model_loaded (e_mem e) && bool_decide (model_id (e_cfg e) = m).

(** [_get_prefill_time] and [_get_decode_time]: the analyzer's total, or an
    estimate when the analyzer raises. *)
Definition _get_prefill_time (e : ServingEngine) (sequence_length batch_size : Z) : res num :=
  match (a ← analyze (model_analyzer (e_cfg e)) sequence_length batch_size 16 16 (Some 16) 1;
         dict_index (an_total_prefill a) "inference_time") with
  | Ok t => Ok t
  | Raise _ => ndiv (NI (sequence_length * sequence_length * batch_size)) (NF (compute_throughput (e_cfg e)))
  end.

Definition _get_decode_time (e : ServingEngine) (sequence_length batch_size : Z) : res num :=
  match (a ← analyze (model_analyzer (e_cfg e)) sequence_length batch_size 16 16 (Some 16) 1;
         dict_index (an_total_decode a) "inference_time") with
  | Ok t => Ok t
  | Raise _ => ndiv (NI (1024 * batch_size)) (NF (compute_throughput (e_cfg e)))
  end.

(** A duration, at least one millisecond when the model gives none. *)
Definition at_least_1ms (d : num) : num := if nleb d (NI 0) then NF (flit 1 1000) else d.

(** [start + duration] of a float and a number. *)
Definition fadd_num (start : pyfloat) (d : num) : res pyfloat :=
  d' ← nconv d; Ok (fadd start d').

(** [create_detailed_events] *)
Definition create_detailed_events (c : EngineConfig) (st : store) (phase : stage) (handled : list ref)
    (start_at end_at : pyfloat) (memory_info : dict pyval) : res (list TraceEvent) :=
  start_us ← (x ← nmul (nmax (NF start_at) (NI 0)) (NI 1000000); nint x);
  let duration_s := fmax (fsub end_at start_at) fzero in
  duration_int ← (x ← nmul (NF duration_s) (NI 1000000); nint x);
  let duration_us := Z.max duration_int 1 in
  Ok (map (fun r =>
    let req := st r in
    let args := [("request_id", VStr (req_id req)); ("requested_model", VStr (model req));
       ("engine_id", VStr (engine_id c)); ("engine_model", VStr (model_id c));
       ("hardware", VStr (hardware c)); ("phase", VStr (stage_name phase));
       ("start_time_s", VFloat (fround6 start_at)); ("end_time_s", VFloat (fround6 end_at));
       ("duration_s", VFloat (fround6 duration_s))] ++
      match phase with
      | Prefill => [("prompt_tokens", VInt (input_length req)); ("target_output_tokens", VInt (output_length req))]
      | Decode => [("target_output_tokens", VInt (output_length req));
                   ("generated_tokens_total", VInt (generated_tokens req));
                   ("tokens_emitted_this_step", VInt 1)]
      end in
    mkTrace (phase_letter phase +:+ ":" +:+ req_id req) ("request." +:+ stage_name phase) "X"
      (PidStr (engine_id c)) (PidInt 0) start_us
      (Some (fold_left (fun d '(k, v) => dict_set d k v) memory_info args)) (Some duration_us) None) handled).

Section Methods.
Context {L : Type} (callback : option (Event → M L unit)) (iter : list ref → list ref).

Abbreviation EM := (M (ES L)).

Definition ret {A} (a : A) : EM A := mret a.
Definition liftE {A} (r : res A) : EM A := lift r.
Definition read {A} (f : store → ServingEngine → A) : EM A := gets (fun s => f (es_req s) (es_eng s)).
Definition on_engine (f : ServingEngine → ServingEngine) : EM unit :=
  modify (fun s => mkES (es_req s) (f (es_eng s)) (es_out s)).
Definition on_queues (f : Queues → Queues) : EM unit := on_engine (fun e => set_q (f (e_q e)) e).
Definition on_request (r : ref) (f : GenerationRequest → GenerationRequest) : EM unit :=
  modify (fun s => mkES (update (es_req s) r f) (es_eng s) (es_out s)).
(** A method of the planner that may raise. *)
Definition on_planner {A} (m : M MemoryPlanner A) : EM A := fun s =>
  let e := es_eng s in
  let '(p', r) := m (memory_planner (e_mem e)) in
  (mkES (es_req s) (set_mem (set_planner p' (e_mem e)) e) (es_out s), r).
Definition call_back (ev : Event) : EM unit := fun s =>
  match callback with
  | Some cb => let '(l', r) := cb ev (es_out s) in (mkES (es_req s) (es_eng s) l', r)
  | None => (s, Ok tt)
  end.

Definition emit_event (t : EventType) (d : dict pyval) (p : EventPriority) : EM unit :=
  id ← read (fun _ e => engine_id (e_cfg e));
  call_back (mkEvent fzero t id d p).

Definition _refresh_memory_usage : EM unit :=
  p ← read (fun _ e => memory_planner (e_mem e));
  let '(kv, cap) := match get_allocated_kv_memory_per_shard p, get_total_kv_memory_capacity_per_shard p with
                    | Ok kv, Ok cap => (kv, cap)
                    | _, _ => (NF fzero, NF fzero)
                    end in
  on_engine (fun e => set_mem (mkEngineMemory (memory_planner (e_mem e)) (model_loaded (e_mem e))
                                 (model_memory_usage (e_mem e)) kv cap) e) ;;
  usage ← read (fun _ e => model_memory_usage (e_mem e));
  total_used ← liftE (nadd usage kv);
  on_engine (fun e => let s := e_stats e in
    set_stats (mkEngineStats (requests_processed s) (total_tokens_generated s) (total_prefill_time s)
                 (total_decode_time s) (nmax (memory_peak s) total_used) (batch_sizes s)) e).

Definition get_memory_info : EM MemInfo :=
  _refresh_memory_usage ;;
  e ← read (fun _ e => e);
  let m := e_mem e in
  let cap := gpu_memory_capacity (e_cfg e) in
  total_used ← liftE (nadd (model_memory_usage m) (kv_cache_memory m));
  rest ← liftE (nsub (NF cap) total_used);
  utilization ← liftE (if ntruth (NF cap) then ndiv total_used (NF cap) else Ok (NF fzero));
  ret (mkMemInfo (NF cap) (model_memory_usage m) (kv_cache_memory m) (kv_cache_capacity m)
          (get_allocated_block_count (memory_planner m)) (get_max_block_count (memory_planner m))
          (nmax rest (NF fzero)) total_used utilization).

Definition _get_memory_snapshot : EM (dict pyval) :=
  i ← get_memory_info;
  total ← liftE (nint (mi_total i));
  used ← liftE (nint (mi_used i));
  available ← liftE (nint (mi_available i));
  weights ← liftE (nint (mi_model_weights i));
  kv ← liftE (nint (mi_kv_cache i));
  kv_cap ← liftE (nint (mi_kv_cache_capacity i));
  ret [("memory_total_bytes", VInt total); ("memory_used_bytes", VInt used);
        ("memory_available_bytes", VInt available); ("memory_utilization", VNum (nround6 (mi_utilization i)));
        ("model_weights_bytes", VInt weights); ("kv_cache_bytes", VInt kv);
        ("kv_cache_capacity_bytes", VInt kv_cap); ("kv_blocks_in_use_total", VInt (mi_kv_blocks_used i));
        ("kv_blocks_remaining", VInt (Z.max (mi_kv_blocks_capacity i - mi_kv_blocks_used i) 0));
        ("kv_blocks_capacity", VInt (mi_kv_blocks_capacity i))].

(** The weights of the model, or the estimate used when the planner raises. *)
Definition model_memory (e : ServingEngine) : num :=
  match get_weights_memory_per_shard (memory_planner (e_mem e)) with
  | Ok m => m
  | Raise _ =>
      let p := model_params (e_cfg e) in
      let hidden_size := getattr_default p "hidden_size" 4096 in
      let num_layers := getattr_default p "num_hidden_layers" 32 in
      let vocab_size := getattr_default p "vocab_size" 50257 in
      NI ((hidden_size * hidden_size * 4 * num_layers + hidden_size * hidden_size * 3 * num_layers
           + hidden_size * vocab_size * 2) * 2)
  end.

Definition load_model : EM bool :=
  e ← read (fun _ e => e);
  if model_loaded (e_mem e) then ret true
  else
    let mem := model_memory e in
    if nltb (NF (gpu_memory_capacity (e_cfg e))) mem then ret false
    else
      on_engine (fun e => set_mem (mkEngineMemory (memory_planner (e_mem e)) true mem
                                     (kv_cache_memory (e_mem e)) (kv_cache_capacity (e_mem e))) e) ;;
      _refresh_memory_usage ;;
      emit_event MODEL_LOAD [("model_id", VStr (model_id (e_cfg e))); ("memory_usage", VNum mem)] HIGH ;;
      ret true.

Definition unload_model : EM unit :=
  e ← read (fun _ e => e);
  if model_loaded (e_mem e) then
    on_engine (fun e => set_mem (mkEngineMemory (memory_planner (e_mem e)) false (NF fzero) (NF fzero) (NF fzero)) e) ;;
    emit_event MODEL_UNLOAD [("model_id", VStr (model_id (e_cfg e)))] HIGH
  else ret tt.

Definition can_accommodate_request (request : ref) (safety_margin : pyfloat) : EM bool :=
  loaded ← read (fun _ e => model_loaded (e_mem e));
  ok ← (if (loaded : bool) then ret true else load_model);
  if negb ok then ret false
  else
    e ← read (fun _ e => e);
    req ← read (fun st _ => st request);
    let p := memory_planner (e_mem e) in
    can ← liftE (can_allocate_request p req);
    if negb can then ret false
    else
      current_kv ← liftE (get_allocated_kv_memory_per_shard p);
      additional_kv ← liftE (estimate_additional_kv_memory_per_shard p req);
      partial ← liftE (nadd (model_memory_usage (e_mem e)) current_kv);
      total_memory_needed ← liftE (nadd partial additional_kv);
      let available_memory := fmul (gpu_memory_capacity (e_cfg e)) (fsub fone safety_margin) in
      ret (nleb total_memory_needed (NF available_memory)).

Definition add_request (request : ref) : EM bool :=
  ok ← can_accommodate_request request (flit 1 10);
  if negb ok then ret false
  else
    req ← read (fun st _ => st request);
    on_planner (allocate req) ;;
    _refresh_memory_usage ;;
    on_queues (fun q => with_prefill_queue (prefill_queue q ++ [request]) q) ;;
    on_request request (set_status SCHEDULED) ;;
    ret true.

Definition gpu_now (e : ServingEngine) : pyfloat := fmax (e_cursor e) (e_time e).

Definition _start_next_prefill : EM unit :=
  queue ← read (fun _ e => prefill_queue (e_q e));
  match queue with
  | [] => ret tt
  | request :: rest =>
      on_queues (with_prefill_queue rest) ;;
      req ← read (fun st _ => st request);
      go ← (p ← read (fun _ e => memory_planner (e_mem e));
            if has_allocation p (req_id req) then ret true
            else
              ok ← can_accommodate_request request (flit 1 10);
              if negb ok
              then on_queues (fun q => with_prefill_queue (request :: prefill_queue q) q) ;; ret false
              else on_planner (allocate req) ;; _refresh_memory_usage ;; ret true);
      if negb go then ret tt
      else
        on_queues (fun q => with_active (set_add request (active_requests q)) (with_prefill (Some request) q)) ;;
        on_request request _prefill ;;
        e ← read (fun _ e => e);
        call_back (mkEvent (gpu_now e) PREFILL_START (engine_id (e_cfg e))
                     [("request_id", VStr (req_id req))] HIGH)
  end.

Definition _process_individual_prefill : EM bool :=
  cur ← read (fun _ e => current_prefill_request (e_q e));
  match cur with
  | None => ret false
  | Some request =>
      e ← read (fun _ e => e);
      req ← read (fun st _ => st request);
      d ← liftE (_get_prefill_time e (input_length req) 1);
      let prefill_duration := at_least_1ms d in
      let prefill_start_time := gpu_now e in
      prefill_end_time ← liftE (fadd_num prefill_start_time prefill_duration);
      on_engine (fun e => set_times (e_time e) prefill_end_time e) ;;
      total ← liftE (nadd (total_prefill_time (e_stats e)) prefill_duration);
      on_engine (fun e => let s := e_stats e in
        set_stats (mkEngineStats (requests_processed s) (total_tokens_generated s) total
                     (total_decode_time s) (memory_peak s) (batch_sizes s)) e) ;;
      snapshot ← _get_memory_snapshot;
      st ← read (fun st _ => st);
      events ← liftE (create_detailed_events (e_cfg e) st Prefill [request] prefill_start_time
                        prefill_end_time snapshot);
      on_engine (add_trace events) ;;
      on_request request (set_prefill_finished_at prefill_end_time) ;;
      call_back (mkEvent prefill_end_time PREFILL_COMPLETE (engine_id (e_cfg e))
                   [("request_id", VStr (req_id req)); ("prefill_time", VNum prefill_duration)] HIGH) ;;
      ret true
  end.

Definition add_batch_size (n : Z) : EM unit :=
  on_engine (fun e => let s := e_stats e in
    set_stats (mkEngineStats (requests_processed s) (total_tokens_generated s) (total_prefill_time s)
                 (total_decode_time s) (memory_peak s) (batch_sizes s ++ [n])) e).

Definition _form_decode_batch : EM unit :=
  e ← read (fun _ e => e);
  let q := e_q e in
  match current_decode_batch q, decode_ready_requests q with
  | None, _ :: _ =>
      let batch_requests := slice_to (max_batch_size (e_cfg e)) (iter (decode_ready_requests q)) in
      on_queues (fun q => with_ready (foldr set_remove (decode_ready_requests q) batch_requests) q) ;;
      on_queues (fun q =>
        let n := batch_counter q + 1 in
        with_batch (Some (Batch_set_status "decode"
                            (Batch_init ("decode_batch_" +:+ str_of_int n) batch_requests)))
          (with_counter n q)) ;;
      add_batch_size (Z.of_nat (length batch_requests))
  | _, _ => ret tt
  end.

Definition _add_to_decode_batch : EM unit :=
  e ← read (fun _ e => e);
  let q := e_q e in
  match current_decode_batch q, decode_ready_requests q with
  | Some b, _ :: _ =>
      let available_slots := max_batch_size (e_cfg e) - get_batch_size b in
      if available_slots <=? 0 then ret tt
      else
        let requests_to_add := slice_to available_slots (iter (decode_ready_requests q)) in
        let b' := fold_left (fun b r => Batch_add_request r b) requests_to_add b in
        on_queues (fun q => with_ready (foldr set_remove (decode_ready_requests q) requests_to_add)
                              (with_batch (Some b') q)) ;;
        add_batch_size (get_batch_size b')
  | _, _ => ret tt
  end.

Definition _update_kv_cache_memory : EM unit := _refresh_memory_usage.

(** [max(...)] of the sequence lengths, or the fallback of an empty batch. *)
Definition max_seq_length (st : store) (rs : list ref) : Z :=
  match map (fun r => input_length (st r) + generated_tokens (st r)) rs with
  | [] => 1024
  | x :: xs => fold_left Z.max xs x
  end.

(** One token for each request of the batch, and the KV blocks it needs; the
    completed requests in order. *)
Fixpoint decode_each (rs : list ref) : EM (list ref) :=
  match rs with
  | [] => ret []
  | r :: rs' =>
      is_complete ← read (fun st _ => snd (_decode (st r)));
      on_request r (fun x => fst (_decode x)) ;;
      req ← read (fun st _ => st r);
      on_planner (allocate req) ;;
      done ← decode_each rs';
      ret (if (is_complete : bool) then r :: done else done)
  end.

(** Bookkeeping for one completed request; the set removal raises when the
    request is not active. *)
Definition complete_one (decode_end_time : pyfloat) (r : ref) : EM Event :=
  active ← read (fun _ e => active_requests (e_q e));
  if negb (bool_decide (r ∈ active)) then raise (KeyError "active_requests")
  else
    on_queues (fun q => with_completed (completed_requests q ++ [r]) (with_active (set_remove r (active_requests q)) q)) ;;
    on_queues (fun q => with_batch (Batch_remove_request r <$> current_decode_batch q) q) ;;
    on_engine (fun e => let s := e_stats e in
      set_stats (mkEngineStats (requests_processed s + 1) (total_tokens_generated s) (total_prefill_time s)
                   (total_decode_time s) (memory_peak s) (batch_sizes s)) e) ;;
    e ← read (fun _ e => e);
    req ← read (fun st _ => st r);
    ret (mkEvent decode_end_time REQUEST_COMPLETE (engine_id (e_cfg e))
           [("request_id", VStr (req_id req)); ("total_tokens", VInt (generated_tokens req));
            ("completion_time", VFloat decode_end_time)] HIGH).

Fixpoint complete_each (t : pyfloat) (rs : list ref) : EM (list Event) :=
  match rs with
  | [] => ret []
  | r :: rs' => ev ← complete_one t r; evs ← complete_each t rs'; ret (ev :: evs)
  end.

Definition _process_decode_batch : EM (list Event) :=
  e ← read (fun _ e => e);
  st ← read (fun st _ => st);
  match current_decode_batch (e_q e) with
  | None => ret []
  | Some b =>
      let batch_size := get_batch_size b in
      d ← liftE (_get_decode_time e (max_seq_length st (b_requests b)) batch_size);
      let decode_duration := at_least_1ms d in
      let decode_start_time := gpu_now e in
      decode_end_time ← liftE (fadd_num decode_start_time decode_duration);
      on_engine (fun e => set_times (e_time e) decode_end_time e) ;;
      let handled_requests := filter (fun r => status (st r) ≠ EXIT) (b_requests b) in
      completed_requests ← decode_each (b_requests b);
      total ← liftE (nadd (total_decode_time (e_stats e)) decode_duration);
      on_engine (fun e => let s := e_stats e in
        set_stats (mkEngineStats (requests_processed s) (total_tokens_generated s + batch_size)
                     (total_prefill_time s) total (memory_peak s) (batch_sizes s)) e) ;;
      _update_kv_cache_memory ;;
      events ← complete_each decode_end_time completed_requests;
      st' ← read (fun st _ => st);
      (if is_nil completed_requests then ret tt
       else on_planner (free (map (fun r => req_id (st' r)) completed_requests)) ;; _update_kv_cache_memory) ;;
      (if is_nil handled_requests then ret tt
       else snapshot ← _get_memory_snapshot;
            traces ← liftE (create_detailed_events (e_cfg e) st' Decode handled_requests decode_start_time
                              decode_end_time snapshot);
            on_engine (add_trace traces)) ;;
      ret events
  end.

Definition set_current_time (t : pyfloat) (e : ServingEngine) : ServingEngine :=
  set_times t (if fltb (e_cursor e) t then t else e_cursor e) e.

(** [step], priority 1: start or continue a prefill. *)
Definition step_prefill : EM unit :=
  q ← read (fun _ e => e_q e);
  (match current_prefill_request q, prefill_queue q with
   | None, _ :: _ => _start_next_prefill
   | _, _ => ret tt
   end) ;;
  cur ← read (fun _ e => current_prefill_request (e_q e));
  match cur with
  | Some r =>
      prefill_complete ← _process_individual_prefill;
      if (prefill_complete : bool)
      then on_queues (fun q => with_prefill None (with_ready (set_add r (decode_ready_requests q)) q))
      else ret tt
  | None => ret tt
  end.

(** Priority 2: form or extend the decode batch. *)
Definition step_batch : EM unit :=
  q ← read (fun _ e => e_q e);
  match current_decode_batch q, decode_ready_requests q with
  | None, _ :: _ => _form_decode_batch
  | Some _, _ :: _ => _add_to_decode_batch
  | _, _ => ret tt
  end.

(** One decode step, and the batch dropped when it is empty. *)
Definition step_decode : EM (list Event) :=
  b ← read (fun _ e => current_decode_batch (e_q e));
  events ← (match b with
            | Some b => if Batch_is_empty b then ret [] else _process_decode_batch
            | None => ret []
            end);
  b ← read (fun _ e => current_decode_batch (e_q e));
  (match b with
   | Some b => if Batch_is_empty b then on_queues (with_batch None) else ret tt
   | None => ret tt
   end) ;;
  ret events.

Definition engine_step (current_time : option pyfloat) : EM (list Event) :=
  (match current_time with Some t => on_engine (set_current_time t) | None => ret tt end) ;;
  step_prefill ;;
  step_batch ;;
  step_decode.

(** [add_trace_event] *)
Definition add_trace_event (name category phase : string) (timestamp : pyfloat) (duration : option pyfloat)
    (args : dict pyval) : EM unit :=
  e ← read (fun _ e => e);
  ts ← liftE (microseconds timestamp);
  dur ← liftE (match duration with Some d => x ← microseconds d; Ok (Some x) | None => Ok None end);
  on_engine (add_trace [mkTrace name category phase (PidStr (engine_id (e_cfg e))) (PidStr "engine") ts
                          (Some args) dur None]).

(** The counters [get_statistics] reports beside the statistics and the memory
    figures. *)
Record EngineReport := mkReport {
  er_statistics : EngineStats;
  er_engine_id : string;
  er_model_id : string;
  er_hardware : string;
  er_current_load : Z;
  er_queue_length : Z;
  er_prefill_queue_length : Z;
  er_decode_ready_count : Z;
  er_current_prefill_request : bool;
  er_current_decode_batch_size : Z;
  er_avg_batch_size : num;
  er_memory_info : MemInfo;
  er_model_loaded : bool;
  er_trace_events : list TraceEvent;
}.

(** [get_statistics]; [np.mean] is the argument [mean].  The statistics are
    copied before the memory figures are refreshed. *)
Definition engine_get_statistics (mean : list Z → res num) : EM EngineReport :=
  e ← read (fun _ e => e);
  avg ← liftE (if is_nil (batch_sizes (e_stats e)) then Ok (NI 0) else mean (batch_sizes (e_stats e)));
  info ← get_memory_info;
  let q := e_q e in
  ret (mkReport (e_stats e) (engine_id (e_cfg e)) (model_id (e_cfg e)) (hardware (e_cfg e)) (get_current_load e)
         (Z.of_nat (length (prefill_queue q))) (Z.of_nat (length (prefill_queue q)))
         (Z.of_nat (length (decode_ready_requests q)))
         (match current_prefill_request q with Some _ => true | None => false end)
         (match current_decode_batch q with Some b => get_batch_size b | None => 0 end)
         avg info (model_loaded (e_mem e)) (e_trace e)).
End Methods.
