(* ===== verification/EngineFacts.v ===== *)
(** * Correctness of the serving engine

    Every request an engine accepts is in exactly one of its queues, a step
    moves requests along without losing any, decodes one token per request of
    the batch, and moves the GPU clock forward. *)

From Stdlib Require Import QArith.
From S2P Require Import Prelude PyFloat PyStr Events Request Config Analyzer Memory Trace Engine.

#[local] Open Scope string_scope.
#[local] Open Scope list_scope.
#[local] Open Scope Z_scope.

(** ** Methods that leave the request management alone *)

Section Keeps.
Context {L : Type} (callback : option (Event → M L unit)).
Implicit Types (s : ES L).

(** What the memory bookkeeping and the callbacks do not touch. *)
Definition core s :=
  (es_req s, e_cfg (es_eng s), e_q (es_eng s), e_time (es_eng s), e_cursor (es_eng s)).

Lemma keeps_retE {A} (a : A) : keeps core (ret a).
Proof. by intros s. Qed.
Lemma keeps_liftE {A} (r : res A) : keeps core (liftE r).
Proof. by intros s. Qed.
Lemma keeps_read {A} (f : store → ServingEngine → A) : keeps core (read f).
Proof. by intros s. Qed.
Lemma keeps_planner {A} (m : M MemoryPlanner A) : keeps core (on_planner m).
Proof. intros s. unfold on_planner. by destruct (m _). Qed.
Lemma keeps_call_back ev : keeps core (call_back callback ev).
Proof. intros s. unfold call_back. destruct callback as [cb|]; [by destruct (cb ev _)|done]. Qed.
Lemma keeps_engine (f : ServingEngine → ServingEngine) :
  (∀ e, e_cfg (f e) = e_cfg e ∧ e_q (f e) = e_q e ∧ e_time (f e) = e_time e ∧ e_cursor (f e) = e_cursor e) →
  keeps core (on_engine f).
Proof. intros H s. unfold core. simpl. destruct (H (es_eng s)) as (-> & -> & -> & ->). done. Qed.
End Keeps.

#[export] Hint Resolve keeps_retE keeps_liftE keeps_read keeps_planner keeps_call_back : keeps.
#[export] Hint Extern 1 (keeps core (on_engine _)) => apply keeps_engine; intros; simpl; done : keeps.

(** Walk through a method. *)
Ltac keeps_tac :=
  repeat (intros; first
    [ solve [eauto 2 with keeps]
    | apply keeps_bind
    | match goal with |- keeps core (if ?b then _ else _) => destruct b end
    | match goal with |- keeps core (let '(_, _) := ?p in _) => destruct p end
    | match goal with |- keeps core (match ?p with _ => _ end) => destruct p end ]).

Section KeepsMethods.
Context {L : Type} (callback : option (Event → M L unit)).

Lemma keeps_refresh : keeps core (_refresh_memory_usage (L := L)).
Proof. unfold _refresh_memory_usage. keeps_tac. Qed.
#[local] Hint Resolve keeps_refresh : keeps.

Lemma keeps_memory_info : keeps core (get_memory_info (L := L)).
Proof. unfold get_memory_info. keeps_tac. Qed.
#[local] Hint Resolve keeps_memory_info : keeps.

Lemma keeps_snapshot : keeps core (_get_memory_snapshot (L := L)).
Proof. unfold _get_memory_snapshot. keeps_tac. Qed.

Lemma keeps_load : keeps core (load_model callback).
Proof. unfold load_model, emit_event. keeps_tac. Qed.
#[local] Hint Resolve keeps_load : keeps.

Lemma keeps_update_kv : keeps core (_update_kv_cache_memory (L := L)).
Proof. apply keeps_refresh. Qed.

Lemma keeps_accommodate r m : keeps core (can_accommodate_request callback r m).
Proof. unfold can_accommodate_request. keeps_tac. Qed.
End KeepsMethods.
#[export] Hint Resolve keeps_refresh keeps_update_kv keeps_memory_info keeps_snapshot keeps_load keeps_accommodate : keeps.

(** ** Running methods that return *)

Section Running.
Context {L : Type}.
Implicit Types (s : ES L).

Lemma read_ok {A} (f : store → ServingEngine → A) s s' a :
  read f s = (s', Ok a) → s' = s ∧ a = f (es_req s) (es_eng s).
Proof. unfold read, gets. intros; by simplify_eq. Qed.
Lemma ret_ok {A} (x : A) s s' a : ret x s = (s', Ok a) → s' = s ∧ a = x.
Proof. unfold ret, mret, M_ret. intros; by simplify_eq. Qed.
Lemma lift_ok {A} (r : res A) s s' a : liftE r s = (s', Ok a) → s' = s ∧ r = Ok a.
Proof. unfold liftE, lift. intros; by simplify_eq. Qed.
Lemma engine_ok (f : ServingEngine → ServingEngine) s s' a :
  on_engine f s = (s', Ok a) → s' = mkES (es_req s) (f (es_eng s)) (es_out s).
Proof. unfold on_engine, modify. intros; by simplify_eq. Qed.
Lemma queues_ok (f : Queues → Queues) s s' a :
  on_queues f s = (s', Ok a) → s' = mkES (es_req s) (set_q (f (e_q (es_eng s))) (es_eng s)) (es_out s).
Proof. unfold on_queues, on_engine, modify. intros; by simplify_eq. Qed.
Lemma request_ok r f s s' a :
  on_request r f s = (s', Ok a) → s' = mkES (update (es_req s) r f) (es_eng s) (es_out s).
Proof. unfold on_request, modify. intros; by simplify_eq. Qed.
Lemma core_ok {A} (m : M (ES L) A) s s' r :
  keeps core m → m s = (s', r) →
  es_req s' = es_req s ∧ e_cfg (es_eng s') = e_cfg (es_eng s) ∧ e_q (es_eng s') = e_q (es_eng s) ∧
  e_time (es_eng s') = e_time (es_eng s) ∧ e_cursor (es_eng s') = e_cursor (es_eng s).
Proof. intros H E. specialize (H s). rewrite E in H. unfold core in H. simpl in H. by simplify_eq. Qed.
End Running.

Ltac run_ok H :=
  repeat (let x := fresh "x" in let s := fresh "s" in let Hm := fresh "Hm" in
    apply bind_ok in H; destruct H as (s & x & Hm & H);
    first [ apply read_ok in Hm; destruct Hm; subst s x
          | apply ret_ok in Hm; destruct Hm; subst s x
          | apply lift_ok in Hm; destruct Hm as [-> Hm]
          | apply queues_ok in Hm; subst s
          | apply request_ok in Hm; subst s
          | apply engine_ok in Hm; subst s
          | idtac ]; cbn [es_req es_eng es_out e_q e_cfg e_time e_cursor e_stats e_mem set_q] in H).

Ltac use_keeps H :=
  eapply core_ok in H; [destruct H as (? & ? & ? & ? & ?)|solve [eauto 2 with keeps]].

Ltac all_keeps := repeat match goal with H : _ _ = (_, Ok _) |- _ => use_keeps H end.

(** Rewrite the goal with what the calls kept. *)
Ltac rewrite_kept :=
  repeat match goal with
  | H : e_q ?e = _ |- context [e_q ?e] => rewrite H
  | H : es_req ?e = _ |- context [es_req ?e] => rewrite H
  | H : e_cfg ?e = _ |- context [e_cfg ?e] => rewrite H
  | H : e_time ?e = _ |- context [e_time ?e] => rewrite H
  | H : e_cursor ?e = _ |- context [e_cursor ?e] => rewrite H
  end.

(** ** Where a request is *)

Definition opt_list {A} (o : option A) : list A := match o with Some x => [x] | None => [] end.

Definition batch_requests (q : Queues) : list ref :=
  match current_decode_batch q with Some b => b_requests b | None => [] end.

(** Requests being worked on, requests not completed, all requests. *)
Definition working (q : Queues) : list ref :=
  opt_list (current_prefill_request q) ++ decode_ready_requests q ++ batch_requests q.
Definition pending (q : Queues) : list ref := prefill_queue q ++ working q.
Definition places (q : Queues) : list ref := pending q ++ completed_requests q.

(** Each request is in one place; the active set holds the requests being
    worked on. *)
Record q_inv (q : Queues) : Prop := {
  qi_nodup : NoDup (places q);
  qi_active : active_requests q ≡ₚ working q;
}.

Section Stages.
Context {L : Type} (callback : option (Event → M L unit)) (iter : list ref → list ref) `{!IterOrder iter}.
Implicit Types (s : ES L).

Abbreviation qs s := (e_q (es_eng s)).

Definition start_queues (r : ref) (rest : list ref) (q : Queues) : Queues :=
  with_active (set_add r (active_requests q)) (with_prefill (Some r) (with_prefill_queue rest q)).

Lemma start_next_prefill_ok s s' u :
  _start_next_prefill callback s = (s', Ok u) →
  e_cfg (es_eng s') = e_cfg (es_eng s) ∧ e_time (es_eng s') = e_time (es_eng s) ∧
  e_cursor (es_eng s') = e_cursor (es_eng s) ∧
  ((es_req s' = es_req s ∧ qs s' = qs s) ∨
   (∃ r rest, prefill_queue (qs s) = r :: rest ∧ es_req s' = update (es_req s) r _prefill ∧
      qs s' = start_queues r rest (qs s))).
Proof.
  unfold _start_next_prefill. intros H. run_ok H.
  destruct (prefill_queue (qs s)) as [|r rest] eqn:Eq.
  { apply ret_ok in H as [-> _]. by split_and!; [..|left]. }
  run_ok H. run_ok Hm.
  match type of Hm with (if ?b then _ else _) _ = _ => destruct b end.
  - apply ret_ok in Hm as [-> ->]. simpl in H. run_ok H. use_keeps H. simpl in *.
    split_and!; try done. right. exists r, rest. by split_and!.
  - run_ok Hm. all_keeps. destruct (negb x0); run_ok Hm.
    + apply ret_ok in Hm as [-> ->]. simpl in H. apply ret_ok in H as [-> _]. simpl in *.
      split_and!; try congruence. left. split; [congruence|].
      match goal with H : e_q (es_eng _) = _ |- _ => rewrite H end.
      destruct (qs s); simpl in *; by subst.
    + apply ret_ok in Hm as [-> ->]. simpl in H. run_ok H. all_keeps. simpl in *.
      split_and!; try congruence. right. exists r, rest. split_and!; [done|congruence|].
      rewrite_kept. done.
Qed.

Lemma process_prefill_ok s s' b :
  _process_individual_prefill callback s = (s', Ok b) →
  match current_prefill_request (qs s) with
  | None => s' = s ∧ b = false
  | Some r =>
      b = true ∧ e_cfg (es_eng s') = e_cfg (es_eng s) ∧ e_time (es_eng s') = e_time (es_eng s) ∧ qs s' = qs s ∧
      ∃ d t, _get_prefill_time (es_eng s) (input_length (es_req s r)) 1 = Ok d ∧
        fadd_num (gpu_now (es_eng s)) (at_least_1ms d) = Ok t ∧ e_cursor (es_eng s') = t ∧
        es_req s' = update (es_req s) r (set_prefill_finished_at t)
  end.
Proof.
  unfold _process_individual_prefill. intros H. run_ok H.
  destruct (current_prefill_request (qs s)) as [r|].
  2:{ apply ret_ok in H as [-> ->]. done. }
  run_ok H. apply ret_ok in H as [-> ->]. all_keeps. simpl in *.
  split_and!; [done|rewrite_kept; done..|]. exists x, x0. split_and!; try done; rewrite_kept; done.
Qed.

(** *** Batching *)

(** Requests move between the ready set and the batch, nothing else changes. *)
Record regroup (q q' : Queues) : Prop := {
  rg_prefill_queue : prefill_queue q' = prefill_queue q;
  rg_prefill : current_prefill_request q' = current_prefill_request q;
  rg_active : active_requests q' = active_requests q;
  rg_completed : completed_requests q' = completed_requests q;
  rg_moved : decode_ready_requests q' ++ batch_requests q' ≡ₚ decode_ready_requests q ++ batch_requests q;
}.

(** The running batch keeps its requests and takes as many ready ones as fit. *)
Record batched (slots : Z) (q q' : Queues) : Prop := {
  bt_kept : batch_requests q ⊆ batch_requests q';
  bt_size : Z.of_nat (length (batch_requests q')) =
    Z.min slots (Z.of_nat (length (decode_ready_requests q)) + Z.of_nat (length (batch_requests q)));
}.

Lemma iter_length (l : list ref) : length (iter l) = length l.
Proof. apply Permutation_length, iter_perm. Qed.

Lemma iter_nonempty (l : list ref) : l ≠ [] → iter l ≠ [].
Proof.
  intros Hl E. pose proof (iter_perm (iter := iter) l) as Hp. rewrite E in Hp. by apply Permutation_nil_l in Hp.
Qed.

Lemma form_decode_batch_ok s s' u :
  _form_decode_batch iter s = (s', Ok u) → NoDup (decode_ready_requests (qs s)) →
  current_decode_batch (qs s) = None → decode_ready_requests (qs s) ≠ [] →
  1 ≤ max_batch_size (e_cfg (es_eng s)) →
  core s' = (es_req s, e_cfg (es_eng s), qs s', e_time (es_eng s), e_cursor (es_eng s)) ∧
  regroup (qs s) (qs s') ∧ batch_requests (qs s') ≠ [] ∧
  batched (max_batch_size (e_cfg (es_eng s))) (qs s) (qs s') ∧
  is_Some (current_decode_batch (qs s')).
Proof.
  unfold _form_decode_batch. intros H Hd Hb Hr Hm. run_ok H. rewrite Hb in H.
  destruct (decode_ready_requests (qs s)) as [|r0 l0] eqn:Er; [done|]. rewrite <- Er in *. clear Hr.
  run_ok H. apply engine_ok in H. subst s'. simpl.
  set (sel := slice_to (max_batch_size (e_cfg (es_eng s))) (iter (decode_ready_requests (qs s)))).
  destruct (slice_to_prefix (max_batch_size (e_cfg (es_eng s))) (iter (decode_ready_requests (qs s)))) as [rest Hrest].
  split_and!; [done| | | |by eexists].
  - split; simpl; try done. unfold batch_requests. rewrite Hb. simpl. rewrite app_nil_r.
    eapply (split_selected _ _ rest); [done|].
    transitivity (iter (decode_ready_requests (qs s))); [symmetry; apply iter_perm|]. unfold sel. by rewrite <- Hrest.
  - by apply slice_to_nonempty, iter_nonempty; [|rewrite Er].
  - assert (Hnil : batch_requests (qs s) = []) by (unfold batch_requests; by rewrite Hb).
    split; rewrite Hnil; [set_solver|]. unfold batch_requests; simpl. unfold sel. rewrite slice_to_size, iter_length by lia. lia.
Qed.

Lemma batch_add_all (sel : list ref) b :
  NoDup (b_requests b ++ sel) → b_requests (fold_left (fun b r => Batch_add_request r b) sel b) = b_requests b ++ sel.
Proof.
  revert b. induction sel as [|r sel IH]; intros b Hd; simpl; [by rewrite app_nil_r|].
  assert (Hr : r ∉ b_requests b).
  { apply NoDup_app in Hd as (_ & Hd & _). intros Hin. apply (Hd r Hin). left. }
  assert (Ha : b_requests (Batch_add_request r b) = b_requests b ++ [r]).
  { unfold Batch_add_request. by rewrite bool_decide_eq_false_2. }
  rewrite IH; rewrite Ha; by rewrite <- app_assoc.
Qed.

Lemma add_to_decode_batch_ok s s' u b :
  _add_to_decode_batch iter s = (s', Ok u) → NoDup (decode_ready_requests (qs s) ++ batch_requests (qs s)) →
  current_decode_batch (qs s) = Some b → b_requests b ≠ [] →
  Z.of_nat (length (b_requests b)) ≤ max_batch_size (e_cfg (es_eng s)) →
  core s' = (es_req s, e_cfg (es_eng s), qs s', e_time (es_eng s), e_cursor (es_eng s)) ∧
  regroup (qs s) (qs s') ∧ batch_requests (qs s') ≠ [] ∧
  batched (max_batch_size (e_cfg (es_eng s))) (qs s) (qs s') ∧
  is_Some (current_decode_batch (qs s')).
Proof.
  unfold _add_to_decode_batch. intros H Hd Hb Hr Hm. run_ok H. rewrite Hb in H.
  assert (Hbr : batch_requests (qs s) = b_requests b) by (unfold batch_requests; by rewrite Hb).
  assert (Hsame : core s = (es_req s, e_cfg (es_eng s), qs s, e_time (es_eng s), e_cursor (es_eng s)) ∧
    regroup (qs s) (qs s) ∧ batch_requests (qs s) ≠ [] ∧
    (decode_ready_requests (qs s) = [] ∨ max_batch_size (e_cfg (es_eng s)) ≤ get_batch_size b →
     batched (max_batch_size (e_cfg (es_eng s))) (qs s) (qs s)) ∧
    is_Some (current_decode_batch (qs s))).
  { rewrite Hbr. split_and!; try (done || by eexists). unfold get_batch_size. intros Hfull.
    split; rewrite Hbr; [done|]. destruct Hfull as [->|]; simpl; lia. }
  destruct (decode_ready_requests (qs s)) as [|r0 l0] eqn:Er; [apply ret_ok in H as [-> _]; naive_solver|]. rewrite <- Er in *.
  destruct (Z.leb_spec (max_batch_size (e_cfg (es_eng s)) - get_batch_size b) 0).
  { apply ret_ok in H as [-> _]. destruct Hsame as (? & ? & ? & Hsame & ?). split_and!; try done. apply Hsame. right. lia. }
  clear Hsame. set (slots := max_batch_size (e_cfg (es_eng s)) - get_batch_size b) in *.
  run_ok H. apply engine_ok in H. subst s'. simpl. unfold batch_requests in *. simpl.
  set (sel := slice_to slots (iter (decode_ready_requests (qs s)))).
  destruct (slice_to_prefix slots (iter (decode_ready_requests (qs s)))) as [rest Hrest].
  assert (Hperm : decode_ready_requests (qs s) ≡ₚ sel ++ rest).
  { transitivity (iter (decode_ready_requests (qs s))); [symmetry; apply iter_perm|]. unfold sel. by rewrite <- Hrest. }
  rewrite Hbr in Hd. apply NoDup_app in Hd as (Hd1 & Hd2 & Hd3).
  assert (Hnd : NoDup (b_requests b ++ sel)).
  { rewrite Hperm in Hd1. apply NoDup_app in Hd1 as (? & _ & _). apply NoDup_app. split_and!; [done| |done].
    intros x Hx Hs. apply (Hd2 x); [rewrite Hperm; apply elem_of_app; by left|done]. }
  rewrite (batch_add_all _ _ Hnd). split_and!; [done| | | |by eexists].
  - split; simpl; try done. unfold batch_requests. rewrite Hb. simpl. rewrite (batch_add_all _ _ Hnd).
    rewrite (Permutation_app_comm (b_requests b)), app_assoc.
    by rewrite (split_selected _ _ rest) by done.
  - by destruct (b_requests b).
  - split; unfold batch_requests; rewrite Hb; simpl; rewrite (batch_add_all _ _ Hnd); [set_solver|].
    rewrite length_app. unfold sel. unfold get_batch_size in *. rewrite Nat2Z.inj_add, slice_to_size, iter_length by lia. lia.
Qed.

(** *** Decoding *)

Definition decoded (st : store) (rs : list ref) : store :=
  fun r => if decide (r ∈ rs) then fst (_decode (st r)) else st r.
Definition finished (st : store) (rs : list ref) : list ref := filter (fun r => snd (_decode (st r)) = true) rs.

Lemma decode_each_ok rs s s' fin :
  NoDup rs → decode_each rs s = (s', Ok fin) →
  e_cfg (es_eng s') = e_cfg (es_eng s) ∧ qs s' = qs s ∧ e_time (es_eng s') = e_time (es_eng s) ∧
  e_cursor (es_eng s') = e_cursor (es_eng s) ∧
  (∀ r, es_req s' r = decoded (es_req s) rs r) ∧ fin = finished (es_req s) rs.
Proof.
  revert s s' fin. induction rs as [|r rs IH]; intros s s' fin Hd; cbn [decode_each]; intros H.
  { apply ret_ok in H as [-> ->]. by split_and!. }
  apply NoDup_cons in Hd as [Hr Hd]. run_ok H. apply ret_ok in H as [-> ->].
  destruct (IH _ _ _ Hd Hm0) as (H1 & H2 & H3 & H4 & H5 & ->). clear IH Hm0. all_keeps. simpl in *.
  rewrite H1, H2, H3, H4. rewrite_kept. split_and!; try done.
  - intros r'. rewrite H5. unfold decoded, update. rewrite_kept. unfold update.
    destruct (decide (r' = r)) as [->|Hne].
    + rewrite decide_False by done. by rewrite decide_True by set_solver.
    + destruct (decide (r' ∈ rs)); [by rewrite decide_True by set_solver|by rewrite decide_False by set_solver].
  - unfold finished. rewrite filter_cons.
    assert (Heq : ∀ f, filter (fun r' => (_decode (update (es_req s) r f r')).2 = true) rs =
      filter (fun r => (_decode (es_req s r)).2 = true) rs).
    { clear -Hr. intros f. induction rs as [|r1 rs IH]; [done|]. rewrite !filter_cons, IH by set_solver.
      unfold update. by rewrite (decide_False (P := r1 = r)) by set_solver. }
    rewrite Heq. by destruct (_decode (es_req s r)).2.
Qed.

Lemma list_remove_filter r (l : list ref) : NoDup l → list_remove r l = filter (fun x => x ≠ r) l.
Proof.
  induction l as [|x l IH]; intros Hd; [done|]. apply NoDup_cons in Hd as [Hx Hd]. simpl. rewrite filter_cons.
  destruct (decide (x = r)) as [->|].
  - rewrite decide_False by tauto. symmetry. apply filter_all, Forall_forall. set_solver.
  - rewrite decide_True by done. by rewrite IH.
Qed.

Lemma batch_remove_requests r b :
  NoDup (b_requests b) → b_requests (Batch_remove_request r b) = filter (fun x => x ≠ r) (b_requests b).
Proof.
  intros Hd. unfold Batch_remove_request.
  assert (Hb1 : b_requests (if bool_decide (r ∈ b_requests b)
      then Batch_set_requests (list_remove r (b_requests b)) b else b) = filter (fun x => x ≠ r) (b_requests b)).
  { case_bool_decide; simpl; [by apply list_remove_filter|].
    symmetry. apply filter_all, Forall_forall. set_solver. }
  match type of Hb1 with b_requests ?x = _ => set (b1 := x) in * end. by destruct (is_nil (b_requests b1)).
Qed.

Definition completion_event (c : EngineConfig) (st : store) (t : pyfloat) (r : ref) : Event :=
  mkEvent t REQUEST_COMPLETE (engine_id c)
    [("request_id", VStr (req_id (st r))); ("total_tokens", VInt (generated_tokens (st r)));
     ("completion_time", VFloat t)] HIGH.

(** The queues after the requests [rs] of the batch completed. *)
Record completes (rs : list ref) (q q' : Queues) : Prop := {
  cp_prefill_queue : prefill_queue q' = prefill_queue q;
  cp_prefill : current_prefill_request q' = current_prefill_request q;
  cp_ready : decode_ready_requests q' = decode_ready_requests q;
  cp_active : active_requests q' = filter (fun r => r ∉ rs) (active_requests q);
  cp_completed : completed_requests q' = completed_requests q ++ rs;
  cp_batch : batch_requests q' = filter (fun r => r ∉ rs) (batch_requests q);
}.

Lemma filter_out_cons (l : list ref) r rs :
  filter (fun x => x ∉ rs) (filter (fun x => x ≠ r) l) = filter (fun x => x ∉ r :: rs) l.
Proof. rewrite list_filter_filter. apply list_filter_iff. intros x. rewrite not_elem_of_cons. tauto. Qed.

Lemma complete_each_ok t rs s s' evs :
  complete_each t rs s = (s', Ok evs) → NoDup (batch_requests (qs s)) →
  es_req s' = es_req s ∧ e_cfg (es_eng s') = e_cfg (es_eng s) ∧ e_time (es_eng s') = e_time (es_eng s) ∧
  e_cursor (es_eng s') = e_cursor (es_eng s) ∧ completes rs (qs s) (qs s') ∧
  evs = map (completion_event (e_cfg (es_eng s)) (es_req s) t) rs.
Proof.
  revert s s' evs. induction rs as [|r rs IH]; intros s s' evs; cbn [complete_each]; intros H Hd.
  { apply ret_ok in H as [-> ->]. split_and!; try done.
    assert (Hf : ∀ l : list ref, filter (fun r => r ∉ []) l = l)
      by (intros; apply filter_all, Forall_forall; intros; apply not_elem_of_nil).
    split; rewrite ?Hf, ?app_nil_r; done. }
  run_ok H. apply ret_ok in H as [-> ->]. unfold complete_one in Hm. run_ok Hm.
  destruct (negb _) eqn:Ea in Hm; [done|]. run_ok Hm. apply ret_ok in Hm as [-> ->]. simpl in *.
  match type of Hm0 with complete_each _ _ ?st = _ => set (sm := st) in * end.
  assert (Hb1 : batch_requests (qs sm) = filter (fun x => x ≠ r) (batch_requests (qs s))).
  { unfold sm, batch_requests. simpl. destruct (current_decode_batch (qs s)) as [b|] eqn:Eb; simpl; [|done].
    apply batch_remove_requests. unfold batch_requests in Hd. by rewrite Eb in Hd. }
  destruct (IH _ _ _ Hm0) as (H1 & H2 & H3 & H4 & [C1 C2 C3 C4 C5 C6] & H6).
  { rewrite Hb1. by apply NoDup_filter. }
  rewrite H1, H2, H3, H4, H6. split_and!; try done. split; try done.
  - rewrite C4. apply filter_out_cons.
  - rewrite C5. simpl. by rewrite <- app_assoc.
  - rewrite C6, Hb1. apply filter_out_cons.
Qed.

Lemma process_decode_batch_ok s s' evs b :
  _process_decode_batch s = (s', Ok evs) → current_decode_batch (qs s) = Some b → NoDup (b_requests b) →
  e_cfg (es_eng s') = e_cfg (es_eng s) ∧ e_time (es_eng s') = e_time (es_eng s) ∧
  (∀ r, es_req s' r = decoded (es_req s) (b_requests b) r) ∧
  completes (finished (es_req s) (b_requests b)) (qs s) (qs s') ∧
  ∃ d t, _get_decode_time (es_eng s) (max_seq_length (es_req s) (b_requests b)) (get_batch_size b) = Ok d ∧
    fadd_num (gpu_now (es_eng s)) (at_least_1ms d) = Ok t ∧ e_cursor (es_eng s') = t ∧
    evs = map (completion_event (e_cfg (es_eng s)) (es_req s') t) (finished (es_req s) (b_requests b)).
Proof.
  unfold _process_decode_batch. intros H Hb Hd. run_ok H. rewrite Hb in H. run_ok H.
  apply ret_ok in H as [-> ->].
  assert (Hbr : batch_requests (qs s) = b_requests b) by (unfold batch_requests; by rewrite Hb).
  match goal with H : decode_each _ _ = _ |- _ => apply decode_each_ok in H as (D1 & D2 & D3 & D4 & D5 & ->); [|done] end.
  match goal with H : complete_each _ _ _ = _ |- _ => rename H into Hc end.
  repeat match goal with H : (if _ then _ else _) _ = (_, Ok _) |- _ =>
    eapply core_ok in H; [destruct H as (? & ? & ? & ? & ?)|keeps_tac] end.
  unfold _update_kv_cache_memory in *.
  match goal with H : _refresh_memory_usage _ = _ |- _ => use_keeps H end. simpl in *.
  apply complete_each_ok in Hc as (C1 & C2 & C3 & C4 & C5 & ->).
  2:{ rewrite_kept. by rewrite Hbr. }
  split_and!; [rewrite_kept; congruence..| | |].
  - intros r. rewrite_kept. apply D5.
  - rewrite_kept. assert (Hq1 : qs s1 = qs s) by (rewrite_kept; done). by rewrite <- Hq1.
  - exists x, x0. split_and!; [done|done|rewrite_kept; congruence|]. f_equal. f_equal; rewrite_kept; congruence.
Qed.
End Stages.

(** ** The queues through a step *)

Section QueueSteps.
Implicit Types (q : Queues).

Lemma start_queues_inv q r rest :
  q_inv q → prefill_queue q = r :: rest → current_prefill_request q = None →
  q_inv (start_queues r rest q) ∧ pending (start_queues r rest q) ≡ₚ pending q ∧
  working q ⊆ working (start_queues r rest q).
Proof.
  intros [Hd Ha] Hq Hc.
  assert (Hp : pending (start_queues r rest q) ≡ₚ pending q).
  { unfold pending, working, batch_requests. rewrite Hq, Hc. simpl. by rewrite <- Permutation_middle. }
  split_and!; [|done|unfold working, batch_requests; rewrite Hc; set_solver]. split.
  - unfold places in *. by rewrite Hp.
  - assert (Hr : r ∉ active_requests q).
    { rewrite Ha. unfold places, pending in Hd. rewrite Hq in Hd. simpl in Hd. apply NoDup_cons in Hd as [Hd _]. set_solver. }
    simpl. unfold set_add. rewrite bool_decide_eq_false_2 by done. rewrite Ha.
    unfold working, batch_requests. rewrite Hc. simpl. by rewrite Permutation_app_comm.
Qed.

Definition ready_queues (r : ref) (q : Queues) : Queues :=
  with_prefill None (with_ready (set_add r (decode_ready_requests q)) q).

Lemma ready_queues_inv q r :
  q_inv q → current_prefill_request q = Some r →
  q_inv (ready_queues r q) ∧ pending (ready_queues r q) ≡ₚ pending q ∧ working (ready_queues r q) ≡ₚ working q ∧
  decode_ready_requests (ready_queues r q) ≠ [].
Proof.
  intros [Hd Ha] Hc.
  assert (Hr : r ∉ decode_ready_requests q).
  { unfold places, pending, working in Hd. rewrite Hc in Hd. apply NoDup_app in Hd as (Hd & _ & _).
    apply NoDup_app in Hd as (_ & _ & Hd). simpl in Hd. apply NoDup_cons in Hd as [Hd _]. set_solver. }
  assert (Hs : set_add r (decode_ready_requests q) = decode_ready_requests q ++ [r]).
  { unfold set_add. by rewrite bool_decide_eq_false_2. }
  assert (Hw : working (ready_queues r q) ≡ₚ working q).
  { unfold working, batch_requests. simpl. rewrite Hs, Hc. simpl. rewrite <- app_assoc. simpl. by rewrite <- Permutation_middle. }
  assert (Hp : pending (ready_queues r q) ≡ₚ pending q) by (unfold pending; by rewrite Hw).
  split_and!; [|done|done|simpl; rewrite Hs; by destruct (decode_ready_requests q)]. split.
  - unfold places in *. by rewrite Hp.
  - simpl. by rewrite Hw.
Qed.

Lemma regroup_inv q q' :
  q_inv q → regroup q q' →
  q_inv q' ∧ pending q' ≡ₚ pending q ∧ completed_requests q' = completed_requests q ∧ working q' ≡ₚ working q.
Proof.
  intros [Hd Ha] [H1 H2 H3 H4 H5].
  assert (Hw : working q' ≡ₚ working q) by (unfold working; by rewrite H2, H5).
  assert (Hp : pending q' ≡ₚ pending q) by (unfold pending; by rewrite H1, Hw).
  split_and!; try done. split; [unfold places in *; by rewrite Hp, H4|by rewrite H3, Hw].
Qed.

Lemma completes_inv q q' fin :
  q_inv q → completes fin q q' → NoDup fin → fin ⊆ batch_requests q →
  q_inv q' ∧ pending q ≡ₚ fin ++ pending q' ∧ completed_requests q' = completed_requests q ++ fin.
Proof.
  intros [Hd Ha] [H1 H2 H3 H4 H5 H6] Hf Hsub.
  assert (Hdb : NoDup (pending q) ∧ NoDup (working q)).
  { unfold places, pending in *. apply NoDup_app in Hd as (Hd & _ & _). split; [done|]. by apply NoDup_app in Hd as (_ & _ & Hd). }
  destruct Hdb as [Hdp Hdw].
  assert (Hb : batch_requests q ≡ₚ fin ++ batch_requests q').
  { rewrite H6. rewrite (filter_partition (fun r => r ∈ fin) (batch_requests q)) at 1. f_equiv.
    apply NoDup_Permutation; [apply NoDup_filter|done|].
    - unfold working in Hdw. apply NoDup_app in Hdw as (_ & _ & Hdw). by apply NoDup_app in Hdw as (_ & _ & ?).
    - intros x. rewrite list_elem_of_filter. set_solver. }
  assert (Hw : working q ≡ₚ fin ++ working q').
  { unfold working. rewrite H2, H3, Hb. rewrite !app_assoc. f_equiv. rewrite <- !app_assoc.
    rewrite (Permutation_app_comm fin), !app_assoc. done. }
  assert (Hp : pending q ≡ₚ fin ++ pending q').
  { unfold pending. rewrite H1, Hw, !app_assoc. f_equiv. apply Permutation_app_comm. }
  split_and!; [split|done|done].
  - assert (Hpl : places q' ≡ₚ places q); [|by rewrite Hpl].
    unfold places. by rewrite H5, Hp, <- app_assoc, (Permutation_app_comm fin), <- app_assoc.
  - rewrite H4. apply filter_out_app; rewrite Ha; done.
Qed.
End QueueSteps.

(** ** A whole step *)

Record engine_inv (e : ServingEngine) : Prop := {
  ei_q : q_inv (e_q e);
  ei_batch : ∀ b, current_decode_batch (e_q e) = Some b →
    b_requests b ≠ [] ∧ Z.of_nat (length (b_requests b)) ≤ max_batch_size (e_cfg e);
  ei_max : 1 ≤ max_batch_size (e_cfg e);
}.

(** Two stores that differ in the progress marks of requests only. *)
Definition same_work (st st' : store) : Prop := ∀ r,
  req_id (st' r) = req_id (st r) ∧ input_length (st' r) = input_length (st r) ∧
  output_length (st' r) = output_length (st r) ∧ generated_tokens (st' r) = generated_tokens (st r).

Lemma same_work_update st r f :
  (∀ x, req_id (f x) = req_id x ∧ input_length (f x) = input_length x ∧
        output_length (f x) = output_length x ∧ generated_tokens (f x) = generated_tokens x) →
  same_work st (update st r f).
Proof. intros H r'. unfold update. case_decide; subst; auto. Qed.

Lemma same_work_trans st1 st2 st3 : same_work st1 st2 → same_work st2 st3 → same_work st1 st3.
Proof. intros H1 H2 r. specialize (H1 r). specialize (H2 r). intuition congruence. Qed.

(** A duration the timing model returned. *)
Definition timed_by (c : EngineConfig) (d : num) : Prop :=
  ∃ e n b, e_cfg e = c ∧ (_get_prefill_time e n b = Ok d ∨ _get_decode_time e n b = Ok d).

(** The GPU clock moves from [t0] to [t1] by durations of the timing model. *)
Inductive advances (c : EngineConfig) (now : pyfloat) : pyfloat → pyfloat → Prop :=
  | adv_refl t : advances c now t t
  | adv_step t d t1 t2 : timed_by c d → fadd_num (fmax t now) (at_least_1ms d) = Ok t1 →
      advances c now t1 t2 → advances c now t t2.

Lemma advances_trans c now t0 t1 t2 : advances c now t0 t1 → advances c now t1 t2 → advances c now t0 t2.
Proof. induction 1; [done|]. intros. eapply adv_step; eauto. Qed.

Lemma batch_NoDup q : NoDup (places q) → NoDup (batch_requests q).
Proof.
  unfold places, pending, working. intros Hd. apply NoDup_app in Hd as (Hd & _ & _).
  apply NoDup_app in Hd as (_ & _ & Hd). apply NoDup_app in Hd as (_ & _ & Hd). by apply NoDup_app in Hd as (_ & _ & Hd).
Qed.

Section Step.
Context {L : Type} (callback : option (Event → M L unit)) (iter : list ref → list ref) `{!IterOrder iter}.
Implicit Types (s : ES L).
Abbreviation qs s := (e_q (es_eng s)).

Lemma step_prefill_ok s s' u :
  step_prefill callback s = (s', Ok u) → engine_inv (es_eng s) →
  engine_inv (es_eng s') ∧ same_work (es_req s) (es_req s') ∧ e_cfg (es_eng s') = e_cfg (es_eng s) ∧
  e_time (es_eng s') = e_time (es_eng s) ∧
  advances (e_cfg (es_eng s)) (e_time (es_eng s)) (e_cursor (es_eng s)) (e_cursor (es_eng s')) ∧
  pending (qs s') ≡ₚ pending (qs s) ∧ completed_requests (qs s') = completed_requests (qs s) ∧
  current_prefill_request (qs s') = None ∧
  (decode_ready_requests (qs s') = [] → qs s' = qs s ∧ es_req s' = es_req s) ∧
  current_decode_batch (qs s') = current_decode_batch (qs s) ∧ working (qs s) ⊆ working (qs s').
Proof.
  unfold step_prefill. intros H [Hq Hb Hm]. run_ok H.
  assert (Hstart : e_cfg (es_eng s0) = e_cfg (es_eng s) ∧ e_time (es_eng s0) = e_time (es_eng s) ∧
    e_cursor (es_eng s0) = e_cursor (es_eng s) ∧ same_work (es_req s) (es_req s0) ∧ q_inv (qs s0) ∧
    pending (qs s0) ≡ₚ pending (qs s) ∧ completed_requests (qs s0) = completed_requests (qs s) ∧
    current_decode_batch (qs s0) = current_decode_batch (qs s) ∧
    (current_prefill_request (qs s0) = None → qs s0 = qs s ∧ es_req s0 = es_req s) ∧
    working (qs s) ⊆ working (qs s0)).
  { assert (Hret : ∀ (m : M (ES L) unit), m = ret tt → m s = (s0, Ok x) → s0 = s)
      by (intros m -> Hr; by apply ret_ok in Hr as [-> _]).
    destruct (current_prefill_request (qs s)) eqn:Ec.
    { rewrite (Hret _ eq_refl Hm0). split_and!; try done. }
    destruct (prefill_queue (qs s)) eqn:Eq.
    { rewrite (Hret _ eq_refl Hm0). split_and!; try done. }
    apply start_next_prefill_ok in Hm0 as (H1 & H2 & H3 & [[H4 H5]|(r1 & rest & H4 & H5 & H6)]).
    - rewrite H4, H5. split_and!; try done.
    - destruct (start_queues_inv (qs s) r1 rest) as (I1 & I2 & I3); [done..|]. rewrite H5, H6.
      split_and!; try done. by apply same_work_update. }
  clear Hm0. destruct Hstart as (S1 & S2 & S3 & S4 & S5 & S6 & S7 & S8 & S9 & S10).
  destruct (current_prefill_request (qs s0)) as [r|] eqn:Ec.
  - run_ok H. apply process_prefill_ok in Hm0. rewrite Ec in Hm0.
    destruct Hm0 as (-> & P1 & P2 & P3 & d & t & P4 & P5 & P6 & P7). apply queues_ok in H. subst s'. simpl.
    destruct (ready_queues_inv (qs s0) r S5 Ec) as (R1 & R2 & R4 & R3). rewrite P3.
    split_and!; try congruence.
    + split; simpl; rewrite ?P3, ?P1, ?S1; [done| |done]. rewrite S8. done.
    + rewrite P7. eapply same_work_trans; [done|]. by apply same_work_update.
    + rewrite <- S1, <- S2, <- S3. eapply adv_step; [|exact P5|rewrite P6; apply adv_refl].
      exists (es_eng s0). eauto.
    + by rewrite <- S6.
    + done.
    + intros r' Hr'. fold (ready_queues r (qs s0)). rewrite R4. by apply S10.
  - apply ret_ok in H as [-> _]. destruct (S9 eq_refl) as [Q1 Q2].
    split_and!; try done.
    + split; rewrite ?Q1, ?S1; done.
    + rewrite S3. apply adv_refl.
Qed.

Lemma step_batch_ok s s' u :
  step_batch iter s = (s', Ok u) → engine_inv (es_eng s) →
  engine_inv (es_eng s') ∧ es_req s' = es_req s ∧ e_cfg (es_eng s') = e_cfg (es_eng s) ∧
  e_time (es_eng s') = e_time (es_eng s) ∧ e_cursor (es_eng s') = e_cursor (es_eng s) ∧
  pending (qs s') ≡ₚ pending (qs s) ∧ completed_requests (qs s') = completed_requests (qs s) ∧
  (decode_ready_requests (qs s) = [] → s' = s) ∧
  (current_decode_batch (qs s') = None → decode_ready_requests (qs s) = [] ∧ current_decode_batch (qs s) = None) ∧
  working (qs s') ≡ₚ working (qs s) ∧ current_prefill_request (qs s') = current_prefill_request (qs s) ∧
  batch_requests (qs s) ⊆ batch_requests (qs s') ∧
  (decode_ready_requests (qs s') = [] ∨
   Z.of_nat (length (batch_requests (qs s'))) = max_batch_size (e_cfg (es_eng s))).
Proof.
  unfold step_batch. intros H Hinv. pose proof Hinv as [Hq Hb Hm]. run_ok H.
  assert (Hnd : NoDup (decode_ready_requests (qs s) ++ batch_requests (qs s))).
  { destruct Hq as [Hd _]. unfold places, pending, working in Hd. apply NoDup_app in Hd as (Hd & _ & _).
    apply NoDup_app in Hd as (_ & _ & Hd). by apply NoDup_app in Hd as (_ & _ & Hd). }
  assert (Hgroup : core s' = (es_req s, e_cfg (es_eng s), qs s', e_time (es_eng s), e_cursor (es_eng s)) →
    regroup (qs s) (qs s') → batch_requests (qs s') ≠ [] →
    batched (max_batch_size (e_cfg (es_eng s))) (qs s) (qs s') →
    engine_inv (es_eng s') ∧ es_req s' = es_req s ∧ e_cfg (es_eng s') = e_cfg (es_eng s) ∧
    e_time (es_eng s') = e_time (es_eng s) ∧ e_cursor (es_eng s') = e_cursor (es_eng s) ∧
    pending (qs s') ≡ₚ pending (qs s) ∧ completed_requests (qs s') = completed_requests (qs s) ∧
    working (qs s') ≡ₚ working (qs s) ∧ current_prefill_request (qs s') = current_prefill_request (qs s) ∧
    batch_requests (qs s) ⊆ batch_requests (qs s') ∧
    (decode_ready_requests (qs s') = [] ∨
     Z.of_nat (length (batch_requests (qs s'))) = max_batch_size (e_cfg (es_eng s)))).
  { intros [= E1 E2 E4 E5] Hr Hne [Hsub Hl]. destruct (regroup_inv _ _ Hq Hr) as (R1 & R2 & R3 & R4).
    pose proof (Permutation_length (rg_moved _ _ Hr)) as Hlen. rewrite !length_app in Hlen.
    split_and!; try done; [|by apply rg_prefill|].
    - split; [done| |by rewrite E2]. intros b E. unfold batch_requests in Hne, Hl.
      rewrite E in Hne, Hl. rewrite E2. split; [done|lia].
    - rewrite Hl. destruct (decode_ready_requests (qs s')); [by left|right]. simpl in Hlen. lia. }
  destruct (current_decode_batch (qs s)) as [b|] eqn:Eb, (decode_ready_requests (qs s)) as [|r0 l0] eqn:Er.
  - apply ret_ok in H as [-> _]. split_and!; try done; [intros; congruence|by left].
  - destruct (Hb b eq_refl) as [Hb1 Hb2]. rewrite <- Er in Hnd.
    destruct (add_to_decode_batch_ok iter s s' u b H Hnd Eb Hb1 Hb2) as (A1 & A2 & A3 & A4 & A5).
    destruct (Hgroup A1 A2 A3 A4) as (?&?&?&?&?&?&?&?&?&?&?). split_and!; try done. by destruct A5 as [? ->].
  - apply ret_ok in H as [-> _]. split_and!; try done. by left.
  - rewrite <- Er in *. apply NoDup_app in Hnd as (Hnd & _ & _).
    destruct (form_decode_batch_ok iter s s' u H Hnd Eb ltac:(by rewrite Er) Hm) as (A1 & A2 & A3 & A4 & A5).
    destruct (Hgroup A1 A2 A3 A4) as (?&?&?&?&?&?&?&?&?&?&?). split_and!; try done; [by rewrite Er|].
    by destruct A5 as [? ->].
Qed.

Lemma finished_batch st rs : finished st rs ⊆ rs.
Proof. unfold finished. intros r Hr. by apply list_elem_of_filter in Hr as [_ ?]. Qed.

Lemma step_decode_ok s s' evs :
  step_decode s = (s', Ok evs) → engine_inv (es_eng s) →
  engine_inv (es_eng s') ∧ e_cfg (es_eng s') = e_cfg (es_eng s) ∧ e_time (es_eng s') = e_time (es_eng s) ∧
  advances (e_cfg (es_eng s)) (e_time (es_eng s)) (e_cursor (es_eng s)) (e_cursor (es_eng s')) ∧
  (∀ r, es_req s' r = decoded (es_req s) (batch_requests (qs s)) r) ∧
  pending (qs s) ≡ₚ finished (es_req s) (batch_requests (qs s)) ++ pending (qs s') ∧
  completed_requests (qs s') = completed_requests (qs s) ++ finished (es_req s) (batch_requests (qs s)) ∧
  evs = map (completion_event (e_cfg (es_eng s)) (es_req s') (e_cursor (es_eng s')))
          (finished (es_req s) (batch_requests (qs s))) ∧
  (batch_requests (qs s) = [] → s' = s) ∧
  decode_ready_requests (qs s') = decode_ready_requests (qs s).
Proof.
  unfold step_decode. intros H Hinv. pose proof Hinv as [Hq Hb Hm]. run_ok H. apply ret_ok in H as [-> ->].
  destruct (current_decode_batch (qs s)) as [b|] eqn:Eb.
  2:{ apply ret_ok in Hm0 as [-> ->]. rewrite Eb in Hm1. apply ret_ok in Hm1 as [-> _].
      assert (batch_requests (qs s) = []) as -> by (unfold batch_requests; by rewrite Eb).
      split_and!; try done; [apply adv_refl|simpl; by rewrite app_nil_r]. }
  assert (Hbr : batch_requests (qs s) = b_requests b) by (unfold batch_requests; by rewrite Eb).
  destruct (Hb b eq_refl) as [Hne Hlen]. rewrite Hbr.
  assert (Batch_is_empty b = false) as Hbe by (unfold Batch_is_empty; by destruct (b_requests b)).
  rewrite Hbe in Hm0.
  assert (Hnd : NoDup (b_requests b)) by (destruct Hq as [Hd _]; apply batch_NoDup in Hd; by rewrite Hbr in Hd).
  eapply process_decode_batch_ok in Hm0 as (P1 & P2 & P3 & P4 & d & t & P5 & P6 & P7 & P8); [|done..].
  set (fin := finished (es_req s) (b_requests b)) in *.
  destruct (completes_inv _ _ fin Hq P4) as (C1 & C2 & C3).
  { by apply NoDup_filter. } { rewrite Hbr. apply finished_batch. }
  assert (Hclean : qs s1 = qs s0 ∨ (qs s1 = with_batch None (qs s0) ∧ batch_requests (qs s0) = [])).
  { destruct (current_decode_batch (qs s0)) as [b'|] eqn:Eb'; [|apply ret_ok in Hm1 as [-> _]; by left].
    destruct (Batch_is_empty b') eqn:Ee; [|apply ret_ok in Hm1 as [-> _]; by left].
    apply queues_ok in Hm1. subst s1. simpl. right. split; [done|]. unfold batch_requests. rewrite Eb'.
    unfold Batch_is_empty in Ee. by destruct (b_requests b'). }
  assert (Hkeep : es_req s1 = es_req s0 ∧ e_cfg (es_eng s1) = e_cfg (es_eng s0) ∧
    e_time (es_eng s1) = e_time (es_eng s0) ∧ e_cursor (es_eng s1) = e_cursor (es_eng s0)).
  { destruct (current_decode_batch (qs s0)) as [b'|]; [destruct (Batch_is_empty b')|];
      (apply queues_ok in Hm1; by subst s1) || by apply ret_ok in Hm1 as [-> _]. }
  destruct Hkeep as (K1 & K2 & K3 & K4).
  assert (Hsame : active_requests (qs s1) = active_requests (qs s0) ∧ batch_requests (qs s1) = batch_requests (qs s0) ∧
    pending (qs s1) = pending (qs s0) ∧ completed_requests (qs s1) = completed_requests (qs s0) ∧
    places (qs s1) = places (qs s0) ∧ working (qs s1) = working (qs s0)).
  { destruct Hclean as [->|[-> Hnil]]; [done|]. unfold places, pending, working.
    assert (batch_requests (with_batch None (qs s0)) = batch_requests (qs s0)) as -> by (by rewrite Hnil). done. }
  destruct Hsame as (Q1 & Q2 & Q3 & Q4 & Q5 & Q6).
  split_and!; try congruence.
  - split; [split; rewrite ?Q5, ?Q6, ?Q1; apply C1| |by rewrite K2, P1].
    intros b' Eb'. assert (Hb' : b_requests b' = filter (fun r => r ∉ fin) (b_requests b)).
    { rewrite <- Hbr, <- (cp_batch _ _ _ P4), <- Q2. unfold batch_requests. by rewrite Eb'. }
    split.
    + destruct Hclean as [E|[E _]]; [|by rewrite E in Eb']. intros Hnil. rewrite E in *.
      rewrite Eb' in Hm1. unfold Batch_is_empty in Hm1. rewrite Hnil in Hm1. simpl in Hm1.
      apply queues_ok in Hm1. subst s1. simpl in E. rewrite <- E in Eb'. done.
    + rewrite Hb', K2, P1. pose proof (length_filter (fun r => r ∉ fin) (b_requests b)). lia.
  - rewrite K4, P7. eapply adv_step; [|exact P6|apply adv_refl]. exists (es_eng s). eauto.
  - destruct Hclean as [->|[-> _]]; apply (cp_ready _ _ _ P4).
Qed.

(** What one step does, when it returns: it decodes one token for the requests
    of a [batch] of pending requests, which has all the requests of the running
    batch and every other request being worked on that fits; those of them that are then complete
    move to the completed ones, in order, each with a completion event at the
    new GPU time; all other requests stay pending.  Without a batch the queues
    and the requests are unchanged and nothing is being worked on. *)
Lemma engine_step_summary t s s' evs :
  engine_step callback iter t s = (s', Ok evs) → engine_inv (es_eng s) →
  ∃ batch fin,
    engine_inv (es_eng s') ∧ e_cfg (es_eng s') = e_cfg (es_eng s) ∧
    NoDup batch ∧ (batch ⊆ pending (qs s) ∧ batch_requests (qs s) ⊆ batch ∧
      working (qs s) ⊆ batch ++ decode_ready_requests (qs s') ∧
      (decode_ready_requests (qs s') = [] ∨ Z.of_nat (length batch) = max_batch_size (e_cfg (es_eng s)))) ∧
    Z.of_nat (length batch) ≤ max_batch_size (e_cfg (es_eng s)) ∧
    (∀ r, req_id (es_req s' r) = req_id (es_req s r) ∧ input_length (es_req s' r) = input_length (es_req s r) ∧
       output_length (es_req s' r) = output_length (es_req s r) ∧
       generated_tokens (es_req s' r) = generated_tokens (es_req s r) + (if decide (r ∈ batch) then 1 else 0)) ∧
    fin = filter (fun r => generated_tokens (es_req s' r) = output_length (es_req s' r)) batch ∧
    (∀ r, r ∈ fin → status (es_req s' r) = EXIT) ∧
    pending (qs s) ≡ₚ fin ++ pending (qs s') ∧
    completed_requests (qs s') = completed_requests (qs s) ++ fin ∧
    evs = map (completion_event (e_cfg (es_eng s)) (es_req s') (e_cursor (es_eng s'))) fin ∧
    (batch = [] → qs s' = qs s ∧ es_req s' = es_req s ∧ working (qs s) = []) ∧
    e_time (es_eng s') = default (e_time (es_eng s)) t ∧
    advances (e_cfg (es_eng s)) (e_time (es_eng s'))
      (match t with Some t => if fltb (e_cursor (es_eng s)) t then t else e_cursor (es_eng s)
       | None => e_cursor (es_eng s) end) (e_cursor (es_eng s')).
Proof.
  unfold engine_step. intros H Hinv. apply bind_ok in H as (s0 & u0 & H0 & H).
  apply bind_ok in H as (s1 & u1 & H1 & H). apply bind_ok in H as (s2 & u2 & H2 & H3).
  assert (Hset : es_req s0 = es_req s ∧ e_cfg (es_eng s0) = e_cfg (es_eng s) ∧ qs s0 = qs s ∧
    e_time (es_eng s0) = default (e_time (es_eng s)) t ∧
    e_cursor (es_eng s0) = match t with Some t => if fltb (e_cursor (es_eng s)) t then t else e_cursor (es_eng s)
       | None => e_cursor (es_eng s) end).
  { destruct t; [apply engine_ok in H0; by subst s0|by apply ret_ok in H0 as [-> _]]. }
  destruct Hset as (T1 & T2 & T3 & T4 & T5).
  apply step_prefill_ok in H1 as (A1 & A2 & A3 & A4 & A5 & A6 & A7 & A8 & A9 & A10 & A11); [|destruct Hinv; by split; rewrite ?T2, ?T3].
  apply step_batch_ok in H2 as (B1 & B2 & B3 & B4 & B5 & B6 & B7 & B8 & B9 & B10 & BP & B11 & B12); [|done].
  apply step_decode_ok in H3 as (D1 & D2 & D3 & D4 & D5 & D6 & D7 & D8 & D9 & D10); [|done].
  set (batch := batch_requests (qs s2)) in *.
  assert (Htok : ∀ r, req_id (es_req s' r) = req_id (es_req s r) ∧ input_length (es_req s' r) = input_length (es_req s r) ∧
       output_length (es_req s' r) = output_length (es_req s r) ∧
       generated_tokens (es_req s' r) = generated_tokens (es_req s r) + (if decide (r ∈ batch) then 1 else 0)).
  { intros r. rewrite D5, B2. unfold decoded. destruct (A2 r) as (W1 & W2 & W3 & W4). rewrite T1 in *.
    pose proof (decode_lengths (es_req s1 r)) as (L1 & L2 & L3). pose proof (decode_tokens (es_req s1 r)) as L4.
    case_decide; split_and!; try congruence; lia. }
  assert (Hpend : pending (qs s2) ≡ₚ pending (qs s)) by (by rewrite B6, A6, T3).
  assert (Hsub : batch ⊆ pending (qs s)).
  { intros r Hr. rewrite <- Hpend. unfold pending, working. rewrite !elem_of_app. auto. }
  assert (Hfin : ∀ r, r ∈ batch → snd (_decode (es_req s2 r)) = true ↔
    generated_tokens (es_req s' r) = output_length (es_req s' r)).
  { intros r Hr. rewrite D5. unfold decoded. rewrite decide_True by done. unfold _decode; simpl.
    destruct (Z.eqb_spec (generated_tokens (es_req s2 r) + 1) (output_length (es_req s2 r))); simpl; split; done || lia. }
  exists batch, (finished (es_req s2) batch). split_and!; try done; try congruence.
  - destruct B1 as [[Hd _] _ _]. by apply batch_NoDup in Hd.
  - assert (Hsame : batch_requests (qs s1) = batch_requests (qs s)) by (unfold batch_requests; by rewrite A10, T3).
    rewrite <- Hsame. exact B11.
  - intros r Hr. rewrite <- T3 in Hr. apply A11 in Hr. rewrite <- B10 in Hr. rewrite D10.
    unfold working in Hr. rewrite BP, A8 in Hr. fold batch in Hr. set_solver.
  - unfold batch, batch_requests. destruct (current_decode_batch (qs s2)) as [b|] eqn:Eb; simpl.
    + destruct (ei_batch _ B1 b Eb) as [_ Hl]. rewrite B3, A3, T2 in Hl. done.
    + destruct Hinv. lia.
  - unfold finished. apply filter_ext_in. intros r Hr. by apply Hfin.
  - intros r Hr. pose proof (finished_batch _ _ r Hr) as Hb. apply list_elem_of_filter in Hr as [Hr _].
    rewrite D5. unfold decoded. rewrite decide_True by done. unfold _decode in *. simpl in *. by case_match.
  - by rewrite <- Hpend, D6.
  - intros Hnil. destruct (current_decode_batch (qs s2)) as [b|] eqn:Eb.
    { destruct (ei_batch _ B1 b Eb) as [Hne _]. unfold batch, batch_requests in Hnil. by rewrite Eb in Hnil. }
    destruct (B9 eq_refl) as [R1 R2]. destruct (A9 R1) as [R3 R4]. rewrite (D9 Hnil), (B8 R1).
    rewrite T3 in R3. rewrite T1 in R4. split_and!; [done|done|].
    rewrite <- R3. unfold working, batch_requests. by rewrite A8, R1, R2.
  - rewrite <- T5. eapply advances_trans.
    + rewrite <- T2. rewrite D3, B4, A4. exact A5.
    + rewrite <- B5. rewrite D3. rewrite B3, A3, T2 in D4. exact D4.
Qed.
End Step.

(** ** The clock of a step, whatever the queues hold *)

Section Clock.
Context {L : Type} (callback : option (Event → M L unit)) (iter : list ref → list ref).
Implicit Types (s : ES L).

Definition clocks s := (e_cfg (es_eng s), e_time (es_eng s), e_cursor (es_eng s)).

Lemma start_next_prefill_clocks s s' u : _start_next_prefill callback s = (s', Ok u) → clocks s' = clocks s.
Proof. intros (H1 & H2 & H3 & _)%start_next_prefill_ok. unfold clocks. congruence. Qed.

Lemma decode_each_clocks rs s s' fin : decode_each rs s = (s', Ok fin) → clocks s' = clocks s.
Proof.
  revert s s' fin. induction rs as [|r rs IH]; intros s s' fin; cbn [decode_each]; intros H; [by apply ret_ok in H as [-> _]|].
  run_ok H. apply ret_ok in H as [-> _]. rewrite (IH _ _ _ Hm0). all_keeps. unfold clocks. rewrite_kept. done.
Qed.

Lemma complete_each_clocks t rs s s' evs :
  complete_each t rs s = (s', Ok evs) →
  clocks s' = clocks s ∧ Forall (fun ev => timestamp ev = t ∧ event_type ev = REQUEST_COMPLETE) evs.
Proof.
  revert s s' evs. induction rs as [|r rs IH]; intros s s' evs; cbn [complete_each]; intros H; [by apply ret_ok in H as [-> ->]|].
  run_ok H. apply ret_ok in H as [-> ->]. unfold complete_one in Hm. run_ok Hm.
  destruct (negb _) in Hm; [done|]. run_ok Hm. apply ret_ok in Hm as [-> ->].
  destruct (IH _ _ _ Hm0) as [-> ?]. split; [done|]. by constructor.
Qed.

Lemma process_decode_batch_clocks s s' evs :
  _process_decode_batch s = (s', Ok evs) →
  e_cfg (es_eng s') = e_cfg (es_eng s) ∧ e_time (es_eng s') = e_time (es_eng s) ∧
  advances (e_cfg (es_eng s)) (e_time (es_eng s)) (e_cursor (es_eng s)) (e_cursor (es_eng s')) ∧
  Forall (fun ev => timestamp ev = e_cursor (es_eng s') ∧ event_type ev = REQUEST_COMPLETE) evs.
Proof.
  unfold _process_decode_batch. intros H. run_ok H. destruct (current_decode_batch (e_q (es_eng s))) as [b|].
  2:{ apply ret_ok in H as [-> ->]. split_and!; try done. apply adv_refl. }
  run_ok H. apply ret_ok in H as [-> ->].
  repeat match goal with H : (if _ then _ else _) _ = (_, Ok _) |- _ =>
    eapply core_ok in H; [destruct H as (? & ? & ? & ? & ?)|keeps_tac] end.
  match goal with H : decode_each _ _ = _ |- _ => apply decode_each_clocks in H; rename H into Hd end.
  match goal with H : complete_each _ _ _ = _ |- _ => apply complete_each_clocks in H as [Hc He] end.
  unfold _update_kv_cache_memory in *. match goal with H : _refresh_memory_usage _ = _ |- _ => use_keeps H end.
  unfold clocks in *. simpl in *. injection Hd as D1 D2 D3. injection Hc as C1 C2 C3.
  split_and!; [rewrite_kept; done..| |].
  - rewrite_kept. eapply adv_step; [|eassumption|apply adv_refl]. exists (es_eng s). eauto.
  - eapply Forall_impl; [exact He|]. intros ev [-> ->]. split; [rewrite_kept; done|done].
Qed.

Lemma batching_clocks s s' u :
  step_batch iter s = (s', Ok u) → clocks s' = clocks s.
Proof.
  unfold step_batch, _form_decode_batch, _add_to_decode_batch, add_batch_size. intros H. run_ok H.
  destruct (current_decode_batch (e_q (es_eng s))) as [b|] eqn:Eb, (decode_ready_requests (e_q (es_eng s))) eqn:Er;
    try (by apply ret_ok in H as [-> _]); run_ok H; rewrite Eb, Er in H.
  - destruct (_ <=? 0); [by apply ret_ok in H as [-> _]|]. run_ok H. apply engine_ok in H. by subst s'.
  - run_ok H. apply engine_ok in H. by subst s'.
Qed.

(** When a step returns, the GPU clock has advanced by durations of the timing
    model from where the call set it, and the events carry the new clock. *)
Lemma engine_step_clock t s s' evs :
  engine_step callback iter (Some t) s = (s', Ok evs) →
  e_cfg (es_eng s') = e_cfg (es_eng s) ∧ e_time (es_eng s') = t ∧
  advances (e_cfg (es_eng s)) t (if fltb (e_cursor (es_eng s)) t then t else e_cursor (es_eng s)) (e_cursor (es_eng s')) ∧
  Forall (fun ev => timestamp ev = e_cursor (es_eng s') ∧ event_type ev = REQUEST_COMPLETE) evs.
Proof.
  unfold engine_step. intros H. apply bind_ok in H as (s0 & u0 & H0 & H).
  apply bind_ok in H as (s1 & u1 & H1 & H). apply bind_ok in H as (s2 & u2 & H2 & H3).
  apply engine_ok in H0. subst s0. apply batching_clocks in H2. injection H2 as B1 B2 B3.
  assert (A : e_cfg (es_eng s1) = e_cfg (es_eng s) ∧ e_time (es_eng s1) = t ∧
    advances (e_cfg (es_eng s)) t (if fltb (e_cursor (es_eng s)) t then t else e_cursor (es_eng s)) (e_cursor (es_eng s1))).
  { unfold step_prefill in H1. run_ok H1.
    assert (Hs0 : clocks s0 = (e_cfg (es_eng s), t, if fltb (e_cursor (es_eng s)) t then t else e_cursor (es_eng s))).
    { destruct (current_prefill_request (e_q (set_current_time t (es_eng s)))); [by apply ret_ok in Hm as [-> _]|].
      destruct (prefill_queue (e_q (set_current_time t (es_eng s)))); [by apply ret_ok in Hm as [-> _]|].
      by apply start_next_prefill_clocks in Hm. }
    injection Hs0 as S1 S2 S3. destruct (current_prefill_request (e_q (es_eng s0))) as [r|] eqn:Ec.
    - run_ok H1. apply process_prefill_ok in Hm0. rewrite Ec in Hm0.
      destruct Hm0 as (-> & P1 & P2 & _ & d & t1 & P4 & P5 & P6 & _). apply queues_ok in H1. subst s1. simpl.
      split_and!; [congruence|congruence|]. unfold gpu_now in P5. rewrite S2, S3 in P5.
      eapply adv_step; [|exact P5|rewrite P6; apply adv_refl]. exists (es_eng s0). eauto.
    - apply ret_ok in H1 as [-> _]. split_and!; try done. rewrite S3. apply adv_refl. }
  destruct A as (A1 & A2 & A3). unfold step_decode in H3. run_ok H3. apply ret_ok in H3 as [-> ->].
  assert (D : e_cfg (es_eng s0) = e_cfg (es_eng s2) ∧ e_time (es_eng s0) = e_time (es_eng s2) ∧
    advances (e_cfg (es_eng s2)) (e_time (es_eng s2)) (e_cursor (es_eng s2)) (e_cursor (es_eng s0)) ∧
    Forall (fun ev => timestamp ev = e_cursor (es_eng s0) ∧ event_type ev = REQUEST_COMPLETE) x).
  { destruct (current_decode_batch (e_q (es_eng s2))) as [b|]; [destruct (Batch_is_empty b)|];
      try (apply ret_ok in Hm as [-> ->]; split_and!; try done; apply adv_refl).
    by apply process_decode_batch_clocks in Hm. }
  assert (E : clocks s3 = clocks s0).
  { destruct (current_decode_batch (e_q (es_eng s0))) as [b|]; [destruct (Batch_is_empty b)|];
      (apply queues_ok in Hm0; by subst s3) || by apply ret_ok in Hm0 as [-> _]. }
  destruct D as (D1 & D2 & D3 & D4). injection E as E1 E2 E3. rewrite E1, E2, E3.
  split_and!; [congruence|congruence| |done]. eapply advances_trans; [exact A3|]. rewrite <- B3.
  by rewrite B1, B2, A1, A2 in D3.
Qed.
End Clock.

(** ** What the callbacks do to the outer state

    Everything a method does to the outer state goes through the callback, with
    events of four types; so a preorder that the callback follows on those
    events holds between the outer state before and after any method, whether
    it returns or raises. *)

Definition engine_event_types : list EventType := [MODEL_LOAD; MODEL_UNLOAD; PREFILL_START; PREFILL_COMPLETE].

Section Outer.
Context {L : Type} (callback : option (Event → M L unit)) (iter : list ref → list ref).
Context (R : L → L → Prop) `{!PreOrder R}.
Hypothesis callback_R : ∀ cb ev l, callback = Some cb → event_type ev ∈ engine_event_types → R l (fst (cb ev l)).

Definition outer {A} (m : M (ES L) A) : Prop := ∀ s, R (es_out s) (es_out (fst (m s))).

Lemma outer_bind {A B} (m : M (ES L) A) (k : A → M (ES L) B) : outer m → (∀ a, outer (k a)) → outer (m ≫= k).
Proof.
  intros Hm Hk s. unfold mbind, M_bind. specialize (Hm s). destruct (m s) as [s1 [a|e]]; simpl in *; [|done].
  etransitivity; [done|apply Hk].
Qed.
Lemma outer_same {A} (m : M (ES L) A) : (∀ s, es_out (fst (m s)) = es_out s) → outer m.
Proof. intros H s. by rewrite H. Qed.
Lemma outer_planner {A} (m : M MemoryPlanner A) : outer (on_planner m).
Proof. apply outer_same. intros s. unfold on_planner. by destruct (m _). Qed.
Lemma outer_call_back ev : event_type ev ∈ engine_event_types → outer (call_back callback ev).
Proof.
  intros Hev s. unfold call_back. destruct callback as [cb|] eqn:E; [|done].
  pose proof (callback_R cb ev (es_out s) eq_refl Hev) as H. by destruct (cb ev (es_out s)).
Qed.

Ltac outer_tac :=
  repeat (intros; first
    [ solve [auto 2]
    | apply outer_planner
    | solve [apply outer_call_back; set_solver]
    | solve [apply outer_same; reflexivity]
    | apply outer_bind
    | match goal with |- outer (if ?b then _ else _) => destruct b end
    | match goal with |- outer (let '(_, _) := ?p in _) => destruct p end
    | match goal with |- outer (match ?p with _ => _ end) => destruct p end ]).

Lemma outer_refresh : outer (_refresh_memory_usage (L := L)).
Proof. unfold _refresh_memory_usage. outer_tac. Qed.
Lemma outer_memory_info : outer (get_memory_info (L := L)).
Proof. pose proof outer_refresh. unfold get_memory_info. outer_tac. Qed.
Lemma outer_snapshot : outer (_get_memory_snapshot (L := L)).
Proof. pose proof outer_refresh. unfold _get_memory_snapshot, get_memory_info. outer_tac. Qed.
Lemma outer_load : outer (load_model callback).
Proof. pose proof outer_refresh. unfold load_model, emit_event. outer_tac. Qed.
Lemma outer_accommodate r m : outer (can_accommodate_request callback r m).
Proof. pose proof outer_load. unfold can_accommodate_request. outer_tac. Qed.
Lemma outer_add_request r : outer (add_request callback r).
Proof. pose proof outer_refresh. pose proof outer_accommodate. unfold add_request. outer_tac. Qed.

Lemma outer_prefill : outer (step_prefill callback).
Proof.
  pose proof outer_refresh. pose proof outer_snapshot.
  assert (outer (_process_individual_prefill callback)) by (unfold _process_individual_prefill; outer_tac).
  assert (outer (_start_next_prefill callback)).
  { pose proof outer_accommodate. unfold _start_next_prefill. outer_tac. }
  unfold step_prefill. outer_tac.
Qed.

Lemma outer_decode_each rs : outer (decode_each (L := L) rs).
Proof. induction rs; cbn [decode_each]; outer_tac. Qed.
Lemma outer_complete_each t rs : outer (complete_each (L := L) t rs).
Proof. induction rs; cbn [complete_each]; unfold complete_one; outer_tac. Qed.

Lemma outer_step t : outer (engine_step callback iter t).
Proof.
  pose proof outer_prefill. pose proof outer_refresh. pose proof outer_snapshot.
  assert (outer (step_batch (L := L) iter)) by (unfold step_batch, _form_decode_batch, _add_to_decode_batch, add_batch_size; outer_tac).
  assert (outer (_process_decode_batch (L := L))).
  { pose proof outer_decode_each. pose proof outer_complete_each.
    unfold _process_decode_batch, _update_kv_cache_memory. outer_tac. }
  assert (outer (step_decode (L := L))) by (unfold step_decode; outer_tac).
  unfold engine_step. outer_tac.
Qed.
End Outer.

(** ** What no method of the engine touches

    The deque [request_queue] is created by the engine and never used by it. *)

Section Untouched.
Context {L : Type} (callback : option (Event → M L unit)) (iter : list ref → list ref).

Definition waiting (s : ES L) : list ref := request_queue (e_q (es_eng s)).
Definition untouched {A} (m : M (ES L) A) : Prop := ∀ s, waiting (fst (m s)) = waiting s.

Lemma untouched_bind {A B} (m : M (ES L) A) (k : A → M (ES L) B) :
  untouched m → (∀ a, untouched (k a)) → untouched (m ≫= k).
Proof.
  intros Hm Hk s. unfold mbind, M_bind. specialize (Hm s). destruct (m s) as [s1 [a|e]]; simpl in *; [|done].
  by rewrite Hk.
Qed.
Lemma untouched_keeps {A} (m : M (ES L) A) : keeps core m → untouched m.
Proof. intros H s. specialize (H s). unfold core in H. unfold waiting. congruence. Qed.

Ltac untouched_tac :=
  repeat (intros; first
    [ solve [auto 2]
    | solve [apply untouched_keeps; auto 2 with keeps]
    | solve [intros ?; reflexivity]
    | apply untouched_bind
    | match goal with |- untouched (if ?b then _ else _) => destruct b end
    | match goal with |- untouched (let '(_, _) := ?p in _) => destruct p end
    | match goal with |- untouched (match ?p with _ => _ end) => destruct p end ]).

Lemma untouched_add_request r : untouched (add_request callback r).
Proof. unfold add_request. untouched_tac. Qed.

Lemma untouched_prefill : untouched (step_prefill callback).
Proof.
  assert (untouched (_process_individual_prefill callback)) by (unfold _process_individual_prefill; untouched_tac).
  assert (untouched (_start_next_prefill callback)) by (unfold _start_next_prefill; untouched_tac).
  unfold step_prefill. untouched_tac.
Qed.

Lemma untouched_decode_each rs : untouched (decode_each (L := L) rs).
Proof. induction rs; cbn [decode_each]; untouched_tac. Qed.
Lemma untouched_complete_each t rs : untouched (complete_each (L := L) t rs).
Proof. induction rs; cbn [complete_each]; unfold complete_one; untouched_tac. Qed.

Lemma untouched_step t : untouched (engine_step callback iter t).
Proof.
  pose proof untouched_prefill.
  assert (untouched (step_batch (L := L) iter)) by (unfold step_batch, _form_decode_batch, _add_to_decode_batch, add_batch_size; untouched_tac).
  assert (untouched (_process_decode_batch (L := L))).
  { pose proof untouched_decode_each. pose proof untouched_complete_each. unfold _process_decode_batch. untouched_tac. }
  assert (untouched (step_decode (L := L))) by (unfold step_decode; untouched_tac).
  unfold engine_step. untouched_tac.
Qed.
End Untouched.

(** ** Properties of the engine *)

(** The tokens still to be generated for a list of requests. *)
Definition remaining (st : store) (rs : list ref) : Z :=
  foldr (fun r acc => output_length (st r) - generated_tokens (st r) + acc) 0 rs.

Lemma remaining_perm st l l' : l ≡ₚ l' → remaining st l = remaining st l'.
Proof. induction 1; simpl; lia. Qed.

Lemma remaining_app st l l' : remaining st (l ++ l') = remaining st l + remaining st l'.
Proof. induction l; simpl; lia. Qed.

Lemma remaining_decoded st st' (batch l : list ref) :
  (∀ r, output_length (st' r) = output_length (st r) ∧
     generated_tokens (st' r) = generated_tokens (st r) + (if decide (r ∈ batch) then 1 else 0)) →
  remaining st' l = remaining st l - Z.of_nat (length (filter (fun r => r ∈ batch) l)).
Proof.
  intros H. induction l as [|r l IH]; simpl; [done|]. destruct (H r) as [-> ->]. rewrite IH, filter_cons.
  case_decide; simpl; lia.
Qed.

Lemma filter_in_sub (batch l : list ref) :
  NoDup l → NoDup batch → batch ⊆ l → length (filter (fun r => r ∈ batch) l) = length batch.
Proof.
  intros Hl Hb Hs. apply Permutation_length, NoDup_Permutation; [by apply NoDup_filter|done|].
  intros x. rewrite list_elem_of_filter. set_solver.
Qed.

(** Every request not yet completed has a token left to generate. *)
Definition tokens_ok (st : store) (q : Queues) : Prop := ∀ r, r ∈ pending q →
  generated_tokens (st r) < output_length (st r).

(** C2.  A step loses no request: when it returns, the requests that were
    pending are those still pending plus the ones it completed, which follow
    the earlier completed ones; each completed request has generated exactly
    its output length and is in status [EXIT], and gets one completion event
    with its id, at the new GPU time; the queues stay disjoint, the active set
    exact and the batch within [max_batch_size]. *)
Theorem engine_step_conserves {L} (cb : option (Event → M L unit)) iter `{!IterOrder iter} t s s' evs :
  engine_inv (es_eng s) → engine_step cb iter t s = (s', Ok evs) →
  engine_inv (es_eng s') ∧
  ∃ fin, pending (e_q (es_eng s)) ≡ₚ fin ++ pending (e_q (es_eng s')) ∧
    completed_requests (e_q (es_eng s')) = completed_requests (e_q (es_eng s)) ++ fin ∧
    (∀ r, r ∈ fin → generated_tokens (es_req s' r) = output_length (es_req s r) ∧ status (es_req s' r) = EXIT) ∧
    evs = map (completion_event (e_cfg (es_eng s)) (es_req s') (e_cursor (es_eng s'))) fin.
Proof.
  intros Hinv H. destruct (engine_step_summary cb iter _ _ _ _ H Hinv)
    as (batch & fin & Hi & _ & _ & _ & _ & Htok & Hfin & Hex & Hp & Hc & He & _). split; [done|].
  exists fin. split_and!; try done. intros r Hr. split; [|by apply Hex]. destruct (Htok r) as (_ & _ & <- & _).
  rewrite Hfin in Hr. by apply list_elem_of_filter in Hr as [? _].
Qed.

(** C5.  Every step makes progress, request by request, or there is nothing to
    work on.  When a step returns, there is a [batch] of at most
    [max_batch_size] requests, each of which has generated exactly one token
    more, while every other request has generated none.  All the requests that
    were decoding are in it; every other request that was being worked on is in
    it too or is left ready, and some are left ready only when the batch is full.
    So the tokens still to be generated drop by the size of the batch, which is
    empty only when no request was being prefilled, ready or decoding, and then
    the queues and requests are as before.  No request overshoots its output
    length. *)
Theorem engine_step_progress {L} (cb : option (Event → M L unit)) iter `{!IterOrder iter} t s s' evs :
  engine_inv (es_eng s) → tokens_ok (es_req s) (e_q (es_eng s)) → engine_step cb iter t s = (s', Ok evs) →
  tokens_ok (es_req s') (e_q (es_eng s')) ∧
  ∃ batch, NoDup batch ∧ Z.of_nat (length batch) ≤ max_batch_size (e_cfg (es_eng s)) ∧
    (∀ r, generated_tokens (es_req s' r) = generated_tokens (es_req s r) + (if decide (r ∈ batch) then 1 else 0)) ∧
    batch_requests (e_q (es_eng s)) ⊆ batch ∧
    working (e_q (es_eng s)) ⊆ batch ++ decode_ready_requests (e_q (es_eng s')) ∧
    (decode_ready_requests (e_q (es_eng s')) = [] ∨ Z.of_nat (length batch) = max_batch_size (e_cfg (es_eng s))) ∧
    remaining (es_req s') (pending (e_q (es_eng s'))) =
      remaining (es_req s) (pending (e_q (es_eng s))) - Z.of_nat (length batch) ∧
    (batch = [] → e_q (es_eng s') = e_q (es_eng s) ∧ es_req s' = es_req s ∧ working (e_q (es_eng s)) = []).
Proof.
  intros Hinv Ht H. destruct (engine_step_summary cb iter _ _ _ _ H Hinv)
    as (batch & fin & Hi & _ & Hnd & (Hsub & Hrun & Hwork & Hfull) & Hlen & Htok & Hfin & _ & Hp & _ & _ & Hnil & _).
  assert (Hdp : NoDup (pending (e_q (es_eng s)))).
  { destruct Hinv as [[Hd _] _ _]. by apply NoDup_app in Hd as (Hd & _ & _). }
  split.
  - intros r Hr. destruct (Htok r) as (_ & _ & -> & ->).
    assert (Hin : r ∈ pending (e_q (es_eng s))) by (rewrite Hp; set_solver). specialize (Ht r Hin).
    assert (Hnf : r ∉ fin). { rewrite Hp in Hdp. apply NoDup_app in Hdp as (_ & Hdp & _). intros Hf. by apply (Hdp r). }
    case_decide as Hb; [|lia]. destruct (Htok r) as (_ & _ & E1 & E2). rewrite decide_True in E2 by done.
    rewrite Hfin, list_elem_of_filter in Hnf. destruct (Z.eq_dec (generated_tokens (es_req s r) + 1) (output_length (es_req s r))); [|lia].
    exfalso. apply Hnf. split; [congruence|done].
  - exists batch. split_and!; try done; [intros r; apply Htok|].
    assert (E : remaining (es_req s') (pending (e_q (es_eng s))) = remaining (es_req s) (pending (e_q (es_eng s))) - Z.of_nat (length batch)).
    { rewrite (remaining_decoded (es_req s) _ batch); [|intros r; destruct (Htok r) as (_ & _ & ? & ?); done].
      by rewrite filter_in_sub. }
    rewrite <- E, (remaining_perm _ _ _ Hp), remaining_app.
    assert (remaining (es_req s') fin = 0) as ->; [|lia]. rewrite Hfin. clear. induction batch as [|r l IH]; [done|].
    rewrite filter_cons. case_decide; simpl; lia.
Qed.

(** The timing model of an engine gives durations one can add up. *)
Definition timing_sane (c : EngineConfig) : Prop := ∀ d d', timed_by c d → nconv d = Ok d' → is_nan d' = false ∧ fwf d'.

Lemma at_least_1ms_pos d d' : nconv (at_least_1ms d) = Ok d' → (∀ x, nconv d = Ok x → is_nan x = false) → fle fzero d'.
Proof.
  unfold at_least_1ms. destruct (nleb d (NI 0)) eqn:E; intros H Hn.
  - assert (d' = flit 1 1000) as -> by (cbn [nconv] in H; congruence). by vm_compute.
  - destruct d as [z|f]; simpl in *.
    + unfold nleb in E. simpl in E. unfold float_of_int in H.
      assert (Hz : 0 ≤ z). { destruct (Z.le_gt_cases 0 z); [done|]. exfalso. assert (fleb (FFin z 0) (FFin 0 0) = true); [|congruence].
        apply fleb_fin. rewrite fval_le_scale. lia. }
      assert (fle fzero (rnd (inject_Z z))) by (apply rnd_nonneg; rewrite Zle_Qle in Hz; exact Hz).
      destruct (rnd (inject_Z z)); by inv_res.
    + injection H as <-. specialize (Hn f eq_refl). change (fleb f fzero = false) in E.
      destruct (fle_total fzero f) as [?|Hf]; [done..|]. unfold fle in Hf. congruence.
Qed.

Lemma advances_later c now t0 t1 :
  timing_sane c → clock_ok now → advances c now t0 t1 → clock_ok t0 → fle t0 t1 ∧ clock_ok t1.
Proof.
  intros Hs Hn. induction 1 as [t|t d t1 t2 Hd Ha Hadv IH]; intros Ht.
  { split; [apply fle_refl, clock_not_nan, Ht|done]. }
  unfold fadd_num in Ha. inv_res. pose proof (clock_fmax t now Ht Hn) as Hm.
  match goal with H : nconv (at_least_1ms d) = Ok ?y |- _ => rename y into d'; rename H into Hd' end.
  assert (Hpos : fle fzero d') by (eapply at_least_1ms_pos; [done|]; intros; by eapply Hs).
  assert (Hwf : fwf d').
  { unfold at_least_1ms in Hd'. destruct (nleb d (NI 0)); [|by eapply Hs].
    assert (d' = flit 1 1000) as -> by (cbn [nconv] in Hd'; congruence). apply flit_wf. }
  destruct Hm as [Hm1 Hm2].
  assert (H1 : clock_ok (fadd (fmax t now) d')) by (split; [by apply fadd_wf|by apply fadd_above]).
  destruct (IH H1) as [H2 H3]. split; [|done].
  apply fle_trans with (fmax t now); [apply fmax_ge_l; by apply clock_not_nan|].
  apply fle_trans with (fadd (fmax t now) d'); [by apply fadd_ge|done].
Qed.

(** C6.  The GPU clock never runs backwards and keeps up with the cluster: when
    a step at cluster time [t] returns, the engine's time cursor has not
    decreased and is at least [t], and every completion event carries that
    cursor, so none lies in the cluster's past. *)
Theorem engine_clock_monotone {L} (cb : option (Event → M L unit)) iter `{!IterOrder iter} t s s' evs :
  engine_inv (es_eng s) → timing_sane (e_cfg (es_eng s)) → clock_ok t → clock_ok (e_cursor (es_eng s)) →
  engine_step cb iter (Some t) s = (s', Ok evs) →
  fle (e_cursor (es_eng s)) (e_cursor (es_eng s')) ∧ fle t (e_cursor (es_eng s')) ∧ clock_ok (e_cursor (es_eng s')) ∧
  Forall (fun ev => timestamp ev = e_cursor (es_eng s') ∧ fltb (timestamp ev) t = false) evs.
Proof.
  intros Hinv Hs Ht Hc H. destruct (engine_step_summary cb iter _ _ _ _ H Hinv)
    as (batch & fin & _ & _ & _ & _ & _ & _ & _ & _ & _ & _ & He & _ & Hnow & Hadv). simpl in Hnow.
  rewrite Hnow in Hadv. set (c0 := if fltb (e_cursor (es_eng s)) t then t else e_cursor (es_eng s)) in *.
  assert (H0 : clock_ok c0) by (unfold c0; by case_match).
  pose proof (clock_not_nan _ Ht) as Nt. pose proof (clock_not_nan _ Hc) as Nc.
  destruct (advances_later _ _ _ _ Hs Ht Hadv H0) as [Hle Hok].
  assert (Hge : fle t (e_cursor (es_eng s'))) by (eapply fle_trans; [|exact Hle]; by apply fmax_ge_r).
  split_and!; [eapply fle_trans; [|exact Hle]; by apply fmax_ge_l|done|done|].
  rewrite He. apply Forall_map, Forall_forall. intros r _. simpl. split; [done|].
  rewrite fltb_not_fleb by (done || by apply clock_not_nan). by rewrite Hge.
Qed.

(** The state in which a request is tested: an engine without its model loads
    it first. *)
Definition when_loaded {L} (cb : option (Event → M L unit)) (s : ES L) : ES L :=
  if model_loaded (e_mem (es_eng s)) then s else fst (load_model cb s).

Lemma accommodate_state {L} (cb : option (Event → M L unit)) r m s s' b :
  can_accommodate_request cb r m s = (s', Ok b) → s' = when_loaded cb s.
Proof.
  unfold can_accommodate_request, when_loaded. intros H. run_ok H.
  assert (Hs0 : s0 = if model_loaded (e_mem (es_eng s)) then s else fst (load_model cb s)).
  { destruct (model_loaded _); [by apply ret_ok in Hm as [-> _]|]. by rewrite Hm. }
  rewrite <- Hs0. destruct (negb x); [by apply ret_ok in H as [-> _]|]. run_ok H.
  destruct (negb _); [by apply ret_ok in H as [-> _]|]. run_ok H. by apply ret_ok in H as [-> _].
Qed.

(** Refreshing the memory figures leaves the planner and the outer state alone. *)
Lemma refresh_keeps {L} :
  keeps (fun s : ES L => (memory_planner (e_mem (es_eng s)), es_out s)) _refresh_memory_usage.
Proof. unfold _refresh_memory_usage. repeat (intros; first [by intros ? | apply keeps_bind | case_match]). Qed.

(** Loading the model leaves the planner alone. *)
Lemma load_keeps_planner {L} (cb : option (Event → M L unit)) :
  keeps (fun s => memory_planner (e_mem (es_eng s))) (load_model cb).
Proof.
  assert (Hcb : ∀ ev, keeps (fun s => memory_planner (e_mem (es_eng s))) (call_back cb ev)).
  { intros ev s. unfold call_back. destruct cb as [f|]; [by destruct (f ev _)|done]. }
  unfold load_model, _refresh_memory_usage, emit_event.
  repeat (intros; first [by apply Hcb | by intros ? | apply keeps_bind | case_match]).
Qed.

Lemma when_loaded_same {L} (cb : option (Event → M L unit)) s :
  core (when_loaded cb s) = core s ∧
  memory_planner (e_mem (es_eng (when_loaded cb s))) = memory_planner (e_mem (es_eng s)).
Proof.
  unfold when_loaded. case_match; [done|]. split; [apply keeps_load|apply load_keeps_planner].
Qed.

(** C9.  Admission is all or nothing, apart from loading the model.  A call of
    [add_request] that returns has first loaded the model if it was not there
    ([when_loaded]), which changes no queue, no request and no block of the
    planner.  When it answers false it has done nothing else.  When it answers
    true it has allocated the blocks of the request, put it at the end of the
    prefill queue and marked it scheduled, and the invariant holds for a
    request the engine did not hold before. *)
Theorem add_request_correct {L} (cb : option (Event → M L unit)) r s s' b :
  engine_inv (es_eng s) → r ∉ places (e_q (es_eng s)) → add_request cb r s = (s', Ok b) →
  engine_inv (es_eng s') ∧
  core (when_loaded cb s) = core s ∧
  memory_planner (e_mem (es_eng (when_loaded cb s))) = memory_planner (e_mem (es_eng s)) ∧
  if b then e_q (es_eng s') = with_prefill_queue (prefill_queue (e_q (es_eng s)) ++ [r]) (e_q (es_eng s)) ∧
            es_req s' = update (es_req s) r (set_status SCHEDULED) ∧
            places (e_q (es_eng s')) ≡ₚ r :: places (e_q (es_eng s)) ∧
            allocate (es_req s r) (memory_planner (e_mem (es_eng s))) = (memory_planner (e_mem (es_eng s')), Ok tt) ∧
            es_out s' = es_out (when_loaded cb s)
  else s' = when_loaded cb s.
Proof.
  intros Hinv Hr H. destruct (when_loaded_same cb s) as [Hc Hpl]. unfold add_request in H. run_ok H.
  apply accommodate_state in Hm as ->. set (s0 := when_loaded cb s) in *.
  pose proof Hc as [= C1 C2 C3 C4 C5]. destruct (negb x).
  { apply ret_ok in H as [-> ->]. split_and!; try done. destruct Hinv as [I1 I2 I3]. split; by rewrite ?C3, ?C2. }
  run_ok H. apply ret_ok in H as [-> ->].
  unfold on_planner in Hm. rewrite C1, Hpl in Hm.
  destruct (allocate _ _) as [p' [[]|ex]] eqn:Ea; simplify_eq.
  pose proof (keeps_ok _ _ _ _ _ refresh_keeps Hm0) as [= R1 R2]. all_keeps. simpl in *.
  assert (Hp : places (with_prefill_queue (prefill_queue (e_q (es_eng s)) ++ [r]) (e_q (es_eng s)))
    ≡ₚ r :: places (e_q (es_eng s))).
  { unfold places, pending, working, batch_requests. simpl. rewrite <- !app_assoc. simpl. by rewrite <- Permutation_middle. }
  destruct Hinv as [[I1 I2] I3 I4].
  split_and!; try done; [split; [split| |]|..]; simpl; rewrite_kept; rewrite ?C1, ?C2, ?C3; try done; try congruence.
  - rewrite Hp. by apply NoDup_cons.
  - unfold core. congruence.
Qed.

(** C36.  What [get_current_load] counts: each request in decode once, each
    request ready for decode or in prefill twice, and the requests waiting in
    the prefill queue not at all. *)
Theorem current_load_double_counts e :
  engine_inv e →
  get_current_load e = Z.of_nat (length (batch_requests (e_q e))) + 2 * Z.of_nat (length (decode_ready_requests (e_q e)))
    + 2 * Z.of_nat (length (opt_list (current_prefill_request (e_q e)))).
Proof.
  intros [[_ Ha] _ _]. unfold get_current_load. rewrite Ha. unfold working. rewrite !length_app.
  destruct (current_prefill_request (e_q e)); simpl; lia.
Qed.

(** ** A small engine, used to exercise the properties *)

Definition demo_engine_config : EngineConfig :=
  mkEngineConfig "node_0" "facebook/opt-6.7b" llama2_7b None "NVDA:A100" a100 PNone 2
    (mkAnalyzer "NVDA:A100" llama2_7b None).

Definition demo_engine : ServingEngine :=
  mkEngine demo_engine_config empty_queues
    (mkEngineMemory demo_planner false (NF fzero) (NF fzero) (NF fzero)) empty_stats fzero fzero [].

Definition demo_store : store := fun r =>
  GenerationRequest_init ("req_" +:+ pretty r) "facebook/opt-6.7b" 20 (1 + Z.of_nat r) fzero.

Definition demo_es (q : Queues) : ES unit := mkES demo_store (set_q q demo_engine) tt.

(** Three requests admitted. *)
Definition three_waiting : Queues := with_prefill_queue [0; 1; 2]%nat empty_queues.

Lemma demo_engine_inv : engine_inv (es_eng (demo_es three_waiting)).
Proof.
  split; [split|done|done]; [|done]. change (NoDup [0; 1; 2]%nat).
  repeat (apply NoDup_cons; split; [set_solver|]). apply NoDup_nil_2.
Qed.

Definition no_callback : option (Event → M unit unit) := None.
Abbreviation demo_step :=
  (engine_step no_callback (fun l => l) (Some (flit 1 1)) (demo_es three_waiting)).

Lemma demo_step_ok : ∃ evs,
  engine_step no_callback (fun l => l) (Some (flit 1 1)) (demo_es three_waiting) = (fst demo_step, Ok evs) ∧
  map timestamp evs = [e_cursor (es_eng (fst demo_step))].
Proof.
  destruct (snd demo_step) as [evs|] eqn:E; [|vm_compute in E; discriminate E].
  exists evs. split; [by apply returned|].
  assert (match snd demo_step with Ok evs => map timestamp evs = [e_cursor (es_eng (fst demo_step))] | _ => False end) as H
    by (vm_compute; reflexivity). by rewrite E in H.
Qed.

Lemma engine_step_conserves_witness :
  engine_inv (es_eng (fst demo_step)) ∧
  ∃ fin, pending three_waiting ≡ₚ fin ++ pending (e_q (es_eng (fst demo_step))) ∧
    completed_requests (e_q (es_eng (fst demo_step))) = fin.
Proof.
  destruct demo_step_ok as (evs & H & _).
  destruct (engine_step_conserves no_callback (fun l => l) (Some (flit 1 1)) (demo_es three_waiting) (fst demo_step) evs
    demo_engine_inv H) as (H1 & fin & H2 & H3 & _). split; [exact H1|]. exists fin. exact (conj H2 H3).
Defined.

Lemma demo_tokens_ok q : tokens_ok demo_store q.
Proof. intros r _. simpl. lia. Qed.

Lemma engine_step_progress_witness :
  ∃ batch, NoDup batch ∧ Z.of_nat (length batch) ≤ 2 ∧
    (∀ r, generated_tokens (es_req (fst demo_step) r) = 0 + (if decide (r ∈ batch) then 1 else 0)) ∧
    remaining (es_req (fst demo_step)) (pending (e_q (es_eng (fst demo_step)))) =
      remaining demo_store [0; 1; 2]%nat - Z.of_nat (length batch).
Proof.
  destruct demo_step_ok as (evs & H & _).
  destruct (engine_step_progress no_callback (fun l => l) (Some (flit 1 1)) (demo_es three_waiting) (fst demo_step) evs
    demo_engine_inv (demo_tokens_ok _) H) as (_ & batch & H1 & H2 & H3 & _ & _ & _ & H4 & _).
  exists batch. exact (conj H1 (conj H2 (conj H3 H4))).
Defined.

Lemma ndiv_int_rnd k m e d : ndiv (NI k) (NF (FFin (Zpos m) e)) = Ok d → ∃ q, d = NF (rnd q).
Proof.
  unfold ndiv, nconv, mbind, res_bind, float_of_int. destruct (rnd (inject_Z k)) as [mk ek|sk|] eqn:Er; [|done|].
  - simpl. intros. simplify_eq. eauto.
  - pose proof (rnd_not_nan (inject_Z k)) as Hnn. by rewrite Er in Hnn.
Qed.

Lemma demo_timing : timing_sane demo_engine_config.
Proof.
  intros d d' (e & n & b & Hc & Hd) Hn.
  assert (Hr : ∀ n b, ∃ ex, analyze (model_analyzer (e_cfg e)) n b 16 16 (Some 16) 1 = Raise ex).
  { intros. rewrite Hc. unfold analyze. destruct (negb (0 <? n0)); [by eexists|].
    destruct (negb (0 <? b0)); [by eexists|]. by eexists. }
  assert (∃ k, ndiv (NI k) (NF (compute_throughput demo_engine_config)) = Ok d) as [k Hk].
  { unfold _get_prefill_time, _get_decode_time in Hd. destruct (Hr n b) as [ex Hex]. rewrite Hex, Hc in Hd.
    destruct Hd as [Hd|Hd]; eexists; exact Hd. }
  assert (∃ m e, compute_throughput demo_engine_config = FFin (Zpos m) e) as (m & e1 & Ht) by (by eexists _, _; vm_compute).
  rewrite Ht in Hk. destruct (ndiv_int_rnd _ _ _ _ Hk) as [q ->].
  assert (d' = rnd q) as -> by (cbn [nconv] in Hn; congruence). split; [apply rnd_not_nan|apply rnd_wf].
Qed.

Lemma engine_clock_monotone_witness :
  fle (e_cursor demo_engine) (e_cursor (es_eng (fst demo_step))) ∧ fle (flit 1 1) (e_cursor (es_eng (fst demo_step))).
Proof.
  destruct demo_step_ok as (evs & H & _).
  assert (clock_ok (flit 1 1)) as Ht by (split; [apply flit_wf|vm_compute; reflexivity]).
  assert (clock_ok fzero) as H0 by (split; [apply fzero_wf|vm_compute; reflexivity]).
  destruct (engine_clock_monotone no_callback (fun l => l) (flit 1 1) (demo_es three_waiting) (fst demo_step) evs
    demo_engine_inv demo_timing Ht H0 H) as (H1 & H2 & _). exact (conj H1 H2).
Defined.

Abbreviation demo_add := (add_request no_callback 3%nat (demo_es three_waiting)).

Lemma demo_fresh : 3%nat ∉ places (e_q (es_eng (demo_es three_waiting))).
Proof. change (3%nat ∉ [0; 1; 2]%nat). set_solver. Qed.

Lemma add_request_correct_witness :
  add_request no_callback 3%nat (demo_es three_waiting) = (fst demo_add, Ok true) ∧
  prefill_queue (e_q (es_eng (fst demo_add))) = [0; 1; 2; 3]%nat.
Proof.
  assert (H : add_request no_callback 3%nat (demo_es three_waiting) = (fst demo_add, Ok true))
    by (apply returned; vm_compute; reflexivity).
  split; [exact H|].
  pose proof (add_request_correct no_callback 3%nat (demo_es three_waiting) (fst demo_add) true demo_engine_inv demo_fresh H) as Hok.
  cbv iota in Hok. apply proj2, proj2, proj2, proj1 in Hok. exact (f_equal prefill_queue Hok).
Defined.

(** An engine with a request in prefill and one ready for decode reports a
    load of four. *)
Lemma current_load_double_counts_witness :
  get_current_load (set_q (mkQueues [] [0; 1]%nat [] [] [1]%nat None 0 (Some 0%nat)) demo_engine) = 4.
Proof.
  rewrite current_load_double_counts; [reflexivity|]. split; [split|done|done]; [|done].
  change (NoDup [0; 1]%nat). repeat (apply NoDup_cons; split; [set_solver|]). apply NoDup_nil_2.
Defined.
