(* ===== verification/Scheduler.v ===== *)
(** * Request placement

    Models [simulator/core/scheduler.py]: the nine placement algorithms, their
    statistics and the factory [get_scheduler].

    An algorithm receives the list of available engines and answers with the
    index of the chosen one in that list.  Engines are objects shared with the
    cluster manager: [HeterogeneousRiskAwareScheduler] refreshes the memory
    figures of the engines it looks at, so a placement returns the engines as
    it leaves them.  [random.choice] and the power [x ** 1.5] of the C library
    are parameters. *)

From Stdlib Require Import QArith.
From S2P Require Import Prelude PyFloat PyStr Events Request Config Analyzer Memory Trace Engine.

#[local] Open Scope string_scope.
#[local] Open Scope list_scope.
#[local] Open Scope Z_scope.

(** ** Decisions and statistics *)

Record PlacementDecision := mkDecision {
  target_engine : option nat;
  reason : string;
  confidence : pyfloat;
  estimated_completion_time : option num;
}.

Record SchedStats := mkSchedStats {
  total_decisions : Z;
  rejections : Z;
  placement_reasons : dict Z;
}.

Inductive algorithm :=
  | RandomScheduler
  | RoundRobinScheduler (current_index : Z)
  | OracleScheduler
  | FLOPsScheduler
  | BandwidthScheduler
  | RooflineScheduler
  | InputOutputAdaptiveScheduler_Roofline
  | InputOutputAdaptiveScheduler_Threshold (input_threshold output_threshold : num)
  | HeterogeneousRiskAwareScheduler (high_intensity_threshold tier3_kv_safe_buffer : num).

Record Scheduler := mkScheduler { sched_alg : algorithm; sched_stats : SchedStats }.

(** [update_statistics] *)
Definition update_statistics (decision : option PlacementDecision) (st : SchedStats) : SchedStats :=
  match decision with
  | None => mkSchedStats (total_decisions st + 1) (rejections st + 1) (placement_reasons st)
  | Some d => mkSchedStats (total_decisions st + 1) (rejections st) (dict_incr (placement_reasons st) (reason d) 1)
  end.

(** ** Choosing the best engine *)

(** [for e in engines: if better(e, best): best = e], with a key per engine;
    the key may raise. *)
Fixpoint best_from {K} (key : ServingEngine → res K) (better : K → K → bool) (i : nat) (es : list ServingEngine)
    (best : option nat * K) : res (option nat * K) :=
  match es with
  | [] => Ok best
  | e :: es' =>
      k ← key e;
      best_from key better (S i) es' (if better k (snd best) then (Some i, k) else best)
  end.

(** [max(engines, key=...)]: the first engine is the first candidate. *)
Definition py_max {K} (key : ServingEngine → K) (better : K → K → bool) (es : list ServingEngine) : option nat :=
  match es with
  | [] => None
  | e :: es' =>
      match best_from (fun e => Ok (key e)) better 1 es' (Some 0%nat, key e) with
      | Ok (b, _) => b
      | Raise _ => None
      end
  end.

(** A score and a load: a better score, or the same score and less load.
    [scoreb] is [<] or [>] as the algorithm minimises or maximises. *)
Definition better_score (scoreb : num → num → bool) (a b : num * num) : bool :=
  scoreb (fst a) (fst b) || (neqb (fst a) (fst b) && nltb (snd a) (snd b)).
Definition smaller (a b : num) : bool := nltb a b.
Definition larger (a b : num) : bool := nltb b a.

(** Python's [>] on the tuples [(x, -load)]. *)
Definition larger_tuple (a b : pyfloat * Z) : bool :=
  if feqb (fst a) (fst b) then snd b <? snd a else fltb (fst b) (fst a).

Definition load_of (e : ServingEngine) : num := NI (get_current_load e).
Definition throughput (e : ServingEngine) : num := NF (compute_throughput (e_cfg e)).
Definition bandwidth_of (e : ServingEngine) : num := NF (memory_bandwidth (e_cfg e)).
Definition flt_inf : num := NF fpinf.

#[local] Open Scope pynum_scope.

Definition mega : res num := flo (flit 1000000 1).

(** The engine's turning point in the roofline. *)
Definition turning_point (e : ServingEngine) : res num := ndiv (throughput e) (bandwidth_of e).

(** The score by which an engine would run work of a given intensity. *)
Definition roofline_score (intensity : num) (e : ServingEngine) : res (num * bound_type) :=
  tp ← turning_point e;
  Ok (if nltb intensity tp then (bandwidth_of e, MemoryBound) else (throughput e, ComputeBound)).

(** [ops / mem if mem > 0 else 0] *)
Definition intensity (ops mem : num) : res num := if nltb (NI 0) mem then ndiv ops mem else Ok (NI 0).

Definition bound_name (b : bound_type) : string :=
  match b with MemoryBound => "memory" | ComputeBound => "compute" end.

Section Algorithms.
(** [x ** 1.5], and the index [random.choice] picks at the [k]-th decision. *)
Context (pow15 : Z → res num) (choice : Z → nat → nat).

Definition oracle_key (request : GenerationRequest) (e : ServingEngine) : res (num * num) :=
  prefill_work ← pow15 (input_length request);
  let decode_work := output_length request * input_length request in
  let prefill_time := Ok prefill_work /ₙ (Ok (throughput e) /ₙ flo (flit (10 ^ 12) 1)) in
  let decode_time := int decode_work /ₙ (Ok (bandwidth_of e) /ₙ flo (flit (10 ^ 9) 1)) in
  estimated_time ← prefill_time +ₙ decode_time;
  Ok (estimated_time, load_of e).

(** The arithmetic intensity of the whole request. *)
Definition request_intensity (request : GenerationRequest) : res num :=
  let inp := input_length request in
  let out := output_length request in
  total_ops ← int (inp * inp) *ₙ mega +ₙ int (inp * out) *ₙ mega;
  total_mem ← int inp *ₙ mega +ₙ int (inp * out) *ₙ mega;
  intensity total_ops total_mem.

(** The intensities and weights of the two phases. *)
Definition adaptive_phases (request : GenerationRequest) : res (num * num * num * num) :=
  let inp := input_length request in
  let out := output_length request in
  prefill_ops ← int (inp * inp) *ₙ mega;
  prefill_mem ← int inp *ₙ mega;
  prefill_intensity ← intensity prefill_ops prefill_mem;
  decode_ops ← int (inp * out) *ₙ mega;
  decode_mem ← int (inp * out) *ₙ mega;
  decode_intensity ← intensity decode_ops decode_mem;
  let total_work := inp + out in
  let weight n := if 0 <? total_work then int n /ₙ int total_work else flo (flit 1 2) in
  prefill_weight ← weight inp;
  decode_weight ← weight out;
  Ok (prefill_intensity, decode_intensity, prefill_weight, decode_weight).

Definition adaptive_key (prefill_intensity decode_intensity prefill_weight
    decode_weight : num) (e : ServingEngine) : res (num * num) :=
  '(prefill_score, _) ← roofline_score prefill_intensity e;
  '(decode_score, _) ← roofline_score decode_intensity e;
  score ← Ok prefill_weight *ₙ Ok prefill_score +ₙ Ok decode_weight *ₙ Ok decode_score;
  Ok (score, load_of e).

Definition threshold_key (compute_weight bandwidth_weight : num) (e : ServingEngine) : res (num * num) :=
  total_weight ← nadd compute_weight bandwidth_weight;
  score ← (Ok compute_weight *ₙ Ok (throughput e) +ₙ Ok bandwidth_weight *ₙ Ok (bandwidth_of e)) /ₙ Ok total_weight;
  Ok (score, load_of e).

Definition threshold_weight (n : Z) (threshold : num) : num :=
  if nltb threshold (NI n) then NF fone else NF (flit 3 10).

Definition threshold_reason (request : GenerationRequest) (input_threshold output_threshold : num) : string :=
  let reasons := (if nltb input_threshold (NI (input_length request)) then ["long_input"] else []) ++
                 (if nltb output_threshold (NI (output_length request)) then ["long_output"] else []) in
  if is_nil reasons then "short_request" else join "_" reasons.

Definition _get_tier (e : ServingEngine) : Z :=
  let hw := lower (hardware (e_cfg e)) in
  if contains "h100" hw then 1
  else if contains "a100" hw then 2
  else if contains "3090" hw || contains "rtx" hw then 3
  else 2.

(** [engine.get_memory_info()], which refreshes the engine. *)
Definition memory_info_of (e : ServingEngine) : ServingEngine * res MemInfo :=
  let '(s, r) := get_memory_info (mkES (fun _ => GenerationRequest_init "" "" 0 0 fzero) e tt) in (es_eng s, r).

(** [engine._estimate_kv_cache_memory(request)]: [ServingEngine] has no such
    method. *)
Definition estimate_kv_cache_memory (e : ServingEngine) : res num :=
  Raise (AttributeError "_estimate_kv_cache_memory").

Definition set_nth (i : nat) (e : ServingEngine) (es : list ServingEngine) : list ServingEngine := <[i := e]> es.

(** Whether a tier-3 engine has room for the initial footprint. *)
Definition tier3_fits (buffer est_mem_init : num) (r : res MemInfo) : res bool :=
  info ← r;
  total_kv_budget ← nsub (mi_total info) (mi_model_weights info);
  limit ← Ok total_kv_budget *ₙ flo (flit 8 10) *ₙ Ok buffer;
  Ok (negb (nltb limit est_mem_init)).

(** Step 1 of the risk-aware scheduler: the indices of the engines that pass
    the memory constraint. *)
Fixpoint risk_candidates (buffer : num) (i : nat) (todo : list ServingEngine) : M (list ServingEngine) (list nat) :=
  match todo with
  | [] => fun es => (es, Ok [])
  | e :: todo' => fun es =>
      let '(es1, keep) :=
        if _get_tier e =? 3 then
          match estimate_kv_cache_memory e with
          | Raise ex => (es, Raise ex)
          | Ok est_mem_init =>
              let '(e', r) := memory_info_of e in (set_nth i e' es, tier3_fits buffer est_mem_init r)
          end
        else (es, Ok true) in
      match keep with
      | Raise ex => (es1, Raise ex)
      | Ok k =>
          match risk_candidates buffer (S i) todo' es1 with
          | (es2, Ok rest) => (es2, Ok (if k then i :: rest else rest))
          | (es2, Raise ex) => (es2, Raise ex)
          end
      end
  end.

(** The memory pressure of an engine with the request, or nothing when it has
    no room for a KV cache. *)
Definition pressure (e : ServingEngine) (r : res MemInfo) : res (option num) :=
  info ← r;
  total_kv_capacity ← nsub (mi_total info) (mi_model_weights info);
  if nleb total_kv_capacity (NI 0) then Ok None
  else new_kv ← estimate_kv_cache_memory e;
       score ← (Ok (mi_kv_cache info) +ₙ Ok new_kv) /ₙ Ok total_kv_capacity;
       Ok (Some score).

(** Step 3: least memory pressure, ties by load. *)
Fixpoint risk_best (todo : list nat) (best : option nat * num) : M (list ServingEngine) (option nat * num) :=
  match todo with
  | [] => fun es => (es, Ok best)
  | i :: todo' => fun es =>
      match es !! i with
      | None => (es, Raise IndexError)
      | Some e =>
          let '(e', r) := memory_info_of e in
          let es1 := set_nth i e' es in
          match pressure e' r with
          | Raise ex => (es1, Raise ex)
          | Ok None => risk_best todo' best es1
          | Ok (Some score) =>
              if nltb score (snd best) then risk_best todo' (Some i, score) es1
              else if neqb score (snd best) then
                match fst best with
                | Some j =>
                    match es1 !! j with
                    | Some b => risk_best todo' (if get_current_load e' <? get_current_load b then (Some i, snd best) else best) es1
                    | None => (es1, Raise IndexError)
                    end
                | None => (es1, Raise (AttributeError "get_current_load"))
                end
              else risk_best todo' best es1
          end
      end
  end.

(** *** The methods [place_request]

    A method acts on the scheduler and on the available engines; each one
    updates the statistics itself, before it returns. *)
Abbreviation PM := (M (Scheduler * list ServingEngine)).

Definition self_update_statistics (decision : option PlacementDecision) : PM unit :=
  modify (fun '(s, es) => (mkScheduler (sched_alg s) (update_statistics decision (sched_stats s)), es)).

Definition engines_given : PM (list ServingEngine) := gets snd.

(** A loop over the engines that changes them. *)
Definition on_engines {A} (m : M (list ServingEngine) A) : PM A := fun '(s, es) =>
  let '(es', r) := m es in ((s, es'), r).

Definition set_current_index (i : Z) : PM unit :=
  modify (fun '(s, es) => (mkScheduler (RoundRobinScheduler i) (sched_stats s), es)).

Definition RandomScheduler_place_request (request : GenerationRequest) : PM (option PlacementDecision) :=
  es ← engines_given;
  if is_nil es then self_update_statistics None ;; mret None
  else
    target ← gets (fun '(s, _) => choice (total_decisions (sched_stats s)) (length es));
    let decision := mkDecision (Some target) "random_selection" (flit 1 10) None in
    self_update_statistics (Some decision) ;;
    mret (Some decision).

Definition RoundRobinScheduler_place_request (current_index : Z) (request : GenerationRequest)
    : PM (option PlacementDecision) :=
  es ← engines_given;
  if is_nil es then self_update_statistics None ;; mret None
  else
    let target := Z.to_nat (current_index mod Z.of_nat (length es)) in
    set_current_index (current_index + 1) ;;
    let decision := mkDecision (Some target) "round_robin" (flit 2 10) None in
    self_update_statistics (Some decision) ;;
    mret (Some decision).

Definition OracleScheduler_place_request (request : GenerationRequest) : PM (option PlacementDecision) :=
  es ← engines_given;
  if is_nil es then self_update_statistics None ;; mret None
  else
    '(best_engine, (best_estimated_time, _)) ←
      lift (best_from (oracle_key request) (better_score smaller) 0 es (None, (flt_inf, flt_inf)));
    let decision := mkDecision best_engine "oracle_minimum_completion_time" fone (Some best_estimated_time) in
    self_update_statistics (Some decision) ;;
    mret (Some decision).

Definition FLOPsScheduler_place_request (request : GenerationRequest) : PM (option PlacementDecision) :=
  es ← engines_given;
  if is_nil es then self_update_statistics None ;; mret None
  else
    let best_engine := py_max (fun e => (compute_throughput (e_cfg e), - get_current_load e)) larger_tuple es in
    let decision := mkDecision best_engine "max_compute_throughput" (flit 6 10) None in
    self_update_statistics (Some decision) ;;
    mret (Some decision).

Definition BandwidthScheduler_place_request (request : GenerationRequest) : PM (option PlacementDecision) :=
  es ← engines_given;
  if is_nil es then self_update_statistics None ;; mret None
  else
    let best_engine := py_max (fun e => (memory_bandwidth (e_cfg e), - get_current_load e)) larger_tuple es in
    let decision := mkDecision best_engine "max_memory_bandwidth" (flit 6 10) None in
    self_update_statistics (Some decision) ;;
    mret (Some decision).

(** [bound_type] is read after the loop, so it is the one of the engine the
    loop examined last. *)
Definition RooflineScheduler_place_request (request : GenerationRequest) : PM (option PlacementDecision) :=
  es ← engines_given;
  if is_nil es then self_update_statistics None ;; mret None
  else
    arithmetic_intensity ← lift (request_intensity request);
    '(best_engine, _) ←
      lift (best_from (fun e => '(s, _) ← roofline_score arithmetic_intensity e; Ok (s, load_of e))
              (better_score larger) 0 es (None, (NI (-1), flt_inf)));
    bound_type ← lift (foldR (fun _ e => '(_, b) ← roofline_score arithmetic_intensity e; Ok b) MemoryBound es);
    let decision := mkDecision best_engine ("roofline_" +:+ bound_name bound_type +:+ "_bound") (flit 8 10) None in
    self_update_statistics (Some decision) ;;
    mret (Some decision).

Definition InputOutputAdaptiveScheduler_Roofline_place_request (request : GenerationRequest)
    : PM (option PlacementDecision) :=
  es ← engines_given;
  if is_nil es then self_update_statistics None ;; mret None
  else
    '(prefill_intensity, decode_intensity, prefill_weight, decode_weight) ← lift (adaptive_phases request);
    '(best_engine, _) ←
      lift (best_from (adaptive_key prefill_intensity decode_intensity prefill_weight decode_weight)
              (better_score larger) 0 es (None, (NI (-1), flt_inf)));
    let decision := mkDecision best_engine "input_output_adaptive_roofline" (flit 9 10) None in
    self_update_statistics (Some decision) ;;
    mret (Some decision).

Definition InputOutputAdaptiveScheduler_Threshold_place_request (input_threshold output_threshold : num)
    (request : GenerationRequest) : PM (option PlacementDecision) :=
  es ← engines_given;
  if is_nil es then self_update_statistics None ;; mret None
  else
    let compute_weight := threshold_weight (input_length request) input_threshold in
    let bandwidth_weight := threshold_weight (output_length request) output_threshold in
    '(best_engine, _) ←
      lift (best_from (threshold_key compute_weight bandwidth_weight) (better_score larger) 0 es
              (None, (NI (-1), flt_inf)));
    let reason_str := threshold_reason request input_threshold output_threshold in
    let decision := mkDecision best_engine ("threshold_adaptive_" +:+ reason_str) (flit 85 100) None in
    self_update_statistics (Some decision) ;;
    mret (Some decision).

Definition HeterogeneousRiskAwareScheduler_place_request (high_intensity_threshold tier3_kv_safe_buffer : num)
    (request : GenerationRequest) : PM (option PlacementDecision) :=
  es ← engines_given;
  if is_nil es then self_update_statistics None ;; mret None
  else
    candidates ← on_engines (risk_candidates tier3_kv_safe_buffer 0 es);
    if is_nil candidates then self_update_statistics None ;; mret None
    else
      es1 ← engines_given;
      let tier i := from_option _get_tier 0 (es1 !! i) in
      let is_high_intensity := nltb high_intensity_threshold (NI (input_length request)) in
      let priority_candidates := if is_high_intensity then filter (fun i => tier i = 1) candidates else [] in
      let final_candidates := if is_nil priority_candidates then candidates else priority_candidates in
      '(best_engine, _) ← on_engines (risk_best final_candidates (None, flt_inf));
      match best_engine with
      | Some i =>
          let decision := mkDecision (Some i) ("risk_aware_tier" +:+ str_of_int (tier i)) (flit 9 10) None in
          self_update_statistics (Some decision) ;;
          mret (Some decision)
      | None => self_update_statistics None ;; mret None
      end.

(** The call [scheduler.place_request(request, engines)]: the method of the
    scheduler's class. *)
Definition place_request (request : GenerationRequest) : PM (option PlacementDecision) :=
  alg ← gets (fun '(s, _) => sched_alg s);
  match alg with
  | RandomScheduler => RandomScheduler_place_request request
  | RoundRobinScheduler i => RoundRobinScheduler_place_request i request
  | OracleScheduler => OracleScheduler_place_request request
  | FLOPsScheduler => FLOPsScheduler_place_request request
  | BandwidthScheduler => BandwidthScheduler_place_request request
  | RooflineScheduler => RooflineScheduler_place_request request
  | InputOutputAdaptiveScheduler_Roofline => InputOutputAdaptiveScheduler_Roofline_place_request request
  | InputOutputAdaptiveScheduler_Threshold it ot => InputOutputAdaptiveScheduler_Threshold_place_request it ot request
  | HeterogeneousRiskAwareScheduler th buf => HeterogeneousRiskAwareScheduler_place_request th buf request
  end.
End Algorithms.

(** ** The factory *)

Definition init_stats : SchedStats := mkSchedStats 0 0 [].

Definition scheduler_names : list string :=
  ["random"; "round_robin"; "oracle"; "flops"; "bandwidth"; "roofline"; "inputoutput_roofline";
   "inputoutput_threshold"; "heterogeneous_risk_aware"].

(** A call of a constructor that takes the named arguments [params]. *)
Definition check_kwargs (params : list string) (kwargs : dict num) : res unit :=
  if forallb (fun k => bool_decide (k ∈ params)) (dict_keys kwargs) then Ok tt
  else Raise (TypeError "got an unexpected keyword argument").

Definition get_scheduler (name : string) (kwargs : dict num) : res Scheduler :=
  let n := lower name in
  let plain a := _ ← check_kwargs [] kwargs; Ok (mkScheduler a init_stats) in
  if bool_decide (n = "random") then plain RandomScheduler
  else if bool_decide (n = "round_robin") then plain (RoundRobinScheduler 0)
  else if bool_decide (n = "oracle") then plain OracleScheduler
  else if bool_decide (n = "flops") then plain FLOPsScheduler
  else if bool_decide (n = "bandwidth") then plain BandwidthScheduler
  else if bool_decide (n = "roofline") then plain RooflineScheduler
  else if bool_decide (n = "inputoutput_roofline") then plain InputOutputAdaptiveScheduler_Roofline
  else if bool_decide (n = "inputoutput_threshold") then
    _ ← check_kwargs ["input_threshold"; "output_threshold"] kwargs;
    Ok (mkScheduler (InputOutputAdaptiveScheduler_Threshold
          (dict_get_default kwargs "input_threshold" (NI 1024)) (dict_get_default kwargs "output_threshold" (NI 512)))
          init_stats)
  else if bool_decide (n = "heterogeneous_risk_aware") then
    _ ← check_kwargs ["high_intensity_threshold"; "tier3_kv_safe_buffer"] kwargs;
    Ok (mkScheduler (HeterogeneousRiskAwareScheduler
          (dict_get_default kwargs "high_intensity_threshold" (NI 2048))
          (dict_get_default kwargs "tier3_kv_safe_buffer" (NF (flit 5 10)))) init_stats)
  else Raise (ValueError "Unknown scheduler").

#[local] Close Scope pynum_scope.

(** ** The best of a list *)

(** A strict order by which keys are compared: "not better" is transitive and
    total on the keys that satisfy [P]. *)
Class BestOrder {K} (better : K → K → bool) (P : K → Prop) : Prop := {
  bo_irrefl : ∀ a, P a → better a a = false;
  bo_trans : ∀ a b c, P a → P b → P c → better a b = false → better b c = false → better a c = false;
  bo_asym : ∀ a b, P a → P b → better a b = true → better b a = false;
}.

Section Best.
Context {K : Type} (better : K → K → bool) (P : K → Prop) `{!BestOrder better P}.

(** The loop keeps a key no examined key is better than, and the index it
    came from. *)
Lemma best_from_best key i es b0 k0 b k :
  best_from key better i es (b0, k0) = Ok (b, k) → P k0 → (∀ e k', e ∈ es → key e = Ok k' → P k') →
  P k ∧ better k0 k = false ∧
  (∀ e k', e ∈ es → key e = Ok k' → better k' k = false) ∧
  ((b = b0 ∧ k = k0) ∨ ∃ j e, es !! j = Some e ∧ b = Some (i + j)%nat ∧ key e = Ok k).
Proof.
  revert i b0 k0. induction es as [|e es IH]; intros i b0 k0 H H0 HP; simpl in H.
  { inv_res. split_and!; [done|by apply (bo_irrefl (P := P))|set_solver|by left]. }
  unfold mbind, res_bind in H. destruct (key e) as [ke|] eqn:Ek; [|done].
  assert (Hke : P ke) by (apply (HP e); [left|done]).
  destruct (better ke k0) eqn:Eb; simpl in H; apply IH in H as (H1 & H2 & H3 & H4);
    try done; try (intros e' k' ? ?; apply (HP e'); [by right|done]).
  - split_and!; [done| | |].
    + eapply (bo_trans (P := P)); [..|exact H2]; [done..|]. by apply (bo_asym (P := P)).
    + intros e' k' [->|Hin]%elem_of_cons Hk'; [rewrite Ek in Hk'; by injection Hk' as <-|by eapply H3].
    + right. destruct H4 as [[-> ->]|(j & e' & Hj & -> & Hk)].
      * exists 0%nat, e. split_and!; [done|f_equal; lia|done].
      * exists (S j), e'. split_and!; [done|f_equal; lia|done].
  - split_and!; [done|done| |].
    + intros e' k' [->|Hin]%elem_of_cons Hk'; [|by eapply H3].
      rewrite Ek in Hk'. injection Hk' as <-. by apply (bo_trans (P := P)) with k0.
    + destruct H4 as [?|(j & e' & Hj & -> & Hk)]; [by left|right].
      exists (S j), e'. split_and!; [done|f_equal; lia|done].
Qed.

(** The loop returns when no key raises. *)
Lemma best_from_total (key : ServingEngine → res K) i es bk :
  (∀ e, e ∈ es → ∃ k, key e = Ok k) → ∃ bk', best_from key better i es bk = Ok bk'.
Proof.
  revert i bk. induction es as [|e es IH]; intros i bk He; [by eexists|].
  destruct (He e ltac:(left)) as [k Hk]. simpl. rewrite Hk. apply IH. intros e' Hin. apply He. by right.
Qed.
End Best.

(** Comparison of numbers that are not NaN. *)
Definition num_ok (a : num) : Prop := is_nan (nflt a) = false.

Lemma neqb_spec a b : neqb a b = true ↔ nleb a b = true ∧ nleb b a = true.
Proof.
  unfold neqb, nleb. split; [apply feqb_fle|]. intros [H1 H2]. by apply fle_feqb.
Qed.
Lemma nltb_false a b : num_ok a → num_ok b → nltb a b = false ↔ nleb b a = true.
Proof. intros Ha Hb. unfold nltb, nleb. rewrite fltb_not_fleb by done. by rewrite negb_false_iff. Qed.
Lemma nleb_trans a b c : nleb a b = true → nleb b c = true → nleb a c = true.
Proof. apply fle_trans. Qed.
Lemma nleb_refl a : num_ok a → nleb a a = true.
Proof. apply fle_refl. Qed.
Lemma nltb_nleb a b : nltb a b = true → nleb a b = true.
Proof. apply flt_le. Qed.

(** The two directions of a score. *)
Class Direction (cmp : num → num → bool) (le : num → num → bool) : Prop := {
  dir_false : ∀ a b, num_ok a → num_ok b → cmp a b = false ↔ le b a = true;
  dir_eq : ∀ a b, neqb a b = true ↔ le a b = true ∧ le b a = true;
  dir_trans : ∀ a b c, le a b = true → le b c = true → le a c = true;
  dir_refl : ∀ a, num_ok a → le a a = true;
  dir_lt : ∀ a b, cmp a b = true → le a b = true;
}.

#[export] Instance smaller_direction : Direction smaller nleb.
Proof.
  split; [apply nltb_false|apply neqb_spec|apply nleb_trans|apply nleb_refl|apply nltb_nleb].
Qed.
#[export] Instance larger_direction : Direction larger (fun a b => nleb b a).
Proof.
  split; [intros; by apply nltb_false|intros; rewrite neqb_spec; tauto|
          intros a b c ? ?; by apply nleb_trans with b|apply nleb_refl|intros a b; apply nltb_nleb].
Qed.

Definition key_ok (k : num * num) : Prop := num_ok (fst k) ∧ num_ok (snd k).

Lemma not_better_score cmp le `{!Direction cmp le} a b :
  key_ok a → key_ok b →
  better_score cmp a b = false ↔ le (fst b) (fst a) = true ∧ (le (fst a) (fst b) = true → nleb (snd b) (snd a) = true).
Proof.
  intros [Ha1 Ha2] [Hb1 Hb2]. unfold better_score. rewrite orb_false_iff, andb_false_iff.
  rewrite (dir_false (cmp := cmp)), nltb_false by done.
  rewrite <- not_true_iff_false, (dir_eq (cmp := cmp)). split; [intros [H1 H2]|intros [H1 H2]]; split; try done.
  - intros H3. destruct H2; tauto.
  - destruct (le (fst a) (fst b)) eqn:E; [right; auto|left]. intros [? ?]. congruence.
Qed.

#[export] Instance score_order cmp le `{!Direction cmp le} : BestOrder (better_score cmp) key_ok.
Proof.
  split.
  - intros a Ha. pose proof Ha as [H1 H2]. apply (not_better_score cmp le); [done..|].
    split; [by apply (dir_refl (cmp := cmp))|by intros; apply nleb_refl].
  - intros a b c Ha Hb Hc. rewrite !(not_better_score cmp le) by done. intros [H1 H2] [H3 H4]. split.
    + by apply (dir_trans (cmp := cmp)) with (fst b).
    + intros H5. apply nleb_trans with (snd b); [apply H4|apply H2].
      * by apply (dir_trans (cmp := cmp)) with (fst a).
      * by apply (dir_trans (cmp := cmp)) with (fst c).
  - intros a b Ha Hb. unfold better_score at 1. intros H. apply (not_better_score cmp le); [done..|].
    pose proof Ha as [Ha1 Ha2]. pose proof Hb as [Hb1 Hb2].
    destruct (le (fst a) (fst b)) eqn:E.
    + split; [done|]. intros Hba. apply orb_true_iff in H as [H|H].
      * exfalso. assert (cmp (fst a) (fst b) = false) by (by apply (dir_false (cmp := cmp))). congruence.
      * apply andb_true_iff in H as [_ H]. by apply nltb_nleb.
    + exfalso. apply orb_true_iff in H as [H|H].
      * apply (dir_lt (cmp := cmp)) in H. congruence.
      * apply andb_true_iff in H as [H _]. apply (dir_eq (cmp := cmp)) in H as [? _]. congruence.
Qed.

(** ** Properties *)

(** The scoring of an algorithm that picks the engine with the best score: the
    direction, the score every engine has to beat, and the key. *)
Definition scoring (pow15 : Z → res num) (a : algorithm) (request : GenerationRequest)
    : option ((num → num → bool) * num * res (ServingEngine → res (num * num))) :=
  match a with
  | OracleScheduler => Some (smaller, flt_inf, Ok (oracle_key pow15 request))
  | RooflineScheduler =>
      Some (larger, NI (-1), ai ← request_intensity request;
                             Ok (fun e => '(s, _) ← roofline_score ai e; Ok (s, load_of e)))
  | InputOutputAdaptiveScheduler_Roofline =>
      Some (larger, NI (-1), '(pi, di, pw, dw) ← adaptive_phases request; Ok (adaptive_key pi di pw dw))
  | InputOutputAdaptiveScheduler_Threshold it ot =>
      Some (larger, NI (-1), Ok (threshold_key (threshold_weight (input_length request) it)
                                   (threshold_weight (output_length request) ot)))
  | _ => None
  end.

Lemma scoring_direction pow15 a r cmp init key :
  scoring pow15 a r = Some (cmp, init, key) → num_ok init ∧ ∃ le, Direction cmp le.
Proof.
  destruct a; simpl; intros; simplify_eq; (split; [done|]); eexists; first [exact smaller_direction|exact larger_direction].
Qed.

Lemma bind_unfold {S A B} (m : M S A) (k : A → M S B) s :
  (m ≫= k) s = match m s with (s1, Ok a) => k a s1 | (s1, Raise e) => (s1, Raise e) end.
Proof. reflexivity. Qed.

Ltac run_binds :=
  repeat (rewrite bind_unfold; cbn [gets lift modify fst snd sched_alg sched_stats]); unfold mret, M_ret.

(** Run a method on a list of engines known to be empty or not. *)
Ltac run_place Hes :=
  unfold place_request, RandomScheduler_place_request, OracleScheduler_place_request,
    RoundRobinScheduler_place_request, FLOPsScheduler_place_request, BandwidthScheduler_place_request,
    RooflineScheduler_place_request, InputOutputAdaptiveScheduler_Roofline_place_request,
    InputOutputAdaptiveScheduler_Threshold_place_request, HeterogeneousRiskAwareScheduler_place_request,
    engines_given, set_current_index, self_update_statistics, on_engines;
  run_binds; rewrite ?Hes; run_binds.

Lemma roofline_bound_total ai es b :
  (∀ e, e ∈ es → ∃ k, ('(s, _) ← roofline_score ai e; Ok (s, load_of e)) = Ok k) →
  ∃ b', foldR (fun _ e => '(_, b) ← roofline_score ai e; Ok b) b es = Ok b'.
Proof.
  revert b. induction es as [|e es IH]; intros b He; [by eexists|].
  destruct (He e ltac:(left)) as [k Hk]. simpl. unfold mbind, res_bind in *.
  destruct (roofline_score ai e) as [[s bt]|]; [|done]. apply IH. intros e' Hin. apply He. by right.
Qed.

(** C10.  The score-based schedulers (oracle, roofline and the two adaptive ones) place
    a request, and on an engine no other engine beats: when every available
    engine has a score better than the start value (neither raising nor NaN),
    the chosen engine's score is the best one, and among equal scores its load
    is the least. *)
Theorem placement_is_best pow15 choice r s es cmp init key :
  scoring pow15 (sched_alg s) r = Some (cmp, init, Ok key) → es ≠ [] →
  (∀ e, e ∈ es → ∃ k, key e = Ok k ∧ key_ok k ∧ cmp (fst k) init = true) →
  ∃ s' d i e k, place_request pow15 choice r (s, es) = ((s', es), Ok (Some d)) ∧
    target_engine d = Some i ∧ es !! i = Some e ∧ key e = Ok k ∧
    ∀ e' k', e' ∈ es → key e' = Ok k' → better_score cmp k' k = false.
Proof.
  intros Hs Hes Hk. destruct (scoring_direction _ _ _ _ _ _ Hs) as [Hinit [le Hdir]].
  destruct (best_from_total (better_score cmp) key 0 es (None, (init, flt_inf))) as [[b k] Hb].
  { intros e He. destruct (Hk e He) as (k & ? & _). by exists k. }
  destruct (best_from_best (better_score cmp) key_ok _ _ _ _ _ _ _ Hb) as (Hkok & Hinit' & Hbest & Hwhere).
  { done. } { intros e k' He Hk'. destruct (Hk e He) as (k2 & H2 & ? & _). rewrite H2 in Hk'. by injection Hk' as <-. }
  assert (∃ i e, es !! i = Some e ∧ b = Some i ∧ key e = Ok k) as (i & e & Hi & -> & Hke).
  { destruct Hwhere as [[-> ->]|(j & e & ? & ? & ?)]; [|by exists j, e].
    exfalso. destruct es as [|e es]; [done|]. destruct (Hk e ltac:(left)) as (k1 & Hk1 & Hok & Hlt).
    specialize (Hbest e k1 ltac:(left) Hk1). apply (not_better_score cmp le) in Hbest as [Hle _]; [|done..].
    apply (dir_false (cmp := cmp)) in Hle; [|apply Hok|done]. simpl in Hle. congruence. }
  assert (Hnil : is_nil es = false) by (by destruct es).
  destruct s as [a st]. simpl in *.
  destruct a; simpl in Hs; simplify_eq; run_place Hnil.
  - rewrite Hb. destruct k. simpl. eexists _, _, i, e, _. split_and!; try done.
  - match goal with H : _ = Ok key |- _ => rename H into Hkey end.
    destruct (request_intensity r) as [ai|]; [|done]. injection Hkey as <-. simpl. rewrite Hb. simpl.
    destruct (roofline_bound_total ai es MemoryBound) as [bt Hbt].
    { intros e' He'. destruct (Hk e' He') as (k' & ? & _). by exists k'. }
    rewrite Hbt. simpl. eexists _, _, i, e, _. split_and!; try done.
  - match goal with H : _ = Ok key |- _ => rename H into Hkey end.
    destruct (adaptive_phases r) as [[[[pi di] pw] dw]|]; [|done]. injection Hkey as <-. simpl. rewrite Hb. simpl.
    eexists _, _, i, e, _. split_and!; try done.
  - rewrite Hb. simpl. eexists _, _, i, e, _. split_and!; try done.
Qed.

(** Idle engines on two kinds of hardware. *)
Definition idle_engine (id hw : string) (spec : HardwareSpec) : ServingEngine :=
  mkEngine (mkEngineConfig id "m" llama2_7b (Some llama) hw spec PNone 8 (mkAnalyzer hw llama2_7b (Some llama)))
    empty_queues
    (mkEngineMemory (mkPlanner llama2_7b (Some llama) ParallelConfig_default spec (flit 9 10) 16 16 16 16
       (Some 1) (Some (NF (flit 8388608 1))) 0 [] 100) false (NF fzero) (NF fzero) (NF fzero))
    empty_stats fzero fzero [].

Definition h100 : HardwareSpec := mkHw (flit (3072 * giga) 1) (flit (9895 * 10 ^ 11) 1) (flit (1979 * tera) 1)
  (flit 33792000 1) (flit (80 * giga) 1) (flit 156 100).

Definition demo_engines : list ServingEngine :=
  [idle_engine "node_0" "NVDA:A100" a100; idle_engine "node_1" "NVDA:H100:SXM" h100].

Definition no_pow (_ : Z) : res num := Raise OverflowError.
Definition first_choice (_ : Z) (_ : nat) : nat := 0%nat.
Definition demo_sched (a : algorithm) : Scheduler := mkScheduler a init_stats.

Lemma placement_is_best_witness :
  ∃ s' d i e k,
    place_request no_pow first_choice (demo_request "a" 100)
      (demo_sched (InputOutputAdaptiveScheduler_Threshold (NI 1024) (NI 512)), demo_engines) = ((s', demo_engines), Ok (Some d)) ∧
    target_engine d = Some i ∧ demo_engines !! i = Some e ∧
    threshold_key (threshold_weight 100 (NI 1024)) (threshold_weight 8 (NI 512)) e = Ok k ∧
    ∀ e' k', e' ∈ demo_engines → threshold_key (threshold_weight 100 (NI 1024)) (threshold_weight 8 (NI 512)) e' = Ok k' →
      better_score larger k' k = false.
Proof.
  apply (placement_is_best no_pow first_choice (demo_request "a" 100)
    (demo_sched (InputOutputAdaptiveScheduler_Threshold (NI 1024) (NI 512))) demo_engines larger (NI (-1))); [done..|].
  intros e He. unfold demo_engines in He. apply elem_of_cons in He as [->|He];
    [|apply list_elem_of_singleton in He as ->]; eexists; (split; [vm_compute; reflexivity|]);
    (split; [split; vm_compute; reflexivity|vm_compute; reflexivity]).
Defined.

(** *** The schedulers that take a maximum *)

Definition tuple_ok (k : pyfloat * Z) : Prop := is_nan (fst k) = false.

Lemma not_larger_tuple a b : tuple_ok a → tuple_ok b →
  larger_tuple a b = false ↔ fle (fst a) (fst b) ∧ (fle (fst b) (fst a) → snd a ≤ snd b).
Proof.
  intros Ha Hb. unfold larger_tuple. destruct (feqb (fst a) (fst b)) eqn:E.
  - destruct (feqb_fle _ _ E) as [H1 H2]. rewrite Z.ltb_ge. tauto.
  - rewrite fltb_not_fleb by done. rewrite negb_false_iff. split; [intros H|by intros [H _]]. split; [done|].
    intros H'. by rewrite (fle_feqb _ _ H H') in E.
Qed.

#[export] Instance tuple_order : BestOrder larger_tuple tuple_ok.
Proof.
  split.
  - intros a Ha. apply not_larger_tuple; [done..|]. split; [by apply fle_refl|lia].
  - intros a b c Ha Hb Hc. rewrite !not_larger_tuple by done. intros [H1 H2] [H3 H4]. split; [by apply fle_trans with (fst b)|].
    intros H5. transitivity (snd b); [apply H2|apply H4].
    + by apply fle_trans with (fst c).
    + by apply fle_trans with (fst a).
  - intros a b Ha Hb H. apply not_larger_tuple; [done..|]. unfold larger_tuple in H. destruct (feqb (fst a) (fst b)) eqn:E.
    + destruct (feqb_fle _ _ E) as [H1 H2]. split; [done|]. apply Z.ltb_lt in H. lia.
    + split; [by apply flt_le|]. intros H'. exfalso. apply flt_le in H. by rewrite (fle_feqb _ _ H' H) in E.
Qed.

Lemma py_max_best (key : ServingEngine → pyfloat * Z) es :
  es ≠ [] → (∀ e, e ∈ es → tuple_ok (key e)) →
  ∃ i e, py_max key larger_tuple es = Some i ∧ es !! i = Some e ∧
    ∀ e', e' ∈ es → fle (fst (key e')) (fst (key e)) ∧ (fle (fst (key e)) (fst (key e')) → snd (key e') ≤ snd (key e)).
Proof.
  destruct es as [|e0 es]; [done|]. intros _ Hok. unfold py_max.
  destruct (best_from_total larger_tuple (fun e => Ok (key e)) 1 es (Some 0%nat, key e0)) as [[b k] Hb]; [by eexists|].
  rewrite Hb. destruct (best_from_best larger_tuple tuple_ok _ _ _ _ _ _ _ Hb) as (Hk & H0 & Hbest & Hw).
  { apply Hok. left. } { intros e k' He [= <-]. apply Hok. by right. }
  assert (∃ i e, b = Some i ∧ (e0 :: es) !! i = Some e ∧ key e = k) as (i & e & -> & Hi & <-).
  { destruct Hw as [[-> ->]|(j & e & Hj & -> & [= <-])]; [by exists 0%nat, e0|by exists (S j), e]. }
  exists i, e. split_and!; [done..|]. intros e' He'. apply not_larger_tuple; [by apply Hok|done|].
  apply elem_of_cons in He' as [->|He']; [done|by apply (Hbest e')].
Qed.

(** C21.  The FLOPs and bandwidth schedulers always place a request when an
    engine is available, on an engine of the highest compute throughput
    (memory bandwidth), and among those on one of the least load. *)
Theorem max_placement_is_best pow15 choice r st es a (measure : ServingEngine → pyfloat) :
  (a = FLOPsScheduler ∧ measure = (fun e => compute_throughput (e_cfg e)) ∨
   a = BandwidthScheduler ∧ measure = (fun e => memory_bandwidth (e_cfg e))) →
  es ≠ [] → (∀ e, e ∈ es → is_nan (measure e) = false) →
  ∃ s' d i e, place_request pow15 choice r (mkScheduler a st, es) = ((s', es), Ok (Some d)) ∧
    target_engine d = Some i ∧ es !! i = Some e ∧
    ∀ e', e' ∈ es → fle (measure e') (measure e) ∧
      (fle (measure e) (measure e') → get_current_load e ≤ get_current_load e').
Proof.
  intros Ha Hes Hok. assert (Hnil : is_nil es = false) by (by destruct es).
  destruct (py_max_best (fun e => (measure e, - get_current_load e)) es Hes Hok) as (i & e & Hm & Hi & Hb).
  destruct Ha as [[-> ->]|[-> ->]]; run_place Hnil; eexists _, _, i, e; (split_and!; [reflexivity|exact Hm|done|]);
    intros e' He'; destruct (Hb e' He') as [H1 H2]; (split; [done|]); intros H; specialize (H2 H); simpl in H2; lia.
Qed.

Lemma max_placement_is_best_witness :
  ∃ s' d i e, place_request no_pow first_choice (demo_request "a" 100) (demo_sched FLOPsScheduler, demo_engines)
                = ((s', demo_engines), Ok (Some d)) ∧
    target_engine d = Some i ∧ demo_engines !! i = Some e ∧
    ∀ e', e' ∈ demo_engines → fle (compute_throughput (e_cfg e')) (compute_throughput (e_cfg e)) ∧
      (fle (compute_throughput (e_cfg e)) (compute_throughput (e_cfg e')) → get_current_load e ≤ get_current_load e').
Proof.
  apply (max_placement_is_best no_pow first_choice (demo_request "a" 100) init_stats demo_engines FLOPsScheduler
    (fun e => compute_throughput (e_cfg e))); [by left|done|].
  intros e He. unfold demo_engines in He. apply elem_of_cons in He as [->|He];
    [|apply list_elem_of_singleton in He as ->]; vm_compute; reflexivity.
Defined.

(** *** Round robin *)

(** Placements one after the other on the same engines. *)
Fixpoint place_all (pow15 : Z → res num) (choice : Z → nat → nat) (rs : list GenerationRequest)
    (st : Scheduler * list ServingEngine) : (Scheduler * list ServingEngine) * list (res (option PlacementDecision)) :=
  match rs with
  | [] => (st, [])
  | r :: rs => let '(st1, o) := place_request pow15 choice r st in
               let '(st2, os) := place_all pow15 choice rs st1 in (st2, o :: os)
  end.

Definition target_of (o : res (option PlacementDecision)) : option nat :=
  match o with Ok (Some d) => target_engine d | _ => None end.

Lemma round_robin_targets pow15 choice rs i st es :
  es ≠ [] →
  map target_of (snd (place_all pow15 choice rs (mkScheduler (RoundRobinScheduler i) st, es))) =
  map (fun j => Some (Z.to_nat ((i + Z.of_nat j) mod Z.of_nat (length es)))) (seq 0 (length rs)).
Proof.
  intros Hes. revert i st. induction rs as [|r rs IH]; intros i st; [done|].
  cbn [place_all]. assert (Hnil : is_nil es = false) by (by destruct es).
  assert (place_request pow15 choice r (mkScheduler (RoundRobinScheduler i) st, es) =
    let d := Some (mkDecision (Some (Z.to_nat (i mod Z.of_nat (length es)))) "round_robin" (flit 2 10) None) in
    ((mkScheduler (RoundRobinScheduler (i + 1)) (update_statistics d st), es), Ok d)) as -> by (by run_place Hnil).
  cbv beta iota zeta.
  specialize (IH (i + 1) (update_statistics (Some (mkDecision (Some (Z.to_nat (i mod Z.of_nat (length es)))) "round_robin" (flit 2 10) None)) st)).
  destruct (place_all _ _ rs _) as [st2 os] eqn:E. cbn [snd map] in IH |- *. rewrite IH. simpl. f_equal.
  - by rewrite Z.add_0_r.
  - rewrite <- seq_shift, map_map. apply map_ext. intros j. do 3 f_equal. lia.
Qed.

(** C22.  Round robin is fair: any [n] placements in a row on the same [n]
    engines go to each engine exactly once, wherever the counter stands. *)
Theorem round_robin_fair pow15 choice rs i st es :
  es ≠ [] → length rs = length es →
  map target_of (snd (place_all pow15 choice rs (mkScheduler (RoundRobinScheduler i) st, es)))
    ≡ₚ map Some (seq 0 (length es)).
Proof.
  intros Hes Hlen. rewrite round_robin_targets by done. rewrite Hlen. set (n := length es).
  assert (Hn : 0 < Z.of_nat n) by (destruct es; [done|simpl in *; lia]).
  rewrite <- (map_map (fun j => Z.to_nat ((i + Z.of_nat j) mod Z.of_nat n)) Some).
  assert (map (fun j => Z.to_nat ((i + Z.of_nat j) mod Z.of_nat n)) (seq 0 n) ≡ₚ seq 0 n) as ->; [|done].
  assert (Hd : NoDup (map (fun j => Z.to_nat ((i + Z.of_nat j) mod Z.of_nat n)) (seq 0 n))).
  { apply NoDup_fmap_2_strong; [|apply NoDup_seq]. intros x y Hx Hy Heq. apply elem_of_seq in Hx, Hy.
    pose proof (Z.mod_pos_bound (i + Z.of_nat x) _ Hn). pose proof (Z.mod_pos_bound (i + Z.of_nat y) _ Hn).
    assert (E : (i + Z.of_nat x) mod Z.of_nat n = (i + Z.of_nat y) mod Z.of_nat n) by lia.
    pose proof (Z.div_mod (i + Z.of_nat x) (Z.of_nat n) ltac:(lia)). pose proof (Z.div_mod (i + Z.of_nat y) (Z.of_nat n) ltac:(lia)).
    set (q1 := (i + Z.of_nat x) / Z.of_nat n) in *. set (q2 := (i + Z.of_nat y) / Z.of_nat n) in *.
    assert (Hq : Z.of_nat x - Z.of_nat y = Z.of_nat n * (q1 - q2)) by (rewrite Z.mul_sub_distr_l; lia).
    assert (q1 - q2 = 0) by nia. lia. }
  apply submseteq_length_Permutation; [|by rewrite length_map, length_seq].
  apply NoDup_submseteq; [done|]. intros x Hx. apply list_elem_of_fmap in Hx as (j & -> & Hj).
  apply elem_of_seq. pose proof (Z.mod_pos_bound (i + Z.of_nat j) _ Hn). lia.
Qed.

Lemma round_robin_fair_witness :
  map target_of (snd (place_all no_pow first_choice [demo_request "a" 1; demo_request "b" 1]
    (mkScheduler (RoundRobinScheduler 5) init_stats, demo_engines))) ≡ₚ [Some 0%nat; Some 1%nat].
Proof. apply (round_robin_fair no_pow first_choice [demo_request "a" 1; demo_request "b" 1] 5 init_stats demo_engines); done. Defined.

(** *** Statistics *)

Definition sched_inv (st : SchedStats) : Prop := total_decisions st = rejections st + dict_sum (placement_reasons st).

(** What a method that counts its decision once does to the statistics. *)
Definition accounts (m : M (Scheduler * list ServingEngine) (option PlacementDecision)) : Prop :=
  ∀ s es, match m (s, es) with
          | ((s', _), Ok d) => sched_stats s' = update_statistics d (sched_stats s)
          | ((s', _), Raise _) => sched_stats s' = sched_stats s
          end.

Lemma accounts_update d : accounts (self_update_statistics d ;; mret d).
Proof. by intros s es. Qed.

Lemma accounts_bind {A} (m : M (Scheduler * list ServingEngine) A) k :
  keeps (fun st => sched_stats (fst st)) m → (∀ a, accounts (k a)) → accounts (m ≫= k).
Proof.
  intros Hm Hk s es. unfold mbind, M_bind. specialize (Hm (s, es)).
  destruct (m (s, es)) as [[s1 es1] [a|ex]]; simpl in *; [|done].
  specialize (Hk a s1 es1). destruct (k a (s1, es1)) as [[s2 es2] [d|ex]]; by rewrite Hk, Hm.
Qed.

Lemma on_engines_stats {A} (m : M (list ServingEngine) A) : keeps (fun st => sched_stats (fst st)) (on_engines m).
Proof. intros [s es]. unfold on_engines. by destruct (m es). Qed.

Lemma place_request_accounts pow15 choice r : accounts (place_request pow15 choice r).
Proof.
  assert (Hidx : ∀ i, keeps (fun st => sched_stats (fst st)) (set_current_index i)) by (by intros i [s es]).
  unfold place_request. apply accounts_bind; [apply keeps_gets|intros a]. destruct a;
    unfold RandomScheduler_place_request, RoundRobinScheduler_place_request, OracleScheduler_place_request,
      FLOPsScheduler_place_request, BandwidthScheduler_place_request, RooflineScheduler_place_request,
      InputOutputAdaptiveScheduler_Roofline_place_request, InputOutputAdaptiveScheduler_Threshold_place_request,
      HeterogeneousRiskAwareScheduler_place_request;
    repeat (cbv zeta; intros; first [apply accounts_update
      | apply accounts_bind; [first [apply keeps_gets | apply keeps_lift | apply Hidx | apply on_engines_stats]|]
      | case_match]).
Qed.

(** The statistics account for every decision: whatever the class of the
    scheduler, a placement that returns counts one decision, as a rejection when
    there is none and under its reason otherwise; one that raises counts nothing;
    so the decisions are always the rejections plus the placements by reason. *)
Theorem placement_statistics pow15 choice r s es s' es' o :
  sched_inv (sched_stats s) → place_request pow15 choice r (s, es) = ((s', es'), o) →
  sched_inv (sched_stats s') ∧
  match o with
  | Ok None => total_decisions (sched_stats s') = total_decisions (sched_stats s) + 1 ∧
               rejections (sched_stats s') = rejections (sched_stats s) + 1
  | Ok (Some d) => total_decisions (sched_stats s') = total_decisions (sched_stats s) + 1 ∧
               rejections (sched_stats s') = rejections (sched_stats s) ∧
               dict_get_default (placement_reasons (sched_stats s')) (reason d) 0 =
                 dict_get_default (placement_reasons (sched_stats s)) (reason d) 0 + 1
  | Raise _ => sched_stats s' = sched_stats s
  end.
Proof.
  intros Hi H. pose proof (place_request_accounts pow15 choice r s es) as Ha. rewrite H in Ha.
  destruct o as [[d|]|ex]; rewrite Ha; unfold sched_inv in *; simpl; split_and!; try (done || lia).
  - rewrite dict_sum_incr. lia.
  - unfold dict_incr, dict_get_default at 1. by rewrite dict_get_set_eq.
Qed.

(** *** The risk-aware scheduler *)

(** C37.  The risk-aware scheduler never places a request: it needs a method
    [_estimate_kv_cache_memory] that [ServingEngine] does not have, so every
    call raises or answers that no engine is suitable. *)
Theorem risk_aware_never_places pow15 choice r th buf st es s' es' o :
  place_request pow15 choice r (mkScheduler (HeterogeneousRiskAwareScheduler th buf) st, es) = ((s', es'), o) →
  o = Ok None ∨ ∃ ex, o = Raise ex.
Proof.
  assert (Hbest : ∀ todo es es1 b, risk_best todo (None, flt_inf) es = (es1, Ok b) → fst b = None).
  { induction todo as [|i todo IH]; intros es0 es1 b H; simpl in H; [by simplify_eq|].
    destruct (es0 !! i) as [e|]; [|done]. destruct (memory_info_of e) as [e' ri].
    unfold pressure, estimate_kv_cache_memory, mbind, res_bind in H. destruct ri as [info|]; [|done].
    destruct (nsub _ _); [|done]. destruct (nleb _ _); [|done]. by apply IH in H. }
  destruct (is_nil es) eqn:Hnil; run_place Hnil; [intros; simplify_eq; by left|].
  destruct (risk_candidates buf 0 es es) as [es1 [cands|ex]]; [|intros; simplify_eq; eauto].
  destruct (is_nil cands); run_binds; [intros; simplify_eq; by left|].
  match goal with |- context [risk_best ?f ?b ?e] => destruct (risk_best f b e) as [es2 [[b0 k]|ex]] eqn:E end;
    [|intros; simplify_eq; eauto].
  apply Hbest in E. simpl in E. subst b0. run_binds. intros; simplify_eq. by left.
Qed.

Lemma risk_aware_never_places_witness :
  ∃ s' es', place_request no_pow first_choice (demo_request "a" 1)
    (demo_sched (HeterogeneousRiskAwareScheduler (NI 2048) (NF (flit 1 2))), demo_engines)
      = ((s', es'), Raise (AttributeError "_estimate_kv_cache_memory")) ∧
    (@Raise (option PlacementDecision) (AttributeError "_estimate_kv_cache_memory") = Ok None ∨
     ∃ ex, @Raise (option PlacementDecision) (AttributeError "_estimate_kv_cache_memory") = Raise ex).
Proof.
  destruct (place_request no_pow first_choice (demo_request "a" 1)
    (demo_sched (HeterogeneousRiskAwareScheduler (NI 2048) (NF (flit 1 2))), demo_engines)) as [[s' es'] o] eqn:E.
  assert (o = Raise (AttributeError "_estimate_kv_cache_memory")) as ->.
  { change o with (snd ((s', es'), o)). rewrite <- E. vm_compute. reflexivity. }
  exists s', es'. split; [reflexivity|].
  exact (risk_aware_never_places no_pow first_choice (demo_request "a" 1) (NI 2048) (NF (flit 1 2)) init_stats
    demo_engines s' es' _ E).
Defined.

(** The reason the roofline scheduler reports is the bound of the engine that
    comes last in the list, whichever engine it chooses. *)
Theorem roofline_reason_of_last pow15 choice r st es e ai score b s' es' d :
  request_intensity r = Ok ai → roofline_score ai e = Ok (score, b) →
  place_request pow15 choice r (mkScheduler RooflineScheduler st, es ++ [e]) = ((s', es'), Ok (Some d)) →
  reason d = "roofline_" +:+ bound_name b +:+ "_bound".
Proof.
  intros Hai Hb. assert (Hnil : is_nil (es ++ [e]) = false) by (by destruct es). run_place Hnil. rewrite Hai.
  destruct (best_from _ _ _ _ _) as [[best k]|ex]; run_binds; [|done].
  destruct (foldR _ MemoryBound (es ++ [e])) as [b'|ex] eqn:E; run_binds; [|done]. intros H. simplify_eq. simpl.
  enough (b' = b) as -> by done. revert E. generalize MemoryBound.
  induction es as [|e0 es IH]; intros b0; simpl; unfold mbind, res_bind.
  - rewrite Hb. by intros [= ->].
  - destruct (roofline_score ai e0) as [[? ?]|]; [|done]. apply IH. by destruct es.
Qed.

(** So it can differ from the bound of the chosen engine: here the request is
    compute bound on the chosen A100, and the reason says memory bound. *)
Lemma roofline_reason_of_last_witness :
  let weak := idle_engine "node_1" "weak" (mkHw (flit (100 * giga) 1) (flit (300 * tera) 1) (flit (300 * tera) 1)
                (flit 1 1) (flit (24 * giga) 1) (flit 1 1)) in
  let a100_engine := idle_engine "node_0" "NVDA:A100" a100 in
  let r := GenerationRequest_init "a" "m" 2000 1 fzero in
  ∃ s' es' d, place_request no_pow first_choice r (demo_sched RooflineScheduler, [a100_engine] ++ [weak]) =
      ((s', es'), Ok (Some d)) ∧
    target_engine d = Some 0%nat ∧ reason d = "roofline_memory_bound" ∧
    (ai ← request_intensity r; '(_, b) ← roofline_score ai a100_engine; Ok b) = Ok ComputeBound.
Proof.
  intros weak a100_engine r.
  destruct (place_request no_pow first_choice r (demo_sched RooflineScheduler, [a100_engine] ++ [weak]))
    as [[s' es'] o] eqn:E.
  assert (Ho : match o with Ok (Some d) => target_engine d = Some 0%nat | _ => False end).
  { change o with (snd ((s', es'), o)). rewrite <- E. vm_compute. reflexivity. }
  destruct o as [[d|]|]; [|contradiction..]. exists s', es', d.
  split; [reflexivity|]. split; [exact Ho|]. split; [|vm_compute; reflexivity].
  pose (ai := match request_intensity r with Ok x => x | _ => NI 0 end).
  assert (Hai : request_intensity r = Ok ai) by (vm_compute; reflexivity).
  assert (Hb : roofline_score ai weak = Ok (bandwidth_of weak, MemoryBound)) by (vm_compute; reflexivity).
  exact (roofline_reason_of_last no_pow first_choice r init_stats [a100_engine] weak ai _ MemoryBound s' es' d Hai Hb E).
Defined.
