(* ===== verification/ClusterManager.v ===== *)
(** * The cluster manager

    Models [simulator/core/cluster_manager.py]: the nodes, the requests in
    flight, the handlers of the event loop, failures, metrics and the
    simulation driver.

    Handlers are methods of the manager that are registered with the event
    loop; they act on the loop and the manager together.  Request objects live
    in the manager's store, which it shares with the engines.  Parameters:
    [AutoConfig.from_pretrained], MD5, NumPy's generator and mean, the rounding
    of [sum] on floats, [random.choice], [x ** 1.5] and the order of sets. *)

From Stdlib Require Import QArith.
From S2P Require Import Prelude PyFloat PyStr Events Request Config Analyzer Memory Trace Engine Scheduler.

#[local] Open Scope string_scope.
#[local] Open Scope list_scope.
#[local] Open Scope Z_scope.

Record NodeConfiguration := mkNode {
  nc_node_id : string;
  nc_model_id : string;
  nc_hardware : string;
  nc_max_batch_size : Z;
  nc_parallel_config : parallel_arg;
}.

Record ClusterConfiguration := mkCluster {
  cc_cluster_id : string;
  cc_nodes : list NodeConfiguration;
  cc_scheduler_algorithm : string;
  cc_scheduler_config : option (dict num);
}.

Record Metrics := mkMetrics {
  m_total_requests : Z;
  m_completed_requests : Z;
  m_rejected_requests : Z;
  m_cluster_utilization : num;
  m_average_latency : num;
  m_throughput : num;
  m_scheduler_decisions : dict Z;
  m_node_failures : Z;
  m_node_recoveries : Z;
}.

Record ClusterManager := mkManager {
  cm_config : ClusterConfiguration;
  serving_engines : dict ServingEngine;
  online_nodes : list string;
  offline_nodes : list string;
  cm_scheduler : Scheduler;
  cm_active_requests : dict ref;
  cm_completed_requests : list ref;
  request_counter : Z;
  metrics : Metrics;
  start_time : pyfloat;
  cm_current_time : pyfloat;
  last_metrics_update : pyfloat;
  cm_trace_events : list TraceEvent;
  cm_store : store;
  cm_next_ref : ref;
}.

(** ** Updates *)

Definition set_engines (es : dict ServingEngine) (c : ClusterManager) : ClusterManager :=
  mkManager (cm_config c) es (online_nodes c) (offline_nodes c) (cm_scheduler c) (cm_active_requests c)
    (cm_completed_requests c) (request_counter c) (metrics c) (start_time c) (cm_current_time c)
    (last_metrics_update c) (cm_trace_events c) (cm_store c) (cm_next_ref c).
Definition set_nodes (online offline : list string) (c : ClusterManager) : ClusterManager :=
  mkManager (cm_config c) (serving_engines c) online offline (cm_scheduler c) (cm_active_requests c)
    (cm_completed_requests c) (request_counter c) (metrics c) (start_time c) (cm_current_time c)
    (last_metrics_update c) (cm_trace_events c) (cm_store c) (cm_next_ref c).
Definition set_scheduler (s : Scheduler) (c : ClusterManager) : ClusterManager :=
  mkManager (cm_config c) (serving_engines c) (online_nodes c) (offline_nodes c) s (cm_active_requests c)
    (cm_completed_requests c) (request_counter c) (metrics c) (start_time c) (cm_current_time c)
    (last_metrics_update c) (cm_trace_events c) (cm_store c) (cm_next_ref c).
Definition set_active (a : dict ref) (c : ClusterManager) : ClusterManager :=
  mkManager (cm_config c) (serving_engines c) (online_nodes c) (offline_nodes c) (cm_scheduler c) a
    (cm_completed_requests c) (request_counter c) (metrics c) (start_time c) (cm_current_time c)
    (last_metrics_update c) (cm_trace_events c) (cm_store c) (cm_next_ref c).
Definition set_completed (l : list ref) (c : ClusterManager) : ClusterManager :=
  mkManager (cm_config c) (serving_engines c) (online_nodes c) (offline_nodes c) (cm_scheduler c)
    (cm_active_requests c) l (request_counter c) (metrics c) (start_time c) (cm_current_time c)
    (last_metrics_update c) (cm_trace_events c) (cm_store c) (cm_next_ref c).
Definition set_counter (n : Z) (c : ClusterManager) : ClusterManager :=
  mkManager (cm_config c) (serving_engines c) (online_nodes c) (offline_nodes c) (cm_scheduler c)
    (cm_active_requests c) (cm_completed_requests c) n (metrics c) (start_time c) (cm_current_time c)
    (last_metrics_update c) (cm_trace_events c) (cm_store c) (cm_next_ref c).
Definition set_metrics (m : Metrics) (c : ClusterManager) : ClusterManager :=
  mkManager (cm_config c) (serving_engines c) (online_nodes c) (offline_nodes c) (cm_scheduler c)
    (cm_active_requests c) (cm_completed_requests c) (request_counter c) m (start_time c) (cm_current_time c)
    (last_metrics_update c) (cm_trace_events c) (cm_store c) (cm_next_ref c).
Definition set_cm_times (start current last : pyfloat) (c : ClusterManager) : ClusterManager :=
  mkManager (cm_config c) (serving_engines c) (online_nodes c) (offline_nodes c) (cm_scheduler c)
    (cm_active_requests c) (cm_completed_requests c) (request_counter c) (metrics c) start current
    last (cm_trace_events c) (cm_store c) (cm_next_ref c).
Definition add_cm_trace (t : TraceEvent) (c : ClusterManager) : ClusterManager :=
  mkManager (cm_config c) (serving_engines c) (online_nodes c) (offline_nodes c) (cm_scheduler c)
    (cm_active_requests c) (cm_completed_requests c) (request_counter c) (metrics c) (start_time c)
    (cm_current_time c) (last_metrics_update c) (cm_trace_events c ++ [t]) (cm_store c) (cm_next_ref c).
Definition set_store (st : store) (next : ref) (c : ClusterManager) : ClusterManager :=
  mkManager (cm_config c) (serving_engines c) (online_nodes c) (offline_nodes c) (cm_scheduler c)
    (cm_active_requests c) (cm_completed_requests c) (request_counter c) (metrics c) (start_time c)
    (cm_current_time c) (last_metrics_update c) (cm_trace_events c) st next.

Definition init_metrics : Metrics := mkMetrics 0 0 0 (NF fzero) (NF fzero) (NF fzero) [] 0 0.

Definition incr_total (m : Metrics) : Metrics :=
  mkMetrics (m_total_requests m + 1) (m_completed_requests m) (m_rejected_requests m) (m_cluster_utilization m)
    (m_average_latency m) (m_throughput m) (m_scheduler_decisions m) (m_node_failures m) (m_node_recoveries m).
Definition incr_completed (m : Metrics) : Metrics :=
  mkMetrics (m_total_requests m) (m_completed_requests m + 1) (m_rejected_requests m) (m_cluster_utilization m)
    (m_average_latency m) (m_throughput m) (m_scheduler_decisions m) (m_node_failures m) (m_node_recoveries m).
Definition incr_rejected (m : Metrics) : Metrics :=
  mkMetrics (m_total_requests m) (m_completed_requests m) (m_rejected_requests m + 1) (m_cluster_utilization m)
    (m_average_latency m) (m_throughput m) (m_scheduler_decisions m) (m_node_failures m) (m_node_recoveries m).
Definition set_decisions (d : dict Z) (m : Metrics) : Metrics :=
  mkMetrics (m_total_requests m) (m_completed_requests m) (m_rejected_requests m) (m_cluster_utilization m)
    (m_average_latency m) (m_throughput m) d (m_node_failures m) (m_node_recoveries m).
Definition incr_failures (m : Metrics) : Metrics :=
  mkMetrics (m_total_requests m) (m_completed_requests m) (m_rejected_requests m) (m_cluster_utilization m)
    (m_average_latency m) (m_throughput m) (m_scheduler_decisions m) (m_node_failures m + 1) (m_node_recoveries m).
Definition incr_recoveries (m : Metrics) : Metrics :=
  mkMetrics (m_total_requests m) (m_completed_requests m) (m_rejected_requests m) (m_cluster_utilization m)
    (m_average_latency m) (m_throughput m) (m_scheduler_decisions m) (m_node_failures m) (m_node_recoveries m + 1).
Definition set_gauges (util lat thr : num) (m : Metrics) : Metrics :=
  mkMetrics (m_total_requests m) (m_completed_requests m) (m_rejected_requests m) util lat thr
    (m_scheduler_decisions m) (m_node_failures m) (m_node_recoveries m).

(** ** Construction *)

(** [_initialize_cluster]: an engine per node; a later node with the same id
    replaces the earlier engine. *)
Definition initialize_engines (pretrained : string → res attrs) (nodes : list NodeConfiguration)
    : res (dict ServingEngine * list string) :=
  foldR (fun '(es, online) node =>
    e ← ServingEngine_init pretrained (nc_node_id node) (nc_model_id node) None (nc_hardware node)
          (nc_parallel_config node) (nc_max_batch_size node);
    Ok (dict_set es (nc_node_id node) e, set_add (nc_node_id node) online)) ([], []) nodes.

Definition no_requests : store := fun _ => GenerationRequest_init "" "" 0 0 fzero.

(** What [__init__] has assigned when [_initialize_cluster] has created the
    engines [es] and put their nodes [online].  The theorems on runs of the
    simulation hold for any engines; those of [initialize_engines] are one
    choice. *)
Definition new_manager (config : ClusterConfiguration) (sched : Scheduler) (es : dict ServingEngine)
    (online : list string) : ClusterManager :=
  mkManager config es online [] sched [] [] 0 init_metrics fzero fzero fzero [] no_requests 0%nat.

Definition ClusterManager_init (pretrained : string → res attrs) (config : ClusterConfiguration) : res ClusterManager :=
  sched ← get_scheduler (cc_scheduler_algorithm config) (default [] (cc_scheduler_config config));
  '(es, online) ← initialize_engines pretrained (cc_nodes config);
  Ok (new_manager config sched es online).

(** ** Reading the data of an event *)

Definition str_field (d : dict pyval) (k : string) : res string :=
  v ← dict_index d k; match v with VStr s => Ok s | _ => Raise (TypeError k) end.
Definition int_field (d : dict pyval) (k : string) : res Z :=
  v ← dict_index d k; match v with VNum (NI z) => Ok z | _ => Raise (TypeError k) end.

(** ** Handlers *)

Definition Sys : Type := EventLoop * ClusterManager.
Abbreviation CM := (M Sys).

Definition retC {A} (a : A) : CM A := mret a.
Definition liftC {A} (r : res A) : CM A := lift r.
Definition see {A} (f : EventLoop → ClusterManager → A) : CM A := gets (fun '(l, c) => f l c).
Definition on_manager (f : ClusterManager → ClusterManager) : CM unit := modify (fun '(l, c) => (l, f c)).
Definition on_metrics (f : Metrics → Metrics) : CM unit := on_manager (fun c => set_metrics (f (metrics c)) c).
Definition schedule (ev : Event) : CM unit := fun '(l, c) =>
  let '(l', r) := schedule_event ev l in ((l', c), r).

(** [_handle_engine_event], the callback installed in the engines. *)
Definition _handle_engine_event (ev : Event) : M EventLoop unit := fun l =>
  schedule_event (mkEvent (current_time l) (event_type ev) (target ev) (data ev) (priority ev)) l.

(** A method of the engine of node [id]. *)
Definition on_engine_of {A} (id : string) (m : M (ES EventLoop) A) : CM A := fun '(l, c) =>
  match dict_get (serving_engines c) id with
  | None => ((l, c), Raise (KeyError id))
  | Some e =>
      let '(s, r) := m (mkES (cm_store c) e l) in
      ((es_out s, set_store (es_req s) (cm_next_ref c) (set_engines (dict_set (serving_engines c) id (es_eng s)) c)), r)
  end.

(** [decision.target_engine.engine_id] for the engine of node [id]. *)
Definition engine_id_of (id : string) : CM string := fun '(l, c) =>
  match dict_get (serving_engines c) id with
  | None => ((l, c), Raise (KeyError id))
  | Some e => ((l, c), Ok (engine_id (e_cfg e)))
  end.

Definition cluster_trace (name ph : string) (ts : Z) (color : string) (args : dict pyval) : TraceEvent :=
  mkTrace name "request_lifecycle" ph (PidStr "request_tracker") (PidStr "lifecycle") ts (Some args) None (Some color).

(** [del self.active_requests[id]] *)
Definition del_active (id : string) : CM unit := fun '(l, c) =>
  match dict_get (cm_active_requests c) id with
  | Some _ => ((l, set_active (dict_del (cm_active_requests c) id) c), Ok tt)
  | None => ((l, c), Raise (KeyError id))
  end.

Section Handlers.
Context (md5 : string → Z) (pow15 : Z → res num) (choice : Z → nat → nat) (iter : list ref → list ref).

Abbreviation color := (get_request_color md5).

Definition _handle_request_arrival (event : Event) : CM unit :=
  request_id ← liftC (str_field (data event) "request_id");
  model ← liftC (str_field (data event) "model");
  input_length ← liftC (int_field (data event) "input_length");
  output_length ← liftC (int_field (data event) "output_length");
  on_manager (fun c =>
    let r := cm_next_ref c in
    set_active (dict_set (cm_active_requests c) request_id r)
      (set_store (update (cm_store c) r (fun _ =>
         GenerationRequest_init request_id model input_length output_length (timestamp event))) (S r) c)) ;;
  on_metrics incr_total ;;
  ts ← liftC (microseconds (timestamp event));
  on_manager (add_cm_trace (cluster_trace "RequestArrival" "B" ts (color request_id)
    [("request_id", VStr request_id); ("model", VStr model); ("input_length", VInt input_length);
     ("output_length", VInt output_length)])) ;;
  schedule (mkEvent (timestamp event) PLACEMENT_DECISION "cluster_manager" [("request_id", VStr request_id)] MEDIUM).

Definition _reject_request (request_id : string) (reason : string) : CM unit :=
  del_active request_id ;;
  on_metrics incr_rejected ;;
  now ← see (fun l _ => current_time l);
  ts ← liftC (microseconds now);
  on_manager (add_cm_trace (cluster_trace "RequestRejected" "E" ts (color request_id) [("reason", VStr reason)])).

Definition _record_placement_decision (d : PlacementDecision) : CM unit :=
  on_metrics (fun m => set_decisions (dict_incr (m_scheduler_decisions m) (reason d) 1) m).

Definition _schedule_engine_step (engine_id : string) : CM unit :=
  now ← see (fun l _ => current_time l);
  schedule (mkEvent now BATCH_FORM engine_id [] HIGH).

(** The engines of the online nodes, with their node ids. *)
Definition available_engines (c : ClusterManager) : dict ServingEngine :=
  filter (fun '(id, _) => id ∈ online_nodes c) (serving_engines c).

(** [self.scheduler.place_request(request, available_engines)]: the decision
    with the node id it targets. *)
Definition ask_scheduler (r : ref) : CM (option (PlacementDecision * option string)) := fun '(l, c) =>
  let avail := available_engines c in
  let '((s', es'), o) := place_request pow15 choice (cm_store c r) (cm_scheduler c, dict_values avail) in
  let c' := set_scheduler s' (set_engines
              (fold_left (fun d '(id, e) => dict_set d id e) (zip (dict_keys avail) es') (serving_engines c)) c) in
  ((l, c'),
   match o with
   | Raise ex => Raise ex
   | Ok None => Ok None
   | Ok (Some d) => Ok (Some (d, target_engine d ≫= fun i => dict_keys avail !! i))
   end).

Definition _handle_placement_decision (event : Event) : CM unit :=
  request_id ← liftC (str_field (data event) "request_id");
  request ← see (fun _ c => dict_get (cm_active_requests c) request_id);
  match request with
  | None => retC tt
  | Some r =>
      decision ← ask_scheduler r;
      match decision with
      | None => _reject_request request_id "no_suitable_engine"
      | Some (_, None) => raise (AttributeError "add_request")
      | Some (d, Some node) =>
          success ← on_engine_of node (add_request (Some _handle_engine_event) r);
          if negb success then _reject_request request_id "engine_rejection"
          else
            _record_placement_decision d ;;
            now ← see (fun l _ => current_time l);
            ts ← liftC (microseconds now);
            target_id ← engine_id_of node;
            on_manager (add_cm_trace (cluster_trace "RequestScheduled" "I" ts (color request_id)
              [("request_id", VStr request_id); ("target_engine", VStr target_id);
               ("placement_reason", VStr (reason d)); ("estimated_latency", VNone)])) ;;
            _schedule_engine_step target_id
      end
  end.

Definition _handle_request_complete (event : Event) : CM unit :=
  request_id ← liftC (str_field (data event) "request_id");
  request ← see (fun _ c => dict_get (cm_active_requests c) request_id);
  match request with
  | None => retC tt
  | Some r =>
      on_manager (fun c => set_store (update (cm_store c) r (set_generation_finished_at (timestamp event))) (cm_next_ref c) c) ;;
      on_manager (fun c => set_completed (cm_completed_requests c ++ [r]) c) ;;
      del_active request_id ;;
      on_metrics incr_completed ;;
      ts ← liftC (microseconds (timestamp event));
      req ← see (fun _ c => cm_store c r);
      on_manager (add_cm_trace (cluster_trace "RequestComplete" "E" ts (color request_id)
        [("request_id", VStr request_id); ("total_time", VFloat (fsub (timestamp event) (arrive_at req)));
         ("tokens_generated", VInt (generated_tokens req))]))
  end.

(** [_rebalance_requests]; an empty node id counts as none. *)
Definition _rebalance_requests (failed_node_id : option string) : CM unit :=
  match failed_node_id with
  | Some id =>
      if bool_decide (id = "") then retC tt
      else
        engine ← see (fun _ c => dict_get (serving_engines c) id);
        match engine with
        | None => retC tt
        | Some e =>
            let queued_requests := request_queue (e_q e) in
            on_manager (fun c => set_engines (dict_set (serving_engines c) id
              (set_q (mkQueues [] (active_requests (e_q e)) (completed_requests (e_q e)) (prefill_queue (e_q e))
                        (decode_ready_requests (e_q e)) (current_decode_batch (e_q e)) (batch_counter (e_q e))
                        (current_prefill_request (e_q e))) e)) c) ;;
            st ← see (fun _ c => cm_store c);
            now ← see (fun l _ => current_time l);
            for_each (fun r => schedule (mkEvent now PLACEMENT_DECISION "cluster_manager"
                                 [("request_id", VStr (req_id (st r)))] MEDIUM)) queued_requests
        end
  | None => retC tt
  end.

Definition _handle_node_online (event : Event) : CM unit :=
  node_id ← liftC (str_field (data event) "node_id");
  off ← see (fun _ c => bool_decide (node_id ∈ offline_nodes c));
  if (off : bool) then
    on_manager (fun c => set_nodes (set_add node_id (online_nodes c)) (set_remove node_id (offline_nodes c)) c) ;;
    on_metrics incr_recoveries
  else retC tt.

Definition _handle_node_offline (event : Event) : CM unit :=
  node_id ← liftC (str_field (data event) "node_id");
  on ← see (fun _ c => bool_decide (node_id ∈ online_nodes c));
  if (on : bool) then
    on_manager (fun c => set_nodes (set_remove node_id (online_nodes c)) (set_add node_id (offline_nodes c)) c) ;;
    on_metrics incr_failures ;;
    _rebalance_requests (Some node_id)
  else retC tt.

Definition _handle_load_balance (event : Event) : CM unit := _rebalance_requests None.

(** The handlers that only mark a place for coordination. *)
Definition handle_nothing (event : Event) : CM unit := retC tt.

Definition schedule_engine_event (ev : Event) : CM unit :=
  now ← see (fun l _ => current_time l);
  schedule (if fltb (timestamp ev) now
            then mkEvent now (event_type ev) (target ev) (data ev) (priority ev) else ev).

Definition has_pending_work (e : ServingEngine) : bool :=
  negb (is_nil (prefill_queue (e_q e))) ||
  (match current_prefill_request (e_q e) with Some _ => true | None => false end) ||
  negb (is_nil (decode_ready_requests (e_q e))) ||
  (match current_decode_batch (e_q e) with Some b => negb (Batch_is_empty b) | None => false end).

Definition _handle_batch_form (event : Event) : CM unit :=
  let engine_id := target event in
  engine ← see (fun _ c => dict_get (serving_engines c) engine_id);
  match engine with
  | None => retC tt
  | Some _ =>
      now ← see (fun l _ => current_time l);
      engine_events ← on_engine_of engine_id (engine_step (Some _handle_engine_event) iter (Some now));
      for_each schedule_engine_event engine_events ;;
      engine ← see (fun _ c => dict_get (serving_engines c) engine_id);
      match engine with
      | None => retC tt
      | Some e =>
          if has_pending_work e then
            now ← see (fun l _ => current_time l);
            let t := fmax (e_cursor e) now in
            let next_step_time := if fleb t now then fadd now (flit 1 1000000) else t in
            schedule (mkEvent next_step_time BATCH_FORM engine_id [] HIGH)
          else retC tt
      end
  end.

(** [_register_event_handlers] *)
Definition cluster_handlers : handlers ClusterManager :=
  fold_left (fun hs '(t, h) => register_handler hs t h)
    [(REQUEST_ARRIVAL, _handle_request_arrival); (PLACEMENT_DECISION, _handle_placement_decision);
     (NODE_ONLINE, _handle_node_online); (NODE_OFFLINE, _handle_node_offline);
     (REQUEST_COMPLETE, _handle_request_complete); (LOAD_BALANCE, _handle_load_balance);
     (PREFILL_START, handle_nothing); (PREFILL_COMPLETE, handle_nothing); (DECODE_STEP, handle_nothing);
     (BATCH_FORM, _handle_batch_form); (MEMORY_CHECK, handle_nothing); (MODEL_LOAD, handle_nothing);
     (MODEL_UNLOAD, handle_nothing)] no_handlers.
End Handlers.

(** ** Metrics, workload and the simulation driver *)

Section Simulation.
Context (md5 : string → Z) (pow15 : Z → res num) (choice : Z → nat → nat) (iter : list ref → list ref).
(** [sum] on numbers, [np.mean] on numbers and on integers. *)
Context (py_sum : list num → res num) (np_mean : list num → res num) (np_mean_ints : list Z → res num).
(** [arrival_process.generate_arrivals(start, duration)] and [np.random.randint],
    the values drawn for the [k]-th request. *)
Context (generate_arrivals : pyfloat → pyfloat → res (list pyfloat)) (draw_lengths : Z → Z * Z).

Definition metrics_update_interval : pyfloat := fone.

(** [engine.get_memory_info()['used']] of every engine, in order. *)
Fixpoint used_memories (ids : list string) : CM (list num) :=
  match ids with
  | [] => retC []
  | id :: ids' => info ← on_engine_of id get_memory_info; rest ← used_memories ids'; retC (mi_used info :: rest)
  end.

Definition latencies (c : ClusterManager) : list num :=
  omap (fun r => t ← generation_finished_at (cm_store c r); Some (NF (fsub t (arrive_at (cm_store c r)))))
    (cm_completed_requests c).

Definition _update_metrics : CM unit :=
  now ← see (fun l _ => current_time l);
  last ← see (fun _ c => last_metrics_update c);
  if fltb (fsub now last) metrics_update_interval then retC tt
  else
    c ← see (fun _ c => c);
    total_gpu_memory ← liftC (py_sum (map (fun e => NF (vmemory (hardware_spec (e_cfg e)))) (dict_values (serving_engines c))));
    used ← used_memories (dict_keys (serving_engines c));
    used_memory ← liftC (py_sum used);
    util ← liftC (if nltb (NI 0) total_gpu_memory then ndiv used_memory total_gpu_memory else Ok (NI 0));
    on_metrics (fun m => set_gauges util (m_average_latency m) (m_throughput m) m) ;;
    c ← see (fun _ c => c);
    (if is_nil (cm_completed_requests c) then retC tt
     else
       lat ← liftC (if is_nil (latencies c) then Ok (NI 0) else np_mean (latencies c));
       on_metrics (fun m => set_gauges (m_cluster_utilization m) lat (m_throughput m) m)) ;;
    c ← see (fun _ c => c);
    let elapsed_time := fsub now (start_time c) in
    (if fltb fzero elapsed_time then
       thr ← liftC (ndiv (NI (Z.of_nat (length (cm_completed_requests c)))) (NF elapsed_time));
       on_metrics (fun m => set_gauges (m_cluster_utilization m) (m_average_latency m) thr m)
     else retC tt) ;;
    on_manager (fun c => set_cm_times (start_time c) (cm_current_time c) now c).

(** One scheduled arrival. *)
Definition schedule_arrival (arrival_time : pyfloat) : CM unit :=
  on_manager (fun c => set_counter (request_counter c + 1) c) ;;
  c ← see (fun _ c => c);
  let request_id := "req_" +:+ str_of_int (request_counter c) in
  let '(input_length, output_length) := draw_lengths (request_counter c) in
  node ← liftC (of_option IndexError (head (cc_nodes (cm_config c))));
  schedule (mkEvent arrival_time REQUEST_ARRIVAL "cluster_manager"
    [("request_id", VStr request_id); ("model", VStr (nc_model_id node)); ("input_length", VInt input_length);
     ("output_length", VInt output_length)] MEDIUM).

Definition schedule_request_arrivals (duration : option pyfloat) : CM pyfloat :=
  match duration with
  | None => raise (ValueError "Duration must be provided for base ClusterManager")
  | Some duration =>
      start ← see (fun _ c => start_time c);
      arrival_times ← liftC (generate_arrivals start duration);
      for_each schedule_arrival arrival_times ;;
      retC (fmax duration (fold_left fmax arrival_times fzero))
  end.

Definition simulate_node_failure (node_id : string) (failure_time recovery_time : pyfloat) : CM unit :=
  schedule (mkEvent failure_time NODE_OFFLINE "cluster_manager" [("node_id", VStr node_id)] HIGHEST) ;;
  schedule (mkEvent recovery_time NODE_ONLINE "cluster_manager" [("node_id", VStr node_id)] HIGHEST).

Definition balance_interval : pyfloat := flit 10 1.

(** The loop that schedules the periodic load balancing, from time [t]; [None]
    when the fuel is spent. *)
Fixpoint schedule_balancing (fuel : nat) (t sim_duration : pyfloat) (st : Sys) : option (Sys * res unit) :=
  if fltb t sim_duration then
    match fuel with
    | O => None
    | S fuel =>
        match schedule (mkEvent t LOAD_BALANCE "cluster_manager" [] LOW) st with
        | (st', Ok _) => schedule_balancing fuel (fadd t balance_interval) sim_duration st'
        | (st', Raise ex) => Some (st', Raise ex)
        end
    end
  else Some (st, Ok tt).

Definition max_events : Z := 10000000.

(** [run_simulation]: the part before the event loop runs.  [arrivals] is the
    method [schedule_request_arrivals] of the manager's class, which may return
    nothing. *)
Definition prepare_simulation (arrivals : option pyfloat → CM (option pyfloat)) (duration : option pyfloat) : CM pyfloat :=
  on_manager (fun c => set_cm_times fzero fzero (last_metrics_update c) c) ;;
  max_arrival_time ← arrivals duration;
  liftC (match duration with
         | Some d => Ok d
         | None => of_option (TypeError "unsupported format string passed to NoneType.__format__") max_arrival_time
         end).

Definition schedule_failures (enable_failures : bool) (sim_duration : pyfloat) : CM unit :=
  nodes ← see (fun _ c => cc_nodes (cm_config c));
  match nodes with
  | node :: _ :: _ =>
      if enable_failures then
        simulate_node_failure (nc_node_id node) (fmul sim_duration (flit 3 10)) (fmul sim_duration (flit 5 10))
      else retC tt
  | _ => retC tt
  end.

Definition extended_time (sim_duration : pyfloat) : pyfloat :=
  let t := fmul sim_duration (flit 10 1) in if feqb t fzero then flit 3600 1 else t.

Definition finish_simulation : CM unit :=
  now ← see (fun l _ => current_time l);
  on_manager (fun c => set_cm_times (start_time c) now (last_metrics_update c) c) ;;
  _update_metrics.

(** [run_simulation]; [None] when the fuel of the balancing loop or of the
    event loop is spent. *)
Definition run_simulation_with (arrivals : option pyfloat → CM (option pyfloat)) (balance_fuel event_fuel : nat) (duration : option pyfloat) (enable_failures : bool)
    (st : Sys) : option (Sys * res unit) :=
  match prepare_simulation arrivals duration st with
  | (st1, Raise ex) => Some (st1, Raise ex)
  | (st1, Ok sim_duration) =>
      match schedule_balancing balance_fuel balance_interval sim_duration st1 with
      | None => None
      | Some (st2, Raise ex) => Some (st2, Raise ex)
      | Some (st2, Ok _) =>
          match schedule_failures enable_failures sim_duration st2 with
          | (st3, Raise ex) => Some (st3, Raise ex)
          | (st3, Ok _) =>
              match run (cluster_handlers md5 pow15 choice iter) event_fuel (extended_time sim_duration)
                      (Some max_events) st3 with
              | None => None
              | Some (st4, Raise ex) => Some (st4, Raise ex)
              | Some (st4, Ok _) => Some (finish_simulation st4)
              end
          end
      end
  end.

(** [run_simulation] of [ClusterManager] itself. *)
Definition base_arrivals (duration : option pyfloat) : CM (option pyfloat) :=
  t ← schedule_request_arrivals duration; retC (Some t).
Definition run_simulation (balance_fuel event_fuel : nat) (duration : option pyfloat) (enable_failures : bool)
    (st : Sys) : option (Sys * res unit) :=
  run_simulation_with base_arrivals balance_fuel event_fuel duration enable_failures st.

(** [update_engine_timing] *)
Definition update_engine_timing (t : pyfloat) (c : ClusterManager) : ClusterManager :=
  set_engines (map (fun '(id, e) => (id, set_current_time t e)) (serving_engines c)) c.

Record Results := mkResults {
  rs_cluster_id : string;
  rs_scheduler : string;
  rs_num_nodes : Z;
  rs_metrics : Metrics;
  rs_engines : dict EngineReport;
  rs_completed_requests : list (dict pyval);
  rs_trace_events : list TraceEvent;
  rs_event_loop_stats : dict pyval;
  rs_scheduler_stats : SchedStats;
}.

Fixpoint engine_reports (ids : list string) : CM (dict EngineReport) :=
  match ids with
  | [] => retC []
  | id :: ids' =>
      r ← on_engine_of id (engine_get_statistics np_mean_ints);
      rest ← engine_reports ids';
      retC ((id, r) :: rest)
  end.

Definition get_results : CM Results :=
  own ← see (fun _ c => cm_trace_events c);
  now ← see (fun l _ => current_time l);
  on_manager (update_engine_timing now) ;;
  ids ← see (fun _ c => dict_keys (serving_engines c));
  reports ← engine_reports ids;
  c ← see (fun _ c => c);
  stats ← see (fun l _ => get_statistics l);
  retC (mkResults (cc_cluster_id (cm_config c)) (cc_scheduler_algorithm (cm_config c))
          (Z.of_nat (length (cc_nodes (cm_config c)))) (metrics c) reports
          (map (fun r => to_dict (cm_store c r)) (cm_completed_requests c))
          (own ++ concat (map er_trace_events (dict_values reports))) stats (sched_stats (cm_scheduler c))).
End Simulation.

(** ** No cluster starts *)

(** Building the engine of the first node raises. *)
Lemma engines_raise pretrained nodes : nodes ≠ [] → ∃ ex, initialize_engines pretrained nodes = Raise ex.
Proof.
  intros Hn. destruct nodes as [|node nodes]; [done|].
  unfold initialize_engines. cbn [foldR]. unfold ServingEngine_init, mbind, res_bind.
  destruct (pretrained _) as [params|ex]; [|by exists ex]. destruct (dict_index _ _) as [spec|ex]; [|by exists ex].
  destruct (planner_never_constructed params None spec 16 16 16 (flit 9 10) (nc_parallel_config node) 16) as [ex ->].
  by exists ex.
Qed.

(** C34.  No cluster with a node can be built: constructing the manager raises
    for every configuration that names at least one node, whatever the model
    hub answers. *)
Theorem cluster_with_nodes_never_starts pretrained config :
  cc_nodes config ≠ [] → ∃ ex, ClusterManager_init pretrained config = Raise ex.
Proof.
  intros Hn. unfold ClusterManager_init, mbind, res_bind.
  destruct (get_scheduler _ _) as [sched|ex]; [|by exists ex].
  destruct (engines_raise pretrained _ Hn) as [ex ->]. by exists ex.
Qed.

Definition demo_config : ClusterConfiguration :=
  mkCluster "demo" [mkNode "node_0" "facebook/opt-6.7b" "NVDA:A100" 2 PNone;
                    mkNode "node_1" "facebook/opt-6.7b" "NVDA:A100" 2 PNone] "round_robin" None.

Lemma cluster_with_nodes_never_starts_witness :
  ∃ ex, ClusterManager_init (fun _ => Ok llama2_7b) demo_config = Raise ex.
Proof. apply (cluster_with_nodes_never_starts (fun _ => Ok llama2_7b) demo_config). discriminate. Defined.
