(* ===== verification/ClusterFacts.v ===== *)
(** * Correctness of the cluster manager

    The manager is a client of the event loop: its handlers keep the loop's
    queue in order and conserve requests, whatever the engines and the
    scheduler decide. *)

From Stdlib Require Import QArith.
From S2P Require Import Prelude PyFloat PyStr HeapQ Events Request Config Analyzer Memory Trace Engine EngineFacts.
From S2P Require Import Scheduler Arrival ClusterManager.

#[local] Open Scope string_scope.
#[local] Open Scope list_scope.
#[local] Open Scope Z_scope.

(** ** What handlers do to the loop *)

Definition arrival_id (e : Event) : option string :=
  if decide (event_type e = REQUEST_ARRIVAL)
  then match str_field (data e) "request_id" with Ok id => Some id | Raise _ => None end
  else None.
(** The request ids of the pending arrivals. *)
Definition arrival_ids (q : list Event) : list string := omap arrival_id q.

Lemma arrival_ids_perm q q' : q ≡ₚ q' → arrival_ids q ≡ₚ arrival_ids q'.
Proof. intros H. unfold arrival_ids. by rewrite H. Qed.

Lemma arrival_ids_cons e q :
  arrival_ids (e :: q) = match arrival_id e with Some id => id :: arrival_ids q | None => arrival_ids q end.
Proof. done. Qed.

(** A loop in order, with timestamps one can compute with. *)
Record good (l : EventLoop) : Prop := {
  g_inv : loop_inv l;
  g_clock : clock_ok (current_time l);
  g_queue : Forall (fun e => clock_ok (timestamp e)) (event_queue l);
}.

(** [l'] is [l] with more events, none of them an arrival. *)
Record extends (l l' : EventLoop) : Prop := {
  x_good : good l';
  x_time : current_time l' = current_time l;
  x_processed : events_processed l' = events_processed l;
  x_by_type : events_by_type l' = events_by_type l;
  x_arrivals : arrival_ids (event_queue l') ≡ₚ arrival_ids (event_queue l);
}.

Lemma extends_refl l : good l → extends l l.
Proof. by split. Qed.
Lemma extends_trans l1 l2 l3 : extends l1 l2 → extends l2 l3 → extends l1 l3.
Proof. intros [] []. split; try congruence. by etransitivity. Qed.

Lemma schedule_extends ev l :
  good l → clock_ok (timestamp ev) → event_type ev ≠ REQUEST_ARRIVAL → extends l (fst (schedule_event ev l)).
Proof.
  intros Hg Hc Ht. destruct (schedule_event ev l) as [l' r] eqn:E.
  destruct (schedule_event_spec ev l l' r (g_inv _ Hg) (clock_not_nan _ Hc) E) as (Hl & Htime & H). simpl.
  assert (Hstats : events_processed l' = events_processed l ∧ events_by_type l' = events_by_type l).
  { unfold schedule_event in E. destruct (fltb _ _); by simplify_eq. }
  destruct Hstats as [Hs1 Hs2]. destruct H as [(_ & _ & Hp)|(_ & _ & ->)]; [|by apply extends_refl].
  split; try done.
  - split; [done|by rewrite Htime; apply Hg|]. rewrite Hp. constructor; [done|apply Hg].
  - rewrite (arrival_ids_perm _ _ Hp). unfold arrival_ids. simpl. unfold arrival_id at 1. by rewrite decide_False.
Qed.

(** The callback of the engines. *)
Definition extends_from (l l' : EventLoop) : Prop := good l → extends l l'.

#[export] Instance extends_from_preorder : PreOrder extends_from.
Proof.
  split; [intros l Hg; by apply extends_refl|]. intros l1 l2 l3 H1 H2 Hg. specialize (H1 Hg).
  eapply extends_trans; [done|]. apply H2, H1.
Qed.

Lemma engine_callback_extends cb ev l :
  Some _handle_engine_event = Some cb → event_type ev ∈ engine_event_types → extends_from l (fst (cb ev l)).
Proof.
  intros [= <-] Hev Hg. unfold _handle_engine_event. apply schedule_extends; [done|apply Hg|]. simpl.
  unfold engine_event_types in Hev. repeat (apply elem_of_cons in Hev as [Hev|Hev]; [congruence|]).
  by apply not_elem_of_nil in Hev.
Qed.

(** ** The invariant *)

(** An engine whose latencies and clock are numbers, and whose [request_queue]
    is empty, as it is when created. *)
Definition engine_sane (e : ServingEngine) : Prop :=
  timing_sane (e_cfg e) ∧ clock_ok (e_cursor e) ∧ request_queue (e_q e) = [].

(** Of [n] generated requests each is pending, or arrived; every request that
    arrived is completed, rejected or active, once.  [owed] arrivals are being
    handled. *)
Record owing (n owed : Z) (l : EventLoop) (c : ClusterManager) : Prop := {
  ci_generated : n = m_total_requests (metrics c) + Z.of_nat (length (arrival_ids (event_queue l))) + owed;
  ci_total : m_total_requests (metrics c) = m_completed_requests (metrics c) + m_rejected_requests (metrics c)
               + Z.of_nat (length (cm_active_requests c));
  ci_completed : m_completed_requests (metrics c) = Z.of_nat (length (cm_completed_requests c));
  ci_active : NoDup (dict_keys (cm_active_requests c));
  ci_arrivals : NoDup (arrival_ids (event_queue l));
  ci_fresh : ∀ id, id ∈ arrival_ids (event_queue l) → id ∉ dict_keys (cm_active_requests c);
  ci_engines : Forall engine_sane (dict_values (serving_engines c));
  ci_nodes : NoDup (online_nodes c ++ offline_nodes c);
  ci_offline : m_node_failures (metrics c) - m_node_recoveries (metrics c) = Z.of_nat (length (offline_nodes c));
  ci_clock : clock_ok (current_time l);
  ci_queue : Forall (fun e => clock_ok (timestamp e)) (event_queue l);
}.
Abbreviation cluster_inv n := (owing n 0).

(** ** Weakest preconditions

    [wp l0 m st Q]: from [st], [m] returns in a state satisfying [Q], or raises
    having only extended the loop [l0]. *)
Definition wp (l0 : EventLoop) {A} (m : CM A) (st : Sys) (Q : A → Sys → Prop) : Prop :=
  match m st with
  | (st', Ok a) => Q a st'
  | (st', Raise _) => extends l0 (fst st')
  end.

Section WP.
Context (l0 : EventLoop).
Abbreviation wp0 := (wp l0).

Lemma wp_bind {A B} (m : CM A) (k : A → CM B) st Q :
  wp0 m st (fun a st' => wp0 (k a) st' Q) → wp0 (m ≫= k) st Q.
Proof. unfold wp, mbind, M_bind. by destruct (m st) as [st' [a|e]]. Qed.
Lemma wp_ret {A} (a : A) st (Q : A → Sys → Prop) : Q a st → wp0 (retC a) st Q.
Proof. done. Qed.
Lemma wp_lift {A} (r : res A) l c (Q : A → Sys → Prop) :
  extends l0 l → (∀ a, r = Ok a → Q a (l, c)) → wp0 (liftC r) (l, c) Q.
Proof. intros H HQ. unfold wp, liftC, lift. destruct r; auto. Qed.
Lemma wp_see {A} (f : EventLoop → ClusterManager → A) l c (Q : A → Sys → Prop) : Q (f l c) (l, c) → wp0 (see f) (l, c) Q.
Proof. done. Qed.
Lemma wp_manager f l c (Q : unit → Sys → Prop) : Q tt (l, f c) → wp0 (on_manager f) (l, c) Q.
Proof. done. Qed.
Lemma wp_metrics f l c (Q : unit → Sys → Prop) : Q tt (l, set_metrics (f (metrics c)) c) → wp0 (on_metrics f) (l, c) Q.
Proof. done. Qed.
Lemma wp_raise {A} e l c (Q : A → Sys → Prop) : extends l0 l → wp0 (raise e) (l, c) Q.
Proof. done. Qed.
Lemma wp_del_active id l c (Q : unit → Sys → Prop) :
  extends l0 l → (∀ r, dict_get (cm_active_requests c) id = Some r → Q tt (l, set_active (dict_del (cm_active_requests c) id) c)) →
  wp0 (del_active id) (l, c) Q.
Proof. intros H HQ. unfold wp, del_active. destruct (dict_get _ id) eqn:E; eauto. Qed.
Lemma wp_engine_id id l c (Q : string → Sys → Prop) :
  extends l0 l → (∀ e, Q (engine_id (e_cfg e)) (l, c)) → wp0 (engine_id_of id) (l, c) Q.
Proof. intros H HQ. unfold wp, engine_id_of. by destruct (dict_get _ id). Qed.
Lemma wp_schedule ev l c (Q : unit → Sys → Prop) :
  extends l0 l → clock_ok (timestamp ev) → event_type ev ≠ REQUEST_ARRIVAL →
  (∀ l', extends l0 l' → Q tt (l', c)) → wp0 (schedule ev) (l, c) Q.
Proof.
  intros Hl Hc Ht HQ. unfold wp, schedule. pose proof (schedule_extends ev l (x_good _ _ Hl) Hc Ht) as He.
  destruct (schedule_event ev l) as [l' [[]|e]]; simpl in *; [apply HQ|]; by eapply extends_trans.
Qed.
Lemma wp_mono {A} (m : CM A) st (Q Q' : A → Sys → Prop) : wp0 m st Q → (∀ a st', Q a st' → Q' a st') → wp0 m st Q'.
Proof. unfold wp. destruct (m st) as [st' [a|e]]; auto. Qed.

(** A method of an engine: the loop is extended, and only this engine and the
    request objects change. *)
Lemma wp_engine {A} id (m : M (ES EventLoop) A) l c (Q : A → Sys → Prop) :
  extends l0 l → outer extends_from m →
  (∀ e s a, dict_get (serving_engines c) id = Some e → m (mkES (cm_store c) e l) = (s, Ok a) → extends l0 (es_out s) →
     Q a (es_out s, set_store (es_req s) (cm_next_ref c) (set_engines (dict_set (serving_engines c) id (es_eng s)) c))) →
  wp0 (on_engine_of id m) (l, c) Q.
Proof.
  intros Hl Ho HQ. unfold wp, on_engine_of. destruct (dict_get (serving_engines c) id) as [e|] eqn:E; [|done].
  specialize (Ho (mkES (cm_store c) e l) (x_good _ _ Hl)). simpl in Ho.
  destruct (m (mkES (cm_store c) e l)) as [s r] eqn:Em. simpl in *.
  assert (extends l0 (es_out s)) by (by eapply extends_trans). destruct r as [a|ex]; [by eapply HQ|done].
Qed.
End WP.

Ltac wp_step :=
  first [ apply wp_bind | apply wp_ret | apply wp_see | apply wp_manager | apply wp_metrics
        | apply wp_lift; [done|intros ? ?] | apply wp_del_active; [done|intros ? ?]
        | apply wp_engine_id; [done|intros ?] ].

(** ** The scheduler leaves engines sane *)

Lemma memory_info_sane e e' r : memory_info_of e = (e', r) → engine_sane e → engine_sane e'.
Proof.
  unfold memory_info_of. destruct (get_memory_info _) as [s o] eqn:E. intros [= <- _] He.
  apply (core_ok _ _ _ _ keeps_memory_info) in E as (_ & H1 & H3 & _ & H2). simpl in *. unfold engine_sane.
  by rewrite H1, H2, H3.
Qed.

Lemma set_nth_sane i e es : engine_sane e → Forall engine_sane es → Forall engine_sane (set_nth i e es).
Proof. intros He Hes. unfold set_nth. by apply Forall_insert. Qed.

Lemma risk_candidates_sane buf i todo es es' r :
  risk_candidates buf i todo es = (es', r) → Forall engine_sane todo → Forall engine_sane es → Forall engine_sane es'.
Proof.
  revert i es es' r. induction todo as [|e todo IH]; intros i es es' r H Ht Hes; simpl in H; [by simplify_eq|].
  inversion_clear Ht. destruct (_get_tier e =? 3); [by simplify_eq|].
  destruct (risk_candidates buf (S i) todo es) as [es2 [rest|ex]] eqn:E; simplify_eq; by eapply IH.
Qed.

Lemma risk_best_sane todo best es es' r :
  risk_best todo best es = (es', r) → Forall engine_sane es → Forall engine_sane es'.
Proof.
  revert best es es' r. induction todo as [|i todo IH]; intros best es es' r H Hes; simpl in H; [by simplify_eq|].
  destruct (es !! i) as [e|] eqn:Ei; [|by simplify_eq]. destruct (memory_info_of e) as [e' ri] eqn:Em.
  assert (Hs : Forall engine_sane (set_nth i e' es)).
  { apply set_nth_sane; [|done]. eapply memory_info_sane; [done|]. by eapply Forall_lookup_1. }
  destruct (pressure e' ri) as [[score|]|]; [|by eapply IH|by simplify_eq].
  destruct (nltb score _); [by eapply IH|]. destruct (neqb score _); [|by eapply IH].
  destruct (fst best); [|by simplify_eq]. destruct (set_nth i e' es !! n); [by eapply IH|by simplify_eq].
Qed.

Lemma place_request_sane pow15 choice r s es s' es' o :
  place_request pow15 choice r (s, es) = ((s', es'), o) → Forall engine_sane es → Forall engine_sane es'.
Proof.
  intros H Hes. destruct (sched_alg s) as [| | | | | | | |th buf] eqn:Ea; revert H;
    destruct (is_nil es) eqn:Hnil; run_place Hnil; rewrite Ea; run_place Hnil;
    try (by repeat (case_match; run_binds); intros; simplify_eq).
  destruct (risk_candidates buf 0 es es) as [es1 [cands|ex]] eqn:Ec; apply risk_candidates_sane in Ec;
    try done; [|by intros; simplify_eq].
  destruct (is_nil cands); run_binds; [by intros; simplify_eq|].
  match goal with |- context [risk_best ?f ?b ?e] => destruct (risk_best f b e) as [es2 [[b0 k]|ex]] eqn:Eb end;
    apply risk_best_sane in Eb; try done; [|by intros; simplify_eq].
  destruct b0; run_binds; by intros; simplify_eq.
Qed.

Lemma dict_set_sane (d : dict ServingEngine) id e :
  Forall engine_sane (dict_values d) → engine_sane e → Forall engine_sane (dict_values (dict_set d id e)).
Proof.
  unfold dict_values. intros Hd He. induction d as [|[k v] d IH]; simpl in *; [by constructor|].
  inversion_clear Hd. case_bool_decide; simpl; constructor; auto.
Qed.

Lemma dict_get_sane (d : dict ServingEngine) id e :
  Forall engine_sane (dict_values d) → dict_get d id = Some e → engine_sane e.
Proof.
  intros Hd He%dict_get_Some_in. eapply Forall_forall; [done|]. apply list_elem_of_fmap. by exists (id, e).
Qed.

Lemma write_back_sane (d : dict ServingEngine) ids es :
  Forall engine_sane (dict_values d) → Forall engine_sane es →
  Forall engine_sane (dict_values (fold_left (fun d '(id, e) => dict_set d id e) (zip ids es) d)).
Proof.
  revert d es. induction ids as [|id ids IH]; intros d [|e es] Hd Hes; simpl; try done.
  inversion_clear Hes. apply IH; [by apply dict_set_sane|done].
Qed.

(** ** Handlers keep the invariant *)

(** The parts of the manager the invariant is about, but for the engines. *)
Definition ledger (c : ClusterManager) :=
  (m_total_requests (metrics c), m_completed_requests (metrics c), m_rejected_requests (metrics c),
   m_node_failures (metrics c), m_node_recoveries (metrics c), cm_active_requests c, cm_completed_requests c,
   online_nodes c, offline_nodes c).

Lemma cluster_inv_frame n k l l' c c' :
  owing n k l c → extends l l' → ledger c' = ledger c → Forall engine_sane (dict_values (serving_engines c')) →
  owing n k l' c'.
Proof.
  intros [] [[] ] Hled Hes. unfold ledger in Hled. injection Hled as E1 E2 E3 E4 E5 E6 E7 E8 E9.
  split; rewrite ?E1, ?E2, ?E3, ?E4, ?E5, ?E6, ?E7, ?E8, ?E9; try done.
  - by rewrite x_arrivals0.
  - by rewrite x_arrivals0.
  - intros id Hid. apply ci_fresh0. by rewrite <- x_arrivals0.
Qed.

Lemma extends_mid l0 l l' : extends l0 l → extends l0 l' → extends l l'.
Proof.
  intros [] []. split; try congruence. by rewrite x_arrivals1, x_arrivals0.
Qed.

Section HandlerSpecs.
Context (md5 : string → Z) (pow15 : Z → res num) (choice : Z → nat → nat) (iter : list ref → list ref).
Context (l0 : EventLoop) (n k : Z).

(** A handler that returns has extended the loop and kept the invariant. *)
Definition keeps_inv (m : CM unit) : Prop := ∀ l c, extends l0 l → owing n k l c →
  wp l0 m (l, c) (fun _ st => extends l0 (fst st) ∧ owing n k (fst st) (snd st)).

Lemma keeps_retC : keeps_inv (retC tt).
Proof. intros l c Hl Hi. by apply wp_ret. Qed.

Lemma del_active_counts (a : dict ref) id r :
  NoDup (dict_keys a) → dict_get a id = Some r →
  Z.of_nat (length (dict_del a id)) = Z.of_nat (length a) - 1 ∧ NoDup (dict_keys (dict_del a id)) ∧
  ∀ id', id' ∉ dict_keys a → id' ∉ dict_keys (dict_del a id).
Proof.
  intros Hn Hg. assert (Hin : id ∈ dict_keys a).
  { apply dict_get_Some_in in Hg. apply list_elem_of_fmap. by exists (id, r). }
  pose proof (dict_del_length a id Hin). split_and!; [lia|auto with tela|].
  intros id' H' Hin'. apply H'. by eapply elem_of_sublist; [|apply dict_del_keys_subset].
Qed.

Lemma reject_keeps id why : keeps_inv (_reject_request md5 id why).
Proof.
  intros l c Hl Hi. unfold _reject_request. repeat wp_step. simpl. split; [done|].
  pose proof Hi as []. destruct (del_active_counts _ _ _ ci_active0 H) as (H1 & H2 & H3).
  split; simpl; try done; [lia|]. intros id' Hid'. apply H3. by apply ci_fresh0.
Qed.

Lemma for_each_schedule {A} (f : A → Event) (xs : list A) l c :
  extends l0 l → Forall (fun x => clock_ok (timestamp (f x)) ∧ event_type (f x) ≠ REQUEST_ARRIVAL) xs →
  wp l0 (for_each (fun x => schedule (f x)) xs) (l, c) (fun _ st => extends l0 (fst st) ∧ snd st = c).
Proof.
  revert l. induction xs as [|x xs IH]; intros l Hl Hx; cbn [for_each]; [by unfold wp|].
  inversion_clear Hx as [|? ? [H1 H2] H3]. apply wp_bind, wp_schedule; [done..|]. intros l' Hl'. by apply IH.
Qed.

Lemma rebalance_keeps o : keeps_inv (_rebalance_requests o).
Proof.
  intros l c Hl Hi. unfold _rebalance_requests. destruct o as [id|]; [|by apply keeps_retC].
  case_bool_decide; [by apply keeps_retC|]. repeat wp_step.
  destruct (dict_get (serving_engines c) id) as [e|] eqn:Ee; [|by apply keeps_retC].
  do 3 wp_step. repeat wp_step. eapply wp_mono.
  - apply for_each_schedule; [done|]. apply Forall_forall. intros r _. simpl. split; [|done]. apply Hi.
  - intros _ [l' c'] [Hl' Hc']. simpl in *. subst c'. split; [done|].
    eapply cluster_inv_frame; [exact Hi|by eapply extends_mid|done|]. simpl. apply dict_set_sane; [apply Hi|].
    destruct (dict_get_sane _ _ _ (ci_engines _ _ _ _ Hi) Ee) as (? & ? & ?). by split_and!.
Qed.

Lemma NoDup_move (x : string) (a b : list string) :
  NoDup (a ++ b) → x ∈ a → NoDup (set_remove x a ++ set_add x b) ∧ length (set_add x b) = S (length b).
Proof.
  intros Hn Hx. apply NoDup_app in Hn as (Ha & Hab & Hb).
  assert (Hxb : x ∉ b) by (by apply Hab). unfold set_add, set_remove. rewrite bool_decide_eq_false_2 by done.
  split; [|rewrite length_app; simpl; lia]. apply NoDup_app. split_and!.
  - by apply NoDup_filter.
  - intros y Hy. apply list_elem_of_filter in Hy as [Hne Hy]. rewrite elem_of_app, list_elem_of_singleton.
    intros [?|?]; [by apply (Hab y)|done].
  - apply NoDup_app. split_and!; [done| |apply NoDup_singleton]. intros y Hy Hyx.
    apply list_elem_of_singleton in Hyx as ->. done.
Qed.

Lemma length_set_remove (x : string) (a : list string) :
  NoDup a → x ∈ a → Z.of_nat (length (set_remove x a)) = Z.of_nat (length a) - 1.
Proof.
  intros Ha Hx. apply list_elem_of_split in Hx as (a1 & a2 & ->). unfold set_remove.
  apply NoDup_app in Ha as (_ & Hd & Ha2). apply NoDup_cons in Ha2 as [Hx2 _].
  rewrite filter_app, filter_cons_False by tauto.
  rewrite (filter_all _ a1), (filter_all _ a2); [rewrite !length_app; simpl; lia|..]; apply Forall_forall.
  - intros y Hy ->. done.
  - intros y Hy ->. apply (Hd x Hy). left.
Qed.

Lemma node_offline_keeps ev : keeps_inv (_handle_node_offline ev).
Proof.
  intros l c Hl Hi. unfold _handle_node_offline. do 4 wp_step.
  case_bool_decide as Hin; [|by apply keeps_retC]. repeat wp_step. apply rebalance_keeps; [done|].
  pose proof Hi as []. destruct (NoDup_move _ _ _ ci_nodes0 Hin) as [H1 H2].
  split; simpl; try done. rewrite H2. lia.
Qed.

Lemma node_online_keeps ev : keeps_inv (_handle_node_online ev).
Proof.
  intros l c Hl Hi. unfold _handle_node_online. do 4 wp_step.
  case_bool_decide as Hin; [|by apply keeps_retC]. repeat wp_step. split; [done|].
  pose proof Hi as []. rewrite Permutation_app_comm in ci_nodes0. destruct (NoDup_move _ _ _ ci_nodes0 Hin) as [H1 H2].
  rewrite Permutation_app_comm in H1. apply NoDup_app in ci_nodes0 as (Hoff & _ & _).
  pose proof (length_set_remove _ _ Hoff Hin). split; simpl; try done. lia.
Qed.

Lemma request_complete_keeps ev : keeps_inv (_handle_request_complete md5 ev).
Proof.
  intros l c Hl Hi. unfold _handle_request_complete. do 4 wp_step.
  destruct (dict_get (cm_active_requests c) a) as [r|] eqn:Er; [|by apply keeps_retC].
  repeat wp_step. simpl. split; [done|].
  pose proof Hi as []. destruct (del_active_counts _ _ _ ci_active0 Er) as (D1 & D2 & D3).
  split; simpl; try done; [lia|rewrite length_app; simpl; lia|]. intros id' Hid'. apply D3. by apply ci_fresh0.
Qed.

(** What a call leaves behind that only touches engines, requests and the loop. *)
Definition framed (c : ClusterManager) (st : Sys) : Prop :=
  extends l0 (fst st) ∧ ledger (snd st) = ledger c ∧ Forall engine_sane (dict_values (serving_engines (snd st))).

Lemma framed_inv l c st : extends l0 l → owing n k l c → framed c st → owing n k (fst st) (snd st).
Proof. intros Hl Hi (H1 & H2 & H3). eapply cluster_inv_frame; [exact Hi|by eapply extends_mid|done|done]. Qed.

Lemma framed_step (m : CM unit) l c st :
  extends l0 l → owing n k l c → framed c st → keeps_inv m →
  wp l0 m st (fun _ st' => extends l0 (fst st') ∧ owing n k (fst st') (snd st')).
Proof.
  intros Hl Hi Hf Hm. destruct st as [l' c']. apply Hm; [apply Hf|]. by apply (framed_inv l c (l', c')).
Qed.

Lemma ask_framed r l c (Q : option (PlacementDecision * option string) → Sys → Prop) :
  extends l0 l → Forall engine_sane (dict_values (serving_engines c)) →
  (∀ d st, framed c st → Q d st) → wp l0 (ask_scheduler pow15 choice r) (l, c) Q.
Proof.
  intros Hl Hs HQ. unfold wp, ask_scheduler.
  destruct (place_request _ _ _ _) as [[s' es'] o] eqn:E. apply place_request_sane in E.
  - assert (Hf : ∀ c', ledger c' = ledger c → serving_engines c' = fold_left (fun d '(id, e) => dict_set d id e)
        (zip (dict_keys (available_engines c)) es') (serving_engines c) → framed c (l, c')).
    { intros c' H1 H2. split_and!; [done|done|]. simpl. rewrite H2. by apply write_back_sane. }
    destruct o as [[d|]|ex]; [apply HQ, Hf; done..|done].
  - apply Forall_forall. intros e He. unfold dict_values, available_engines in He.
    apply list_elem_of_fmap in He as ([id e'] & -> & He). apply list_elem_of_filter in He as [_ He].
    eapply Forall_forall; [exact Hs|]. apply list_elem_of_fmap. by exists (id, e').
Qed.

Lemma add_request_sane {L} (cb : option (Event → M L unit)) r s s' b :
  add_request cb r s = (s', Ok b) → engine_sane (es_eng s) → engine_sane (es_eng s').
Proof.
  intros H (Ht & Hc & Hq). pose proof (untouched_add_request cb r s) as Hu. rewrite H in Hu. unfold waiting in Hu. simpl in Hu.
  unfold engine_sane. rewrite Hu, Hq. clear Hu. unfold add_request in H. run_ok H. all_keeps. destruct (negb x).
  { apply ret_ok in H as [-> ->]. by rewrite_kept. }
  run_ok H. apply ret_ok in H as [-> ->]. all_keeps. simpl in *. by rewrite_kept.
Qed.

Lemma engine_framed {A} id (m : M (ES EventLoop) A) l c (Q : A → Sys → Prop) :
  extends l0 l → Forall engine_sane (dict_values (serving_engines c)) → outer extends_from m →
  (∀ s s' a, m s = (s', Ok a) → es_out s = l → engine_sane (es_eng s) → engine_sane (es_eng s')) →
  (∀ e s a c', dict_get (serving_engines c) id = Some e → m (mkES (cm_store c) e l) = (s, Ok a) →
     framed c (es_out s, c') → dict_get (serving_engines c') id = Some (es_eng s) → Q a (es_out s, c')) →
  wp l0 (on_engine_of id m) (l, c) Q.
Proof.
  intros Hl Hs Ho Hm HQ. apply wp_engine; [done|done|]. intros e s a He Hr Hx.
  apply (HQ e); [done|done| |simpl; apply dict_get_set_eq]. split_and!; [done|done|]. simpl.
  apply dict_set_sane; [done|]. eapply Hm; [exact Hr|done|]. by eapply dict_get_sane.
Qed.

Lemma outer_add r : outer extends_from (add_request (Some _handle_engine_event) r).
Proof. apply outer_add_request; [apply _|]. intros cb ev l. apply engine_callback_extends. Qed.
Lemma outer_engine_step t : outer extends_from (engine_step (Some _handle_engine_event) iter t).
Proof. apply outer_step; [apply _|]. intros cb ev l. apply engine_callback_extends. Qed.

Lemma schedule_keeps (ev : Event) : event_type ev ≠ REQUEST_ARRIVAL → clock_ok (timestamp ev) → keeps_inv (schedule ev).
Proof.
  intros Ht Hc l c Hl Hi. apply wp_schedule; [done..|]. intros l' Hl'. split; [done|].
  eapply cluster_inv_frame; [exact Hi|by eapply extends_mid|done|apply Hi].
Qed.

Lemma placement_keeps ev : keeps_inv (_handle_placement_decision md5 pow15 choice ev).
Proof.
  intros l c Hl Hi. unfold _handle_placement_decision. do 4 wp_step.
  destruct (dict_get (cm_active_requests c) a) as [r|]; [|by apply keeps_retC].
  apply wp_bind, ask_framed; [done|apply Hi|]. intros [[d [node|]]|] [l1 c1] Hf.
  2:{ apply wp_raise, Hf. }
  2:{ by eapply framed_step, reject_keeps. }
  pose proof (framed_inv _ _ _ Hl Hi Hf) as Hi1. simpl in Hi1. pose proof Hf as (Hl1 & _ & Hs1). simpl in Hl1, Hs1.
  apply wp_bind, engine_framed; [done|done|apply outer_add| |].
  { intros s s' b Hb _. by eapply add_request_sane. }
  intros e s b c2 _ _ Hf2 _. destruct b; simpl; [|by eapply (framed_step _ l1 c1), reject_keeps].
  pose proof (framed_inv _ _ _ Hl1 Hi1 Hf2) as Hi2. pose proof Hf2 as (Hl2 & _). simpl in Hi2, Hl2.
  unfold _record_placement_decision, _schedule_engine_step. repeat wp_step.
  apply schedule_keeps; [done|apply Hi2|done|].
  eapply cluster_inv_frame; [exact Hi2|by apply extends_refl, Hl2|done|apply Hi2].
Qed.

(** A step of an engine: its events and its cursor have timestamps in order. *)
Lemma engine_step_sane now s s' evs :
  clock_ok now → engine_step (Some _handle_engine_event) iter (Some now) s = (s', Ok evs) → engine_sane (es_eng s) →
  engine_sane (es_eng s') ∧ Forall (fun ev => clock_ok (timestamp ev) ∧ event_type ev ≠ REQUEST_ARRIVAL) evs.
Proof.
  intros Hn H (Ht & Hc & Hq). pose proof (untouched_step (Some _handle_engine_event) iter (Some now) s) as Hu.
  rewrite H in Hu. unfold waiting in Hu. simpl in Hu. apply engine_step_clock in H as (H1 & _ & H2 & H3).
  apply advances_later in H2 as [_ Hok]; [|done|done|by case_match]. unfold engine_sane. rewrite H1, Hu.
  split; [done|]. eapply Forall_impl; [exact H3|]. intros ev [-> ->]. done.
Qed.

Lemma for_each_keeps {A} (f : A → CM unit) xs : Forall (fun x => keeps_inv (f x)) xs → keeps_inv (for_each f xs).
Proof.
  induction 1 as [|x xs Hx _ IH]; intros l c Hl Hi; cbn [for_each]; [by unfold wp|].
  apply wp_bind. eapply wp_mono; [by apply Hx|]. intros [] [l' c'] [H1 H2]. by apply IH.
Qed.

Lemma engine_event_keeps ev :
  clock_ok (timestamp ev) ∧ event_type ev ≠ REQUEST_ARRIVAL → keeps_inv (schedule_engine_event ev).
Proof.
  intros [Hc Ht] l c Hl Hi. unfold schedule_engine_event. do 2 wp_step.
  destruct (fltb _ _); apply schedule_keeps; try done. apply Hi.
Qed.

Lemma clock_next t now : clock_ok t → clock_ok now → clock_ok (if fleb t now then fadd now (flit 1 1000000) else t).
Proof.
  intros Ht Hn. destruct (fleb t now); [|done].
  assert (Hpos : fle fzero (flit 1 1000000)) by (vm_compute; reflexivity).
  assert (Hwf : fwf (flit 1 1000000)) by apply flit_wf. revert Hpos Hwf. generalize (flit 1 1000000). intros d Hd Hw.
  destruct Hn as [H1 H2]. split; [by apply fadd_wf|by apply fadd_above].
Qed.

Lemma batch_form_keeps ev : keeps_inv (_handle_batch_form iter ev).
Proof.
  intros l c Hl Hi. unfold _handle_batch_form. do 2 wp_step.
  destruct (dict_get (serving_engines c) (target ev)) as [e|]; [|by apply keeps_retC]. do 2 wp_step.
  apply engine_framed; [done|apply Hi|apply outer_engine_step| |].
  { intros s s' evs Hst _ Hs. eapply engine_step_sane; [apply Hi|done|done]. }
  intros e1 s evs c1 He1 Hst Hf _. pose proof (framed_inv _ _ _ Hl Hi Hf) as Hi1. pose proof Hf as (Hl1 & _).
  simpl in Hi1, Hl1. apply engine_step_sane in Hst as [_ Hevs]; [|apply Hi|].
  2:{ simpl. eapply dict_get_sane; [apply Hi|done]. }
  apply wp_bind. eapply wp_mono.
  { apply for_each_keeps; [|exact Hl1|exact Hi1]. eapply Forall_impl; [exact Hevs|]. apply engine_event_keeps. }
  intros [] [l2 c2] [Hl2 Hi2]. simpl in Hl2, Hi2. do 2 wp_step.
  destruct (dict_get (serving_engines c2) (target ev)) as [e2|] eqn:Ee; [|by apply keeps_retC].
  destruct (has_pending_work e2); [|by apply keeps_retC]. do 2 wp_step.
  assert (Hc2 : clock_ok (e_cursor e2)) by (by eapply dict_get_sane in Ee as (? & ? & ?); [|apply Hi2]).
  apply schedule_keeps; [done| |done|done]. apply clock_next; [apply clock_fmax|]; (done || apply Hi2).
Qed.

End HandlerSpecs.

Definition owed_by (e : Event) : Z := match arrival_id e with Some _ => 1 | None => 0 end.

(** An arrival registers a request that is not registered yet. *)
Lemma arrival_keeps md5 n l0 ev l c :
  extends l0 l → owing n (owed_by ev) l c → event_type ev = REQUEST_ARRIVAL → clock_ok (timestamp ev) →
  (∀ id, arrival_id ev = Some id →
     (id ∉ dict_keys (cm_active_requests c)) ∧ id ∉ arrival_ids (event_queue l)) →
  wp l0 (_handle_request_arrival md5 ev) (l, c) (fun _ st => extends l0 (fst st) ∧ cluster_inv n (fst st) (snd st)).
Proof.
  intros Hl Hi Ht Hc Hid. unfold owed_by, arrival_id in *. rewrite decide_True in Hi, Hid by done.
  unfold _handle_request_arrival. repeat wp_step. simpl. rewrite H in *.
  destruct (Hid _ eq_refl) as [Hn Hq]. apply schedule_keeps; [done|done|done|]. pose proof Hi as []. split; simpl; try done.
  - lia.
  - rewrite dict_set_length_new by done. lia.
  - by apply dict_set_NoDup.
  - intros id Hin. rewrite dict_set_keys, bool_decide_eq_false_2 by done. rewrite elem_of_app, list_elem_of_singleton.
    intros [Ha| ->]; [by eapply ci_fresh0|done].
Qed.

(** ** The manager is a client of the event loop *)

Lemma inv_good n k l c : loop_inv l → owing n k l c → good l.
Proof. intros Hl []. by split. Qed.

(** Taking an event off the queue. *)
Lemma begin_cluster_inv n l c e q :
  loop_inv l → cluster_inv n l c → heappop Event_lt (event_queue l) = Some (e, q) →
  owing n (owed_by e) (begin_event e q l) c ∧ clock_ok (timestamp e) ∧
  ∀ id, arrival_id e = Some id → (id ∉ dict_keys (cm_active_requests c)) ∧ id ∉ arrival_ids q.
Proof.
  intros Hl Hi Hpop. destruct (begin_event_inv _ _ _ Hl Hpop) as (_ & Hp & _ & _). pose proof Hi as [].
  assert (Hq : Forall (fun e => clock_ok (timestamp e)) (e :: q)) by (by rewrite <- Hp). inversion_clear Hq.
  pose proof (arrival_ids_perm _ _ Hp) as Ha. rewrite arrival_ids_cons in Ha.
  assert (Hsub : ∀ id, id ∈ arrival_ids q → id ∈ arrival_ids (event_queue l)).
  { intros id Hin. rewrite Ha. destruct (arrival_id e); [by right|done]. }
  rewrite Ha in ci_arrivals0. rewrite Ha in ci_generated0. split; [|split; [done|]].
  - split; simpl; try done.
    + unfold owed_by. destruct (arrival_id e); simpl in *; lia.
    + destruct (arrival_id e); [by apply NoDup_cons in ci_arrivals0 as [_ ?]|done].
    + intros id Hin. by apply ci_fresh0, Hsub.
  - intros id He. rewrite He in *. apply NoDup_cons in ci_arrivals0 as [Hn _]. split; [|done].
    apply ci_fresh0. rewrite Ha. left.
Qed.

Section Client.
Context (md5 : string → Z) (pow15 : Z → res num) (choice : Z → nat → nat) (iter : list ref → list ref).
Abbreviation hs := (cluster_handlers md5 pow15 choice iter).

(** What is registered for each type of event. *)
Lemma handlers_cases t h : hs t = Some h →
  (t = REQUEST_ARRIVAL ∧ h = _handle_request_arrival md5) ∨ (t ≠ REQUEST_ARRIVAL ∧ ∀ l0 n k e, keeps_inv l0 n k (h e)).
Proof.
  unfold cluster_handlers, register_handler, no_handlers. simpl. intros H.
  repeat (case_decide; [injection H as <-; try (right; split; [by subst|]; intros l0 n k e; apply keeps_retC)|]); try done.
  all: try by left.
  all: right; split; [by subst|]; intros l0 n k e.
  - exact (batch_form_keeps iter l0 n k e).
  - exact (request_complete_keeps md5 l0 n k e).
  - exact (node_offline_keeps l0 n k e).
  - exact (node_online_keeps md5 pow15 choice l0 n k e).
  - exact (placement_keeps md5 pow15 choice l0 n k e).
Qed.

Lemma handlers_wp n h e l0 c :
  good l0 → owing n (owed_by e) l0 c → clock_ok (timestamp e) → hs (event_type e) = Some h →
  (∀ id, arrival_id e = Some id → (id ∉ dict_keys (cm_active_requests c)) ∧ id ∉ arrival_ids (event_queue l0)) →
  wp l0 (h e) (l0, c) (fun _ st => extends l0 (fst st) ∧ cluster_inv n (fst st) (snd st)).
Proof.
  intros Hg Hi Hc Hh Hid. destruct (handlers_cases _ _ Hh) as [[Ht ->]|[Ht Hk]].
  - apply arrival_keeps; [by apply extends_refl|done..].
  - unfold owed_by, arrival_id in Hi. rewrite decide_False in Hi by done.
    apply Hk; [by apply extends_refl|done].
Qed.

#[export] Instance cluster_client n : LoopClient hs (cluster_inv n).
Proof.
  split.
  - intros h e q l c l' c' r Hl Hi Hpop Hb Hh Hrun.
    destruct (begin_cluster_inv _ _ _ _ _ Hl Hi Hpop) as (Hbi & Hc & Hid).
    pose proof (handlers_wp n h e _ c (inv_good _ _ _ _ Hb Hbi) Hbi Hc Hh Hid) as Hw. unfold wp in Hw. rewrite Hrun in Hw.
    assert (Hx : extends (begin_event e q l) l') by (destruct r; apply Hw). pose proof Hx as [Hg H1 H2 H3 _].
    split_and!; try done; [apply Hg|]. intros ->. apply Hw.
  - intros l s e q Hl Hi Hpop Hn. destruct (begin_cluster_inv _ _ _ _ _ Hl Hi Hpop) as (H & _).
    unfold owed_by, arrival_id in H. rewrite decide_False in H; [done|]. intros Ht. by rewrite Ht in Hn.
  - intros l s b []. by split.
Qed.
End Client.

(** ** Preparing a simulation *)

Definition request_name (n : Z) : string := "req_" +:+ str_of_int n.

#[export] Instance request_name_inj : Inj eq eq request_name.
Proof. intros i j H. unfold request_name, str_of_int in H. simplify_eq. by apply (inj pretty). Qed.

(** The state before the event loop runs: nothing arrived, and the pending
    arrivals are numbered. *)
Record prepared (l : EventLoop) (c : ClusterManager) : Prop := {
  pr_loop : loop_inv l;
  pr_stats : stats_inv l;
  pr_inv : cluster_inv (request_counter c) l c;
  pr_active : cm_active_requests c = [];
  pr_ids : ∀ id, id ∈ arrival_ids (event_queue l) → ∃ i, i ≤ request_counter c ∧ id = request_name i;
}.

Lemma prepared_state l c : prepared l c → state_inv (cluster_inv (request_counter c)) (l, c).
Proof. intros []. by split_and!. Qed.

Lemma prepared_frame l c c' :
  prepared l c → ledger c' = ledger c → request_counter c' = request_counter c → serving_engines c' = serving_engines c → prepared l c'.
Proof.
  intros [] Hl Hc He. split; rewrite ?Hc; try done.
  - eapply cluster_inv_frame; [done|by eapply extends_refl, inv_good|done|]. rewrite He. apply pr_inv0.
  - unfold ledger in Hl. congruence.
Qed.

Lemma schedule_prepared ev l c st' :
  prepared l c → event_type ev ≠ REQUEST_ARRIVAL → clock_ok (timestamp ev) → schedule ev (l, c) = (st', Ok tt) →
  prepared (fst st') (snd st') ∧ snd st' = c.
Proof.
  intros Hp Ht Hc H. pose proof Hp as []. pose proof (schedule_extends ev l (inv_good _ _ _ _ pr_loop0 pr_inv0) Hc Ht) as Hx.
  unfold schedule in H. destruct (schedule_event ev l) as [l' r]. injection H as <- ->. simpl in *. split; [|done].
  pose proof Hx as []. split; try done.
  - apply x_good0.
  - unfold stats_inv. congruence.
  - eapply cluster_inv_frame; [done|done|done|apply pr_inv0].
  - intros id Hid. apply pr_ids0. by rewrite <- x_arrivals0.
Qed.

Lemma schedule_arrival_prepared draw t l c st' :
  prepared l c → clock_ok t → schedule_arrival draw t (l, c) = (st', Ok tt) →
  prepared (fst st') (snd st') ∧ request_counter (snd st') = request_counter c + 1 ∧
  ledger (set_counter (request_counter c) (snd st')) = ledger c ∧ start_time (snd st') = start_time c.
Proof.
  intros Hp Hc H. unfold schedule_arrival in H.
  unfold mbind, M_bind, on_manager, modify, see, gets in H.
  cbn [request_counter set_counter cm_config] in H. destruct (draw (request_counter c + 1)) as [inp out].
  unfold liftC, lift in H. destruct (head (cc_nodes (cm_config c))) as [node|]; [|done].
  cbn [of_option] in H. unfold schedule in H.
  fold (request_name (request_counter c + 1)) in H. set (n := request_counter c + 1) in *.
  match type of H with context [schedule_event ?x l] => set (e := x) in * end.
  destruct (schedule_event e l) as [l' r] eqn:E. injection H as <- ->. simpl.
  destruct Hp as [H1 H2 H3 H4 H5]. pose proof H3 as [].
  destruct (schedule_event_spec e l l' (Ok tt) H1 (clock_not_nan t Hc) E) as (Hl' & Htime & Hq).
  destruct Hq as [(_ & _ & Hp)|([ex [=]] & _)].
  assert (Ha : arrival_ids (event_queue l') ≡ₚ request_name n :: arrival_ids (event_queue l))
    by (by rewrite (arrival_ids_perm _ _ Hp)).
  assert (Hnew : request_name n ∉ arrival_ids (event_queue l)).
  { intros Hin. destruct (H5 _ Hin) as (i & Hi & Heq%(inj request_name)). lia. }
  assert (stats_inv l') by (unfold schedule_event in E; destruct (fltb _ _); by simplify_eq).
  split_and!; [|done..]. split; try done.
  - split; simpl; try done; rewrite ?Htime; try done.
    + rewrite Ha. simpl. lia.
    + rewrite Ha. by apply NoDup_cons.
    + intros id _. rewrite H4. apply not_elem_of_nil.
    + rewrite Hp. by constructor.
  - simpl. intros id. rewrite Ha. intros [-> |Hin]%elem_of_cons; [by exists n|].
    destruct (H5 _ Hin) as (i & Hi & ->). exists i. split; [lia|done].
Qed.

Lemma arrivals_prepared draw ts l c st' :
  prepared l c → Forall clock_ok ts → for_each (schedule_arrival draw) ts (l, c) = (st', Ok tt) →
  prepared (fst st') (snd st') ∧ request_counter (snd st') = request_counter c + Z.of_nat (length ts).
Proof.
  revert l c. induction ts as [|t ts IH]; intros l c Hp Hts H; cbn [for_each] in H.
  { injection H as <-. simpl. split; [done|lia]. }
  inversion_clear Hts as [|? ? Ht Hts']. apply bind_ok in H as ([l1 c1] & [] & Ha & H).
  apply schedule_arrival_prepared in Ha as (Hp1 & Hc1 & _); [|done|done]. simpl in Hp1, Hc1.
  destruct (IH l1 c1 Hp1 Hts' H) as [H3 H4]. split; [done|]. rewrite H4, Hc1. simpl length. lia.
Qed.

Lemma balancing_prepared fuel t d l c st' :
  prepared l c → clock_ok t → schedule_balancing fuel t d (l, c) = Some (st', Ok tt) →
  prepared (fst st') (snd st') ∧ snd st' = c.
Proof.
  revert t l. induction fuel as [|fuel IH]; intros t l Hp Ht H; cbn [schedule_balancing] in H;
    (destruct (fltb t d); [|by injection H as <-]); [done|].
  destruct (schedule _ _) as [[l1 c1] [[]|ex]] eqn:E; [|done].
  apply schedule_prepared in E as [Hp1 Hc1]; [|done..]. simpl in Hp1, Hc1. subst c1.
  eapply (IH _ l1); [exact Hp1| |exact H]. apply clock_fadd; [done|apply flit_wf|by vm_compute].
Qed.

Lemma failures_prepared enable d l c st' :
  prepared l c → fwf d → fle fzero d → schedule_failures enable d (l, c) = (st', Ok tt) →
  prepared (fst st') (snd st') ∧ snd st' = c.
Proof.
  intros Hp Hw Hd H. unfold schedule_failures in H. apply bind_ok in H as (st1 & nodes & [= <- <-] & H).
  destruct (cc_nodes (cm_config c)) as [|node [|node2 nodes]]; [by injection H as <-..|].
  destruct enable; [|by injection H as <-]. unfold simulate_node_failure in H.
  assert (Hs : ∀ n k, (∃ m e, flit n k = FFin (Zpos m) e) → clock_ok (fmul d (flit n k))).
  { intros n k (m & e & He). pose proof (flit_wf n k) as Hf. rewrite He in *. by apply clock_scale. }
  apply bind_ok in H as ([l1 c1] & [] & H1 & H2).
  apply schedule_prepared in H1 as [Hp1 Hc1]; [|done|done|].
  2:{ apply Hs. eexists _, _. by vm_compute. }
  simpl in Hp1, Hc1. subst c1. eapply schedule_prepared in H2; [done|done|done|].
  apply Hs. eexists _, _. by vm_compute.
Qed.

(** ** Measuring changes no count *)

Definition quiet {A} (m : CM A) : Prop := ∀ st,
  ledger (snd (fst (m st))) = ledger (snd st) ∧ event_queue (fst (fst (m st))) = event_queue (fst st).

Lemma quiet_bind {A B} (m : CM A) (k : A → CM B) : quiet m → (∀ a, quiet (k a)) → quiet (m ≫= k).
Proof.
  intros Hm Hk st. unfold mbind, M_bind. specialize (Hm st). destruct (m st) as [st1 [a|e]]; simpl in *; [|done].
  destruct (Hk a st1) as [-> ->]. done.
Qed.
Lemma quiet_ret {A} (a : A) : quiet (retC a).
Proof. done. Qed.
Lemma quiet_lift {A} (r : res A) : quiet (liftC r).
Proof. done. Qed.
Lemma quiet_see {A} (f : EventLoop → ClusterManager → A) : quiet (see f).
Proof. by intros [l c]. Qed.
Lemma quiet_manager f : (∀ c, ledger (f c) = ledger c) → quiet (on_manager f).
Proof. intros H [l c]. simpl. by rewrite H. Qed.
Lemma quiet_memory_info id : quiet (on_engine_of id get_memory_info).
Proof.
  intros [l c]. unfold on_engine_of. destruct (dict_get (serving_engines c) id) as [e|]; [|done].
  pose proof (outer_memory_info (L := EventLoop) eq (mkES (cm_store c) e l)) as H.
  destruct (get_memory_info _) as [s r]. simpl in *. by rewrite <- H.
Qed.

Ltac quiet_tac := repeat (intros; first
  [ apply quiet_bind | apply quiet_ret | apply quiet_lift | apply quiet_see | apply quiet_memory_info
  | apply quiet_manager; intros; reflexivity
  | match goal with |- quiet (if ?b then _ else _) => destruct b end
  | done ]).

Lemma quiet_used_memories ids : quiet (used_memories ids).
Proof. induction ids; cbn [used_memories]; quiet_tac. Qed.

Lemma quiet_finish py_sum np_mean : quiet (finish_simulation py_sum np_mean).
Proof.
  pose proof quiet_used_memories. unfold finish_simulation, _update_metrics, on_metrics. quiet_tac.
Qed.

(** ** The properties *)

Section Conservation.
Context (md5 : string → Z) (pow15 : Z → res num) (choice : Z → nat → nat) (iter : list ref → list ref)
  (py_sum np_mean : list num → res num) (generate_arrivals : pyfloat → pyfloat → res (list pyfloat))
  (draw_lengths : Z → Z * Z).

Lemma new_manager_prepared config sched es online :
  NoDup online → Forall engine_sane (dict_values es) → prepared EventLoop_init (new_manager config sched es online).
Proof.
  intros Hn Hs. assert (Hc : clock_ok fzero) by (split; [apply fzero_wf|done]).
  split; try done.
  - split; simpl; try done; [apply NoDup_nil_2..|intros id []%not_elem_of_nil|by rewrite app_nil_r].
  - intros id []%not_elem_of_nil.
Qed.

Lemma prepare_prepared d ts l c st' sim :
  prepared l c → generate_arrivals fzero d = Ok ts → Forall clock_ok ts →
  prepare_simulation (base_arrivals generate_arrivals draw_lengths) (Some d) (l, c) = (st', Ok sim) →
  prepared (fst st') (snd st') ∧ sim = d ∧ request_counter (snd st') = request_counter c + Z.of_nat (length ts).
Proof.
  intros Hp Hg Hts H. unfold prepare_simulation, base_arrivals, schedule_request_arrivals in H.
  apply bind_ok in H as (st1 & [] & [= <-] & H). apply bind_ok in H as (st2 & mx & H1 & [= <- <-]).
  apply bind_ok in H1 as (st4 & mx' & H1 & [= <- <-]).
  apply bind_ok in H1 as (st1 & t0 & [= <- <-] & H1). apply bind_ok in H1 as (st1 & ts' & H2 & H1).
  unfold liftC, lift in H2. simpl in H2. rewrite Hg in H2. injection H2 as <- <-.
  apply bind_ok in H1 as (st3 & [] & H1 & [= <- _]).
  apply arrivals_prepared in H1 as [Hp3 Hc3]; [by simpl in Hc3| |done]. by eapply prepared_frame.
Qed.

(** C1.  No request is lost in a simulation: from a new cluster with distinct
    node ids, when [run_simulation] returns, every request generated by the
    arrival process is completed, rejected, still active or still to arrive,
    and counted once; the counters of [metrics] agree with the collections they
    describe, and the offline nodes are the failures not yet recovered.  The
    arrival process is any that meets [ArrivalSource]; the latency estimates of
    the engines must be numbers. *)
Theorem run_simulation_conserves `{!ArrivalSource generate_arrivals} balance_fuel event_fuel d failures config sched es online ts l c :
  NoDup online → Forall engine_sane (dict_values es) → fwf d → fle fzero d →
  generate_arrivals fzero d = Ok ts →
  run_simulation md5 pow15 choice iter py_sum np_mean generate_arrivals draw_lengths balance_fuel event_fuel (Some d)
    failures (EventLoop_init, new_manager config sched es online) = Some ((l, c), Ok tt) →
  Z.of_nat (length ts) = m_completed_requests (metrics c) + m_rejected_requests (metrics c)
    + Z.of_nat (length (cm_active_requests c)) + Z.of_nat (length (arrival_ids (event_queue l))) ∧
  m_completed_requests (metrics c) = Z.of_nat (length (cm_completed_requests c)) ∧
  NoDup (dict_keys (cm_active_requests c)) ∧
  m_node_failures (metrics c) - m_node_recoveries (metrics c) = Z.of_nat (length (offline_nodes c)).
Proof.
  intros Hn Hs Hw Hd Hg H.
  assert (Hts : Forall clock_ok ts).
  { apply arrivals_in_order in Hg as [_ Hg]; [|split; [apply fzero_wf|done]].
    eapply Forall_impl; [exact Hg|]. by intros ? [? _]. }
  unfold run_simulation, run_simulation_with in H.
  destruct (prepare_simulation _ _ _) as [[l1 c1] [sim|ex]] eqn:E1; [|done].
  apply (prepare_prepared _ ts) in E1 as (P1 & -> & C1); [|by apply new_manager_prepared|done|done].
  destruct (schedule_balancing _ _ _ _) as [[[l2 c2] [[]|ex]]|] eqn:E2; [|done|done].
  apply balancing_prepared in E2 as [P2 C2]; [|done|split; [apply flit_wf|by vm_compute]]. simpl in C1, P2, C2. subst c2.
  destruct (schedule_failures _ _ _) as [[l3 c3] [[]|ex]] eqn:E3; [|done].
  apply failures_prepared in E3 as [P3 C3]; [|done..]. simpl in P3, C3. subst c3.
  destruct (run _ _ _ _ _) as [[[l4 c4] [[]|ex]]|] eqn:E4; [|done|done].
  destruct (run_client_inv _ (cluster_inv _) _ _ _ _ _ _ (prepared_state _ _ P3) E4) as (l5 & [] & Hq). simpl in *.
  pose proof (quiet_finish py_sum np_mean (l4, c4)) as [Q1 Q2]. injection H as H. rewrite H in Q1, Q2.
  simpl in Q1, Q2. unfold ledger in Q1. injection Q1 as Q11 Q12 Q13 Q14 Q15 Q16 Q17 Q18 Q19. rewrite Q12, Q13, Q14, Q15, Q16, Q17, Q19, Q2, <- Hq.
  split_and!; try done. lia.
Qed.
End Conservation.

(** C33.  A node failure moves no request: in every state of a simulation,
    handling NODE_OFFLINE schedules no event and leaves the engines and the
    requests as they are, because the deque that [_rebalance_requests] drains
    is never filled; the failed node keeps its requests. *)
Theorem node_offline_moves_nothing n ev l c st' :
  owing n 0 l c → _handle_node_offline ev (l, c) = (st', Ok tt) →
  fst st' = l ∧ serving_engines (snd st') = serving_engines c ∧ cm_active_requests (snd st') = cm_active_requests c.
Proof.
  intros Hi H. unfold _handle_node_offline in H. apply bind_ok in H as (st1 & id & [= <- Hid] & H).
  apply bind_ok in H as (st1 & b & [= <- <-] & H). case_bool_decide; [|by injection H as <-].
  do 2 (apply bind_ok in H as (st1 & [] & [= <-] & H)). unfold _rebalance_requests in H.
  case_bool_decide; [by injection H as <-|]. apply bind_ok in H as (st1 & o & [= <- <-] & H). simpl in H.
  destruct (dict_get (serving_engines c) id) as [e|] eqn:Ee; [|by injection H as <-].
  pose proof (dict_get_sane _ _ _ (ci_engines _ _ _ _ Hi) Ee) as (_ & _ & Hq). rewrite Hq in H.
  apply bind_ok in H as (st1 & [] & [= <-] & H). apply bind_ok in H as (st1 & s0 & [= <- <-] & H).
  apply bind_ok in H as (st1 & t0 & [= <- <-] & H). cbn [for_each] in H. injection H as <-. simpl.
  split_and!; [done| |done]. apply dict_set_same. rewrite Ee. f_equal.
  destruct e as [cfg [] m s t k tr]; simpl in *. by rewrite Hq.
Qed.

(** ** A small cluster

    Two nodes, three requests and a failure of the first node. *)

Definition demo_cluster : dict ServingEngine := [("node_0", demo_engine); ("node_1", demo_engine)].
Definition sum_left (l : list num) : res num := foldR nadd (NI 0) l.
Definition demo_process : DeterministicProcess := mkDeterministic (flit 1 4).
Abbreviation demo_arrivals := (deterministic_arrivals demo_process).
Abbreviation demo_manager :=
  (new_manager demo_config (demo_sched (RoundRobinScheduler 0)) demo_cluster ["node_0"; "node_1"]).
Abbreviation demo_simulation :=
  (run_simulation (fun _ => 0) no_pow first_choice (fun l => l) sum_left sum_left demo_arrivals (fun k => (20, k))
     4 100 (Some (flit 12 1)) true (EventLoop_init, demo_manager)).

Lemma demo_cluster_sane : Forall engine_sane (dict_values demo_cluster).
Proof.
  assert (engine_sane demo_engine).
  { split_and!; [apply demo_timing|split; [apply fzero_wf|by vm_compute]|done]. }
  repeat (apply Forall_cons; split; [done|]). apply Forall_nil_2.
Qed.

Lemma demo_online : NoDup ["node_0"; "node_1"].
Proof. repeat (apply NoDup_cons; split; [set_solver|]). apply NoDup_nil_2. Qed.

Lemma run_simulation_conserves_witness :
  ∃ l c, demo_simulation = Some ((l, c), Ok tt) ∧
    3 = m_completed_requests (metrics c) + m_rejected_requests (metrics c)
      + Z.of_nat (length (cm_active_requests c)) + Z.of_nat (length (arrival_ids (event_queue l))).
Proof.
  destruct demo_simulation as [[[l c] [[]|ex]]|] eqn:E.
  - exists l, c. split; [reflexivity|].
    assert (ArrivalSource demo_arrivals) as Hsrc
      by (apply deterministic_source; eexists _, _; vm_compute; reflexivity).
    eapply (run_simulation_conserves (fun _ => 0) no_pow first_choice (fun l => l) sum_left sum_left demo_arrivals
      (fun k => (20, k)) 4 100 (flit 12 1) true demo_config (demo_sched (RoundRobinScheduler 0)) demo_cluster
      ["node_0"; "node_1"] [fzero; flit 4 1; flit 8 1]).
    + exact demo_online.
    + exact demo_cluster_sane.
    + apply flit_wf.
    + vm_compute. reflexivity.
    + vm_compute. reflexivity.
    + exact E.
  - exfalso. assert (match demo_simulation with Some (_, Ok _) => True | _ => False end) as H by (vm_compute; exact I).
    rewrite E in H. exact H.
  - exfalso. assert (match demo_simulation with Some (_, Ok _) => True | _ => False end) as H by (vm_compute; exact I).
    rewrite E in H. exact H.
Defined.

Abbreviation demo_offline :=
  (_handle_node_offline (mkEvent fzero NODE_OFFLINE "cluster_manager" [("node_id", VStr "node_0")] HIGHEST)
     (EventLoop_init, demo_manager)).

Lemma node_offline_moves_nothing_witness :
  demo_offline = (fst demo_offline, Ok tt) ∧ offline_nodes (snd (fst demo_offline)) = ["node_0"] ∧
  serving_engines (snd (fst demo_offline)) = demo_cluster.
Proof.
  assert (demo_offline = (fst demo_offline, Ok tt)) as H by (apply returned; vm_compute; reflexivity).
  split; [exact H|]. split; [vm_compute; reflexivity|].
  assert (cluster_inv 0 EventLoop_init demo_manager) as Hi
    by (apply (pr_inv EventLoop_init demo_manager), new_manager_prepared; [exact demo_online|exact demo_cluster_sane]).
  apply (node_offline_moves_nothing 0
    (mkEvent fzero NODE_OFFLINE "cluster_manager" [("node_id", VStr "node_0")] HIGHEST) EventLoop_init demo_manager _ Hi H).
Defined.
