(* ===== verification/Placement.v ===== *)
(** * The static placement planner

    Models [simulator/core/placement.py]: how physical machines are split into
    replicas of models.  The two greedy strategies assign machines one by one;
    the search strategy enumerates the ways to divide the machines among the
    workloads and simulates each.

    Parameters: the model hub, [int(math.log2(n))], and for the search the
    parameters of a simulation and NumPy's draws. *)

From Stdlib Require Import QArith Sorted.
From S2P Require Import Prelude PyFloat PyStr Events Request Config Analyzer Memory Trace Engine Scheduler.
From S2P Require Import Arrival ClusterManager.

#[local] Open Scope string_scope.
#[local] Open Scope list_scope.
#[local] Open Scope Z_scope.

Record PhysicalNodeConfig := mkPhysical {
  gpu_type : string;
  pn_count : Z;
  gpus_per_node : Z;
  cost : pyfloat;
}.

(** [WorkloadConfig], with the two methods of its arrival process that are used. *)
Record WorkloadConfig := mkWorkload {
  wl_model_id : string;
  wl_rate : pyfloat;
  wl_generate_arrivals : pyfloat → pyfloat → res (list pyfloat);
  wl_duration : pyfloat;
  wl_input_dist : string * list num;
  wl_output_dist : string * list num;
  wl_tensor_parallel_size : option Z;
}.

(** ** Python's [min] *)

(** [min(l, key=key)]: the first of the smallest. *)
Fixpoint min_from {A K} (key : A → res K) (lt : K → K → bool) (best : K * A) (l : list A) : res A :=
  match l with
  | [] => Ok (snd best)
  | x :: l' => k ← key x; min_from key lt (if lt k (fst best) then (k, x) else best) l'
  end.
Definition py_min {A K} (key : A → res K) (lt : K → K → bool) (l : list A) : res A :=
  match l with
  | [] => Raise (ValueError "min() iterable argument is empty")
  | x :: l' => k ← key x; min_from key lt (k, x) l'
  end.

(** ** Which tensor-parallel size fits *)

Section Strategies.
Context (pretrained : string → res attrs) (log2_int : Z → res Z).

Definition config_module (model_id : string) : option ModelConfig :=
  if contains "llama" (lower model_id) || contains "Llama" model_id then Some llama else None.

(** The memory a forward pass of one token needs on one GPU. *)
Definition footprint (c : ModelConfig) (model_id hardware : string) (tp_size : Z) : res num :=
  params ← pretrained model_id;
  an ← analyze (mkAnalyzer hardware params (Some c)) 1 1 16 16 None tp_size;
  dict_index (an_total_prefill an) "memory_consumption".

Definition _estimate_model_memory (model_id : string) : num :=
  match config_module model_id with
  | None => NI 0
  | Some c => match footprint c model_id "NVDA:A100" 1 with Ok m => m | Raise _ => NI 0 end
  end.

Definition _check_fits (memory_threshold : pyfloat) (hardware model_id : string) (tp_size : Z) : bool :=
  match config_module model_id with
  | None => false
  | Some c =>
      match total_mem_needed ← footprint c model_id hardware tp_size;
            spec ← dict_index hardware_params hardware;
            Ok (nltb total_mem_needed (NF (fmul (vmemory spec) memory_threshold))) with
      | Ok b => b
      | Raise _ => false
      end
  end.

Fixpoint first_fit (fits : Z → bool) (max_tp : Z) (candidates : list Z) : Z :=
  match candidates with
  | [] => max_tp + 1
  | tp :: rest => if max_tp <? tp then max_tp + 1 else if fits tp then tp else first_fit fits max_tp rest
  end.

Definition _find_min_tp_size (memory_threshold : pyfloat) (hardware model_id : string) (max_tp : Z) : Z :=
  match log2_int max_tp with
  | Raise _ => 1
  | Ok k => first_fit (_check_fits memory_threshold hardware model_id) max_tp (map (Z.pow 2) (zrange 0 (k + 1)))
  end.

(** ** What the greedy strategies share *)

Definition individual_nodes (physical_nodes : list PhysicalNodeConfig) : list PhysicalNodeConfig :=
  concat (map (fun p => replicate (Z.to_nat (pn_count p)) (mkPhysical (gpu_type p) 1 (gpus_per_node p) (cost p)))
            physical_nodes).

Definition node_memory (n : PhysicalNodeConfig) : res pyfloat :=
  spec ← dict_index hardware_params (gpu_type n); Ok (vmemory spec).

(** The tensor-parallel size a workload would use on a node. *)
Definition min_tp (memory_threshold : pyfloat) (n : PhysicalNodeConfig) (wl : WorkloadConfig) : Z :=
  match wl_tensor_parallel_size wl with
  | Some tp => tp
  | None => _find_min_tp_size memory_threshold (gpu_type n) (wl_model_id wl) (gpus_per_node n)
  end.

Definition compatible_workloads (memory_threshold : pyfloat) (n : PhysicalNodeConfig) (wls : list WorkloadConfig)
    : list (WorkloadConfig * Z) :=
  filter (fun '(_, tp) => tp ≤ gpus_per_node n) (map (fun wl => (wl, min_tp memory_threshold n wl)) wls).

Definition logical_node (counter : Z) (model_id hardware : string) (tp : Z) : NodeConfiguration :=
  mkNode ("node_" +:+ str_of_int counter) model_id hardware 2048 (PConfig (mkParallel tp 1)).

(** [replicas] logical nodes, numbered from [counter]. *)
Definition logical_nodes (counter replicas : Z) (model_id hardware : string) (tp : Z) : list NodeConfiguration :=
  map (fun c => logical_node c model_id hardware tp) (zrange counter replicas).

Record Plan := mkPlan { pl_nodes : list NodeConfiguration; pl_counter : Z; pl_cost : pyfloat; pl_counts : dict Z }.

(** One machine: [key] ranks the compatible workloads, [weight] is what the
    machine adds to the count of the chosen one. *)
Definition assign_node (memory_threshold : pyfloat) (wls : list WorkloadConfig)
    (key : dict Z → WorkloadConfig * Z → res num) (weight : Z → Z) (pl : Plan) (n : PhysicalNodeConfig) : res Plan :=
  let compatible := compatible_workloads memory_threshold n wls in
  if is_nil compatible then Ok pl
  else
    '(wl, tp) ← py_min (key (pl_counts pl)) nltb compatible;
    replicas ← floordiv (gpus_per_node n) tp;
    count ← dict_index (pl_counts pl) (wl_model_id wl);
    Ok (mkPlan (pl_nodes pl ++ logical_nodes (pl_counter pl) replicas (wl_model_id wl) (gpu_type n) tp)
          (pl_counter pl + Z.max 0 replicas) (fadd (pl_cost pl) (cost n))
          (dict_set (pl_counts pl) (wl_model_id wl) (count + weight replicas))).

Definition zero_counts (wls : list WorkloadConfig) : dict Z :=
  fold_left (fun d wl => dict_set d (wl_model_id wl) 0) wls [].
Definition empty_plan (wls : list WorkloadConfig) : Plan := mkPlan [] 0 fzero (zero_counts wls).

(** Machines of one type given to a workload by the search. *)
Record Assignment := mkAssign {
  as_workload : nat; as_gpu_type : string; as_count : Z; as_gpus : Z; as_tp : Z; as_cost : pyfloat }.

Inductive Report :=
  | NoWorkloads (strategy : string)
  | MaximizeReplicas (replica_counts : dict Z) (hourly_cost : pyfloat)
  | WorkloadBalanced (load_scores target_replicas : dict num) (final_replicas : dict Z) (hourly_cost : pyfloat)
  | SimulationSearch (best_throughput : num) (candidates : list (nat * num * num * list Assignment)).

Definition placement : Type := list NodeConfiguration * Report.

(** ** [MaximizeReplicasStrategy] *)

Definition replica_key (counts : dict Z) (x : WorkloadConfig * Z) : res num :=
  n ← dict_index counts (wl_model_id (fst x)); Ok (NI n).

Definition maximize_replicas_place (memory_threshold : pyfloat) (physical_nodes : list PhysicalNodeConfig)
    (workloads : list WorkloadConfig) : res placement :=
  if is_nil workloads then Ok ([], NoWorkloads "maximize_replicas")
  else
    nodes ← py_sorted node_memory fltb (individual_nodes physical_nodes);
    sorted_workloads ← py_sorted (fun wl => Ok (_estimate_model_memory (wl_model_id wl))) (fun a b => nltb b a) workloads;
    pl ← foldR (assign_node memory_threshold sorted_workloads replica_key (fun r => r)) (empty_plan workloads) nodes;
    Ok (pl_nodes pl, MaximizeReplicas (pl_counts pl) (pl_cost pl)).

(** ** [WorkloadBalancedPlacementStrategy] *)

Definition index0 {A} (l : list A) (i : nat) : res A := of_option IndexError (l !! i).

Definition _get_mean_from_dist (dist : string * list num) : res num :=
  let '(dist_type, params) := dist in
  if bool_decide (dist_type = "Poisson") then index0 params 0
  else if bool_decide (dist_type = "Normal") then index0 params 0
  else if bool_decide (dist_type = "Uniform") then
    a ← index0 params 0; b ← index0 params 1; s ← nadd a b; ndiv s (NI 2)
  else if bool_decide (dist_type = "Constant") then index0 params 0
  else Ok (NF (flit 100 1)).

Definition load_scores (workloads : list WorkloadConfig) : res (dict num * num) :=
  foldR (fun '(scores, total) wl =>
    avg_input ← _get_mean_from_dist (wl_input_dist wl);
    avg_output ← _get_mean_from_dist (wl_output_dist wl);
    len ← nadd avg_input avg_output;
    score ← nmul (NF (wl_rate wl)) len;
    total' ← nadd total score;
    Ok (dict_set scores (wl_model_id wl) score, total')) ([], NF fzero) workloads.

Definition target_replicas (workloads : list WorkloadConfig) (scores : dict num) (total_load : num) (total_nodes : Z)
    : res (dict num) :=
  foldR (fun targets wl =>
    target ← (if nltb (NI 0) total_load then
                score ← dict_index scores (wl_model_id wl);
                share ← ndiv score total_load;
                nmul share (NI total_nodes)
              else ndiv (NI total_nodes) (NI (Z.of_nat (length workloads))));
    Ok (dict_set targets (wl_model_id wl) target)) [] workloads.

Definition get_saturation_ratio (targets : dict num) (counts : dict Z) (x : WorkloadConfig * Z) : res num :=
  target ← dict_index targets (wl_model_id (fst x));
  if neqb target (NI 0) then Ok (NF fpinf)
  else n ← dict_index counts (wl_model_id (fst x)); ndiv (NI n) target.

Definition workload_balanced_place (memory_threshold : pyfloat) (physical_nodes : list PhysicalNodeConfig)
    (workloads : list WorkloadConfig) : res placement :=
  if is_nil workloads then Ok ([], NoWorkloads "workload_balanced")
  else
    '(scores, total_load) ← load_scores workloads;
    nodes ← py_sorted node_memory (fun a b => fltb b a) (individual_nodes physical_nodes);
    targets ← target_replicas workloads scores total_load (Z.of_nat (length nodes));
    pl ← foldR (assign_node memory_threshold workloads (get_saturation_ratio targets) (fun _ => 1)) (empty_plan workloads) nodes;
    Ok (pl_nodes pl, WorkloadBalanced scores targets (pl_counts pl) (pl_cost pl)).

(** ** [SimulationSearchPlacementStrategy] *)

(** [generate_partitions(n, k)], for [k] of at least 1: the code does not
    return for a smaller one. *)
Fixpoint generate_partitions (n : Z) (k : nat) : list (list Z) :=
  match k with
  | O => []
  | S O => [[n]]
  | S k' => concat (map (fun i => map (cons i) (generate_partitions (n - i) k')) (zrange 0 (n + 1)))
  end.

(** [itertools.product] of a list of lists. *)
Fixpoint product {A} (ls : list (list A)) : list (list A) :=
  match ls with
  | [] => [[]]
  | l :: ls' => concat (map (fun x => map (cons x) (product ls')) l)
  end.

Definition node_groups (physical_nodes : list PhysicalNodeConfig) : dict Z :=
  fold_left (fun d p => dict_set d (gpu_type p) (dict_get_default d (gpu_type p) 0 + pn_count p)) physical_nodes [].

(** The machines of one type, divided as [partition]; [None] when a model does
    not fit on the type. *)
Fixpoint assign_type (memory_threshold : pyfloat) (p : PhysicalNodeConfig) (workloads : list WorkloadConfig) (i : nat)
    (partition : list Z) : option (list Assignment) :=
  match workloads, partition with
  | wl :: wls, count :: rest =>
      if 0 <? count then
        let tp := min_tp memory_threshold p wl in
        if gpus_per_node p <? tp then None
        else later ← assign_type memory_threshold p wls (S i) rest;
             Some (mkAssign i (gpu_type p) count (gpus_per_node p) tp (cost p) :: later)
      else assign_type memory_threshold p wls (S i) rest
  | _, _ => Some []
  end.

(** A candidate: a partition per GPU type.  The outer [None] is an invalid
    candidate. *)
Fixpoint assign_all (memory_threshold : pyfloat) (physical_nodes : list PhysicalNodeConfig)
    (workloads : list WorkloadConfig) (types : list string) (combination : list (list Z))
    : res (option (list Assignment)) :=
  match types, combination with
  | t :: types', partition :: rest =>
      p ← of_option (OtherException "StopIteration") (head (filter (fun n => gpu_type n = t) physical_nodes));
      match assign_type memory_threshold p workloads 0 partition with
      | None => Ok None
      | Some now =>
          later ← assign_all memory_threshold physical_nodes workloads types' rest;
          Ok (later' ← later; Some (now ++ later'))
      end
  | _, _ => Ok (Some [])
  end.

(** The logical nodes and the cost of a candidate. *)
Definition candidate_step (workloads : list WorkloadConfig) (st : list NodeConfiguration * Z * num) (a : Assignment)
    : res (list NodeConfiguration * Z * num) :=
  let '(nodes, counter, c) := st in
  price ← nmul (NI (as_count a)) (NF (as_cost a));
  c' ← nadd c price;
  replicas ← floordiv (as_gpus a) (as_tp a);
  wl ← index0 workloads (as_workload a);
  let n := Z.max 0 replicas * as_count a in
  Ok (nodes ++ logical_nodes counter n (wl_model_id wl) (as_gpu_type a) (as_tp a), counter + n, c').

(** [workload_assignments], workload by workload. *)
Definition workload_assignments (workloads : list WorkloadConfig) (assigns : list Assignment) : list Assignment :=
  concat (map (fun i => filter (fun a => as_workload a = i) assigns) (seq 0 (length workloads))).

Definition build_candidate (workloads : list WorkloadConfig) (assigns : list Assignment) : res (list NodeConfiguration * num) :=
  '(nodes, _, c) ← foldR (candidate_step workloads) ([], 0, NF fzero) (workload_assignments workloads assigns);
  Ok (nodes, c).

Section Search.
Context (md5 : string → Z) (pow15 : Z → res num) (choice : Z → nat → nat) (iter : list ref → list ref)
  (py_sum np_mean : list num → res num) (draw_normal draw_uniform : num → num → Z → num).

(** [sample(dist)], the [k]-th draw. *)
Definition sample_length (dist : string * list num) (k : Z) : res Z :=
  let '(dtype, params) := dist in
  if bool_decide (dtype = "Normal") then
    a ← index0 params 0; b ← index0 params 1; n ← nint (draw_normal a b k); Ok (Z.max 1 n)
  else if bool_decide (dtype = "Uniform") then
    a ← index0 params 0; b ← index0 params 1; n ← nint (draw_uniform a b k); Ok (Z.max 1 n)
  else if bool_decide (dtype = "Constant") then a ← index0 params 0; nint a
  else Ok 100.

Definition sim_schedule_arrival (wl : WorkloadConfig) (t : pyfloat) : CM unit :=
  on_manager (fun c => set_counter (request_counter c + 1) c) ;;
  n ← see (fun _ c => request_counter c);
  inp ← liftC (sample_length (wl_input_dist wl) (2 * n));
  out ← liftC (sample_length (wl_output_dist wl) (2 * n + 1));
  schedule (mkEvent t REQUEST_ARRIVAL "cluster_manager"
    [("request_id", VStr ("req_" +:+ str_of_int n)); ("model", VStr (wl_model_id wl)); ("input_length", VInt inp);
     ("output_length", VInt out)] MEDIUM).

(** [SimClusterManager.schedule_request_arrivals], which returns nothing. *)
Definition sim_schedule_request_arrivals (workloads : list WorkloadConfig) (duration : option pyfloat)
    : CM (option pyfloat) :=
  match duration with
  | None => raise (TypeError "duration")
  | Some duration =>
      for_each (fun wl =>
        start ← see (fun _ c => start_time c);
        times ← liftC (wl_generate_arrivals wl start duration);
        for_each (sim_schedule_arrival wl) times) workloads ;;
      retC None
  end.

(** The throughput of a candidate in a simulation; [None] when the fuel is spent. *)
Definition simulate_candidate (balance_fuel event_fuel : nat) (simulation_duration : pyfloat)
    (workloads : list WorkloadConfig) (i : nat) (nodes : list NodeConfiguration) : option (res num) :=
  match ClusterManager_init pretrained
          (mkCluster ("sim_search_" +:+ str_of_int (Z.of_nat i)) nodes "round_robin" None) with
  | Raise ex => Some (Raise ex)
  | Ok c =>
      match run_simulation_with md5 pow15 choice iter py_sum np_mean (sim_schedule_request_arrivals workloads)
              balance_fuel event_fuel (Some simulation_duration) false (EventLoop_init, c) with
      | None => None
      | Some (_, Raise ex) => Some (Raise ex)
      | Some ((_, c'), Ok _) => Some (Ok (m_throughput (metrics c')))
      end
  end.

Record SearchState := mkSearch {
  se_config : list NodeConfiguration; se_throughput : num; se_candidates : list (nat * num * num * list Assignment) }.

(** One candidate of the search. *)
Definition search_step (balance_fuel event_fuel : nat) (memory_threshold simulation_duration : pyfloat)
    (physical_nodes : list PhysicalNodeConfig) (workloads : list WorkloadConfig) (types : list string)
    (s : SearchState) (ic : nat * list (list Z)) : option (res SearchState) :=
  let '(i, combination) := ic in
  match assign_all memory_threshold physical_nodes workloads types combination with
  | Raise ex => Some (Raise ex)
  | Ok None => Some (Ok s)
  | Ok (Some assigns) =>
      match build_candidate workloads assigns with
      | Raise ex => Some (Raise ex)
      | Ok (nodes, price) =>
          if is_nil nodes then Some (Ok s)
          else
            match simulate_candidate balance_fuel event_fuel simulation_duration workloads i nodes with
            | None => None
            | Some (Raise _) => Some (Ok s)
            | Some (Ok throughput) =>
                let better := nltb (se_throughput s) throughput in
                Some (Ok (mkSearch (if better then nodes else se_config s)
                            (if better then throughput else se_throughput s)
                            (se_candidates s ++ [(i, throughput, price, workload_assignments workloads assigns)])))
            end
      end
  end.

Fixpoint search_loop (step : SearchState → nat * list (list Z) → option (res SearchState)) (s : SearchState)
    (cs : list (nat * list (list Z))) : option (res SearchState) :=
  match cs with
  | [] => Some (Ok s)
  | ic :: cs' => match step s ic with Some (Ok s') => search_loop step s' cs' | other => other end
  end.

Definition simulation_search_place (balance_fuel event_fuel : nat) (memory_threshold simulation_duration : pyfloat)
    (physical_nodes : list PhysicalNodeConfig) (workloads : list WorkloadConfig) : option (res placement) :=
  if is_nil workloads then Some (Ok ([], NoWorkloads "simulation_search"))
  else
    let groups := node_groups physical_nodes in
    let types := dict_keys groups in
    let combinations := product (map (fun count => generate_partitions count (length workloads)) (dict_values groups)) in
    match search_loop (search_step balance_fuel event_fuel memory_threshold simulation_duration physical_nodes workloads types)
            (mkSearch [] (NF (flit (-1) 1)) []) (zip (seq 0 (length combinations)) combinations) with
    | None => None
    | Some (Raise ex) => Some (Raise ex)
    | Some (Ok s) => Some (Ok (se_config s, SimulationSearch (se_throughput s) (se_candidates s)))
    end.

(** ** [PlacementDecisionMaker] *)

Inductive Strategy := StMaximizeReplicas | StWorkloadBalanced | StSimulationSearch.

Definition _get_strategy (name : string) : res Strategy :=
  if bool_decide (name = "maximize_replicas") then Ok StMaximizeReplicas
  else if bool_decide (name = "workload_balanced") then Ok StWorkloadBalanced
  else if bool_decide (name = "simulation_search") then Ok StSimulationSearch
  else Raise (ValueError ("Unknown placement strategy: " +:+ name)).

Definition decision_place (balance_fuel event_fuel : nat) (s : Strategy) (memory_threshold : pyfloat)
    (physical_nodes : list PhysicalNodeConfig) (workloads : list WorkloadConfig) : option (res placement) :=
  match s with
  | StMaximizeReplicas => Some (maximize_replicas_place memory_threshold physical_nodes workloads)
  | StWorkloadBalanced => Some (workload_balanced_place memory_threshold physical_nodes workloads)
  | StSimulationSearch =>
      simulation_search_place balance_fuel event_fuel memory_threshold (flit 10 1) physical_nodes workloads
  end.
End Search.
End Strategies.

(** ** Partitions *)

Lemma NoDup_concat_map {A B} (f : A → list B) (l : list A) :
  NoDup l → (∀ x, x ∈ l → NoDup (f x)) → (∀ x y z, x ∈ l → y ∈ l → z ∈ f x → z ∈ f y → x = y) →
  NoDup (concat (map f l)).
Proof.
  induction 1 as [|x l Hx Hl IH]; intros Hf Hd; simpl; [apply NoDup_nil_2|]. apply NoDup_app. split_and!.
  - apply Hf. left.
  - intros z Hz Hin. apply list_elem_of_In, in_concat in Hin as (ys & Hys & Hzy).
    apply list_elem_of_In in Hys, Hzy. apply list_elem_of_fmap in Hys as (y & -> & Hy).
    apply Hx. rewrite (Hd x y z); [done|left|by right|done|done].
  - apply IH; [intros; apply Hf; by right|]. intros a b z Ha Hb. apply Hd; by right.
Qed.

Lemma elem_of_concat_map {A B} (f : A → list B) (l : list A) z : z ∈ concat (map f l) ↔ ∃ x, x ∈ l ∧ z ∈ f x.
Proof.
  rewrite list_elem_of_In, in_concat. split.
  - intros (ys & Hys & Hz). apply list_elem_of_In in Hys, Hz. apply list_elem_of_fmap in Hys as (x & -> & Hx). eauto.
  - intros (x & Hx & Hz). exists (f x). rewrite <- !list_elem_of_In. split; [|done]. apply list_elem_of_fmap. eauto.
Qed.

Definition is_partition (n : Z) (k : nat) (p : list Z) : Prop := length p = k ∧ Forall (Z.le 0) p ∧ zsum p = n.

Lemma partition_nonneg p : Forall (Z.le 0) p → 0 ≤ zsum p.
Proof. induction 1; simpl; lia. Qed.

(** The search enumerates every way to divide [n] machines of a type among
    [k] workloads, each exactly once: the tuples of [k] non-negative numbers
    that add up to [n]. *)
Theorem partitions_exact n k :
  0 ≤ n → (1 ≤ k)%nat →
  NoDup (generate_partitions n k) ∧ ∀ p, p ∈ generate_partitions n k ↔ is_partition n k p.
Proof.
  revert n. induction k as [|k IH]; [lia|]. intros n Hn _. destruct k as [|k].
  { simpl. split; [apply NoDup_singleton|]. intros p. rewrite list_elem_of_singleton. split.
    - intros ->. split_and!; [done|by repeat constructor|simpl; lia].
    - intros (Hl & _ & Hs). destruct p as [|x [|]]; try done. simpl in Hs. f_equal. lia. }
  cbn [generate_partitions]. split.
  - apply NoDup_concat_map; [apply NoDup_zrange| |].
    + intros i Hi%elem_of_zrange. apply NoDup_fmap_2; [by intros ? ? [=]|]. apply IH; lia.
    + intros i j z _ _ Hi Hj. apply list_elem_of_fmap in Hi as (a & -> & _), Hj as (b & [= ->] & _). done.
  - intros p. rewrite elem_of_concat_map. split.
    + intros (i & Hi%elem_of_zrange & Hp). apply list_elem_of_fmap in Hp as (q & -> & Hq).
      apply IH in Hq as (H1 & H2 & H3); [|lia|lia]. split_and!; [simpl; lia|constructor; [lia|done]|simpl; lia].
    + intros (Hl & Hp & Hs). destruct p as [|i q]; [done|]. inversion_clear Hp. simpl in Hs, Hl.
      pose proof (partition_nonneg q ltac:(done)). exists i. rewrite elem_of_zrange. split; [lia|].
      apply list_elem_of_fmap. exists q. split; [done|]. apply IH; [lia..|]. split_and!; [lia|done|lia].
Qed.

(** ** The least tensor-parallel size *)

(** What the platform documents of [int(math.log2(n))]: the logarithm rounded
    down, or one more when the float nearest to it is the next integer, and a
    domain error below 1. *)
Class Log2Int (log2_int : Z → res Z) : Prop := {
  log2_int_pos : ∀ n, 0 < n → ∃ k, log2_int n = Ok k ∧ Z.log2 n ≤ k ≤ Z.log2 n + 1;
  log2_int_neg : ∀ n, n ≤ 0 → ∃ ex, log2_int n = Raise ex;
}.

Lemma zrange_cons from n : 0 < n → zrange from n = from :: zrange (from + 1) (n - 1).
Proof.
  intros Hn. unfold zrange. replace (Z.to_nat n) with (S (Z.to_nat (n - 1))) by lia. cbn [seq map].
  f_equal; [lia|]. rewrite <- seq_shift, map_map. apply map_ext. intros. lia.
Qed.

Lemma zrange_nil from n : n ≤ 0 → zrange from n = [].
Proof. intros Hn. unfold zrange. by replace (Z.to_nat n) with 0%nat by lia. Qed.

Lemma first_fit_spec (fits : Z → bool) max_tp n i :
  1 ≤ max_tp → 0 ≤ i → Z.log2 max_tp < i + Z.of_nat n →
  let r := first_fit fits max_tp (map (Z.pow 2) (zrange i (Z.of_nat n))) in
  (∃ j, i ≤ j ∧ r = 2 ^ j ∧ r ≤ max_tp ∧ fits r = true ∧ ∀ j', i ≤ j' < j → fits (2 ^ j') = false) ∨
  (r = max_tp + 1 ∧ ∀ j, i ≤ j → 2 ^ j ≤ max_tp → fits (2 ^ j) = false).
Proof.
  intros Hmax. revert i. induction n as [|n IH]; intros i Hi Hn; cbv zeta.
  { rewrite zrange_nil by lia. right. split; [done|]. intros j Hj Hle.
    pose proof (proj2 (Z.log2_lt_pow2 max_tp j ltac:(lia)) ltac:(lia)). lia. }
  rewrite zrange_cons by lia. replace (Z.of_nat (S n) - 1) with (Z.of_nat n) by lia. cbn [map first_fit].
  destruct (Z.ltb_spec max_tp (2 ^ i)) as [Hlt|Hle].
  { right. split; [done|]. intros j Hj Hle. pose proof (Z.pow_le_mono_r 2 i j ltac:(lia) Hj). lia. }
  destruct (fits (2 ^ i)) eqn:Ef; [left; exists i; split_and!; [lia|done|done|done|intros; lia]|].
  destruct (IH (i + 1)) as [(j & H1 & H2 & H3 & H4 & H5)|[H1 H2]]; [lia|lia|left|right].
  - exists j. split_and!; [lia|done..|]. intros j' Hj'. destruct (decide (j' = i)) as [->|]; [done|]. apply H5. lia.
  - split; [done|]. intros j Hj Hj2. destruct (decide (j = i)) as [->|]; [done|]. apply H2; [lia|done].
Qed.

(** [_find_min_tp_size] finds the least power of two, up to the GPUs of
    the machine, with which the model fits; when none does it answers one more
    than the machine has, which no caller accepts. *)
Theorem find_min_tp_correct pretrained log2_int `{!Log2Int log2_int} threshold hw model max_tp :
  1 ≤ max_tp →
  let fits := _check_fits pretrained threshold hw model in
  let r := _find_min_tp_size pretrained log2_int threshold hw model max_tp in
  (∃ j, 0 ≤ j ∧ r = 2 ^ j ∧ r ≤ max_tp ∧ fits r = true ∧ ∀ j', 0 ≤ j' < j → fits (2 ^ j') = false) ∨
  (r = max_tp + 1 ∧ ∀ j, 0 ≤ j → 2 ^ j ≤ max_tp → fits (2 ^ j) = false).
Proof.
  intros Hmax fits r. unfold r, _find_min_tp_size. destruct (log2_int_pos max_tp) as (k & -> & Hk); [lia|].
  pose proof (Z.log2_nonneg max_tp).
  replace (k + 1) with (Z.of_nat (Z.to_nat (k + 1))) by lia. apply first_fit_spec; lia.
Qed.

(** ** [min] *)

Lemma min_from_in {A K} (key : A → res K) lt best l x : min_from key lt best l = Ok x → x = snd best ∨ x ∈ l.
Proof.
  revert best. induction l as [|y l IH]; intros best H; simpl in H; [injection H as <-; by left|].
  destruct (key y) as [k|]; [|done]. apply IH in H as [->|Hin]; [|right; by right].
  destruct (lt k (fst best)); [right; left|by left].
Qed.

Lemma py_min_in {A K} (key : A → res K) lt l x : py_min key lt l = Ok x → x ∈ l.
Proof.
  destruct l as [|y l]; simpl; [done|]. destruct (key y) as [k|]; [|done]. intros H.
  apply min_from_in in H as [->|H]; [left|by right].
Qed.

(** ** Machines as slots

    What a plan says of the hardware: the machines used, each with a workload
    and a tensor-parallel size, in the order they were assigned. *)

Record Slot := mkSlot { sl_node : PhysicalNodeConfig; sl_workload : WorkloadConfig; sl_tp : Z }.

Definition replicas (s : Slot) : Z := gpus_per_node (sl_node s) / sl_tp s.

Definition slot_nodes (counter : Z) (s : Slot) : list NodeConfiguration :=
  logical_nodes counter (replicas s) (wl_model_id (sl_workload s)) (gpu_type (sl_node s)) (sl_tp s).

Fixpoint expand (counter : Z) (slots : list Slot) : list NodeConfiguration :=
  match slots with
  | [] => []
  | s :: rest => slot_nodes counter s ++ expand (counter + Z.max 0 (replicas s)) rest
  end.

Definition total_replicas (slots : list Slot) : Z := zsum (map (fun s => Z.max 0 (replicas s)) slots).
Definition total_cost (slots : list Slot) : pyfloat := fold_left fadd (map (fun s => cost (sl_node s)) slots) fzero.

Lemma expand_snoc counter slots s :
  expand counter (slots ++ [s]) = expand counter slots ++ slot_nodes (counter + total_replicas slots) s.
Proof.
  revert counter. unfold total_replicas. induction slots as [|s0 slots IH]; intros counter; simpl.
  - by rewrite app_nil_r, Z.add_0_r.
  - rewrite IH, <- app_assoc. do 2 f_equal. f_equal. lia.
Qed.

Lemma zrange_max from n : zrange from n = zrange from (Z.max 0 n).
Proof. unfold zrange. do 2 f_equal. lia. Qed.

(** Logical nodes are numbered consecutively. *)
Lemma expand_ids counter slots :
  map nc_node_id (expand counter slots) =
  map (fun i => "node_" +:+ str_of_int i) (zrange counter (total_replicas slots)).
Proof.
  revert counter. unfold total_replicas. induction slots as [|s slots IH]; intros counter; simpl; [done|].
  rewrite map_app, IH. unfold slot_nodes, logical_nodes. rewrite map_map. cbn [nc_node_id logical_node].
  assert (0 ≤ zsum (map (fun s => Z.max 0 (replicas s)) slots)) by (apply partition_nonneg, Forall_map, Forall_forall; lia).
  by rewrite zrange_app, map_app, <- zrange_max by lia.
Qed.

Lemma expand_ids_NoDup slots : NoDup (map nc_node_id (expand 0 slots)).
Proof.
  rewrite expand_ids. apply NoDup_fmap_2; [|apply NoDup_zrange]. intros i j H. simplify_eq. by apply (inj pretty).
Qed.

Section Greedy.
Context (pretrained : string → res attrs) (log2_int : Z → res Z) (threshold : pyfloat).
Context (wls : list WorkloadConfig) (key : dict Z → WorkloadConfig * Z → res num) (weight : Z → Z).
Abbreviation tp_for := (min_tp pretrained log2_int threshold).
Abbreviation assign := (assign_node pretrained log2_int threshold wls key weight).

Definition slot_ok (s : Slot) : Prop :=
  sl_workload s ∈ wls ∧ sl_tp s = tp_for (sl_node s) (sl_workload s) ∧ sl_tp s ≤ gpus_per_node (sl_node s).

(** The plan [pl] is what [slots] describe. *)
Record describes (slots : list Slot) (pl : Plan) : Prop := {
  de_nodes : pl_nodes pl = expand 0 slots;
  de_counter : pl_counter pl = total_replicas slots;
  de_cost : pl_cost pl = total_cost slots;
}.

Lemma compatible_in n wl tp :
  (wl, tp) ∈ compatible_workloads pretrained log2_int threshold n wls → slot_ok (mkSlot n wl tp).
Proof.
  unfold compatible_workloads. intros [Hle Hin]%list_elem_of_filter.
  apply list_elem_of_fmap in Hin as (wl' & [= -> ->] & Hin). by split_and!.
Qed.

(** A machine is skipped, or becomes a slot. *)
Lemma assign_cases pl n pl' :
  assign pl n = Ok pl' →
  (pl' = pl ∧ compatible_workloads pretrained log2_int threshold n wls = []) ∨
  ∃ wl tp count, let s := mkSlot n wl tp in
    slot_ok s ∧ tp ≠ 0 ∧
    py_min (key (pl_counts pl)) nltb (compatible_workloads pretrained log2_int threshold n wls) = Ok (wl, tp) ∧
    dict_get (pl_counts pl) (wl_model_id wl) = Some count ∧
    pl_counts pl' = dict_set (pl_counts pl) (wl_model_id wl) (count + weight (replicas s)) ∧
    ∀ slots, describes slots pl → describes (slots ++ [s]) pl'.
Proof.
  unfold assign_node. destruct (compatible_workloads _ _ _ n wls) as [|x l] eqn:Ec.
  { intros [= <-]. by left. }
  cbn [is_nil]. rewrite <- Ec. intros H. right.
  destruct (py_min _ _ _) as [[wl tp]|] eqn:Em; [|done]. cbn [mbind res_bind] in H.
  unfold mbind, res_bind, floordiv in H. destruct (Z.eqb_spec tp 0) as [|Htp]; [done|].
  unfold dict_index, of_option in H. destruct (dict_get (pl_counts pl) (wl_model_id wl)) as [count|] eqn:Ed; [|done].
  injection H as <-. exists wl, tp, count. cbv zeta. pose proof (py_min_in _ _ _ _ Em) as Hin.
  split_and!; [by apply compatible_in|done|done|done|done|].
  intros slots [D1 D2 D3]. split; simpl.
  - rewrite expand_snoc, D1, D2. done.
  - unfold total_replicas in *. rewrite map_app, zsum_app, D2. simpl. unfold replicas. simpl. lia.
  - unfold total_cost in *. by rewrite map_app, fold_left_app, D3.
Qed.

Lemma assign_all_slots nodes pl pl' slots :
  foldR assign pl nodes = Ok pl' → describes slots pl →
  ∃ more, describes (slots ++ more) pl' ∧ Forall slot_ok more ∧ sublist (map sl_node more) nodes.
Proof.
  revert pl slots. induction nodes as [|n nodes IH]; intros pl slots H Hd; simpl in H.
  { injection H as <-. exists []. rewrite app_nil_r. split_and!; [done|constructor|constructor]. }
  destruct (assign pl n) as [pl1|] eqn:E; [|done].
  destruct (assign_cases _ _ _ E) as [[-> _]|(wl & tp & count & Hok & _ & _ & _ & _ & Hs)].
  - destruct (IH pl slots H Hd) as (more & H1 & H2 & H3). exists more. split_and!; [done|done|by apply sublist_cons].
  - destruct (IH pl1 _ H (Hs slots Hd)) as (more & H1 & H2 & H3). exists (mkSlot n wl tp :: more).
    rewrite <- app_assoc in H1. split_and!; [done|by constructor|]. simpl. by apply sublist_skip.
Qed.

End Greedy.

(** A placement that respects the hardware: its logical nodes are the replicas
    of distinct machines, each given to one of the workloads with the
    tensor-parallel size chosen for it; they are numbered without gaps and the
    cost is that of the machines used. *)
Definition respects_hardware (tp_for : PhysicalNodeConfig → WorkloadConfig → Z) (physical : list PhysicalNodeConfig)
    (wls : list WorkloadConfig) (nodes : list NodeConfiguration) (hourly_cost : pyfloat) : Prop :=
  ∃ slots, map sl_node slots ⊆+ individual_nodes physical ∧
    Forall (fun s => sl_workload s ∈ wls ∧ sl_tp s = tp_for (sl_node s) (sl_workload s) ∧
              sl_tp s ≤ gpus_per_node (sl_node s) ∧ (1 ≤ sl_tp s → replicas s * sl_tp s ≤ gpus_per_node (sl_node s))) slots ∧
    nodes = expand 0 slots ∧ NoDup (map nc_node_id nodes) ∧ hourly_cost = total_cost slots.

Lemma greedy_respects pretrained log2_int threshold physical wls wls' key weight nodes pl :
  nodes ≡ₚ individual_nodes physical → wls' ≡ₚ wls →
  foldR (assign_node pretrained log2_int threshold wls' key weight) (empty_plan wls) nodes = Ok pl →
  respects_hardware (min_tp pretrained log2_int threshold) physical wls (pl_nodes pl) (pl_cost pl).
Proof.
  intros Hn Hw H. destruct (assign_all_slots pretrained log2_int threshold wls' key weight nodes (empty_plan wls) pl [] H)
    as (slots & [D1 _ D3] & H2 & H3); [by split|]. exists slots. rewrite D1. split_and!; [| |done|apply expand_ids_NoDup|done].
  - rewrite <- Hn. by apply sublist_submseteq.
  - eapply Forall_impl; [exact H2|]. intros s (S1 & S2 & S3). split_and!; [by rewrite <- Hw|done|done|].
    intros Htp. unfold replicas. rewrite Z.mul_comm. apply Z.mul_div_le. lia.
Qed.

Lemma greedy_place_respects pretrained log2_int threshold physical wls nodes rep :
  maximize_replicas_place pretrained log2_int threshold physical wls = Ok (nodes, rep) ∨
  workload_balanced_place pretrained log2_int threshold physical wls = Ok (nodes, rep) →
  (wls = [] ∧ nodes = []) ∨
  ∃ c, respects_hardware (min_tp pretrained log2_int threshold) physical wls nodes c ∧
    ((∃ counts, rep = MaximizeReplicas counts c) ∨ (∃ scores targets counts, rep = WorkloadBalanced scores targets counts c)).
Proof.
  unfold maximize_replicas_place, workload_balanced_place. destruct wls as [|wl wls0]; [intros [H|H]; inversion H; by left|].
  set (wls := wl :: wls0). assert (Hnil : is_nil wls = false) by done. clearbody wls. intros [H|H]; right; rewrite Hnil in H; inv_res.
  - match goal with H1 : py_sorted node_memory _ _ = Ok _, H2 : py_sorted _ _ wls = Ok _, H3 : foldR _ _ _ = Ok ?pl |- _ =>
      exists (pl_cost pl); split; [|left; by eexists]; eapply greedy_respects; [by eapply py_sorted_perm|by eapply py_sorted_perm|exact H3] end.
  - repeat match goal with p : (_ * _)%type |- _ => destruct p end. inv_res. match goal with H1 : py_sorted node_memory _ _ = Ok _, H3 : foldR _ _ _ = Ok ?pl |- _ =>
      exists (pl_cost pl); split; [|right; by eexists _, _, _]; eapply greedy_respects; [by eapply py_sorted_perm|done|exact H3] end.
Qed.

(** C20.  Both greedy strategies respect the hardware, whatever machines and
    workloads they are given. *)
Theorem greedy_placements_respect_hardware pretrained log2_int threshold physical wls nodes rep :
  maximize_replicas_place pretrained log2_int threshold physical wls = Ok (nodes, rep) ∨
  workload_balanced_place pretrained log2_int threshold physical wls = Ok (nodes, rep) →
  (wls = [] ∧ nodes = []) ∨
  ∃ c, respects_hardware (min_tp pretrained log2_int threshold) physical wls nodes c ∧
    ((∃ counts, rep = MaximizeReplicas counts c) ∨ (∃ scores targets counts, rep = WorkloadBalanced scores targets counts c)).
Proof. apply greedy_place_respects. Qed.

(** ** Replica counts *)

Lemma replica_min counts l wl tp :
  py_min (replica_key counts) nltb l = Ok (wl, tp) →
  ∃ n, dict_get counts (wl_model_id wl) = Some n ∧
    ∀ wl' tp', (wl', tp') ∈ l → ∃ n', dict_get counts (wl_model_id wl') = Some n' ∧ n ≤ n'.
Proof.
  assert (Hk : ∀ x k, replica_key counts x = Ok k → ∃ n, dict_get counts (wl_model_id (fst x)) = Some n ∧ k = NI n).
  { intros x k. unfold replica_key, dict_index, of_option. destruct (dict_get _ _); intros; inv_res; eauto. }
  assert (Hfrom : ∀ l best x, min_from (replica_key counts) nltb best l = Ok x → replica_key counts (snd best) = Ok (fst best) →
    ∃ n, dict_get counts (wl_model_id (fst x)) = Some n ∧
      ∀ y, y ∈ snd best :: l → ∃ n', dict_get counts (wl_model_id (fst y)) = Some n' ∧ n ≤ n').
  { clear l. intros l. induction l as [|y l IH]; intros best x H Hb; simpl in H.
    - injection H as <-. destruct (Hk _ _ Hb) as (n & Hn & _). exists n. split; [done|].
      intros y ->%list_elem_of_singleton. by exists n.
    - unfold mbind, res_bind in H. destruct (replica_key counts y) as [k|] eqn:Ek; [|done]. destruct (Hk _ _ Ek) as (m & Hm & ->).
      destruct (Hk _ _ Hb) as (n0 & Hn0 & Hf). rewrite Hf, nltb_int in H.
      destruct (IH _ _ H) as (n & Hn & Hall); [by destruct (m <? n0)|].
      exists n. split; [done|]. intros z [->|[->|Hz]%elem_of_cons]%elem_of_cons.
      + destruct (Z.ltb_spec m n0); simpl in *; [|apply Hall; left].
        destruct (Hall y) as (n' & E1 & E2); [left|]. exists n0. split; [done|]. rewrite Hm in E1. simplify_eq. lia.
      + destruct (Z.ltb_spec m n0); simpl in *; [apply Hall; left|].
        destruct (Hall (snd best)) as (n' & E1 & E2); [left|]. exists m. split; [done|]. rewrite Hn0 in E1. simplify_eq. lia.
      + apply Hall. by right. }
  destruct l as [|y l]; simpl; [done|]. destruct (replica_key counts y) as [k|] eqn:Ek; [|done].
  intros H. destruct (Hfrom _ _ _ H Ek) as (n & Hn & Hall). exists n. split; [done|].
  intros wl' tp' Hin. exact (Hall (wl', tp') Hin).
Qed.

Definition model_count (m : string) (nodes : list NodeConfiguration) : Z :=
  Z.of_nat (length (filter (fun n => nc_model_id n = m) nodes)).

Lemma model_count_app m l l' : model_count m (l ++ l') = model_count m l + model_count m l'.
Proof. unfold model_count. rewrite filter_app, length_app. lia. Qed.

Lemma model_count_logical m counter r model hw tp :
  0 ≤ r → model_count m (logical_nodes counter r model hw tp) = if decide (model = m) then r else 0.
Proof.
  intros Hr. unfold model_count, logical_nodes. case_decide as Hm.
  - rewrite filter_all; [|apply Forall_map, Forall_forall; by intros]. rewrite length_map. unfold zrange.
    rewrite length_map, length_seq. lia.
  - rewrite filter_none; [done|]. apply Forall_map, Forall_forall. by intros.
Qed.

Section Counts.
Context (pretrained : string → res attrs) (log2_int : Z → res Z) `{!Log2Int log2_int} (threshold : pyfloat).
Context (wls : list WorkloadConfig).
Hypothesis given_tp : ∀ wl tp, wl ∈ wls → wl_tensor_parallel_size wl = Some tp → 1 ≤ tp.

Lemma min_tp_pos n wl :
  wl ∈ wls → min_tp pretrained log2_int threshold n wl ≤ gpus_per_node n → 1 ≤ min_tp pretrained log2_int threshold n wl.
Proof.
  intros Hwl Hle. unfold min_tp in *. destruct (wl_tensor_parallel_size wl) as [tp|] eqn:E; [by eapply given_tp|].
  unfold _find_min_tp_size in *. destruct (Z.le_gt_cases (gpus_per_node n) 0) as [Hg|Hg].
  { destruct (log2_int_neg (gpus_per_node n) Hg) as [ex Hex]. by rewrite Hex. }
  destruct (log2_int_pos (gpus_per_node n)) as (k & Hk & Hlog); [lia|]. rewrite Hk in *.
  pose proof (Z.log2_nonneg (gpus_per_node n)).
  pose proof (first_fit_spec (_check_fits pretrained threshold (gpu_type n) (wl_model_id wl)) (gpus_per_node n)
    (Z.to_nat (k + 1)) 0 ltac:(lia) ltac:(lia) ltac:(lia)) as Hf. cbv zeta in Hf.
  replace (Z.of_nat (Z.to_nat (k + 1))) with (k + 1) in Hf by lia.
  destruct Hf as [(j & Hj & -> & _)|[-> _]]; [|lia]. pose proof (Z.pow_pos_nonneg 2 j). lia.
Qed.

Lemma slot_replicas_nonneg s : slot_ok pretrained log2_int threshold wls s → 0 ≤ replicas s.
Proof.
  intros (H1 & H2 & H3). unfold replicas. rewrite H2 in *. pose proof (min_tp_pos _ _ H1 H3). apply Z.div_pos; lia.
Qed.

Definition counts_ok (pl : Plan) : Prop := ∀ m c, dict_get (pl_counts pl) m = Some c → c = model_count m (pl_nodes pl).

Lemma assign_counts key pl n pl' :
  assign_node pretrained log2_int threshold wls key (fun r => r) pl n = Ok pl' → counts_ok pl →
  (∃ slots, describes slots pl) → counts_ok pl'.
Proof.
  intros H Hc [slots Hd]. destruct (assign_cases _ _ _ _ _ _ _ _ _ H) as [[-> _]|(wl & tp & c0 & Hok & _ & _ & Hget & Hset & Hs)]; [done|].
  pose proof (de_nodes _ _ (Hs slots Hd)) as Hn. rewrite expand_snoc, <- (de_nodes _ _ Hd) in Hn.
  intros m c Hm. rewrite Hn, model_count_app. rewrite Hset in Hm. unfold slot_nodes.
  rewrite model_count_logical by (by apply slot_replicas_nonneg). simpl. case_decide as Heq; subst.
  - rewrite dict_get_set_eq in Hm. simplify_eq. by rewrite (Hc _ _ Hget).
  - rewrite dict_get_set_ne in Hm by done. rewrite (Hc _ _ Hm). lia.
Qed.

Definition keys_ok (pl : Plan) : Prop := ∀ m c, dict_get (pl_counts pl) m = Some c → ∃ wl, wl ∈ wls ∧ wl_model_id wl = m.

(** No count exceeds another by more than [r]. *)
Definition balanced (r : Z) (pl : Plan) : Prop := ∀ m c m' c',
  dict_get (pl_counts pl) m = Some c → dict_get (pl_counts pl) m' = Some c' → c ≤ c' + r.

(** Every workload can run on the machine, with [r] replicas. *)
Definition uniform (r : Z) (n : PhysicalNodeConfig) : Prop := ∀ wl, wl ∈ wls →
  min_tp pretrained log2_int threshold n wl ≤ gpus_per_node n ∧ gpus_per_node n / min_tp pretrained log2_int threshold n wl = r.

Lemma assign_balanced r pl n pl' :
  assign_node pretrained log2_int threshold wls replica_key (fun r => r) pl n = Ok pl' → 0 ≤ r → uniform r n →
  keys_ok pl → balanced r pl → keys_ok pl' ∧ balanced r pl'.
Proof.
  intros H Hr Hu Hk Hb.
  destruct (assign_cases _ _ _ _ _ _ _ _ _ H) as [[-> _]|(wl & tp & c0 & (Hin & Htp & _) & _ & Hmin & Hget & Hset & _)]; [done|].
  simpl in Hin, Htp. destruct (replica_min _ _ _ _ Hmin) as (c1 & Hc1 & Hleast). rewrite Hget in Hc1. simplify_eq.
  assert (Hle : ∀ m c, dict_get (pl_counts pl) m = Some c → c1 ≤ c).
  { intros m c Hm. destruct (Hk _ _ Hm) as (wl' & Hwl' & <-).
    destruct (Hleast wl' (min_tp pretrained log2_int threshold n wl')) as (c' & E & ?); [|rewrite Hm in E; by simplify_eq].
    unfold compatible_workloads. apply list_elem_of_filter. split; [by apply Hu|]. apply list_elem_of_fmap. eauto. }
  assert (Hw : replicas (mkSlot n wl (min_tp pretrained log2_int threshold n wl)) = r) by (unfold replicas; simpl; by apply Hu).
  rewrite Hw in Hset. clear Hw. split.
  - intros m c Hm. rewrite Hset in Hm. destruct (decide (wl_model_id wl = m)) as [<-|Hne]; [eauto|].
    rewrite dict_get_set_ne in Hm by done. by eapply Hk.
  - intros m c m' c' Hm Hm'. rewrite Hset in Hm, Hm'.
    destruct (decide (wl_model_id wl = m)) as [<-|Hne], (decide (wl_model_id wl = m')) as [<-|Hne'];
      rewrite ?dict_get_set_eq in Hm; rewrite ?dict_get_set_eq in Hm'; try (rewrite dict_get_set_ne in Hm by done);
      try (rewrite dict_get_set_ne in Hm' by done); simplify_eq.
    + lia.
    + pose proof (Hle _ _ Hm'). lia.
    + pose proof (Hb _ _ _ _ Hm Hget). lia.
    + by eapply Hb.
Qed.

Lemma fold_counts nodes pl pl' slots :
  foldR (assign_node pretrained log2_int threshold wls replica_key (fun r => r)) pl nodes = Ok pl' →
  describes slots pl → counts_ok pl → counts_ok pl'.
Proof.
  revert pl slots. induction nodes as [|n nodes IH]; intros pl slots H Hd Hc; simpl in H; [by injection H as <-|].
  unfold mbind, res_bind in H. destruct (assign_node _ _ _ _ _ _ pl n) as [pl1|] eqn:E; [|done].
  pose proof (assign_counts _ _ _ _ E Hc ltac:(eauto)).
  destruct (assign_cases _ _ _ _ _ _ _ _ _ E) as [[-> _]|(wl & tp & c0 & _ & _ & _ & _ & _ & Hs)]; [by eapply IH|].
  eapply IH; [exact H|by apply Hs|done].
Qed.

Lemma fold_balanced r nodes pl pl' :
  foldR (assign_node pretrained log2_int threshold wls replica_key (fun r => r)) pl nodes = Ok pl' →
  0 ≤ r → Forall (uniform r) nodes → keys_ok pl → balanced r pl → balanced r pl'.
Proof.
  intros H Hr Hu. revert pl H. induction Hu as [|n nodes Hn Hu IH]; intros pl H Hk Hb; simpl in H; [by injection H as <-|].
  unfold mbind, res_bind in H. destruct (assign_node _ _ _ _ _ _ pl n) as [pl1|] eqn:E; [|done].
  destruct (assign_balanced r _ _ _ E Hr Hn Hk Hb). by eapply IH.
Qed.
End Counts.

Lemma zero_counts_get wls m c : dict_get (zero_counts wls) m = Some c → c = 0 ∧ ∃ wl, wl ∈ wls ∧ wl_model_id wl = m.
Proof.
  unfold zero_counts. assert (H : ∀ wls0 d, (∀ m c, dict_get d m = Some c → c = 0 ∧ ∃ wl, wl ∈ wls ∧ wl_model_id wl = m) →
    wls0 ⊆ wls → dict_get (fold_left (fun d wl => dict_set d (wl_model_id wl) 0) wls0 d) m = Some c →
    c = 0 ∧ ∃ wl, wl ∈ wls ∧ wl_model_id wl = m).
  { induction wls0 as [|wl wls0 IH]; intros d Hd Hsub H; simpl in H; [by apply Hd|].
    eapply IH; [|set_solver|exact H]. intros m' c' Hm'. destruct (decide (wl_model_id wl = m')) as [<-|Hne].
    - rewrite dict_get_set_eq in Hm'. simplify_eq. split; [done|]. exists wl. set_solver.
    - rewrite dict_get_set_ne in Hm' by done. by apply Hd. }
  intros Hm. eapply (H wls []); [done|done|exact Hm].
Qed.

(** The replica counts [MaximizeReplicasStrategy] reports are those of the
    logical nodes it returns; and when every machine can run [r] replicas of
    every workload, the counts of two models differ by at most [r]: machines go
    round the models. *)
Theorem maximize_replicas_counts pretrained log2_int `{!Log2Int log2_int} threshold physical wls nodes counts c :
  (∀ wl tp, wl ∈ wls → wl_tensor_parallel_size wl = Some tp → 1 ≤ tp) →
  maximize_replicas_place pretrained log2_int threshold physical wls = Ok (nodes, MaximizeReplicas counts c) →
  (∀ m n, dict_get counts m = Some n → n = model_count m nodes) ∧
  ∀ r, 0 ≤ r → Forall (uniform pretrained log2_int threshold wls r) (individual_nodes physical) →
    ∀ m n m' n', dict_get counts m = Some n → dict_get counts m' = Some n' → n ≤ n' + r.
Proof.
  intros Htp H. unfold maximize_replicas_place in H. destruct (is_nil wls); [done|]. inv_res.
  match goal with H1 : py_sorted node_memory _ _ = Ok ?ns, H2 : py_sorted _ _ wls = Ok ?ws, H3 : foldR _ _ _ = Ok ?p |- _ =>
    apply py_sorted_perm in H1, H2; rename ws into wls', p into pl, ns into nodes', H1 into Hns, H2 into Hws, H3 into Hf end.
  assert (Htp' : ∀ wl tp, wl ∈ wls' → wl_tensor_parallel_size wl = Some tp → 1 ≤ tp).
  { intros wl tp Hin. apply Htp. by rewrite <- Hws. }
  split.
  - eapply (fold_counts pretrained log2_int threshold wls' Htp' nodes' (empty_plan wls) pl []); [done|by split|].
    intros m n Hm. by apply zero_counts_get in Hm as [-> _].
  - intros r Hr Hu. eapply (fold_balanced pretrained log2_int threshold wls' r nodes' (empty_plan wls)); [done|done| | |].
    + rewrite Hns. eapply Forall_impl; [exact Hu|]. intros n Hun wl Hwl. apply Hun. by rewrite <- Hws.
    + intros m n Hm. apply zero_counts_get in Hm as [_ (wl & Hwl & <-)]. exists wl. by rewrite Hws.
    + intros m n m' n' Hm Hm'. apply zero_counts_get in Hm as [-> _], Hm' as [-> _]. lia.
Qed.

(** ** The search *)

Lemma simulate_candidate_raises pretrained md5 pow15 choice iter py_sum np_mean dn du bf ef d wls i nodes :
  nodes ≠ [] → ∃ ex, simulate_candidate pretrained md5 pow15 choice iter py_sum np_mean dn du bf ef d wls i nodes = Some (Raise ex).
Proof.
  intros Hn. unfold simulate_candidate, ClusterManager_init, mbind, res_bind. cbn [cc_nodes cc_scheduler_algorithm].
  destruct (get_scheduler _ _) as [sched|ex]; [|by exists ex]. destruct (engines_raise pretrained nodes Hn) as [ex ->].
  by exists ex.
Qed.

(** The simulation search never proposes a placement: no candidate
    cluster can be constructed, so whatever the machines and workloads, the
    search ends (no fuel is needed) and either raises or returns no node, the
    throughput it started with and no evaluated candidate. *)
Theorem simulation_search_finds_nothing pretrained log2_int md5 pow15 choice iter py_sum np_mean dn du bf ef threshold d physical wls :
  ∃ r, simulation_search_place pretrained log2_int md5 pow15 choice iter py_sum np_mean dn du bf ef threshold d physical wls = Some r ∧
    ∀ nodes rep, r = Ok (nodes, rep) →
      nodes = [] ∧ (rep = NoWorkloads "simulation_search" ∨ rep = SimulationSearch (NF (flit (-1) 1)) []).
Proof.
  unfold simulation_search_place. destruct (is_nil wls); [eexists; split; [done|]; intros ? ? [= <- <-]; auto|].
  set (start := mkSearch _ _ _). set (step := search_step _ _ _ _ _ _ _ _ _ _ _ _ _ _ _ _ _).
  assert (Hstep : ∀ s ic, (∃ ex, step s ic = Some (Raise ex)) ∨ step s ic = Some (Ok s)).
  { intros s [i comb]. unfold step, search_step. destruct (assign_all _ _ _ _ _ _) as [[assigns|]|ex]; [|auto|eauto].
    destruct (build_candidate wls assigns) as [[nodes price]|ex]; [|eauto].
    destruct nodes as [|n nodes]; [auto|]. cbn [is_nil].
    destruct (simulate_candidate_raises pretrained md5 pow15 choice iter py_sum np_mean dn du bf ef d wls i (n :: nodes)) as [ex ->];
      [done|auto]. }
  assert (Hloop : ∀ cs, (∃ ex, search_loop step start cs = Some (Raise ex)) ∨ search_loop step start cs = Some (Ok start)).
  { induction cs as [|ic cs IH]; simpl; [auto|]. destruct (Hstep start ic) as [[ex ->]| ->]; eauto. }
  clearbody step. match goal with |- context [search_loop step start ?cs] => destruct (Hloop cs) as [[ex ->]| ->] end;
    (eexists; split; [done|]); intros nodes rep Hr; [done|]. injection Hr as <- <-. auto.
Qed.

(** ** Witnesses *)

Definition demo_log2 (n : Z) : res Z := if n <=? 0 then Raise (ValueError "math domain error") else Ok (Z.log2 n).

#[local] Instance demo_log2_int : Log2Int demo_log2.
Proof.
  split; intros n Hn; unfold demo_log2; destruct (Z.leb_spec n 0); try lia; eauto.
  exists (Z.log2 n). split; [done|lia].
Qed.

(** Two workloads on three machines with eight GPUs each. *)
Definition no_hub (_ : string) : res attrs := Raise (OtherException "OSError").
Definition demo_workload (model : string) (tp : Z) : WorkloadConfig :=
  mkWorkload model (flit 1 1) (fun _ _ => Ok []) (flit 10 1) ("Constant", [NI 100]) ("Constant", [NI 50]) (Some tp).
Definition demo_workloads : list WorkloadConfig := [demo_workload "meta-llama/Llama-3-8B" 4; demo_workload "mistral" 4].
Definition demo_machines : list PhysicalNodeConfig := [mkPhysical "NVDA:A100" 3 8 (flit 2 1)].
Definition demo_threshold : pyfloat := flit 9 10.

Definition demo_counts : dict Z := [("meta-llama/Llama-3-8B", 4); ("mistral", 2)].
Definition demo_nodes : list NodeConfiguration :=
  logical_nodes 0 2 "meta-llama/Llama-3-8B" "NVDA:A100" 4 ++ logical_nodes 2 2 "mistral" "NVDA:A100" 4 ++
  logical_nodes 4 2 "meta-llama/Llama-3-8B" "NVDA:A100" 4.

Lemma demo_place :
  maximize_replicas_place no_hub demo_log2 demo_threshold demo_machines demo_workloads =
  Ok (demo_nodes, MaximizeReplicas demo_counts (flit 6 1)).
Proof. vm_compute. reflexivity. Qed.

Lemma partitions_exact_witness :
  generate_partitions 2 2 = [[0; 2]; [1; 1]; [2; 0]] ∧ NoDup (generate_partitions 2 2).
Proof. split; [reflexivity|]. apply (partitions_exact 2 2); lia. Defined.

Lemma greedy_placements_respect_hardware_witness :
  ∃ c, respects_hardware (min_tp no_hub demo_log2 demo_threshold) demo_machines demo_workloads demo_nodes c.
Proof.
  destruct (greedy_placements_respect_hardware no_hub demo_log2 demo_threshold demo_machines demo_workloads demo_nodes
    (MaximizeReplicas demo_counts (flit 6 1)) (or_introl demo_place)) as [[H _]|(c & H & _)]; [discriminate H|].
  exact (ex_intro _ c H).
Defined.

Lemma maximize_replicas_counts_witness :
  model_count "mistral" demo_nodes = 2 ∧ 4 ≤ 2 + 2.
Proof.
  destruct (maximize_replicas_counts no_hub demo_log2 demo_threshold demo_machines demo_workloads demo_nodes demo_counts
    (flit 6 1)) as [H1 H2].
  - intros wl tp Hin Htp. apply list_elem_of_In in Hin as [<-|[<-|[]]]; simpl in Htp; injection Htp as <-; lia.
  - exact demo_place.
  - split; [symmetry; by apply (H1 "mistral" 2)|]. apply (H2 2 ltac:(lia)) with "meta-llama/Llama-3-8B" "mistral"; [|reflexivity|reflexivity].
    change (individual_nodes demo_machines) with (replicate 3 (mkPhysical "NVDA:A100" 1 8 (flit 2 1))).
    apply Forall_replicate. intros wl Hin. apply list_elem_of_In in Hin as [<-|[<-|[]]]; vm_compute; (split; [congruence|reflexivity]).
Defined.

Lemma find_min_tp_correct_witness :
  let fits := _check_fits (fun _ => Ok llama2_7b) demo_threshold "NVDA:A100" "meta-llama/Llama-2-7b-hf" in
  let r := _find_min_tp_size (fun _ => Ok llama2_7b) demo_log2 demo_threshold "NVDA:A100" "meta-llama/Llama-2-7b-hf" 8 in
  r = 1 ∧
  ((∃ j, 0 ≤ j ∧ r = 2 ^ j ∧ r ≤ 8 ∧ fits r = true ∧ ∀ j', 0 ≤ j' < j → fits (2 ^ j') = false) ∨
   (r = 8 + 1 ∧ ∀ j, 0 ≤ j → 2 ^ j ≤ 8 → fits (2 ^ j) = false)).
Proof.
  split; [vm_compute; reflexivity|].
  apply (find_min_tp_correct (fun _ => Ok llama2_7b) demo_log2 demo_threshold "NVDA:A100" "meta-llama/Llama-2-7b-hf" 8). lia.
Defined.
