(* ===== verification/Auth.v ===== *)
(** * The API-key service

    Models [contrib/auth/server.py] and [contrib/auth/models.py]: the two
    tables of the SQLite database, the four endpoints, challenge validation
    and replay prevention.

    The clock is read three times by [create_key]; every reading is an instant
    in microseconds, of which [int(time.time())] is the second.  Base58, the
    Ed25519 check, SHA-256 and the random generator are not part of the
    repository and are parameters.

    An endpoint opens a session on the database, and only [commit] makes what it
    wrote visible to the next one.  [Session] has what SQLAlchemy documents of
    the calls the service makes: objects that are added or changed are written
    by the next query or commit (the flush), a constraint that fails raises
    there, and [rollback] and [close] drop everything not committed. *)

From S2P Require Import Prelude PyStr.
From Stdlib Require Import Ascii.

#[local] Open Scope string_scope.
#[local] Open Scope list_scope.
#[local] Open Scope Z_scope.

(** ** Tables ([models.py]) *)

Record UsedChallenge := mkUsed { uc_challenge : string; uc_expires_at : Z }.

Record APIKey := mkKey {
  key_id : string;
  token_hash : string;
  wallet : string;
  label : string;
  created_at : Z;
  revoked : bool;
}.

Record db := mkDb { used_challenges : list UsedChallenge; api_keys : list APIKey }.

Definition empty_db : db := mkDb [] [].

(** [generate_key_id] and [generate_token], from what [secrets] returns. *)
Definition generate_key_id (token_hex8 : string) : string := "okey_" +:+ token_hex8.
Definition generate_token (token_urlsafe32 : string) : string := "otela_" +:+ token_urlsafe32.

(** ** Requests and responses *)

Record CreateKeyRequest := mkReq {
  req_wallet : string; req_signature : string; req_challenge : string; req_label : string }.
Record CreateKeyResponse := mkResp {
  resp_key_id : string; resp_token : string; resp_wallet : string; resp_label : string;
  resp_created_at : Z }.
Record KeyInfo := mkInfo {
  info_key_id : string; info_wallet : string; info_label : string; info_created_at : Z;
  info_revoked : bool }.
Record VerifyResponse := mkVerify { ver_wallet : string; ver_key_id : string }.

Definition CHALLENGE_TTL_SECONDS : Z := 300.
Definition second : Z := 1000000.
(** [int(time.time())] at an instant. *)
Definition int_time (t : Z) : Z := t / second.

(** What one call of [create_key] reads from the outside: the instants of its
    three clock readings and the random parts of the token and the key id. *)
Record CreateEnv := mkEnv {
  at_validate : Z; at_now : Z; at_purge : Z; rand_token : string; rand_key : string }.

(** ** Challenge validation *)

Definition bad_request (detail : string) : exn := HTTPException 400 detail.

Definition _validate_challenge (now : Z) (challenge wallet : string) : res unit :=
  match split_on ":"%char challenge with
  | [p0; ch_wallet; ts_str] =>
      if negb (bool_decide (p0 = "otela-auth"))
      then Raise (bad_request "Challenge must be in the format otela-auth:<wallet>:<unix_ts>")
      else if negb (bool_decide (ch_wallet = wallet))
      then Raise (bad_request "Challenge wallet does not match the request wallet")
      else match int_of_str ts_str with
           | Raise _ => Raise (bad_request "Challenge timestamp must be a valid integer")
           | Ok ts =>
               let now_ts := int_time now in
               if now_ts + 60 <? ts
               then Raise (bad_request "Challenge timestamp is too far in the future")
               else if CHALLENGE_TTL_SECONDS <? now_ts - ts
               then Raise (bad_request "Challenge has expired")
               else Ok tt
           end
  | _ => Raise (bad_request "Challenge must be in the format otela-auth:<wallet>:<unix_ts>")
  end.

Section Server.
(** [base58.b58decode], [VerifyKey(pub).verify(message, signature)] and
    [hashlib.sha256(token.encode()).hexdigest()]. *)
Context (b58decode : string → res string).
Context (VerifyKey_verify : string → string → string → res unit).
Context (sha256_hexdigest : string → string).

Definition hash_token (token : string) : string := sha256_hexdigest token.

(** Every exception of the decoding or the check counts as a failure. *)
Definition verify_wallet_signature (wallet signature message : string) : bool :=
  res_ok (pub_bytes ← b58decode wallet;
          sig_bytes ← b58decode signature;
          VerifyKey_verify pub_bytes message sig_bytes).

Definition find_used (d : db) (c : string) : option UsedChallenge :=
  snd <$> list_find (fun u => uc_challenge u = c) (used_challenges d).
Definition find_key (d : db) (kid : string) : option APIKey :=
  snd <$> list_find (fun k => key_id k = kid) (api_keys d).
Definition find_hash (d : db) (h : string) : option APIKey :=
  snd <$> list_find (fun k => token_hash k = h) (api_keys d).

(** *** Sessions *)

Definition set_revoked (k : APIKey) : APIKey :=
  mkKey (key_id k) (token_hash k) (wallet k) (label k) (created_at k) true.

(** What a session has to write: an object added, or a row whose [revoked] was
    assigned. *)
Inductive change :=
  | NewChallenge (u : UsedChallenge)
  | NewKey (k : APIKey)
  | SetRevoked (kid : string).

(** The database as committed, as the session's transaction sees it, and what
    is still to be written. *)
Record Session := mkSession { committed : db; seen : db; unwritten : list change }.

(** The primary keys and the unique column are checked when a row is written. *)
Definition write_change (d : db) (c : change) : res db :=
  match c with
  | NewChallenge u =>
      if bool_decide (is_Some (find_used d (uc_challenge u)))
      then Raise (IntegrityError "UNIQUE constraint failed")
      else Ok (mkDb (used_challenges d ++ [u]) (api_keys d))
  | NewKey k =>
      if bool_decide (is_Some (find_key d (key_id k))) || bool_decide (is_Some (find_hash d (token_hash k)))
      then Raise (IntegrityError "UNIQUE constraint failed")
      else Ok (mkDb (used_challenges d) (api_keys d ++ [k]))
  | SetRevoked kid =>
      Ok (mkDb (used_challenges d)
            (map (fun k => if bool_decide (key_id k = kid) then set_revoked k else k) (api_keys d)))
  end.

Abbreviation SM := (M Session).

Definition session_flush : SM unit :=
  s ← get;
  d ← lift (foldR write_change (seen s) (unwritten s));
  put (mkSession (committed s) d []).

Definition session_query {A} (f : db → A) : SM A := session_flush ;; gets (fun s => f (seen s)).
Definition session_delete (P : UsedChallenge → Prop) `{∀ u, Decision (P u)} : SM unit :=
  session_flush ;;
  modify (fun s => mkSession (committed s)
    (mkDb (filter (fun u => ¬ P u) (used_challenges (seen s))) (api_keys (seen s))) (unwritten s)).
Definition session_add (c : change) : SM unit :=
  modify (fun s => mkSession (committed s) (seen s) (unwritten s ++ [c])).
Definition session_commit : SM unit :=
  session_flush ;; modify (fun s => mkSession (seen s) (seen s) (unwritten s)).
Definition session_rollback : SM unit := modify (fun s => mkSession (committed s) (committed s) []).
Definition session_close : SM unit := session_rollback.

(** [session = get_session()] and the statements that use it. *)
Definition with_session {A} (body : SM A) : M db A := fun d =>
  let '(s, r) := body (mkSession d d []) in (committed s, r).

(** [except HTTPException: session.rollback(); raise] *)
Definition rollback_on_http {A} (body : SM A) : SM A :=
  try_except body (fun e =>
    match e with
    | HTTPException _ _ => session_rollback ;; raise e
    | _ => raise e
    end).

(** *** Endpoints *)

(** The part of [create_key] that uses the session. *)
Definition create_key_session (env : CreateEnv) (req : CreateKeyRequest) (kid token : string) : SM unit :=
  let now := at_now env in
  try_finally
    (rollback_on_http
       (existing ← session_query (fun d => find_used d (req_challenge req));
        match existing with
        | Some _ => raise (bad_request "Challenge has already been used")
        | None =>
            (if int_time (at_purge env) mod 10 =? 0
             then session_delete (fun u => uc_expires_at u < now) else mret tt) ;;
            session_add (NewChallenge (mkUsed (req_challenge req) (now + CHALLENGE_TTL_SECONDS * second))) ;;
            session_add (NewKey (mkKey kid (hash_token token) (req_wallet req) (req_label req) now false)) ;;
            session_commit
        end))
    session_close.

Definition create_key (env : CreateEnv) (req : CreateKeyRequest) : M db CreateKeyResponse :=
  lift (_validate_challenge (at_validate env) (req_challenge req) (req_wallet req)) ;;
  (if verify_wallet_signature (req_wallet req) (req_signature req) (req_challenge req)
   then mret tt else raise (HTTPException 403 "Invalid wallet signature")) ;;
  let token := generate_token (rand_token env) in
  let kid := generate_key_id (rand_key env) in
  with_session (create_key_session env req kid token) ;;
  mret (mkResp kid token (req_wallet req) (req_label req) (at_now env)).

Definition list_keys (w : string) : M db (list KeyInfo) :=
  with_session (try_finally
    (rows ← session_query (fun d => filter (fun r => wallet r = w) (api_keys d));
     mret (map (fun r => mkInfo (key_id r) (wallet r) (label r) (created_at r) (revoked r)) rows))
    session_close).

Definition revoke_key_session (kid w : string) : SM string :=
  try_finally
    (row ← session_query (fun d => find_key d kid);
     match row with
     | None => raise (HTTPException 404 "Key not found")
     | Some row =>
         if negb (bool_decide (wallet row = w)) then raise (HTTPException 403 "Wallet mismatch")
         else session_add (SetRevoked (key_id row)) ;; session_commit ;; mret kid
     end)
    session_close.

Definition revoke_key (kid w : string) : M db string := with_session (revoke_key_session kid w).

Definition verify_token (token : string) : M db VerifyResponse :=
  with_session (try_finally
    (row ← session_query (fun d => find_hash d (hash_token token));
     match row with
     | None => raise (HTTPException 401 "Invalid token")
     | Some row =>
         if revoked row then raise (HTTPException 401 "Token has been revoked")
         else mret (mkVerify (wallet row) (key_id row))
     end)
    session_close).

(** *** What the endpoints do to the tables

    The sessions composed away: the database after a call, in terms of the
    database before it. *)

Definition purge_expired (env : CreateEnv) (d : db) : db :=
  if int_time (at_purge env) mod 10 =? 0
  then mkDb (filter (fun u => ¬ uc_expires_at u < at_now env) (used_challenges d)) (api_keys d)
  else d.

Definition commit_new (u : UsedChallenge) (k : APIKey) (d : db) : res db :=
  if bool_decide (is_Some (find_used d (uc_challenge u))) ||
     bool_decide (is_Some (find_key d (key_id k))) ||
     bool_decide (is_Some (find_hash d (token_hash k)))
  then Raise (IntegrityError "UNIQUE constraint failed")
  else Ok (mkDb (used_challenges d ++ [u]) (api_keys d ++ [k])).

Lemma write_new u k d : foldR write_change d [NewChallenge u; NewKey k] = commit_new u k d.
Proof.
  unfold commit_new. cbn [foldR write_change]. unfold mbind, res_bind.
  destruct (bool_decide (is_Some (find_used d _))); [done|].
  change (find_key (mkDb _ _)) with (find_key d). change (find_hash (mkDb _ _)) with (find_hash d).
  by destruct (_ || _).
Qed.

(** The session part of [create_key] writes the purge, the challenge and the
    key together or nothing, and ends with nothing unwritten. *)
Lemma create_key_session_eq env req kid token d :
  create_key_session env req kid token (mkSession d d []) =
  match find_used d (req_challenge req) with
  | Some _ => (mkSession d d [], Raise (bad_request "Challenge has already been used"))
  | None =>
      match commit_new (mkUsed (req_challenge req) (at_now env + CHALLENGE_TTL_SECONDS * second))
              (mkKey kid (hash_token token) (req_wallet req) (req_label req) (at_now env) false)
              (purge_expired env d) with
      | Ok d' => (mkSession d' d' [], Ok tt)
      | Raise e => (mkSession d d [], Raise e)
      end
  end.
Proof.
  unfold create_key_session, try_finally, rollback_on_http, try_except, session_query, session_flush.
  erewrite bind_eq by reflexivity. cbv beta. cbn [seen committed]. destruct (find_used d (req_challenge req)); [reflexivity|].
  set (u := mkUsed _ _). set (k := mkKey _ _ _ _ _ _).
  assert (Hpurge : (if int_time (at_purge env) mod 10 =? 0
    then session_delete (fun u => uc_expires_at u < at_now env) else mret tt) (mkSession d d []) =
    (mkSession d (purge_expired env d) [], Ok tt)).
  { unfold purge_expired. by destruct (_ =? 0). }
  erewrite bind_eq by exact Hpurge. do 2 (erewrite bind_eq by reflexivity).
  unfold session_commit, session_flush, mbind, M_bind, get, lift, put, modify. cbn [seen unwritten committed app].
  rewrite write_new. destruct (commit_new u k (purge_expired env d)) as [d'|e] eqn:E; [reflexivity|].
  assert (e = IntegrityError "UNIQUE constraint failed") as ->
    by (unfold commit_new in E; destruct (_ || _); congruence). reflexivity.
Qed.

Lemma create_key_eq env req d :
  create_key env req d =
  match _validate_challenge (at_validate env) (req_challenge req) (req_wallet req) with
  | Raise e => (d, Raise e)
  | Ok _ =>
      if verify_wallet_signature (req_wallet req) (req_signature req) (req_challenge req) then
        match find_used d (req_challenge req) with
        | Some _ => (d, Raise (bad_request "Challenge has already been used"))
        | None =>
            match commit_new (mkUsed (req_challenge req) (at_now env + CHALLENGE_TTL_SECONDS * second))
                    (mkKey (generate_key_id (rand_key env)) (hash_token (generate_token (rand_token env)))
                       (req_wallet req) (req_label req) (at_now env) false) (purge_expired env d) with
            | Ok d' => (d', Ok (mkResp (generate_key_id (rand_key env)) (generate_token (rand_token env))
                                  (req_wallet req) (req_label req) (at_now env)))
            | Raise e => (d, Raise e)
            end
        end
      else (d, Raise (HTTPException 403 "Invalid wallet signature"))
  end.
Proof.
  unfold create_key. destruct (_validate_challenge _ _ _) as [[]|e]; [|reflexivity].
  erewrite bind_eq by reflexivity. destruct (verify_wallet_signature _ _ _); [|reflexivity].
  erewrite bind_eq by reflexivity. cbv zeta. unfold with_session, mbind, M_bind. rewrite create_key_session_eq.
  destruct (find_used d _); [reflexivity|]. by destruct (commit_new _ _ _).
Qed.

Lemma list_keys_db w d : fst (list_keys w d) = d.
Proof. reflexivity. Qed.

Lemma find_key_id d kid row : find_key d kid = Some row → key_id row = kid.
Proof.
  unfold find_key. destruct (list_find _ _) as [[i k]|] eqn:E; simpl; [|done]. intros [= <-].
  by apply list_find_Some in E as (_ & ? & _).
Qed.

Lemma revoke_key_eq kid w d :
  revoke_key kid w d =
  match find_key d kid with
  | None => (d, Raise (HTTPException 404 "Key not found"))
  | Some row =>
      if negb (bool_decide (wallet row = w)) then (d, Raise (HTTPException 403 "Wallet mismatch"))
      else (mkDb (used_challenges d)
                 (map (fun k => if bool_decide (key_id k = kid) then set_revoked k else k) (api_keys d)),
            Ok kid)
  end.
Proof.
  unfold revoke_key, with_session, revoke_key_session, try_finally, session_query, session_flush.
  erewrite bind_eq by reflexivity. cbv beta. cbn [seen]. destruct (find_key d kid) as [row|] eqn:E; [|reflexivity].
  destruct (negb _); [reflexivity|]. by rewrite (find_key_id _ _ _ E).
Qed.

Lemma verify_token_eq token d :
  verify_token token d =
  match find_hash d (hash_token token) with
  | None => (d, Raise (HTTPException 401 "Invalid token"))
  | Some row =>
      if revoked row then (d, Raise (HTTPException 401 "Token has been revoked"))
      else (d, Ok (mkVerify (wallet row) (key_id row)))
  end.
Proof.
  unfold verify_token, with_session, try_finally, session_query, session_flush.
  erewrite bind_eq by reflexivity. cbv beta. cbn [seen]. destruct (find_hash d _) as [row|]; [|reflexivity].
  by destruct (revoked row).
Qed.

(** ** Histories of the service *)

Inductive op :=
  | OpCreate (env : CreateEnv) (req : CreateKeyRequest)
  | OpList (w : string)
  | OpRevoke (kid w : string)
  | OpVerify (token : string).

Definition apply_op (o : op) (d : db) : db :=
  match o with
  | OpCreate env req => fst (create_key env req d)
  | OpList w => fst (list_keys w d)
  | OpRevoke kid w => fst (revoke_key kid w d)
  | OpVerify t => fst (verify_token t d)
  end.

Definition apply_ops (os : list op) (d : db) : db := foldl (fun d o => apply_op o d) d os.

(** ** Lemmas *)

Lemma list_find_app_None {A} (P : A → Prop) `{∀ x, Decision (P x)} l x :
  snd <$> list_find P l = None → P x → snd <$> list_find P (l ++ [x]) = Some x.
Proof.
  intros H1 H2. destruct (list_find P l) as [[i y]|] eqn:E; [done|]. clear H1.
  apply list_find_None in E. induction E as [|y l Hy _ IH]; simpl.
  - by rewrite decide_True.
  - rewrite decide_False by done. by destruct (list_find P (l ++ [x])) as [[]|].
Qed.

Lemma list_find_app_Some {A} (P : A → Prop) `{∀ x, Decision (P x)} l k x :
  snd <$> list_find P l = Some x → snd <$> list_find P (l ++ k) = Some x.
Proof.
  destruct (list_find P l) as [[i y]|] eqn:E; simpl; [|done]. intros [= <-].
  by rewrite (list_find_app_l _ _ _ _ _ E).
Qed.

Lemma find_used_Some d c u :
  u ∈ used_challenges d → uc_challenge u = c → is_Some (find_used d c).
Proof.
  intros Hu Hc. unfold find_used. destruct (list_find _ _) as [[]|] eqn:E; [done|].
  apply list_find_None in E. rewrite Forall_forall in E. by destruct (E u Hu).
Qed.

Lemma create_key_ok env req d d' resp :
  create_key env req d = (d', Ok resp) →
  _validate_challenge (at_validate env) (req_challenge req) (req_wallet req) = Ok tt ∧
  verify_wallet_signature (req_wallet req) (req_signature req) (req_challenge req) = true ∧
  find_used d (req_challenge req) = None ∧
  find_key d (generate_key_id (rand_key env)) = None ∧
  find_hash d (hash_token (generate_token (rand_token env))) = None ∧
  d' = mkDb (used_challenges (purge_expired env d) ++
               [mkUsed (req_challenge req) (at_now env + CHALLENGE_TTL_SECONDS * second)])
            (api_keys d ++ [mkKey (generate_key_id (rand_key env))
               (hash_token (generate_token (rand_token env))) (req_wallet req) (req_label req)
               (at_now env) false]) ∧
  resp = mkResp (generate_key_id (rand_key env)) (generate_token (rand_token env))
           (req_wallet req) (req_label req) (at_now env).
Proof.
  rewrite create_key_eq.
  destruct (_validate_challenge _ _ _) as [[]|]; [|done].
  destruct (verify_wallet_signature _ _ _); [|done].
  destruct (find_used d _); [done|].
  assert (Hk : api_keys (purge_expired env d) = api_keys d)
    by (unfold purge_expired; by destruct (_ =? _)).
  assert (Hfk : ∀ k, find_key (purge_expired env d) k = find_key d k)
    by (intros k; unfold find_key; by rewrite Hk).
  assert (Hfh : ∀ h, find_hash (purge_expired env d) h = find_hash d h)
    by (intros h; unfold find_hash; by rewrite Hk).
  unfold commit_new. rewrite Hfk, Hfh, Hk.
  destruct (_ || _) eqn:E; [done|]. apply orb_false_elim in E as [E E3].
  apply orb_false_elim in E as [_ E2]. intros [= <- <-].
  apply bool_decide_eq_false, eq_None_not_Some in E2, E3. done.
Qed.

Lemma create_key_raise env req d d' e : create_key env req d = (d', Raise e) → d' = d.
Proof.
  rewrite create_key_eq.
  destruct (_validate_challenge _ _ _) as [[]|]; [|by intros [= <- <-]].
  destruct (verify_wallet_signature _ _ _); [|by intros [= <- <-]].
  destruct (find_used d _); [by intros [= <- <-]|].
  destruct (commit_new _ _ _); [done|by intros [= <- <-]].
Qed.

Lemma create_key_used_raise env req d u :
  u ∈ used_challenges d → uc_challenge u = req_challenge req →
  ∃ e, snd (create_key env req d) = Raise e.
Proof.
  intros Hu Hc. destruct (create_key env req d) as [d' [resp|e]] eqn:E; [|by eexists].
  apply create_key_ok in E as (_ & _ & Hn & _).
  destruct (find_used_Some _ _ _ Hu Hc). congruence.
Qed.

(** The timestamp a well-formed challenge carries. *)
Definition challenge_ts (c : string) : option Z :=
  match split_on ":"%char c with
  | [_; _; ts_str] => match int_of_str ts_str with Ok ts => Some ts | Raise _ => None end
  | _ => None
  end.

Lemma validate_ok now c w :
  _validate_challenge now c w = Ok tt →
  ∃ ts_str ts, split_on ":"%char c = ["otela-auth"; w; ts_str] ∧ int_of_str ts_str = Ok ts ∧
    challenge_ts c = Some ts ∧ int_time now - 300 ≤ ts ≤ int_time now + 60.
Proof.
  unfold _validate_challenge, challenge_ts.
  destruct (split_on _ c) as [|p0 [|w' [|ts_str []]]]; try done.
  destruct (bool_decide_reflect (p0 = "otela-auth")) as [->|]; [|done].
  destruct (bool_decide_reflect (w' = w)) as [->|]; [|done]. simpl.
  destruct (int_of_str ts_str) as [ts|] eqn:E; [|done].
  destruct (Z.ltb_spec (int_time now + 60) ts); [done|].
  unfold CHALLENGE_TTL_SECONDS. destruct (Z.ltb_spec 300 (int_time now - ts)); [done|].
  intros _. exists ts_str, ts. split_and!; try done; lia.
Qed.

(** The clock readings of a history, each after those before it. *)
Fixpoint clock_from (t : Z) (os : list op) : Prop :=
  match os with
  | [] => True
  | OpCreate env _ :: os' =>
      t ≤ at_validate env ∧ at_validate env ≤ at_now env ∧ at_now env ≤ at_purge env ∧
      clock_from (at_purge env) os'
  | _ :: os' => clock_from t os'
  end.
Fixpoint clock_after (t : Z) (os : list op) : Z :=
  match os with
  | [] => t
  | OpCreate env _ :: os' => clock_after (at_purge env) os'
  | _ :: os' => clock_after t os'
  end.

(** A challenge is spent at a time: it is still recorded, or its record has
    expired by then. *)
Definition spent (c : string) (expires : Z) (t : Z) (d : db) : Prop :=
  mkUsed c expires ∈ used_challenges d ∨ expires < t.

Lemma revoke_key_used kid w d : used_challenges (fst (revoke_key kid w d)) = used_challenges d.
Proof. rewrite revoke_key_eq. destruct (find_key d kid); [|done]. by destruct (negb _). Qed.

Lemma verify_token_db t d : fst (verify_token t d) = d.
Proof. rewrite verify_token_eq. destruct (find_hash _ _) as [r|]; [|done]. by destruct (revoked r). Qed.

Lemma spent_op c x t o d :
  clock_from t [o] → spent c x t d → spent c x (clock_after t [o]) (apply_op o d).
Proof.
  intros Hck Hs. destruct o as [env req|w|kid w|tok]; simpl in *; [|done| |].
  - destruct Hck as (H1 & H2 & H3 & _). destruct Hs as [Hs|Hs]; [|right; lia].
    destruct (create_key env req d) as [d' [resp|e]] eqn:E; simpl.
    + apply create_key_ok in E as (_ & _ & _ & _ & _ & -> & _). simpl.
      unfold purge_expired. destruct (_ =? _); simpl.
      * destruct (decide (x < at_now env)); [right; lia|left].
        apply elem_of_app. left. by apply list_elem_of_filter.
      * left. apply elem_of_app. by left.
    + apply create_key_raise in E as ->. by left.
  - unfold spent. by rewrite revoke_key_used.
  - by rewrite verify_token_db.
Qed.

Lemma spent_ops c x t os d :
  clock_from t os → spent c x t d → spent c x (clock_after t os) (apply_ops os d).
Proof.
  revert t d. induction os as [|o os IH]; intros t d Hck Hs; [done|].
  assert (Hsplit : clock_from t [o] ∧ clock_from (clock_after t [o]) os ∧
    clock_after t (o :: os) = clock_after (clock_after t [o]) os).
  { destruct o; simpl in *; tauto. }
  destruct Hsplit as (H1 & H2 & ->). apply (IH _ _ H2). by apply spent_op.
Qed.

Lemma clock_from_app t os os' :
  clock_from t (os ++ os') ↔ clock_from t os ∧ clock_from (clock_after t os) os'.
Proof.
  revert t. induction os as [|o os IH]; intros t; simpl; [tauto|].
  destruct o; rewrite IH; tauto.
Qed.

(** A row of the key table through any history: rows stay, their owner and
    hash do not change, and a revoked row stays revoked. *)
Definition row_kept (k k' : APIKey) : Prop :=
  key_id k' = key_id k ∧ token_hash k' = token_hash k ∧ wallet k' = wallet k ∧
  (revoked k = true → revoked k' = true).

Lemma list_find_map {A} (P : A → Prop) `{∀ x, Decision (P x)} (f : A → A) l :
  (∀ x, P (f x) ↔ P x) → snd <$> list_find P (map f l) = f <$> (snd <$> list_find P l).
Proof.
  intros Hf. induction l as [|x l IH]; simpl; [done|].
  destruct (decide (P x)) as [Hx|Hx].
  - by rewrite decide_True by (by apply Hf).
  - rewrite decide_False by (by rewrite Hf). destruct (list_find P (map f l)) as [[]|],
      (list_find P l) as [[]|]; simpl in *; simplify_eq; done.
Qed.

Lemma find_hash_op o d h k :
  find_hash d h = Some k → ∃ k', find_hash (apply_op o d) h = Some k' ∧ row_kept k k'.
Proof.
  intros Hk. assert (Hid : ∃ k', find_hash d h = Some k' ∧ row_kept k k').
  { exists k. split; [done|]. by unfold row_kept. }
  destruct o as [env req|w|kid w|tok]; simpl; [|done| |by rewrite verify_token_db].
  - destruct (create_key env req d) as [d' [resp|e]] eqn:E; simpl.
    + apply create_key_ok in E as (_ & _ & _ & _ & _ & -> & _).
      exists k. split; [|by unfold row_kept]. by apply list_find_app_Some.
    + by apply create_key_raise in E as ->.
  - rewrite revoke_key_eq. destruct (find_key d kid); [|done]. destruct (negb _); [done|].
    unfold find_hash in *. simpl. rewrite list_find_map.
    + rewrite Hk. simpl. eexists; split; [done|]. by case_bool_decide.
    + intros x. by case_bool_decide.
Qed.

Lemma find_hash_ops os d h k :
  find_hash d h = Some k → ∃ k', find_hash (apply_ops os d) h = Some k' ∧ row_kept k k'.
Proof.
  revert d k. induction os as [|o os IH]; intros d k Hk; simpl.
  - exists k. split; [done|]. by unfold row_kept.
  - destruct (find_hash_op o d h k Hk) as (k1 & H1 & R1).
    destruct (IH _ _ H1) as (k2 & H2 & R2). exists k2. split; [done|].
    unfold row_kept in *. naive_solver congruence.
Qed.

(** A row that nobody has revoked is found unchanged by its hash and its id. *)
Definition live (k : APIKey) (d : db) : Prop :=
  find_hash d (token_hash k) = Some k ∧ find_key d (key_id k) = Some k ∧ revoked k = false.

Definition revokes (o : op) (kid w : string) : Prop := o = OpRevoke kid w.

Lemma live_op o d k : live k d → ¬ revokes o (key_id k) (wallet k) → live k (apply_op o d).
Proof.
  intros (Hh & Hk & Hr) Ho. destruct o as [env req|w|kid w|tok]; simpl; [|done| |by rewrite verify_token_db].
  - destruct (create_key env req d) as [d' [resp|e]] eqn:E; simpl.
    + apply create_key_ok in E as (_ & _ & _ & _ & _ & -> & _).
      split_and!; [by apply list_find_app_Some..|done].
    + by apply create_key_raise in E as ->.
  - rewrite revoke_key_eq. destruct (find_key d kid) as [row|] eqn:Hrow; [|done].
    destruct (bool_decide_reflect (wallet row = w)) as [Hw|]; simpl; [|done].
    assert (Hne : key_id k ≠ kid).
    { intros <-. rewrite Hk in Hrow. simplify_eq. by destruct Ho. }
    unfold live, find_hash, find_key in *. simpl.
    rewrite !list_find_map by (intros x; by case_bool_decide).
    rewrite Hh, Hk. simpl. by rewrite bool_decide_eq_false_2.
Qed.

Lemma live_ops os d k :
  live k d → Forall (fun o => ¬ revokes o (key_id k) (wallet k)) os → live k (apply_ops os d).
Proof.
  revert d. induction os as [|o os IH]; intros d Hl Hos; [done|].
  inversion_clear Hos. apply IH; [|done]. by apply live_op.
Qed.

(** Every row of the key table comes from an accepted request. *)
Definition accepted (env : CreateEnv) (req : CreateKeyRequest) (k : APIKey) : Prop :=
  _validate_challenge (at_validate env) (req_challenge req) (req_wallet req) = Ok tt ∧
  verify_wallet_signature (req_wallet req) (req_signature req) (req_challenge req) = true ∧
  key_id k = generate_key_id (rand_key env) ∧
  token_hash k = hash_token (generate_token (rand_token env)) ∧ wallet k = req_wallet req.

Lemma keys_accepted_op o os d :
  (∀ k, k ∈ api_keys d → ∃ env req, OpCreate env req ∈ os ∧ accepted env req k) →
  ∀ k, k ∈ api_keys (apply_op o d) → ∃ env req, OpCreate env req ∈ os ++ [o] ∧ accepted env req k.
Proof.
  intros H k Hk.
  assert (Hold : k ∈ api_keys d → ∃ env req, OpCreate env req ∈ os ++ [o] ∧ accepted env req k).
  { intros (env & req & H1 & H2)%H. exists env, req. split; [set_solver|done]. }
  destruct o as [env req|w|kid w|tok]; simpl in Hk; [|auto| |by rewrite verify_token_db in Hk; auto].
  - destruct (create_key env req d) as [d' [resp|e]] eqn:E; simpl in Hk.
    + apply create_key_ok in E as (H1 & H2 & _ & _ & _ & -> & _). simpl in Hk.
      apply elem_of_app in Hk as [Hk| ->%list_elem_of_singleton]; [auto|].
      exists env, req. split; [set_solver|]. by unfold accepted.
    + apply create_key_raise in E as ->. auto.
  - rewrite revoke_key_eq in Hk. destruct (find_key d kid); [|auto]. destruct (negb _); [auto|].
    simpl in Hk. apply list_elem_of_fmap in Hk as (k0 & -> & Hk0).
    destruct (H k0 Hk0) as (env & req & H1 & H2). exists env, req. split; [set_solver|].
    unfold accepted in *. by case_bool_decide.
Qed.

Lemma keys_accepted_ops os d k :
  api_keys d = [] → k ∈ api_keys (apply_ops os d) →
  ∃ env req, OpCreate env req ∈ os ∧ accepted env req k.
Proof.
  intros Hd. revert k. induction os as [|o os IH] using rev_ind; intros k.
  - simpl. rewrite Hd. set_solver.
  - unfold apply_ops. rewrite foldl_app. simpl. by apply keys_accepted_op.
Qed.

(** ** Properties *)

(** C11.  Replay prevention: once [create_key] has accepted a challenge whose
    timestamp is before the second in which it was validated, no later call
    with that challenge succeeds, whatever other calls (purges included)
    happen in between and whatever the later call's signature, label and
    random values are.  The clock readings of the calls are in order. *)
Theorem replay_rejected env req d d1 resp ts os env2 req2 :
  create_key env req d = (d1, Ok resp) →
  challenge_ts (req_challenge req) = Some ts → ts < int_time (at_validate env) →
  clock_from (at_validate env) (OpCreate env req :: os ++ [OpCreate env2 req2]) →
  req_challenge req2 = req_challenge req →
  ∃ e, snd (create_key env2 req2 (apply_ops os d1)) = Raise e.
Proof.
  intros Hc Hts Hlt Hck Heq. simpl in Hck. rewrite clock_from_app in Hck.
  destruct Hck as (_ & H1 & H2 & H3 & H4 & _). apply create_key_ok in Hc as (_ & _ & _ & _ & _ & -> & _).
  set (d1 := mkDb _ _). set (x := at_now env + CHALLENGE_TTL_SECONDS * second) in *.
  assert (Hs : spent (req_challenge req) x (at_purge env) d1).
  { left. simpl. apply elem_of_app. right. left. }
  destruct (spent_ops _ _ _ os _ H3 Hs) as [Hin|Hexp].
  { by apply (create_key_used_raise _ _ _ _ Hin). }
  destruct (create_key env2 req2 _) as [d2 [r2|e]] eqn:E; [|by eexists]. exfalso.
  apply create_key_ok in E as (Hv & _). apply validate_ok in Hv as (ts_str & ts' & _ & _ & Hts' & Hb).
  rewrite Heq, Hts in Hts'. simplify_eq. unfold x, int_time, second, CHALLENGE_TTL_SECONDS in *.
  assert (at_validate env / 1000000 + 300 ≤ at_validate env2 / 1000000); [|lia].
  rewrite <- Z.div_add by lia. apply Z.div_le_mono; lia.
Qed.

(** C12.  No key without proof of ownership: every key of a database reached
    from an empty one by any sequence of calls belongs to a wallet for which
    one of those calls carried a challenge naming that wallet and a signature
    of it that verified; its stored hash is the hash of the token that call
    returned. *)
Theorem keys_need_signature os k :
  k ∈ api_keys (apply_ops os empty_db) →
  ∃ env req, OpCreate env req ∈ os ∧ wallet k = req_wallet req ∧
    verify_wallet_signature (req_wallet req) (req_signature req) (req_challenge req) = true ∧
    (∃ ts_str, split_on ":"%char (req_challenge req) = ["otela-auth"; wallet k; ts_str]) ∧
    token_hash k = hash_token (generate_token (rand_token env)).
Proof.
  intros (env & req & Hin & Hv & Hs & _ & Hh & Hw)%keys_accepted_ops; [|done].
  apply validate_ok in Hv as (ts_str & ts & Hsp & _). rewrite Hw. eauto 10.
Qed.

(** C13.  A successful [create_key] and [verify_token]: as long as nobody calls
    [revoke_key] with that key id and its owner's wallet, the returned token
    verifies to the requesting wallet and the returned key id, after any
    further calls. *)
Theorem token_verifies env req d d1 resp os :
  create_key env req d = (d1, Ok resp) →
  Forall (fun o => ¬ revokes o (resp_key_id resp) (req_wallet req)) os →
  snd (verify_token (resp_token resp) (apply_ops os d1)) =
    Ok (mkVerify (req_wallet req) (resp_key_id resp)).
Proof.
  intros (_ & _ & _ & Hk & Hh & -> & ->)%create_key_ok Hos. simpl in *.
  set (k := mkKey _ _ _ _ _ _). set (d1 := mkDb _ _).
  assert (Hl : live k d1).
  { split_and!; [by apply list_find_app_None..|done]. }
  apply (live_ops os) in Hl; [|done]. destruct Hl as (Hl1 & _).
  rewrite verify_token_eq. change (hash_token _) with (token_hash k). by rewrite Hl1.
Qed.

(** C14.  Revocation is final: after a successful [revoke_key], every token of
    that key is refused with status 401, after any further calls. *)
Theorem revoked_stays_revoked kid w d d1 r token k os :
  revoke_key kid w d = (d1, Ok r) →
  find_hash d (hash_token token) = Some k → key_id k = kid →
  snd (verify_token token (apply_ops os d1)) = Raise (HTTPException 401 "Token has been revoked").
Proof.
  intros Hr Hk Hid.
  assert (H1 : ∃ k1, find_hash d1 (hash_token token) = Some k1 ∧ revoked k1 = true).
  { rewrite revoke_key_eq in Hr. destruct (find_key d kid); [|done]. destruct (negb _); [done|].
    simplify_eq. unfold find_hash in *. simpl.
    rewrite list_find_map by (intros x; by case_bool_decide). rewrite Hk. simpl.
    eexists; split; [done|]. by rewrite bool_decide_eq_true_2. }
  destruct H1 as (k1 & H1 & Hr1).
  destruct (find_hash_ops os d1 _ _ H1) as (k2 & H2 & _ & _ & _ & Hr2).
  rewrite verify_token_eq. by rewrite H2, Hr2.
Qed.

(** A call that raises commits nothing, even when it has already deleted or
    added rows in its session, and every session ends with nothing unwritten
    and seeing what is committed. *)
Theorem failed_calls_change_nothing env req kid w token d :
  (∀ d' e, create_key env req d = (d', Raise e) → d' = d) ∧
  (∀ d' e, revoke_key kid w d = (d', Raise e) → d' = d) ∧
  fst (list_keys w d) = d ∧ fst (verify_token token d) = d ∧
  (let s := fst (create_key_session env req kid token (mkSession d d [])) in seen s = committed s ∧ unwritten s = []).
Proof.
  split_and!; [by intros; eapply create_key_raise| |apply list_keys_db|apply verify_token_db|].
  - intros d' e. rewrite revoke_key_eq. destruct (find_key d kid); [|by intros [= <- _]].
    destruct (negb _); [by intros [= <- _]|done].
  - cbv zeta. rewrite create_key_session_eq. destruct (find_used d _); [done|]. by destruct (commit_new _ _ _).
Qed.
End Server.

(** ** The replay window

    Instances of the external functions that accept every signature. *)
Definition demo_b58 (s : string) : res string := Ok s.
Definition demo_verify (pub msg sig : string) : res unit :=
  if bool_decide (sig = "sig:" +:+ pub +:+ ":" +:+ msg) then Ok tt else Raise (ValueError "bad signature").
Definition demo_sha (s : string) : string := "h:" +:+ s.
Definition demo_create := create_key demo_b58 demo_verify demo_sha.
Definition demo_req (w c : string) : CreateKeyRequest := mkReq w ("sig:" +:+ w +:+ ":" +:+ c) c "".
Definition env_at (t : Z) (n : string) : CreateEnv := mkEnv t (t + 100000) (t + 100000) n n.

(** C40.  The record of a used challenge expires relative to the time of the
    call, not to the challenge's own timestamp, so it can be purged while the
    challenge is still accepted.  A challenge stamped with the current second
    is accepted again 300.5 seconds later, and one stamped 60 seconds ahead
    (which validation allows) 360.4 seconds later, once a third call has
    purged the table. *)
Theorem replay_window :
  let c0 := "otela-auth:alice:1000" in
  let c1 := "otela-auth:alice:1060" in
  let bob := demo_req "bob" "otela-auth:bob:1300" in
  let replay c t :=
    let d1 := fst (demo_create (env_at 1000000000 "k1") (demo_req "alice" c) empty_db) in
    let d2 := fst (demo_create (env_at 1300400000 "k2") bob d1) in
    (snd (demo_create (env_at 1000000000 "k1") (demo_req "alice" c) empty_db),
     snd (demo_create (env_at t "k3") (demo_req "alice" c) d2)) in
  replay c0 1300500000 =
    (Ok (mkResp "okey_k1" "otela_k1" "alice" "" 1000100000),
     Ok (mkResp "okey_k3" "otela_k3" "alice" "" 1300600000)) ∧
  replay c1 1360400000 =
    (Ok (mkResp "okey_k1" "otela_k1" "alice" "" 1000100000),
     Ok (mkResp "okey_k3" "otela_k3" "alice" "" 1360500000)).
Proof. vm_compute. split; reflexivity. Qed.

(** ** Concrete instances of the properties *)

Definition alice_req : CreateKeyRequest := demo_req "alice" "otela-auth:alice:999".
Definition alice_db : db := fst (demo_create (env_at 1000000000 "k1") alice_req empty_db).

Lemma replay_rejected_witness :
  ∃ e, snd (demo_create (env_at 1300500000 "k3") alice_req
    (apply_ops demo_b58 demo_verify demo_sha
       [OpCreate (env_at 1300400000 "k2") (demo_req "bob" "otela-auth:bob:1300")] alice_db)) = Raise e.
Proof.
  eapply (replay_rejected demo_b58 demo_verify demo_sha (env_at 1000000000 "k1") alice_req empty_db
    alice_db _ 999); vm_compute; repeat split; done.
Defined.

Lemma keys_need_signature_witness :
  ∃ k, k ∈ api_keys (apply_ops demo_b58 demo_verify demo_sha [OpCreate (env_at 1000000000 "k1") alice_req] empty_db) ∧
  ∃ env req, OpCreate env req ∈ [OpCreate (env_at 1000000000 "k1") alice_req] ∧ wallet k = req_wallet req ∧
    verify_wallet_signature demo_b58 demo_verify (req_wallet req) (req_signature req) (req_challenge req) = true ∧
    (∃ ts_str, split_on ":"%char (req_challenge req) = ["otela-auth"; wallet k; ts_str]) ∧
    token_hash k = hash_token demo_sha (generate_token (rand_token env)).
Proof.
  eexists. split; [vm_compute; left|].
  apply (keys_need_signature demo_b58 demo_verify demo_sha). vm_compute. left.
Defined.

Lemma token_verifies_witness :
  snd (verify_token demo_sha "otela_k1"
    (apply_ops demo_b58 demo_verify demo_sha [OpRevoke "okey_k1" "mallory"; OpList "alice"] alice_db)) =
    Ok (mkVerify "alice" "okey_k1").
Proof.
  apply (token_verifies demo_b58 demo_verify demo_sha (env_at 1000000000 "k1") alice_req empty_db alice_db
    (mkResp "okey_k1" "otela_k1" "alice" "" 1000100000)).
  - vm_compute. reflexivity.
  - repeat constructor; intros [=].
Defined.

Lemma revoked_stays_revoked_witness :
  snd (verify_token demo_sha "otela_k1"
    (apply_ops demo_b58 demo_verify demo_sha [OpList "alice"] (fst (revoke_key "okey_k1" "alice" alice_db)))) =
    Raise (HTTPException 401 "Token has been revoked").
Proof.
  eapply (revoked_stays_revoked demo_b58 demo_verify demo_sha "okey_k1" "alice" alice_db _ "okey_k1" "otela_k1");
    vm_compute; reflexivity.
Defined.
