(* ===== verification/AuthCli.v ===== *)
(** * The client of the API-key service

    Models [contrib/auth/cli.py]: creating, listing, revoking and verifying keys from
    the command line.  The class [KeyServer] is what the client uses of a server, with
    the laws it relies on; the service of [Auth] is an instance.

    Parameters: Ed25519 keys and signatures, the texts of times and of the errors a
    server answers with.  Blank lines are left out of the console. *)

From Stdlib Require Import Ascii.
From S2P Require Import Prelude PyFloat PyStr Auth.

#[local] Open Scope string_scope.
#[local] Open Scope list_scope.
#[local] Open Scope Z_scope.

(** ** The interface *)

(** An answer with status 200 and its body, or another status and its text. *)
Inductive http_reply (A : Type) := Reply (a : A) | Status (code : Z) (text : string).
Arguments Reply {A} a.
Arguments Status {A} code text.

(** A call that raises is one that did not get an answer. *)
Class KeyServer (S : Type) := {
  post_key : CreateKeyRequest → M S (http_reply CreateKeyResponse);
  get_keys : string → M S (http_reply (list KeyInfo));
  delete_key : string → string → M S (http_reply string);
  post_verify : string → M S (http_reply VerifyResponse);
}.

(** What a key is good for: its token verifies to its owner until the key is
    revoked, and not after. *)
Class KeyServerLaws {S} (K : KeyServer S) : Prop := {
  token_good : ∀ req s s' resp, post_key req s = (s', Ok (Reply resp)) →
    resp_wallet resp = req_wallet req ∧
    post_verify (resp_token resp) s' = (s', Ok (Reply (mkVerify (req_wallet req) (resp_key_id resp))));
  token_dead : ∀ req s s' resp, post_key req s = (s', Ok (Reply resp)) →
    ∃ s2, delete_key (resp_key_id resp) (req_wallet req) s' = (s2, Ok (Reply (resp_key_id resp))) ∧
      ∃ code text, post_verify (resp_token resp) s2 = (s2, Ok (Status code text));
}.

(** ** The commands *)

Section Client.
Context {S SigningKey : Type} `{K : !KeyServer S}.
(** [SigningKey(secret[:32])], the wallet in base58 and a signature in base58. *)
Context (signing_key : list Z → res SigningKey) (wallet_of : SigningKey → string) (sign : SigningKey → string → string).
Context (time_text : Z → string).

(** The server, and what the console shows: lines, and a table by its rows. *)
Inductive shown_item := Text (line : string) | Rows (title : string) (rows : list (list string)).
Definition Terminal : Type := S * list shown_item.
Definition on_server {A} (m : M S A) : M Terminal A := fun '(s, out) => let '(s', r) := m s in ((s', out), r).
Definition show_item (x : shown_item) : M Terminal unit := modify (fun '(s, out) => (s, out ++ [x])).
Definition echo (line : string) : M Terminal unit := show_item (Text line).
Definition sys_exit {A} : M Terminal A := raise (OtherException "SystemExit(1)").

(** A status other than 200 is shown and ends the program. *)
Definition answered {A} (m : M S (http_reply A)) : M Terminal A :=
  resp ← on_server m;
  match resp with
  | Reply a => mret a
  | Status code text => echo ("[red]Error " +:+ str_of_int code +:+ ": " +:+ text +:+ "[/red]") ;; sys_exit
  end.

(** The file holds a list of integers. *)
Definition load_signing_key (file : res (list Z)) : M Terminal (SigningKey * string) :=
  ints ← lift file;
  if negb (length ints =? 64)%nat then
    echo ("[red]Invalid keypair: expected 64 bytes, got " +:+ str_of_int (Z.of_nat (length ints)) +:+ "[/red]") ;; sys_exit
  else
    lift (if forallb (fun b => (0 <=? b) && (b <? 256)) ints then Ok tt else Raise (ValueError "bytes must be in range(0, 256)")) ;;
    sk ← lift (signing_key (take 32 ints));
    mret (sk, wallet_of sk).

(** [f"otela-auth:{wallet}:{int(time.time())}"] *)
Definition challenge_of (wallet : string) (now : Z) : string := "otela-auth:" +:+ wallet +:+ ":" +:+ str_of_int now.

(** The body of the request. *)
Definition signed_request (sk : SigningKey) (now : Z) (label : string) : CreateKeyRequest :=
  let challenge := challenge_of (wallet_of sk) now in mkReq (wallet_of sk) (sign sk challenge) challenge label.

(** Returns what it has shown. *)
Definition cli_create (now : Z) (wallet : option string) (keypair : res (list Z)) (label : string) : M Terminal CreateKeyResponse :=
  '(sk, derived_wallet) ← load_signing_key keypair;
  (match wallet with
   | Some w =>
       if negb (bool_decide (w = "")) && negb (bool_decide (w = derived_wallet)) then
         echo ("[yellow]Warning: --wallet (" +:+ w +:+ ") differs from keypair pubkey (" +:+ derived_wallet +:+ "). Using keypair.[/yellow]")
       else mret tt
   | None => mret tt
   end) ;;
  data ← answered (post_key (signed_request sk now label));
  echo "[green]API key created successfully![/green]" ;;
  echo ("  Key ID:  " +:+ resp_key_id data) ;;
  echo ("  Token:   [bold]" +:+ resp_token data +:+ "[/bold]") ;;
  echo ("  Wallet:  " +:+ resp_wallet data) ;;
  (if negb (bool_decide (label = "")) then echo ("  Label:   " +:+ label) else mret tt) ;;
  echo "[yellow]Save the token now — it cannot be retrieved later.[/yellow]" ;;
  mret data.

Definition key_row (k : KeyInfo) : list string :=
  [info_key_id k; (if bool_decide (info_label k = "") then "-" else info_label k); time_text (info_created_at k);
   (if info_revoked k then "[red]revoked[/red]" else "[green]active[/green]")].

Definition cli_list (wallet : string) : M Terminal unit :=
  keys ← answered (get_keys wallet);
  if is_nil keys then echo ("No API keys found for wallet " +:+ wallet)
  else show_item (Rows ("API Keys for " +:+ str_take 16 wallet +:+ "...") (map key_row keys)).

Definition cli_revoke (wallet key_id : string) : M Terminal unit :=
  answered (delete_key key_id wallet) ;; echo ("[green]Key " +:+ key_id +:+ " revoked.[/green]").

Definition cli_verify (token : string) : M Terminal unit :=
  data ← answered (post_verify token);
  echo ("  Wallet:  " +:+ ver_wallet data) ;; echo ("  Key ID:  " +:+ ver_key_id data).
End Client.

(** ** Against any server that keeps its promises *)

Section ClientFacts.
Context {S SigningKey : Type} `{K : !KeyServer S} `{!KeyServerLaws K}.
Context (signing_key : list Z → res SigningKey) (wallet_of : SigningKey → string) (sign : SigningKey → string → string).

#[local] Abbreviation shows_wallet out w kid := (out ++ [Text ("  Wallet:  " +:+ w)] ++ [Text ("  Key ID:  " +:+ kid)]).

Lemma echo_run line (s : S) out : echo line (s, out) = ((s, out ++ [Text line]), Ok tt).
Proof. done. Qed.

Lemma answered_ok {A} (m : M S (http_reply A)) s out st a : answered m (s, out) = (st, Ok a) → ∃ s', m s = (s', Ok (Reply a)) ∧ st = (s', out).
Proof.
  unfold answered. intros H. apply bind_ok in H as (st1 & resp & H1 & H). unfold on_server in H1. destruct (m s) as [s' r]. injection H1 as <- ->.
  destruct resp as [a'|code text]; [|by apply bind_ok in H as (? & ? & _ & H)]. injection H as <- <-. eauto.
Qed.

Lemma answered_reply {A} (m : M S (http_reply A)) s out s' a : m s = (s', Ok (Reply a)) → answered m (s, out) = ((s', out), Ok a).
Proof. intros H. unfold answered. erewrite bind_eq; [|unfold on_server; rewrite H; reflexivity]. done. Qed.

(** What was created: a key for the wallet of the key pair, with a signed challenge. *)
Lemma cli_create_ok now wallet keypair label s out st data :
  cli_create signing_key wallet_of sign now wallet keypair label (s, out) = (st, Ok data) →
  ∃ sk s' more, (∃ ints, keypair = Ok ints ∧ signing_key (take 32 ints) = Ok sk) ∧
    post_key (signed_request wallet_of sign sk now label) s = (s', Ok (Reply data)) ∧
    st = (s', out ++ more) ∧ Text ("  Token:   [bold]" +:+ resp_token data +:+ "[/bold]") ∈ more.
Proof.
  unfold cli_create. intros H. apply bind_ok in H as (st1 & [sk w] & H1 & H).
  assert (∃ ints, keypair = Ok ints ∧ signing_key (take 32 ints) = Ok sk ∧ w = wallet_of sk ∧ st1 = (s, out)) as (ints & Hk & Hsk & -> & ->).
  { unfold load_signing_key in H1. destruct keypair as [ints|e]; [|done]. erewrite bind_eq in H1 by reflexivity.
    destruct (length ints =? 64)%nat; cbn [negb] in H1; [|done]. destruct (forallb _ _); [|done]. erewrite bind_eq in H1 by reflexivity.
    destruct (signing_key (take 32 ints)) as [sk'|e] eqn:Hsk; [|done]. injection H1 as <- <- <-. eauto 10. }
  apply bind_ok in H as (st2 & [] & H2 & H).
  assert (∃ more0, st2 = (s, out ++ more0)) as (more0 & ->).
  { destruct wallet as [w|]; [|injection H2 as <-; exists []; by rewrite app_nil_r].
    destruct (_ && _); injection H2 as <-; [eauto|exists []; by rewrite app_nil_r]. }
  cbv zeta in H. apply bind_ok in H as (st3 & d & H3 & H). apply answered_ok in H3 as (s' & H3 & ->).
  do 4 (erewrite bind_eq in H by apply echo_run).
  destruct (bool_decide (label = "")); cbn [negb] in H.
  1: erewrite bind_eq in H by reflexivity. 2: erewrite bind_eq in H by apply echo_run.
  all: erewrite bind_eq in H by apply echo_run; injection H as <- <-; rewrite <- !app_assoc; eexists sk, s', _; split; [eauto|]; split; [done|].
  all: split; [reflexivity|]; rewrite !elem_of_app, !list_elem_of_singleton; auto 10.
Qed.

(** A created key comes back, whatever the name of the wallet that was given. *)
Lemma cli_create_reply now wallet ints sk label s out s' data :
  length ints = 64%nat → forallb (fun b => (0 <=? b) && (b <? 256)) ints = true → signing_key (take 32 ints) = Ok sk →
  post_key (signed_request wallet_of sign sk now label) s = (s', Ok (Reply data)) →
  ∃ st, cli_create signing_key wallet_of sign now wallet (Ok ints) label (s, out) = (st, Ok data).
Proof.
  intros Hl Hb Hsk Hp. unfold cli_create.
  assert (load_signing_key signing_key wallet_of (Ok ints) (s, out) = ((s, out), Ok (sk, wallet_of sk))) as Hload.
  { unfold load_signing_key. erewrite bind_eq by reflexivity. rewrite Hl, Hb. cbn [Nat.eqb negb]. erewrite bind_eq by reflexivity. rewrite Hsk. done. }
  erewrite bind_eq by exact Hload.
  assert (∃ out1, (match wallet with
     | Some w => if negb (bool_decide (w = "")) && negb (bool_decide (w = wallet_of sk)) then
         echo ("[yellow]Warning: --wallet (" +:+ w +:+ ") differs from keypair pubkey (" +:+ wallet_of sk +:+ "). Using keypair.[/yellow]") else mret tt
     | None => mret tt end) (s, out) = ((s, out1), Ok tt)) as (out1 & Hwarn).
  { destruct wallet as [w|]; [|by exists out]. destruct (_ && _); eexists; reflexivity. }
  erewrite bind_eq by exact Hwarn. cbv zeta. erewrite bind_eq by (apply answered_reply; exact Hp).
  do 4 (erewrite bind_eq by apply echo_run). destruct (bool_decide (label = "")); cbn [negb].
  - erewrite bind_eq by reflexivity. erewrite bind_eq by apply echo_run. eexists. reflexivity.
  - erewrite bind_eq by apply echo_run. erewrite bind_eq by apply echo_run. eexists. reflexivity.
Qed.

Lemma cli_verify_reply token s out s' w kid : post_verify token s = (s', Ok (Reply (mkVerify w kid))) →
  cli_verify token (s, out) = ((s', shows_wallet out w kid), Ok tt).
Proof.
  intros H. unfold cli_verify. erewrite bind_eq by (apply answered_reply; exact H). erewrite bind_eq by apply echo_run. rewrite echo_run. by rewrite <- app_assoc.
Qed.

(** A key that was created verifies, shows its wallet, and once revoked from the
    command line no longer does. *)
Lemma created_key_usable now wallet keypair label s out st data :
  cli_create signing_key wallet_of sign now wallet keypair label (s, out) = (st, Ok data) →
  cli_verify (resp_token data) st = ((fst st, shows_wallet (snd st) (resp_wallet data) (resp_key_id data)), Ok tt) ∧
  ∃ st2, cli_revoke (resp_wallet data) (resp_key_id data) st = (st2, Ok tt) ∧ ∃ e, snd (cli_verify (resp_token data) st2) = Raise e.
Proof.
  intros H. apply cli_create_ok in H as (sk & s' & more & _ & Hp & -> & _).
  destruct (token_good _ _ _ _ Hp) as [Hw Hv]. simpl in Hw, Hv. rewrite Hw. split; [by apply cli_verify_reply|].
  destruct (token_dead _ _ _ _ Hp) as (s2 & Hd & code & text & Hdead). simpl in Hd.
  unfold cli_revoke. erewrite bind_eq by (apply answered_reply; exact Hd). rewrite echo_run. eexists. split; [reflexivity|].
  unfold cli_verify, answered. exists (OtherException "SystemExit(1)"). unfold mbind, M_bind, on_server. rewrite Hdead. done.
Qed.
End ClientFacts.

(** ** Against the service *)

(** The client's challenge is one the service accepts while their clocks agree to a
    minute ahead and five minutes behind. *)
Lemma challenge_valid t w now : no_char ":"%char w = true → Z.abs now < int_limit → int_time t - 300 ≤ now ≤ int_time t + 60 →
  _validate_challenge t (challenge_of w now) w = Ok tt.
Proof.
  intros Hw Hn Ht. unfold _validate_challenge, challenge_of.
  change ("otela-auth:" +:+ w +:+ ":" +:+ str_of_int now) with ("otela-auth" +:+ String ":" (w +:+ String ":" (str_of_int now))).
  assert (no_char ":"%char (str_of_int now) = true) as Hs.
  { rewrite <- str_all_no_char. apply str_of_int_chars; [|done|done]. intros y Hy.
    apply negb_true_iff, bool_decide_eq_false_2. intros E. destruct (digit_char y Hy) as (Hd & _). by rewrite E in Hd. }
  rewrite !split_app, (split_no_char _ _ Hs) by done. rewrite bool_decide_eq_true_2 by done. rewrite bool_decide_eq_true_2 by done. cbn [negb].
  rewrite int_of_str_of_int by done. rewrite (proj2 (Z.ltb_ge _ _)) by lia. unfold CHALLENGE_TTL_SECONDS. by rewrite (proj2 (Z.ltb_ge _ _)) by lia.
Qed.

Section Service.
Context (b58decode : string → res string) (VerifyKey_verify : string → string → string → res unit) (sha256_hexdigest : string → string)
        (error_text : string → string) (env : CreateEnv).

(** An endpoint behind HTTP. *)
Definition over_http {A} (m : M db A) : M db (http_reply A) := fun d =>
  match m d with
  | (d', Ok a) => (d', Ok (Reply a))
  | (d', Raise (HTTPException code detail)) => (d', Ok (Status code (error_text detail)))
  | (d', Raise _) => (d', Ok (Status 500 "Internal Server Error"))
  end.

(** The service at the time of a call. *)
Definition service : KeyServer db := {|
  post_key := fun req => over_http (create_key b58decode VerifyKey_verify sha256_hexdigest env req);
  get_keys := fun w => over_http (list_keys w);
  delete_key := fun kid w => over_http (revoke_key kid w);
  post_verify := fun token => over_http (verify_token sha256_hexdigest token);
|}.

Lemma over_http_ok {A} (m : M db A) d d' a : over_http m d = (d', Ok (Reply a)) ↔ m d = (d', Ok a).
Proof. unfold over_http. destruct (m d) as [d1 [a1|[]]]; split; intros [= <- <-] || intros [=]; done. Qed.

Lemma service_laws : KeyServerLaws service.
Proof.
  split; intros req d d' resp H; simpl in H; apply (proj1 (over_http_ok _ _ _ _)) in H; apply create_key_ok in H as (_ & _ & _ & Hk & Hh & -> & ->); simpl.
  - split; [done|]. unfold over_http. rewrite verify_token_eq. unfold find_hash in *. simpl. rewrite list_find_app_None by done. done.
  - assert (find_key (mkDb (used_challenges (purge_expired env d) ++ [mkUsed (req_challenge req) (at_now env + CHALLENGE_TTL_SECONDS * second)])
      (api_keys d ++ [mkKey (generate_key_id (rand_key env)) (hash_token sha256_hexdigest (generate_token (rand_token env))) (req_wallet req) (req_label req) (at_now env) false]))
      (generate_key_id (rand_key env)) = Some (mkKey (generate_key_id (rand_key env)) (hash_token sha256_hexdigest (generate_token (rand_token env))) (req_wallet req) (req_label req) (at_now env) false)) as Hfind
      by (unfold find_key; simpl; by apply list_find_app_None).
    unfold over_http. rewrite revoke_key_eq, Hfind. simpl. rewrite bool_decide_eq_true_2 by done. simpl. eexists. split; [reflexivity|].
    rewrite verify_token_eq. unfold find_hash in *. simpl. rewrite list_find_map by (intros x; by case_bool_decide). rewrite list_find_app_None by done. simpl.
    rewrite bool_decide_eq_true_2 by done. simpl. eauto.
Qed.

Lemma purged_used d c : find_used d c = None → find_used (purge_expired env d) c = None.
Proof.
  unfold find_used, purge_expired. intros H. destruct (_ =? 0); [|done]. simpl.
  destruct (list_find (fun u => uc_challenge u = c) (used_challenges d)) as [[i u]|] eqn:E; [done|]. apply list_find_None in E.
  destruct (list_find _ (filter _ _)) as [[i u]|] eqn:E'; [|done]. exfalso. apply list_find_Some in E' as (Hi & Hu & _).
  apply list_elem_of_lookup_2, list_elem_of_filter in Hi as [_ Hi]. rewrite Forall_forall in E. by apply (E u).
Qed.

(** The service grants a request that it has no reason to refuse. *)
Lemma create_key_grants req d :
  _validate_challenge (at_validate env) (req_challenge req) (req_wallet req) = Ok tt →
  verify_wallet_signature b58decode VerifyKey_verify (req_wallet req) (req_signature req) (req_challenge req) = true →
  find_used d (req_challenge req) = None → find_key d (generate_key_id (rand_key env)) = None →
  find_hash d (hash_token sha256_hexdigest (generate_token (rand_token env))) = None →
  ∃ d' data, create_key b58decode VerifyKey_verify sha256_hexdigest env req d = (d', Ok data).
Proof.
  intros Hv Hs Hu Hk Hh. rewrite create_key_eq, Hv, Hs, Hu.
  assert (api_keys (purge_expired env d) = api_keys d) as Hkeys by (unfold purge_expired; by destruct (_ =? 0)).
  unfold commit_new, find_key, find_hash in *. rewrite Hkeys. cbn [uc_challenge key_id token_hash]. rewrite (purged_used d _ Hu), Hk, Hh.
  eexists _, _. reflexivity.
Qed.

#[local] Existing Instance service.
#[local] Existing Instance service_laws.

Context {SigningKey : Type} (signing_key : list Z → res SigningKey) (wallet_of : SigningKey → string) (sign : SigningKey → string → string).

(** Ed25519: what a key signs verifies with its wallet; base58 has no colon. *)
Hypothesis signatures_verify : ∀ sk m, verify_wallet_signature b58decode VerifyKey_verify (wallet_of sk) (sign sk m) m = true.
Hypothesis wallets_plain : ∀ sk, no_char ":"%char (wallet_of sk) = true.

(** C18.  From the command line to the service and back: with a valid key pair file, clocks that agree within the challenge's window, a challenge not used before and fresh random values, creating a key succeeds and shows the token; verifying that token then shows the key pair's wallet and the key, and after revoking the key from the command line the token is refused. *)
Theorem client_key_works now wallet ints sk label d out :
  length ints = 64%nat → forallb (fun b => (0 <=? b) && (b <? 256)) ints = true → signing_key (take 32 ints) = Ok sk →
  Z.abs now < int_limit → int_time (at_validate env) - 300 ≤ now ≤ int_time (at_validate env) + 60 →
  find_used d (challenge_of (wallet_of sk) now) = None → find_key d (generate_key_id (rand_key env)) = None →
  find_hash d (hash_token sha256_hexdigest (generate_token (rand_token env))) = None →
  ∃ st data, cli_create signing_key wallet_of sign now wallet (Ok ints) label (d, out) = (st, Ok data) ∧
    Text ("  Token:   [bold]" +:+ resp_token data +:+ "[/bold]") ∈ snd st ∧
    cli_verify (resp_token data) st =
      ((fst st, snd st ++ [Text ("  Wallet:  " +:+ wallet_of sk)] ++ [Text ("  Key ID:  " +:+ resp_key_id data)]), Ok tt) ∧
    ∃ st2, cli_revoke (wallet_of sk) (resp_key_id data) st = (st2, Ok tt) ∧ ∃ e, snd (cli_verify (resp_token data) st2) = Raise e.
Proof.
  intros Hl Hb Hsk Hn Ht Hu Hk Hh.
  destruct (create_key_grants (signed_request wallet_of sign sk now label) d) as (d' & data & Hc);
    [apply challenge_valid; [apply wallets_plain|exact Hn|exact Ht]|apply signatures_verify|exact Hu|exact Hk|exact Hh|].
  assert (post_key (KeyServer := service) (signed_request wallet_of sign sk now label) d = (d', Ok (Reply data))) as Hp by exact (proj2 (over_http_ok _ _ _ _) Hc).
  destruct (cli_create_reply (K := service) signing_key wallet_of sign now wallet ints sk label d out d' data Hl Hb Hsk Hp) as (st & Hst).
  exists st, data. split; [done|]. pose proof (created_key_usable signing_key wallet_of sign now wallet (Ok ints) label d out st data Hst) as Huse.
  destruct (token_good _ _ _ _ Hp) as [Hw _]. simpl in Hw. rewrite Hw in Huse. split; [|exact Huse].
  apply cli_create_ok in Hst as (sk' & s' & more & _ & _ & -> & Hin). apply elem_of_app. by right.
Qed.
End Service.

(** ** A run *)

(** Key pairs of the demonstration: all sign as alice. *)
Definition demo_signing_key (secret : list Z) : res (list Z) := Ok secret.
Definition demo_sign (_ : list Z) (m : string) : string := "sig:alice:" +:+ m.
Definition demo_ints : list Z := repeat 1 64.

Lemma demo_signs (sk : list Z) m : verify_wallet_signature demo_b58 demo_verify "alice" (demo_sign sk m) m = true.
Proof. unfold verify_wallet_signature, demo_sign, demo_b58, demo_verify. simpl. by rewrite bool_decide_eq_true_2. Qed.

Lemma client_key_works_witness :
  let server := service demo_b58 demo_verify demo_sha id (env_at 1000000000 "k1") in
  ∃ st data, cli_create demo_signing_key (fun _ => "alice") demo_sign 1000 None (Ok demo_ints) "laptop" (empty_db, []) = (st, Ok data) ∧
    Text ("  Token:   [bold]" +:+ resp_token data +:+ "[/bold]") ∈ snd st ∧
    cli_verify (resp_token data) st =
      ((fst st, snd st ++ [Text ("  Wallet:  " +:+ "alice")] ++ [Text ("  Key ID:  " +:+ resp_key_id data)]), Ok tt) ∧
    ∃ st2, cli_revoke "alice" (resp_key_id data) st = (st2, Ok tt) ∧ ∃ e, snd (cli_verify (resp_token data) st2) = Raise e.
Proof.
  apply (client_key_works demo_b58 demo_verify demo_sha id (env_at 1000000000 "k1") demo_signing_key (fun _ => "alice") demo_sign demo_signs (fun _ => eq_refl)
    1000 None demo_ints (take 32 demo_ints) "laptop" empty_db []);
    [reflexivity|reflexivity|reflexivity|pose proof int_limit_large; lia|vm_compute; split; discriminate|reflexivity..].
Defined.
