(* ===== verification/PyVal.v ===== *)
(** * Python's operations on values of any type

    What the code does to values it reads from YAML and JSON files: indexing,
    membership, iteration, equality and [str], with the exceptions Python raises
    on the wrong types.  [repr] of floats, lists and dicts is a parameter. *)

From S2P Require Import Prelude PyFloat PyStr.

#[local] Open Scope string_scope.
#[local] Open Scope list_scope.
#[local] Open Scope Z_scope.

Definition is_str (k : string) (v : pyval) : bool := match v with VStr s => bool_decide (s = k) | _ => false end.

(** [k in v] *)
Definition py_in (k : string) (v : pyval) : res bool :=
  match v with
  | VDict d => Ok (dict_has d k)
  | VList l => Ok (existsb (is_str k) l)
  | VStr s => Ok (contains k s)
  | _ => Raise (TypeError "argument is not iterable")
  end.

(** [v[k]] *)
Definition py_index (v : pyval) (k : string) : res pyval :=
  match v with
  | VDict d => dict_index d k
  | VList _ | VStr _ => Raise (TypeError "indices must be integers or slices, not str")
  | _ => Raise (TypeError "object is not subscriptable")
  end.

(** [v.get(k, x)] *)
Definition py_get (v : pyval) (k : string) (x : pyval) : res pyval :=
  match v with VDict d => Ok (dict_get_default d k x) | _ => Raise (AttributeError "get") end.

Fixpoint chars (s : string) : list pyval :=
  match s with EmptyString => [] | String c s' => VStr (String c EmptyString) :: chars s' end.

(** [list(v)], also what a [for] loop walks. *)
Definition py_list (v : pyval) : res (list pyval) :=
  match v with
  | VList l => Ok l
  | VStr s => Ok (chars s)
  | VDict d => Ok (map (fun '(k, _) => VStr k) d)
  | _ => Raise (TypeError "object is not iterable")
  end.

(** [a == b] *)
Fixpoint py_eqb (a b : pyval) {struct a} : bool :=
  match a, b with
  | VNone, VNone => true
  | VStr s, VStr t => bool_decide (s = t)
  | VBool x, VBool y => Bool.eqb x y
  | VBool x, VNum n => neqb (NI (Z.b2z x)) n
  | VNum n, VBool y => neqb n (NI (Z.b2z y))
  | VNum m, VNum n => neqb m n
  | VList l, VList l' =>
      (fix go l l' := match l, l' with
         | [], [] => true
         | x :: r, y :: r' => py_eqb x y && go r r'
         | _, _ => false end) l l'
  | VDict d, VDict d' =>
      Nat.eqb (length d) (length d') &&
      (fix go d := match d with
         | [] => true
         | (k, v) :: r => match dict_get d' k with Some v' => py_eqb v v' | None => false end && go r end) d
  | _, _ => false
  end.

(** [a or b] *)
Definition py_or (a b : pyval) : pyval := if truthy a then a else b.

(** [str(v)] *)
Definition show (repr : pyval → string) (v : pyval) : string :=
  match v with
  | VStr s => s
  | VNum (NI z) => str_of_int z
  | VBool true => "True"
  | VBool false => "False"
  | VNone => "None"
  | _ => repr v
  end.

(** Induction on values, through the lists and dicts they hold. *)
Lemma pyval_nested_ind (P : pyval → Prop) :
  P VNone → (∀ b, P (VBool b)) → (∀ n, P (VNum n)) → (∀ s, P (VStr s)) →
  (∀ l, Forall P l → P (VList l)) → (∀ d, Forall (fun kv => P (snd kv)) d → P (VDict d)) → ∀ v, P v.
Proof.
  intros Hnone Hbool Hnum Hstr Hlist Hdict. fix IH 1. intros [|b|n|s|l|d]; [exact Hnone|apply Hbool|apply Hnum|apply Hstr| |].
  - apply Hlist. induction l as [|x r IHl]; constructor; [apply IH|exact IHl].
  - apply Hdict. induction d as [|[k x] r IHd]; constructor; [apply IH|exact IHd].
Qed.
