(* ===== verification/FleetConfig.v ===== *)
(** * Cluster configurations of the fleet manager

    Models the first half of [fleet_manager/cluster.py]: the configuration
    records, the validation and loading of a cluster's YAML file, and the
    identity of a job.  Values read from YAML keep the type they have in the
    file ([pyval]); [str] shows them in commands and paths.

    Parameters: the YAML files, SHA-256, and [repr] of floats, lists and dicts. *)

From Stdlib Require Import Ascii.
From S2P Require Import Prelude PyFloat PyStr PyVal.

#[local] Open Scope string_scope.
#[local] Open Scope list_scope.
#[local] Open Scope Z_scope.

(** ** Paths: [str(Path(dir) / file)] *)

Definition path_join (dir file : string) : string :=
  let s := if startswith "/" file then file else dir +:+ "/" +:+ file in
  let root := if startswith "/" s then (if startswith "//" s && negb (startswith "///" s) then "//" else "/") else "" in
  let parts := filter (fun p => p ≠ "" ∧ p ≠ ".") (split_on "/"%char s) in
  let r := root +:+ join "/" parts in
  if bool_decide (r = "") then "." else r.

(** ** The records *)

Record Preset := mkPreset {
  ps_partition : pyval;
  ps_account : pyval;
  ps_time : pyval;
  ps_gpus : pyval;
  ps_nodes : pyval;
  ps_cpus_per_task : pyval;
  ps_extra_sbatch : pyval;
}.

Record ProxyChains := mkProxy {
  px_enabled : bool;
  px_ssh_key : pyval;
  px_proxy_target : pyval;
  px_socks_port : Z;
  px_skip_partitions : list pyval;
}.

Definition ProxyChains_default : ProxyChains := mkProxy false (VStr "") (VStr "") 1080 [].

Record ClusterConfig := mkConfig {
  cfg_name : pyval;
  ssh_host : pyval;
  ssh_host_any : pyval;
  arch : pyval;
  binary_local_path : pyval;
  binary_remote_path : pyval;
  relay_seed : pyval;
  relay_peer_id : pyval;
  relay_host_ip : pyval;
  relay_port : pyval;
  relay_tcp_port : pyval;
  relay_udp_port : pyval;
  relay_home_override : pyval;
  relay_bootstrap : pyval;
  relay_skip : pyval;
  worker_seed : pyval;
  worker_port : pyval;
  worker_service_port : pyval;
  presets : dict Preset;
  modules : pyval;
  container_runtime : pyval;
  container_image : pyval;
  container_edf_template : pyval;
  container_edf_remote_path : pyval;
  container_sif_path : pyval;
  container_pull_if_missing : pyval;
  container_hf_cache : pyval;
  container_mounts : pyval;
  container_env : pyval;
  container_env_from_host : pyval;
  container_apptainer_flags : pyval;
  proxychains : ProxyChains;
  require_signed_binary : pyval;
  skip_verification : pyval;
}.

Section Config.
Context (repr : pyval → string).

Definition relay_multiaddr (cfg : ClusterConfig) : string :=
  "/ip4/" +:+ show repr (relay_host_ip cfg) +:+ "/tcp/" +:+ show repr (relay_tcp_port cfg) +:+ "/p2p/" +:+ show repr (relay_peer_id cfg).
Definition relay_config_remote_path : string := "~/opentela/relay.cfg.yaml".
Definition relay_log_path : string := "~/opentela/relay.log".

(** ** Parsing *)

Definition parse_preset (values : pyval) : res Preset :=
  partition ← py_index values "partition";
  account ← py_index values "account";
  time ← py_index values "time";
  gpus ← py_index values "gpus";
  nodes ← py_get values "nodes" (VInt 1);
  cpus_per_task ← py_get values "cpus_per_task" VNone;
  extra_sbatch ← py_get values "extra_sbatch" (VList []);
  Ok (mkPreset partition account time gpus nodes cpus_per_task extra_sbatch).

Definition _parse_presets (raw_presets : pyval) : res (dict Preset) :=
  match raw_presets with
  | VDict d => foldR (fun acc '(name, values) => p ← parse_preset values; Ok (dict_set acc name p)) [] d
  | _ => Raise (AttributeError "items")
  end.

Definition _parse_proxychains (raw : pyval) : res ProxyChains :=
  if negb (truthy raw) then Ok ProxyChains_default
  else
    enabled ← py_get raw "enabled" (VBool false);
    ssh_key ← py_get raw "ssh_key" (VStr "");
    proxy_target ← py_get raw "proxy_target" (VStr "");
    port ← py_get raw "socks_port" (VInt 1080);
    socks_port ← int_of_val port;
    skip ← py_get raw "skip_partitions" (VList []);
    skip_partitions ← py_list skip;
    Ok (mkProxy (truthy enabled) ssh_key proxy_target socks_port skip_partitions).

(** ** Validation *)

Definition missing (path field : string) : exn := ValueError (path +:+ ": missing required field '" +:+ field +:+ "'").

(** [for key in keys: if key not in v: raise ...] *)
Fixpoint require_keys (path prefix : string) (v : pyval) (keys : list string) : res unit :=
  match keys with
  | [] => Ok tt
  | key :: keys' =>
      b ← py_in key v;
      if (b : bool) then require_keys path prefix v keys' else Raise (missing path (prefix +:+ key))
  end.

Definition relay_keys : list string :=
  ["seed"; "peer_id"; "host_ip"; "port"; "tcp_port"; "udp_port"; "home_override"; "bootstrap"].

(** A key of [v] that must have a true value. *)
Definition require_value (v : pyval) (key msg : string) : res unit :=
  x ← py_get v key VNone; if truthy x then Ok tt else Raise (ValueError msg).

Definition validate_container (path : string) (container : pyval) : res unit :=
  runtime ← py_index container "runtime";
  if is_str "enroot" runtime then
    require_value container "edf_template" (path +:+ ": enroot runtime requires 'container.edf_template'") ;;
    require_value container "edf_remote_path" (path +:+ ": enroot runtime requires 'container.edf_remote_path'")
  else if is_str "apptainer" runtime then
    require_value container "sif_path" (path +:+ ": apptainer runtime requires 'container.sif_path'")
  else Ok tt.

Definition validate_proxychains (path : string) (pc : pyval) : res unit :=
  enabled ← (if truthy pc then x ← py_get pc "enabled" VNone; Ok (truthy x) else Ok false);
  if (enabled : bool) then
    require_value pc "ssh_key" (path +:+ ": proxychains.enabled requires 'proxychains.ssh_key'") ;;
    require_value pc "proxy_target" (path +:+ ": proxychains.enabled requires 'proxychains.proxy_target'")
  else Ok tt.

Definition validate_arch (path : string) (a : pyval) : res unit :=
  if is_str "amd64" a || is_str "arm64" a then Ok tt
  else Raise (ValueError (path +:+ ": arch must be 'amd64' or 'arm64', got '" +:+ show repr a +:+ "'")).

(** The section [key] of the file has [keys]. *)
Definition require_section (path : string) (raw : pyval) (key : string) (keys : list string) : res unit :=
  section ← py_index raw key; require_keys path (key +:+ ".") section keys.

Definition has_container_key (raw : pyval) (key : string) : res bool :=
  container ← py_get raw "container" (VDict []); py_in key container.

Definition _validate_raw (raw : pyval) (path : string) : res unit :=
  require_keys path "" raw ["name"; "ssh"; "arch"; "binary"; "relay"; "worker"; "presets"] ;;
  a ← py_index raw "arch";
  validate_arch path a ;;
  require_section path raw "ssh" ["host"] ;;
  require_section path raw "binary" ["local_path"; "remote_path"] ;;
  require_section path raw "relay" relay_keys ;;
  require_section path raw "worker" ["seed"; "port"; "service_port"] ;;
  has ← py_in "container" raw;
  runtime ← (if (has : bool) then has_container_key raw "runtime" else Ok false);
  if negb runtime then Raise (missing path "container.runtime")
  else
    image ← has_container_key raw "image";
    if negb image then Raise (missing path "container.image")
    else
      container ← py_index raw "container";
      validate_container path container ;;
      pc ← py_get raw "proxychains" VNone;
      validate_proxychains path pc.

(** ** Loading *)

(** The configuration a parsed file stands for. *)
Definition config_of (raw : pyval) : res ClusterConfig :=
  ssh ← py_index raw "ssh";
  relay ← py_index raw "relay";
  worker ← py_index raw "worker";
  container ← py_get raw "container" (VDict []);
  name ← py_index raw "name";
  host ← py_index ssh "host";
  host_any ← py_get ssh "host_any" host;
  arch ← py_index raw "arch";
  binary ← py_index raw "binary";
  local_path ← py_index binary "local_path";
  remote_path ← py_index binary "remote_path";
  r_seed ← py_index relay "seed";
  peer_id ← py_index relay "peer_id";
  host_ip ← py_index relay "host_ip";
  port ← py_index relay "port";
  tcp_port ← py_index relay "tcp_port";
  udp_port ← py_index relay "udp_port";
  home_override ← py_index relay "home_override";
  bootstrap ← py_index relay "bootstrap";
  skip ← py_get relay "skip" (VBool false);
  w_seed ← py_index worker "seed";
  w_port ← py_index worker "port";
  service_port ← py_index worker "service_port";
  raw_presets ← py_index raw "presets";
  presets ← _parse_presets raw_presets;
  modules ← py_get raw "modules" (VList []);
  runtime ← py_get container "runtime" (VStr "apptainer");
  image ← py_get container "image" (VStr "");
  edf_template ← py_get container "edf_template" VNone;
  edf_remote_path ← py_get container "edf_remote_path" VNone;
  sif_path ← py_get container "sif_path" VNone;
  pull ← py_get container "pull_if_missing" (VBool true);
  hf_cache ← py_get container "hf_cache" (VStr "");
  mounts ← py_get container "mounts" (VList []);
  env ← py_get container "env" (VDict []);
  env_from_host ← py_get container "env_from_host" (VList []);
  flags ← py_get container "apptainer_flags" (VList []);
  pc ← py_get raw "proxychains" VNone;
  proxychains ← _parse_proxychains pc;
  security ← py_get raw "security" (VDict []);
  signed ← py_get security "require_signed_binary" (VBool false);
  solana ← py_get raw "solana" (VDict []);
  skip_verification ← py_get solana "skip_verification" (VBool true);
  Ok (mkConfig name host host_any arch local_path remote_path r_seed peer_id host_ip port tcp_port udp_port
        home_override bootstrap skip w_seed w_port service_port presets modules runtime image edf_template
        edf_remote_path sif_path pull hf_cache mounts env env_from_host flags proxychains signed skip_verification).

(** [yaml_file path]: nothing when the file does not exist, else what
    [yaml.safe_load] makes of it. *)
Context (yaml_file : string → option (res pyval)).

Definition load_cluster (name cluster_dir : string) : res ClusterConfig :=
  let path := path_join cluster_dir (name +:+ ".yaml") in
  match yaml_file path with
  | None => Raise (FileNotFoundError ("Cluster config not found: " +:+ path))
  | Some content =>
      raw ← content;
      _validate_raw raw path ;;
      config_of raw
  end.

(** [list_clusters]; [yaml_stems] lists a directory, when there is one. *)
Definition list_clusters (yaml_stems : string → option (list string)) (cluster_dir : string) : list string :=
  match yaml_stems cluster_dir with
  | None => []
  | Some stems => sort_by String.ltb stems
  end.

(** ** The identity of a job *)

Context (sha256_hex : string → string).

Definition job_identity (backend cmd preset_name : string) : string :=
  "opentela-" +:+ backend +:+ "-" +:+ String.substring 0 8 (sha256_hex (cmd +:+ preset_name)).
End Config.

(** ** What loading guarantees *)

Lemma py_get_dict v k x y : py_get v k x = Ok y → ∃ d, v = VDict d ∧ y = dict_get_default d k x.
Proof. destruct v; try done. intros [= <-]. eauto. Qed.

Lemma py_get_same v k x y z : py_get v k x = Ok y → py_index v k = Ok z → y = z.
Proof.
  intros (d & -> & ->)%py_get_dict. simpl. unfold dict_index, of_option, dict_get_default.
  destruct (dict_get d k); by intros [= <-].
Qed.

Lemma require_value_ok v key msg x :
  require_value v key msg = Ok tt → py_get v key VNone = Ok x → truthy x = true.
Proof. unfold require_value, mbind, res_bind. intros H E. rewrite E in H. by destruct (truthy x). Qed.

(** What the rest of the fleet manager relies on. *)
Record usable_config (cfg : ClusterConfig) : Prop := {
  uc_arch : arch cfg = VStr "amd64" ∨ arch cfg = VStr "arm64";
  uc_enroot : container_runtime cfg = VStr "enroot" →
    truthy (container_edf_template cfg) = true ∧ truthy (container_edf_remote_path cfg) = true;
  uc_apptainer : container_runtime cfg = VStr "apptainer" → truthy (container_sif_path cfg) = true;
  uc_proxy : px_enabled (proxychains cfg) = true →
    truthy (px_ssh_key (proxychains cfg)) = true ∧ truthy (px_proxy_target (proxychains cfg)) = true;
}.

Lemma is_str_true k v : is_str k v = true ↔ v = VStr k.
Proof. destruct v; simpl; try (split; congruence). rewrite bool_decide_eq_true. split; congruence. Qed.

Lemma validate_arch_ok repr path a : validate_arch repr path a = Ok tt → a = VStr "amd64" ∨ a = VStr "arm64".
Proof. unfold validate_arch. destruct (is_str "amd64" a || is_str "arm64" a) eqn:E; [|done]. rewrite orb_true_iff, !is_str_true in E. done. Qed.

Lemma validate_container_ok path c runtime edf edf_path sif :
  validate_container path c = Ok tt → py_get c "runtime" (VStr "apptainer") = Ok runtime →
  py_get c "edf_template" VNone = Ok edf → py_get c "edf_remote_path" VNone = Ok edf_path → py_get c "sif_path" VNone = Ok sif →
  (runtime = VStr "enroot" → truthy edf = true ∧ truthy edf_path = true) ∧ (runtime = VStr "apptainer" → truthy sif = true).
Proof.
  unfold validate_container. intros H Hr He Hp Hs. unfold mbind, res_bind in H.
  destruct (py_index c "runtime") as [rt|] eqn:Er; [|done]. pose proof (py_get_same _ _ _ _ _ Hr Er) as ->.
  split; intros ->; simpl in H.
  - destruct (require_value c "edf_template" _) as [[]|] eqn:E1; [|done].
    split; [exact (require_value_ok _ _ _ _ E1 He)|exact (require_value_ok _ _ _ _ H Hp)].
  - exact (require_value_ok _ _ _ _ H Hs).
Qed.

(** A default with the same truth value does not matter. *)
Lemma truthy_default v k x x' y :
  py_get v k x = Ok y → truthy x = truthy x' → ∃ y', py_get v k x' = Ok y' ∧ truthy y = truthy y'.
Proof.
  intros (d & -> & ->)%py_get_dict Hx. eexists. split; [done|]. unfold dict_get_default.
  by destruct (dict_get d k).
Qed.

Lemma validate_proxychains_ok path pc px :
  validate_proxychains path pc = Ok tt → _parse_proxychains pc = Ok px → px_enabled px = true →
  truthy (px_ssh_key px) = true ∧ truthy (px_proxy_target px) = true.
Proof.
  unfold validate_proxychains, _parse_proxychains. intros Hv Hp Hen. destruct (truthy pc); cbn [negb] in *; [|by inv_res].
  inv_res. cbn [px_enabled px_ssh_key px_proxy_target] in *.
  match goal with H1 : py_get pc "enabled" _ = Ok _, H2 : py_get pc "ssh_key" _ = Ok _, H3 : py_get pc "proxy_target" _ = Ok _ |- _ =>
    destruct (truthy_default _ _ _ VNone _ H1 eq_refl) as (e & He & Te), (truthy_default _ _ _ VNone _ H2 eq_refl) as (k & Hk & Tk),
      (truthy_default _ _ _ VNone _ H3 eq_refl) as (t & Ht & Tt) end.
  rewrite Tk, Tt. match type of Hv with (if truthy ?x then _ else _) = _ => replace (truthy x) with true in Hv by congruence end.
  destruct (require_value pc "ssh_key" _) as [[]|] eqn:Ek; [|discriminate Hv].
  split; [exact (require_value_ok _ _ _ _ Ek Hk)|exact (require_value_ok _ _ _ _ Hv Ht)].
Qed.

Lemma validated_parts repr raw path :
  _validate_raw repr raw path = Ok tt →
  ∃ a c pc, py_index raw "arch" = Ok a ∧ py_index raw "container" = Ok c ∧ py_get raw "proxychains" VNone = Ok pc ∧
    validate_arch repr path a = Ok tt ∧ validate_container path c = Ok tt ∧ validate_proxychains path pc = Ok tt.
Proof.
  unfold _validate_raw, mbind, res_bind. intros H.
  repeat match type of H with
  | match ?m with Ok _ => _ | Raise _ => _ end = Ok _ => destruct m as [?|] eqn:?; [|discriminate H]
  | (if negb ?b then _ else _) = _ => destruct b; simpl in H; [|discriminate H]
  end.
  repeat match goal with u : unit |- _ => destruct u end. eauto 10.
Qed.

(** A configuration that [load_cluster] returns is usable: its
    architecture is one of the two supported, an Enroot or Apptainer runtime has
    the paths it needs, and enabled proxychains have a key and a target. *)
Theorem load_cluster_usable repr yaml_file name dir cfg :
  load_cluster repr yaml_file name dir = Ok cfg → usable_config cfg.
Proof.
  unfold load_cluster. destruct (yaml_file _) as [content|]; [|done]. intros H. inv_res.
  match goal with H : _validate_raw _ _ _ = Ok _ |- _ => rename H into Hv end.
  match goal with H : config_of _ = Ok _ |- _ => rename H into Hc end.
  match type of Hv with _ = Ok ?u => destruct u end. destruct (validated_parts _ _ _ Hv) as (ar & c & pc & Ha & Hco & Hpc & V1 & V2 & V3).
  unfold config_of in Hc. rewrite Ha, Hpc in Hc. inv_res.
  match goal with H : py_get _ "container" _ = Ok ?c' |- _ => pose proof (py_get_same _ _ _ _ _ H Hco); subst c' end.
  match goal with E1 : py_get c "runtime" _ = Ok _, E2 : py_get c "edf_template" _ = Ok _,
      E3 : py_get c "edf_remote_path" _ = Ok _, E4 : py_get c "sif_path" _ = Ok _ |- _ =>
    destruct (validate_container_ok _ _ _ _ _ _ V2 E1 E2 E3 E4) end.
  split; simpl; [by eapply validate_arch_ok|done|done|by eapply validate_proxychains_ok].
Qed.

(** ** Which files load *)

Definition is_dict (v : pyval) : Prop := ∃ d, v = VDict d.
Definition has_keys (keys : list string) (v : pyval) : Prop :=
  ∃ d, v = VDict d ∧ Forall (fun k => is_Some (dict_get d k)) keys.

(** A file whose sections have the types the loader expects, each preset with
    its four mandatory fields. *)
Record well_shaped (d : dict pyval) : Prop := {
  ws_sections : ∀ k v, dict_get d k = Some v →
    k ∈ ["ssh"; "binary"; "relay"; "worker"; "container"; "security"; "solana"] → is_dict v;
  ws_presets : ∀ v, dict_get d "presets" = Some v →
    ∃ ps, v = VDict ps ∧ Forall (fun p => has_keys ["partition"; "account"; "time"; "gpus"] (snd p)) ps;
  ws_proxychains : ∀ v, dict_get d "proxychains" = Some v → truthy v = true →
    is_dict v ∧ ∃ px, _parse_proxychains v = Ok px;
}.

(** A check of the validation accepts or raises [ValueError]. *)
Definition checks (r : res unit) : Prop := r = Ok tt ∨ ∃ msg, r = Raise (ValueError msg).

Lemma checks_bind (r : res unit) (f : unit → res unit) : checks r → (r = Ok tt → checks (f tt)) → checks (r ≫= f).
Proof. intros [->|[msg ->]] Hf; [by apply Hf|]. right. by exists msg. Qed.

Lemma require_keys_checks path prefix d keys :
  checks (require_keys path prefix (VDict d) keys) ∧
  (require_keys path prefix (VDict d) keys = Ok tt → Forall (fun k => is_Some (dict_get d k)) keys).
Proof.
  induction keys as [|k keys [IH1 IH2]]; simpl; [split; [by left|done]|].
  unfold mbind, res_bind, dict_has. simpl. case_bool_decide as Hk.
  - split; [done|]. constructor; auto.
  - split; [right; by eexists|done].
Qed.

Lemma require_value_checks d key msg : checks (require_value (VDict d) key msg).
Proof. unfold require_value, mbind, res_bind. simpl. destruct (truthy _); [by left|right; by eexists]. Qed.

Lemma py_index_some d k v : dict_get d k = Some v → py_index (VDict d) k = Ok v.
Proof. intros H. simpl. unfold dict_index. by rewrite H. Qed.

Lemma section_checks path d key keys v :
  dict_get d key = Some v → is_dict v →
  checks (require_section path (VDict d) key keys) ∧ (require_section path (VDict d) key keys = Ok tt → has_keys keys v).
Proof.
  intros Hg [d' ->]. unfold require_section. rewrite (py_index_some _ _ _ Hg). cbn [mbind res_bind].
  destruct (require_keys_checks path (key +:+ ".") d' keys) as [H1 H2]. split; [done|]. intros H. exists d'. auto.
Qed.

Lemma validate_container_checks path d : is_Some (dict_get d "runtime") → checks (validate_container path (VDict d)).
Proof.
  intros [v Hv]. unfold validate_container. rewrite (py_index_some _ _ _ Hv). cbn [mbind res_bind].
  destruct (is_str "enroot" v); [|destruct (is_str "apptainer" v); [apply require_value_checks|by left]].
  apply (checks_bind (require_value _ _ _)); intros; apply require_value_checks.
Qed.

Lemma validate_proxychains_checks path pc : (truthy pc = true → is_dict pc) → checks (validate_proxychains path pc).
Proof.
  intros Hd. unfold validate_proxychains. destruct (truthy pc); [|by left]. destruct Hd as [d ->]; [done|].
  cbn [py_get mbind res_bind]. destruct (truthy _); [|by left].
  apply (checks_bind (require_value _ _ _)); intros; apply require_value_checks.
Qed.

Lemma validate_arch_checks repr path a : checks (validate_arch repr path a).
Proof. unfold validate_arch. destruct (_ || _); [by left|right; by eexists]. Qed.

Section Shape.
Context (repr : pyval → string) (d : dict pyval) (path : string).
Hypothesis shape : well_shaped d.

Lemma section_dict k v :
  dict_get d k = Some v → k ∈ ["ssh"; "binary"; "relay"; "worker"; "container"; "security"; "solana"] → is_dict v.
Proof. apply shape. Qed.

Lemma container_key k :
  (∃ c, dict_get d "container" = Some (VDict c) ∧ has_container_key (VDict d) k = Ok (dict_has c k)) ∨
  (dict_get d "container" = None ∧ has_container_key (VDict d) k = Ok false).
Proof.
  unfold has_container_key. cbn [py_get mbind res_bind]. unfold dict_get_default.
  destruct (dict_get d "container") as [v|] eqn:E; [left|by right].
  destruct (section_dict _ _ E) as [c ->]; [set_solver|]. by exists c.
Qed.

Lemma validate_checks : checks (_validate_raw repr (VDict d) path).
Proof.
  unfold _validate_raw. destruct (require_keys_checks path "" d ["name"; "ssh"; "arch"; "binary"; "relay"; "worker"; "presets"])
    as [H1 H2]. apply checks_bind; [done|]. intros Hk. specialize (H2 Hk).
  rewrite !Forall_cons in H2. destruct H2 as ([? Hname] & [? Hssh] & [? Harch] & [? Hbin] & [? Hrel] & [? Hwrk] & _).
  rewrite (py_index_some _ _ _ Harch). cbn [mbind res_bind].
  apply checks_bind; [apply validate_arch_checks|intros _].
  apply checks_bind; [eapply section_checks; [done|eapply section_dict; [done|set_solver]]|intros _].
  apply checks_bind; [eapply section_checks; [done|eapply section_dict; [done|set_solver]]|intros _].
  apply checks_bind; [eapply section_checks; [done|eapply section_dict; [done|set_solver]]|intros _].
  apply checks_bind; [eapply section_checks; [done|eapply section_dict; [done|set_solver]]|intros _].
  cbn [py_in mbind res_bind]. unfold dict_has at 1.
  destruct (container_key "runtime") as [(c & Hc & ->)|[Hc _]]; rewrite Hc; [|right; by eexists].
  rewrite bool_decide_eq_true_2 by done. cbn [mbind res_bind].
  unfold dict_has at 1. case_bool_decide as Hrt; [|right; by eexists]. cbn [negb].
  destruct (container_key "image") as [(c' & Hc' & ->)|[Hc' _]]; [|congruence]. cbn [mbind res_bind].
  destruct (dict_has c' "image"); [|right; by eexists]. cbn [negb]. rewrite (py_index_some _ _ _ Hc). cbn [mbind res_bind].
  apply checks_bind; [by apply validate_container_checks|intros _]. cbn [py_get mbind res_bind].
  apply validate_proxychains_checks. unfold dict_get_default. destruct (dict_get d "proxychains") as [v|] eqn:E; [|done].
  intros Hv. by apply (ws_proxychains _ shape v).
Qed.

Lemma default_dict k :
  k ∈ ["ssh"; "binary"; "relay"; "worker"; "container"; "security"; "solana"] → is_dict (dict_get_default d k (VDict [])).
Proof.
  intros Hk. unfold dict_get_default. destruct (dict_get d k) as [v|] eqn:E; [by eapply section_dict|by eexists].
Qed.

Lemma parse_presets_total ps :
  Forall (fun p => has_keys ["partition"; "account"; "time"; "gpus"] (snd p)) ps → ∃ r, _parse_presets (VDict ps) = Ok r.
Proof.
  unfold _parse_presets. generalize (@nil (string * Preset)). induction ps as [|[name v] ps IH]; intros acc H; simpl; [eauto|].
  inversion_clear H as [|? ? (dp & Hv & Hk) Hps]. simpl in Hv. subst v.
  rewrite !Forall_cons in Hk. destruct Hk as ([? H1] & [? H2] & [? H3] & [? H4] & _).
  unfold parse_preset. rewrite !(py_index_some dp _ _ H1), !(py_index_some dp _ _ H2), !(py_index_some dp _ _ H3), !(py_index_some dp _ _ H4).
  cbn [mbind res_bind py_get]. by apply IH.
Qed.

Lemma validated_sections :
  _validate_raw repr (VDict d) path = Ok tt →
  Forall (fun k => is_Some (dict_get d k)) ["name"; "ssh"; "arch"; "binary"; "relay"; "worker"; "presets"] ∧
  Forall (fun '(k, keys) => ∃ x, dict_get d k = Some (VDict x) ∧ Forall (fun k => is_Some (dict_get x k)) keys)
    [("ssh", ["host"]); ("binary", ["local_path"; "remote_path"]); ("relay", relay_keys);
     ("worker", ["seed"; "port"; "service_port"])].
Proof.
  unfold _validate_raw, mbind, res_bind. intros H.
  destruct (require_keys path "" _ _) as [[]|] eqn:E; [|done].
  pose proof (proj2 (require_keys_checks path "" d _) E) as Hk. split; [done|].
  rewrite !Forall_cons in Hk. destruct Hk as ([? Hname] & [? Hssh] & [? Harch] & [? Hbin] & [? Hrel] & [? Hwrk] & _).
  rewrite (py_index_some _ _ _ Harch) in H. destruct (validate_arch _ _ _); [|done].
  assert (Hsec : ∀ k keys v, dict_get d k = Some v → k ∈ ["ssh"; "binary"; "relay"; "worker"; "container"; "security"; "solana"] →
    require_section path (VDict d) k keys = Ok tt → ∃ x, dict_get d k = Some (VDict x) ∧ Forall (fun k => is_Some (dict_get x k)) keys).
  { intros k keys v Hv Hin Hr. destruct (proj2 (section_checks path d k keys v Hv (section_dict _ _ Hv Hin)) Hr) as (s & -> & Hs). eauto. }
  destruct (require_section path _ "ssh" _) as [[]|] eqn:E1; [|done].
  destruct (require_section path _ "binary" _) as [[]|] eqn:E2; [|done].
  destruct (require_section path _ "relay" _) as [[]|] eqn:E3; [|done].
  destruct (require_section path _ "worker" _) as [[]|] eqn:E4; [|done].
  repeat constructor; (eapply Hsec; [eassumption|set_solver|done]).
Qed.

Lemma config_of_total : _validate_raw repr (VDict d) path = Ok tt → ∃ cfg, config_of (VDict d) = Ok cfg.
Proof.
  intros [Hk Hs]%validated_sections. rewrite !Forall_cons in Hk. rewrite !Forall_cons in Hs.
  destruct Hk as ([? Hname] & _ & [? Harch] & _ & _ & _ & [? Hps] & _).
  destruct Hs as ((ssh & Hssh & Hk1) & (bin & Hbin & Hk2) & (rel & Hrel & Hk3) & (wrk & Hwrk & Hk4) & _).
  unfold relay_keys in Hk3. rewrite !Forall_cons in Hk1; rewrite !Forall_cons in Hk2; rewrite !Forall_cons in Hk3; rewrite !Forall_cons in Hk4.
  destruct_and!.
  repeat match goal with H : is_Some _ |- _ => destruct H as [? ?] end.
  destruct (ws_presets _ shape _ Hps) as (ps & -> & Hall). destruct (parse_presets_total ps Hall) as [pr Hpr].
  destruct (default_dict "container") as [con Hcon]; [set_solver|]. destruct (default_dict "security") as [sec Hsec]; [set_solver|].
  destruct (default_dict "solana") as [sol Hsol]; [set_solver|].
  assert (∃ px, _parse_proxychains (dict_get_default d "proxychains" VNone) = Ok px) as [px Hpx].
  { unfold dict_get_default. destruct (dict_get d "proxychains") as [v|] eqn:E; simpl; [|by eexists].
    destruct (truthy v) eqn:Ev; [by apply (ws_proxychains _ shape v)|]. unfold _parse_proxychains. rewrite Ev. by eexists. }
  unfold config_of. repeat (first [erewrite py_index_some by eassumption | rewrite Hpr | rewrite Hpx
    | progress cbn [mbind res_bind py_get] | rewrite Hcon | rewrite Hsec | rewrite Hsol]). eauto.
Qed.
End Shape.

(** A file of the right shape either loads or is refused by the validation
    with a [ValueError]: the checks cover every key the loader reads, so no
    [KeyError], [TypeError] or [AttributeError] escapes. *)
Theorem load_cluster_total repr yaml_file name dir d :
  yaml_file (path_join dir (name +:+ ".yaml")) = Some (Ok (VDict d)) → well_shaped d →
  (∃ cfg, load_cluster repr yaml_file name dir = Ok cfg) ∨ ∃ msg, load_cluster repr yaml_file name dir = Raise (ValueError msg).
Proof.
  intros Hf Hw. unfold load_cluster. rewrite Hf. cbn [mbind res_bind].
  destruct (validate_checks repr d (path_join dir (name +:+ ".yaml")) Hw) as [Hv|[msg Hv]]; rewrite Hv; [left|right; by eexists].
  by eapply config_of_total.
Qed.

(** ** Witnesses *)

Definition demo_repr (_ : pyval) : string := "...".

(** The file clusters/jsc.yaml, with one of its presets. *)
Definition demo_yaml : dict pyval :=
  [("name", VStr "jsc"); ("ssh", VDict [("host", VStr "jsc")]); ("arch", VStr "amd64");
   ("binary", VDict [("local_path", VStr "./binaries/otela-amd64"); ("remote_path", VStr "~/opentela/entry")]);
   ("relay", VDict [("seed", VStr "299"); ("peer_id", VStr "QmPneGvHmWMngc8BboFasEJQ7D2aN9C65iMDwgCRGaTazs");
                    ("host_ip", VStr "127.0.0.1"); ("port", VStr "18092"); ("tcp_port", VStr "43900");
                    ("udp_port", VStr "18820"); ("home_override", VStr "/tmp/opentela-relay"); ("skip", VBool true);
                    ("bootstrap", VList [VStr "https://bootstraps.opentela.ai/v1/dnt/bootstraps"])]);
   ("worker", VDict [("seed", VStr "300"); ("port", VStr "8092"); ("service_port", VStr "30000")]);
   ("container", VDict [("runtime", VStr "apptainer"); ("image", VStr "lmsysorg/sglang:dev");
                        ("sif_path", VStr "/p/scratch/containers/sglang-dev.sif"); ("pull_if_missing", VBool true);
                        ("mounts", VList [VStr "/p/scratch:/p/scratch"]); ("apptainer_flags", VList [VStr "--nv"])]);
   ("proxychains", VDict [("enabled", VBool true); ("ssh_key", VStr "~/.ssh/id_ed25519_jsc");
                          ("proxy_target", VStr "jureca05.fz-juelich.de"); ("socks_port", VInt 1080);
                          ("skip_partitions", VList [VStr "develbooster"; VStr "dc-gpu-devel"])]);
   ("presets", VDict [("A100_4", VDict [("partition", VStr "booster"); ("account", VStr "laionize");
                                        ("time", VStr "04:00:00"); ("gpus", VInt 4); ("nodes", VInt 1)])])].

Definition demo_yaml_file (path : string) : option (res pyval) :=
  if bool_decide (path = "clusters/jsc.yaml") then Some (Ok (VDict demo_yaml)) else None.

Lemma load_cluster_usable_witness :
  ∃ cfg, load_cluster demo_repr demo_yaml_file "jsc" "./clusters" = Ok cfg ∧ usable_config cfg.
Proof.
  destruct (load_cluster demo_repr demo_yaml_file "jsc" "./clusters") as [cfg|] eqn:E; [|vm_compute in E; discriminate E].
  exists cfg. split; [reflexivity|]. exact (load_cluster_usable _ _ _ _ _ E).
Defined.

Lemma demo_yaml_shape : well_shaped demo_yaml.
Proof.
  split.
  - intros k v Hv Hk. repeat (apply elem_of_cons in Hk as [->|Hk]; [vm_compute in Hv; first [discriminate Hv|injection Hv as <-; by eexists]|]).
    by apply not_elem_of_nil in Hk.
  - intros v [= <-]. eexists. split; [reflexivity|]. constructor; [|constructor]. eexists. split; [reflexivity|].
    repeat constructor; by eexists.
  - intros v [= <-] _. split; [by eexists|]. eexists. vm_compute. reflexivity.
Qed.

Lemma load_cluster_total_witness :
  (∃ cfg, load_cluster demo_repr demo_yaml_file "jsc" "clusters" = Ok cfg) ∨
  ∃ msg, load_cluster demo_repr demo_yaml_file "jsc" "clusters" = Raise (ValueError msg).
Proof. apply (load_cluster_total demo_repr demo_yaml_file "jsc" "clusters" demo_yaml); [reflexivity|exact demo_yaml_shape]. Defined.
