(* ===== verification/FleetConnection.v ===== *)
(** * Connections to a cluster

    Models [ClusterConnection] of [fleet_manager/cluster.py], which runs commands
    and copies files over an existing SSH control master or a Paramiko client,
    whichever the host has.  The class [Connection] is what the rest of the
    fleet manager uses of it; [cluster_connection] is the implementation.

    Parameters: the operations of ssh, scp, Paramiko and the local file system,
    on a world [W] of which nothing else is known. *)

From Stdlib Require Import Ascii.
From S2P Require Import Prelude PyFloat PyStr PyVal FleetConfig.

#[local] Open Scope string_scope.
#[local] Open Scope list_scope.
#[local] Open Scope Z_scope.

(** Standard output, standard error and exit code. *)
Abbreviation output := (string * string * Z)%type.

(** ** The interface

    [S] is the state of the program and of the machines, [world] what the
    machines see of it, and [H] the connection objects. *)

Class Connection (W S H : Type) := {
  world : S → W;
  conn_config : H → ClusterConfig;
  new_connection : ClusterConfig → M S H;
  conn_run : H → string → string → M S output;
  conn_put : H → string → string → string → M S unit;
  conn_put_string : H → string → string → string → M S unit;
  conn_close : H → M S unit;
}.

(** What a connection promises: constructing one does nothing to the world and
    cannot fail, and the object keeps its configuration. *)
Class ConnectionLaws {W S H} (C : Connection W S H) : Prop := {
  new_connection_ok : ∀ cfg s, ∃ s' h, new_connection cfg s = (s', Ok h) ∧ conn_config h = cfg ∧ world s' = world s;
}.

(** [s.replace(c, r)] for a one-character [c] *)
Fixpoint replace_char (c : ascii) (r s : string) : string :=
  match s with
  | EmptyString => EmptyString
  | String x s' => if bool_decide (x = c) then r +:+ replace_char c r s' else String x (replace_char c r s')
  end.

(** ** ssh, scp, Paramiko and the local machine *)

Class Transport (W Client Sftp : Type) := {
  ssh_check : string → M W Z;
  ssh_exec : string → string → M W output;
  scp : string → string → M W unit;
  write_temp : string → M W string;
  unlink : string → M W unit;
  sleep : Z → M W unit;
  user_env : option string;
  (** the lookup of ~/.ssh/config, empty when there is no such file *)
  ssh_config : M W (string → dict string);
  new_client : M W Client;
  client_connect : Client → string → option string → option string → M W unit;
  client_exec : Client → string → M W output;
  client_close : Client → M W unit;
  open_sftp : Client → M W Sftp;
  sftp_put : Sftp → string → string → M W unit;
  sftp_write : Sftp → string → string → M W unit;
  sftp_close : Sftp → M W unit;
}.

Section Implementation.
Context {W Client Sftp : Type} `{!Transport W Client Sftp} (repr : pyval → string).

(** ** The objects *)

Record ConnObj := mkConn { _clients : dict Client; _use_subprocess : dict bool }.
Record Handle := mkHandle { h_ptr : nat; h_config : ClusterConfig }.

Definition CS : Type := W * list ConnObj.

Definition on_world {A} (m : M W A) : M CS A := fun '(w, heap) => let '(w', r) := m w in ((w', heap), r).
Definition object (h : Handle) : M CS ConnObj := gets (fun '(_, heap) => default (mkConn [] []) (heap !! h_ptr h)).
Definition update_object (h : Handle) (f : ConnObj → ConnObj) : M CS unit :=
  modify (fun '(w, heap) => (w, alter f (h_ptr h) heap)).

Definition ClusterConnection_init (config : ClusterConfig) : M CS Handle := fun '(w, heap) =>
  ((w, heap ++ [mkConn [] []]), Ok (mkHandle (length heap) config)).

(** ** Which transport *)

Definition _has_control_master (host : string) : M CS bool :=
  returncode ← on_world (ssh_check host); mret (returncode =? 0).

Definition _should_use_subprocess (h : Handle) (host : string) : M CS bool :=
  obj ← object h;
  match dict_get (_use_subprocess obj) host with
  | Some b => mret b
  | None =>
      b ← _has_control_master host;
      update_object h (fun o => mkConn (_clients o) (dict_set (_use_subprocess o) host b)) ;;
      mret b
  end.

Definition _get_host (h : Handle) (target : string) : string :=
  show repr (if bool_decide (target = "relay") then ssh_host (h_config h) else ssh_host_any (h_config h)).

(** The proxy to go through, if the SSH configuration names one. *)
Definition proxy_sock (config : string → dict string) (host_cfg : dict string) (actual_host : string)
    (username : option string) : option string :=
  match dict_get host_cfg "proxycommand" with
  | Some c => Some c
  | None =>
      match dict_get host_cfg "proxyjump" with
      | None => None
      | Some proxy_host =>
          let proxy_cfg := config proxy_host in
          let proxy_hostname := dict_get_default proxy_cfg "hostname" proxy_host in
          let proxy_user := default (default "None" username) (dict_get proxy_cfg "user") in
          Some ("ssh -W " +:+ actual_host +:+ ":22 " +:+ proxy_user +:+ "@" +:+ proxy_hostname)
      end
  end.

(** [for attempt in range(2)]: the second failure is raised. *)
Definition connect_twice (client : Client) (host : string) (username sock : option string) : M CS unit :=
  try_except (on_world (client_connect client host username sock))
    (fun _ => on_world (sleep 3) ;; on_world (client_connect client host username sock)).

Definition _get_client (h : Handle) (target : string) : M CS Client :=
  obj ← object h;
  match dict_get (_clients obj) target with
  | Some client => mret client
  | None =>
      let host := _get_host h target in
      config ← on_world ssh_config;
      let host_cfg := config host in
      let actual_host := dict_get_default host_cfg "hostname" host in
      let username := match dict_get host_cfg "user" with Some u => Some u | None => user_env end in
      client ← on_world new_client;
      connect_twice client actual_host username (proxy_sock config host_cfg actual_host username) ;;
      update_object h (fun o => mkConn (dict_set (_clients o) target client) (_use_subprocess o)) ;;
      mret client
  end.

(** ** The operations *)

Definition cc_run (h : Handle) (cmd target : string) : M CS output :=
  let host := _get_host h target in
  b ← _should_use_subprocess h host;
  if (b : bool) then on_world (ssh_exec host cmd)
  else client ← _get_client h target; on_world (client_exec client cmd).

Definition _resolve_remote_path (h : Handle) (remote_path target : string) : M CS string :=
  if contains "~" remote_path then
    '(out, _, _) ← cc_run h "echo $HOME" target;
    mret (replace_char "~"%char (strip out) remote_path)
  else mret remote_path.

(** A copy through Paramiko: the channel is closed whatever happens. *)
Definition via_sftp (h : Handle) (remote_path target : string) (copy : Sftp → string → M W unit) : M CS unit :=
  client ← _get_client h target;
  resolved ← _resolve_remote_path h remote_path target;
  sftp ← on_world (open_sftp client);
  try_finally (on_world (copy sftp resolved)) (on_world (sftp_close sftp)).

Definition cc_put (h : Handle) (local_path remote_path target : string) : M CS unit :=
  let host := _get_host h target in
  b ← _should_use_subprocess h host;
  if (b : bool) then
    resolved ← _resolve_remote_path h remote_path target;
    on_world (scp local_path (host +:+ ":" +:+ resolved))
  else via_sftp h remote_path target (fun sftp resolved => sftp_put sftp local_path resolved).

Definition cc_put_string (h : Handle) (content remote_path target : string) : M CS unit :=
  let host := _get_host h target in
  b ← _should_use_subprocess h host;
  if (b : bool) then
    resolved ← _resolve_remote_path h remote_path target;
    tmp_path ← on_world (write_temp content);
    try_finally (on_world (scp tmp_path (host +:+ ":" +:+ resolved))) (on_world (unlink tmp_path))
  else via_sftp h remote_path target (fun sftp resolved => sftp_write sftp resolved content).

Definition cc_close (h : Handle) : M CS unit :=
  obj ← object h;
  for_each (fun client => on_world (client_close client)) (dict_values (_clients obj)) ;;
  update_object h (fun o => mkConn [] (_use_subprocess o)).

#[export] Instance cluster_connection : Connection W CS Handle := {
  world := fst;
  conn_config := h_config;
  new_connection := ClusterConnection_init;
  conn_run := cc_run;
  conn_put := cc_put;
  conn_put_string := cc_put_string;
  conn_close := cc_close;
}.

#[export] Instance cluster_connection_laws : ConnectionLaws cluster_connection.
Proof. split. intros cfg [w heap]. by exists (w, heap ++ [mkConn [] []]), (mkHandle (length heap) cfg). Qed.
End Implementation.

(** ** No temporary file or channel is left behind *)

(** What the machine documents of temporary files and SFTP channels: the
    operations that make and end one, and that no other touches them. *)
Class Resources (W Client Sftp : Type) `{!Transport W Client Sftp} := {
  temps : W → list string;
  channels : W → list Sftp;
  leaves {A} (m : M W A) := keeps (fun w => (temps w, channels w)) m;
  write_temp_res : ∀ c w, channels (fst (write_temp c w)) = channels w ∧
    temps (fst (write_temp c w)) = match snd (write_temp c w) with Ok p => p :: temps w | Raise _ => temps w end;
  unlink_res : ∀ p w, channels (fst (unlink p w)) = channels w ∧ ∀ l, temps w = p :: l → temps (fst (unlink p w)) = l;
  open_sftp_res : ∀ c w, temps (fst (open_sftp c w)) = temps w ∧
    channels (fst (open_sftp c w)) = match snd (open_sftp c w) with Ok x => x :: channels w | Raise _ => channels w end;
  sftp_close_res : ∀ x w, temps (fst (sftp_close x w)) = temps w ∧
    ∀ l, channels w = x :: l → channels (fst (sftp_close x w)) = l;
  ssh_check_keeps : ∀ h, leaves (ssh_check h);
  ssh_exec_keeps : ∀ h c, leaves (ssh_exec h c);
  scp_keeps : ∀ a b, leaves (scp a b);
  sleep_keeps : ∀ n, leaves (sleep n);
  ssh_config_keeps : leaves ssh_config;
  new_client_keeps : leaves new_client;
  connect_keeps : ∀ c h u s, leaves (client_connect c h u s);
  exec_keeps : ∀ c cmd, leaves (client_exec c cmd);
  client_close_keeps : ∀ c, leaves (client_close c);
  sftp_put_keeps : ∀ x a b, leaves (sftp_put x a b);
  sftp_write_keeps : ∀ x a b, leaves (sftp_write x a b);
}.

Section NoLeaks.
Context {W Client Sftp : Type} `{!Transport W Client Sftp} `{!Resources W Client Sftp} (repr : pyval → string).

(** The temporary files and channels that exist. *)
Definition resources (s : CS (W:=W) (Client:=Client)) : list string * list Sftp := (temps (fst s), channels (fst s)).
Abbreviation tidy := (keeps resources).

Lemma tidy_world {A} (m : M W A) : leaves m → tidy (on_world m).
Proof. intros Hm [w heap]. unfold on_world, resources. pose proof (Hm w). by destruct (m w). Qed.

Lemma tidy_object h : tidy (object h).
Proof. by intros [w heap]. Qed.

Lemma tidy_update h f : tidy (update_object h f).
Proof. by intros [w heap]. Qed.

Hint Resolve tidy_world tidy_object tidy_update : keeps.
Hint Resolve ssh_check_keeps ssh_exec_keeps scp_keeps sleep_keeps ssh_config_keeps new_client_keeps connect_keeps : keeps.
Hint Resolve exec_keeps client_close_keeps sftp_put_keeps sftp_write_keeps : keeps.

Lemma tidy_has_control_master host : tidy (_has_control_master host).
Proof. unfold _has_control_master. auto with keeps. Qed.
Hint Resolve tidy_has_control_master : keeps.

Lemma tidy_should h host : tidy (_should_use_subprocess h host).
Proof. unfold _should_use_subprocess. apply keeps_bind; [auto with keeps|]. intros o. destruct (dict_get _ host); auto 6 with keeps. Qed.

Lemma tidy_client h target : tidy (_get_client repr h target).
Proof.
  unfold _get_client, connect_twice. apply keeps_bind; [auto with keeps|]. intros o. destruct (dict_get _ target); auto 10 with keeps.
Qed.
Hint Resolve tidy_should tidy_client : keeps.

Lemma tidy_run h cmd target : tidy (cc_run repr h cmd target).
Proof. unfold cc_run. apply keeps_bind; [auto with keeps|]. intros [|]; auto with keeps. Qed.
Hint Resolve tidy_run : keeps.

Lemma tidy_resolve h path target : tidy (_resolve_remote_path repr h path target).
Proof. unfold _resolve_remote_path. destruct (contains _ _); [|auto with keeps]. apply keeps_bind; [auto with keeps|]. intros [[out err] code]. auto with keeps. Qed.
Hint Resolve tidy_resolve : keeps.

Lemma tidy_sftp h path target copy : (∀ x r, leaves (copy x r)) → tidy (via_sftp repr h path target copy).
Proof.
  intros Hc. unfold via_sftp. do 2 (apply keeps_bind; [auto with keeps|intros ?]).
  intros [w heap]. unfold mbind, M_bind, on_world, resources. destruct (open_sftp_res a w) as [H1 H2].
  destruct (open_sftp a w) as [w1 [x|e]]; simpl in *; [|by rewrite H1, H2].
  unfold try_finally. pose proof (Hc x a0 w1) as [= H3 H4]. destruct (copy x a0 w1) as [w2 r]. simpl in *.
  destruct (sftp_close_res x w2) as [H5 H6]. rewrite H4, H2 in H6. specialize (H6 _ eq_refl).
  rewrite H3, H1 in H5. destruct (sftp_close x w2) as [w3 [[]|e]]; simpl in *; by rewrite H5, H6.
Qed.
Hint Resolve tidy_sftp : keeps.

Lemma tidy_put_string h content path target : tidy (cc_put_string repr h content path target).
Proof.
  unfold cc_put_string. apply keeps_bind; [auto with keeps|]. intros [|]; [|auto with keeps].
  apply keeps_bind; [auto with keeps|]. intros resolved [w heap]. unfold mbind, M_bind, on_world, resources.
  destruct (write_temp_res content w) as [H1 H2].
  destruct (write_temp content w) as [w1 [p|e]]; simpl in *; [|by rewrite H1, H2].
  unfold try_finally. pose proof (scp_keeps p (_get_host repr h target +:+ ":" +:+ resolved) w1) as [= H3 H4].
  destruct (scp p _ w1) as [w2 r]. simpl in *. destruct (unlink_res p w2) as [H5 H6]. rewrite H3, H2 in H6.
  specialize (H6 _ eq_refl). rewrite H4, H1 in H5. destruct (unlink p w2) as [w3 [[]|e]]; simpl in *; by rewrite H5, H6.
Qed.

Lemma tidy_put h local path target : tidy (cc_put repr h local path target).
Proof. unfold cc_put. apply keeps_bind; [auto with keeps|]. intros [|]; auto with keeps. Qed.

Lemma tidy_close h : tidy (cc_close h).
Proof.
  unfold cc_close. apply keeps_bind; [auto with keeps|]. intros o. apply keeps_bind; [|auto with keeps].
  generalize (dict_values (_clients o)). intros l. induction l as [|c l IH]; simpl; auto with keeps.
Qed.
End NoLeaks.

(** Whatever fails on the way, no operation of a connection leaves a
    temporary file or an SFTP channel behind. *)
Theorem connection_leaves_nothing {W Client Sftp} `{!Transport W Client Sftp} `{!Resources W Client Sftp} repr
    (h : Handle) content path target :
  keeps resources (cc_run repr h content target) ∧ keeps resources (cc_put repr h content path target) ∧
  keeps resources (cc_put_string repr h content path target) ∧ keeps resources (cc_close h).
Proof. split_and!; [apply tidy_run|apply tidy_put|apply tidy_put_string|apply tidy_close]. Qed.

(** ** Witness: a machine that only keeps its temporary files and channels *)

Definition demo_world : Type := list string * list nat.
Definition answers {A} (a : A) : M demo_world A := fun w => (w, Ok a).

#[local] Instance demo_transport : Transport demo_world unit nat := {
  ssh_check _ := answers 0;
  ssh_exec _ _ := answers ("/home/user", "", 0);
  scp _ _ := fun w => (w, Raise (OtherException "CalledProcessError"));
  write_temp _ := fun '(t, c) => (("/tmp/a.tmp" :: t, c), Ok "/tmp/a.tmp");
  unlink p := fun '(t, c) => ((match t with _ :: t' => t' | [] => [] end, c), Ok tt);
  sleep _ := answers tt;
  user_env := None;
  ssh_config := answers (fun _ => []);
  new_client := answers tt;
  client_connect _ _ _ _ := answers tt;
  client_exec _ _ := answers ("/home/user", "", 0);
  client_close _ := answers tt;
  open_sftp _ := fun '(t, c) => ((t, length c :: c), Ok (length c));
  sftp_put _ _ _ := answers tt;
  sftp_write _ _ _ := answers tt;
  sftp_close _ := fun '(t, c) => ((t, match c with _ :: c' => c' | [] => [] end), Ok tt);
}.

#[local] Instance demo_resources : Resources demo_world unit nat.
Proof.
  refine {| temps := (fst : demo_world → _); channels := (snd : demo_world → _) |}; try (by intros; intros ?);
    try (by intros; destruct w); intros p [t c]; (split; [done|]); simpl; by intros l ->.
Defined.

Definition demo_handle : Handle :=
  mkHandle 0 (mkConfig (VStr "jsc") (VStr "jsc") (VStr "jsc") (VStr "amd64") VNone VNone VNone VNone VNone VNone VNone VNone VNone
    VNone VNone VNone VNone VNone [] VNone VNone VNone VNone VNone VNone VNone VNone VNone VNone VNone VNone ProxyChains_default
    VNone VNone).

Lemma connection_leaves_nothing_witness :
  snd (cc_put_string demo_repr demo_handle "content" "~/x" "slurm" (([], []), [mkConn [] []])) =
    Raise (OtherException "CalledProcessError") ∧
  keeps resources (cc_put_string demo_repr demo_handle "content" "~/x" "slurm").
Proof. split; [reflexivity|]. apply (connection_leaves_nothing demo_repr demo_handle "content" "~/x" "slurm"). Defined.
