(* ===== verification/Fleet.v ===== *)
(** * The fleet manager

    Models [fleet_manager/relay.py], [worker.py], [deploy.py], [apply.py] and the
    commands of [cli.py] on top of the interface [Connection]: a relay per
    cluster, one Slurm job per replica, and [apply], which brings the running
    jobs to what a fleet file asks for.  What the code prints is left out, except
    the summary of [apply], which is its result here.

    Parameters: Jinja rendering, SHA-256, the local files and environment, and
    what a connection reaches. *)

From Stdlib Require Import Ascii Sorted.
From S2P Require Import Prelude PyFloat PyStr PyVal FleetConfig FleetConnection.

#[local] Open Scope string_scope.
#[local] Open Scope list_scope.
#[local] Open Scope Z_scope.

Record Job := mkJob {
  job_id : string;
  job_name : string;
  job_state : string;
  job_elapsed : string;
  job_time_limit : string;
  job_node : string;
}.

#[export] Instance Job_eq_dec : EqDecision Job.
Proof. solve_decision. Defined.

Inductive RelayStatus := RUNNING | STOPPED | DEGRADED.

Inductive action := Deploy | Cancel.

Record Action := mkAction {
  a_action : action;
  a_cluster : string;
  a_backend : string;
  a_cmd : string;
  a_preset : string;
  a_job_id : option string;
}.

(** An entry of a fleet file. *)
Record Entry := mkEntry {
  e_cluster : string;
  e_backend : string;
  e_cmd : string;
  e_preset : string;
  e_replicas : Z;
}.

(** Text between double quotes. *)
Definition quoted (s : string) : string :=
  String (ascii_of_nat 34) EmptyString +:+ s +:+ String (ascii_of_nat 34) EmptyString.
Definition newline : string := String (ascii_of_nat 10) EmptyString.

Section Fleet.
Context {W St H : Type} `{C : !Connection W St H}.
Context (repr : pyval → string) (sha256_hex : string → string) (render_template : string → dict pyval → res string)
  (environ : string → option string) (sleep_s : Z → M St unit) (read_file : string → M St string)
  (yaml_file : string → option (res pyval)).

Abbreviation str := (show repr).

(** ** The relay: relay.py *)

Definition relay_pattern (cfg : ClusterConfig) : string := str (binary_remote_path cfg) +:+ ".*relay.cfg.yaml".

Definition health_check (timeout : string) (cfg : ClusterConfig) : string :=
  "curl -s --connect-timeout " +:+ timeout +:+ " http://localhost:" +:+ str (relay_port cfg) +:+ "/v1/dnt/bootstraps".

Definition relay_status (conn : H) (cfg : ClusterConfig) : M St RelayStatus :=
  '(_, _, code) ← conn_run conn ("pgrep -f " +:+ quoted (relay_pattern cfg)) "relay";
  if negb (code =? 0) then mret STOPPED
  else
    '(_, _, code) ← conn_run conn (health_check "3" cfg) "relay";
    mret (if negb (code =? 0) then DEGRADED else RUNNING).

Definition relay_config_vars (cfg : ClusterConfig) : dict pyval :=
  [("cluster_name", cfg_name cfg); ("relay_seed", relay_seed cfg); ("relay_port", relay_port cfg);
   ("relay_tcp_port", relay_tcp_port cfg); ("relay_udp_port", relay_udp_port cfg);
   ("require_signed_binary", require_signed_binary cfg); ("skip_verification", skip_verification cfg);
   ("bootstrap_sources", relay_bootstrap cfg)].

Definition kill_relay (conn : H) (cfg : ClusterConfig) : M St unit :=
  conn_run conn ("pkill -f " +:+ quoted (relay_pattern cfg) +:+ " 2>/dev/null || true") "relay" ;; mret tt.

(** [for i in range(n)]: poll until the relay answers. *)
Fixpoint poll (n : nat) (conn : H) (cfg : ClusterConfig) : M St bool :=
  match n with
  | O => mret false
  | S n' =>
      sleep_s 1 ;;
      '(_, _, code) ← conn_run conn (health_check "2" cfg) "relay";
      if code =? 0 then mret true else poll n' conn cfg
  end.

Definition start_relay_cmd (cfg : ClusterConfig) : string :=
  "nohup env HOME=" +:+ str (relay_home_override cfg) +:+ " " +:+ str (binary_remote_path cfg) +:+
  " start --config " +:+ relay_config_remote_path +:+ " > " +:+ relay_log_path +:+ " 2>&1 &".

Definition relay_start (conn : H) (cfg : ClusterConfig) : M St unit :=
  conn_run conn "mkdir -p ~/opentela" "relay" ;;
  relay_config ← lift (render_template "relay.cfg.yaml.j2" (relay_config_vars cfg));
  conn_put_string conn relay_config relay_config_remote_path "relay" ;;
  kill_relay conn cfg ;;
  sleep_s 1 ;;
  let home := str (relay_home_override cfg) in
  conn_run conn ("rm -rf " +:+ home +:+ " && mkdir -p " +:+ home) "relay" ;;
  conn_run conn (start_relay_cmd cfg) "relay" ;;
  ready ← poll 30 conn cfg;
  if (ready : bool) then mret tt
  else
    '(out, _, _) ← conn_run conn ("tail -30 " +:+ relay_log_path) "relay";
    raise (RuntimeError ("Relay failed to start on " +:+ str (cfg_name cfg) +:+ ". Last logs:" +:+ newline +:+ out)).

Definition relay_stop (conn : H) (cfg : ClusterConfig) : M St unit :=
  kill_relay conn cfg ;;
  conn_run conn ("rm -rf " +:+ str (relay_home_override cfg)) "relay" ;;
  mret tt.

Definition relay_ensure (conn : H) (cfg : ClusterConfig) : M St unit :=
  if truthy (relay_skip cfg) then mret tt
  else
    status ← relay_status conn cfg;
    match status with
    | RUNNING => mret tt
    | STOPPED | DEGRADED => relay_start conn cfg
    end.

(** ** Workers: worker.py *)

Definition select_template (runtime nodes : pyval) : res string :=
  if is_str "apptainer" runtime then
    many ← match nodes with
           | VNum n => Ok (nltb (NI 1) n)
           | VBool _ => Ok false
           | _ => Raise (TypeError "'>' not supported between these instances")
           end;
    Ok (if (many : bool) then "apptainer_multi.sh.j2" else "apptainer_single.sh.j2")
  else if is_str "enroot" runtime then Ok "enroot_single.sh.j2"
  else Raise (ValueError ("Unsupported container runtime: " +:+ str runtime)).

Definition build_exec_prefix (cfg : ClusterConfig) : res string :=
  if is_str "enroot" (container_runtime cfg) then Ok ("srun --environment=" +:+ str (container_edf_remote_path cfg))
  else
    flags ← py_list (container_apptainer_flags cfg);
    mounts ← py_list (container_mounts cfg);
    Ok (join (" \" +:+ newline)
          ("apptainer exec" :: map (fun flag => "    " +:+ str flag) flags ++
           map (fun mount => "    --bind " +:+ quoted (str mount)) mounts ++
           ["    " +:+ quoted (str (container_sif_path cfg))])).

Definition squeue_cmd : string := "squeue -u $USER -o " +:+ quoted "%i|%j|%T|%M|%l|%N" +:+ " --noheader".

(** A line of squeue's output; [None] for a line with too few columns. *)
Definition parse_job (line : string) : option Job :=
  match split_on "|"%char line with
  | i :: j :: t :: m :: l :: rest =>
      Some (mkJob (strip i) (strip j) (strip t) (strip m) (strip l) (match rest with n :: _ => strip n | [] => "" end))
  | _ => None
  end.

Definition is_ours (j : Job) : bool := startswith "opentela-" (job_name j).

Definition parse_jobs (out : string) : list Job :=
  filter (fun j => is_ours j = true) (omap parse_job (split_on (ascii_of_nat 10) (strip out))).

Definition worker_list (conn : H) (target : string) : M St (list Job) :=
  '(out, _, code) ← conn_run conn squeue_cmd target;
  mret (if negb (code =? 0) || bool_decide (strip out = "") then [] else parse_jobs out).

Definition _effective_proxychains (cfg : ClusterConfig) (preset : Preset) : dict pyval :=
  let pc := proxychains cfg in
  let enabled := px_enabled pc && negb (existsb (py_eqb (ps_partition preset)) (px_skip_partitions pc)) in
  [("enabled", VBool enabled); ("ssh_key", px_ssh_key pc); ("proxy_target", px_proxy_target pc);
   ("socks_port", VInt (px_socks_port pc))].

Definition job_vars (cfg : ClusterConfig) (preset : Preset) (job_name exec_prefix cmd : string) : dict pyval :=
  [("job_name", VStr job_name); ("partition", ps_partition preset); ("account", ps_account preset);
   ("time", ps_time preset); ("gpus", ps_gpus preset); ("nodes", ps_nodes preset);
   ("cpus_per_task", ps_cpus_per_task preset); ("extra_sbatch", ps_extra_sbatch preset); ("log_dir", VStr "~/logs");
   ("binary_path", binary_remote_path cfg); ("worker_config", VStr "~/.config/opentela/cfg.yaml");
   ("hf_cache", container_hf_cache cfg); ("container_exec_prefix", VStr exec_prefix);
   ("sif_path", container_sif_path cfg); ("container_image", container_image cfg);
   ("pull_if_missing", container_pull_if_missing cfg); ("user_cmd", VStr cmd);
   ("service_port", worker_service_port cfg); ("startup_timeout", VInt 300); ("modules", modules cfg);
   ("nccl_env", container_env cfg); ("edf_path", container_edf_remote_path cfg);
   ("container_mounts", container_mounts cfg); ("container_env", container_env cfg);
   ("apptainer_flags", container_apptainer_flags cfg); ("proxychains", VDict (_effective_proxychains cfg preset))].

(** Where the script of a job is put. *)
Definition script_path (name : string) : string := "~/opentela/job_" +:+ name +:+ ".sh".
Definition sbatch_cmd (path : string) : string := "cd ~/opentela && sbatch " +:+ path.

Definition worker_submit (conn : H) (cfg : ClusterConfig) (preset : Preset) (preset_name backend cmd : string) : M St string :=
  let job_name := job_identity sha256_hex backend cmd preset_name in
  template_name ← lift (select_template (container_runtime cfg) (ps_nodes preset));
  exec_prefix ← lift (build_exec_prefix cfg);
  job_script ← lift (render_template template_name (job_vars cfg preset job_name exec_prefix cmd));
  conn_run conn "mkdir -p ~/opentela ~/logs" "slurm" ;;
  conn_put_string conn job_script (script_path job_name) "slurm" ;;
  '(out, err, code) ← conn_run conn (sbatch_cmd (script_path job_name)) "slurm";
  if negb (code =? 0) then raise (RuntimeError ("sbatch failed on " +:+ str (cfg_name cfg) +:+ ": " +:+ strip err))
  else lift (of_option IndexError (last (split_words (strip out)))).

Definition scancel_cmd (id : string) : string := "scancel " +:+ id.

Definition cancel_all (conn : H) (target : string) : M St unit :=
  jobs ← worker_list conn target;
  for_each (fun j => conn_run conn (scancel_cmd (job_id j)) target ;; mret tt) jobs.

(** Without a job id, or with an empty one, every job of the fleet is cancelled. *)
Definition worker_cancel (conn : H) (job : option string) (target : string) : M St unit :=
  match job with
  | Some id =>
      if bool_decide (id = "") then cancel_all conn target
      else conn_run conn (scancel_cmd id) target ;; mret tt
  | None => cancel_all conn target
  end.

Definition worker_logs (conn : H) (id target : string) : M St (string * string) :=
  '(out_log, _, _) ← conn_run conn ("cat ~/logs/opentela_" +:+ id +:+ ".out 2>/dev/null") target;
  '(err_log, _, _) ← conn_run conn ("cat ~/logs/opentela_" +:+ id +:+ ".err 2>/dev/null") target;
  mret (out_log, err_log).

(** ** Deployment: deploy.py *)

(** [iter(lambda: f.read(8192), b"")]: pieces of a file until it is empty. *)
Fixpoint chunks (fuel size : nat) (content : string) : list string :=
  match fuel, content with
  | O, _ | _, EmptyString => []
  | S fuel, _ => String.substring 0 size content :: chunks fuel size (String.substring size (String.length content) content)
  end.

(** A hash object is the data given to it. *)
Definition _local_sha256 (path : string) : M St string :=
  content ← read_file path;
  mret (sha256_hex (fold_left String.append (chunks (String.length content) (Z.to_nat 8192) content) "")).

Definition sha256sum_cmd (path : string) : string := "sha256sum " +:+ path +:+ " 2>/dev/null".

Definition _sync_binary (conn : H) (local_path remote_path target : string) : M St unit :=
  local_hash ← _local_sha256 local_path;
  '(out, _, code) ← conn_run conn (sha256sum_cmd remote_path) target;
  up_to_date ← (if code =? 0 then
                  remote_hash ← lift (of_option IndexError (head (split_words (strip out))));
                  mret (bool_decide (remote_hash = local_hash))
                else mret false);
  if (up_to_date : bool) then mret tt
  else
    conn_run conn ("mkdir -p $(dirname " +:+ remote_path +:+ ")") target ;;
    conn_put conn local_path remote_path target ;;
    conn_run conn ("chmod +x " +:+ remote_path) target ;;
    mret tt.

Definition worker_config_vars (cfg : ClusterConfig) : dict pyval :=
  let bootstrap_sources := if truthy (relay_skip cfg) then relay_bootstrap cfg else VList [VStr (relay_multiaddr repr cfg)] in
  [("cluster_name", cfg_name cfg); ("worker_seed", worker_seed cfg); ("worker_port", worker_port cfg);
   ("service_port", worker_service_port cfg); ("require_signed_binary", require_signed_binary cfg);
   ("skip_verification", skip_verification cfg); ("bootstrap_sources", bootstrap_sources)].

Definition host_env (vars : list pyval) : res (dict pyval) :=
  foldR (fun env var =>
    match var with
    | VStr v => let val := default "" (environ v) in
                Ok (if bool_decide (val = "") then env else dict_set env v (VStr val))
    | _ => Raise (TypeError "str expected")
    end) [] vars.

(** The environment definition file of an Enroot container. *)
Definition put_edf (conn : H) (cfg : ClusterConfig) : M St unit :=
  if is_str "enroot" (container_runtime cfg) && truthy (container_edf_template cfg) then
    vars ← lift (py_list (container_env_from_host cfg));
    env ← lift (host_env vars);
    edf_content ← lift (render_template (str (container_edf_template cfg))
      [("container_image", container_image cfg); ("container_mounts", container_mounts cfg);
       ("container_env", container_env cfg); ("host_env", VDict env)]);
    conn_put_string conn edf_content (str (container_edf_remote_path cfg)) "slurm"
  else mret tt.

Fixpoint submit_many (n : nat) (submit : M St string) : M St (list string) :=
  match n with
  | O => mret []
  | S n' => id ← submit; ids ← submit_many n' submit; mret (id :: ids)
  end.

Definition deploy_dirs (cfg : ClusterConfig) : string :=
  "~/opentela ~/.config/opentela ~/logs" +:+ (if is_str "enroot" (container_runtime cfg) then " ~/.edf" else "").

Definition deploy (conn : H) (cfg : ClusterConfig) (preset_name backend cmd : string) (replicas : Z) : M St (list string) :=
  match dict_get (presets cfg) preset_name with
  | None => raise (ValueError ("Unknown preset '" +:+ preset_name +:+ "' for cluster '" +:+ str (cfg_name cfg) +:+
              "'. Available: " +:+ repr (VList (map VStr (dict_keys (presets cfg))))))
  | Some preset =>
      _sync_binary conn (str (binary_local_path cfg)) (str (binary_remote_path cfg)) "relay" ;;
      conn_run conn ("mkdir -p " +:+ deploy_dirs cfg) "slurm" ;;
      worker_config ← lift (render_template "worker.cfg.yaml.j2" (worker_config_vars cfg));
      conn_put_string conn worker_config "~/.config/opentela/cfg.yaml" "slurm" ;;
      put_edf conn cfg ;;
      relay_ensure conn cfg ;;
      submit_many (Z.to_nat replicas) (worker_submit conn cfg preset preset_name backend cmd)
  end.

(** ** Reconciliation: apply.py *)

(** A field of the annotated type; a value of another type is outside the model
    and shows as a [TypeError]. *)
Definition str_entry (dep : pyval) (key : string) : res string :=
  v ← py_index dep key;
  match v with VStr s => Ok s | _ => Raise (TypeError (key +:+ " is not a string")) end.

Definition parse_entry (dep : pyval) : res Entry :=
  cluster ← str_entry dep "cluster";
  backend ← str_entry dep "backend";
  cmd ← str_entry dep "cmd";
  preset ← str_entry dep "preset";
  v ← py_get dep "replicas" (VInt 1);
  match v with
  | VNum (NI replicas) => Ok (mkEntry cluster backend cmd preset replicas)
  | _ => Raise (TypeError "replicas is not an integer")
  end.

Definition parse_fleet_file (data : pyval) : res (list Entry) :=
  deployments ← py_get data "deployments" (VList []);
  deps ← py_list deployments;
  mapR parse_entry deps.

(** [int(j.id) if j.id and str(j.id).isdigit() else 0] *)
Definition job_key (j : Job) : res Z :=
  if isdigit (job_id j) then int_of_str (job_id j) else Ok 0.

Definition entry_name (e : Entry) : string := job_identity sha256_hex (e_backend e) (e_cmd e) (e_preset e).

Definition matching_jobs (e : Entry) (live_jobs : dict (list Job)) : list Job :=
  filter (fun j => job_name j = entry_name e) (dict_get_default live_jobs (e_cluster e) []).

Definition entry_action (e : Entry) (a : action) (id : option string) : Action :=
  mkAction a (e_cluster e) (e_backend e) (e_cmd e) (e_preset e) id.

(** The actions for one entry. *)
Definition diff_entry (live_jobs : dict (list Job)) (e : Entry) : res (list Action) :=
  let matching := matching_jobs e live_jobs in
  let current := Z.of_nat (length matching) in
  if current <? e_replicas e then
    Ok (replicate (Z.to_nat (e_replicas e - current)) (entry_action e Deploy None))
  else if e_replicas e <? current then
    newest ← py_sorted job_key (fun a b => b <? a) matching;
    Ok (map (fun j => entry_action e Cancel (Some (job_id j))) (slice_to (current - e_replicas e) newest))
  else Ok [].

Definition compute_diff (desired : list Entry) (live_jobs : dict (list Job)) : res (list Action) :=
  actions ← mapR (diff_entry live_jobs) desired;
  Ok (concat actions).

(** What the first loop of [apply] collects. *)
Record Survey := mkSurvey {
  sv_configs : dict ClusterConfig;
  sv_connections : dict H;
  sv_live_jobs : dict (list Job);
}.

Definition survey_cluster (cluster_dir : string) (sv : Survey) (name : string) : M St Survey :=
  match load_cluster repr yaml_file name cluster_dir with
  | Raise _ => mret (mkSurvey (sv_configs sv) (sv_connections sv) (dict_set (sv_live_jobs sv) name []))
  | Ok cfg => fun s =>
      match new_connection cfg s with
      | (s1, Raise _) => (s1, Ok (mkSurvey (sv_configs sv) (sv_connections sv) (dict_set (sv_live_jobs sv) name [])))
      | (s1, Ok conn) =>
          let '(s2, r) := worker_list conn "slurm" s1 in
          let jobs := match r with Ok jobs => jobs | Raise _ => [] end in
          (s2, Ok (mkSurvey (dict_set (sv_configs sv) name cfg) (dict_set (sv_connections sv) name conn)
                     (dict_set (sv_live_jobs sv) name jobs)))
      end
  end.

Fixpoint survey_all (cluster_dir : string) (sv : Survey) (names : list string) : M St Survey :=
  match names with
  | [] => mret sv
  | name :: rest => sv' ← survey_cluster cluster_dir sv name; survey_all cluster_dir sv' rest
  end.

(** How an action went: the new job, if any, or the exception. *)
Inductive status := Done (detail : option string) | Failed (e : exn).

Definition perform (sv : Survey) (a : Action) : M St status := fun s =>
  let body : M St status :=
    conn ← lift (dict_index (sv_connections sv) (a_cluster a));
    cfg ← lift (dict_index (sv_configs sv) (a_cluster a));
    match a_action a with
    | Deploy =>
        job_ids ← deploy conn cfg (a_preset a) (a_backend a) (a_cmd a) 1;
        id ← lift (of_option IndexError (head job_ids));
        mret (Done (Some id))
    | Cancel => worker_cancel conn (a_job_id a) "slurm" ;; mret (Done None)
    end in
  try_except body (fun e => mret (Failed e)) s.

Fixpoint perform_all (sv : Survey) (actions : list Action) : M St (list (Action * status)) :=
  match actions with
  | [] => mret []
  | a :: rest => st ← perform sv a; more ← perform_all sv rest; mret ((a, st) :: more)
  end.

Inductive outcome := NoChanges | DryRun (planned : list Action) | Applied (results : list (Action * status)).

(** [sorted(set(...))] *)
Definition cluster_names (desired : list Entry) : list string :=
  sort_by String.ltb (fold_left (fun acc e => set_add (e_cluster e) acc) desired []).

Definition apply (data : res pyval) (cluster_dir : string) (dry_run : bool) : M St outcome :=
  content ← lift data;
  desired ← lift (parse_fleet_file content);
  sv ← survey_all cluster_dir (mkSurvey [] [] []) (cluster_names desired);
  actions ← lift (compute_diff desired (sv_live_jobs sv));
  if is_nil actions then mret NoChanges
  else if dry_run then mret (DryRun actions)
  else
    results ← perform_all sv actions;
    for_each conn_close (dict_values (sv_connections sv)) ;;
    mret (Applied results).

(** ** Commands: cli.py *)

(** Load a cluster, connect, and close the connection whatever [body] does. *)
Definition with_cluster {A} (cluster cluster_dir : string) (body : H → ClusterConfig → M St A) : M St A :=
  cfg ← lift (load_cluster repr yaml_file cluster cluster_dir);
  conn ← new_connection cfg;
  try_finally (body conn cfg) (conn_close conn).

Definition start_cmd (cluster_dir cluster backend cmd preset : string) (replicas : Z) : M St (list string) :=
  with_cluster cluster cluster_dir (fun conn cfg => deploy conn cfg preset backend cmd replicas).

Definition stop_cmd (cluster_dir cluster : string) (job : option string) : M St unit :=
  with_cluster cluster cluster_dir (fun conn _ => worker_cancel conn job "slurm").

Definition logs_cmd (cluster_dir cluster id : string) : M St (string * string) :=
  with_cluster cluster cluster_dir (fun conn _ => worker_logs conn id "slurm").

(** One cluster of the status command, whose errors are shown. *)
Definition cluster_status (cluster_dir name : string) : M St (res (RelayStatus * list Job)) :=
  try_except
    (cfg ← lift (load_cluster repr yaml_file name cluster_dir);
     conn ← new_connection cfg;
     rs ← relay_status conn cfg;
     jobs ← worker_list conn "slurm";
     conn_close conn ;;
     mret (Ok (rs, jobs)))
    (fun e => mret (Raise e)).

Fixpoint status_all (cluster_dir : string) (names : list string) : M St (list (string * res (RelayStatus * list Job))) :=
  match names with
  | [] => mret []
  | name :: rest => r ← cluster_status cluster_dir name; more ← status_all cluster_dir rest; mret ((name, r) :: more)
  end.

Definition status_cmd (yaml_stems : string → option (list string)) (cluster_dir : string) (cluster : option string)
    : M St (list (string * res (RelayStatus * list Job))) :=
  status_all cluster_dir
    (match cluster with
     | Some name => if bool_decide (name = "") then list_clusters yaml_stems cluster_dir else [name]
     | None => list_clusters yaml_stems cluster_dir
     end).

Definition clusters_cmd (yaml_stems : string → option (list string)) (cluster_dir : string)
    : list (string * res (pyval * pyval * list string)) :=
  map (fun name => (name, cfg ← load_cluster repr yaml_file name cluster_dir;
                          Ok (arch cfg, container_runtime cfg, dict_keys (presets cfg))))
    (list_clusters yaml_stems cluster_dir).
End Fleet.

(** ** The plan *)

Lemma py_sorted_total {A K} (key : A → res K) lt l : (∀ x, x ∈ l → ∃ k, key x = Ok k) → ∃ l', py_sorted key lt l = Ok l'.
Proof.
  intros H. unfold py_sorted. enough (∃ ks, mapR (fun x => k ← key x; Ok (k, x)) l = Ok ks) as [ks ->] by (by eexists).
  induction l as [|x l IH]; simpl; [eauto|]. destruct (H x) as [k ->]; [left|]. destruct IH as [ks ->]; [intros; apply H; by right|].
  by eexists.
Qed.

Lemma diff_entry_nil sha256_hex live e :
  (∀ j, j ∈ matching_jobs sha256_hex e live → ∃ k, job_key j = Ok k) →
  ∃ acts, diff_entry sha256_hex live e = Ok acts ∧
    (acts = [] ↔ Z.of_nat (length (matching_jobs sha256_hex e live)) = Z.max 0 (e_replicas e)).
Proof.
  intros Hk. unfold diff_entry. set (l := matching_jobs sha256_hex e live) in *.
  destruct (Z.ltb_spec (Z.of_nat (length l)) (e_replicas e)) as [Hlt|Hge].
  { eexists. split; [done|]. split; [|lia]. destruct (Z.to_nat _) eqn:E; [lia|done]. }
  destruct (Z.ltb_spec (e_replicas e) (Z.of_nat (length l))) as [Hgt|Hle]; [|eexists; split; [done|]; split; [lia|done]].
  destruct (py_sorted_total job_key (fun a b => b <? a) l Hk) as [newest Hs]. rewrite Hs. eexists. split; [done|].
  pose proof (Permutation_length (py_sorted_perm _ _ _ _ Hs)) as Hlen. split.
  - intros Hnil%map_eq_nil. destruct newest as [|j newest]; [simpl in Hlen; lia|]. exfalso.
    by apply (slice_to_nonempty (Z.of_nat (length l) - e_replicas e) (j :: newest)); [lia| |].
  - intros Hz. destruct newest as [|j newest]; [|simpl in Hlen; lia]. unfold slice_to. by destruct (_ <=? _); rewrite ?take_nil.
Qed.

(** [compute_diff] plans nothing exactly when the fleet is as desired: the
    number of jobs of every entry is its number of replicas, a negative one
    counting as zero. *)
Theorem no_changes_iff sha256_hex desired live :
  (∀ e j, e ∈ desired → j ∈ matching_jobs sha256_hex e live → ∃ k, job_key j = Ok k) →
  compute_diff sha256_hex desired live = Ok [] ↔
  ∀ e, e ∈ desired → Z.of_nat (length (matching_jobs sha256_hex e live)) = Z.max 0 (e_replicas e).
Proof.
  intros Hk. unfold compute_diff.
  enough (∃ plan, mapR (diff_entry sha256_hex live) desired = Ok plan ∧
    (concat plan = [] ↔ ∀ e, e ∈ desired → Z.of_nat (length (matching_jobs sha256_hex e live)) = Z.max 0 (e_replicas e)))
    as (plan & -> & Hp) by (cbn [mbind res_bind]; rewrite <- Hp; split; congruence).
  induction desired as [|e desired IH]; simpl; [exists []; split; [done|]; split; [set_solver|done]|].
  destruct (diff_entry_nil sha256_hex live e) as (acts & -> & Ha); [intros; by apply (Hk e); [left|]|].
  destruct IH as (plan & -> & Hp); [intros e' j He'; apply Hk; by right|]. exists (acts :: plan). split; [done|]. simpl. split.
  - intros [H1 H2]%app_eq_nil e' [->|He']%elem_of_cons; [by apply Ha|by apply Hp].
  - intros H. rewrite (proj2 Ha), (proj2 Hp); [done|intros; apply H; by right|apply H; left].
Qed.

Lemma sorted_split {A} (R : A → A → Prop) l n x y :
  StronglySorted R l → x ∈ take n l → y ∈ drop n l → R x y.
Proof.
  intros Hs. revert n. induction Hs as [|z l Hs IH Hz]; intros n Hx Hy; [rewrite take_nil in Hx; by apply not_elem_of_nil in Hx|].
  destruct n as [|n]; [by apply not_elem_of_nil in Hx|]. cbn [take drop] in *. apply elem_of_cons in Hx as [->|Hx].
  - rewrite Forall_forall in Hz. apply Hz. rewrite <- (take_drop n l). apply elem_of_app. by right.
  - by eapply IH.
Qed.

(** When an entry has too many jobs, exactly the excess is cancelled and
    the newest jobs go: no job that stays has a larger id than one cancelled. *)
Theorem cancels_newest sha256_hex live e actions :
  let matching := matching_jobs sha256_hex e live in
  diff_entry sha256_hex live e = Ok actions → e_replicas e < Z.of_nat (length matching) →
  ∃ excess kept, matching ≡ₚ excess ++ kept ∧ Z.of_nat (length kept) = Z.max 0 (e_replicas e) ∧
    actions = map (fun j => entry_action e Cancel (Some (job_id j))) excess ∧
    ∀ x y kx ky, x ∈ excess → y ∈ kept → job_key x = Ok kx → job_key y = Ok ky → ky ≤ kx.
Proof.
  intros matching Hd Hlt. unfold diff_entry in Hd. fold matching in Hd.
  rewrite (proj2 (Z.ltb_ge _ _)) in Hd by lia. rewrite (proj2 (Z.ltb_lt _ _)) in Hd by lia.
  destruct (py_sorted _ _ matching) as [newest|] eqn:Es; [|done]. injection Hd as <-.
  pose proof (py_sorted_perm _ _ _ _ Es) as Hp. unfold slice_to. rewrite (proj2 (Z.leb_le 0 _)) by lia.
  exists (take (Z.to_nat (Z.of_nat (length matching) - e_replicas e)) newest), (drop (Z.to_nat (Z.of_nat (length matching) - e_replicas e)) newest).
  split_and!; [by rewrite take_drop|rewrite length_drop, (Permutation_length Hp); lia|done|].
  intros x y kx ky Hx Hy Ex Ey.
  assert (Hs : StronglySorted (fun x y => ∀ kx ky, job_key x = Ok kx → job_key y = Ok ky → (kx <? ky) = false) newest).
  { eapply (py_sorted_sorted job_key (fun a b => b <? a)); [| |exact Es]; intros; lia. }
  pose proof (sorted_split _ _ _ _ _ Hs Hx Hy _ _ Ex Ey). lia.
Qed.

(** Entries whose command and preset run together to the same text share
    one job name, since [job_identity] hashes them without a separator; if they
    want different numbers of replicas the fleet never settles. *)
Theorem shared_identity_never_settles sha256_hex cluster backend cmd x preset r1 r2 live :
  Z.max 0 r1 ≠ Z.max 0 r2 →
  (∀ j, j ∈ dict_get_default live cluster [] → ∃ k, job_key j = Ok k) →
  compute_diff sha256_hex
    [mkEntry cluster backend (cmd +:+ x) preset r1; mkEntry cluster backend cmd (x +:+ preset) r2] live ≠ Ok [].
Proof.
  intros Hr Hk Hc. set (e1 := mkEntry _ _ _ preset r1) in *. set (e2 := mkEntry _ _ _ _ r2) in *.
  assert (Hn : matching_jobs sha256_hex e1 live = matching_jobs sha256_hex e2 live).
  { unfold matching_jobs, entry_name, job_identity. simpl. by rewrite str_app_assoc. }
  destruct (diff_entry_nil sha256_hex live e1) as (a1 & E1 & H1); [intros j [_ Hj]%list_elem_of_filter; by apply Hk|].
  destruct (diff_entry_nil sha256_hex live e2) as (a2 & E2 & H2); [intros j [_ Hj]%list_elem_of_filter; by apply Hk|].
  unfold compute_diff in Hc. simpl in Hc. rewrite E1, E2 in Hc. cbn [mbind res_bind concat] in Hc. rewrite app_nil_r in Hc.
  injection Hc as [Ha1 Ha2]%app_eq_nil. apply H1 in Ha1. apply H2 in Ha2. rewrite Hn in Ha1. simpl in Ha1, Ha2. lia.
Qed.

(** An outage is taken for an empty queue: when squeue exits with an error
    on a cluster whose configuration loads, the survey records no jobs there and
    the plan deploys every replica again, however many are running. *)
Theorem squeue_outage_redeploys {W St Cn} `{C : !Connection W St Cn} `{L : !ConnectionLaws C} repr sha256_hex yaml_file dir sv e (s : St) cfg :
  load_cluster repr yaml_file (e_cluster e) dir = Ok cfg → 0 < e_replicas e →
  (∀ (h : Cn) s, ∃ s' out err code, conn_run h squeue_cmd "slurm" s = (s', Ok (out, err, code)) ∧ code ≠ 0) →
  ∃ s' sv', survey_cluster repr yaml_file dir sv (e_cluster e) s = (s', Ok sv') ∧
    is_Some (dict_get (sv_connections sv') (e_cluster e)) ∧
    diff_entry sha256_hex (sv_live_jobs sv') e = Ok (replicate (Z.to_nat (e_replicas e)) (entry_action e Deploy None)).
Proof.
  intros Hl Hr Hsq. unfold survey_cluster. rewrite Hl. destruct (new_connection_ok cfg s) as (s1 & h & -> & _ & _).
  destruct (Hsq h s1) as (s2 & out & err & code & Hrun & Hcode).
  assert (Hw : worker_list h "slurm" s1 = (s2, Ok [])).
  { unfold worker_list, mbind, M_bind. rewrite Hrun, (proj2 (Z.eqb_neq code 0) Hcode). done. }
  rewrite Hw. do 2 eexists. split; [reflexivity|]. simpl. rewrite dict_get_set_eq. split; [done|].
  unfold diff_entry. assert (Hm : matching_jobs sha256_hex e (dict_set (sv_live_jobs sv) (e_cluster e) []) = []).
  { unfold matching_jobs, dict_get_default. by rewrite dict_get_set_eq. }
  rewrite Hm. change (Z.of_nat (length (@nil Job))) with 0. rewrite (proj2 (Z.ltb_lt _ _) Hr). by rewrite Z.sub_0_r.
Qed.

(** ** The relay *)

Lemma poll_ready {W St Cn} `{C : !Connection W St Cn} repr sleep_s n (conn : Cn) cfg (s s' : St) :
  poll repr sleep_s n conn cfg s = (s', Ok true) →
  ∃ s0 out err, conn_run conn (health_check repr "2" cfg) "relay" s0 = (s', Ok (out, err, 0)).
Proof.
  revert s. induction n as [|n IH]; intros s H; [done|]. cbn [poll] in H.
  apply bind_ok in H as (s1 & [] & _ & H). apply bind_ok in H as (s2 & [[out err] code] & H2 & H).
  destruct (Z.eqb_spec code 0) as [->|]; [|by eapply IH]. injection H as ->. eauto.
Qed.

Lemma relay_start_ready {W St Cn} `{C : !Connection W St Cn} repr render_template sleep_s (conn : Cn) cfg (s s' : St) :
  relay_start repr render_template sleep_s conn cfg s = (s', Ok tt) →
  ∃ timeout s0 out err, conn_run conn (health_check repr timeout cfg) "relay" s0 = (s', Ok (out, err, 0)).
Proof.
  unfold relay_start. intros H. do 7 apply bind_ok in H as (? & ? & _ & H). apply bind_ok in H as (s1 & ready & Hp & H).
  destruct ready; [injection H as ->; apply poll_ready in Hp; eauto|].
  apply bind_ok in H as (? & [[out err] code] & _ & H). discriminate H.
Qed.

(** [relay_ensure] returns only with a relay that answers: unless the
    cluster does without one, the last thing it did is a health check of the
    relay's port that succeeded. *)
Theorem relay_ensure_ready {W St Cn} `{C : !Connection W St Cn} repr render_template sleep_s (conn : Cn) cfg (s s' : St) :
  relay_ensure repr render_template sleep_s conn cfg s = (s', Ok tt) →
  truthy (relay_skip cfg) = true ∨
  ∃ timeout s0 out err, conn_run conn (health_check repr timeout cfg) "relay" s0 = (s', Ok (out, err, 0)).
Proof.
  unfold relay_ensure. destruct (truthy (relay_skip cfg)); [auto|]. intros H. right.
  apply bind_ok in H as (s1 & st & H1 & H). destruct st.
  - injection H as ->. unfold relay_status in H1. apply bind_ok in H1 as (s2 & [[o1 e1] c1] & _ & H1).
    destruct (negb (c1 =? 0)); [done|]. apply bind_ok in H1 as (s3 & [[out err] code] & H3 & H1).
    injection H1 as -> Hst. destruct (Z.eqb_spec code 0) as [->|]; [eauto|discriminate Hst].
  - exact (relay_start_ready _ _ _ _ _ _ _ H).
  - exact (relay_start_ready _ _ _ _ _ _ _ H).
Qed.

(** ** Hashing in pieces *)

Lemma substring_split n s :
  String.substring 0 n s +:+ String.substring n (String.length s) s = s ∧
  (String.length (String.substring n (String.length s) s) = String.length s - n)%nat.
Proof.
  assert (H : ∀ k, (String.length s ≤ k)%nat →
    String.substring 0 n s +:+ String.substring n k s = s ∧ (String.length (String.substring n k s) = String.length s - n)%nat).
  { revert n. induction s as [|c s IH]; intros [|n] k Hk; simpl in *; try done; [by destruct k| | ].
    - destruct k as [|k]; [lia|]. rewrite substring_longer by lia. done.
    - destruct (IH n k) as [H1 H2]; [lia|]. split; [|done].
      change (String c (String.substring 0 n s +:+ String.substring n k s) = String c s). by rewrite H1. }
  by apply H.
Qed.

Lemma chunks_whole size fuel content acc :
  (0 < size)%nat → (String.length content ≤ fuel)%nat → fold_left String.append (chunks fuel size content) acc = acc +:+ content.
Proof.
  intros Hs. revert content acc. induction fuel as [|fuel IH]; intros content acc Hl.
  { destruct content; [|simpl in Hl; lia]. simpl. by rewrite str_app_nil. }
  destruct content as [|c content]; [simpl; by rewrite str_app_nil|]. cbn [chunks fold_left].
  destruct (substring_split size (String c content)) as [H1 H2]. rewrite IH.
  - rewrite str_app_assoc. by rewrite H1.
  - rewrite H2. cbn [String.length] in *. lia.
Qed.

(** Reading a file 8192 bytes at a time hashes the whole of it: the loop ends
    and loses nothing. *)
Theorem local_sha256_whole {St} sha256_hex (read_file : string → M St string) path s s' content :
  read_file path s = (s', Ok content) → _local_sha256 sha256_hex read_file path s = (s', Ok (sha256_hex content)).
Proof.
  intros H. unfold _local_sha256, mbind, M_bind. rewrite H. unfold mret, M_ret. rewrite chunks_whole by lia. done.
Qed.

(** ** Witnesses *)

Definition toy_entry : Entry := mkEntry "jsc" "sglang" "serve Qwen3" "A100_4" 2.
Definition toy_sha (s : string) : string := s.
Definition demo_cluster_config : ClusterConfig := h_config demo_handle.

(** Two running jobs of an entry, the older one with a smaller number. *)
Definition two_jobs : dict (list Job) :=
  [("jsc", [mkJob "99" (entry_name toy_sha toy_entry) "RUNNING" "" "" ""; mkJob "100" (entry_name toy_sha toy_entry) "RUNNING" "" "" ""])].

Lemma two_jobs_keys j : j ∈ dict_get_default two_jobs "jsc" [] → ∃ k, job_key j = Ok k.
Proof. intros [->|[->|[]%not_elem_of_nil]%elem_of_cons]%elem_of_cons; by eexists. Qed.

Lemma no_changes_iff_witness : compute_diff toy_sha [toy_entry] two_jobs = Ok [].
Proof.
  apply (no_changes_iff toy_sha [toy_entry] two_jobs).
  - intros e j ->%list_elem_of_singleton [_ Hj]%list_elem_of_filter. exact (two_jobs_keys j Hj).
  - intros e ->%list_elem_of_singleton. reflexivity.
Defined.

Definition one_replica : Entry := mkEntry "jsc" "sglang" "serve Qwen3" "A100_4" 1.

Lemma cancels_newest_witness :
  diff_entry toy_sha two_jobs one_replica = Ok [entry_action one_replica Cancel (Some "100")] ∧
  ∃ excess kept, matching_jobs toy_sha one_replica two_jobs ≡ₚ excess ++ kept ∧ Z.of_nat (length kept) = 1.
Proof.
  split; [vm_compute; reflexivity|].
  destruct (cancels_newest toy_sha two_jobs one_replica [entry_action one_replica Cancel (Some "100")]) as (x & k & H1 & H2 & _).
  - vm_compute. reflexivity.
  - vm_compute. reflexivity.
  - exists x, k. split; [exact H1|exact H2].
Defined.

Lemma shared_identity_never_settles_witness :
  compute_diff toy_sha [mkEntry "jsc" "sglang" "serve A" "100" 1; mkEntry "jsc" "sglang" "serve " "A100" 2] two_jobs ≠ Ok [].
Proof.
  apply (shared_identity_never_settles toy_sha "jsc" "sglang" "serve " "A" "100" 1 2 two_jobs); [done|exact two_jobs_keys].
Defined.

(** A cluster where every command succeeds. *)
#[local] Instance calm_connection : Connection unit unit ClusterConfig := {
  world w := w; conn_config cfg := cfg; new_connection cfg := mret cfg; conn_run _ _ _ := mret ("", "", 0);
  conn_put _ _ _ _ := mret tt; conn_put_string _ _ _ _ := mret tt; conn_close _ := mret tt;
}.

Lemma relay_ensure_ready_witness :
  truthy (relay_skip demo_cluster_config) = true ∨
  ∃ timeout s0 out err, conn_run (Connection:=calm_connection) demo_cluster_config (health_check demo_repr timeout demo_cluster_config) "relay" s0 = (tt, Ok (out, err, 0)).
Proof.
  apply (relay_ensure_ready (C:=calm_connection) demo_repr (fun _ _ => Ok "config") (fun _ => mret tt) demo_cluster_config demo_cluster_config tt tt).
  vm_compute. reflexivity.
Defined.

(** A cluster whose squeue fails. *)
#[local] Instance broken_connection : Connection unit unit ClusterConfig := {
  world w := w; conn_config cfg := cfg; new_connection cfg := mret cfg; conn_run _ _ _ := mret ("", "slurmctld is down", 1);
  conn_put _ _ _ _ := mret tt; conn_put_string _ _ _ _ := mret tt; conn_close _ := mret tt;
}.

#[local] Instance broken_laws : ConnectionLaws broken_connection.
Proof. split. intros cfg []. by exists tt, cfg. Qed.

Lemma squeue_outage_redeploys_witness :
  ∃ s' sv', survey_cluster (C:=broken_connection) demo_repr demo_yaml_file "clusters" (mkSurvey [] [] []) "jsc" tt = (s', Ok sv') ∧
    is_Some (dict_get (sv_connections sv') "jsc") ∧
    diff_entry toy_sha (sv_live_jobs sv') toy_entry = Ok (replicate 2 (entry_action toy_entry Deploy None)).
Proof.
  destruct (load_cluster demo_repr demo_yaml_file "jsc" "clusters") as [cfg|] eqn:El; [|vm_compute in El; discriminate El].
  apply (squeue_outage_redeploys (C:=broken_connection) demo_repr toy_sha demo_yaml_file "clusters" (mkSurvey [] [] []) toy_entry tt cfg El);
    [reflexivity|]. intros h []. by exists tt, "", "slurmctld is down", 1.
Defined.
