(* ===== verification/FleetFacts.v ===== *)
(** * Theorems on the fleet manager

    Reading squeue's output back, what [compute_diff] plans, and the refinement:
    against the class [Slurm], which states what Slurm documents of the commands
    the fleet manager runs, [apply] brings the queues of the clusters to what an
    abstract reconciliation prescribes. *)

From Stdlib Require Import Ascii Sorted.
From S2P Require Import Prelude PyFloat PyStr PyVal FleetConfig FleetConnection Fleet.

#[local] Open Scope string_scope.
#[local] Open Scope list_scope.
#[local] Open Scope Z_scope.

(** ** squeue *)

(** A job as [squeue -o "%i|%j|%T|%M|%l|%N" --noheader] prints it. *)
Definition job_fields (j : Job) : list string :=
  [job_id j; job_name j; job_state j; job_elapsed j; job_time_limit j; job_node j].
Definition squeue_line (j : Job) : string := join "|" (job_fields j).
Definition squeue_output (jobs : list Job) : string := join "" (map (fun j => squeue_line j +:+ newline) jobs).

(** Columns without separators, line ends and white space around them. *)
Definition plain (s : string) : Prop :=
  no_char "|"%char s = true ∧ no_char (ascii_of_nat 10) s = true ∧ strip s = s.
Record printable (j : Job) : Prop := {
  pr_plain : Forall plain (job_fields j);
  pr_id : job_id j ≠ "";
}.

Lemma lstrip_length s : (String.length (lstrip s) ≤ String.length s)%nat.
Proof. induction s as [|c s IH]; simpl; [done|]. destruct (is_space c); simpl; lia. Qed.

Lemma rstrip_length s : (String.length (rstrip s) ≤ String.length s)%nat.
Proof. induction s as [|c s IH]; simpl; [done|]. destruct (rstrip s); simpl in *; [destruct (is_space c); simpl; lia|lia]. Qed.

(** A plain nonempty string starts with a visible character. *)
Lemma plain_head s : strip s = s → s ≠ "" → ∃ c s', s = String c s' ∧ is_space c = false.
Proof.
  destruct s as [|c s]; [done|]. intros H _. exists c, s. split; [done|]. destruct (is_space c) eqn:E; [|done].
  exfalso. unfold strip in H. simpl in H. rewrite E in H. pose proof (rstrip_length (lstrip s)). pose proof (lstrip_length s).
  rewrite H in *. simpl in *. lia.
Qed.

Lemma squeue_line_visible j : printable j → ends_visible (squeue_line j).
Proof.
  intros [Hp _]. unfold squeue_line, job_fields in *. rewrite !Forall_cons in Hp. destruct Hp as (_ & _ & _ & _ & _ & (_ & _ & Hn) & _).
  cbn [join]. assert (Hend : ends_visible ("|" +:+ job_node j)).
  { split; [|done]. apply (rstrip_cons_nonempty "|"%char (job_node j)); [by apply plain_rstrip|done]. }
  repeat first [exact Hend|apply ends_visible_app].
Qed.

Lemma squeue_line_no_newline j : printable j → no_char (ascii_of_nat 10) (squeue_line j) = true.
Proof.
  intros [Hp _]. unfold squeue_line, job_fields in *. rewrite !Forall_cons in Hp. unfold plain in Hp. destruct_and!.
  cbn [join]. rewrite !no_char_app. repeat (apply andb_true_intro; split); done.
Qed.

Lemma parse_squeue_line j : printable j → parse_job (squeue_line j) = Some j.
Proof.
  intros [Hp _]. unfold parse_job, squeue_line. rewrite (split_join "|"%char); [|done|].
  - unfold job_fields in *. rewrite !Forall_cons in Hp. unfold plain in Hp. destruct_and!.
    destruct j. simpl in *. congruence.
  - eapply Forall_impl; [exact Hp|]. by intros ? [? _].
Qed.

(** The output without its last line end. *)
Lemma squeue_output_lines jobs :
  jobs ≠ [] → squeue_output jobs = join newline (map squeue_line jobs) +:+ newline.
Proof.
  induction jobs as [|j jobs IH]; [done|]. intros _. unfold squeue_output in *. cbn [map].
  destruct jobs as [|j' jobs]; [done|]. rewrite !join_cons by done. rewrite IH by done.
  change ("" +:+ ?x) with x. by rewrite !str_app_assoc.
Qed.

Lemma lines_visible jobs : jobs ≠ [] → Forall printable jobs → ends_visible (join newline (map squeue_line jobs)).
Proof.
  induction jobs as [|j jobs IH]; [done|]. intros _ H. inversion_clear H. cbn [map].
  destruct jobs as [|j' jobs]; [by apply squeue_line_visible|]. rewrite join_cons by done.
  do 2 apply ends_visible_app. by apply IH.
Qed.

Lemma strip_squeue_output jobs :
  jobs ≠ [] → Forall printable jobs → strip (squeue_output jobs) = join newline (map squeue_line jobs).
Proof.
  intros Hne Hp. rewrite squeue_output_lines by done. destruct jobs as [|j jobs]; [done|].
  assert (Hhead : ∃ c s', join newline (map squeue_line (j :: jobs)) +:+ newline = String c s' ∧ is_space c = false).
  { inversion_clear Hp as [|? ? Hj _]. destruct Hj as [Hf Hid]. unfold job_fields in Hf. rewrite Forall_cons in Hf.
    destruct Hf as [(_ & _ & Hs) _]. destruct (plain_head _ Hs Hid) as (c & s' & E & Hc).
    cbn [map]. unfold squeue_line at 1, job_fields. cbn [join]. rewrite E.
    destruct (map squeue_line jobs); by eexists c, _. }
  destruct Hhead as (c & s' & E & Hc). unfold strip. rewrite (lstrip_visible _ _ _ E Hc).
  rewrite rstrip_app_space by done. apply lines_visible; done.
Qed.

Lemma parse_squeue_output jobs :
  Forall printable jobs → parse_jobs (squeue_output jobs) = filter (fun j => is_ours j = true) jobs.
Proof.
  intros Hp. unfold parse_jobs. destruct jobs as [|j jobs]; [done|].
  rewrite strip_squeue_output by done. rewrite (split_join (ascii_of_nat 10)); [|done|].
  - f_equal. clear - Hp. induction Hp as [|x l Hx _ IH]; csimpl; [done|]. by rewrite parse_squeue_line, IH.
  - apply Forall_map. eapply Forall_impl; [exact Hp|]. intros x Hx. by apply squeue_line_no_newline.
Qed.

(** The guard of [worker_list] does not lose jobs. *)
Lemma guarded_parse jobs :
  Forall printable jobs →
  (if bool_decide (strip (squeue_output jobs) = "") then [] else parse_jobs (squeue_output jobs)) =
  filter (fun j => is_ours j = true) jobs.
Proof.
  intros Hp. destruct jobs as [|j jobs]; [done|]. rewrite parse_squeue_output by done.
  rewrite bool_decide_eq_false_2; [done|]. rewrite strip_squeue_output by done. by apply lines_visible.
Qed.

(** Reading back: when squeue prints a queue of printable jobs,
    [worker_list] returns exactly the jobs of the fleet, in order and with all
    their columns. *)
Theorem squeue_roundtrip {W St H} `{!Connection W St H} (conn : H) target (s s' : St) jobs err :
  Forall printable jobs → conn_run conn squeue_cmd target s = (s', Ok (squeue_output jobs, err, 0)) →
  worker_list conn target s = (s', Ok (filter (fun j => is_ours j = true) jobs)).
Proof.
  intros Hp Hrun. unfold worker_list, mbind, M_bind. rewrite Hrun. unfold mret, M_ret. cbn [Z.eqb negb orb].
  by rewrite guarded_parse.
Qed.

(** ** Jobs by name *)

Definition named (n : string) (jobs : list Job) : list Job := filter (fun j => job_name j = n) jobs.

Definition good_queue (jobs : list Job) : Prop := NoDup (map job_id jobs) ∧ Forall printable jobs.

Lemma named_app n l l' : named n (l ++ l') = named n l ++ named n l'.
Proof. apply filter_app. Qed.

Lemma elem_of_named n l j : j ∈ named n l ↔ job_name j = n ∧ j ∈ l.
Proof. unfold named. by rewrite list_elem_of_filter. Qed.

Lemma good_queue_snoc l j : good_queue l → printable j → (∀ j', j' ∈ l → job_id j' ≠ job_id j) → good_queue (l ++ [j]).
Proof.
  intros [H1 H2] Hj Hf. split; [|by apply Forall_app; auto]. rewrite map_app. apply NoDup_app. split_and!; [done| |apply NoDup_singleton].
  intros i (j' & -> & Hj')%list_elem_of_fmap [= E]%list_elem_of_singleton. by eapply Hf.
Qed.

Lemma sublist_map {A B} (f : A → B) l l' : sublist l l' → sublist (map f l) (map f l').
Proof. induction 1; simpl; by constructor. Qed.

Lemma good_queue_filter P `{∀ x, Decision (P x)} l : good_queue l → good_queue (filter P l).
Proof.
  intros [H1 H2]. split; [|rewrite !Forall_forall in *; intros x [_ Hx]%list_elem_of_filter; by apply H2].
  eapply sublist_NoDup; [exact H1|]. apply sublist_map, sublist_filter.
Qed.

(** In a queue of distinct ids, cancelling by id touches one name only. *)
Lemma named_cancel n l j :
  good_queue l → j ∈ l →
  named n (filter (fun x => job_id x ≠ job_id j) l) =
  if decide (n = job_name j) then filter (fun x => job_id x ≠ job_id j) (named n l) else named n l.
Proof.
  intros [Hd _] Hj. unfold named. rewrite !list_filter_filter. case_decide as Hn.
  - apply list_filter_iff. tauto.
  - assert (Hin : ∀ x, x ∈ l → job_id x = job_id j → x = j).
    { intros x Hx E. apply list_elem_of_lookup in Hx as [i Hi], Hj as [k Hk].
      assert (i = k) as -> by (eapply (NoDup_lookup _ _ _ (job_id j) Hd); rewrite list_lookup_fmap, ?Hi, ?Hk; simpl; congruence).
      congruence. }
    clear Hd Hj. induction l as [|x l IH]; [done|]. rewrite !filter_cons.
    rewrite IH by (intros; apply Hin; [by right|done]). destruct (decide (job_name x = n)) as [E|E].
    + rewrite decide_True; [done|]. split; [done|]. intros Ei. apply Hn. rewrite <- E. f_equal. apply Hin; [left|done].
    + rewrite decide_False; [done|]. tauto.
Qed.

Lemma filter_out_length (l sel rest : list Job) :
  l ≡ₚ sel ++ rest → NoDup (map job_id l) → length (filter (fun x => job_id x ∉ map job_id sel) l) = length rest.
Proof.
  intros Hp Hd. rewrite Hp in Hd. rewrite map_app in Hd. apply NoDup_app in Hd as (_ & Hd & _).
  rewrite Hp, filter_app, filter_none, filter_all; [done| |]; apply Forall_forall; intros x Hx.
  - intros Hn. apply (Hd (job_id x)); [done|]. apply list_elem_of_fmap. eauto.
  - intros Hn. apply Hn, list_elem_of_fmap. eauto.
Qed.

(** The jobs [compute_diff] cancels, and those it keeps. *)
Lemma newest_split matching k newest :
  py_sorted job_key (fun a b => b <? a) matching = Ok newest → 0 ≤ k →
  ∃ rest, matching ≡ₚ slice_to k newest ++ rest ∧ Z.of_nat (length rest) = Z.max 0 (Z.of_nat (length matching) - k).
Proof.
  intros Hs%py_sorted_perm Hk. unfold slice_to. rewrite (proj2 (Z.leb_le 0 k)) by done.
  exists (drop (Z.to_nat k) newest). rewrite take_drop, length_drop, Hs. split; [done|]. lia.
Qed.

(** ** What Slurm documents *)

(** Commands that change a queue. *)
Definition is_sbatch (cmd : string) : bool := startswith "cd ~/opentela && sbatch " cmd.
Definition is_scancel (cmd : string) : bool := startswith "scancel " cmd.

Definition job_templates : list string := ["apptainer_multi.sh.j2"; "apptainer_single.sh.j2"; "enroot_single.sh.j2"].

Section Refinement.
Context {W St Cn : Type} `{C : !Connection W St Cn} `{L : !ConnectionLaws C}.
Context (repr : pyval → string) (sha256_hex : string → string) (render_template : string → dict pyval → res string)
  (environ : string → option string) (sleep_s : Z → M St unit) (read_file : string → M St string)
  (yaml_file : string → option (res pyval)).

(** The login node whose queue a connection reaches. *)
Definition slurm_host (cfg : ClusterConfig) : string := show repr (ssh_host_any cfg).

(** A machine has a queue and files; a job takes its name from its script. *)
Class Slurm := {
  queue : string → W → list Job;
  script : string → string → W → option string;
  script_name : string → string;
  run_keeps : ∀ m h cmd t, is_sbatch cmd = false → is_scancel cmd = false → keeps (fun s => queue m (world s)) (conn_run h cmd t);
  put_keeps : ∀ m h a b t, keeps (fun s => queue m (world s)) (conn_put h a b t);
  put_string_keeps : ∀ m h a b t, keeps (fun s => queue m (world s)) (conn_put_string h a b t);
  close_keeps : ∀ m h, keeps (fun s => queue m (world s)) (conn_close h);
  sleep_keeps : ∀ m n, keeps (fun s => queue m (world s)) (sleep_s n);
  read_keeps : ∀ m p, keeps (fun s => queue m (world s)) (read_file p);
  squeue_lists : ∀ h s s' out err, conn_run h squeue_cmd "slurm" s = (s', Ok (out, err, 0)) →
    out = squeue_output (queue (slurm_host (conn_config h)) (world s));
  put_string_writes : ∀ h c p s s', conn_put_string h c p "slurm" s = (s', Ok tt) →
    script (slurm_host (conn_config h)) p (world s') = Some c;
  sbatch_submits : ∀ h p c s s' out err, conn_run h (sbatch_cmd p) "slurm" s = (s', Ok (out, err, 0)) →
    script (slurm_host (conn_config h)) p (world s) = Some c →
    ∃ j, job_name j = script_name c ∧ printable j ∧
      (∀ j', j' ∈ queue (slurm_host (conn_config h)) (world s) → job_id j' ≠ job_id j) ∧
      ∀ m, queue m (world s') = if decide (m = slurm_host (conn_config h)) then queue m (world s) ++ [j] else queue m (world s);
  scancel_removes : ∀ h id s s' r, conn_run h (scancel_cmd id) "slurm" s = (s', Ok r) →
    ∀ m, queue m (world s') = if decide (m = slurm_host (conn_config h)) then filter (fun j => job_id j ≠ id) (queue m (world s))
                              else queue m (world s);
  rendered_name : ∀ t vars c n, t ∈ job_templates → dict_get vars "job_name" = Some (VStr n) →
    render_template t vars = Ok c → script_name c = n;
}.

Context `{SL : !Slurm}.
Abbreviation same_queue m := (keeps (fun s => queue m (world s))).

Hint Resolve put_keeps put_string_keeps close_keeps sleep_keeps read_keeps : keeps.
Hint Extern 1 (keeps _ (conn_run _ _ _)) => apply run_keeps; reflexivity : keeps.

Lemma quiet_poll m n conn cfg : same_queue m (poll repr sleep_s n conn cfg).
Proof.
  induction n as [|n IH]; simpl; [auto with keeps|]. apply keeps_bind; [auto with keeps|]. intros _.
  apply keeps_bind; [auto with keeps|]. intros [[out err] code]. destruct (code =? 0); auto with keeps.
Qed.
Hint Resolve quiet_poll : keeps.

Lemma quiet_relay_ensure m conn cfg : same_queue m (relay_ensure repr render_template sleep_s conn cfg).
Proof.
  unfold relay_ensure. destruct (truthy _); [auto with keeps|]. apply keeps_bind.
  - unfold relay_status. apply keeps_bind; [auto with keeps|]. intros [[out err] code]. destruct (negb _); [auto with keeps|].
    apply keeps_bind; [auto with keeps|]. intros [[out' err'] code']. auto with keeps.
  - intros st. assert (same_queue m (relay_start repr render_template sleep_s conn cfg)); [|by destruct st; auto with keeps].
    unfold relay_start, kill_relay. repeat (apply keeps_bind; [auto with keeps|intros ?]).
    match goal with |- context [if ?b then _ else _] => destruct b end; [auto with keeps|]. apply keeps_bind; [auto with keeps|]. intros [[out err] code]. auto with keeps.
Qed.
Hint Resolve quiet_relay_ensure : keeps.

Lemma quiet_sync_binary m conn a b t : same_queue m (_sync_binary sha256_hex read_file conn a b t).
Proof.
  unfold _sync_binary, _local_sha256. apply keeps_bind; [auto with keeps|]. intros hash.
  apply keeps_bind; [auto with keeps|]. intros [[out err] code]. apply keeps_bind; [destruct (code =? 0); auto with keeps|].
  intros [|]; auto 8 with keeps.
Qed.

Lemma quiet_put_edf m conn cfg : same_queue m (put_edf repr render_template environ conn cfg).
Proof. unfold put_edf. destruct (_ && _); auto 8 with keeps. Qed.
Hint Resolve quiet_sync_binary quiet_put_edf : keeps.

Lemma queue_run {h cmd t s s' r} m :
  conn_run h cmd t s = (s', r) → is_sbatch cmd = false → is_scancel cmd = false → queue m (world s') = queue m (world s).
Proof. intros H H1 H2. exact (keeps_ok _ _ _ _ _ (run_keeps m _ _ _ H1 H2) H). Qed.

(** ** One job more, one job less *)

(** The queues after a job [j] was added on the machine [m]. *)
Definition added (m : string) (j : Job) (w w' : W) : Prop :=
  ∀ m', queue m' w' = if decide (m' = m) then queue m' w ++ [j] else queue m' w.
Definition removed (m : string) (id : string) (w w' : W) : Prop :=
  ∀ m', queue m' w' = if decide (m' = m) then filter (fun j => job_id j ≠ id) (queue m' w) else queue m' w.

Lemma select_template_in rt nodes t : select_template repr rt nodes = Ok t → t ∈ job_templates.
Proof.
  unfold select_template. destruct (is_str "apptainer" rt).
  - intros H. inv_res. unfold job_templates. destruct a; set_solver.
  - destruct (is_str "enroot" rt); [|done]. intros [= <-]. unfold job_templates. set_solver.
Qed.

(** A submission that returns added one job with the identity of the request. *)
Lemma worker_submit_adds conn cfg preset preset_name backend cmd s s' id :
  worker_submit repr sha256_hex render_template conn cfg preset preset_name backend cmd s = (s', Ok id) →
  ∃ j, let m := slurm_host (conn_config conn) in
    job_name j = job_identity sha256_hex backend cmd preset_name ∧ printable j ∧
    (∀ j', j' ∈ queue m (world s) → job_id j' ≠ job_id j) ∧ added m j (world s) (world s').
Proof.
  unfold worker_submit. intros H.
  apply bind_ok in H as (s1 & t & H1 & H). injection H1 as <- Ht.
  apply bind_ok in H as (s2 & prefix & H1 & H). injection H1 as <- _.
  apply bind_ok in H as (s3 & job & H1 & H). injection H1 as <- Hjob.
  apply bind_ok in H as (s4 & o & H4 & H).
  apply bind_ok in H as (s5 & u & H5 & H). destruct u.
  apply bind_ok in H as (s6 & [[out err] code] & H6 & H).
  destruct (Z.eqb_spec code 0) as [->|]; [|discriminate H]. simpl in H. injection H as -> _.
  assert (Hq : ∀ m, queue m (world s5) = queue m (world s)).
  { intros m. rewrite (keeps_ok _ _ _ _ _ (put_string_keeps m _ _ _ _) H5).
    exact (queue_run m H4 eq_refl eq_refl). }
  destruct (sbatch_submits _ _ _ _ _ _ _ H6 (put_string_writes _ _ _ _ _ H5)) as (j & Hn & Hp & Hf & Ha).
  exists j. cbv zeta. split_and!; [|done| |].
  - rewrite Hn. eapply rendered_name; [by eapply select_template_in| |exact Hjob]. reflexivity.
  - intros j'. rewrite <- Hq. apply Hf.
  - intros m. rewrite Ha. by rewrite Hq.
Qed.

Lemma deploy_adds conn cfg preset_name backend cmd s s' ids :
  deploy repr sha256_hex render_template environ sleep_s read_file conn cfg preset_name backend cmd 1 s = (s', Ok ids) →
  ∃ j, let m := slurm_host (conn_config conn) in
    job_name j = job_identity sha256_hex backend cmd preset_name ∧ printable j ∧
    (∀ j', j' ∈ queue m (world s) → job_id j' ≠ job_id j) ∧ added m j (world s) (world s').
Proof.
  unfold deploy. destruct (dict_get (presets cfg) preset_name) as [preset|]; [|done]. intros H.
  apply bind_ok in H as (s1 & ? & H1 & H). apply bind_ok in H as (s2 & ? & H2 & H).
  apply bind_ok in H as (s3 & ? & H3 & H). injection H3 as <- _. apply bind_ok in H as (s4 & ? & H4 & H).
  apply bind_ok in H as (s5 & ? & H5 & H). apply bind_ok in H as (s6 & ? & H6 & H).
  apply bind_ok in H as (s7 & id & H7 & H). injection H as <- _.
  assert (Hq : ∀ m, queue m (world s6) = queue m (world s)).
  { intros m. rewrite (keeps_ok _ _ _ _ _ (quiet_relay_ensure m _ _) H6), (keeps_ok _ _ _ _ _ (quiet_put_edf m _ _) H5),
      (keeps_ok _ _ _ _ _ (put_string_keeps m _ _ _ _) H4).
    rewrite (queue_run m H2 eq_refl eq_refl).
    exact (keeps_ok _ _ _ _ _ (quiet_sync_binary m _ _ _ _) H1). }
  destruct (worker_submit_adds _ _ _ _ _ _ _ _ _ H7) as (j & Hn & Hp & Hf & Ha). exists j. cbv zeta. split_and!; [done|done| |].
  - intros j'. rewrite <- Hq. apply Hf.
  - intros m. rewrite Ha. by rewrite Hq.
Qed.

(** ** Performing actions *)

Abbreviation perf := (perform repr sha256_hex render_template environ sleep_s read_file).
Abbreviation perf_all := (perform_all repr sha256_hex render_template environ sleep_s read_file).
Abbreviation ename := (entry_name sha256_hex).

Definition is_done (r : Action * status) : Prop := ∃ d, snd r = Done d.
Definition good_queues (w : W) : Prop := ∀ m, good_queue (queue m w).

(** On the machine [m] the jobs named [n] became [l]; nothing else changed. *)
Definition became (m n : string) (l : list Job) (w w' : W) : Prop :=
  ∀ m' n', named n' (queue m' w') = if decide (m' = m ∧ n' = n) then l else named n' (queue m' w).

Lemma added_became m j w w' :
  added m j w w' → became m (job_name j) (named (job_name j) (queue m w) ++ [j]) w w'.
Proof.
  intros Ha m' n'. rewrite (Ha m'). destruct (decide (m' = m)) as [->|Hm]; [|by rewrite decide_False by tauto].
  rewrite named_app. unfold named at 2. rewrite filter_cons, filter_nil. case_decide; case_decide; naive_solver (rewrite ?app_nil_r; done).
Qed.

Lemma removed_became m j w w' :
  removed m (job_id j) w w' → good_queues w → j ∈ queue m w →
  became m (job_name j) (filter (fun x => job_id x ≠ job_id j) (named (job_name j) (queue m w))) w w'.
Proof.
  intros Hr Hg Hj m' n'. rewrite (Hr m'). destruct (decide (m' = m)) as [->|Hm]; [|by rewrite decide_False by tauto].
  rewrite named_cancel by (apply Hg || done). repeat case_decide; naive_solver.
Qed.

Lemma perform_done sv a s s' st :
  perf sv a s = (s', Ok st) → is_done (a, st) →
  ∃ conn cfg, dict_get (sv_connections sv) (a_cluster a) = Some conn ∧
    match a_action a with
    | Deploy => ∃ ids, deploy repr sha256_hex render_template environ sleep_s read_file conn cfg (a_preset a) (a_backend a) (a_cmd a) 1 s = (s', Ok ids)
    | Cancel => worker_cancel conn (a_job_id a) "slurm" s = (s', Ok tt)
    end.
Proof.
  unfold perform, try_except. intros H [d Hd]. simpl in Hd. subst st.
  match type of H with match ?m s with _ => _ end = _ => destruct (m s) as [s1 [x|e]] eqn:E end; [|discriminate H].
  injection H as -> ->. apply bind_ok in E as (s2 & conn & H2 & E). injection H2 as <- Hc.
  apply bind_ok in E as (s3 & cfg & H3 & E). injection H3 as <- _. exists conn, cfg. split.
  { unfold dict_index, of_option in Hc. destruct (dict_get _ _); [by injection Hc as ->|done]. }
  destruct (a_action a).
  - apply bind_ok in E as (s4 & ids & H4 & E). apply bind_ok in E as (s5 & id & H5 & E). injection H5 as <- _. injection E as <- _. eauto.
  - apply bind_ok in E as (s4 & [] & H4 & E). injection E as <- _. done.
Qed.

Lemma perform_all_cons sv a rest s s' results :
  perf_all sv (a :: rest) s = (s', Ok results) →
  ∃ s1 st more, perf sv a s = (s1, Ok st) ∧ perf_all sv rest s1 = (s', Ok more) ∧ results = (a, st) :: more.
Proof.
  cbn [perform_all]. intros H. apply bind_ok in H as (s1 & st & H1 & H). apply bind_ok in H as (s2 & more & H2 & H).
  injection H as -> <-. by eauto 10.
Qed.

Lemma perform_all_app sv l l' s s' results :
  perf_all sv (l ++ l') s = (s', Ok results) →
  ∃ s1 r r', perf_all sv l s = (s1, Ok r) ∧ perf_all sv l' s1 = (s', Ok r') ∧ results = r ++ r'.
Proof.
  revert s results. induction l as [|a l IH]; intros s results H.
  { exists s, [], results. done. }
  apply perform_all_cons in H as (s1 & st & more & H1 & H2 & ->). destruct (IH _ _ H2) as (s2 & r & r' & H3 & H4 & ->).
  exists s2, ((a, st) :: r), r'. split_and!; [|done|done]. cbn [perform_all]. unfold mbind, M_bind. by rewrite H1, H3.
Qed.

Lemma became_at m n l w w' : became m n l w w' → named n (queue m w') = l.
Proof. intros Hb. rewrite (Hb m n). by rewrite decide_True. Qed.

Lemma became_refl m n w : became m n (named n (queue m w)) w w.
Proof. intros m' n'. case_decide as E; [by destruct E as [-> ->]|done]. Qed.

Lemma became_trans m n l l' w w' w'' : became m n l w w' → became m n l' w' w'' → became m n l' w w''.
Proof. intros H1 H2 m' n'. rewrite (H2 m' n'). case_decide; [done|]. rewrite (H1 m' n'). by rewrite decide_False. Qed.

Section Entry.
Context (sv : Survey (H:=Cn)) (e : Entry) (conn : Cn).
Hypothesis connected : dict_get (sv_connections sv) (e_cluster e) = Some conn.
Let m := slurm_host (conn_config conn).

Lemma perform_deploy s s' st :
  perf sv (entry_action e Deploy None) s = (s', Ok st) → is_done (entry_action e Deploy None, st) → good_queues (world s) →
  good_queues (world s') ∧ ∃ j, became m (ename e) (named (ename e) (queue m (world s)) ++ [j]) (world s) (world s').
Proof.
  intros H Hd Hg. destruct (perform_done _ _ _ _ _ H Hd) as (conn' & cfg & Hc & ids & Hdep). simpl in Hc, Hdep.
  rewrite connected in Hc. injection Hc as <-. destruct (deploy_adds _ _ _ _ _ _ _ _ Hdep) as (j & Hn & Hp & Hf & Ha).
  split.
  - intros m'. rewrite (Ha m'). case_decide as Hm; [subst; by apply good_queue_snoc|apply Hg].
  - exists j. unfold entry_name. rewrite <- Hn. by apply added_became.
Qed.

Lemma perform_cancel j s s' st :
  perf sv (entry_action e Cancel (Some (job_id j))) s = (s', Ok st) → is_done (entry_action e Cancel (Some (job_id j)), st) →
  good_queues (world s) → j ∈ named (ename e) (queue m (world s)) →
  good_queues (world s') ∧
  became m (ename e) (filter (fun x => job_id x ≠ job_id j) (named (ename e) (queue m (world s)))) (world s) (world s').
Proof.
  intros H Hd Hg [Hn Hj]%elem_of_named. destruct (perform_done _ _ _ _ _ H Hd) as (conn' & cfg & Hc & Hcan). simpl in Hc, Hcan.
  rewrite connected in Hc. injection Hc as <-. destruct (Hg m) as [_ Hp]. rewrite Forall_forall in Hp.
  rewrite bool_decide_eq_false_2 in Hcan by (apply (Hp j Hj)). apply bind_ok in Hcan as (s1 & r & Hrun & Hret). injection Hret as ->.
  pose proof (scancel_removes _ _ _ _ _ Hrun) as Hr. fold m in Hr. split.
  - intros m'. rewrite (Hr m'). case_decide; [apply good_queue_filter, Hg|apply Hg].
  - rewrite <- Hn. by apply removed_became.
Qed.

Lemma perform_deploys k s s' results :
  perf_all sv (replicate k (entry_action e Deploy None)) s = (s', Ok results) → Forall is_done results → good_queues (world s) →
  good_queues (world s') ∧ ∃ new, length new = k ∧ became m (ename e) (named (ename e) (queue m (world s)) ++ new) (world s) (world s').
Proof.
  revert s results. induction k as [|k IH]; intros s results H Hd Hg.
  { injection H as -> _. split; [done|]. exists []. split; [done|]. rewrite app_nil_r. apply became_refl. }
  apply perform_all_cons in H as (s1 & st & more & H1 & H2 & ->). inversion_clear Hd as [|? ? Hd1 Hd2].
  destruct (perform_deploy _ _ _ H1 Hd1 Hg) as (Hg1 & j & Hb1). destruct (IH _ _ H2 Hd2 Hg1) as (Hg2 & new & Hl & Hb2).
  split; [done|]. exists (j :: new). split; [simpl; by rewrite Hl|]. eapply became_trans; [exact Hb1|].
  by rewrite (became_at _ _ _ _ _ Hb1), <- app_assoc in Hb2.
Qed.

Lemma perform_cancels jobs s s' results :
  perf_all sv (map (fun j => entry_action e Cancel (Some (job_id j))) jobs) s = (s', Ok results) → Forall is_done results →
  good_queues (world s) → (∀ j, j ∈ jobs → j ∈ named (ename e) (queue m (world s))) → NoDup (map job_id jobs) →
  good_queues (world s') ∧
  became m (ename e) (filter (fun x => job_id x ∉ map job_id jobs) (named (ename e) (queue m (world s)))) (world s) (world s').
Proof.
  revert s results. induction jobs as [|j jobs IH]; intros s results H Hd Hg Hin Hnd.
  { injection H as -> _. split; [done|]. rewrite filter_all; [apply became_refl|]. apply Forall_forall. intros. apply not_elem_of_nil. }
  apply perform_all_cons in H as (s1 & st & more & H1 & H2 & ->). inversion_clear Hd as [|? ? Hd1 Hd2].
  apply NoDup_cons in Hnd as [Hj Hnd].
  destruct (perform_cancel j _ _ _ H1 Hd1 Hg) as (Hg1 & Hb1); [apply Hin; left|].
  destruct (IH _ _ H2 Hd2 Hg1) as (Hg2 & Hb2); [|done|].
  - intros j' Hj'. rewrite (became_at _ _ _ _ _ Hb1). apply list_elem_of_filter. split; [|apply Hin; by right].
    intros E. apply Hj. rewrite <- E. apply list_elem_of_fmap. eauto.
  - split; [done|]. eapply became_trans; [exact Hb1|]. rewrite (became_at _ _ _ _ _ Hb1), list_filter_filter in Hb2.
    erewrite list_filter_iff; [exact Hb2|]. intros x. cbn [map]. rewrite not_elem_of_cons. tauto.
Qed.

(** The actions for an entry bring its jobs to the number asked for. *)
Lemma perform_entry live actions s s' results :
  diff_entry sha256_hex live e = Ok actions → matching_jobs sha256_hex e live = named (ename e) (queue m (world s)) →
  perf_all sv actions s = (s', Ok results) → Forall is_done results → good_queues (world s) →
  good_queues (world s') ∧ ∃ l, became m (ename e) l (world s) (world s') ∧ Z.of_nat (length l) = Z.max 0 (e_replicas e).
Proof.
  intros Hdiff Hm Hp Hd Hg. unfold diff_entry in Hdiff. rewrite Hm in Hdiff. set (cur := named (ename e) (queue m (world s))) in *.
  destruct (Z.ltb_spec (Z.of_nat (length cur)) (e_replicas e)) as [Hlt|Hge].
  { injection Hdiff as <-. destruct (perform_deploys _ _ _ _ Hp Hd Hg) as (Hg' & new & Hl & Hb). split; [done|].
    eexists. split; [exact Hb|]. fold cur. rewrite length_app, Hl. lia. }
  destruct (Z.ltb_spec (e_replicas e) (Z.of_nat (length cur))) as [Hgt|Hle].
  - destruct (py_sorted _ _ cur) as [newest|] eqn:Es; [|done]. injection Hdiff as <-.
    destruct (newest_split cur (Z.of_nat (length cur) - e_replicas e) newest Es ltac:(lia)) as (rest & Hr & Hl).
    assert (Hids : NoDup (map job_id cur)) by (apply (good_queue_filter (fun j => job_name j = ename e)), Hg).
    destruct (perform_cancels _ _ _ _ Hp Hd Hg) as [Hg' Hb].
    + intros j Hj. fold cur. rewrite Hr. apply elem_of_app. by left.
    + rewrite Hr, map_app in Hids. by apply NoDup_app in Hids as [? _].
    + split; [done|]. eexists. split; [exact Hb|]. fold cur. erewrite filter_out_length; [|exact Hr|done]. lia.
  - injection Hdiff as <-. injection Hp as -> _. split; [done|]. exists cur. split; [apply became_refl|]. lia.
Qed.
End Entry.

(** ** The abstract reconciliation *)

(** How many jobs of each name each machine runs. *)
Definition census : Type := string → string → Z.
Definition census_of (w : W) : census := fun m n => Z.of_nat (length (named n (queue m w))).

(** What a fleet file asks for: a number of jobs of a name on a machine. *)
Record Target := mkTarget { tg_machine : string; tg_name : string; tg_replicas : Z }.

(** The census a list of targets prescribes: theirs where they say something,
    the old one elsewhere. *)
Fixpoint reconcile (ts : list Target) (c : census) : census := fun m n =>
  match ts with
  | [] => c m n
  | t :: ts' => if decide (m = tg_machine t ∧ n = tg_name t) then Z.max 0 (tg_replicas t) else reconcile ts' c m n
  end.

Definition survey_target (sv : Survey (H:=Cn)) (e : Entry) : Target :=
  mkTarget (match dict_get (sv_connections sv) (e_cluster e) with Some conn => slurm_host (conn_config conn) | None => "" end)
    (ename e) (e_replicas e).
Definition target_key (t : Target) : string * string := (tg_machine t, tg_name t).

Lemma reconcile_other ts c m n : (m, n) ∉ map target_key ts → reconcile ts c m n = c m n.
Proof.
  induction ts as [|t ts IH]; simpl; [done|]. rewrite not_elem_of_cons. intros [Hne Hin].
  rewrite decide_False; [by apply IH|]. intros [-> ->]. by apply Hne.
Qed.

Lemma reconcile_ext ts c c' m n : c m n = c' m n → reconcile ts c m n = reconcile ts c' m n.
Proof. intros Hc. induction ts as [|t ts IH]; simpl; [done|]. by case_decide. Qed.

(** Performing the whole plan. *)
Lemma perform_plan sv live desired plan s s' results :
  mapR (diff_entry sha256_hex live) desired = Ok plan → NoDup (map target_key (map (survey_target sv) desired)) →
  (∀ e, e ∈ desired → is_Some (dict_get (sv_connections sv) (e_cluster e))) →
  (∀ e, e ∈ desired → matching_jobs sha256_hex e live = named (ename e) (queue (tg_machine (survey_target sv e)) (world s))) →
  perf_all sv (concat plan) s = (s', Ok results) → Forall is_done results → good_queues (world s) →
  ∀ m n, census_of (world s') m n = reconcile (map (survey_target sv) desired) (census_of (world s)) m n.
Proof.
  revert plan s results. induction desired as [|e desired IH]; intros plan s results Hplan Hnd Hconn Hm Hp Hd Hg m n; simpl in Hplan.
  { injection Hplan as <-. injection Hp as -> _. done. }
  unfold mbind, res_bind in Hplan. destruct (diff_entry sha256_hex live e) as [acts|] eqn:Ee; [|done].
  destruct (mapR _ desired) as [plan'|] eqn:Er; [|done]. injection Hplan as <-. simpl in Hp.
  apply perform_all_app in Hp as (s1 & r & r' & H1 & H2 & ->). apply Forall_app in Hd as [Hd1 Hd2].
  destruct (Hconn e) as [conn Hc]; [left|]. pose proof (Hm e ltac:(left)) as Hme. cbn [map] in Hnd. apply NoDup_cons in Hnd as [Hfresh Hnd].
  assert (Ht : tg_machine (survey_target sv e) = slurm_host (conn_config conn)) by (unfold survey_target; by rewrite Hc).
  rewrite Ht in Hme. destruct (perform_entry sv e conn Hc live acts s s1 r Ee Hme H1 Hd1 Hg) as (Hg1 & l & Hb & Hl).
  assert (Hkey : ∀ e', e' ∈ desired → ¬ (tg_machine (survey_target sv e') = slurm_host (conn_config conn) ∧ ename e' = ename e)).
  { intros e' He' [E1 E2]. apply Hfresh. apply list_elem_of_fmap. exists (survey_target sv e'). split; [|by apply list_elem_of_fmap_2].
    unfold target_key. rewrite Ht, E1. simpl. by rewrite E2. }
  cbn [map reconcile]. change (tg_name (survey_target sv e)) with (ename e). rewrite Ht. rewrite (IH plan' s1 r' eq_refl Hnd); [|intros; apply Hconn; by right| |done|done|done].
  - case_decide as Hmn.
    + destruct Hmn as [-> ->]. rewrite reconcile_other; [|by unfold target_key in Hfresh at 1; rewrite Ht in Hfresh].
      unfold census_of. rewrite (became_at _ _ _ _ _ Hb). exact Hl.
    + apply reconcile_ext. unfold census_of. rewrite (Hb m n). by rewrite decide_False.
  - intros e' He'. rewrite Hm by (by right). rewrite (Hb _ _). rewrite decide_False; [done|]. by apply Hkey.
Qed.

(** ** The survey *)

Lemma quiet_worker_list m conn : same_queue m (worker_list conn "slurm").
Proof. unfold worker_list. apply keeps_bind; [auto with keeps|]. intros [[out err] code]. auto with keeps. Qed.

Lemma quiet_survey_cluster m dir sv name : same_queue m (survey_cluster repr yaml_file dir sv name).
Proof.
  unfold survey_cluster. destruct (load_cluster _ _ _ _) as [cfg|]; [|auto with keeps].
  intros s. destruct (new_connection_ok cfg s) as (s1 & h & -> & _ & Hw). pose proof (quiet_worker_list m h s1) as Hq.
  destruct (worker_list h "slurm" s1) as [s2 r]. simpl in *. by rewrite Hq, Hw.
Qed.

Lemma quiet_survey_all m dir names sv : same_queue m (survey_all repr yaml_file dir sv names).
Proof.
  revert sv. induction names as [|name names IH]; intros sv; simpl; [auto with keeps|].
  apply keeps_bind; [apply quiet_survey_cluster|]. auto.
Qed.

(** squeue can be reached everywhere. *)
Definition squeue_answers : Prop := ∀ h s, ∃ s' out err, conn_run h squeue_cmd "slurm" s = (s', Ok (out, err, 0)).

(** What the survey knows of a cluster is right. *)
Definition surveyed (dir : string) (w : W) (sv : Survey (H:=Cn)) (name : string) : Prop :=
  ∃ cfg conn, load_cluster repr yaml_file name dir = Ok cfg ∧ dict_get (sv_connections sv) name = Some conn ∧
    conn_config conn = cfg ∧
    dict_get (sv_live_jobs sv) name = Some (filter (fun j => is_ours j = true) (queue (slurm_host cfg) w)).

Lemma survey_cluster_right dir sv name s cfg :
  squeue_answers → good_queues (world s) → load_cluster repr yaml_file name dir = Ok cfg →
  ∃ s' sv', survey_cluster repr yaml_file dir sv name s = (s', Ok sv') ∧ surveyed dir (world s) sv' name ∧
    ∀ name', surveyed dir (world s) sv name' → surveyed dir (world s) sv' name'.
Proof.
  intros Hsq Hg Hl. unfold survey_cluster. rewrite Hl. destruct (new_connection_ok cfg s) as (s1 & h & -> & Hc & Hw).
  destruct (Hsq h s1) as (s2 & out & err & Hrun). pose proof (squeue_lists _ _ _ _ _ Hrun) as Hout.
  assert (Hwl : worker_list h "slurm" s1 = (s2, Ok (filter (fun j => is_ours j = true) (queue (slurm_host cfg) (world s))))).
  { unfold worker_list, mbind, M_bind. rewrite Hrun, Hout, Hc, Hw. unfold mret, M_ret. cbn [Z.eqb negb orb].
    rewrite guarded_parse; [done|]. apply Hg. }
  rewrite Hwl. do 2 eexists. split; [reflexivity|].
  assert (Hnew : surveyed dir (world s) (mkSurvey (dict_set (sv_configs sv) name cfg) (dict_set (sv_connections sv) name h)
    (dict_set (sv_live_jobs sv) name (filter (fun j => is_ours j = true) (queue (slurm_host cfg) (world s))))) name).
  { exists cfg, h. simpl. by rewrite !dict_get_set_eq. }
  split; [done|]. intros name' (cfg' & conn & H1 & H2 & H3 & H4). destruct (decide (name = name')) as [<-|Hne]; [done|].
  exists cfg', conn. simpl. by rewrite !dict_get_set_ne.
Qed.

Lemma survey_all_right dir names sv s :
  squeue_answers → good_queues (world s) → (∀ name, name ∈ names → ∃ cfg, load_cluster repr yaml_file name dir = Ok cfg) →
  ∃ s' sv', survey_all repr yaml_file dir sv names s = (s', Ok sv') ∧
    ∀ name, name ∈ names ∨ surveyed dir (world s) sv name → surveyed dir (world s) sv' name.
Proof.
  intros Hsq. revert sv s. induction names as [|name names IH]; intros sv s Hg Hl.
  { exists s, sv. split; [done|]. intros name [[]%not_elem_of_nil|]; done. }
  destruct (Hl name) as [cfg Hcfg]; [left|]. destruct (survey_cluster_right dir sv name s cfg Hsq Hg Hcfg) as (s1 & sv1 & E1 & H1 & H2).
  assert (Hq : ∀ m, queue m (world s1) = queue m (world s)) by (intros m; exact (keeps_ok _ _ _ _ _ (quiet_survey_cluster m _ _ _) E1)).
  assert (Hsame : ∀ sv' n, surveyed dir (world s1) sv' n ↔ surveyed dir (world s) sv' n).
  { intros sv' n. unfold surveyed. by setoid_rewrite Hq. }
  destruct (IH sv1 s1) as (s2 & sv2 & E2 & H3); [intros m; rewrite Hq; apply Hg|intros; apply Hl; by right|].
  exists s2, sv2. split; [cbn [survey_all]; unfold mbind, M_bind; by rewrite E1, E2|].
  intros n Hn. apply Hsame, H3. rewrite Hsame. destruct Hn as [[->|Hn]%elem_of_cons|Hn]; auto.
Qed.

Lemma cluster_names_in desired e : e ∈ desired → e_cluster e ∈ cluster_names desired.
Proof.
  intros He. unfold cluster_names. rewrite sort_by_perm.
  assert (H : ∀ acc, (e ∈ desired ∨ e_cluster e ∈ acc) → e_cluster e ∈ fold_left (fun acc e => set_add (e_cluster e) acc) desired acc).
  { clear He. induction desired as [|e' desired IH]; intros acc Ha; simpl; [destruct Ha as [[]%not_elem_of_nil|]; done|].
    apply IH. unfold set_add. destruct Ha as [[->|]%elem_of_cons|]; [right|by left|right]; case_bool_decide; set_solver. }
  apply H. by left.
Qed.

Lemma cluster_names_from desired name : name ∈ cluster_names desired → ∃ e, e ∈ desired ∧ e_cluster e = name.
Proof.
  unfold cluster_names. rewrite sort_by_perm.
  assert (H : ∀ acc, name ∈ fold_left (fun acc e => set_add (e_cluster e) acc) desired acc →
    name ∈ acc ∨ ∃ e, e ∈ desired ∧ e_cluster e = name).
  { induction desired as [|e' desired IH]; intros acc Ha; simpl in Ha; [by left|].
    apply IH in Ha as [Ha|(e & He & <-)]; [|right; exists e; split; [by right|done]].
    unfold set_add in Ha. case_bool_decide; [by left|]. apply elem_of_app in Ha as [Ha| ->%list_elem_of_singleton]; [by left|].
    right. exists e'. split; [left|done]. }
  intros Hn. destruct (H [] Hn) as [[]%not_elem_of_nil|]; done.
Qed.

(** ** Refinement *)

(** The target an entry stands for. *)
Definition entry_target (dir : string) (e : Entry) : Target :=
  mkTarget (match load_cluster repr yaml_file (e_cluster e) dir with Ok cfg => slurm_host cfg | Raise _ => "" end)
    (ename e) (e_replicas e).

Lemma surveyed_target dir w sv e : surveyed dir w sv (e_cluster e) → survey_target sv e = entry_target dir e.
Proof. intros (cfg & conn & H1 & H2 & H3 & _). unfold survey_target, entry_target. by rewrite H1, H2, H3. Qed.

Lemma surveyed_matching dir w sv e :
  surveyed dir w sv (e_cluster e) → matching_jobs sha256_hex e (sv_live_jobs sv) = named (ename e) (queue (tg_machine (survey_target sv e)) w).
Proof.
  intros Hs. rewrite (surveyed_target _ _ _ _ Hs). destruct Hs as (cfg & conn & H1 & H2 & H3 & H4).
  unfold matching_jobs, dict_get_default, entry_target. rewrite H4, H1. simpl. unfold named. rewrite list_filter_filter.
  apply list_filter_iff. intros j. split; [by intros [? _]|]. intros E. split; [done|]. unfold is_ours, startswith.
  rewrite E. unfold entry_name, job_identity. apply prefix_app.
Qed.

Definition succeeded (out : outcome) : Prop :=
  match out with NoChanges => True | DryRun _ => False | Applied results => Forall is_done results end.

Abbreviation fleet_apply := (apply repr sha256_hex render_template environ sleep_s read_file yaml_file).


(** A dry run changes no queue, whatever it meets. *)
Theorem dry_run_changes_nothing data dir m : keeps (fun s => queue m (world s)) (fleet_apply data dir true).
Proof.
  unfold apply. apply keeps_bind; [auto with keeps|intros ?]. apply keeps_bind; [auto with keeps|intros ?].
  apply keeps_bind; [apply quiet_survey_all|intros sv]. apply keeps_bind; [auto with keeps|intros ?].
  destruct (is_nil _); auto with keeps.
Qed.
End Refinement.

(** ** Witnesses: a small Slurm *)

Record ToyWorld := mkToy { toy_queues : dict (list Job); toy_files : dict string; toy_next : Z }.

Definition toy_queue (m : string) (w : ToyWorld) : list Job := dict_get_default (toy_queues w) m [].
Definition toy_file (m path : string) : string := m +:+ ":" +:+ path.

#[local] Instance plain_dec s : Decision (plain s).
Proof. unfold plain. apply _. Defined.

Definition toy_job (name : string) (w : ToyWorld) : Job := mkJob (str_of_int (toy_next w)) name "PENDING" "0:00" "1:00" "".

Definition drop_chars (n : nat) (s : string) : string := String.substring n (String.length s) s.

(** sbatch refuses a missing script, a name that cannot be printed and a used id. *)
Definition toy_sbatch (m path : string) : M ToyWorld output := fun w =>
  match dict_get (toy_files w) (toy_file m path) with
  | None => (w, Ok ("", "no such file", 1))
  | Some name =>
      let j := toy_job name w in
      if bool_decide (Forall plain (job_fields j)) && bool_decide (job_id j ≠ "") &&
         bool_decide (Forall (fun j' => job_id j' ≠ job_id j) (toy_queue m w)) then
        (mkToy (dict_set (toy_queues w) m (toy_queue m w ++ [j])) (toy_files w) (toy_next w + 1),
         Ok ("Submitted batch job " +:+ job_id j +:+ newline, "", 0))
      else (w, Ok ("", "refused", 1))
  end.

Definition toy_scancel (m id : string) : M ToyWorld output := fun w =>
  (mkToy (dict_set (toy_queues w) m (filter (fun j => job_id j ≠ id) (toy_queue m w))) (toy_files w) (toy_next w), Ok ("", "", 0)).

Definition toy_conn_run (cfg : ClusterConfig) (cmd target : string) : M ToyWorld output := fun w =>
  let m := slurm_host demo_repr cfg in
  if is_sbatch cmd then toy_sbatch m (drop_chars 24 cmd) w
  else if is_scancel cmd then toy_scancel m (drop_chars 8 cmd) w
  else if bool_decide (cmd = squeue_cmd) then (w, Ok (squeue_output (toy_queue m w), "", 0))
  else (w, Ok ("done", "", 0)).

#[local] Instance toy_connection : Connection ToyWorld ToyWorld ClusterConfig := {
  world w := w;
  conn_config cfg := cfg;
  new_connection cfg := fun w => (w, Ok cfg);
  conn_run := toy_conn_run;
  conn_put _ _ _ _ := mret tt;
  conn_put_string cfg content path target := fun w =>
    (mkToy (toy_queues w) (dict_set (toy_files w) (toy_file (slurm_host demo_repr cfg) path) content) (toy_next w), Ok tt);
  conn_close _ := mret tt;
}.

#[local] Instance toy_laws : ConnectionLaws toy_connection.
Proof. split. intros cfg w. by exists w, cfg. Qed.

(** A rendered script is the name of its job. *)
Definition toy_render (_ : string) (vars : dict pyval) : res string :=
  Ok (match dict_get vars "job_name" with Some (VStr n) => n | _ => "" end).
Definition toy_sleep (_ : Z) : M ToyWorld unit := mret tt.
Definition toy_read (_ : string) : M ToyWorld string := mret "binary".

Lemma drop_chars_app p s : drop_chars (String.length p) (p +:+ s) = s.
Proof.
  unfold drop_chars. assert (H : ∀ n, (String.length s ≤ n)%nat → String.substring (String.length p) n (p +:+ s) = s).
  { induction p as [|c p IH]; intros n Hn; [by apply substring_longer|].
    change (String c p +:+ s) with (String c (p +:+ s)). cbn [String.length String.substring]. by apply IH. }
  apply H. clear H. induction p as [|c p IH]; [done|]. change (String c p +:+ s) with (String c (p +:+ s)). cbn [String.length]. lia.
Qed.

Lemma toy_queue_set m m' l w files next :
  toy_queue m' (mkToy (dict_set (toy_queues w) m l) files next) = if decide (m' = m) then l else toy_queue m' w.
Proof.
  unfold toy_queue, dict_get_default. simpl. case_decide as E; [subst; by rewrite dict_get_set_eq|].
  by rewrite dict_get_set_ne by congruence.
Qed.

#[local] Instance toy_slurm : Slurm (C:=toy_connection) demo_repr toy_render toy_sleep toy_read.
Proof.
  refine {| queue := toy_queue; script m path w := dict_get (toy_files w) (toy_file m path); script_name c := c |}.
  - intros m cfg cmd t H1 H2 w. cbn [conn_run toy_connection]. unfold toy_conn_run. rewrite H1, H2. by case_bool_decide.
  - by intros.
  - by intros.
  - by intros.
  - by intros.
  - by intros.
  - intros cfg w w' out err. cbn [conn_run toy_connection]. unfold toy_conn_run.
    change (is_sbatch squeue_cmd) with false. change (is_scancel squeue_cmd) with false. rewrite bool_decide_eq_true_2 by done.
    intros [= <- <- _]. done.
  - intros cfg c p w w' [= <-]. simpl. by rewrite dict_get_set_eq.
  - intros cfg p c w w' out err. cbn [conn_run toy_connection]. unfold toy_conn_run.
    rewrite (prefix_app "cd ~/opentela && sbatch " p : is_sbatch (sbatch_cmd p) = true).
    rewrite (drop_chars_app "cd ~/opentela && sbatch " p : drop_chars 24 (sbatch_cmd p) = p). unfold toy_sbatch. simpl.
    intros H Hf. rewrite Hf in H. destruct (bool_decide _) eqn:E1 in H; [|discriminate H]. destruct (bool_decide _) eqn:E2 in H; [|discriminate H].
    destruct (bool_decide _) eqn:E3 in H; [|discriminate H]. apply bool_decide_eq_true in E1, E2, E3. simpl in H. injection H as <- _ _.
    exists (toy_job c w). split_and!; [done|by split|intros j' Hj'; rewrite Forall_forall in E3; by apply E3|].
    intros m. rewrite toy_queue_set. by case_decide; subst.
  - intros cfg id w w' r. cbn [conn_run toy_connection]. unfold toy_conn_run.
    change (is_sbatch (scancel_cmd id)) with false. rewrite (prefix_app "scancel " id : is_scancel (scancel_cmd id) = true).
    rewrite (drop_chars_app "scancel " id : drop_chars 8 (scancel_cmd id) = id). intros [= <- _] m. simpl. rewrite toy_queue_set.
    by case_decide; subst.
  - intros t vars c n _ Hn [= <-]. by rewrite Hn.
Defined.

Definition other_job : Job := mkJob "7" "opentela-vllm-12345678" "RUNNING" "1:00" "4:00" "jwb0001".
Definition toy_start : ToyWorld := mkToy [("jsc", [other_job])] [] 100.

Definition toy_fleet : pyval :=
  VDict [("deployments", VList [VDict [("cluster", VStr "jsc"); ("backend", VStr "sglang"); ("cmd", VStr "serve Qwen3");
                                       ("preset", VStr "A100_4"); ("replicas", VInt 2)]])].

Definition toy_apply (dry_run : bool) : ToyWorld * res outcome :=
  apply demo_repr toy_sha toy_render (fun _ => None) toy_sleep toy_read demo_yaml_file (Ok toy_fleet) "clusters" dry_run toy_start.

Lemma other_job_printable : printable other_job.
Proof. split; [repeat constructor|done]. Qed.

Lemma toy_start_good : good_queues demo_repr toy_render toy_sleep toy_read toy_start.
Proof.
  intros m. cbn [queue toy_slurm]. unfold toy_queue, dict_get_default. simpl. case_bool_decide; simpl.
  - split; [apply NoDup_singleton|]. constructor; [exact other_job_printable|constructor].
  - split; constructor.
Qed.

Lemma toy_squeue : squeue_answers (C:=toy_connection).
Proof. intros cfg w. cbn [conn_run toy_connection]. unfold toy_conn_run. eexists w, _, _. reflexivity. Qed.


Lemma dry_run_changes_nothing_witness :
  snd (toy_apply true) = Ok (DryRun (replicate 2 (entry_action toy_entry Deploy None))) ∧
  toy_queue "jsc" (fst (toy_apply true)) = [other_job].
Proof.
  split; [vm_compute; reflexivity|].
  exact (dry_run_changes_nothing demo_repr toy_sha toy_render (fun _ => None) toy_sleep toy_read demo_yaml_file (Ok toy_fleet) "clusters"
    "jsc" toy_start).
Defined.

Lemma squeue_roundtrip_witness : worker_list demo_cluster_config "slurm" toy_start = (toy_start, Ok [other_job]).
Proof.
  apply (squeue_roundtrip demo_cluster_config "slurm" toy_start toy_start [other_job] "").
  - constructor; [exact other_job_printable|constructor].
  - vm_compute. reflexivity.
Defined.
