(* ===== verification/Allocation.v ===== *)
(** * The offline allocation calculators

    Models [contrib/serving-simulator/tools/bench_placement/calculator.py] (of which
    [baseline_calculator.py] is a copy) and [memory_calculator.py]: two exhaustive
    searches that divide the GPUs of two clusters among three models.  The first
    maximises the smallest throughput, the second minimises the distance to the
    shares that the memory demands call for.  What they print and the runtime
    they report are left out.

    Neither has an input: the searches run here as they are ([vm_compute]), and the
    theorems quantify over the allocations they are compared with. *)

From Stdlib Require Import QArith Lqa.
From S2P Require Import Prelude PyFloat PyStr.

#[local] Open Scope string_scope.
#[local] Open Scope list_scope.
#[local] Open Scope Z_scope.

Inductive Gpu := A100 | GH200.
Inductive Size := S13B | S34B | S70B.

Definition A100_CAPACITY : Z := 24.
Definition GH200_CAPACITY : Z := 32.
Definition TOTAL_CAPACITY : Z := A100_CAPACITY + GH200_CAPACITY.

(** The GPUs one instance needs. *)
Definition GPU_REQS (g : Gpu) (m : Size) : Z :=
  match g, m with
  | A100, S13B => 1 | A100, S34B => 2 | A100, S70B => 4
  | GH200, S13B => 1 | GH200, S34B => 2 | GH200, S70B => 4
  end.

Definition BASE_TIMES (g : Gpu) (m : Size) : pyfloat :=
  match g, m with
  | A100, S13B => decimal 6538165924 (-6) | A100, S34B => decimal 3723153667 (-5) | A100, S70B => decimal 1489700265 (-5)
  | GH200, S13B => decimal 2617779327 (-6) | GH200, S34B => decimal 1162639596 (-5) | GH200, S70B => decimal 5939552729 (-6)
  end.

(** ['13B': {'A100': ..., 'GH200': ...}] *)
Record Instances := mkInstances { on_A100 : Z; on_GH200 : Z }.
Record Allocation := mkAllocation { al_13B : Instances; al_34B : Instances; al_70B : Instances }.
Definition instances (a : Allocation) (m : Size) : Instances :=
  match m with S13B => al_13B a | S34B => al_34B a | S70B => al_70B a end.

(** [N / T if N > 0 else 0.0] *)
Definition share_of (n : Z) (t : pyfloat) : res pyfloat := if 0 <? n then x ← float_of_int n; fdiv x t else Ok fzero.

Definition calculate_throughput (m : Size) (n_a n_g : Z) : res pyfloat :=
  th_A ← share_of n_a (BASE_TIMES A100 m);
  th_G ← share_of n_g (BASE_TIMES GH200 m);
  Ok (fadd th_A th_G).

(** The two loops over one kind of GPU: the instances of each model, the 13B model
    taking what is left. *)
Definition fillings (capacity : Z) (req : Size → Z) : list (Z * Z * Z) :=
  concat (map (fun n_70 =>
    let remaining_1 := capacity - n_70 * req S70B in
    map (fun n_34 =>
      let remaining_2 := remaining_1 - n_34 * req S34B in
      (remaining_2 / req S13B, n_34, n_70))
    (zrange 0 (remaining_1 / req S34B + 1)))
  (zrange 0 (capacity / req S70B + 1))).

Definition current_allocation (a g : Z * Z * Z) : Allocation :=
  let '(a13, a34, a70) := a in let '(g13, g34, g70) := g in
  mkAllocation (mkInstances a13 g13) (mkInstances a34 g34) (mkInstances a70 g70).

(** The allocations the four loops visit, in their order. *)
Definition search_space : list Allocation :=
  concat (map (fun a => map (current_allocation a) (fillings GH200_CAPACITY (GPU_REQS GH200))) (fillings A100_CAPACITY (GPU_REQS A100))).

(** What the loops keep: the best value, its allocation and the iterations. *)
Record Best := mkBest { bs_value : pyfloat; bs_allocation : option Allocation; bs_iterations : Z }.

Definition keep_best (value : Allocation → res pyfloat) (better : pyfloat → pyfloat → bool) (b : Best) (a : Allocation) : res Best :=
  v ← value a;
  Ok (if better v (bs_value b) then mkBest v (Some a) (bs_iterations b + 1)
      else mkBest (bs_value b) (bs_allocation b) (bs_iterations b + 1)).

(** ** calculator.py *)

Definition objective (a : Allocation) : res pyfloat :=
  th_13 ← calculate_throughput S13B (on_A100 (al_13B a)) (on_GH200 (al_13B a));
  th_34 ← calculate_throughput S34B (on_A100 (al_34B a)) (on_GH200 (al_34B a));
  th_70 ← calculate_throughput S70B (on_A100 (al_70B a)) (on_GH200 (al_70B a));
  Ok (fmin (fmin th_13 th_34) th_70).

Record Performance := mkPerformance {
  Th_Total : pyfloat; Th_A100 : pyfloat; Th_GH200 : pyfloat;
  Time_Factor : pyfloat; Perc_A100 : pyfloat; Perc_GH200 : pyfloat;
}.

(** [(Th / Th_Total) * 100 if Th_Total > 0 else 0.0] *)
Definition percentage (th total : pyfloat) : res pyfloat :=
  if fltb fzero total then q ← fdiv th total; Ok (fmul q (flit 100 1)) else Ok fzero.

Definition performance_of (a : Allocation) (m : Size) : res Performance :=
  th_A ← share_of (on_A100 (instances a m)) (BASE_TIMES A100 m);
  th_G ← share_of (on_GH200 (instances a m)) (BASE_TIMES GH200 m);
  let total := fadd th_A th_G in
  perc_A ← percentage th_A total;
  perc_G ← percentage th_G total;
  time ← (if fltb fzero total then fdiv fone total else Ok fpinf);
  Ok (mkPerformance total th_A th_G time perc_A perc_G).

Definition gpus_used (a : Allocation) (g : Gpu) : Z :=
  let n m := match g with A100 => on_A100 (instances a m) | GH200 => on_GH200 (instances a m) end in
  n S13B * GPU_REQS g S13B + n S34B * GPU_REQS g S34B + n S70B * GPU_REQS g S70B.

Record AllocationMetrics := mkAllocationMetrics {
  A100_used : Z; GH200_used : Z; Total_GPUs_used : Z;
  perf_13B : Performance; perf_34B : Performance; perf_70B : Performance;
  Max_Time_Factor_Bottleneck : pyfloat; Objective_Max_Min_Throughput : pyfloat;
}.
Record Found := mkFound { fd_allocation : Allocation; fd_metrics : AllocationMetrics; fd_iterations : Z }.

(** [None] is the dictionary with the error. *)
Definition find_best_allocation : res (option Found) :=
  b ← foldR (keep_best objective (fun v best => fltb best v)) (mkBest (flit (-1) 1) None 0) search_space;
  match bs_allocation b with
  | None => Ok None
  | Some a =>
      p13 ← performance_of a S13B;
      p34 ← performance_of a S34B;
      p70 ← performance_of a S70B;
      let max_time := fmax (fmax (Time_Factor p13) (Time_Factor p34)) (Time_Factor p70) in
      Ok (Some (mkFound a
        (mkAllocationMetrics (gpus_used a A100) (gpus_used a GH200) (gpus_used a A100 + gpus_used a GH200) p13 p34 p70 max_time (bs_value b))
        (bs_iterations b)))
  end.

(** ** memory_calculator.py *)

Definition ARRIVAL_RATES (m : Size) : num := match m with S13B => NI 110 | S34B => NF (flit 371 2) | S70B => NI 221 end.
Definition MODEL_SIZES (m : Size) : Z := match m with S13B => 13 | S34B => 34 | S70B => 70 end.
(** The requirements are those of the other calculator for either kind of GPU. *)
Definition TP_SIZES (m : Size) : Z := match m with S13B => 1 | S34B => 2 | S70B => 4 end.

Definition demand (m : Size) : res num := nmul (ARRIVAL_RATES m) (NI (MODEL_SIZES m)).
Definition total_demand : res num :=
  foldR (fun total m => d ← demand m; nadd total d) (NF fzero) [S13B; S34B; S70B].
(** The target of a model, in GPUs. *)
Definition target (m : Size) : res num :=
  d ← demand m; total ← total_demand; share ← ndiv d total; nmul share (NI TOTAL_CAPACITY).

(** [abs(x)] *)
Definition fabs (x : pyfloat) : pyfloat := if fltb x fzero then fneg x else x.
Definition nabs (x : num) : num := match x with NI z => NI (Z.abs z) | NF f => NF (fabs f) end.

Definition allocated (a : Allocation) (m : Size) : Z := (on_A100 (instances a m) + on_GH200 (instances a m)) * TP_SIZES m.

(** [abs(gpus - targets[model])] *)
Definition distance (targets : Size → num) (a : Allocation) (m : Size) : res num :=
  d ← nsub (NI (allocated a m)) (targets m); Ok (nabs d).
Definition error_of (targets : Size → num) (a : Allocation) : res pyfloat :=
  d13 ← distance targets a S13B;
  d34 ← distance targets a S34B;
  d70 ← distance targets a S70B;
  s ← nadd d13 d34;
  e ← nadd s d70;
  nconv e.

Record MemoryMetrics := mkMemoryMetrics { mm_allocated : Size → Z; mm_target : Size → num; mm_error : pyfloat }.
Record MemoryFound := mkMemoryFound { mf_allocation : option Allocation; mf_metrics : option MemoryMetrics; mf_iterations : Z }.

Definition targets_of (t13 t34 t70 : num) (m : Size) : num := match m with S13B => t13 | S34B => t34 | S70B => t70 end.

Definition memory_search_space : list Allocation :=
  concat (map (fun a => map (current_allocation a) (fillings GH200_CAPACITY TP_SIZES)) (fillings A100_CAPACITY TP_SIZES)).

Definition find_memory_allocation : res MemoryFound :=
  t13 ← target S13B; t34 ← target S34B; t70 ← target S70B;
  let targets := targets_of t13 t34 t70 in
  b ← foldR (keep_best (error_of targets) (fun v best => fltb v best)) (mkBest fpinf None 0) memory_search_space;
  Ok (mkMemoryFound (bs_allocation b)
        (a ← bs_allocation b; Some (mkMemoryMetrics (allocated a) targets (bs_value b))) (bs_iterations b)).

(** ** The space searched *)

Definition count (a : Allocation) (g : Gpu) (m : Size) : Z :=
  match g with A100 => on_A100 (instances a m) | GH200 => on_GH200 (instances a m) end.
Definition capacity (g : Gpu) : Z := match g with A100 => A100_CAPACITY | GH200 => GH200_CAPACITY end.

(** An allocation the clusters can hold, and one that leaves no GPU idle. *)
Definition fits (a : Allocation) : Prop := ∀ g, (∀ m, 0 ≤ count a g m) ∧ gpus_used a g ≤ capacity g.
Definition full (a : Allocation) : Prop := ∀ g, (∀ m, 0 ≤ count a g m) ∧ gpus_used a g = capacity g.

Lemma full_fits a : full a → fits a.
Proof. intros H g. destruct (H g) as [Hn Hu]. split; [done|lia]. Qed.

Lemma elem_of_fillings cap req n13 n34 n70 : req S13B = 1 → 0 < req S34B → 0 < req S70B → 0 ≤ cap →
  (n13, n34, n70) ∈ fillings cap req ↔ 0 ≤ n13 ∧ 0 ≤ n34 ∧ 0 ≤ n70 ∧ n13 + n34 * req S34B + n70 * req S70B = cap.
Proof.
  intros H1 H2 H3 Hc. unfold fillings. rewrite list_elem_of_In, in_concat. split.
  - intros (l & Hl & Hx). apply in_map_iff in Hl as (k70 & <- & Hk). apply list_elem_of_In, elem_of_zrange in Hk.
    apply in_map_iff in Hx as (k34 & Hx & Hk'). apply list_elem_of_In, elem_of_zrange in Hk'.
    rewrite H1, Z.div_1_r in Hx. injection Hx as <- <- <-.
    pose proof (Z.mul_div_le cap (req S70B) H3). pose proof (Z.mul_div_le (cap - k70 * req S70B) (req S34B) H2). nia.
  - intros (Hn13 & Hn34 & Hn70 & Hsum). eexists. split.
    + apply in_map_iff. exists n70. split; [reflexivity|]. apply list_elem_of_In, elem_of_zrange.
      pose proof (Z.div_le_lower_bound cap (req S70B) n70 H3). nia.
    + apply in_map_iff. exists n34. split.
      * rewrite H1, Z.div_1_r. do 2 f_equal. lia.
      * apply list_elem_of_In, elem_of_zrange. pose proof (Z.div_le_lower_bound (cap - n70 * req S70B) (req S34B) n34 H2). nia.
Qed.

(** The loops visit exactly the allocations that use every GPU. *)
Lemma elem_of_search_space a : a ∈ search_space ↔ full a.
Proof.
  unfold search_space. rewrite list_elem_of_In, in_concat. split.
  - intros (l & Hl & Hx). apply in_map_iff in Hl as ([[a13 a34] a70] & <- & Ha). apply in_map_iff in Hx as ([[g13 g34] g70] & <- & Hg).
    apply list_elem_of_In, elem_of_fillings in Ha; [|done..]. apply list_elem_of_In, elem_of_fillings in Hg; [|done..].
    unfold full, gpus_used. cbn in *. intros []; (split; [intros []|]); cbn; lia.
  - intros H. destruct (H A100) as [Ha Hau]. destruct (H GH200) as [Hg Hgu]. destruct a as [[a13 g13] [a34 g34] [a70 g70]].
    unfold gpus_used in *. cbn in *. pose proof (Ha S13B). pose proof (Ha S34B). pose proof (Ha S70B).
    pose proof (Hg S13B). pose proof (Hg S34B). pose proof (Hg S70B). cbn in *. eexists. split.
    + apply in_map_iff. exists (a13, a34, a70). split; [reflexivity|]. apply list_elem_of_In, elem_of_fillings; cbn; try done. lia.
    + apply in_map_iff. exists (g13, g34, g70). split; [reflexivity|]. apply list_elem_of_In, elem_of_fillings; cbn; try done. lia.
Qed.

Lemma memory_space_same : memory_search_space = search_space.
Proof. reflexivity. Qed.

(** Every allocation that fits is below one that is visited. *)
Definition fill_up (a : Allocation) : Allocation :=
  let spare g := capacity g - gpus_used a g in
  mkAllocation (mkInstances (on_A100 (al_13B a) + spare A100) (on_GH200 (al_13B a) + spare GH200)) (al_34B a) (al_70B a).

Lemma fill_up_full a : fits a → full (fill_up a) ∧ ∀ g m, count a g m ≤ count (fill_up a) g m.
Proof.
  intros H. destruct (H A100) as [Ha Hau]. destruct (H GH200) as [Hg Hgu]. destruct a as [[a13 g13] [a34 g34] [a70 g70]].
  unfold full, fill_up, gpus_used in *. cbn in *. pose proof (Ha S13B). pose proof (Hg S13B).
  cbn in *. split; [intros []; split|intros [] []; cbn; lia].
  - intros m. specialize (Ha m). destruct m; cbn in *; lia.
  - cbn. lia.
  - intros m. specialize (Hg m). destruct m; cbn in *; lia.
  - cbn. lia.
Qed.

(** ** The best of a list *)

Section KeepBest.
Context (value : Allocation → res pyfloat) (better : pyfloat → pyfloat → bool) (le : pyfloat → pyfloat → Prop) (start : pyfloat).
Hypothesis le_refl : ∀ x, is_nan x = false → le x x.
Hypothesis le_trans : ∀ x y z, le x y → le y z → le x z.
Hypothesis better_le : ∀ x y, better x y = true → le y x.
Hypothesis not_better_le : ∀ x y, is_nan x = false → is_nan y = false → better x y = false → le x y.

Definition defined (a : Allocation) : Prop := ∃ v, value a = Ok v ∧ is_nan v = false.

Record best_of (seen : list Allocation) (b : Best) : Prop := {
  bo_number : is_nan (bs_value b) = false;
  bo_least : ∀ a v, a ∈ seen → value a = Ok v → le v (bs_value b);
  bo_one : match bs_allocation b with Some a => a ∈ seen ∧ value a = Ok (bs_value b) | None => bs_value b = start end;
  bo_count : bs_iterations b = Z.of_nat (length seen);
}.

Lemma keep_best_ok seen b a : best_of seen b → defined a → ∃ b', keep_best value better b a = Ok b' ∧ best_of (seen ++ [a]) b'.
Proof using le_refl le_trans better_le not_better_le.
  intros [Hn Hl Ho Hc] (v & Hv & Hvn). unfold keep_best. rewrite Hv. cbn [mbind res_bind].
  destruct (better v (bs_value b)) eqn:E; eexists; (split; [reflexivity|]); split; cbn.
  - done.
  - intros x w Hx Hw. apply elem_of_app in Hx as [Hx|Hx]; [eapply le_trans; [by apply (Hl x)|by apply better_le]|].
    apply list_elem_of_singleton in Hx as ->. rewrite Hv in Hw. injection Hw as <-. by apply le_refl.
  - split; [apply elem_of_app; right; by apply list_elem_of_singleton|done].
  - rewrite length_app, Hc. cbn. lia.
  - done.
  - intros x w Hx Hw. apply elem_of_app in Hx as [Hx|Hx]; [by apply (Hl x)|].
    apply list_elem_of_singleton in Hx as ->. rewrite Hv in Hw. injection Hw as <-. by apply not_better_le.
  - destruct (bs_allocation b); [|done]. destruct Ho. split; [apply elem_of_app; by left|done].
  - rewrite length_app, Hc. cbn. lia.
Qed.

Lemma search_ok l : is_nan start = false → Forall defined l →
  ∃ b, foldR (keep_best value better) (mkBest start None 0) l = Ok b ∧ best_of l b.
Proof using le_refl le_trans better_le not_better_le.
  intros Hs Hall. assert (Hgen : ∀ seen b, best_of seen b → ∃ b', foldR (keep_best value better) b l = Ok b' ∧ best_of (seen ++ l) b').
  { induction Hall as [|a l Ha _ IH]; intros seen b Hb; [exists b; by rewrite app_nil_r|].
    destruct (keep_best_ok seen b a Hb Ha) as (b1 & E1 & Hb1). destruct (IH _ _ Hb1) as (b2 & E2 & Hb2).
    exists b2. cbn [foldR]. rewrite E1. cbn [mbind res_bind]. by rewrite <- app_assoc in Hb2. }
  apply (Hgen []). split; cbn; try done. intros ? ? H. by apply not_elem_of_nil in H.
Qed.
End KeepBest.

(** ** Throughputs *)

Lemma base_time_pos g m : ∃ p e, BASE_TIMES g m = FFin (Zpos p) e.
Proof. destruct g, m; eexists _, _; vm_compute; reflexivity. Qed.

Lemma share_of_mono n n' g m : 0 ≤ n ≤ n' → n' ≤ 2 ^ 53 →
  ∃ u v, share_of n (BASE_TIMES g m) = Ok u ∧ share_of n' (BASE_TIMES g m) = Ok v ∧ fle fzero u ∧ fle u v.
Proof.
  intros Hn Hb. destruct (base_time_pos g m) as (p & e & ->). unfold share_of.
  assert (Hi : ∀ i, 0 < i ≤ n' → ∃ x, float_of_int i = Ok x ∧ rnd (inject_Z i) = x).
  { intros i Hi. destruct (rnd_int_range 0 n' (inject_Z i)) as (mm & ee & E & _); [lia|lia| | |].
    - change 0%Q with (inject_Z 0). rewrite <- Zle_Qle. lia.
    - rewrite <- Zle_Qle. lia.
    - unfold float_of_int. rewrite E. by eexists. }
  assert (Hz : ∀ i, 0 < i → fle fzero (rnd (inject_Z i))).
  { intros i Hi'. apply (rnd_mono 0). change 0%Q with (inject_Z 0). rewrite <- Zle_Qle. lia. }
  assert (Hd : ∀ x, fle fzero x → ∃ u, fdiv x (FFin (Zpos p) e) = Ok u ∧ fle fzero u).
  { intros x Hx. destruct (fdiv_pos_mono p e fzero x Hx) as (u & v & Hu & Hv & Huv). exists v. split; [done|].
    assert (Hu0 : fle fzero u) by (simpl in Hu; injection Hu as <-; by vm_compute). by eapply fle_trans. }
  destruct (0 <? n') eqn:E'; [|replace (0 <? n) with false by lia; by exists fzero, fzero].
  destruct (Hi n') as (y & Hy & Hry); [lia|]. rewrite Hy. cbn [mbind res_bind].
  assert (Hy0 : fle fzero y) by (rewrite <- Hry; apply Hz; lia). destruct (Hd y Hy0) as (v & Hv & Hv0).
  destruct (0 <? n) eqn:E; [|by exists fzero, v].
  destruct (Hi n) as (x & Hx & Hrx); [lia|]. rewrite Hx. cbn [mbind res_bind].
  assert (Hxy : fle x y) by (rewrite <- Hrx, <- Hry; apply rnd_mono; rewrite <- Zle_Qle; lia).
  destruct (fdiv_pos_mono p e x y Hxy) as (u & w & Hu & Hw & Huw). exists u, w. repeat split; try done.
  destruct (Hd x) as (u' & Hu' & Hu0); [rewrite <- Hrx; apply Hz; lia|]. rewrite Hu in Hu'. by injection Hu' as <-.
Qed.

Lemma fadd_nonneg_mono u u' v v' : fle fzero u → fle u u' → fle fzero v → fle v v' →
  fle fzero (fadd u v) ∧ fle (fadd u v) (fadd u' v').
Proof.
  intros Hu Huu Hv Hvv.
  assert (Hn : ∀ x, fle fzero x → (∃ m e, x = FFin m e ∧ (0 <= fval m e)%Q) ∨ x = FInf false).
  { intros [m e|[]|] H; try done; [left|by right]. exists m, e. split; [done|]. apply fleb_fin in H. by rewrite fval_0 in H. }
  destruct (Hn u Hu) as [(m1 & e1 & -> & H1)| ->], (Hn v Hv) as [(m2 & e2 & -> & H2)| ->],
    (Hn u' (fle_trans _ _ _ Hu Huu)) as [(m3 & e3 & -> & H3)| ->], (Hn v' (fle_trans _ _ _ Hv Hvv)) as [(m4 & e4 & -> & H4)| ->];
    try done; simpl; split; try done; try apply rnd_between_infs; try (apply (rnd_mono 0); lra).
  apply rnd_mono. apply fleb_fin in Huu, Hvv. lra.
Qed.

Lemma throughput_mono m n_a n_a' n_g n_g' : 0 ≤ n_a ≤ n_a' → n_a' ≤ 2 ^ 53 → 0 ≤ n_g ≤ n_g' → n_g' ≤ 2 ^ 53 →
  ∃ u v, calculate_throughput m n_a n_g = Ok u ∧ calculate_throughput m n_a' n_g' = Ok v ∧ fle fzero u ∧ fle u v.
Proof.
  intros Ha Ha' Hg Hg'. destruct (share_of_mono n_a n_a' A100 m Ha Ha') as (u1 & v1 & Hu1 & Hv1 & Hz1 & Hle1).
  destruct (share_of_mono n_g n_g' GH200 m Hg Hg') as (u2 & v2 & Hu2 & Hv2 & Hz2 & Hle2).
  unfold calculate_throughput. rewrite Hu1, Hv1, Hu2, Hv2. cbn [mbind res_bind].
  destruct (fadd_nonneg_mono u1 v1 u2 v2 Hz1 Hle1 Hz2 Hle2) as [Hz Hle]. by eexists _, _.
Qed.

Lemma fle_zero_number x : fle fzero x → is_nan x = false.
Proof. intros H. by apply fle_not_nan in H as [_ ?]. Qed.

Lemma fits_counts a g m : fits a → 0 ≤ count a g m ≤ 32.
Proof.
  intros H. destruct (H A100) as [Ha Hau]. destruct (H GH200) as [Hg Hgu]. destruct a as [[a13 g13] [a34 g34] [a70 g70]].
  unfold gpus_used in *. cbn in *. pose proof (Ha S13B). pose proof (Ha S34B). pose proof (Ha S70B).
  pose proof (Hg S13B). pose proof (Hg S34B). pose proof (Hg S70B). cbn in *. destruct g, m; cbn; unfold A100_CAPACITY, GH200_CAPACITY in *; lia.
Qed.

(** The throughputs of an allocation that fits, below those of a larger one. *)
Lemma throughputs_mono a a' m : fits a → fits a' → (∀ g m, count a g m ≤ count a' g m) →
  ∃ u v, calculate_throughput m (count a A100 m) (count a GH200 m) = Ok u ∧
    calculate_throughput m (count a' A100 m) (count a' GH200 m) = Ok v ∧ fle fzero u ∧ fle u v.
Proof.
  intros H H' Hle. pose proof (fits_counts a A100 m H). pose proof (fits_counts a GH200 m H).
  pose proof (fits_counts a' A100 m H'). pose proof (fits_counts a' GH200 m H').
  pose proof (Hle A100 m). pose proof (Hle GH200 m). apply throughput_mono; lia.
Qed.

Lemma objective_mono a a' : fits a → fits a' → (∀ g m, count a g m ≤ count a' g m) →
  ∃ u v, objective a = Ok u ∧ objective a' = Ok v ∧ fle fzero u ∧ fle u v.
Proof.
  intros H H' Hle. destruct (throughputs_mono a a' S13B H H' Hle) as (u1 & v1 & Hu1 & Hv1 & Hz1 & Hl1).
  destruct (throughputs_mono a a' S34B H H' Hle) as (u2 & v2 & Hu2 & Hv2 & Hz2 & Hl2).
  destruct (throughputs_mono a a' S70B H H' Hle) as (u3 & v3 & Hu3 & Hv3 & Hz3 & Hl3).
  unfold objective. cbn in Hu1, Hv1, Hu2, Hv2, Hu3, Hv3. rewrite Hu1, Hv1, Hu2, Hv2, Hu3, Hv3. cbn [mbind res_bind].
  eexists _, _. split; [done|]. split; [done|]. pose proof (fle_zero_number _ Hz1). pose proof (fle_zero_number _ Hz2).
  pose proof (fle_zero_number _ Hz3). assert (Hz : fle fzero (fmin u1 u2)) by (by apply fmin_glb).
  pose proof (fle_zero_number _ Hz). split; [by apply fmin_glb|]. apply fmin_glb; [apply fmin_glb|].
  - eapply fle_trans; [by apply fmin_le_l|]. eapply fle_trans; [by apply fmin_le_l|done].
  - eapply fle_trans; [by apply fmin_le_l|]. eapply fle_trans; [by apply fmin_le_r|done].
  - eapply fle_trans; [by apply fmin_le_r|done].
Qed.

Lemma objective_ok a : fits a → ∃ v, objective a = Ok v ∧ fle fzero v.
Proof. intros H. destruct (objective_mono a a H H) as (u & v & Hu & _ & Hz & _); [done|]. by exists u. Qed.

(** ** What the calculator reports *)

Lemma throughput_pos a : fits a → ∀ v, objective a = Ok v → flt fzero v → ∀ m,
  ∃ th, calculate_throughput m (count a A100 m) (count a GH200 m) = Ok th ∧ flt fzero th ∧ fle v th.
Proof.
  intros H v Hv Hpos m. destruct (throughputs_mono a a S13B H H) as (u1 & _ & Hu1 & _ & Hz1 & _); [done|].
  destruct (throughputs_mono a a S34B H H) as (u2 & _ & Hu2 & _ & Hz2 & _); [done|].
  destruct (throughputs_mono a a S70B H H) as (u3 & _ & Hu3 & _ & Hz3 & _); [done|].
  unfold objective in Hv. cbn in Hu1, Hu2, Hu3. rewrite Hu1, Hu2, Hu3 in Hv. cbn [mbind res_bind] in Hv. injection Hv as <-.
  pose proof (fle_zero_number _ Hz1). pose proof (fle_zero_number _ Hz2). pose proof (fle_zero_number _ Hz3).
  assert (Hz : fle fzero (fmin u1 u2)) by (by apply fmin_glb). pose proof (fle_zero_number _ Hz).
  assert (Hle : fle (fmin (fmin u1 u2) u3) (fmin u1 u2)) by (by apply fmin_le_l).
  destruct m; cbn.
  - exists u1. assert (fle (fmin (fmin u1 u2) u3) u1) by (eapply fle_trans; [exact Hle|by apply fmin_le_l]).
    split; [done|]. split; [by eapply flt_le_trans|done].
  - exists u2. assert (fle (fmin (fmin u1 u2) u3) u2) by (eapply fle_trans; [exact Hle|by apply fmin_le_r]).
    split; [done|]. split; [by eapply flt_le_trans|done].
  - exists u3. assert (fle (fmin (fmin u1 u2) u3) u3) by (by apply fmin_le_r). split; [done|]. split; [by eapply flt_le_trans|done].
Qed.

Lemma percentage_ok th total : ∃ p, percentage th total = Ok p.
Proof.
  unfold percentage. destruct (fltb fzero total) eqn:E; [|by eexists].
  assert (Hd : ∃ q, fdiv th total = Ok q).
  { destruct total as [m e|[]|]; try done; [|by destruct th; eexists].
    apply fltb_fin in E. rewrite fval_0 in E. apply fval_positive in E. destruct m; [lia| |lia]. destruct th; by eexists. }
  destruct Hd as [q ->]. by eexists.
Qed.

Lemma performance_ok a m th : calculate_throughput m (count a A100 m) (count a GH200 m) = Ok th → flt fzero th →
  ∃ p, performance_of a m = Ok p ∧ Th_Total p = th ∧ fdiv fone th = Ok (Time_Factor p).
Proof.
  unfold calculate_throughput, performance_of, count. intros H Hpos.
  destruct (share_of (on_A100 (instances a m)) (BASE_TIMES A100 m)) as [x|]; [|done]. cbn [mbind res_bind] in *.
  destruct (share_of (on_GH200 (instances a m)) (BASE_TIMES GH200 m)) as [y|]; [|done]. cbn [mbind res_bind] in *. injection H as <-.
  destruct (percentage_ok x (fadd x y)) as [p1 ->]. destruct (percentage_ok y (fadd x y)) as [p2 ->]. cbn [mbind res_bind].
  destruct (fdiv_anti (fadd x y) (fadd x y) Hpos) as (u & _ & Hu & _); [apply fle_refl; by apply flt_le, fle_zero_number in Hpos|].
  rewrite Hpos, Hu. cbn [mbind res_bind]. by eexists.
Qed.

(** The longest time is that of the smallest throughput. *)
Lemma slowest_time x y tx ty : flt fzero x → flt fzero y → fdiv fone x = Ok tx → fdiv fone y = Ok ty →
  fdiv fone (fmin x y) = Ok (fmax tx ty) ∧ flt fzero (fmin x y).
Proof.
  intros Hx Hy Ex Ey. split; [|by destruct (fmin_cases x y) as [-> | ->]]. pose proof (fdiv_wf _ _ _ Ex) as Hwx. pose proof (fdiv_wf _ _ _ Ey) as Hwy.
  assert (Hnx := fle_zero_number _ (flt_le _ _ Hx)). assert (Hny := fle_zero_number _ (flt_le _ _ Hy)).
  unfold fmin, fmax. destruct (fltb y x) eqn:E.
  - destruct (fdiv_anti y x Hy (flt_le _ _ E)) as (u & v & Hu & Hv & Huv). rewrite Ex in Hv. rewrite Ey in Hu. simplify_eq.
    destruct (fltb v u) eqn:E'; [done|]. rewrite Ey. f_equal. apply fle_antisym; try done.
    apply fle_not_nan in Huv as ?. apply fltb_false_fle; tauto.
  - destruct (fdiv_anti x y Hx) as (u & v & Hu & Hv & Huv); [by apply fltb_false_fle|]. rewrite Ex in Hu. rewrite Ey in Hv. simplify_eq.
    destruct (fltb u v) eqn:E'; [|done]. rewrite Ex. f_equal. apply fle_antisym; try done. by apply flt_le.
Qed.

Definition served : Allocation := mkAllocation (mkInstances 6 0) (mkInstances 5 8) (mkInstances 2 4).

Lemma served_visited : served ∈ search_space.
Proof. apply elem_of_search_space. intros []; split; try intros []; vm_compute; congruence. Qed.

(** C19.  The allocation found uses every GPU and serves every model; no allocation the
    clusters can hold has a larger smallest throughput; the bottleneck time reported is
    the inverse of that throughput. *)
Theorem best_allocation_optimal : ∃ f, find_best_allocation = Ok (Some f) ∧
  let best := Objective_Max_Min_Throughput (fd_metrics f) in
  full (fd_allocation f) ∧ objective (fd_allocation f) = Ok best ∧
  (∀ a, fits a → ∃ v, objective a = Ok v ∧ fle v best) ∧
  flt fzero best ∧ fdiv fone best = Ok (Max_Time_Factor_Bottleneck (fd_metrics f)) ∧
  Total_GPUs_used (fd_metrics f) = TOTAL_CAPACITY ∧ fd_iterations f = 3969.
Proof.
  destruct (search_ok objective (fun v best => fltb best v) fle (flit (-1) 1)) with (l := search_space) as (b & Eb & [Hn Hl Ho Hc]).
  - apply fle_refl.
  - apply fle_trans.
  - intros x y. apply flt_le.
  - intros x y Hx Hy. by apply fltb_false_fle.
  - by vm_compute.
  - apply Forall_forall. intros a Ha. apply elem_of_search_space, full_fits, objective_ok in Ha as (v & Hv & Hz).
    exists v. split; [done|by apply fle_zero_number].
  - assert (Hpos : flt fzero (bs_value b)).
    { destruct (objective served) as [v|] eqn:Ev; [|exfalso; by vm_compute in Ev]. apply (flt_le_trans _ v); [|by apply (Hl served v served_visited)].
      vm_compute in Ev. injection Ev as <-. by vm_compute. }
    unfold find_best_allocation. rewrite Eb. cbn [mbind res_bind].
    destruct (bs_allocation b) as [a|]; [|rewrite Ho in Hpos; by vm_compute in Hpos]. destruct Ho as [Ha Hv].
    apply elem_of_search_space in Ha. pose proof (full_fits _ Ha) as Hf.
    destruct (throughput_pos a Hf _ Hv Hpos S13B) as (t1 & H1 & P1 & _). destruct (throughput_pos a Hf _ Hv Hpos S34B) as (t2 & H2 & P2 & _).
    destruct (throughput_pos a Hf _ Hv Hpos S70B) as (t3 & H3 & P3 & _).
    destruct (performance_ok a S13B t1 H1 P1) as (p1 & -> & T1 & D1). destruct (performance_ok a S34B t2 H2 P2) as (p2 & -> & T2 & D2).
    destruct (performance_ok a S70B t3 H3 P3) as (p3 & -> & T3 & D3). cbn [mbind res_bind].
    destruct (slowest_time t1 t2 _ _ P1 P2 D1 D2) as [D12 P12]. destruct (slowest_time _ t3 _ _ P12 P3 D12 D3) as [D123 _].
    eexists. split; [reflexivity|]. cbn. split; [done|]. split; [done|]. split; [|split; [done|split; [|split]]].
    + intros a' Ha'. destruct (fill_up_full a' Ha') as [Hfull Hle].
      destruct (objective_mono a' (fill_up a') Ha' (full_fits _ Hfull) Hle) as (u & v & Hu & Hv' & _ & Huv).
      exists u. split; [done|]. eapply fle_trans; [exact Huv|]. apply (Hl (fill_up a')); [by apply elem_of_search_space|done].
    + unfold objective in Hv. cbn in H1, H2, H3. rewrite H1, H2, H3 in Hv. cbn [mbind res_bind] in Hv. by injection Hv as <-.
    + destruct (Ha A100) as [_ ->]. destruct (Ha GH200) as [_ ->]. done.
    + rewrite Hc. vm_compute. reflexivity.
Qed.

(** ** The distance to the demand *)

Lemma target_ok m : ∃ k e, target m = Ok (NF (FFin k e)).
Proof. destruct m; eexists _, _; vm_compute; reflexivity. Qed.

Lemma fabs_nonneg x : is_nan x = false → fle fzero (fabs x).
Proof.
  intros Hx. unfold fabs. destruct (fltb x fzero) eqn:E.
  - apply flt_le, fle_fneg in E. exact E.
  - by apply fltb_false_fle.
Qed.

Lemma distance_ok targets k e a m : targets m = NF (FFin k e) → fits a → ∃ d, distance targets a m = Ok (NF d) ∧ fle fzero d.
Proof.
  intros Ht Ha. unfold distance. rewrite Ht. pose proof (fits_counts a A100 m Ha) as H1. pose proof (fits_counts a GH200 m Ha) as H2. cbn in H1, H2.
  assert (Hb : 0 ≤ allocated a m ≤ 256) by (unfold allocated; destruct m; cbn in *; lia).
  destruct (rnd_int_range 0 256 (inject_Z (allocated a m))) as (mm & ee & E & _); [lia|lia| | |].
  - change 0%Q with (inject_Z 0). rewrite <- Zle_Qle. lia.
  - rewrite <- Zle_Qle. lia.
  - unfold nsub, narith, nconv, float_of_int. rewrite E. cbn [mbind res_bind]. eexists. split; [reflexivity|]. apply fabs_nonneg.
    exact (proj2 (fle_not_nan _ _ (proj1 (rnd_between_infs (fval mm ee + fval (- k) e))))).
Qed.

Lemma error_ok targets a : (∀ m, ∃ k e, targets m = NF (FFin k e)) → fits a → ∃ v, error_of targets a = Ok v ∧ fle fzero v.
Proof.
  intros Ht Ha. destruct (Ht S13B) as (k1 & e1 & H1), (Ht S34B) as (k2 & e2 & H2), (Ht S70B) as (k3 & e3 & H3).
  destruct (distance_ok targets k1 e1 a S13B H1 Ha) as (d1 & E1 & Z1). destruct (distance_ok targets k2 e2 a S34B H2 Ha) as (d2 & E2 & Z2).
  destruct (distance_ok targets k3 e3 a S70B H3 Ha) as (d3 & E3 & Z3). unfold error_of. rewrite E1, E2, E3. cbn.
  eexists. split; [reflexivity|].
  assert (Hself : ∀ x, fle fzero x → fle x x) by (intros x Hx; by apply fle_refl, fle_zero_number).
  destruct (fadd_nonneg_mono d1 d1 d2 d2) as [H12 _]; [by auto..|].
  destruct (fadd_nonneg_mono (fadd d1 d2) (fadd d1 d2) d3 d3) as [H123 _]; [by auto..|done].
Qed.

Lemma served_error :
  match target S13B, target S34B, target S70B with
  | Ok t13, Ok t34, Ok t70 => match error_of (targets_of t13 t34 t70) served with Ok v => fltb v fpinf | Raise _ => false end
  | _, _, _ => false
  end = true.
Proof. vm_compute. reflexivity. Qed.

(** Running a bind without running what follows. *)
Lemma bind_Ok {A B} (f : A → res B) a : (Ok a ≫= f) = f a.
Proof. reflexivity. Qed.

Lemma memory_search targets v : (∀ m, ∃ k e, targets m = NF (FFin k e)) → error_of targets served = Ok v → flt v fpinf →
  ∃ b a, foldR (keep_best (error_of targets) (fun v best => fltb v best)) (mkBest fpinf None 0) memory_search_space = Ok b ∧
    bs_allocation b = Some a ∧ full a ∧ error_of targets a = Ok (bs_value b) ∧ bs_iterations b = 3969 ∧
    (∀ a', full a' → ∃ w, error_of targets a' = Ok w ∧ fle (bs_value b) w).
Proof.
  intros Ht Hv Hlt. rewrite memory_space_same.
  destruct (search_ok (error_of targets) (fun v best => fltb v best) (fun x y => fle y x) fpinf) with (l := search_space) as (b & Eb & [Hn Hl Ho Hc]).
  - apply fle_refl.
  - intros x y z H1 H2. by eapply fle_trans.
  - intros x y. apply flt_le.
  - intros x y Hx Hy. by apply fltb_false_fle.
  - done.
  - apply Forall_forall. intros a Ha. apply elem_of_search_space, full_fits, (error_ok targets a Ht) in Ha as (w & Hw & Hz).
    exists w. split; [done|by apply fle_zero_number].
  - exists b. destruct (bs_allocation b) as [a|].
    2: { exfalso. specialize (Hl served v). rewrite Ho in Hl. pose proof (flt_le_trans _ _ _ Hlt (Hl served_visited Hv)) as Hx. unfold flt in Hx. by rewrite flt_irrefl in Hx. }
    destruct Ho as [Ha Hva]. apply elem_of_search_space in Ha. exists a. split; [exact Eb|]. split; [reflexivity|]. split; [exact Ha|].
    split; [exact Hva|]. split; [rewrite Hc; vm_compute; reflexivity|].
    intros a' Ha'. destruct (error_ok targets a' Ht (full_fits _ Ha')) as (w & Hw & _). exists w. split; [done|].
    apply (Hl a'); [by apply elem_of_search_space|done].
Qed.

(** Of the divisions of all GPUs, the one found is the closest to the demand. *)
Theorem memory_allocation_closest : ∃ targets f a met, find_memory_allocation = Ok f ∧
  (∀ m, target m = Ok (targets m)) ∧ mf_allocation f = Some a ∧ mf_metrics f = Some met ∧
  full a ∧ error_of targets a = Ok (mm_error met) ∧ mm_allocated met = allocated a ∧ mm_target met = targets ∧
  (∀ a', full a' → ∃ v, error_of targets a' = Ok v ∧ fle (mm_error met) v) ∧ mf_iterations f = 3969.
Proof.
  destruct (target_ok S13B) as (k1 & e1 & T1), (target_ok S34B) as (k2 & e2 & T2), (target_ok S70B) as (k3 & e3 & T3).
  pose proof served_error as Hs. rewrite T1, T2, T3 in Hs. exists (targets_of (NF (FFin k1 e1)) (NF (FFin k2 e2)) (NF (FFin k3 e3))).
  destruct (error_of _ served) as [v|] eqn:Ev; [|done].
  edestruct memory_search with (2 := Ev) (3 := Hs) as (b & a & Eb & Ea & Hf & Hv & Hc & Hl); [intros []; by eexists _, _|].
  eexists (mkMemoryFound (Some a) (Some (mkMemoryMetrics (allocated a) _ (bs_value b))) (bs_iterations b)), a, _.
  split.
  - unfold find_memory_allocation. rewrite T1, T2, T3, !bind_Ok, Eb, bind_Ok, Ea. reflexivity.
  - split; [intros []; assumption|]. split; [reflexivity|]. split; [reflexivity|]. cbn [mm_error mm_allocated mm_target mf_iterations]. auto 10.
Qed.
