(* ===== verification/Convergence.v ===== *)
(** * The convergence benchmark

    Models [benchmark_convergence/]: the framing of the control channel
    (protocol.py), what an observer does with the table of its node and with the
    commands it gets (observer.py), what the coordinator keeps of the observers'
    messages and writes as results (coordinator.py), and the latencies computed
    from the results (aggregate.py).

    How the threads and tasks interleave is the subject of the file after this
    one.  Parameters: JSON, the answers of the node and of Slurm. *)

From Stdlib Require Import QArith Ascii.
From S2P Require Import Prelude PyFloat PyStr PyVal.

#[local] Open Scope string_scope.
#[local] Open Scope list_scope.
#[local] Open Scope Z_scope.

(** ** Maps with keys other than strings *)

Section Assoc.
Context {K V : Type} `{!EqDecision K}.

Fixpoint assoc_get (d : list (K * V)) (k : K) : option V :=
  match d with [] => None | (k', v) :: r => if decide (k' = k) then Some v else assoc_get r k end.
Fixpoint assoc_set (d : list (K * V)) (k : K) (v : V) : list (K * V) :=
  match d with
  | [] => [(k, v)]
  | (k', v') :: r => if decide (k' = k) then (k', v) :: r else (k', v') :: assoc_set r k v
  end.
End Assoc.

(** ** protocol.py *)

Definition line_end : ascii := ascii_of_nat 10.

Section Protocol.
Context (json_dumps : pyval → string) (json_loads : string → option pyval).

Definition write_message (stream : string) (msg : pyval) : string := stream +:+ json_dumps msg +:+ String line_end "".

Fixpoint parse_frames (lines : list string) : list pyval * option exn :=
  match lines with
  | [] => ([], None)
  | line :: rest =>
      let line := bstrip line in
      if bool_decide (line = "") then parse_frames rest
      else match json_loads line with
           | None => ([], Some (OtherException "JSONDecodeError"))
           | Some msg => let '(msgs, e) := parse_frames rest in (msg :: msgs, e)
           end
  end.

(** The messages read from a stream up to its end, and the exception that stopped
    the reading; what follows the last line end is discarded. *)
Definition read_messages (stream : string) : list pyval * option exn := parse_frames (removelast (split_on line_end stream)).
End Protocol.

(** ** The messages *)

Definition hello_msg (task : Z) (host : string) : pyval := VDict [("type", VStr "hello"); ("task_id", VInt task); ("host", VStr host)].
Definition chrony_msg (kind : string) (task offset : Z) : pyval :=
  VDict [("type", VStr kind); ("task_id", VInt task); ("offset_ns", VInt offset)].
Definition seen_msg (task : Z) (events : list (string * Z)) : pyval :=
  VDict [("type", VStr "seen"); ("task_id", VInt task);
         ("events", VList (map (fun '(name, t) => VDict [("name", VStr name); ("seen_ns", VInt t)]) events))].
Definition writer_done_msg (task seq : Z) (name : string) (t_write : Z) : pyval :=
  VDict [("type", VStr "writer_done"); ("task_id", VInt task); ("seq", VInt seq); ("service_name", VStr name); ("t_write_ns", VInt t_write)].
Definition writer_error_msg (task seq : Z) (error : string) : pyval :=
  VDict [("type", VStr "writer_error"); ("task_id", VInt task); ("seq", VInt seq); ("error", VStr error)].
Definition bye_msg (task : Z) : pyval := VDict [("type", VStr "bye"); ("task_id", VInt task)].
Definition write_cmd (seq : Z) (name : string) : pyval := VDict [("type", VStr "write"); ("seq", VInt seq); ("service_name", VStr name)].
Definition stop_command : pyval := VDict [("type", VStr "stop")].

Definition msg_type (msg : pyval) : res pyval := py_get msg "type" VNone.

(** ** observer.py *)

(** [chronyc tracking]'s "System time" line; [None] when it cannot be run. *)
Definition system_time_line (line : string) : bool := startswith "system time" (lower line).

Definition offset_of_line (line : string) : res Z :=
  match nth_error (split_words line) 3 with
  | None => Ok 0
  | Some word =>
      match float_of_str word with
      | Raise (ValueError _) => Ok 0
      | Raise e => Raise e
      | Ok secs => ns ← py_int (fmul secs (flit (10 ^ 9) 1)); Ok (if contains "fast" (lower line) then ns else - ns)
      end
  end.

Definition _chrony_offset_ns (output : option string) : res Z :=
  match output with
  | None => Ok 0
  | Some out => match find system_time_line (splitlines out) with None => Ok 0 | Some line => offset_of_line line end
  end.

(** The names of the services of a table, in the order the loops visit them. *)
Definition service_name (svc : pyval) : res string :=
  name ← py_get svc "name" (VStr ""); match name with VStr s => Ok s | _ => Raise (AttributeError "startswith") end.
Definition services_of (peer : pyval) : res (list string) :=
  services ← py_get peer "service" VNone; l ← py_list (py_or services (VList [])); mapR service_name l.
Definition service_names (data : pyval) : res (list string) :=
  match data with
  | VDict d => l ← mapR (fun '(_, peer) => services_of peer) d; Ok (concat l)
  | _ => Raise (AttributeError "items")
  end.

(** The names of the benchmark not seen before. *)
Definition is_bench_name (name : string) : bool := startswith "convbench-w" name.
Fixpoint new_names (seen names : list string) : list string * list string :=
  match names with
  | [] => (seen, [])
  | name :: rest =>
      if is_bench_name name && negb (bool_decide (name ∈ seen)) then
        let '(seen', new) := new_names (seen ++ [name]) rest in (seen', name :: new)
      else new_names seen rest
  end.

(** One round of [_poll_dnt_loop]: the names seen so far, and the message to send
    if there is one.  [t0] was read before the table. *)
Definition _poll_dnt (task t0 : Z) (seen : list string) (data : pyval) : res (list string * option pyval) :=
  names ← service_names data;
  let '(seen', new) := new_names seen names in
  Ok (seen', if is_nil new then None else Some (seen_msg task (map (fun n => (n, t0)) new))).

(** One message handled by [_handle_writes]: the reply, and whether to stop.
    [register name] is the answer of the node. *)
Definition _handle_write (task : Z) (repr : exn → string) (register : string → res Z) (msg : pyval) : res (option pyval * bool) :=
  t ← msg_type msg;
  if is_str "stop" t then Ok (None, true)
  else if is_str "write" t then
    name ← py_index msg "service_name";
    s ← py_index msg "seq"; seq ← int_of_val s;
    match name with
    | VStr name =>
        match register name with
        | Raise e => Ok (Some (writer_error_msg task seq (repr e)), false)
        | Ok t_write => Ok (Some (writer_done_msg task seq name t_write), false)
        end
    | _ => Raise (TypeError "service_name")
    end
  else Ok (None, false).

(** ** coordinator.py *)

Record CoState := mkCoState {
  cs_observers : list (Z * string);
  chrony_start : dict Z;
  chrony_end : dict Z;
  cs_seen : dict (list (Z * Z));
  writer_done : list (Z * Z * Z);
  writer_error : list (Z * Z * pyval);
}.

Definition CoState_init : CoState := mkCoState [] [] [] [] [] [].

Definition with_observers f st := mkCoState (f (cs_observers st)) (chrony_start st) (chrony_end st) (cs_seen st) (writer_done st) (writer_error st).
Definition with_chrony_start f st := mkCoState (cs_observers st) (f (chrony_start st)) (chrony_end st) (cs_seen st) (writer_done st) (writer_error st).
Definition with_chrony_end f st := mkCoState (cs_observers st) (chrony_start st) (f (chrony_end st)) (cs_seen st) (writer_done st) (writer_error st).
Definition with_seen f st := mkCoState (cs_observers st) (chrony_start st) (chrony_end st) (f (cs_seen st)) (writer_done st) (writer_error st).
Definition with_done f st := mkCoState (cs_observers st) (chrony_start st) (chrony_end st) (cs_seen st) (f (writer_done st)) (writer_error st).
Definition with_error f st := mkCoState (cs_observers st) (chrony_start st) (chrony_end st) (cs_seen st) (writer_done st) (f (writer_error st)).

(** A key that must be a string. *)
Definition as_str (v : pyval) : res string := match v with VStr s => Ok s | _ => Raise (TypeError "not a string") end.

(** The first message of a connection: a new observer, or nothing. *)
Definition _accept (first : option pyval) (st : CoState) : res (option CoState) :=
  match first with
  | None => Ok None
  | Some msg =>
      if negb (truthy msg) then Ok None
      else
        t ← msg_type msg;
        if negb (is_str "hello" t) then Ok None
        else
          v ← py_index msg "task_id"; task ← int_of_val v;
          h ← py_get msg "host" (VStr ""); host ← as_str h;
          Ok (Some (with_observers (fun d => assoc_set d task host) st))
  end.

(** [state.seen.setdefault(name, {})[task] = ns] *)
Definition mark_seen (task : Z) (seen : dict (list (Z * Z))) (name : string) (ns : Z) : dict (list (Z * Z)) :=
  dict_set seen name (assoc_set (dict_get_default seen name []) task ns).

(** One message handled by [_drain_observer]. *)
Definition _drain (task : Z) (host : string) (msg : pyval) (st : CoState) : res CoState :=
  t ← msg_type msg;
  if is_str "chrony_start" t then
    v ← py_index msg "offset_ns"; o ← int_of_val v; Ok (with_chrony_start (fun d => dict_set d host o) st)
  else if is_str "chrony_end" t then
    v ← py_index msg "offset_ns"; o ← int_of_val v; Ok (with_chrony_end (fun d => dict_set d host o) st)
  else if is_str "seen" t then
    evs ← py_get msg "events" (VList []); l ← py_list evs;
    foldR (fun st ev =>
      v ← py_index ev "seen_ns"; ns ← int_of_val v;
      k ← py_index ev "name"; name ← as_str k;
      Ok (with_seen (fun d => mark_seen task d name ns) st)) st l
  else if is_str "writer_done" t then
    v ← py_index msg "t_write_ns"; tw ← int_of_val v;
    s ← py_index msg "seq"; seq ← int_of_val s;
    Ok (with_done (fun d => assoc_set d (task, seq) tw) st)
  else if is_str "writer_error" t then
    e ← py_get msg "error" (VStr "");
    s ← py_index msg "seq"; seq ← int_of_val s;
    Ok (with_error (fun d => assoc_set d (task, seq) e) st)
  else Ok st.

(** One round of [_self_poll_loop]. *)
Definition _self_poll (task t0 : Z) (seen_local : list string) (data : pyval) (st : CoState) : res (list string * CoState) :=
  names ← service_names data;
  let '(seen', new) := new_names seen_local names in
  Ok (seen', with_seen (fun d => fold_left (fun d name => mark_seen task d name t0) new d) st).

(** What [_wait_seen_by_all] looks at. *)
Definition seen_of (st : CoState) (name : string) : list (Z * Z) := dict_get_default (cs_seen st) name [].
Definition all_seen (expected : list Z) (seen : list (Z * Z)) : bool := forallb (fun t => bool_decide (t ∈ map fst seen)) expected.
Definition missing_tasks (expected : list Z) (seen : list (Z * Z)) : list Z := filter (fun t => t ∉ map fst seen) expected.

Definition write_name (run_id : string) (seq writer : Z) : string :=
  "convbench-w-" +:+ run_id +:+ "-s" +:+ str_of_int seq +:+ "-" +:+ str_of_int writer.
Definition warmup_name (run_id hex : string) : string := "convbench-warmup-" +:+ run_id +:+ "-" +:+ hex.
Definition expected_tasks (n writer : Z) : list Z := filter (fun t => t ≠ writer) (zrange 0 n).

(** The record of a write, or of a write that failed. *)
Definition seen_out (seen : list (Z * Z)) (missing : list Z) : dict pyval :=
  fold_left (fun d t => dict_set d (str_of_int t) (VStr "TIMEOUT")) missing
    (fold_left (fun d '(t, ns) => dict_set d (str_of_int t) (VInt ns)) seen []).
Definition write_record (seq writer : Z) (name : string) (t_write : Z) (seen : list (Z * Z)) (missing : list Z) : pyval :=
  VDict [("seq", VInt seq); ("writer_task_id", VInt writer); ("service_name", VStr name); ("t_write_ns", VInt t_write);
         ("seen", VDict (seen_out seen missing))].
Definition failed_record (seq writer : Z) (name error : string) : pyval :=
  VDict [("seq", VInt seq); ("writer_task_id", VInt writer); ("service_name", VStr name); ("t_write_ns", VNone);
         ("seen", VDict []); ("error", VStr error)].

Definition node_entry (task : Z) (host role : string) : pyval :=
  VDict [("task_id", VInt task); ("host", VStr host); ("peer_id", VStr ""); ("role", VStr role)].

Definition nodes_of (host : string) (st : CoState) : list pyval :=
  node_entry 0 host "coordinator" ::
  map (fun '(t, h) => node_entry t h "observer") (sort_by (fun a b => fst a <? fst b) (cs_observers st)).

(** A clock that moved by more than five milliseconds. *)
Definition drifted (st : CoState) : bool :=
  existsb (fun '(host, start) => match dict_get (chrony_end st) host with Some e => 5000000 <? Z.abs (e - start) | None => false end)
    (chrony_start st).

Definition int_dict (d : dict Z) : pyval := VDict (map (fun '(k, v) => (k, VInt v)) d).

Definition results_json (run_id : string) (n rep : Z) (job_id started_at finished_at host : string) (stab : pyval) (writes : list pyval)
    (st : CoState) : pyval :=
  VDict
    [("run_id", VStr run_id); ("N", VInt n); ("rep", VInt rep); ("job_id", VStr job_id); ("started_at", VStr started_at);
     ("finished_at", VStr finished_at); ("nodes", VList (nodes_of host st));
     ("clock_offsets_ns", VDict [("start", int_dict (chrony_start st)); ("end", int_dict (chrony_end st))]);
     ("stabilization", stab); ("writes", VList writes);
     ("flags", VList (if drifted st then [VStr "clock_drift"] else []))].

(** ** aggregate.py *)

Fixpoint _host_for_task (nodes : list pyval) (task : Z) : res pyval :=
  match nodes with
  | [] => Raise (KeyError "task_id not in nodes manifest")
  | node :: rest =>
      v ← py_index node "task_id"; t ← int_of_val v;
      if t =? task then py_index node "host" else _host_for_task rest task
  end.

Record Row := mkRow {
  rw_run_id : pyval;
  rw_N : Z;
  rw_rep : Z;
  rw_seq : Z;
  rw_writer : Z;
  rw_observer : Z;
  rw_writer_host : pyval;
  rw_observer_host : pyval;
  rw_t_write : Z;
  rw_t_seen : option Z;
  rw_offset_writer : Z;
  rw_offset_observer : Z;
  rw_latency : option Z;
  rw_status : string;
  rw_flags : list pyval;
}.

Definition py_int_index (v : pyval) (k : string) : res Z := x ← py_index v k; int_of_val x.

(** [offsets[host]], with a host that is a string *)
Definition offset_for (offsets host : pyval) : res Z := h ← as_str host; py_int_index offsets h.

Definition row_of (raw offsets w : pyval) (flags : list pyval) (node_list : list pyval) (writer : Z) (writer_host : pyval)
    (obs_key : string) (t_seen : pyval) : res (list Row) :=
  obs ← int_of_str obs_key;
  if obs =? writer then Ok []
  else
    obs_host ← _host_for_task node_list obs;
    o_writer ← offset_for offsets writer_host;
    o_obs ← offset_for offsets obs_host;
    '(status, seen, latency) ← (if is_str "TIMEOUT" t_seen then Ok ("timeout", None, None)
                        else t ← int_of_val t_seen; tw ← py_int_index w "t_write_ns"; Ok ("ok", Some t, Some (t - tw - (o_obs - o_writer))));
    run_id ← py_index raw "run_id"; n ← py_int_index raw "N"; rep ← py_int_index raw "rep"; seq ← py_int_index w "seq";
    tw ← py_int_index w "t_write_ns";
    Ok [mkRow run_id n rep seq writer obs writer_host obs_host tw seen o_writer o_obs latency status flags].

Definition rows_of_write (raw offsets : pyval) (flags node_list : list pyval) (w : pyval) : res (list Row) :=
  writer ← py_int_index w "writer_task_id";
  writer_host ← _host_for_task node_list writer;
  seen ← py_index w "seen";
  match seen with
  | VDict d => rows ← mapR (fun '(k, t) => row_of raw offsets w flags node_list writer writer_host k t) d; Ok (concat rows)
  | _ => Raise (AttributeError "items")
  end.

Definition aggregate_cell (raw : pyval) : res (list Row) :=
  nodes ← py_index raw "nodes"; node_list ← py_list nodes;
  f ← py_get raw "flags" (VList []); flags ← py_list f;
  clock ← py_index raw "clock_offsets_ns"; offsets ← py_index clock "start";
  writes ← py_index raw "writes"; ws ← py_list writes;
  rows ← mapR (rows_of_write raw offsets flags node_list) ws;
  Ok (concat rows).

Definition aggregate_run (cells : list pyval) : res (list Row) :=
  frames ← mapR aggregate_cell cells;
  match frames with [] => Raise (FileNotFoundError "no results.json") | _ => Ok (concat frames) end.

(** ** Facts about the maps *)

Section AssocFacts.
Context {K V : Type} `{!EqDecision K}.
Implicit Types d : list (K * V).

Lemma assoc_get_set_eq d k v : assoc_get (assoc_set d k v) k = Some v.
Proof. induction d as [|[k' v'] r IH]; simpl; [by rewrite decide_True|]. case_decide; simpl; [by rewrite decide_True|by rewrite decide_False]. Qed.

Lemma assoc_get_set_ne d k k' v : k ≠ k' → assoc_get (assoc_set d k v) k' = assoc_get d k'.
Proof.
  intros Hne. induction d as [|[k0 v0] r IH]; simpl; [by rewrite decide_False|].
  case_decide; simpl; [subst; by rewrite !decide_False by congruence|]. case_decide; [done|]. exact IH.
Qed.

Lemma assoc_set_keys d k v x : x ∈ map fst (assoc_set d k v) ↔ x = k ∨ x ∈ map fst d.
Proof. induction d as [|[k0 v0] r IH]; simpl; [set_solver|]. case_decide; simpl; set_solver. Qed.

Lemma assoc_set_NoDup d k v : NoDup (map fst d) → NoDup (map fst (assoc_set d k v)).
Proof.
  induction d as [|[k0 v0] r IH]; simpl; [intros; apply NoDup_cons; set_solver by constructor|].
  intros [Hn Hr]%NoDup_cons. case_decide; simpl; [by apply NoDup_cons|].
  apply NoDup_cons. split; [|by apply IH]. rewrite assoc_set_keys. set_solver.
Qed.

Lemma assoc_get_in d k v : assoc_get d k = Some v → (k, v) ∈ d.
Proof. induction d as [|[k0 v0] r IH]; simpl; [done|]. case_decide; [intros [= ->]; subst; left|right; auto]. Qed.

End AssocFacts.

(** ** The framing *)

Section Framing.
Context (json_dumps : pyval → string) (json_loads : string → option pyval) (json_value : pyval → Prop).

(** What the framing needs of the texts of the values JSON can carry: compact
    texts of one line. *)
Class JsonLine : Prop := {
  json_roundtrip : ∀ m, json_value m → json_loads (json_dumps m) = Some m;
  json_one_line : ∀ m, json_value m → no_char line_end (json_dumps m) = true;
  json_trimmed : ∀ m, json_value m → bstrip (json_dumps m) = json_dumps m;
  json_nonempty : ∀ m, json_value m → json_dumps m ≠ "";
}.
Context `{!JsonLine}.

Definition stream_of (msgs : list pyval) : string := fold_left (write_message json_dumps) msgs "".

Lemma stream_of_acc msgs s : fold_left (write_message json_dumps) msgs s = s +:+ stream_of msgs.
Proof.
  revert s. induction msgs as [|m msgs IH]; intros s; unfold stream_of; simpl; [by rewrite str_app_nil|].
  rewrite IH, (IH (write_message json_dumps "" m)). unfold write_message. by rewrite !str_app_assoc.
Qed.

Lemma stream_of_cons m msgs : stream_of (m :: msgs) = json_dumps m +:+ String line_end (stream_of msgs).
Proof.
  unfold stream_of at 1. simpl. rewrite stream_of_acc. unfold write_message.
  change ("" +:+ (json_dumps m +:+ String line_end "")) with (json_dumps m +:+ String line_end ""). by rewrite str_app_assoc.
Qed.

Lemma str_app_split (a b s r : string) : a +:+ b = s +:+ r →
  (∃ s', s = a +:+ s' ∧ b = s' +:+ r) ∨ (∃ a', a = s +:+ a' ∧ r = a' +:+ b).
Proof.
  revert s. induction a as [|c a IH]; intros s E; [left; by exists s|].
  destruct s as [|c' s]; [right; by exists (String c a)|]. simpl in E. injection E as <- E.
  destruct (IH s E) as [(s' & -> & ?)|(a' & -> & ?)]; [left|right]; eauto.
Qed.

(** The control channel delivers the messages that were written, in order,
    whatever part of the stream has arrived: every complete message and nothing
    of the one that is cut. *)
Theorem framing_roundtrip msgs s rest : Forall json_value msgs → stream_of msgs = s +:+ rest →
  ∃ k cut, read_messages json_loads s = (take k msgs, None) ∧ s = stream_of (take k msgs) +:+ cut ∧
    no_char line_end cut = true ∧ (rest = "" → take k msgs = msgs).
Proof.
  intros Hj. revert s rest. induction Hj as [|m msgs Hm Hj IH]; intros s rest Hs.
  { destruct s; [|done]. by exists 0%nat, "". }
  assert (Hcut : no_char line_end s = true → rest ≠ "" →
    ∃ k cut, read_messages json_loads s = (take k (m :: msgs), None) ∧ s = stream_of (take k (m :: msgs)) +:+ cut ∧
      no_char line_end cut = true ∧ (rest = "" → take k (m :: msgs) = m :: msgs)).
  { intros Hn Hr. exists 0%nat, s. split; [|done]. unfold read_messages. by rewrite split_no_char. }
  rewrite stream_of_cons in Hs.
  destruct (str_app_split _ _ _ _ Hs) as [(s' & -> & Hb)|(a' & Ha & Hr)].
  - destruct s' as [|c s']; [apply Hcut; [rewrite str_app_nil; by apply json_one_line|by destruct rest]|].
    simpl in Hb. injection Hb as <- Hb. destruct (IH s' rest Hb) as (k & cut & Hk & Hs' & Hn & Hall). exists (S k), cut.
    split; [|split; [cbn [take firstn]; rewrite stream_of_cons, str_app_assoc; by rewrite Hs' at 1|
      split; [done|by intros H0; rewrite <- (Hall H0) at 2]]].
    unfold read_messages in *. rewrite split_app by (by apply json_one_line).
    destruct (split_on line_end s') as [|w ws] eqn:E; [by destruct (split_on_nonempty line_end s')|].
    change (removelast (json_dumps m :: w :: ws)) with (json_dumps m :: removelast (w :: ws)). cbn [parse_frames].
    rewrite json_trimmed, bool_decide_eq_false_2 by (by try apply json_nonempty). rewrite json_roundtrip, Hk by done. done.
  - apply Hcut; [|subst rest; by destruct a'].
    pose proof (json_one_line m Hm) as Hl. rewrite Ha, no_char_app in Hl. by apply andb_true_iff in Hl as [Hl _].
Qed.
End Framing.

(** A command and integers, as JSON writes them. *)
Definition quote : string := String (ascii_of_nat 34) "".
Definition stop_text : string := "{" +:+ quote +:+ "type" +:+ quote +:+ ":" +:+ quote +:+ "stop" +:+ quote +:+ "}".
Definition toy_dumps (v : pyval) : string := match v with VNum (NI z) => str_of_int z | _ => stop_text end.
Definition toy_loads (s : string) : option pyval :=
  if bool_decide (s = stop_text) then Some stop_command else match int_of_str s with Ok z => Some (VInt z) | Raise _ => None end.
Definition toy_value (v : pyval) : Prop := v = stop_command ∨ v ∈ map VInt [0; 7; -12; 1700000000000000000].

#[export] Instance toy_json : JsonLine toy_dumps toy_loads toy_value.
Proof.
  split; intros m [->|Hm]; try done; repeat (apply elem_of_cons in Hm as [->|Hm]; [try done|]); by apply elem_of_nil in Hm.
Qed.

(** The claim on a stream of three messages cut in the last one. *)
Example framing_roundtrip_witness :
  read_messages toy_loads (stream_of toy_dumps [VInt 7; stop_command] +:+ "-1") = ([VInt 7; stop_command], None) ∧
  ∃ k cut, read_messages toy_loads (stream_of toy_dumps [VInt 7; stop_command] +:+ "-1") = (take k [VInt 7; stop_command; VInt (-12)], None) ∧
    stream_of toy_dumps [VInt 7; stop_command] +:+ "-1" = stream_of toy_dumps (take k [VInt 7; stop_command; VInt (-12)]) +:+ cut ∧
    no_char line_end cut = true ∧
    (("2" +:+ String line_end "") = "" → take k [VInt 7; stop_command; VInt (-12)] = [VInt 7; stop_command; VInt (-12)]).
Proof.
  split; [vm_compute; reflexivity|].
  apply (framing_roundtrip toy_dumps toy_loads toy_value [VInt 7; stop_command; VInt (-12)] _ ("2" +:+ String line_end "")).
  - repeat constructor; unfold toy_value; set_solver.
  - vm_compute. reflexivity.
Defined.
