(* ===== verification/ConvergenceFacts.v ===== *)
(** * A cell of the convergence benchmark, as a transition system

    The coordinator's threads, the observers and the nodes they ask interleave
    their steps; the messages of an observer arrive in the order it sent them.
    The handlers are those of Convergence.v.  The clock of a host is the true time
    plus a constant offset, which chrony reports.

    Every result the coordinator can write aggregates without an exception, with
    one row per write and other task; a latency is the time from the registration
    of the name to the start of the poll that found it. *)

From Stdlib Require Import QArith Ascii Sorted.
From stdpp Require Import functions.
From S2P Require Import Prelude PyFloat PyStr PyVal Convergence.

#[local] Open Scope string_scope.
#[local] Open Scope list_scope.
#[local] Open Scope Z_scope.

Inductive Phase := Idle | Connected | Stopped.
#[export] Instance phase_eq_dec : EqDecision Phase.
Proof. solve_decision. Defined.

(** A task: the messages to and from it, the names it has seen, the start of the
    poll under way, and the table of its node. *)
Record Node := mkNode {
  nd_phase : Phase;
  nd_up : list pyval;
  nd_down : list pyval;
  nd_seen : list string;
  nd_poll : option Z;
  nd_table : list string;
}.
Definition Node_init : Node := mkNode Idle [] [] [] None [].

Definition set_phase p x := mkNode p (nd_up x) (nd_down x) (nd_seen x) (nd_poll x) (nd_table x).
Definition set_up u x := mkNode (nd_phase x) u (nd_down x) (nd_seen x) (nd_poll x) (nd_table x).
Definition set_down d x := mkNode (nd_phase x) (nd_up x) d (nd_seen x) (nd_poll x) (nd_table x).
Definition set_seen s x := mkNode (nd_phase x) (nd_up x) (nd_down x) s (nd_poll x) (nd_table x).
Definition set_poll p x := mkNode (nd_phase x) (nd_up x) (nd_down x) (nd_seen x) p (nd_table x).
Definition set_table t x := mkNode (nd_phase x) (nd_up x) (nd_down x) (nd_seen x) (nd_poll x) t.

(** Where the coordinator's main thread is; the write under way is counted from
    zero. *)
Inductive Pc :=
  | Connecting
  | Stabilizing (name : string)
  | Writing (k : nat)
  | AwaitAck (k : nat)
  | AwaitSeen (k : nat) (t_write : Z)
  | Stopping
  | Finished (out : pyval)
  | Aborted.

Record Net := mkNet {
  net_clock : Z;
  net_nodes : Z → Node;
  net_co : CoState;
  net_pc : Pc;
  net_writes : list pyval;
  (** every registration: name, task and true time *)
  net_registered : list (string * Z * Z);
  (** every first sight of a name: name, task, true times of the start of the poll
      and of the answer *)
  net_sightings : list (string * Z * Z * Z);
}.

Definition with_node (i : Z) (f : Node → Node) (s : Net) : Net :=
  mkNet (net_clock s) (<[i := f (net_nodes s i)]> (net_nodes s)) (net_co s) (net_pc s) (net_writes s) (net_registered s) (net_sightings s).
Definition with_co (c : CoState) (s : Net) : Net :=
  mkNet (net_clock s) (net_nodes s) c (net_pc s) (net_writes s) (net_registered s) (net_sightings s).
Definition with_pc (p : Pc) (s : Net) : Net :=
  mkNet (net_clock s) (net_nodes s) (net_co s) p (net_writes s) (net_registered s) (net_sightings s).
Definition with_write (w : pyval) (s : Net) : Net :=
  mkNet (net_clock s) (net_nodes s) (net_co s) (net_pc s) (net_writes s ++ [w]) (net_registered s) (net_sightings s).
Definition with_clock (t : Z) (s : Net) : Net :=
  mkNet t (net_nodes s) (net_co s) (net_pc s) (net_writes s) (net_registered s) (net_sightings s).
(** [name] is registered with the node of task [i]. *)
Definition registering (name : string) (i : Z) (s : Net) : Net :=
  mkNet (net_clock s) (<[i := set_table (nd_table (net_nodes s i) ++ [name]) (net_nodes s i)]> (net_nodes s)) (net_co s) (net_pc s)
    (net_writes s) (net_registered s ++ [(name, i, net_clock s)]) (net_sightings s).
Definition sighting (i t0 : Z) (names : list string) (s : Net) : Net :=
  mkNet (net_clock s) (net_nodes s) (net_co s) (net_pc s) (net_writes s) (net_registered s)
    (net_sightings s ++ map (fun name => (name, i, t0, net_clock s)) names).

Section Cell.
Context (n rep : Z) (run_id hex job_id started_at finished_at : string) (stab : pyval) (host_of : Z → string) (offset : string → Z)
  (writers : list Z) (dnt_table : list string → pyval) (repr : exn → string).

(** What a clock of task [i] shows at the true time [t]. *)
Definition local_time (i t : Z) : Z := t + offset (host_of i).
Definition my_name (k : nat) (w : Z) : string := write_name run_id (Z.of_nat k) w.
Definition warmup : string := warmup_name run_id hex.

Definition init (t : Z) : Net := mkNet t (fun _ => Node_init) CoState_init Connecting [] [] [].

(** The coordinator polls its own node between the connection and the end. *)
Definition self_polls (p : Pc) : bool :=
  match p with Stabilizing _ | Writing _ | AwaitAck _ | AwaitSeen _ _ => true | _ => false end.

(** The names a poll finds for the first time. *)
Definition found (x : Node) : list string := snd (new_names (nd_seen x) (nd_table x)).

Inductive cell_step : Net → Net → Prop :=
  (** The world: time passes, nodes tell each other the names registered. *)
  | step_tick s t : net_clock s ≤ t → cell_step s (with_clock t s)
  | step_gossip s i name : 0 ≤ i < n → name ∈ map (fun r => fst (fst r)) (net_registered s) →
      cell_step s (with_node i (fun x => set_table (nd_table x ++ [name]) x) s)
  (** An observer: [main] connects, the two threads poll and handle commands. *)
  | step_connect s i : 1 ≤ i < n → nd_phase (net_nodes s i) = Idle →
      cell_step s (with_node i (fun x => set_phase Connected (set_up
        [hello_msg i (host_of i); chrony_msg "chrony_start" i (offset (host_of i))] x)) s)
  | step_poll_begin s i : 1 ≤ i < n → nd_phase (net_nodes s i) = Connected →
      cell_step s (with_node i (set_poll (Some (net_clock s))) s)
  | step_poll_fail s i : 0 ≤ i < n → cell_step s (with_node i (set_poll None) s)
  | step_poll_end s i t0 seen' msg : 1 ≤ i < n → nd_poll (net_nodes s i) = Some t0 →
      _poll_dnt i (local_time i t0) (nd_seen (net_nodes s i)) (dnt_table (nd_table (net_nodes s i))) = Ok (seen', msg) →
      cell_step s (sighting i t0 (found (net_nodes s i))
        (with_node i (fun x => set_poll None (set_seen seen' (set_up (nd_up x ++ option_list msg) x))) s))
  | step_write_ok s i name msg rest reply : 1 ≤ i < n → nd_down (net_nodes s i) = msg :: rest →
      _handle_write i repr (fun _ => Ok (local_time i (net_clock s))) msg = Ok (Some reply, false) →
      py_index msg "service_name" = Ok (VStr name) →
      cell_step s (registering name i (with_node i (fun x => set_down rest (set_up (nd_up x ++ [reply]) x)) s))
  | step_write_fail s i e msg rest reply : 1 ≤ i < n → nd_down (net_nodes s i) = msg :: rest →
      _handle_write i repr (fun _ => Raise e) msg = Ok (Some reply, false) →
      cell_step s (with_node i (fun x => set_down rest (set_up (nd_up x ++ [reply]) x)) s)
  | step_stop s i msg rest : 1 ≤ i < n → nd_down (net_nodes s i) = msg :: rest →
      _handle_write i repr (fun _ => Raise TimeoutError) msg = Ok (None, true) →
      cell_step s (with_node i (fun x => set_phase Stopped (set_down rest
        (set_up (nd_up x ++ [chrony_msg "chrony_end" i (offset (host_of i)); bye_msg i]) x))) s)
  (** The coordinator's threads. *)
  | step_accept s i msg rest co' : 1 ≤ i < n → nd_up (net_nodes s i) = msg :: rest → i ∉ map fst (cs_observers (net_co s)) →
      Z.of_nat (length (cs_observers (net_co s))) < n - 1 → _accept (Some msg) (net_co s) = Ok (Some co') →
      cell_step s (with_co co' (with_node i (set_up rest) s))
  | step_drain s i host msg rest co' : assoc_get (cs_observers (net_co s)) i = Some host → nd_up (net_nodes s i) = msg :: rest →
      _drain i host msg (net_co s) = Ok co' →
      cell_step s (with_co co' (with_node i (set_up rest) s))
  | step_self_poll_begin s : self_polls (net_pc s) = true → cell_step s (with_node 0 (set_poll (Some (net_clock s))) s)
  | step_self_poll_end s t0 seen' co' : nd_poll (net_nodes s 0) = Some t0 →
      _self_poll 0 (local_time 0 t0) (nd_seen (net_nodes s 0)) (dnt_table (nd_table (net_nodes s 0))) (net_co s) = Ok (seen', co') →
      cell_step s (sighting 0 t0 (found (net_nodes s 0)) (with_co co' (with_node 0 (fun x => set_poll None (set_seen seen' x)) s)))
  (** The coordinator's main thread. *)
  | step_ready s : net_pc s = Connecting → Z.of_nat (length (cs_observers (net_co s))) = n - 1 →
      cell_step s (registering warmup 0 (with_pc (Stabilizing warmup)
        (with_co (with_chrony_start (fun d => dict_set d (host_of 0) (offset (host_of 0))) (net_co s)) s)))
  | step_stable s name : net_pc s = Stabilizing name → all_seen (map fst (cs_observers (net_co s))) (seen_of (net_co s) name) = true →
      cell_step s (with_pc (Writing 0) s)
  | step_abort s : (∀ out, net_pc s ≠ Finished out) → cell_step s (with_pc Aborted s)
  | step_self_write s k : net_pc s = Writing k → writers !! k = Some 0 →
      cell_step s (registering (my_name k 0) 0 (with_pc (AwaitSeen k (local_time 0 (net_clock s))) s))
  | step_self_write_fail s k error : net_pc s = Writing k → writers !! k = Some 0 →
      cell_step s (with_pc (Writing (S k)) (with_write (failed_record (Z.of_nat k) 0 (my_name k 0) error) s))
  | step_send s k w host : net_pc s = Writing k → writers !! k = Some w → w ≠ 0 → assoc_get (cs_observers (net_co s)) w = Some host →
      cell_step s (with_pc (AwaitAck k) (with_node w (fun x => set_down (nd_down x ++ [write_cmd (Z.of_nat k) (my_name k w)]) x) s))
  | step_ack s k w t : net_pc s = AwaitAck k → writers !! k = Some w → assoc_get (writer_done (net_co s)) (w, Z.of_nat k) = Some t →
      cell_step s (with_pc (AwaitSeen k t) s)
  | step_no_ack s k w : net_pc s = AwaitAck k → writers !! k = Some w →
      cell_step s (with_pc (Writing (S k)) (with_write (failed_record (Z.of_nat k) w (my_name k w) "writer_no_ack") s))
  | step_record s k w t missing : net_pc s = AwaitSeen k t → writers !! k = Some w →
      missing ≡ₚ missing_tasks (expected_tasks n w) (seen_of (net_co s) (my_name k w)) →
      cell_step s (with_pc (Writing (S k))
        (with_write (write_record (Z.of_nat k) w (my_name k w) t (seen_of (net_co s) (my_name k w)) missing) s))
  | step_end s : net_pc s = Writing (length writers) →
      cell_step s (mkNet (net_clock s)
        (fun i => if bool_decide (i ∈ map fst (cs_observers (net_co s))) then set_down (nd_down (net_nodes s i) ++ [stop_command]) (net_nodes s i)
                  else net_nodes s i)
        (with_chrony_end (fun d => dict_set d (host_of 0) (offset (host_of 0))) (net_co s)) Stopping (net_writes s)
        (net_registered s) (net_sightings s))
  | step_finish s : net_pc s = Stopping →
      cell_step s (with_pc (Finished (results_json run_id n rep job_id started_at finished_at (host_of 0) stab (net_writes s) (net_co s))) s).

Definition reachable (t : Z) (s : Net) : Prop := rtc cell_step (init t) s.

(** ** What the handlers do with the messages of the protocol *)

Lemma accept_hello i h st : _accept (Some (hello_msg i h)) st = Ok (Some (with_observers (fun d => assoc_set d i h) st)).
Proof. reflexivity. Qed.

Definition mark_all (i : Z) (events : list (string * Z)) (d : dict (list (Z * Z))) : dict (list (Z * Z)) :=
  fold_left (fun d '(name, t) => mark_seen i d name t) events d.

Lemma drain_seen i h events st : _drain i h (seen_msg i events) st = Ok (with_seen (mark_all i events) st).
Proof.
  change (foldR (fun st ev =>
      v ← py_index ev "seen_ns"; ns ← int_of_val v;
      k ← py_index ev "name"; name ← as_str k;
      Ok (with_seen (fun d => mark_seen i d name ns) st)) st
    (map (fun '(name, t) => VDict [("name", VStr name); ("seen_ns", VInt t)]) events) = Ok (with_seen (mark_all i events) st)).
  revert st. induction events as [|[name t] events IH]; intros st; [by destruct st|].
  cbn [map foldR]. change (py_index (VDict [("name", VStr name); ("seen_ns", VInt t)]) "seen_ns") with (Ok (VInt t)).
  change (py_index (VDict [("name", VStr name); ("seen_ns", VInt t)]) "name") with (Ok (VStr name)). simpl.
  rewrite IH. done.
Qed.

Lemma drain_start i h o st : _drain i h (chrony_msg "chrony_start" i o) st = Ok (with_chrony_start (fun d => dict_set d h o) st).
Proof. reflexivity. Qed.
Lemma drain_end i h o st : _drain i h (chrony_msg "chrony_end" i o) st = Ok (with_chrony_end (fun d => dict_set d h o) st).
Proof. reflexivity. Qed.
Lemma drain_done i h seq name t st : _drain i h (writer_done_msg i seq name t) st = Ok (with_done (fun d => assoc_set d (i, seq) t) st).
Proof. reflexivity. Qed.
Lemma drain_error i h seq e st : _drain i h (writer_error_msg i seq e) st = Ok (with_error (fun d => assoc_set d (i, seq) (VStr e)) st).
Proof. reflexivity. Qed.
Lemma drain_bye i h st : _drain i h (bye_msg i) st = Ok st.
Proof. reflexivity. Qed.

Lemma handle_write_cmd i register seq name : _handle_write i repr register (write_cmd seq name) =
  match register name with
  | Raise e => Ok (Some (writer_error_msg i seq (repr e)), false)
  | Ok t => Ok (Some (writer_done_msg i seq name t), false)
  end.
Proof. reflexivity. Qed.

(** The table of a node lists the names it knows. *)
Context (table_lists : ∀ names, service_names (dnt_table names) = Ok names).

Lemma poll_finds i t0 x : _poll_dnt i t0 (nd_seen x) (dnt_table (nd_table x)) =
  Ok (fst (new_names (nd_seen x) (nd_table x)),
      if is_nil (found x) then None else Some (seen_msg i (map (fun name => (name, t0)) (found x)))).
Proof. unfold _poll_dnt, found. rewrite table_lists. simpl. by destruct (new_names _ _). Qed.

Lemma self_poll_finds t0 x st : _self_poll 0 t0 (nd_seen x) (dnt_table (nd_table x)) st =
  Ok (fst (new_names (nd_seen x) (nd_table x)), with_seen (mark_all 0 (map (fun name => (name, t0)) (found x))) st).
Proof.
  unfold _self_poll, found. rewrite table_lists. simpl. destruct (new_names _ _) as [seen' new]. simpl. f_equal. f_equal.
  unfold with_seen. f_equal. unfold mark_all. generalize (cs_seen st). induction new as [|name new IH]; intros d; [done|]. simpl. apply IH.
Qed.

Lemma new_names_subset seen names : snd (new_names seen names) ⊆ names.
Proof.
  revert seen. induction names as [|name names IH]; intros seen; simpl; [set_solver|].
  case_match; [|set_solver]. specialize (IH (seen ++ [name])). destruct (new_names (seen ++ [name]) names). set_solver.
Qed.

(** *** The marks of a task in the map of what was seen *)

Lemma mark_seen_of i d name t name' :
  dict_get_default (mark_seen i d name t) name' [] =
  if decide (name' = name) then assoc_set (dict_get_default d name []) i t else dict_get_default d name' [].
Proof.
  unfold mark_seen, dict_get_default. case_decide as E; [subst; by rewrite dict_get_set_eq|]. by rewrite dict_get_set_ne by congruence.
Qed.

Lemma assoc_set_elem {K V} `{!EqDecision K} (d : list (K * V)) k v k' v' :
  (k', v') ∈ assoc_set d k v → (k' = k ∧ v' = v) ∨ (k', v') ∈ d.
Proof.
  induction d as [|[k0 v0] r IH]; simpl; [rewrite list_elem_of_singleton; intros [= -> ->]; by left|].
  case_decide; rewrite !elem_of_cons; [intros [[= -> ->]|]; subst; auto|]. intros [?|?%IH]; naive_solver.
Qed.

Lemma mark_all_seen (P : string → Z → Z → Prop) i events d :
  (∀ name t, (name, t) ∈ events → P name i t) →
  (∀ name, NoDup (map fst (dict_get_default d name [])) ∧ ∀ j t, (j, t) ∈ dict_get_default d name [] → P name j t) →
  ∀ name, NoDup (map fst (dict_get_default (mark_all i events d) name [])) ∧
          ∀ j t, (j, t) ∈ dict_get_default (mark_all i events d) name [] → P name j t.
Proof.
  unfold mark_all. revert d. induction events as [|[name0 t0] events IH]; intros d Hev Hd; [done|]. simpl.
  apply IH; [intros; apply Hev; by right|]. intros name. rewrite mark_seen_of. case_decide as E; [subst|apply Hd].
  destruct (Hd name0) as [H1 H2]. split; [by apply assoc_set_NoDup|].
  intros j t [[-> ->]|Hin]%assoc_set_elem; [apply Hev; left|by apply H2].
Qed.

(** ** The invariant *)

Context (writers_in_range : Forall (fun w => 0 ≤ w < n) writers).

Definition tasks (c : CoState) : list Z := map fst (cs_observers c).
Definition has_start (c : CoState) (i : Z) : Prop := is_Some (dict_get (chrony_start c) (host_of i)).

(** A time recorded for a name is that of a poll of the task; a time of writing
    is that of a registration. *)
Definition sighted (s : Net) (name : string) (i t : Z) : Prop :=
  0 ≤ i < n ∧ ∃ t0 rd, (name, i, t0, rd) ∈ net_sightings s ∧ t = local_time i t0.
Definition written (s : Net) (name : string) (w t : Z) : Prop :=
  ∃ tr, (name, w, tr) ∈ net_registered s ∧ t = local_time w tr.

(** The messages an observer sends after it said hello and gave its offset. *)
Inductive backed (s : Net) (i : Z) : pyval → Prop :=
  | backed_seen events : (∀ name t, (name, t) ∈ events → sighted s name i t) → backed s i (seen_msg i events)
  | backed_done seq t : written s (write_name run_id seq i) i t → backed s i (writer_done_msg i seq (write_name run_id seq i) t)
  | backed_error seq e : backed s i (writer_error_msg i seq e)
  | backed_end o : backed s i (chrony_msg "chrony_end" i o)
  | backed_bye : backed s i (bye_msg i).

Definition hello (i : Z) : pyval := hello_msg i (host_of i).
Definition start (i : Z) : pyval := chrony_msg "chrony_start" i (offset (host_of i)).

(** What is on the way from an observer. *)
Definition upstream (s : Net) (i : Z) : Prop :=
  let up := nd_up (net_nodes s i) in
  if decide (i ∈ tasks (net_co s)) then
    (∃ rest, up = start i :: rest ∧ Forall (backed s i) rest) ∨ (has_start (net_co s) i ∧ Forall (backed s i) up)
  else ∃ rest, up = hello i :: start i :: rest ∧ Forall (backed s i) rest.

Definition channel_ok (s : Net) (i : Z) : Prop :=
  let x := net_nodes s i in
  if decide (nd_phase x = Idle) then nd_up x = [] ∧ nd_down x = [] ∧ nd_poll x = None ∧ i ∉ tasks (net_co s)
  else upstream s i.

Definition command_ok (i : Z) (msg : pyval) : Prop := msg = stop_command ∨ ∃ seq, msg = write_cmd seq (write_name run_id seq i).

Record channels (s : Net) : Prop := {
  ch_up : ∀ i, 1 ≤ i < n → channel_ok s i;
  ch_down : ∀ i, Forall (command_ok i) (nd_down (net_nodes s i));
}.

Record logs (s : Net) : Prop := {
  lg_registered : ∀ name w t, (name, w, t) ∈ net_registered s → t ≤ net_clock s;
  lg_table : ∀ i name, name ∈ nd_table (net_nodes s i) → name ∈ map (fun r => fst (fst r)) (net_registered s);
  lg_poll : ∀ i t0, nd_poll (net_nodes s i) = Some t0 → t0 ≤ net_clock s;
  lg_sight : ∀ name i t0 rd, (name, i, t0, rd) ∈ net_sightings s →
    t0 ≤ rd ≤ net_clock s ∧ ∃ w tr, (name, w, tr) ∈ net_registered s ∧ tr ≤ rd;
}.

Record knowledge (s : Net) : Prop := {
  kn_tasks : NoDup (tasks (net_co s));
  kn_hosts : ∀ i h, (i, h) ∈ cs_observers (net_co s) → 1 ≤ i < n ∧ h = host_of i;
  kn_start : ∀ h o, dict_get (chrony_start (net_co s)) h = Some o → o = offset h;
  kn_seen : ∀ name, NoDup (map fst (seen_of (net_co s) name)) ∧
    ∀ i t, (i, t) ∈ seen_of (net_co s) name → sighted s name i t ∧ has_start (net_co s) i;
  kn_done : ∀ w seq t, assoc_get (writer_done (net_co s)) (w, seq) = Some t → written s (write_name run_id seq w) w t;
}.

(** What is recorded of a write. *)
Inductive recorded (s : Net) : pyval → Prop :=
  | recorded_failure k w name e : 0 ≤ w < n → recorded s (failed_record k w name e)
  | recorded_write k w t seen missing : 0 ≤ w < n → written s (write_name run_id k w) w t →
      NoDup (map fst seen) → (∀ i ns, (i, ns) ∈ seen → sighted s (write_name run_id k w) i ns) →
      missing ≡ₚ missing_tasks (expected_tasks n w) seen → recorded s (write_record k w (write_name run_id k w) t seen missing).

(** All the observers are there; all their offsets are known. *)
Definition complete (c : CoState) : Prop := Z.of_nat (length (cs_observers c)) = n - 1 ∧ has_start c 0.
Definition settled (c : CoState) : Prop := complete c ∧ ∀ i, i ∈ tasks c → has_start c i.

Definition pc_ok (s : Net) : Prop :=
  match net_pc s with
  | Connecting | Aborted => True
  | Stabilizing _ => complete (net_co s)
  | Writing _ | AwaitAck _ | Stopping => settled (net_co s)
  | AwaitSeen k t => settled (net_co s) ∧ ∃ w, writers !! k = Some w ∧ written s (my_name k w) w t
  | Finished out => ∃ c writes, out = results_json run_id n rep job_id started_at finished_at (host_of 0) stab writes c ∧
      settled c ∧ NoDup (tasks c) ∧ (∀ i h, (i, h) ∈ cs_observers c → 1 ≤ i < n ∧ h = host_of i) ∧
      (∀ h o, dict_get (chrony_start c) h = Some o → o = offset h) ∧ Forall (recorded s) writes
  end.

Record Inv (s : Net) : Prop := {
  inv_logs : logs s;
  inv_knowledge : knowledge s;
  inv_channels : channels s;
  inv_pc : pc_ok s;
  inv_writes : Forall (recorded s) (net_writes s);
  inv_self : nd_poll (net_nodes s 0) ≠ None → has_start (net_co s) 0;
}.

(** *** What grows *)

Definition net_extends (s s' : Net) : Prop := net_registered s ⊆ net_registered s' ∧ net_sightings s ⊆ net_sightings s'.

Lemma sighted_mono s s' name i t : net_extends s s' → sighted s name i t → sighted s' name i t.
Proof. intros [_ Hs] (Hi & t0 & rd & H & ->). split; [done|]. exists t0, rd. split; [by apply Hs|done]. Qed.

Lemma written_mono s s' name w t : net_extends s s' → written s name w t → written s' name w t.
Proof. intros [Hr _] (tr & H & ->). exists tr. split; [by apply Hr|done]. Qed.

Lemma backed_mono s s' i msg : net_extends s s' → backed s i msg → backed s' i msg.
Proof. intros He [events H|seq t H| | |]; constructor; eauto using sighted_mono, written_mono. Qed.

Lemma backed_all_mono s s' i l : net_extends s s' → Forall (backed s i) l → Forall (backed s' i) l.
Proof. intros He H. apply (Forall_impl _ _ _ H). intros msg. by apply backed_mono. Qed.

Lemma recorded_mono s s' r : net_extends s s' → recorded s r → recorded s' r.
Proof. intros He [k w name e Hw|k w t seen missing Hw Ht Hn Hs Hm]; econstructor; eauto using sighted_mono, written_mono. Qed.

Lemma recorded_all_mono s s' l : net_extends s s' → Forall (recorded s) l → Forall (recorded s') l.
Proof. intros He H. apply (Forall_impl _ _ _ H). intros r. by apply recorded_mono. Qed.

Lemma knowledge_mono s s' : net_extends s s' → net_co s' = net_co s → knowledge s → knowledge s'.
Proof.
  intros He Hc [H1 H2 H3 H4 H5]. split; rewrite Hc; try done.
  - intros name. destruct (H4 name) as [Hn Hs]. split; [done|]. intros i t Hin. destruct (Hs i t Hin). eauto using sighted_mono.
  - intros w seq t Hd. eauto using written_mono.
Qed.

Lemma pc_ok_mono s s' : net_extends s s' → net_co s' = net_co s → net_pc s' = net_pc s → pc_ok s → pc_ok s'.
Proof.
  intros He Hc Hp. unfold pc_ok. rewrite Hp, Hc. destruct (net_pc s); try done.
  - intros (Hs & w & Hw & Ht). split; [done|]. eauto using written_mono.
  - intros (c & writes & Ho & Hs & H1 & H2 & H3 & H4). exists c, writes. eauto 8 using recorded_all_mono.
Qed.

Lemma channel_ok_same s s' i : net_extends s s' → net_nodes s' i = net_nodes s i →
  (i ∈ tasks (net_co s') ↔ i ∈ tasks (net_co s)) → (has_start (net_co s) i → has_start (net_co s') i) →
  channel_ok s i → channel_ok s' i.
Proof.
  intros He Hn Ht Hs. unfold channel_ok, upstream. rewrite Hn. destruct (decide (nd_phase _ = Idle)); [by rewrite Ht|].
  destruct (decide (i ∈ tasks (net_co s))), (decide (i ∈ tasks (net_co s'))); try (exfalso; tauto).
  - intros [(rest & Hup & Hb)|[Hst Hb]]; [left; exists rest|right]; eauto using backed_all_mono.
  - intros (rest & Hup & Hb). exists rest. eauto using backed_all_mono.
Qed.

Lemma channels_at j s s' : net_extends s s' → net_co s' = net_co s → (∀ i, i ≠ j → net_nodes s' i = net_nodes s i) →
  (1 ≤ j < n → channel_ok s' j) → Forall (command_ok j) (nd_down (net_nodes s' j)) → channels s → channels s'.
Proof.
  intros He Hc Hn Hj Hd [Hu Hdown]. split.
  - intros i Hi. destruct (decide (i = j)) as [->|Hne]; [by apply Hj|].
    apply (channel_ok_same s); [done|by apply Hn|by rewrite Hc|by rewrite Hc|by apply Hu].
  - intros i. destruct (decide (i = j)) as [->|Hne]; [done|]. rewrite Hn by done. apply Hdown.
Qed.

(** *** The logs *)

Lemma logs_at j s s' : net_clock s ≤ net_clock s' → net_registered s' = net_registered s → net_sightings s' = net_sightings s →
  (∀ i, i ≠ j → net_nodes s' i = net_nodes s i) →
  (∀ name, name ∈ nd_table (net_nodes s' j) → name ∈ map (fun r => fst (fst r)) (net_registered s)) →
  (∀ t0, nd_poll (net_nodes s' j) = Some t0 → t0 ≤ net_clock s') → logs s → logs s'.
Proof.
  intros Hc Hr Hs Hn Ht Hp [H1 H2 H3 H4]. split; rewrite ?Hr, ?Hs.
  - intros name w t H. specialize (H1 _ _ _ H). lia.
  - intros i name. destruct (decide (i = j)) as [->|Hne]; [apply Ht|]. rewrite Hn by done. apply H2.
  - intros i t0. destruct (decide (i = j)) as [->|Hne]; [apply Hp|]. rewrite Hn by done. intros H. specialize (H3 _ _ H). lia.
  - intros name i t0 rd H. destruct (H4 _ _ _ _ H) as (? & w & tr & Hw). split; [lia|]. by exists w, tr.
Qed.

Lemma logs_registering name i s : logs s → logs (registering name i s).
Proof.
  intros [H1 H2 H3 H4]. split; simpl.
  - intros name' w t [H|H%list_elem_of_singleton]%elem_of_app; [by eapply H1|]. by injection H as -> -> ->.
  - intros i' name'. rewrite map_app, elem_of_app. destruct (decide (i = i')) as [->|Hne].
    + rewrite fn_lookup_insert. simpl. intros [H|H%list_elem_of_singleton]%elem_of_app; [left; by eapply H2|right; subst; by left].
    + rewrite fn_lookup_insert_ne by done. intros H. left. by eapply H2.
  - intros i' t0. destruct (decide (i = i')) as [->|Hne]; [rewrite fn_lookup_insert|rewrite fn_lookup_insert_ne by done]; apply H3.
  - intros name' i' t0 rd H. destruct (H4 _ _ _ _ H) as (? & w & tr & Hw & ?). split; [done|]. exists w, tr.
    split; [|done]. apply elem_of_app. by left.
Qed.

Lemma registered_known s name : logs s → name ∈ map (fun r => fst (fst r)) (net_registered s) →
  ∃ w tr, (name, w, tr) ∈ net_registered s ∧ tr ≤ net_clock s.
Proof.
  intros Hl H. apply list_elem_of_fmap in H as ([[name' w] tr] & -> & Hin). exists w, tr. split; [done|]. by eapply lg_registered.
Qed.

Lemma logs_sighting i t0 names s : logs s → t0 ≤ net_clock s →
  (∀ name, name ∈ names → name ∈ map (fun r => fst (fst r)) (net_registered s)) → logs (sighting i t0 names s).
Proof.
  intros Hl Ht Hn. pose proof Hl as [H1 H2 H3 H4]. split; simpl; try done.
  intros name i' t0' rd [H|H]%elem_of_app; [by eapply H4|]. apply list_elem_of_fmap in H as (name' & [= -> -> -> ->] & Hin).
  split; [done|]. by apply registered_known, Hn.
Qed.

Lemma logs_same s s' : net_clock s' = net_clock s → net_nodes s' = net_nodes s → net_registered s' = net_registered s →
  net_sightings s' = net_sightings s → logs s → logs s'.
Proof. intros E1 E2 E3 E4 [H1 H2 H3 H4]. split; rewrite ?E1, ?E2, ?E3, ?E4; done. Qed.

(** *** The steps of the observers and of the world *)

Lemma inv_same_co s s' : net_extends s s' → net_co s' = net_co s → net_pc s' = net_pc s → net_writes s' = net_writes s →
  logs s' → channels s' → (nd_poll (net_nodes s' 0) ≠ None → has_start (net_co s) 0) → Inv s → Inv s'.
Proof.
  intros He Hc Hp Hw Hl Hch Hself [I1 I2 I3 I4 I5 I6]. split; try done.
  - by apply (knowledge_mono s).
  - by apply (pc_ok_mono s).
  - rewrite Hw. by apply (recorded_all_mono s).
  - by rewrite Hc.
Qed.

Lemma upstream_append s s' i extra : net_extends s s' → net_co s' = net_co s →
  nd_up (net_nodes s' i) = nd_up (net_nodes s i) ++ extra → Forall (backed s' i) extra → upstream s i → upstream s' i.
Proof.
  intros He Hc Hup Hx. unfold upstream. rewrite Hup, Hc. destruct (decide _).
  - intros [(rest & -> & Hb)|[Hst Hb]]; [left; exists (rest ++ extra); split; [done|]|right; split; [done|]];
      apply Forall_app; eauto using backed_all_mono.
  - intros (rest & -> & Hb). exists (rest ++ extra). split; [done|]. apply Forall_app; eauto using backed_all_mono.
Qed.

(** A task that is connected appends to its channel. *)
Lemma channel_append s s' i extra : net_extends s s' → net_co s' = net_co s → nd_phase (net_nodes s i) ≠ Idle →
  nd_phase (net_nodes s' i) ≠ Idle → nd_up (net_nodes s' i) = nd_up (net_nodes s i) ++ extra → Forall (backed s' i) extra →
  channel_ok s i → channel_ok s' i.
Proof.
  intros He Hc Hp Hp' Hup Hx. unfold channel_ok. rewrite !decide_False by done. by eapply upstream_append.
Qed.

Lemma not_idle s i : channel_ok s i → nd_up (net_nodes s i) ≠ [] ∨ nd_down (net_nodes s i) ≠ [] ∨ nd_poll (net_nodes s i) ≠ None ∨ i ∈ tasks (net_co s) →
  nd_phase (net_nodes s i) ≠ Idle.
Proof. unfold channel_ok. intros H Hor Hp. rewrite decide_True in H by done. tauto. Qed.

(** A poll that begins or fails, a table that grows. *)
Lemma inv_local i f s : (∀ x, nd_phase (f x) = nd_phase x ∧ nd_up (f x) = nd_up x ∧ nd_down (f x) = nd_down x) →
  (∀ name, name ∈ nd_table (f (net_nodes s i)) → name ∈ map (fun r => fst (fst r)) (net_registered s)) →
  (∀ t0, nd_poll (f (net_nodes s i)) = Some t0 →
    t0 ≤ net_clock s ∧ (i ≠ 0 ∧ nd_phase (net_nodes s i) ≠ Idle ∨ i = 0 ∧ has_start (net_co s) 0)) →
  Inv s → Inv (with_node i f s).
Proof.
  intros Hf Ht Hp HI. pose proof HI as [Hl Hk Hc _ _ Hself].
  assert (Hi : net_nodes (with_node i f s) i = f (net_nodes s i)) by (simpl; apply fn_lookup_insert).
  assert (Hne : ∀ j, j ≠ i → net_nodes (with_node i f s) j = net_nodes s j) by (intros j Hj; simpl; by apply fn_lookup_insert_ne).
  destruct (Hf (net_nodes s i)) as (F1 & F2 & F3).
  apply (inv_same_co s); try done.
  - apply (logs_at i s); try done; rewrite Hi; [done|]. intros t0 H. by destruct (Hp t0 H).
  - apply (channels_at i s); try done; [|rewrite Hi, F3; apply Hc].
    intros Hr. pose proof (ch_up s Hc i Hr) as Hch. unfold channel_ok in *. rewrite Hi, F1, F2, F3.
    destruct (decide (nd_phase (net_nodes s i) = Idle)).
    2: { apply (upstream_append s _ i []); try done. by rewrite Hi, F2, app_nil_r. }
    destruct Hch as (? & ? & ? & ?). split_and!; try done. destruct (nd_poll (f _)) as [t0|] eqn:E; [|done].
    destruct (Hp t0 eq_refl) as (_ & [[_ ?]|[-> _]]); [done|lia].
  - destruct (decide (i = 0)) as [->|Hi0]; [|rewrite Hne by done; apply Hself]. rewrite Hi.
    destruct (nd_poll (f _)) as [t0|] eqn:E; [|done]. intros _. by destruct (Hp t0 eq_refl) as (_ & [[? _]|[_ ?]]).
Qed.

(** An observer that is connected sends messages. *)
Lemma inv_send i extra s s' : 1 ≤ i < n → net_extends s s' → net_co s' = net_co s → net_pc s' = net_pc s → net_writes s' = net_writes s →
  (∀ j, j ≠ i → net_nodes s' j = net_nodes s j) → logs s' → nd_phase (net_nodes s i) ≠ Idle → nd_phase (net_nodes s' i) ≠ Idle →
  nd_up (net_nodes s' i) = nd_up (net_nodes s i) ++ extra → Forall (backed s' i) extra →
  Forall (command_ok i) (nd_down (net_nodes s' i)) → Inv s → Inv s'.
Proof.
  intros Hi He Hc Hp Hw Hn Hl Hph Hph' Hup Hx Hd HI. pose proof HI as [_ _ Hch _ _ Hself].
  apply (inv_same_co s); try done.
  - apply (channels_at i s); try done. intros _. by eapply channel_append; eauto; apply Hch.
  - rewrite Hn by lia. done.
Qed.

Lemma found_registered s i : logs s → ∀ name, name ∈ found (net_nodes s i) → name ∈ map (fun r => fst (fst r)) (net_registered s).
Proof. intros Hl name H. eapply lg_table; [done|]. by eapply (new_names_subset _ (nd_table (net_nodes s i))). Qed.

Lemma inv_tick s t : net_clock s ≤ t → Inv s → Inv (with_clock t s).
Proof.
  intros Ht HI. pose proof HI as [Hl _ Hch _ _ Hself]. apply (inv_same_co s); try done.
  - apply (logs_at 0 s); try done; [apply Hl|]. intros t0 H. pose proof (lg_poll s Hl 0 t0 H). simpl. lia.
  - apply (channels_at 0 s); try done; [intros; lia|apply Hch].
Qed.

Lemma inv_connect s i : 1 ≤ i < n → nd_phase (net_nodes s i) = Idle → Inv s →
  Inv (with_node i (fun x => set_phase Connected (set_up [hello i; start i] x)) s).
Proof.
  intros Hi Hph HI. pose proof HI as [Hl _ Hch _ _ Hself]. pose proof (ch_up s Hch i Hi) as Hci.
  unfold channel_ok in Hci. rewrite decide_True in Hci by done. destruct Hci as (Hu & Hd & Hp & Ht).
  set (s' := with_node _ _ _).
  assert (Hx : net_nodes s' i = set_phase Connected (set_up [hello i; start i] (net_nodes s i))) by (simpl; apply fn_lookup_insert).
  assert (Hne : ∀ j, j ≠ i → net_nodes s' j = net_nodes s j) by (intros j Hj; simpl; by apply fn_lookup_insert_ne).
  apply (inv_same_co s); try done.
  - apply (logs_at i s); try done; rewrite Hx; simpl; [apply Hl|]. by rewrite Hp.
  - apply (channels_at i s); try done; [|rewrite Hx; simpl; by rewrite Hd]. intros _. unfold channel_ok, upstream.
    rewrite Hx. simpl. rewrite decide_False by done. exists []. by split.
  - rewrite Hne by lia. done.
Qed.

Lemma inv_poll_end s i t0 seen' msg : 1 ≤ i < n → nd_poll (net_nodes s i) = Some t0 →
  _poll_dnt i (local_time i t0) (nd_seen (net_nodes s i)) (dnt_table (nd_table (net_nodes s i))) = Ok (seen', msg) → Inv s →
  Inv (sighting i t0 (found (net_nodes s i))
    (with_node i (fun x => set_poll None (set_seen seen' (set_up (nd_up x ++ option_list msg) x))) s)).
Proof.
  intros Hi Hpoll Hmsg HI. pose proof HI as [Hl _ Hch _ _ Hself]. rewrite poll_finds in Hmsg. injection Hmsg as _ <-.
  set (names := found (net_nodes s i)). set (extra := option_list _). set (s1 := with_node _ _ _). set (s' := sighting _ _ _ _).
  assert (Hx : net_nodes s' i = set_poll None (set_seen seen' (set_up (nd_up (net_nodes s i) ++ extra) (net_nodes s i))))
    by (simpl; apply fn_lookup_insert).
  assert (Hne : ∀ j, j ≠ i → net_nodes s1 j = net_nodes s j) by (intros j Hj; simpl; by apply fn_lookup_insert_ne).
  assert (Hph : nd_phase (net_nodes s i) ≠ Idle) by (eapply not_idle; [by apply Hch|rewrite Hpoll; auto]).
  assert (He : net_extends s s') by (split; [done|simpl; set_solver]).
  apply (inv_send i extra s s'); try done; try (rewrite Hx; done).
  - apply logs_sighting; [|by apply (lg_poll s Hl i)|by apply found_registered].
    apply (logs_at i s); try done; change (net_nodes s1 i) with (net_nodes s' i); rewrite Hx; [apply Hl|done].
  - unfold extra. destruct (is_nil names) eqn:En; [constructor|]. apply Forall_cons_2; [apply backed_seen|constructor]. intros name t H.
    apply list_elem_of_fmap in H as (name' & [= -> ->] & Hin). split; [lia|]. exists t0, (net_clock s). split; [|done].
    simpl. apply elem_of_app. right. apply list_elem_of_fmap. by exists name'.
  - rewrite Hx. apply Hch.
Qed.

Lemma inv_write_ok s i name msg rest reply : 1 ≤ i < n → nd_down (net_nodes s i) = msg :: rest →
  _handle_write i repr (fun _ => Ok (local_time i (net_clock s))) msg = Ok (Some reply, false) →
  py_index msg "service_name" = Ok (VStr name) → Inv s →
  Inv (registering name i (with_node i (fun x => set_down rest (set_up (nd_up x ++ [reply]) x)) s)).
Proof.
  intros Hi Hd Hr Hn HI. pose proof HI as [Hl _ Hch _ _ Hself].
  pose proof (ch_down s Hch i) as Hcmd. rewrite Hd in Hcmd. inversion Hcmd as [|? ? [->|[seq ->]] Hrest]; subst; [done|].
  rewrite handle_write_cmd in Hr. injection Hr as <-. change (py_index _ _) with (Ok (VStr (write_name run_id seq i))) in Hn. injection Hn as <-.
  set (s1 := with_node _ _ _). set (s' := registering _ _ _).
  assert (Hx1 : net_nodes s1 i = set_down rest (set_up (nd_up (net_nodes s i) ++ [writer_done_msg i seq (write_name run_id seq i)
    (local_time i (net_clock s))]) (net_nodes s i))) by (simpl; apply fn_lookup_insert).
  assert (Hx : net_nodes s' i = set_table (nd_table (net_nodes s1 i) ++ [write_name run_id seq i]) (net_nodes s1 i)) by (simpl; apply fn_lookup_insert).
  assert (Hne1 : ∀ j, j ≠ i → net_nodes s1 j = net_nodes s j) by (intros j Hj; simpl; by apply fn_lookup_insert_ne).
  assert (Hne : ∀ j, j ≠ i → net_nodes s' j = net_nodes s j).
  { intros j Hj. rewrite <- Hne1 by done. simpl. by rewrite fn_lookup_insert_ne. }
  assert (Hph : nd_phase (net_nodes s i) ≠ Idle) by (eapply not_idle; [by apply Hch|rewrite Hd; auto]).
  assert (He : net_extends s s') by (split; [simpl; set_solver|done]).
  apply (inv_send i [writer_done_msg i seq (write_name run_id seq i) (local_time i (net_clock s))] s s'); try done;
    try (rewrite Hx, Hx1; done).
  - apply logs_registering. apply (logs_at i s); try done; rewrite Hx1; simpl; apply Hl.
  - repeat constructor. exists (net_clock s). split; [|done]. simpl. apply elem_of_app. right. by left.
Qed.

Lemma inv_reply s i msg rest replies phase : 1 ≤ i < n → phase ≠ Idle → nd_down (net_nodes s i) = msg :: rest →
  Forall (backed s i) replies → Inv s →
  Inv (with_node i (fun x => mkNode phase (nd_up x ++ replies) rest (nd_seen x) (nd_poll x) (nd_table x)) s).
Proof.
  intros Hi Hphase Hd Hr HI. pose proof HI as [Hl _ Hch _ _ Hself].
  pose proof (ch_down s Hch i) as Hcmd. rewrite Hd in Hcmd. inversion Hcmd; subst. set (s' := with_node _ _ _).
  assert (Hx : net_nodes s' i = mkNode phase (nd_up (net_nodes s i) ++ replies) rest (nd_seen (net_nodes s i)) (nd_poll (net_nodes s i))
    (nd_table (net_nodes s i))) by (simpl; apply fn_lookup_insert).
  assert (Hne : ∀ j, j ≠ i → net_nodes s' j = net_nodes s j) by (intros j Hj; simpl; by apply fn_lookup_insert_ne).
  assert (Hph : nd_phase (net_nodes s i) ≠ Idle) by (eapply not_idle; [by apply Hch|rewrite Hd; auto]).
  apply (inv_send i replies s s'); try done; try (rewrite Hx; done).
  - apply (logs_at i s); try done; rewrite Hx; simpl; apply Hl.
  - by apply (backed_all_mono s).
Qed.

(** *** The steps of the coordinator's threads *)

Lemma settled_grows c c' : cs_observers c' = cs_observers c → (∀ i, has_start c i → has_start c' i) →
  (complete c → complete c') ∧ (settled c → settled c').
Proof.
  intros Ho Hs. assert (Hc : complete c → complete c') by (intros [H1 H2]; split; [by rewrite Ho|auto]).
  split; [done|]. intros [H1 H2]. split; [auto|]. unfold tasks. rewrite Ho. auto.
Qed.

(** The state of the coordinator changes, its observers do not. *)
Lemma inv_co s s' : net_extends s s' → net_pc s' = net_pc s → net_writes s' = net_writes s → logs s' →
  cs_observers (net_co s') = cs_observers (net_co s) → (∀ i, has_start (net_co s) i → has_start (net_co s') i) →
  (∀ h o, dict_get (chrony_start (net_co s')) h = Some o → o = offset h) →
  (∀ name, NoDup (map fst (seen_of (net_co s') name)) ∧
    ∀ i t, (i, t) ∈ seen_of (net_co s') name → sighted s' name i t ∧ has_start (net_co s') i) →
  (∀ w seq t, assoc_get (writer_done (net_co s')) (w, seq) = Some t → written s' (write_name run_id seq w) w t) →
  channels s' → (nd_poll (net_nodes s' 0) ≠ None → has_start (net_co s') 0) → Inv s → Inv s'.
Proof.
  intros He Hp Hw Hl Ho Hs K3 K4 K5 Hch Hself [I1 [K1 K2 _ _ _] I3 I4 I5 I6]. split; try done.
  - split; try done; unfold tasks; by rewrite Ho.
  - destruct (settled_grows _ _ Ho Hs) as [Hcomp Hset]. unfold pc_ok in *. rewrite Hp. destruct (net_pc s); auto.
    + destruct I4 as (H1 & w & H2 & H3). split; [auto|]. eauto using written_mono.
    + destruct I4 as (c & ws & ? & ? & ? & ? & ? & ?). exists c, ws. eauto 8 using recorded_all_mono.
  - rewrite Hw. by apply (recorded_all_mono s).
Qed.

Lemma has_start_set c i h o : has_start c i → has_start (with_chrony_start (fun d => dict_set d h o) c) i.
Proof.
  unfold has_start. simpl. destruct (decide (h = host_of i)) as [->|Hne]; [by rewrite dict_get_set_eq|]. by rewrite dict_get_set_ne.
Qed.

Lemma start_set_ok (d : dict Z) h : (∀ h' o, dict_get d h' = Some o → o = offset h') →
  ∀ h' o, dict_get (dict_set d h (offset h)) h' = Some o → o = offset h'.
Proof.
  intros Hd h' o. destruct (decide (h = h')) as [->|Hne]; [rewrite dict_get_set_eq; by intros [= <-]|]. rewrite dict_get_set_ne by done. apply Hd.
Qed.

Lemma inv_accept s i msg rest co' : 1 ≤ i < n → nd_up (net_nodes s i) = msg :: rest → i ∉ tasks (net_co s) →
  Z.of_nat (length (cs_observers (net_co s))) < n - 1 → _accept (Some msg) (net_co s) = Ok (Some co') → Inv s →
  Inv (with_co co' (with_node i (set_up rest) s)).
Proof.
  intros Hi Hup Hnew Hlen Hacc HI. pose proof HI as [Hl [K1 K2 K3 K4 K5] Hch Hpc Hws Hself].
  pose proof (ch_up s Hch i Hi) as Hci.
  assert (Hph : nd_phase (net_nodes s i) ≠ Idle) by (eapply not_idle; [done|rewrite Hup; auto]).
  unfold channel_ok, upstream in Hci. rewrite !decide_False in Hci by done. destruct Hci as (rest' & Hup' & Hb).
  rewrite Hup in Hup'. injection Hup' as -> ->. unfold hello in Hacc. rewrite accept_hello in Hacc. injection Hacc as <-.
  set (s' := with_co _ _). assert (He : net_extends s s') by done.
  assert (Hx : net_nodes s' i = set_up (start i :: rest') (net_nodes s i)) by (simpl; apply fn_lookup_insert).
  assert (Hne : ∀ j, j ≠ i → net_nodes s' j = net_nodes s j) by (intros j Hj; simpl; by apply fn_lookup_insert_ne).
  assert (Ht : ∀ j, j ∈ tasks (net_co s') ↔ j = i ∨ j ∈ tasks (net_co s)) by (intros j; apply assoc_set_keys).
  split.
  - apply (logs_at i s); try done; rewrite Hx; simpl; apply Hl.
  - split; simpl; try done; [by apply assoc_set_NoDup|]. intros j h [[-> ->]|Hin]%assoc_set_elem; [done|by apply K2].
  - split.
    + intros j Hj. destruct (decide (j = i)) as [->|Hji].
      * unfold channel_ok, upstream. rewrite Hx. simpl. rewrite decide_False by done. rewrite decide_True by (apply Ht; by left).
        left. exists rest'. split; [done|]. by apply (backed_all_mono s).
      * apply (channel_ok_same s); [done|by apply Hne| |done|by apply Hch]. rewrite Ht. naive_solver.
    + intros j. destruct (decide (j = i)) as [->|Hji]; [rewrite Hx|rewrite Hne by done]; apply Hch.
  - unfold pc_ok in *. simpl. destruct (net_pc s) as [|name|k|k|k t| |out|]; try done.
    + destruct Hpc as [? _]. lia.
    + destruct Hpc as [[? _] _]. lia.
    + destruct Hpc as [[? _] _]. lia.
    + destruct Hpc as [[[? _] _] _]. lia.
    + destruct Hpc as [[? _] _]. lia.
    + destruct Hpc as (c & ws & ? & ? & ? & ? & ? & ?). exists c, ws. eauto 8 using recorded_all_mono.
  - by apply (recorded_all_mono s).
  - rewrite Hne by lia. exact Hself.
Qed.

(** What draining a message leaves. *)
Lemma drain_ok s i msg co' : 1 ≤ i < n → has_start (net_co s) i → backed s i msg → _drain i (host_of i) msg (net_co s) = Ok co' → Inv s →
  cs_observers co' = cs_observers (net_co s) ∧ chrony_start co' = chrony_start (net_co s) ∧
  (∀ name, NoDup (map fst (seen_of co' name)) ∧ ∀ j t, (j, t) ∈ seen_of co' name → sighted s name j t ∧ has_start co' j) ∧
  (∀ w seq t, assoc_get (writer_done co') (w, seq) = Some t → written s (write_name run_id seq w) w t).
Proof.
  intros Hi Hst Hb Hd [_ [K1 K2 K3 K4 K5] _ _ _ _]. destruct Hb as [events Hev|seq t Ht|seq e|o|].
  - rewrite drain_seen in Hd. injection Hd as <-. simpl. split_and!; try done.
    apply (mark_all_seen (fun name j t => sighted s name j t ∧ has_start (net_co s) j)); [|exact K4].
    intros name t H. split; [by apply Hev|done].
  - rewrite drain_done in Hd. injection Hd as <-. simpl. split_and!; try done. intros w seq' t'.
    destruct (decide ((i, seq) = (w, seq'))) as [[= <- <-]|Hne]; [rewrite assoc_get_set_eq; by intros [= <-]|].
    rewrite assoc_get_set_ne by done. apply K5.
  - rewrite drain_error in Hd. injection Hd as <-. done.
  - rewrite drain_end in Hd. injection Hd as <-. done.
  - rewrite drain_bye in Hd. injection Hd as <-. done.
Qed.

Lemma inv_drain s i host msg rest co' : assoc_get (cs_observers (net_co s)) i = Some host → nd_up (net_nodes s i) = msg :: rest →
  _drain i host msg (net_co s) = Ok co' → Inv s → Inv (with_co co' (with_node i (set_up rest) s)).
Proof.
  intros Ho Hup Hd HI. pose proof HI as [Hl [K1 K2 K3 K4 K5] Hch Hpc Hws Hself].
  apply assoc_get_in in Ho as Hin. destruct (K2 i host Hin) as [Hi ->].
  assert (Ht : i ∈ tasks (net_co s)) by (apply list_elem_of_fmap; by exists (i, host_of i)).
  pose proof (ch_up s Hch i Hi) as Hci.
  assert (Hph : nd_phase (net_nodes s i) ≠ Idle) by (eapply not_idle; [done|auto]).
  unfold channel_ok, upstream in Hci. rewrite decide_False, decide_True in Hci by done. rewrite Hup in Hci.
  set (s' := with_co _ _). assert (He : net_extends s s') by done.
  assert (Hx : net_nodes s' i = set_up rest (net_nodes s i)) by (simpl; apply fn_lookup_insert).
  assert (Hne : ∀ j, j ≠ i → net_nodes s' j = net_nodes s j) by (intros j Hj; simpl; by apply fn_lookup_insert_ne).
  assert (Hlogs : logs s') by (apply (logs_at i s); try done; rewrite Hx; simpl; apply Hl).
  assert (Hchan : cs_observers co' = cs_observers (net_co s) → (∀ j, has_start (net_co s) j → has_start co' j) → has_start co' i →
    Forall (backed s i) rest → channels s').
  { intros Hobs Hgrow Hst Hb. split.
    - intros j Hj. destruct (decide (j = i)) as [->|Hji].
      + unfold channel_ok, upstream. rewrite Hx. simpl. rewrite decide_False by done. unfold tasks. simpl. rewrite Hobs.
        rewrite decide_True by done. right. split; [done|]. by apply (backed_all_mono s).
      + apply (channel_ok_same s); [done|by apply Hne| |by apply Hgrow|by apply Hch]. unfold tasks. simpl. by rewrite Hobs.
    - intros j. destruct (decide (j = i)) as [->|Hji]; [rewrite Hx|rewrite Hne by done]; apply Hch. }
  destruct Hci as [(rest' & [= -> ->] & Hb)|[Hst Hb]].
  - unfold start in Hd. rewrite drain_start in Hd. injection Hd as <-.
    assert (Hgrow : ∀ j, has_start (net_co s) j → has_start (net_co s') j) by (intros j; apply has_start_set).
    apply (inv_co s); try done.
    + by apply start_set_ok.
    + intros name. destruct (K4 name) as [Hn Hs]. split; [done|]. intros j t H. destruct (Hs j t H). eauto using sighted_mono.
    + apply Hchan; try done. unfold has_start. simpl. by rewrite dict_get_set_eq.
    + rewrite Hne by lia. intros H. apply Hgrow. auto.
  - inversion Hb as [|? ? Hmsg Hrest]; subst. destruct (drain_ok s i msg co' Hi Hst Hmsg Hd HI) as (Hobs & Hcs & Hseen & Hdone).
    assert (Hgrow : ∀ j, has_start (net_co s) j → has_start co' j) by (intros j; unfold has_start; by rewrite Hcs).
    apply (inv_co s); try done; simpl.
    + by rewrite Hcs.
    + apply Hchan; try done. by apply Hgrow.
    + rewrite fn_lookup_insert_ne by lia. auto.
Qed.

Lemma inv_self_poll_end s t0 seen' co' : nd_poll (net_nodes s 0) = Some t0 →
  _self_poll 0 (local_time 0 t0) (nd_seen (net_nodes s 0)) (dnt_table (nd_table (net_nodes s 0))) (net_co s) = Ok (seen', co') →
  0 < n → Inv s →
  Inv (sighting 0 t0 (found (net_nodes s 0)) (with_co co' (with_node 0 (fun x => set_poll None (set_seen seen' x)) s))).
Proof.
  intros Hpoll Hres Hn HI. pose proof HI as [Hl [K1 K2 K3 K4 K5] Hch Hpc Hws Hself]. rewrite self_poll_finds in Hres. injection Hres as _ <-.
  assert (Hst : has_start (net_co s) 0) by (apply Hself; by rewrite Hpoll).
  set (names := found (net_nodes s 0)). set (co' := with_seen _ _). set (s1 := with_co _ _). set (s' := sighting _ _ _ _).
  assert (Hx : net_nodes s' 0 = set_poll None (set_seen seen' (net_nodes s 0))) by (simpl; apply fn_lookup_insert).
  assert (Hne : ∀ j, j ≠ 0 → net_nodes s' j = net_nodes s j) by (intros j Hj; simpl; by apply fn_lookup_insert_ne).
  assert (He : net_extends s s') by (split; [done|simpl; set_solver]).
  apply (inv_co s); try done.
  - apply logs_sighting; [|by apply (lg_poll s Hl 0)|by apply found_registered].
    apply (logs_at 0 s); try done; change (net_nodes s1 0) with (net_nodes s' 0); rewrite Hx; apply Hl.
  - apply (mark_all_seen (fun name j t => sighted s' name j t ∧ has_start (net_co s) j)).
    + intros name t H. apply list_elem_of_fmap in H as (name' & [= -> ->] & Hin). split; [|done]. split; [lia|].
      exists t0, (net_clock s). split; [|done]. simpl. apply elem_of_app. right. apply list_elem_of_fmap. by exists name'.
    + intros name. destruct (K4 name) as [Hnd Hs]. split; [done|]. intros j t H. destruct (Hs j t H). eauto using sighted_mono.
  - split.
    + intros j Hj. apply (channel_ok_same s); [done|apply Hne; lia|done|done|by apply Hch].
    + intros j. destruct (decide (j = 0)) as [->|Hj]; [rewrite Hx|rewrite Hne by done]; apply Hch.
Qed.

(** *** The steps of the main thread *)

(** The main thread moves on, and may record a write. *)
Lemma inv_main s p ws : pc_ok (with_pc p s) → Forall (recorded s) ws → Inv s →
  Inv (mkNet (net_clock s) (net_nodes s) (net_co s) p (net_writes s ++ ws) (net_registered s) (net_sightings s)).
Proof.
  intros Hp Hw [Hl Hk Hch Hpc Hws Hself]. set (s' := mkNet _ _ _ _ _ _ _). assert (He : net_extends s s') by done.
  split.
  - by apply (logs_same s).
  - by apply (knowledge_mono s).
  - split; [|apply Hch]. intros i Hi. apply (channel_ok_same s); try done. by apply Hch.
  - apply (pc_ok_mono (with_pc p s)); done.
  - apply (recorded_all_mono s); [done|]. by apply Forall_app.
  - exact Hself.
Qed.

Lemma inv_pc_only s p : pc_ok (with_pc p s) → Inv s → Inv (with_pc p s).
Proof.
  intros Hp HI. pose proof (inv_main s p [] Hp (Forall_nil_2 _) HI) as H. rewrite app_nil_r in H. exact H.
Qed.

Lemma inv_recorded s p r : pc_ok (with_pc p s) → recorded s r → Inv s → Inv (with_pc p (with_write r s)).
Proof. intros Hp Hr HI. apply (inv_main s p [r]); [done| |done]. by repeat constructor. Qed.

(** The coordinator registers a name with its own node. *)
Lemma inv_self_register s name : Inv s → Inv (registering name 0 s).
Proof.
  intros HI. pose proof HI as [Hl Hk Hch Hpc Hws Hself]. set (s' := registering _ _ _).
  assert (He : net_extends s s') by (split; [simpl; set_solver|done]).
  assert (Hx : net_nodes s' 0 = set_table (nd_table (net_nodes s 0) ++ [name]) (net_nodes s 0)) by (simpl; apply fn_lookup_insert).
  assert (Hne : ∀ j, j ≠ 0 → net_nodes s' j = net_nodes s j) by (intros j Hj; simpl; by apply fn_lookup_insert_ne).
  apply (inv_same_co s); try done.
  - by apply logs_registering.
  - apply (channels_at 0 s); try done; [intros; lia|]. rewrite Hx. apply Hch.
Qed.

Lemma written_registering s name i : written (registering name i s) name i (local_time i (net_clock s)).
Proof. exists (net_clock s). split; [|done]. simpl. apply elem_of_app. right. by left. Qed.

Lemma inv_ready s : net_pc s = Connecting → Z.of_nat (length (cs_observers (net_co s))) = n - 1 → Inv s →
  Inv (registering warmup 0 (with_pc (Stabilizing warmup)
    (with_co (with_chrony_start (fun d => dict_set d (host_of 0) (offset (host_of 0))) (net_co s)) s))).
Proof.
  intros Hp Hlen HI. apply inv_self_register. pose proof HI as [Hl [K1 K2 K3 K4 K5] Hch Hpc Hws Hself].
  set (co' := with_chrony_start _ _). set (s1 := with_co co' s). assert (He : net_extends s s1) by done.
  assert (Hgrow : ∀ j, has_start (net_co s) j → has_start co' j) by (intros j; apply has_start_set).
  assert (H0 : has_start co' 0) by (unfold has_start; simpl; by rewrite dict_get_set_eq).
  apply inv_pc_only; [by split|]. apply (inv_co s); try done.
  - by apply (logs_same s).
  - by apply start_set_ok.
  - intros name. destruct (K4 name) as [Hn Hs]. split; [done|]. intros j t H. destruct (Hs j t H). eauto using sighted_mono.
  - split; [|apply Hch]. intros i Hi. apply (channel_ok_same s); try done; [by apply Hgrow|by apply Hch].
Qed.

(** Once everybody has seen the warm-up name, every offset is known. *)
Lemma stable_settled s name : net_pc s = Stabilizing name →
  all_seen (tasks (net_co s)) (seen_of (net_co s) name) = true → Inv s → settled (net_co s).
Proof.
  intros Hp Hall HI. pose proof HI as [_ [K1 K2 K3 K4 K5] _ Hpc _ _]. unfold pc_ok in Hpc. rewrite Hp in Hpc. split; [done|].
  intros i Hi. unfold all_seen in Hall. rewrite forallb_forall in Hall. specialize (Hall i). rewrite bool_decide_eq_true in Hall.
  apply list_elem_of_In in Hi. apply Hall in Hi. apply list_elem_of_fmap in Hi as ([i' t] & -> & Hin).
  by destruct (proj2 (K4 name) i' t Hin).
Qed.

Lemma writer_range k w : writers !! k = Some w → 0 ≤ w < n.
Proof. intros H. rewrite Forall_lookup in writers_in_range. by apply (writers_in_range k). Qed.

Lemma inv_send_write s k w host : net_pc s = Writing k → writers !! k = Some w → w ≠ 0 →
  assoc_get (cs_observers (net_co s)) w = Some host → Inv s →
  Inv (with_pc (AwaitAck k) (with_node w (fun x => set_down (nd_down x ++ [write_cmd (Z.of_nat k) (my_name k w)]) x) s)).
Proof.
  intros Hp Hw Hw0 Hh HI. pose proof HI as [Hl [K1 K2 K3 K4 K5] Hch Hpc Hws Hself]. unfold pc_ok in Hpc. rewrite Hp in Hpc.
  apply assoc_get_in in Hh. destruct (K2 w host Hh) as [Hwr ->].
  assert (Ht : w ∈ tasks (net_co s)) by (apply list_elem_of_fmap; by exists (w, host_of w)).
  set (s1 := with_node _ _ s).
  assert (Hx : net_nodes s1 w = set_down (nd_down (net_nodes s w) ++ [write_cmd (Z.of_nat k) (my_name k w)]) (net_nodes s w)) by (simpl; apply fn_lookup_insert).
  assert (Hne : ∀ j, j ≠ w → net_nodes s1 j = net_nodes s j) by (intros j Hj; simpl; by apply fn_lookup_insert_ne).
  assert (Hph : nd_phase (net_nodes s w) ≠ Idle) by (eapply not_idle; [by apply Hch|auto]).
  apply inv_pc_only; [done|]. apply (inv_send w [] s); try done; try (rewrite Hx; done).
  - apply (logs_at w s); try done; rewrite Hx; simpl; apply Hl.
  - rewrite Hx. simpl. by rewrite app_nil_r.
  - rewrite Hx. simpl. apply Forall_app. split; [apply Hch|]. apply Forall_singleton. right. by exists (Z.of_nat k).
Qed.

Lemma inv_record s k w t missing : net_pc s = AwaitSeen k t → writers !! k = Some w →
  missing ≡ₚ missing_tasks (expected_tasks n w) (seen_of (net_co s) (my_name k w)) → Inv s →
  Inv (with_pc (Writing (S k)) (with_write (write_record (Z.of_nat k) w (my_name k w) t (seen_of (net_co s) (my_name k w)) missing) s)).
Proof.
  intros Hp Hw Hm HI. pose proof HI as [Hl [K1 K2 K3 K4 K5] Hch Hpc Hws Hself]. unfold pc_ok in Hpc. rewrite Hp in Hpc.
  destruct Hpc as (Hset & w' & Hw' & Ht). rewrite Hw in Hw'. injection Hw' as <-. destruct (K4 (my_name k w)) as [Hn Hs].
  apply inv_recorded; [done| |done]. apply recorded_write; try done; [by eapply writer_range|]. intros i ns H. by destruct (Hs i ns H).
Qed.

Lemma inv_end s : net_pc s = Writing (length writers) → Inv s →
  Inv (mkNet (net_clock s)
    (fun i => if bool_decide (i ∈ tasks (net_co s)) then set_down (nd_down (net_nodes s i) ++ [stop_command]) (net_nodes s i) else net_nodes s i)
    (with_chrony_end (fun d => dict_set d (host_of 0) (offset (host_of 0))) (net_co s)) Stopping (net_writes s)
    (net_registered s) (net_sightings s)).
Proof.
  intros Hp HI. pose proof HI as [Hl Hk Hch Hpc Hws Hself]. unfold pc_ok in Hpc. rewrite Hp in Hpc.
  set (s' := mkNet _ _ _ _ _ _ _). assert (He : net_extends s s') by done.
  assert (Hx : ∀ i, nd_phase (net_nodes s' i) = nd_phase (net_nodes s i) ∧ nd_up (net_nodes s' i) = nd_up (net_nodes s i) ∧
    nd_poll (net_nodes s' i) = nd_poll (net_nodes s i) ∧ nd_table (net_nodes s' i) = nd_table (net_nodes s i)).
  { intros i. simpl. by destruct (bool_decide _). }
  split.
  - destruct Hl as [L1 L2 L3 L4]. split; try done.
    + intros i. destruct (Hx i) as (_ & _ & _ & ->). apply L2.
    + intros i. destruct (Hx i) as (_ & _ & -> & _). apply L3.
  - destruct Hk as [K1 K2 K3 K4 K5]. by split.
  - split.
    + intros i Hi. pose proof (ch_up s Hch i Hi) as Hci. destruct (Hx i) as (X1 & X2 & X3 & _). unfold channel_ok in *.
      rewrite X1. destruct (decide _) as [Hid|Hid].
      * destruct Hci as (H1 & H2 & H3 & H4). rewrite X2, X3. split_and!; try done. simpl. by rewrite bool_decide_eq_false_2.
      * unfold upstream in *. rewrite X2. change (net_co s') with (with_chrony_end (fun d => dict_set d (host_of 0) (offset (host_of 0))) (net_co s)).
        unfold tasks, has_start in *. simpl. destruct (decide _).
        -- destruct Hci as [(rest & ? & ?)|[? ?]]; [left; exists rest|right]; eauto using backed_all_mono.
        -- destruct Hci as (rest & ? & ?). exists rest. eauto using backed_all_mono.
    + intros i. simpl. case_bool_decide; [|apply Hch]. simpl. apply Forall_app. split; [apply Hch|]. repeat constructor.
  - done.
  - by apply (recorded_all_mono s).
  - destruct (Hx 0) as (_ & _ & -> & _). exact Hself.
Qed.

Lemma inv_init t : Inv (init t).
Proof.
  assert (Hnil : ∀ A (x : A), x ∈ [] → False) by (intros A x H; by apply elem_of_nil in H).
  split; [split|split|split| | |]; simpl; try done; try (by intros; exfalso; eapply Hnil); try (by constructor).
  - intros name. split; [constructor|]. intros i u H. by apply Hnil in H.
  - intros i Hi. unfold channel_ok. rewrite decide_True by done. split_and!; try done. by intros H%Hnil.
Qed.

Context (n_pos : 0 < n).

Lemma inv_step s s' : Inv s → cell_step s s' → Inv s'.
Proof.
  intros HI Hs. pose proof HI as [Hl Hk Hch Hpc Hws Hself]. destruct Hs.
  - by apply inv_tick.
  - apply inv_local; try done.
    + simpl. intros name' [H1|H1%list_elem_of_singleton]%elem_of_app; [by eapply lg_table|by subst].
    + simpl. intros t0 H1. split; [by eapply lg_poll|]. destruct (decide (i = 0)) as [->|]; [right; split; [done|]; apply Hself; by rewrite H1|].
      left. split; [done|]. eapply not_idle; [apply Hch; lia|]. rewrite H1. auto.
  - by apply inv_connect.
  - apply inv_local; try done; [apply Hl|]. simpl. intros t0 [= <-]. split; [done|]. left. split; [lia|congruence].
  - apply inv_local; try done. apply Hl.
  - by apply inv_poll_end.
  - by eapply inv_write_ok.
  - pose proof (ch_down s Hch i) as Hcmd. rewrite H0 in Hcmd. apply Forall_cons in Hcmd as [[->|[seq ->]] Hrest]; [done|].
    rewrite handle_write_cmd in H1. injection H1 as <-. eapply (inv_reply s i _ rest [_] (nd_phase (net_nodes s i))); try done.
    + eapply not_idle; [by apply Hch|]. rewrite H0. auto.
    + repeat constructor.
  - eapply (inv_reply s i _ rest [_; _] Stopped); try done. repeat constructor.
  - by eapply inv_accept.
  - by eapply inv_drain.
  - apply inv_local; try done; [apply Hl|]. simpl. intros t0 [= <-]. split; [done|]. right. split; [done|].
    unfold pc_ok in Hpc. unfold settled, complete in Hpc. destruct (net_pc s); try done; tauto.
  - by apply inv_self_poll_end.
  - by apply inv_ready.
  - apply inv_pc_only; [|done]. exact (stable_settled s name H H0 HI).
  - by apply inv_pc_only.
  - change (Inv (with_pc (AwaitSeen k (local_time 0 (net_clock s))) (registering (my_name k 0) 0 s))).
    apply inv_pc_only; [|by apply inv_self_register]. unfold pc_ok in *. rewrite H in Hpc. simpl. split; [done|].
    exists 0. split; [done|]. apply written_registering.
  - apply inv_recorded; [|constructor; lia|done]. simpl. unfold pc_ok in Hpc. by rewrite H in Hpc.
  - by eapply inv_send_write.
  - apply inv_pc_only; [|done]. unfold pc_ok in *. rewrite H in Hpc. simpl. split; [done|]. exists w. split; [done|]. by apply (kn_done s Hk).
  - apply inv_recorded; [|constructor; by eapply writer_range|done]. unfold pc_ok in *. by rewrite H in Hpc.
  - by apply inv_record.
  - by apply inv_end.
  - apply inv_pc_only; [|done]. unfold pc_ok in *. rewrite H in Hpc. simpl. destruct Hk. exists (net_co s), (net_writes s). split_and!; try done. by apply (recorded_all_mono s).
Qed.

Lemma inv_reachable t s : reachable t s → Inv s.
Proof.
  intros H. unfold reachable in H. remember (init t) as s0 eqn:E. assert (H0 : Inv s0) by (subst; apply inv_init). clear E.
  induction H as [|a b c Hab _ IH]; [done|]. apply IH. by eapply inv_step.
Qed.

(** ** The results aggregate *)

Context (n_small : n ≤ int_limit).

Lemma dict_get_map {A B} (f : A → B) (d : dict A) k : dict_get (map (fun '(k, v) => (k, f v)) d) k = f <$> dict_get d k.
Proof. induction d as [|[k' v] r IH]; [done|]. simpl. by destruct (bool_decide _). Qed.

Lemma host_for_entries (l : list (Z * string)) role i :
  (∀ t h, (t, h) ∈ l → h = host_of t) → i ∈ map fst l →
  _host_for_task (map (fun '(t, h) => node_entry t h role) l) i = Ok (VStr (host_of i)).
Proof.
  induction l as [|[t h] l IH]; intros Hh Hi; [by apply elem_of_nil in Hi|]. cbn [map _host_for_task].
  change (py_index (node_entry t h role) "task_id") with (Ok (VInt t)).
  change (py_index (node_entry t h role) "host") with (Ok (VStr h)). simpl. destruct (t =? i) eqn:E.
  - apply Z.eqb_eq in E. subst. rewrite (Hh i h) by left. done.
  - apply Z.eqb_neq in E. apply IH; [intros; apply Hh; by right|]. apply elem_of_cons in Hi as [Hi|Hi]; [by destruct E|done].
Qed.

(** What is known of the state the results were written from. *)
Record final (c : CoState) : Prop := {
  fin_settled : settled c;
  fin_tasks : NoDup (tasks c);
  fin_hosts : ∀ i h, (i, h) ∈ cs_observers c → 1 ≤ i < n ∧ h = host_of i;
  fin_start : ∀ h o, dict_get (chrony_start c) h = Some o → o = offset h;
}.

Lemma all_tasks c i : final c → 1 ≤ i < n → i ∈ tasks c.
Proof.
  intros [[[Hlen _] _] Hn Hh _] Hi.
  assert (Hsub : tasks c ⊆+ zrange 1 (n - 1)).
  { apply NoDup_submseteq; [done|]. intros j Hj. apply list_elem_of_fmap in Hj as ([j' h] & -> & Hin).
    apply elem_of_zrange. destruct (Hh j' h Hin). simpl. lia. }
  assert (Hp : tasks c ≡ₚ zrange 1 (n - 1)).
  { apply submseteq_length_Permutation; [done|]. unfold tasks, zrange. rewrite !length_map, length_seq. lia. }
  rewrite Hp. apply elem_of_zrange. lia.
Qed.

Lemma host_for_task c i : final c → 0 ≤ i < n → _host_for_task (nodes_of (host_of 0) c) i = Ok (VStr (host_of i)).
Proof.
  intros Hf Hi. unfold nodes_of. cbn [_host_for_task].
  change (py_index (node_entry 0 (host_of 0) "coordinator") "task_id") with (Ok (VInt 0)).
  change (py_index (node_entry 0 (host_of 0) "coordinator") "host") with (Ok (VStr (host_of 0))). simpl.
  destruct i as [|p|p]; [done| |lia]. set (l := sort_by _ _).
  assert (Hl : l ≡ₚ cs_observers c) by apply sort_by_perm.
  apply host_for_entries.
  - intros t h. rewrite Hl. intros H. by destruct (fin_hosts c Hf t h H).
  - rewrite Hl. apply (all_tasks c _ Hf). lia.
Qed.

Lemma offset_known c i : final c → 0 ≤ i < n → offset_for (int_dict (chrony_start c)) (VStr (host_of i)) = Ok (offset (host_of i)).
Proof.
  intros Hf Hi. assert (Hs : has_start c i).
  { destruct (fin_settled c Hf) as [[_ H0] Hall]. destruct (decide (i = 0)) as [->|]; [done|]. apply Hall, (all_tasks c i Hf). lia. }
  destruct Hs as [o Ho]. unfold offset_for, int_dict, py_int_index, py_index, dict_index. simpl. rewrite dict_get_map, Ho. simpl.
  by rewrite (fin_start c Hf _ _ Ho).
Qed.

(** The entries of a record: what each task saw. *)
Definition entries (seen : list (Z * Z)) (missing : list Z) : list (Z * pyval) :=
  map (fun '(t, ns) => (t, VInt ns)) seen ++ map (fun t => (t, VStr "TIMEOUT")) missing.

Lemma seen_out_entries seen missing : NoDup (map fst seen ++ missing) →
  seen_out seen missing = map (fun '(t, v) => (str_of_int t, v)) (entries seen missing).
Proof.
  intros Hn. unfold seen_out, entries. rewrite map_app, !map_map. apply NoDup_app in Hn as (Hs & Hd & Hm).
  assert (Hinj : ∀ l : list Z, NoDup l → NoDup (map str_of_int l)) by (intros l; apply NoDup_fmap_2; intros x y; apply (inj pretty)).
  assert (E1 : fold_left (fun d '(t, ns) => dict_set d (str_of_int t) (VInt ns)) seen [] = map (fun '(t, ns) => (str_of_int t, VInt ns)) seen).
  { etrans; [|etrans; [apply (fold_dict_set (fun x => str_of_int (fst x)) (fun x => VInt (snd x)) seen [])|]].
    - generalize (@nil (string * pyval)). clear. induction seen as [|[t ns] seen IH]; intros d; [done|]. apply IH.
    - rewrite <- map_map. by apply Hinj.
    - intros x _ H. by apply elem_of_nil in H.
    - simpl. apply map_ext. by intros [t ns]. }
  rewrite E1. rewrite (fold_dict_set str_of_int (fun _ => VStr "TIMEOUT")).
  - f_equal. apply map_ext. by intros [t ns].
  - by apply Hinj.
  - intros t Ht H. unfold dict_keys in H. rewrite map_map in H. apply list_elem_of_fmap in H as ([t' ns] & Heq & Hin).
    simpl in Heq. apply (inj pretty) in Heq. subst t'. apply (Hd t); [|done]. apply list_elem_of_fmap. by exists (t, ns).
Qed.

(** What a row says is true of the run: the latency is the time from a
    registration of the name by the writer to the start of a poll by the observer
    that found it. *)
Definition row_true (s : Net) (r : Row) : Prop :=
  (0 ≤ rw_writer r < n ∧ 0 ≤ rw_observer r < n ∧ rw_observer r ≠ rw_writer r) ∧
  ∀ l, rw_latency r = Some l → let name := write_name run_id (rw_seq r) (rw_writer r) in
    ∃ t0 rd tr, (name, rw_observer r, t0, rd) ∈ net_sightings s ∧ (name, rw_writer r, tr) ∈ net_registered s ∧ l = t0 - tr ∧ t0 ≤ rd.

(** The rows of a record: none if the write was not acknowledged, else one per
    task other than the writer. *)
Definition covers_write (r : pyval) (rs : list Row) : Prop :=
  match py_index r "t_write_ns" with
  | Ok VNone => rs = []
  | _ => ∃ w, py_int_index r "writer_task_id" = Ok w ∧ map rw_observer rs ≡ₚ expected_tasks n w
  end.

Section Rows.
Context (s : Net) (Hlogs : logs s) (c : CoState) (Hfin : final c) (writes : list pyval).
Abbreviation raw := (results_json run_id n rep job_id started_at finished_at (host_of 0) stab writes c).
Abbreviation offsets := (int_dict (chrony_start c)).
Abbreviation nodes := (nodes_of (host_of 0) c).

(** A number of a task survives being a key. *)
Lemma task_key i : 0 ≤ i < n → int_of_str (str_of_int i) = Ok i.
Proof. intros Hi. apply int_of_str_of_int. rewrite Z.abs_eq by lia. lia. Qed.

Lemma row_of_entry k w t seen missing flags i v (name := write_name run_id k w) : 0 ≤ w < n → 0 ≤ i < n → written s name w t →
  (v = VStr "TIMEOUT" ∨ ∃ ns, v = VInt ns ∧ sighted s name i ns) →
  ∃ rs, row_of raw offsets (write_record k w name t seen missing) flags nodes w (VStr (host_of w)) (str_of_int i) v = Ok rs ∧
    map rw_observer rs = filter (fun j => j ≠ w) [i] ∧ Forall (row_true s) rs.
Proof.
  intros Hw Hi (tr & Hreg & ->) Hv. unfold row_of. rewrite task_key by done. cbn [mbind res_bind].
  destruct (i =? w) eqn:E.
  { apply Z.eqb_eq in E. subst i. exists []. split; [done|]. split; [|constructor]. simpl. rewrite filter_cons_False by naive_solver. done. }
  apply Z.eqb_neq in E. rewrite host_for_task by done. cbn [mbind res_bind]. rewrite !offset_known by done. cbn [mbind res_bind].
  change (py_int_index (write_record k w name (local_time w tr) seen missing) "t_write_ns") with (Ok (local_time w tr)).
  change (py_int_index (write_record k w name (local_time w tr) seen missing) "seq") with (Ok k).
  change (py_index raw "run_id") with (Ok (VStr run_id)). change (py_int_index raw "N") with (Ok n). change (py_int_index raw "rep") with (Ok rep).
  destruct Hv as [->|(ns & -> & _ & t0 & rd & Hs & ->)]; eexists; (split; [reflexivity|]); (split; [simpl; by rewrite filter_cons_True|]);
    apply Forall_singleton; split; try done.
  simpl. intros l [= <-]. exists t0, rd, tr. split; [done|]. split; [done|].
  destruct (lg_sight s Hlogs _ _ _ _ Hs) as [? _]. unfold local_time. split; [lia|lia].
Qed.

Lemma mapR_rows {A} (f : A → res (list Row)) (task : A → Z) w (l : list A) :
  (∀ x, x ∈ l → ∃ rs, f x = Ok rs ∧ map rw_observer rs = filter (fun j => j ≠ w) [task x] ∧ Forall (row_true s) rs) →
  ∃ rss, mapR f l = Ok rss ∧ map rw_observer (concat rss) = filter (fun j => j ≠ w) (map task l) ∧ Forall (row_true s) (concat rss).
Proof.
  induction l as [|x l IH]; intros H; [by exists []|].
  destruct (H x) as (rs & E & Ho & Ht); [left|]. destruct IH as (rss & E' & Ho' & Ht'); [intros; apply H; by right|].
  exists (rs :: rss). simpl. rewrite E. simpl. rewrite E'. simpl. split; [done|]. rewrite map_app, Ho, Ho'. split; [|by apply Forall_app].
  rewrite <- (filter_app _ [task x]). done.
Qed.

(** The rows of a write: one for every other task. *)
Lemma rows_of_record flags r : recorded s r → ∃ rs, rows_of_write raw offsets flags nodes r = Ok rs ∧ Forall (row_true s) rs ∧
  covers_write r rs.
Proof.
  intros [k w name e Hw|k w t seen missing Hw Ht Hn Hs Hm]; [|set (name := write_name run_id k w) in *].
  - unfold rows_of_write. change (py_int_index (failed_record k w name e) "writer_task_id") with (Ok w). cbn [mbind res_bind].
    rewrite host_for_task by done. exists []. done.
  - unfold rows_of_write. change (py_int_index (write_record k w name t seen missing) "writer_task_id") with (Ok w). cbn [mbind res_bind].
    rewrite host_for_task by done. cbn [mbind res_bind].
    change (py_index (write_record k w name t seen missing) "seen") with (Ok (VDict (seen_out seen missing))). cbn [mbind res_bind].
    assert (Hexp : NoDup (expected_tasks n w)) by (apply NoDup_filter, NoDup_zrange).
    assert (Hnd : NoDup (map fst seen ++ missing)).
    { apply NoDup_app. split; [done|]. split; [|rewrite Hm; by apply NoDup_filter].
      intros i Hi Hmi. rewrite Hm in Hmi. apply list_elem_of_filter in Hmi as [Hmi _]. done. }
    rewrite seen_out_entries by done.
    destruct (mapR_rows (fun '(k', t') => row_of raw offsets (write_record k w name t seen missing) flags nodes w (VStr (host_of w)) (str_of_int k') t')
      fst w (entries seen missing)) as (rss & E & Ho & Htrue).
    { intros [i v] Hin. apply row_of_entry; try done; unfold entries in Hin; apply elem_of_app in Hin as [Hin|Hin];
        apply list_elem_of_fmap in Hin as (x & Hx & Hin).
      - destruct x as [i' ns]. injection Hx as -> ->. by destruct (Hs i' ns Hin).
      - injection Hx as -> ->. rewrite Hm in Hin. apply list_elem_of_filter in Hin as [_ Hin].
        apply list_elem_of_filter in Hin as [_ Hin]. apply elem_of_zrange in Hin. simpl. lia.
      - right. destruct x as [i' ns]. injection Hx as -> ->. eauto.
      - left. by injection Hx as -> ->. }
    rewrite mapR_map, (mapR_ext _ (fun '(k', t') => row_of raw offsets (write_record k w name t seen missing) flags nodes w
      (VStr (host_of w)) (str_of_int k') t')) by (by intros []).
    rewrite E. exists (concat rss). split; [done|]. split; [done|].
    change (py_index (write_record k w name t seen missing) "t_write_ns") with (Ok (VInt t)). exists w. split; [done|].
    rewrite Ho. unfold entries. rewrite map_app, !map_map. simpl. rewrite map_id.
    rewrite (map_ext _ fst) by (by intros []). apply NoDup_Permutation; [by apply NoDup_filter|done|].
    intros i. rewrite list_elem_of_filter, elem_of_app, Hm. unfold missing_tasks, expected_tasks. rewrite list_elem_of_filter.
    rewrite list_elem_of_filter, elem_of_zrange.
    destruct (decide (i ∈ map fst seen)) as [Hi|Hi]; [|tauto].
    assert (0 ≤ i < n) by (apply list_elem_of_fmap in Hi as ([i' ns] & -> & Hi); by destruct (Hs i' ns Hi)). tauto.
Qed.

Lemma rows_of_records flags ws : Forall (recorded s) ws → ∃ rss, mapR (rows_of_write raw offsets flags nodes) ws = Ok rss ∧
  Forall (row_true s) (concat rss) ∧ Forall2 covers_write ws rss.
Proof.
  induction 1 as [|r ws Hr _ (rss & E & Ht & Hc)]; [by exists []|].
  destruct (rows_of_record flags r Hr) as (rs & Er & Htr & Hcr). exists (rs :: rss). simpl. rewrite Er. simpl. rewrite E. simpl.
  split; [done|]. split; [by apply Forall_app|by constructor].
Qed.
End Rows.

(** ** One record for each write of the schedule, in order *)

Definition record_of (w : Z) (r : pyval) : Prop := py_int_index r "writer_task_id" = Ok w.

Definition progress (s : Net) : Prop :=
  match net_pc s with
  | Connecting | Stabilizing _ => net_writes s = []
  | Aborted => True
  | Writing k | AwaitAck k | AwaitSeen k _ => Forall2 record_of (take k writers) (net_writes s)
  | Stopping => Forall2 record_of writers (net_writes s)
  | Finished out => ∃ ws, py_index out "writes" = Ok (VList ws) ∧ Forall2 record_of writers ws
  end.

Lemma progress_record k w r s : writers !! k = Some w → record_of w r →
  Forall2 record_of (take k writers) (net_writes s) → progress (with_pc (Writing (S k)) (with_write r s)).
Proof. intros Hw Hr H. unfold progress. simpl. rewrite (take_S_r _ _ _ Hw). apply Forall2_app; [done|]. by repeat constructor. Qed.

Lemma progress_step s s' : cell_step s s' → progress s → progress s'.
Proof.
  intros Hs Hp. inversion Hs; subst; try exact Hp; unfold progress in Hp;
    try (match goal with H : net_pc _ = _ |- _ => rewrite H in Hp end; first [eapply progress_record; done|exact Hp]).
  - match goal with H : net_pc _ = _ |- _ => rewrite H in Hp end. unfold progress. simpl. rewrite Hp. constructor.
  - done.
  - rewrite H, firstn_all in Hp. exact Hp.
  - rewrite H in Hp. exists (net_writes s). done.
Qed.

Lemma progress_reachable t s : reachable t s → progress s.
Proof.
  intros H. unfold reachable in H. remember (init t) as s0 eqn:E. assert (H0 : progress s0) by (by subst). clear E.
  induction H as [|a b c Hab _ IH]; [done|]. apply IH. by eapply progress_step.
Qed.

End Cell.

(** ** Schedules

    A list of actions, run on a state; what it reaches is reachable. *)

Inductive CellAct :=
  | Tick (t : Z) | Gossip (i : Z) (name : string) | Connect (i : Z) | PollBegin (i : Z) | PollEnd (i : Z) | Register (i : Z)
  | Accept (i : Z) | Drain (i : Z) | Ready | Stable | SelfWrite | Send | Ack | RecordWrite | EndWrites | Finish.

Section Schedule.
Context (n rep : Z) (run_id hex job_id started_at finished_at : string) (stab : pyval) (host_of : Z → string) (offset : string → Z)
  (writers : list Z) (dnt_table : list string → pyval) (repr : exn → string).
Abbreviation stepping := (cell_step n rep run_id hex job_id started_at finished_at stab host_of offset writers dnt_table repr).

Definition act (a : CellAct) (s : Net) : option Net :=
  match a with
  | Tick t => guard (net_clock s ≤ t);; Some (with_clock t s)
  | Gossip i name =>
      guard (0 ≤ i < n);; guard (name ∈ map (fun r => fst (fst r)) (net_registered s));;
      Some (with_node i (fun x => set_table (nd_table x ++ [name]) x) s)
  | Connect i =>
      guard (1 ≤ i < n);; guard (nd_phase (net_nodes s i) = Idle);;
      Some (with_node i (fun x => set_phase Connected (set_up
        [hello_msg i (host_of i); chrony_msg "chrony_start" i (offset (host_of i))] x)) s)
  | PollBegin i =>
      guard (1 ≤ i < n);; guard (nd_phase (net_nodes s i) = Connected);; Some (with_node i (set_poll (Some (net_clock s))) s)
  | PollEnd i =>
      guard (1 ≤ i < n);;
      t0 ← nd_poll (net_nodes s i);
      match _poll_dnt i (local_time host_of offset i t0) (nd_seen (net_nodes s i)) (dnt_table (nd_table (net_nodes s i))) with
      | Ok (seen', msg) => Some (sighting i t0 (found (net_nodes s i))
          (with_node i (fun x => set_poll None (set_seen seen' (set_up (nd_up x ++ option_list msg) x))) s))
      | Raise _ => None
      end
  | Register i =>
      guard (1 ≤ i < n);;
      match nd_down (net_nodes s i) with
      | msg :: rest =>
          match _handle_write i repr (fun _ => Ok (local_time host_of offset i (net_clock s))) msg, py_index msg "service_name" with
          | Ok (Some reply, false), Ok (VStr name) =>
              Some (registering name i (with_node i (fun x => set_down rest (set_up (nd_up x ++ [reply]) x)) s))
          | _, _ => None
          end
      | [] => None
      end
  | Accept i =>
      guard (1 ≤ i < n);; guard (i ∉ map fst (cs_observers (net_co s)));; guard (Z.of_nat (length (cs_observers (net_co s))) < n - 1);;
      match nd_up (net_nodes s i) with
      | msg :: rest => match _accept (Some msg) (net_co s) with
                       | Ok (Some co') => Some (with_co co' (with_node i (set_up rest) s))
                       | _ => None
                       end
      | [] => None
      end
  | Drain i =>
      host ← assoc_get (cs_observers (net_co s)) i;
      match nd_up (net_nodes s i) with
      | msg :: rest => match _drain i host msg (net_co s) with
                       | Ok co' => Some (with_co co' (with_node i (set_up rest) s))
                       | Raise _ => None
                       end
      | [] => None
      end
  | Ready =>
      match net_pc s with
      | Connecting =>
          guard (Z.of_nat (length (cs_observers (net_co s))) = n - 1);;
          Some (registering (warmup run_id hex) 0 (with_pc (Stabilizing (warmup run_id hex))
            (with_co (with_chrony_start (fun d => dict_set d (host_of 0) (offset (host_of 0))) (net_co s)) s)))
      | _ => None
      end
  | Stable =>
      match net_pc s with
      | Stabilizing name =>
          guard (all_seen (map fst (cs_observers (net_co s))) (seen_of (net_co s) name) = true);; Some (with_pc (Writing 0) s)
      | _ => None
      end
  | SelfWrite =>
      match net_pc s with
      | Writing k =>
          guard (writers !! k = Some 0);;
          Some (registering (my_name run_id k 0) 0 (with_pc (AwaitSeen k (local_time host_of offset 0 (net_clock s))) s))
      | _ => None
      end
  | Send =>
      match net_pc s with
      | Writing k =>
          w ← writers !! k; guard (w ≠ 0);; _ ← assoc_get (cs_observers (net_co s)) w;
          Some (with_pc (AwaitAck k) (with_node w (fun x => set_down (nd_down x ++ [write_cmd (Z.of_nat k) (my_name run_id k w)]) x) s))
      | _ => None
      end
  | Ack =>
      match net_pc s with
      | AwaitAck k =>
          w ← writers !! k; t ← assoc_get (writer_done (net_co s)) (w, Z.of_nat k); Some (with_pc (AwaitSeen k t) s)
      | _ => None
      end
  | RecordWrite =>
      match net_pc s with
      | AwaitSeen k t =>
          w ← writers !! k;
          Some (with_pc (Writing (S k)) (with_write (write_record (Z.of_nat k) w (my_name run_id k w) t (seen_of (net_co s) (my_name run_id k w))
            (missing_tasks (expected_tasks n w) (seen_of (net_co s) (my_name run_id k w)))) s))
      | _ => None
      end
  | EndWrites =>
      match net_pc s with
      | Writing k =>
          guard (k = length writers);;
          Some (mkNet (net_clock s)
            (fun i => if bool_decide (i ∈ map fst (cs_observers (net_co s))) then set_down (nd_down (net_nodes s i) ++ [stop_command]) (net_nodes s i)
                      else net_nodes s i)
            (with_chrony_end (fun d => dict_set d (host_of 0) (offset (host_of 0))) (net_co s)) Stopping (net_writes s)
            (net_registered s) (net_sightings s))
      | _ => None
      end
  | Finish =>
      match net_pc s with
      | Stopping => Some (with_pc (Finished (results_json run_id n rep job_id started_at finished_at (host_of 0) stab (net_writes s) (net_co s))) s)
      | _ => None
      end
  end.

Fixpoint run_acts (acts : list CellAct) (s : Net) : option Net :=
  match acts with [] => Some s | a :: acts => s' ← act a s; run_acts acts s' end.

Lemma act_step a s s' : act a s = Some s' → stepping s s'.
Proof.
  destruct a; unfold act; intros H; repeat first [progress simplify_option_eq|case_match]; simplify_eq; try done.
  - by apply step_tick.
  - by apply step_gossip.
  - by apply step_connect.
  - by apply step_poll_begin.
  - by apply step_poll_end.
  - by eapply step_write_ok.
  - eapply step_accept; try done. unfold _accept. match goal with H : negb _ = false |- _ => rewrite H end. done.
  - by eapply step_drain.
  - by apply step_ready.
  - by eapply step_stable.
  - by apply step_self_write.
  - by eapply step_send.
  - by eapply step_ack.
  - by apply step_record.
  - by apply step_end.
  - by apply step_finish.
Qed.

Lemma run_reachable acts s s' : run_acts acts s = Some s' → rtc stepping s s'.
Proof.
  revert s. induction acts as [|a acts IH]; simpl; intros s H; [simplify_eq; apply rtc_refl|].
  destruct (act a s) as [s1|] eqn:E; [|done]. eapply rtc_l; [by apply (act_step a)|by apply IH].
Qed.
End Schedule.

(** ** A run of two tasks *)

Definition toy_table (names : list string) : pyval :=
  VDict [("QmPeer", VDict [("service", VList (map (fun name => VDict [("name", VStr name)]) names))])].
Definition toy_host (i : Z) : string := "node-" +:+ str_of_int i.
Definition toy_offset (host : string) : Z := if bool_decide (host = "node-1") then 7 else 3.
Definition toy_run : list CellAct → Net → option Net :=
  run_acts 2 0 "r" "f" "42" "start" "end" VNone toy_host toy_offset [0; 1] toy_table (fun _ => "error").
Definition toy_reachable : Net → Prop :=
  reachable 2 0 "r" "f" "42" "start" "end" VNone toy_host toy_offset [0; 1] toy_table (fun _ => "error") 0.

Lemma toy_table_lists names : service_names (toy_table names) = Ok names.
Proof.
  assert (H : mapR service_name (map (fun name => VDict [("name", VStr name)]) names) = Ok names).
  { rewrite mapR_map. etrans; [|apply (f_equal Ok (map_id names))]. by apply mapR_ok. }
  destruct names as [|x names]; [done|]. unfold service_names, toy_table, services_of. simpl in *. rewrite H. simpl. by rewrite app_nil_r.
Qed.

(** The observer joins and sees the warm-up name; it starts a poll at 10, the
    coordinator registers its name at 20 and the poll is answered at 25; then the
    observer writes, and the coordinator does not see the name in time. *)
Definition toy_schedule : list CellAct :=
  [Connect 1; Accept 1; Drain 1; Ready; Gossip 1 "convbench-warmup-r-f"; PollBegin 1; PollEnd 1; Drain 1; Stable;
   Tick 10; PollBegin 1; Tick 20; SelfWrite; Gossip 1 "convbench-w-r-s0-0"; Tick 25; PollEnd 1; Drain 1; RecordWrite;
   Send; Register 1; Drain 1; Ack; RecordWrite; EndWrites; Finish].

Definition toy_rows (s : Net) : option (list (Z * Z * string * option Z)) :=
  match net_pc s with
  | Finished out => match aggregate_cell out with
                    | Ok rows => Some (map (fun r => (rw_writer r, rw_observer r, rw_status r, rw_latency r)) rows)
                    | Raise _ => None
                    end
  | _ => None
  end.

Lemma toy_result : (toy_run toy_schedule (init 0) ≫= toy_rows) = Some [(0, 1, "ok", Some (-10)); (1, 0, "timeout", None)].
Proof. vm_compute. reflexivity. Qed.

Lemma toy_run_reachable acts s : toy_run acts (init 0) = Some s → toy_reachable s.
Proof. apply run_reachable. Qed.

Lemma toy_finished : ∃ s, toy_reachable s ∧ toy_rows s = Some [(0, 1, "ok", Some (-10)); (1, 0, "timeout", None)].
Proof.
  destruct (proj1 (bind_Some _ _ _) toy_result) as (s & E & H). exists s. split; [exact (toy_run_reachable _ _ E)|exact H].
Qed.

(** An observer reads its clock before it asks for the table, so a name registered
    while the question is under way is seen before it was written: there is a run
    with a latency of minus ten nanoseconds. *)
Theorem latency_negative : ∃ s out rows, toy_reachable s ∧ net_pc s = Finished out ∧ aggregate_cell out = Ok rows ∧
  map (fun r => (rw_writer r, rw_observer r, rw_status r, rw_latency r)) rows = [(0, 1, "ok", Some (-10)); (1, 0, "timeout", None)].
Proof.
  destruct toy_finished as (s & Hr & H). unfold toy_rows in H. repeat (case_match; try discriminate). eexists s, _, _. by simplify_eq.
Qed.

