(* ===== verification/OtelaCli.v ===== *)
(** * The command line: settings, session, network and wallet

    Models [contrib/cli/src/otela_cli]: [core/config.py] (the configuration file),
    [commands/auth/cli.py] (login, logout, whoami and the settings),
    [commands/network/cli.py] (the nodes and the health of the network) and
    [commands/wallet/cli.py] (balances and transfers).

    The state is the configuration file and what the console shows.  Parameters: the
    home directory, what becomes of a write, the wallet files with their key pairs,
    the answers of the network's RPC and of Solana, and the texts of [repr] and of
    the formatted floats.  Blank lines are left out of the console. *)

From Stdlib Require Import QArith Ascii.
From stdpp Require Import gmap.
From S2P Require Import Prelude PyFloat PyStr PyVal.

#[local] Open Scope string_scope.
#[local] Open Scope list_scope.
#[local] Open Scope Z_scope.

(** ** State *)

(** A line of text, or a table with its title and rows. *)
Inductive shown := Line (text : string) | Grid (title : string) (rows : list (list pyval)).

Record Cli := mkCli {
  (** [None]: no file.  Otherwise the entries that [json.load] and [dict.update] make
      of it, or the exception one of them raises. *)
  config_file : option (res (dict pyval));
  console : list shown;
}.

Definition display (x : shown) : M Cli unit := modify (fun s => mkCli (config_file s) (console s ++ [x])).
Definition say (line : string) : M Cli unit := display (Line line).
Definition Exit (code : Z) : exn := OtherException ("Exit(" +:+ str_of_int code +:+ ")").
Definition dq : string := String (ascii_of_nat 34) "".

(** What becomes of opening and writing a file. *)
Inductive write := Written | NotOpened (e : exn) | Truncated (e : exn).

(** [s.rstrip(c)] of one character *)
Fixpoint rstrip_char (c : ascii) (s : string) : string :=
  match s with
  | EmptyString => EmptyString
  | String x s' =>
      match rstrip_char c s' with
      | EmptyString => if bool_decide (x = c) then EmptyString else String x EmptyString
      | r => String x r
      end
  end.

Section Commands.
Context (home : string) (repr : pyval → string) (str_of_exn : exn → string) (outcome : write).

(** ** core/config.py *)

Definition DEFAULT_CONFIG : dict pyval :=
  [("rpc_url", VStr "http://140.238.223.116:8092");
   ("solana_rpc_url", VStr "https://api.devnet.solana.com");
   ("wallet_path", VStr (home +:+ "/.config/solana/id.json"));
   ("session_pubkey", VNone);
   ("opentela_token_mint", VStr "xTRCFBHAfjepfKNStvWQ7xmHwFS7aJ85oufa1BoXedL");
   ("default_cluster", VStr "default")].

Definition load_config : M Cli (dict pyval) := gets (fun s =>
  match config_file s with
  | None => DEFAULT_CONFIG
  | Some (Ok data) => dict_update DEFAULT_CONFIG data
  | Some (Raise _) => DEFAULT_CONFIG
  end).

(** A write that stops half way leaves text that is not JSON. *)
Definition save_config (config : dict pyval) : M Cli unit :=
  match outcome with
  | Written => modify (fun s => mkCli (Some (Ok config)) (console s))
  | NotOpened e => raise e
  | Truncated e => modify (fun s => mkCli (Some (Raise (ValueError "JSONDecodeError"))) (console s)) ;; raise e
  end.

Definition get_or_none (config : dict pyval) (k : string) : pyval := dict_get_default config k VNone.

(** ** commands/auth/cli.py *)

Section Auth.
Context {Keypair : Type} (pubkey : Keypair → string) (sign_message : Keypair → string → string).
(** [str(Path(p).expanduser())], and the file at a path: [None] when there is none,
    otherwise the key pair in it or the exception of reading it. *)
Context (expanduser : string → res string) (wallet_file : string → option (res Keypair)) (now : Z).

Definition login_payload (k : Keypair) : string :=
  "{" +:+ dq +:+ "action" +:+ dq +:+ ":" +:+ dq +:+ "cli_login" +:+ dq +:+ "," +:+
  dq +:+ "wallet_pubkey" +:+ dq +:+ ":" +:+ dq +:+ pubkey k +:+ dq +:+ "," +:+
  dq +:+ "timestamp" +:+ dq +:+ ":" +:+ str_of_int now +:+ "}".

(** [Path(p).expanduser()] *)
Definition path_of (p : pyval) : res string :=
  match p with VStr s => expanduser s | _ => Raise (TypeError "expected str, bytes or os.PathLike object") end.

Definition login (keypair_path : option string) : M Cli unit :=
  config ← load_config;
  let path_to_use :=
    match keypair_path with
    | Some p => if bool_decide (p = "") then get_or_none config "wallet_path" else VStr p
    | None => get_or_none config "wallet_path"
    end in
  file ← lift (path_of path_to_use);
  match wallet_file file with
  | None =>
      say ("[red]Error: Wallet file not found at " +:+ file +:+ "[/red]") ;;
      say "Please provide a valid keypair file, or generate one using: [bold]solana-keygen new[/bold]" ;;
      raise (Exit 1)
  | Some (Raise e) =>
      say ("[red]Failed to load keypair from " +:+ file +:+ ": " +:+ str_of_exn e +:+ "[/red]") ;;
      raise (Exit 1)
  | Some (Ok keypair) =>
      let signature := sign_message keypair (login_payload keypair) in
      let config := dict_set config "wallet_path" (VStr file) in
      let config := dict_set config "session_pubkey" (VStr (pubkey keypair)) in
      save_config config ;;
      say "[green]Successfully logged in to OpenTela network![/green]" ;;
      say ("Active Identity: [bold]" +:+ pubkey keypair +:+ "[/bold]") ;;
      say ("Signature generated: [dim]" +:+ signature +:+ "[/dim]")
  end.

Definition logout : M Cli unit :=
  config ← load_config;
  if truthy (get_or_none config "session_pubkey") then
    save_config (dict_set config "session_pubkey" VNone) ;;
    say "[yellow]Logged out successfully.[/yellow]"
  else say "[yellow]You are not currently logged in.[/yellow]".

Definition whoami : M Cli unit :=
  config ← load_config;
  let pk := get_or_none config "session_pubkey" in
  if truthy pk then
    say "[green]Authenticated[/green]" ;;
    say ("Identity: [bold]" +:+ show repr pk +:+ "[/bold]") ;;
    say ("Wallet Path: " +:+ show repr (get_or_none config "wallet_path")) ;;
    say ("Current RPC: " +:+ show repr (get_or_none config "rpc_url")) ;;
    say ("Default Cluster: " +:+ show repr (get_or_none config "default_cluster"))
  else say "[red]Not authenticated. Please run 'otela-cli auth login'.[/red]".

Definition config_set (k v : string) : M Cli unit :=
  config ← load_config;
  save_config (dict_set config k (VStr v)) ;;
  say ("[green]Set config[/green]: " +:+ k +:+ " = " +:+ v).

Definition config_get (k : string) : M Cli unit :=
  config ← load_config;
  match dict_get config k with
  | Some v => say (k +:+ ": " +:+ show repr v)
  | None => say ("[red]Configuration key '" +:+ k +:+ "' not found.[/red]")
  end.

(** The commands of the group, and a user's session: one command after another,
    whatever each of them raises. *)
Inductive auth_command := Login (keypair_path : option string) | Logout | Whoami | ConfigSet (k v : string) | ConfigGet (k : string).
Definition run_auth (c : auth_command) : M Cli unit :=
  match c with
  | Login p => login p
  | Logout => logout
  | Whoami => whoami
  | ConfigSet k v => config_set k v
  | ConfigGet k => config_get k
  end.
Fixpoint run_session (l : list auth_command) (s : Cli) : Cli :=
  match l with [] => s | c :: l' => run_session l' (fst (run_auth c s)) end.
End Auth.

(** ** commands/network/cli.py *)

Record NetResponse := mkNetResponse { status_code : Z; json : res pyval }.
(** [response.raise_for_status()] *)
Definition raise_unless_2xx (r : NetResponse) : res unit :=
  if (200 <=? status_code r) && (status_code r <? 300) then Ok tt else Raise (HTTPException (status_code r) "HTTPStatusError").

Section Network.
(** An exchange with the RPC, which of its exceptions are [httpx.RequestError]s, and
    what a table can show. *)
Context (http_get : string → res NetResponse) (request_error : exn → bool) (renderable : pyval → bool).

Definition FALLBACK_RPC : string := "http://140.238.223.116:8092".
Definition rpc_endpoint (config : dict pyval) : res string :=
  match dict_get_default config "rpc_url" (VStr FALLBACK_RPC) with
  | VStr u =>
      let rpc_url := rstrip_char "/"%char u in
      Ok (if contains "api.opentela.network" rpc_url then FALLBACK_RPC else rpc_url)
  | _ => Raise (AttributeError "rstrip")
  end.

Definition fetch (url : string) : res pyval :=
  response ← http_get url; raise_unless_2xx response ;; json response.

Definition add_row (rows : list (list pyval)) (row : list pyval) : res (list (list pyval)) :=
  if forallb renderable row then Ok (rows ++ [row]) else Raise (OtherException "NotRenderableError").

Definition status_display (status : string) : string :=
  if bool_decide (lower status = "connected") then "[green]" +:+ status +:+ "[/green]"
  else if bool_decide (lower status = "notconnected") then "[red]" +:+ status +:+ "[/red]"
  else "[yellow]" +:+ status +:+ "[/yellow]".

Definition node_row (rows : list (list pyval)) (peer : pyval) : res (list (list pyval)) :=
  peer_id ← py_get peer "id" (VStr "Unknown");
  status ← py_get peer "connectedness" (VStr "Unknown");
  match status with
  | VStr st => add_row rows [peer_id; VStr (status_display st)]
  | _ => Raise (AttributeError "lower")
  end.

Definition list_nodes : M Cli unit :=
  config ← load_config;
  rpc_url ← lift (rpc_endpoint config);
  data ← try_except (lift (fetch (rpc_url +:+ "/v1/dnt/peers_status")))
    (fun e =>
       (if request_error e then say ("[red]Failed to connect to the network RPC:[/red] " +:+ str_of_exn e)
        else say ("[red]Error fetching nodes:[/red] " +:+ str_of_exn e)) ;;
       raise (Exit 1));
  peers ← lift (py_get data "peers" (VList []));
  if negb (truthy peers) then say "[yellow]No nodes found on the network.[/yellow]"
  else
    l ← lift (py_list peers);
    rows ← lift (foldR node_row [] l);
    display (Grid "OpenTela Network Nodes" rows) ;;
    say ("Total Nodes: [bold]" +:+ str_of_int (Z.of_nat (length l)) +:+ "[/bold]").

(** Only the exceptions of [httpx.RequestError] are handled. *)
Definition info : M Cli unit :=
  config ← load_config;
  rpc_url ← lift (rpc_endpoint config);
  say ("Connecting to RPC: [cyan]" +:+ rpc_url +:+ "[/cyan]...") ;;
  '(health_status, stats_data) ←
    try_except
      (health ← lift (fetch (rpc_url +:+ "/v1/health"));
       health_status ← lift (py_get health "status" (VStr "unknown"));
       stats_data ← lift (fetch (rpc_url +:+ "/v1/dnt/stats"));
       mret (health_status, stats_data))
      (fun e =>
         if request_error e then
           say ("[red]Failed to connect to the network RPC:[/red] " +:+ str_of_exn e) ;; raise (Exit 1)
         else raise e);
  let health_color := if is_str "ok" health_status then "green" else "red" in
  rows ← lift (add_row [] [VStr "RPC Endpoint"; VStr rpc_url]);
  health_text ← lift (match health_status with VStr h => Ok (upper h) | _ => Raise (AttributeError "upper") end);
  rows ← lift (add_row rows [VStr "Head Node Health"; VStr ("[" +:+ health_color +:+ "]" +:+ health_text +:+ "[/" +:+ health_color +:+ "]")]);
  rows ← lift (if truthy stats_data then
                 total_peers ← py_get stats_data "total_peers_known" (VInt 0);
                 connected_peers ← py_get stats_data "connected_peers" (VInt 0);
                 rows ← add_row rows [VStr "Total Known Peers"; VStr (show repr total_peers)];
                 add_row rows [VStr "Connected Peers"; VStr (show repr connected_peers)]
               else Ok rows);
  display (Grid "OpenTela Network Info" rows).
End Network.

(** ** commands/wallet/cli.py *)

(** The answer to [get_token_account_balance]: its text, and its value with the
    amount in tokens. *)
Record TokenResp := mkTokenResp { tr_text : string; tr_value : option (option pyfloat) }.

Section Wallet.
Context {Keypair Pubkey Client Ix Hash Tx : Type}.

Record TransferCheckedParams := mkTransfer {
  tp_program_id : Pubkey; tp_source : Pubkey; tp_mint : Pubkey; tp_dest : Pubkey; tp_owner : Pubkey;
  tp_amount : Z; tp_decimals : Z;
}.

(** solders, spl and the Solana client *)
Context (Pubkey_from_string : pyval → res Pubkey) (str_of_pubkey : Pubkey → string) (pubkey_of : Keypair → Pubkey)
        (new_client : pyval → res Client) (get_associated_token_address : Pubkey → Pubkey → Pubkey)
        (get_balance : Client → Pubkey → res Z) (get_token_account_balance : Client → Pubkey → res TokenResp)
        (transfer_checked : TransferCheckedParams → res Ix) (get_latest_blockhash : Client → res Hash)
        (compile_and_sign : Keypair → Ix → Hash → res Tx) (send_transaction : Client → Tx → res string).
(** The file at a path, and a float with a number of decimals. *)
Context (wallet_file : string → option (res Keypair)) (fixed : Z → pyfloat → string).

(** The wallet commands also see the transactions handed to the network. *)
Definition Wallet : Type := Cli * list Tx.
Definition on_cli {A} (m : M Cli A) : M Wallet A := fun '(s, sent) => let '(s', r) := m s in ((s', sent), r).
Definition tell (line : string) : M Wallet unit := on_cli (say line).
Definition send (client : Client) (tx : Tx) : M Wallet string := fun '(s, sent) => ((s, sent ++ [tx]), send_transaction client tx).

Definition get_solana_client (config : dict pyval) : res (Client * pyval) :=
  let rpc_url := dict_get_default config "solana_rpc_url" (VStr "https://api.devnet.solana.com") in
  client ← new_client rpc_url; Ok (client, rpc_url).

Definition ensure_authenticated (config : dict pyval) : M Wallet Pubkey :=
  let pubkey_str := get_or_none config "session_pubkey" in
  if negb (truthy pubkey_str) then
    tell "[red]Error: Not authenticated. Please run 'otela-cli auth login' first.[/red]" ;; raise (Exit 1)
  else lift (Pubkey_from_string pubkey_str).

Definition no_wallet : M Wallet Keypair := tell "[red]Error: Wallet file not found.[/red]" ;; raise (Exit 1).
(** A path is used as it is written: a leading tilde is not expanded. *)
Definition get_keypair (config : dict pyval) : M Wallet Keypair :=
  let wallet_path := get_or_none config "wallet_path" in
  if negb (truthy wallet_path) then no_wallet
  else
    match wallet_path with
    | VStr p =>
        match wallet_file p with
        | None => no_wallet
        | Some (Ok k) => mret k
        | Some (Raise e) => tell ("[red]Error loading wallet: " +:+ str_of_exn e +:+ "[/red]") ;; raise (Exit 1)
        end
    | _ => raise (TypeError "expected str, bytes or os.PathLike object")
    end.

Definition MINT : pyval := VStr "xTRCFBHAfjepfKNStvWQ7xmHwFS7aJ85oufa1BoXedL".

(** [otela_balance] once the tokens have been asked for; the amount may be missing. *)
Definition token_balance (r : TokenResp) : option pyfloat :=
  if contains "error" (tr_text r) then Some fzero
  else match tr_value r with None => Some fzero | Some ui_amount => ui_amount end.

(** [f"{x:.nf}"], where [None] is a value that cannot be formatted *)
Definition format_fixed (n : Z) (x : option pyfloat) : res string :=
  match x with Some f => Ok (fixed n f) | None => Raise (TypeError "unsupported format string passed to NoneType.__format__") end.

(** A handled failure is one of an account that does not exist: the tokens are then
    zero, and SOL is unbound if it is its balance that could not be read. *)
Definition account_missing (e : exn) : bool :=
  contains "could not find account" (lower (str_of_exn e)) || contains "Invalid param" (str_of_exn e).

Definition balance : M Wallet unit :=
  config ← on_cli load_config;
  '(client, rpc_url) ← lift (get_solana_client config);
  pubkey ← ensure_authenticated config;
  let mint_str := dict_get_default config "opentela_token_mint" MINT in
  mint ← lift (Pubkey_from_string mint_str);
  tell ("[dim]Checking balances on " +:+ show repr rpc_url +:+ "...[/dim]") ;;
  let sol_try : res pyfloat := lamports ← get_balance client pubkey; int_truediv lamports 1000000000 in
  let tokens_try : res (option pyfloat) :=
    sol_try ;;
    token_resp ← get_token_account_balance client (get_associated_token_address pubkey mint);
    Ok (token_balance token_resp) in
  otela_balance ← try_except (lift tokens_try)
    (fun e =>
       if account_missing e then mret (Some fzero)
       else tell ("[red]Error fetching balance from Solana RPC:[/red] " +:+ str_of_exn e) ;; raise (Exit 1));
  sol_balance ← lift (match sol_try with Ok b => Ok b | Raise _ => Raise (OtherException "UnboundLocalError: sol_balance") end);
  tokens ← lift (format_fixed 2 otela_balance);
  on_cli (display (Grid ("Wallet Balances: " +:+ str_take 8 (str_of_pubkey pubkey) +:+ "...")
    [[VStr "SOL"; VStr (fixed 4 sol_balance)]; [VStr "OpenTela Token (TELA)"; VStr tokens]])) ;;
  tell ("[dim]Token Mint: " +:+ show repr mint_str +:+ "[/dim]").

(** [int(amount * (10 ** decimals))] *)
Definition raw_amount (amount : pyfloat) : res Z := x ← nmul (NF amount) (NI (10 ^ 9)); nint x.

Definition failure_hint (e : exn) : bool :=
  contains "custom program error" (lower (str_of_exn e)) || contains "insufficient funds" (lower (str_of_exn e)).

(** The checks of the arguments and the instruction, before anything is sent. *)
Definition prepare_transfer (recipient : string) (amount : pyfloat) : M Wallet (Client * Keypair * Ix) :=
  config ← on_cli load_config;
  '(client, _) ← lift (get_solana_client config);
  sender_keypair ← get_keypair config;
  let sender_pubkey := pubkey_of sender_keypair in
  recipient_pubkey ← try_except (lift (Pubkey_from_string (VStr recipient)))
    (fun _ => tell ("[red]Error: Invalid recipient address '" +:+ recipient +:+ "'.[/red]") ;; raise (Exit 1));
  mint ← lift (Pubkey_from_string (dict_get_default config "opentela_token_mint" MINT));
  raw ← lift (raw_amount amount);
  tell ("[bold]Preparing transfer of " +:+ show repr (VFloat amount) +:+ " TELA to " +:+ str_take 8 recipient +:+ "...[/bold]") ;;
  program_id ← lift (Pubkey_from_string (VStr "TokenkegQfeZyiNwAJbNbGKPFXCWuBvf9Ss623VQ5DA"));
  ix ← lift (transfer_checked (mkTransfer program_id (get_associated_token_address sender_pubkey mint) mint
                                 (get_associated_token_address recipient_pubkey mint) sender_pubkey raw 9));
  mret (client, sender_keypair, ix).

Definition send_signed (client : Client) (sender_keypair : Keypair) (ix : Ix) : M Wallet string :=
  blockhash ← lift (get_latest_blockhash client);
  tx ← lift (compile_and_sign sender_keypair ix blockhash);
  tell "[dim]Sending transaction to network...[/dim]" ;;
  send client tx.

Definition transfer_failed {A} (e : exn) : M Wallet A :=
  tell ("[red]✗ Transfer failed:[/red] " +:+ str_of_exn e) ;;
  (if failure_hint e then
     tell "[yellow]Hint: You may not have enough tokens, or the recipient might not have an initialized Associated Token Account (ATA).[/yellow]"
   else mret tt) ;;
  raise (Exit 1).

(** The lines shown after a success do not fail, so they are outside the [try]. *)
Definition transfer (recipient : string) (amount : pyfloat) : M Wallet unit :=
  '(client, sender_keypair, ix) ← prepare_transfer recipient amount;
  signature ← try_except (send_signed client sender_keypair ix) transfer_failed;
  tell "[green]✓ Transfer successful![/green]" ;;
  tell ("Signature: [cyan]" +:+ signature +:+ "[/cyan]").
End Wallet.
End Commands.

(** ** The settings a user sees

    The promise of the configuration: a map from names to values that starts as the
    defaults with the file's entries over them, which a login and a setting extend,
    a logout clears of its session and nothing else changes. *)

Abbreviation settings_map := (gmap string pyval).
Definition loaded (home : string) (s : Cli) : dict pyval := match load_config home s with (_, Ok d) => d | _ => [] end.
Definition settings (home : string) (s : Cli) : settings_map := list_to_map (loaded home s).

Section Session.
Context (home : string) (repr : pyval → string) (str_of_exn : exn → string).
Context {Keypair : Type} (pubkey : Keypair → string) (sign_message : Keypair → string → string)
        (expanduser : string → res string) (wallet_file : string → option (res Keypair)) (now : Z).

#[local] Abbreviation run outcome := (run_auth home repr str_of_exn outcome pubkey sign_message expanduser wallet_file now).
#[local] Abbreviation session outcome := (run_session home repr str_of_exn outcome pubkey sign_message expanduser wallet_file now).

Definition chosen_path (m : settings_map) (p : option string) : pyval :=
  let kept := default VNone (m !! "wallet_path") in
  match p with Some q => if bool_decide (q = "") then kept else VStr q | None => kept end.

Definition settings_step (m : settings_map) (c : auth_command) : settings_map :=
  match c with
  | Login p =>
      match path_of expanduser (chosen_path m p) with
      | Ok file =>
          match wallet_file file with
          | Some (Ok k) => <["session_pubkey" := VStr (pubkey k)]> (<["wallet_path" := VStr file]> m)
          | _ => m
          end
      | Raise _ => m
      end
  | Logout => if truthy (default VNone (m !! "session_pubkey")) then <["session_pubkey" := VNone]> m else m
  | ConfigSet k v => <[k := VStr v]> m
  | Whoami | ConfigGet _ => m
  end.

Lemma lookup_dict (d : dict pyval) k : (list_to_map d : settings_map) !! k = dict_get d k.
Proof.
  induction d as [|[k' v] d IH]; simpl; [done|]. destruct (bool_decide_reflect (k = k')) as [->|Hne].
  - by rewrite lookup_insert_eq.
  - by rewrite lookup_insert_ne.
Qed.

Lemma dict_set_map (d : dict pyval) k v : (list_to_map (dict_set d k v) : settings_map) = <[k := v]> (list_to_map d).
Proof.
  apply map_eq. intros k'. rewrite lookup_dict. destruct (decide (k = k')) as [<-|Hne].
  - by rewrite lookup_insert_eq, dict_get_set_eq.
  - by rewrite lookup_insert_ne, dict_get_set_ne, lookup_dict by done.
Qed.

Lemma defaults_NoDup : NoDup (dict_keys (DEFAULT_CONFIG home)).
Proof. by apply (bool_decide_unpack _), I. Qed.

(** What is loaded has no name twice and every default's name. *)
Definition filled (d : dict pyval) : Prop :=
  NoDup (dict_keys d) ∧ ∀ k, is_Some (dict_get (DEFAULT_CONFIG home) k) → is_Some (dict_get d k).

Lemma dict_set_complete d k v : filled d → filled (dict_set d k v).
Proof.
  intros [Hnd Hall]. split; [by apply dict_set_NoDup|]. intros k' Hk'. destruct (decide (k = k')) as [<-|Hne].
  - by rewrite dict_get_set_eq.
  - rewrite dict_get_set_ne by done. auto.
Qed.

Lemma dict_update_complete data d : filled d → filled (dict_update d data).
Proof.
  unfold dict_update. revert d. induction data as [|[k v] data IH]; intros d Hd; simpl; [done|]. by apply IH, dict_set_complete.
Qed.

Lemma loaded_complete s : filled (loaded home s).
Proof.
  assert (filled (DEFAULT_CONFIG home)) as Hdef by (split; [apply defaults_NoDup|done]).
  unfold loaded, load_config, gets. destruct (config_file s) as [[data|e]|]; [by apply dict_update_complete|done..].
Qed.

(** What a complete write of a complete configuration leaves is that configuration. *)
Lemma saved_settings d c : filled d → settings home (mkCli (Some (Ok d)) c) = list_to_map d.
Proof.
  intros [Hnd Hall]. apply map_eq. intros k. unfold settings, loaded, load_config, gets; simpl.
  rewrite !lookup_dict, dict_update_get by done. specialize (Hall k).
  destruct (dict_get d k); [done|]. destruct (dict_get (DEFAULT_CONFIG home) k); [|done]. by destruct Hall as [? [=]].
Qed.

Lemma settings_get s k : default VNone (settings home s !! k) = get_or_none (loaded home s) k.
Proof. unfold settings, get_or_none, dict_get_default. by rewrite lookup_dict. Qed.

Lemma load_config_eq s : load_config home s = (s, Ok (loaded home s)).
Proof. done. Qed.

Lemma auth_step c s : settings home (fst (run Written c s)) = settings_step (settings home s) c.
Proof.
  pose proof (loaded_complete s) as Hc.
  destruct c as [p| | |k v|k]; unfold run_auth, login, logout, whoami, config_set, config_get; erewrite bind_eq by apply load_config_eq; simpl.
  - assert (chosen_path (settings home s) p =
      match p with Some q => if bool_decide (q = "") then get_or_none (loaded home s) "wallet_path" else VStr q
                 | None => get_or_none (loaded home s) "wallet_path" end) as ->
      by (unfold chosen_path; by rewrite settings_get).
    unfold lift, mbind, M_bind. destruct (path_of expanduser _) as [file|e]; [|done]. destruct (wallet_file file) as [[key|e]|]; [|done..].
    change (settings home (mkCli (Some (Ok (dict_set (dict_set (loaded home s) "wallet_path" (VStr file)) "session_pubkey" (VStr (pubkey key))))) (console s))
      = <["session_pubkey":=VStr (pubkey key)]> (<["wallet_path":=VStr file]> (settings home s))).
    rewrite saved_settings by (by repeat apply dict_set_complete). by rewrite !dict_set_map.
  - rewrite settings_get. destruct (truthy _); [|done].
    change (settings home (mkCli (Some (Ok (dict_set (loaded home s) "session_pubkey" VNone))) (console s)) = <["session_pubkey":=VNone]> (settings home s)).
    rewrite saved_settings by (by apply dict_set_complete). by rewrite dict_set_map.
  - by destruct (truthy _).
  - change (settings home (mkCli (Some (Ok (dict_set (loaded home s) k (VStr v)))) (console s)) = <[k:=VStr v]> (settings home s)).
    rewrite saved_settings by (by apply dict_set_complete). by rewrite dict_set_map.
  - by destruct (dict_get _ _).
Qed.

(** C17.  Settings as a user sees them: over any sequence of login, logout, whoami, config-set and config-get whose writes complete, and whatever the commands print or raise, the configuration behaves as a map, in which a login records the wallet and its identity, a logout clears an open session, a setting replaces one entry, and no command changes any other entry. *)
Theorem session_refines l s : settings home (session Written l s) = fold_left settings_step l (settings home s).
Proof. revert s. induction l as [|c l IH]; intros s; simpl; [done|]. by rewrite IH, auth_step. Qed.

(** A write that stops half way silently resets every setting, the session included. *)
Lemma truncated_resets k v s e : settings home (fst (run (Truncated e) (ConfigSet k v) s)) = list_to_map (DEFAULT_CONFIG home).
Proof. done. Qed.
End Session.

(** ** What a transfer sends *)

Section Transfers.
Context (home : string) (repr : pyval → string) (str_of_exn : exn → string).
Context {Keypair Pubkey Client Ix Hash Tx : Type}.
Context (Pubkey_from_string : pyval → res Pubkey) (pubkey_of : Keypair → Pubkey)
        (new_client : pyval → res Client) (get_associated_token_address : Pubkey → Pubkey → Pubkey)
        (transfer_checked : TransferCheckedParams (Pubkey := Pubkey) → res Ix) (get_latest_blockhash : Client → res Hash)
        (compile_and_sign : Keypair → Ix → Hash → res Tx) (send_transaction : Client → Tx → res string)
        (wallet_file : string → option (res Keypair)).

#[local] Abbreviation do_transfer := (transfer home repr str_of_exn Pubkey_from_string pubkey_of new_client get_associated_token_address
  transfer_checked get_latest_blockhash compile_and_sign send_transaction wallet_file).

Lemma keypair_found config s sent st r : get_keypair str_of_exn wallet_file (Tx := Tx) config (s, sent) = (st, r) →
  snd st = sent ∧ config_file (fst st) = config_file s ∧
  ∀ k, r = Ok k → st = (s, sent) ∧ ∃ path, dict_get config "wallet_path" = Some (VStr path) ∧ wallet_file path = Some (Ok k).
Proof.
  unfold get_keypair, get_or_none, dict_get_default. destruct (dict_get config "wallet_path") as [v|] eqn:Hv; simpl.
  2: intros [= <- <-]; done.
  destruct (truthy v); simpl; [|intros [= <- <-]; done].
  destruct v as [| | |path| |]; try (intros [= <- <-]; done).
  destruct (wallet_file path) as [[k|e]|] eqn:Hw; intros [= <- <-]; try done.
  split; [done|]. split; [done|]. intros k' [= <-]. eauto.
Qed.

#[local] Abbreviation prepare := (prepare_transfer home repr str_of_exn Pubkey_from_string pubkey_of new_client get_associated_token_address
  transfer_checked wallet_file (Tx := Tx)).
#[local] Abbreviation sent_by := (snd : Wallet (Tx := Tx) → list Tx).

Lemma tell_keeps line : keeps sent_by (tell line).
Proof. by intros [s sent]. Qed.
#[local] Hint Resolve tell_keeps : keeps.

Lemma keypair_keeps config : keeps sent_by (get_keypair str_of_exn wallet_file config).
Proof.
  unfold get_keypair, no_wallet. destruct (truthy _); simpl; [|auto with keeps]. destruct (get_or_none _ _) as [| | |p| |]; auto with keeps.
  destruct (wallet_file p) as [[k|e]|]; auto with keeps.
Qed.
#[local] Hint Resolve keypair_keeps : keeps.

Lemma prepare_keeps recipient amount : keeps sent_by (prepare recipient amount).
Proof.
  unfold prepare_transfer. apply keeps_bind; [by intros [s sent]|]. intros config. apply keeps_bind; [auto with keeps|]. intros [client url].
  repeat (apply keeps_bind; [auto with keeps|intros ?]). auto with keeps.
Qed.

(** The instruction that is prepared. *)
Definition instructed (s : Cli) (recipient : string) (amount : pyfloat) (k : Keypair) (ix : Ix) : Prop :=
  ∃ path rp mint program raw,
    dict_get (loaded home s) "wallet_path" = Some (VStr path) ∧ wallet_file path = Some (Ok k) ∧
    Pubkey_from_string (VStr recipient) = Ok rp ∧ raw_amount amount = Ok raw ∧
    transfer_checked (mkTransfer program (get_associated_token_address (pubkey_of k) mint) mint
      (get_associated_token_address rp mint) (pubkey_of k) raw 9) = Ok ix.

Lemma lift_run {S A} (r : res A) (s s' : S) x : lift r s = (s', x) → s' = s ∧ r = x.
Proof. by intros [= <- <-]. Qed.

Lemma try_raised {S A} (m : M S A) (h : exn → M S A) s s' a : (∀ e st st' b, h e st ≠ (st', Ok b)) →
  try_except m h s = (s', Ok a) → m s = (s', Ok a).
Proof. unfold try_except. intros Hh. destruct (m s) as [s1 [b|e]]; [done|]. intros H. by apply Hh in H. Qed.

Lemma prepare_ok recipient amount s sent st client k ix :
  prepare recipient amount (s, sent) = (st, Ok (client, k, ix)) → instructed s recipient amount k ix.
Proof.
  unfold prepare_transfer. erewrite bind_eq by (unfold on_cli; rewrite load_config_eq; reflexivity). intros H.
  apply bind_ok in H as (st1 & [c url] & H1 & H). apply lift_run in H1 as [-> _].
  apply bind_ok in H as (st2 & k' & Hk & H). apply keypair_found in Hk as (_ & _ & Hk).
  destruct (Hk k' eq_refl) as (-> & path & Hpath & Hfile). clear Hk.
  apply bind_ok in H as (st3 & rp & Hrp & H). apply try_raised in Hrp; [|by intros e [? ?] st' b [=]]. apply lift_run in Hrp as [-> Hrp].
  apply bind_ok in H as (st4 & mint & Hm & H). apply lift_run in Hm as [-> Hm].
  apply bind_ok in H as (st5 & raw & Hraw & H). apply lift_run in Hraw as [-> Hraw].
  apply bind_ok in H as (st6 & [] & _ & H). apply bind_ok in H as (st7 & program & Hp & H).
  apply bind_ok in H as (st8 & ix' & Hix & H). apply lift_run in Hix as [_ Hix].
  injection H as _ _ <- <-. exists path, rp, mint, program, raw. repeat (split; [assumption|]). exact Hix.
Qed.
#[local] Abbreviation signed := (send_signed get_latest_blockhash compile_and_sign send_transaction).

Lemma signed_once client k ix s sent st r : signed client k ix (s, sent) = (st, r) →
  (snd st = sent ∧ ∃ e, r = Raise e) ∨
  ∃ h tx, snd st = sent ++ [tx] ∧ compile_and_sign k ix h = Ok tx ∧ r = send_transaction client tx.
Proof.
  unfold send_signed. destruct (get_latest_blockhash client) as [h|e]; [|intros [= <- <-]; left; eauto].
  destruct (compile_and_sign k ix h) as [tx|e] eqn:Htx; intros H.
  - right. exists h, tx. unfold lift, mbind, M_bind in H. rewrite Htx in H. injection H as <- <-. done.
  - left. unfold lift, mbind, M_bind in H. rewrite Htx in H. injection H as <- <-. eauto.
Qed.

Lemma failed_keeps e : keeps sent_by (transfer_failed str_of_exn (A := string) e).
Proof.
  unfold transfer_failed. apply keeps_bind; [auto with keeps|]. intros _. apply keeps_bind; [|auto with keeps].
  destruct (failure_hint _ _); auto with keeps.
Qed.

Lemma failed_raises {A} e (st : Wallet (Tx := Tx)) : snd (transfer_failed str_of_exn (A := A) e st) = Raise (Exit 1).
Proof. unfold transfer_failed. destruct st as [s sent]. by destruct (failure_hint _ _). Qed.

(** What a transfer sends: it hands at most one transaction to the network, and only one signed by the key pair of the configured wallet for an instruction that moves the amount, in units of the token, from that wallet's token account to the recipient's; it succeeds exactly when the network accepts that transaction, and a failure before it sends nothing. *)
Theorem transfer_sends recipient amount s sent st r : do_transfer recipient amount (s, sent) = (st, r) →
  (snd st = sent ∧ r ≠ Ok tt) ∨
  ∃ client k ix h tx, snd st = sent ++ [tx] ∧ instructed s recipient amount k ix ∧ compile_and_sign k ix h = Ok tx ∧
    (r = Ok tt ↔ res_ok (send_transaction client tx) = true).
Proof.
  unfold transfer. unfold mbind at 1, M_bind at 1. pose proof (prepare_keeps recipient amount (s, sent)) as Hkeep.
  destruct (prepare recipient amount (s, sent)) as [st1 [[[client k] ix]|e]] eqn:Hp; [|intros [= <- <-]; by left].
  apply prepare_ok in Hp. destruct st1 as [s1 sent1]. simpl in Hkeep. subst sent1.
  unfold mbind at 1, M_bind at 1, try_except. destruct (signed client k ix (s1, sent)) as [st2 r2] eqn:Hs.
  apply signed_once in Hs as [[Hst (e & ->)]|(h & tx & Hst & Htx & ->)].
  - pose proof (failed_keeps e st2) as Hf. pose proof (failed_raises (A := string) e st2) as Hr.
    destruct (transfer_failed _ _ _) as [st3 r3]. simpl in Hf, Hr. subst r3. intros [= <- <-]. left. by rewrite Hf.
  - intros H. right. exists client, k, ix, h, tx. destruct st2 as [s2 sent2]. simpl in Hst. subst sent2.
    destruct (send_transaction client tx) as [sg|e].
    + injection H as <- <-. done.
    + pose proof (failed_keeps e (s2, sent ++ [tx])) as Hf. pose proof (failed_raises (A := string) e (s2, sent ++ [tx])) as Hr.
      destruct (transfer_failed _ _ _) as [st3 r3]. simpl in Hf, Hr. subst r3. injection H as <- <-. by rewrite Hf.
Qed.
End Transfers.

Section TransferExample.
Definition demo_files (p : string) : option (res unit) := if bool_decide (p = "/home/u/.config/solana/id.json") then Some (Ok tt) else None.
Definition demo_key (v : pyval) : res string := match v with VStr s => Ok s | _ => Raise (TypeError "") end.
Definition demo_transfer : M (Wallet (Tx := Z)) unit :=
  transfer "/home/u" (fun _ => "") (fun _ => "") demo_key (fun _ : unit => "me") (fun _ => Ok tt) (fun a _ => a)
    (fun p => Ok (tp_amount p)) (fun _ => Ok tt) (fun _ ix _ => Ok ix) (fun _ _ => Ok "signature") demo_files "you" (flit 5 2).

Lemma demo_returns : demo_transfer (mkCli None [], []) = (fst (demo_transfer (mkCli None [], [])), Ok tt).
Proof. vm_compute. reflexivity. Qed.

Lemma transfer_sends_witness : ∃ st,
  demo_transfer (mkCli None [], []) = (st, Ok tt) ∧
  ((snd st = [] ∧ Ok tt ≠ Ok tt) ∨
   ∃ (client k : unit) ix (h : unit) tx, snd st = [] ++ [tx] ∧
     instructed "/home/u" demo_key (fun _ : unit => "me") (fun a _ => a) (fun p => Ok (tp_amount p)) demo_files (mkCli None []) "you" (flit 5 2) k ix ∧
     Ok ix = Ok tx ∧ (Ok tt = Ok tt ↔ res_ok (Ok "signature") = true)).
Proof.
  exists (fst (demo_transfer (mkCli None [], []))). split; [exact demo_returns|].
  exact (transfer_sends "/home/u" (fun _ => "") (fun _ => "") demo_key (fun _ : unit => "me") (fun _ => Ok tt) (fun a _ => a)
    (fun p => Ok (tp_amount p)) (fun _ => Ok tt) (fun _ ix _ => Ok ix) (fun _ _ => Ok "signature") demo_files "you" (flit 5 2)
    (mkCli None []) [] _ (Ok tt) demo_returns).
Defined.
End TransferExample.

(** The product is a float and is cut, not rounded: 8.2 tokens are sent as
    8.199999999, and 1.001 as 1.000999999. *)
Example transfer_cuts : raw_amount (flit 82 10) = Ok 8199999999 ∧ raw_amount (flit 1001 1000) = Ok 1000999999.
Proof. vm_compute. done. Qed.

(** A wallet path that login accepts because it expands the tilde is not found by a
    transfer, which does not. *)
Example tilde_not_expanded :
  let files := fun p => if bool_decide (p = "/home/u/id.json") then Some (Ok tt) else None in
  let s0 := mkCli (Some (Ok [("wallet_path", VStr "~/id.json")])) [] in
  snd (login "/home/u" (fun _ => "") Written (fun _ => "pk") (fun _ _ => "") (fun _ => Ok "/home/u/id.json") files 0 None s0) = Ok tt ∧
  snd (get_keypair (fun _ => "") files (Tx := unit) (loaded "/home/u" s0) (s0, [])) = Raise (Exit 1).
Proof. vm_compute. done. Qed.
